(* ===== verification/_CoqProject ===== *)
-Q . S2P
Prelude.v
GoStrings.v
GoStringLemmas.v
GoMonad.v
Types.v
Effects.v
Sim.v
GoStore.v
DeepCopy.v
PCIDeviceApi.v
Iommu.v
DevicePlugins.v
PCIPlugin.v
PluginSession.v
VGPUPlugin.v
USBHelper.v
USBPlugin.v
PluginServer.v
USBSession.v
USBStream.v
ClaimController.v
ClaimTheorems.v
Passthrough.v
Common.v
Mig.v
Executors.v
SimGPU.v
GPUHelper.v
GPUController.v
VGPUController.v
VGPUClaims.v
MigController.v
NicHelper.v
PCIDeviceController.v
SRIOV.v
UsbIds.v
USBController.v
USBWatch.v
NodeCleanup.v
VirtualMachine.v
Allocation.v
WebhookVM.v
Webhook.v
Indexers.v
Admission.v
Crds.v
Nodes.v
System.v
Guarded.v
Naming.v
Cluster.v
ClaimSafety.v
