(* ===== verification/Prelude.v ===== *)
(** * The PCI devices controller of Harvester: a verification library

    ** The program

    On every node of a cluster the program scans the PCI and USB devices, keeps an
    object of the Kubernetes API for each, and lets users claim devices for
    virtual machines.  A claimed PCI device is bound to the vfio-pci driver, its
    resource is permitted in the KubeVirt object, and a device plugin offers it to
    the kubelet.  While a VM runs, a controller records in an annotation which
    devices it was given; at its shutdown the VM's specification gets their names.
    Admission webhooks check claims and VMs and add to a VM the devices that share
    an IOMMU group with those it asks for.

    ** How the library models it

    Go functions become functions in a state monad ([GoMonad]): an outcome is a
    value, an error or a run-time panic, and the state is the memory of the
    component ([mem]) with everything outside the process ([world]).  Calls of the
    API server, of informer caches, of the file system, of commands and of
    hardware libraries are the constructors of [Effects.Eff]; a component is
    written against the interface [Effects.World] and holds in every world.
    [Logged] turns a world into one that records calls and answers, which the
    theorems about order, safety and completeness speak of; [Answers] is the
    interface of caches with fixed contents, against which the admission theorems
    are proved.  [Sim] is a concrete world with a store of objects and the bind and
    unbind files of sysfs, in which every witness runs.  Constants and pure
    functions of other modules (KubeVirt's names, JSON encodings) are the class
    [External]; the order of a range over a map is the class [MapOrder].

    Values are as the code has them: machine integers are [Z] with the width of
    their parser or of their sums written out ([GoStrings.ParseInt],
    [Webhook.int_add]); strings are byte sequences; maps are [gmap]s; a slice whose
    nil value is compared is an [option] of a list.  Objects that are shared and
    written in place are memory: the map of labels of a PCI pass
    ([PCIDeviceController]), the informer cache of VMs ([VirtualMachine]), the slice
    that [reconcileKubevirtCR] shifts.

    ** The files, and what they prove

    - [Prelude], [GoStrings], [GoStringLemmas], [GoMonad], [Types], [Effects], [Sim]:
      slices, strings, the monad with its relational reasoning ([Steps], [emits],
      [balanced]), the custom resources of pkg/apis, effects, a concrete world.
    - [GoStore], [DeepCopy] (pkg/apis/.../zz_generated_deepcopy.go): a memory of slices,
      maps and pointers, with frame lemmas; the deep copy of every type of the API
      reads as its original and shares nothing with it, so that a later write to
      one is not seen through the other.
    - [PCIDeviceApi] (pkg/apis/.../pcidevice.go): names, descriptions and resource
      names of PCI devices: the shape of a resource name and the limit of its
      socket.
    - [Iommu] (pkg/iommu): the map from address to IOMMU group, and back.
    - [DevicePlugins], [PCIPlugin], [VGPUPlugin], [USBHelper], [USBPlugin]
      (pkg/deviceplugins): the devices that a plugin advertises through every
      interleaving of additions, removals and health messages; what Allocate
      answers; the scan of USB devices.  [PluginSession]: the states of
      ListAndWatch against the stopping of the plugin, as a step relation.
      [PluginServer]: the start of a server, its registration with the kubelet and
      the set-up of the health check, in their order.  [USBSession]: the goroutines
      that the USB plugin's starts and stops spawn and end, as a step relation, with
      the termination of a stopped plugin.  [USBStream]: the streams of the USB
      plugin's ListAndWatch with the health check and the channels they share: what a
      stream is told, that it ends, and when a channel is closed twice.
    - [ClaimController] with [ClaimTheorems] (pkg/controller/pcideviceclaim): both
      handlers, driver binding, the lock, permitted devices, orphans.  [Passthrough]:
      the same operations over a sysfs, an interface ([Passthrough.Sysfs]) whose laws
      say what a write to the bind files does: enabling and disabling passthrough
      is a round trip on the drivers, and orphans are released.
    - [Common] (pkg/util/common), [NicHelper] (pkg/util/nichelper),
      [PCIDeviceController] (pkg/controller/pcidevice), [SRIOV]
      (pkg/controller/sriovdevice, pkg/controller/indexer.go): which objects a pass
      creates, updates and deletes.
    - [Mig], [GPUHelper] (pkg/util/gpuhelper): the commands of nvidia-smi, the tables
      it prints and their reading, the creation and deletion of instances against
      the interface [Mig.Smi] of the tool; the GPUs and vGPUs of the hardware library
      and sysfs.  [SimGPU] is a simulated nvidia-smi.
    - [Executors] (pkg/util/executor): what the local and the remote executor run.
    - [GPUController], [VGPUController], [MigController] (pkg/controller/gpudevice): the
      objects of GPUs and vGPUs and their configuration; the MIG controller refines
      an abstract machine on the instances of its GPU.  [VGPUClaims]: the claims that
      the vGPU controller submits, handled by the claim controller.
    - [UsbIds] (pkg/util/gousb/usbid): the parser of the embedded list, with its
      shared mutable entries, refines a pure one and reads back printed lists.
    - [USBController] (pkg/controller/usbdevice): the comparison of scan and store,
      claims of USB devices.  [USBWatch]: the goroutines that watch the files and
      ask for passes, as a step relation: every change leads to a walk over the devices,
      which may fail.
    - [Nodes] (pkg/controller/nodes): a pass over the node: the passes of the other
      controllers composed in their order, each in its own memory.
    - [NodeCleanup] (pkg/controller/nodecleanup): what the removal of a node deletes
      and that it leaves nothing.
    - [VirtualMachine] (pkg/controller/virtualmachine): the allocation annotation,
      the names at shutdown, and what a refused update leads to.  [Allocation] puts
      the plugins and this controller together: from the devices that the kubelet
      asks for, through the pod's environment, to the names in the VM's specification.
    - [WebhookVM], [Webhook] (pkg/webhook): the mutator of VMs with its JSON patches,
      and exactly what each validator lets through.  [Indexers] (pkg/webhook/indexer.go,
      pkg/controller/indexer.go): the index functions, the interface [Indexers.Indexed] of a
      cache that was given them, and the validators over such a cache: which index
      functions can fail, when a claim and when a VM is admitted in terms of the cluster's objects.
      [Admission] (pkg/webhook/server.go): the rules each validator registers, the
      routing of a request, the configurations written at start-up: a request is
      reviewed by the check the code has for it, and no other is sent to the webhook.
    - [Crds] (pkg/crd, pkg/apis): the custom resource definitions, the schemas of the
      struct tags, the JSON of stored objects: every printed column names a field of
      its type; a stored object is read back.
    - [System] (pkg/controller/setup.go and the Register functions): the callbacks that
      the process of a node registers for the changes and removals of objects, in
      their order: they leave the objects of other nodes alone, but for the one that follows GPUs
      with MIG configurations and for instances that run without devices, and all but
      one do nothing when a deletion is reported to them.
    - [Guarded], [Naming], [Cluster]: a program logic for what handlers send and
      receive, its rules applied to every callback and to the webhook's mutator, and
      the processes of all nodes, the leader's clean-up, the webhook and everybody
      else around one API server, as a step relation.  What others write is not
      restricted: the identities that they gave to objects are a set of facts
      ([Guarded.Others]), and in every reachable state each object has an identity of the
      program's making, named after the device it describes, or one of those facts.
      [ClaimSafety]: a logic of what a handler may do to the devices it was given; in any
      state the callbacks of a claim touch the device of the claim's first owner and no
      other, which is the one that the claim asks for when both are named as the program names
      them.

    Each definition has the name of the Go function it translates; a part of a
    function that has a name of its own here says so in its comment.  Theorems
    state what the code does, in the cases too where that is not what it means
    to do.

    ** Bounds and fuel

    Recursion is structural except for [trimResourceNameIfNeeded], which removes
    at least one character per call: its fuel is the length of the name
    ([PCIDeviceApi.trim_fuel]), and it is proved that more changes nothing.
    Hexadecimal printing takes sixteen digits, enough for 64 bits.

    ** Not modelled

    The flags and factories of the entry point, the clients and caches the webhook
    builds (pkg/webhook/client.go), and generated code (clients, informers, controllers,
    constructors, the text of the embedded list of USB vendors, which is an argument):
    glue and data without decisions; the status and generating handlers of
    pkg/generated are registered by no part of the program.  Test support.  What
    other modules supply is a parameter: the API server's plural names and defaults,
    the copies of Kubernetes' metadata, the registration calls of wrangler and
    lasso, the tool nvidia-smi, the kernel behind sysfs.
    Connections, servers, commands and watchers themselves: each call
    on them is an effect.  Log output.  Error values keep their class (not found,
    already exists, ...) and the constant part of their text. *)

From stdpp Require Export base gmap sets list strings pretty.
From Stdlib Require Export Lia ZArith.

(** ** Hint databases

    [pcidev] carries the resolution hints of the development (membership,
    map lookups, invariant preservation); [pcidev_rw] its rewrite rules. *)
Create HintDb pcidev discriminated.
Create Rewrite HintDb pcidev_rw.

(** ** Notations *)
Declare Scope go_scope.
Delimit Scope go_scope with go.

(** Go's string equality as a boolean test. *)
Notation "x ==s y" := (bool_decide (x =@{string} y))
  (at level 70, no associativity) : go_scope.
Notation "x !=s y" := (negb (bool_decide (x =@{string} y)))
  (at level 70, no associativity) : go_scope.
Open Scope go_scope.

(** ** Tactics *)

(** Split every boolean test of the goal and the context that is decided by
    a proposition, substituting the equations it yields. *)
Ltac case_bool :=
  repeat match goal with
  | H : context [bool_decide ?P] |- _ =>
      let E := fresh "Hdec" in destruct (decide P) as [E|E];
      [ rewrite (bool_decide_eq_true_2 P E) in *
      | rewrite (bool_decide_eq_false_2 P E) in * ]; simpl in *
  | |- context [bool_decide ?P] =>
      let E := fresh "Hdec" in destruct (decide P) as [E|E];
      [ rewrite (bool_decide_eq_true_2 P E) in *
      | rewrite (bool_decide_eq_false_2 P E) in * ]; simpl in *
  end.

(** Destruct the scrutinee of the innermost [match] of the goal. *)
Ltac case_goal :=
  match goal with
  | |- context [match ?x with _ => _ end] =>
      lazymatch x with
      | context [match _ with _ => _ end] => fail
      | _ => let E := fresh "E" in destruct x eqn:E
      end
  end.

(** ** Slices as Go manipulates them *)
Section Slices.
Context {A : Type}.
Implicit Types (l : list A) (P : A -> bool).

(** [for i, v := range l { if P(v) { l = append(l[:i], l[i+1:]...); break } }]:
    the slice without its first element that satisfies [P]. *)
Fixpoint remove_first P l : list A :=
  match l with
  | [] => []
  | x :: l' => if P x then l' else x :: remove_first P l'
  end.

(** The index of the first element that satisfies [P]. *)
Fixpoint find_index P l : option nat :=
  match l with
  | [] => None
  | x :: l' => if P x then Some 0 else S <$> find_index P l'
  end.

Lemma find_index_Some P l i :
  find_index P l = Some i ->
  exists x, l !! i = Some x /\ P x = true /\ Forall (fun y => P y = false) (take i l).
Proof.
  revert i. induction l as [|x l IH]; intros i; simpl; [done|].
  destruct (P x) eqn:Hx.
  - intros [= <-]. exists x. by repeat split; [..|constructor].
  - intros Hi. destruct (find_index P l) as [j|] eqn:Hj; simpl in Hi; [|done].
    injection Hi as <-. destruct (IH j eq_refl) as (y & Hy & HPy & Hall).
    exists y. simpl. repeat split; [done..|]. by constructor.
Qed.

Lemma find_index_None P l :
  find_index P l = None <-> Forall (fun y => P y = false) l.
Proof.
  induction l as [|x l IH]; simpl; [by split|].
  rewrite Forall_cons. destruct (P x); simpl.
  - split; [done|]. by intros [? _].
  - rewrite fmap_None, IH. tauto.
Qed.

Lemma remove_first_find_index P l i :
  find_index P l = Some i -> remove_first P l = take i l ++ drop (S i) l.
Proof.
  revert i. induction l as [|x l IH]; intros i; simpl; [done|].
  destruct (P x) eqn:Hx; [by intros [= <-]|].
  destruct (find_index P l) as [j|] eqn:Hj; simpl; [|done].
  intros [= <-]. simpl. f_equal. by rewrite (IH j).
Qed.

Lemma remove_first_none P l :
  Forall (fun y => P y = false) l -> remove_first P l = l.
Proof.
  induction 1 as [|x l Hx _ IH]; simpl; [done|]. by rewrite Hx, IH.
Qed.

Lemma elem_of_remove_first P l x :
  x ∈ remove_first P l -> x ∈ l.
Proof.
  induction l as [|y l IH]; simpl; [done|].
  destruct (P y); rewrite !elem_of_cons; tauto.
Qed.

Lemma elem_of_remove_first_ne P l x :
  P x = false -> x ∈ remove_first P l <-> x ∈ l.
Proof.
  intros Hx. split; [apply elem_of_remove_first|].
  induction l as [|y l IH]; simpl; [done|].
  destruct (P y) eqn:Hy; rewrite !elem_of_cons; [|tauto].
  intros [->|?]; [congruence|done].
Qed.
End Slices.

#[export] Hint Resolve elem_of_remove_first : pcidev.

(** [slices.Contains] / the repository's [containsString]: a linear search. *)
Definition slices_Contains {A} `{EqDecision A} (l : list A) (x : A) : bool :=
  existsb (fun v => bool_decide (v = x)) l.

Lemma slices_Contains_spec {A} `{EqDecision A} (l : list A) x :
  slices_Contains l x = true <-> x ∈ l.
Proof.
  unfold slices_Contains. rewrite existsb_exists. split.
  - intros (y & Hy & Heq). apply bool_decide_eq_true in Heq as ->.
    by apply list_elem_of_In.
  - intros Hx. exists x. split; [by apply list_elem_of_In|].
    by apply bool_decide_eq_true.
Qed.

Lemma slices_Contains_false {A} `{EqDecision A} (l : list A) x :
  slices_Contains l x = false <-> x ∉ l.
Proof.
  rewrite <- slices_Contains_spec. destruct (slices_Contains l x); intuition congruence.
Qed.

(** [slices.Compact]: drop every element equal to its predecessor. *)
Fixpoint slices_Compact {A} `{EqDecision A} (l : list A) : list A :=
  match l with
  | x :: (y :: _) as l' =>
      if bool_decide (x = y) then slices_Compact l' else x :: slices_Compact l'
  | _ => l
  end.

Lemma elem_of_slices_Compact {A} `{EqDecision A} (l : list A) x :
  x ∈ slices_Compact l <-> x ∈ l.
Proof.
  induction l as [|a [|b l] IH]; [done..|]. simpl slices_Compact.
  case_bool_decide as Hab; simplify_eq; rewrite ?elem_of_cons in *;
    rewrite IH; tauto.
Qed.

Lemma slices_Compact_NoDup {A} `{EqDecision A} (l : list A) : NoDup l -> slices_Compact l = l.
Proof.
  induction l as [|a [|b l] IH]; [done..|]. intros Hnd. apply NoDup_cons in Hnd as [Ha Hnd].
  simpl slices_Compact. rewrite bool_decide_eq_false_2.
  - f_equal. by apply IH.
  - intros ->. apply Ha. left.
Qed.

(** ** Maps as Go folds over them: a [range] over a slice that writes a map *)
Section MapFold.
Context {A V : Type}.
Implicit Types (key : A -> string) (val : A -> V).

Definition index_by key val (l : list A) : gmap string V :=
  fold_left (fun m x => <[key x := val x]> m) l ∅.

Lemma fold_left_insert_lookup key val l (m : gmap string V) (k : string) :
  fold_left (fun m x => <[key x := val x]> m) l m !! k =
  match List.find (fun x => bool_decide (key x = k)) (rev l) with
  | Some x => Some (val x)
  | None => m !! k
  end.
Proof.
  revert m. induction l as [|x l IH] using rev_ind; intros m; simpl; [done|].
  rewrite fold_left_app, rev_app_distr. simpl.
  case_bool_decide as Hk; simplify_map_eq; [done|]. by rewrite IH.
Qed.

(** The last element with the key wins, as in a Go [range] loop. *)
Lemma index_by_lookup key val l (k : string) :
  index_by key val l !! k =
  val <$> List.find (fun x => bool_decide (key x = k)) (rev l).
Proof.
  unfold index_by. rewrite fold_left_insert_lookup, lookup_empty.
  by destruct (List.find _ _).
Qed.

Lemma index_by_Some key val l (k : string) v :
  index_by key val l !! k = Some v -> exists x, x ∈ l /\ key x = k /\ val x = v.
Proof.
  rewrite index_by_lookup. destruct (List.find _ _) as [x|] eqn:Hf; [|done].
  apply List.find_some in Hf as [Hin Hk]. apply bool_decide_eq_true in Hk.
  intros [= <-]. exists x. split; [|done].
  apply list_elem_of_In. by apply in_rev.
Qed.

Lemma index_by_is_Some key val l (k : string) :
  is_Some (index_by key val l !! k) <-> k ∈ key <$> l.
Proof.
  rewrite index_by_lookup, fmap_is_Some, list_elem_of_fmap. split.
  - intros [x Hf]. apply List.find_some in Hf as [Hin Hk].
    apply bool_decide_eq_true in Hk. exists x. split; [done|].
    apply list_elem_of_In. by apply in_rev.
  - intros (x & -> & Hx). apply list_elem_of_In, in_rev in Hx.
    destruct (List.find _ _) as [y|] eqn:Hf; [done|].
    pose proof (List.find_none _ _ Hf x Hx) as Hn.
    by apply bool_decide_eq_false in Hn.
Qed.

(** With distinct keys, every element is found under its own. *)
Lemma index_by_NoDup key val l x :
  NoDup (key <$> l) -> x ∈ l -> index_by key val l !! key x = Some (val x).
Proof.
  intros Hnd Hx. destruct (index_by key val l !! key x) as [v|] eqn:E.
  - apply index_by_Some in E as (y & Hy & Hk & <-). do 2 f_equal.
    apply list_elem_of_lookup in Hx as [i Hi]. apply list_elem_of_lookup in Hy as [j Hj].
    assert (j = i) as ->; [|congruence].
    eapply NoDup_lookup; [exact Hnd|..]; rewrite list_lookup_fmap, ?Hi, ?Hj; [|done].
    simpl. by rewrite Hk.
  - exfalso. eapply eq_None_not_Some; [exact E|]. apply index_by_is_Some.
    apply list_elem_of_fmap. by exists x.
Qed.
End MapFold.

(** ** Iterating over a map

    [for k, v := range m] visits every entry once, in an order the language does
    not fix: an instance of this class is one such order. *)
Class MapOrder := {
  range : forall {K : Type} `{Countable K} {V : Type}, gmap K V -> list (K * V);
  range_perm : forall {K : Type} `{Countable K} {V : Type} (m : gmap K V), range m ≡ₚ map_to_list m
}.

Lemma elem_of_range `{MapOrder} `{Countable K} {V} (m : gmap K V) k v :
  (k, v) ∈ range m <-> m !! k = Some v.
Proof. rewrite range_perm. apply elem_of_map_to_list. Qed.
