(* ===== verification/GoStrings.v ===== *)
(** * Go's [strings], [strconv], [fmt], [filepath], [bufio] and [regexp] calls

    The functions of Go's standard library that the program applies to
    strings, as executable functions on [string] (a sequence of bytes, as in
    Go).  Case mapping and white space are those of ASCII: the strings the
    program handles (PCI and USB identifiers, sysfs paths, resource names,
    Kubernetes object names) are ASCII. *)

From S2P Require Import Prelude.
From Stdlib Require Import Ascii.

Implicit Types (s t sep cutset : string) (c : ascii).

(** The one-character string. *)
Definition str1 c : string := String c EmptyString.

(** ** Character classes *)
Definition in_range (lo hi : nat) c : bool :=
  (lo <=? nat_of_ascii c) && (nat_of_ascii c <=? hi).
Definition is_digit c : bool := in_range 48 57 c.
Definition is_upper c : bool := in_range 65 90 c.
Definition is_lower c : bool := in_range 97 122 c.
Definition is_alnum c : bool := is_digit c || is_upper c || is_lower c.
(** [unicode.IsSpace] on ASCII: tab, LF, VT, FF, CR and blank. *)
Definition is_space c : bool := in_range 9 13 c || bool_decide (c = " "%char).
(** The class [\s] of RE2: tab, LF, FF, CR and blank. *)
Definition is_re_space c : bool := is_space c && negb (bool_decide (c = "011"%char)).

(** ** Generic traversals *)
Fixpoint str_filter (P : ascii -> bool) s : string :=
  match s with
  | EmptyString => EmptyString
  | String c s' => if P c then String c (str_filter P s') else str_filter P s'
  end.

Fixpoint str_map (f : ascii -> ascii) s : string :=
  match s with
  | EmptyString => EmptyString
  | String c s' => String (f c) (str_map f s')
  end.

Fixpoint str_forallb (P : ascii -> bool) s : bool :=
  match s with
  | EmptyString => true
  | String c s' => P c && str_forallb P s'
  end.

Fixpoint str_mem c s : bool :=
  match s with
  | EmptyString => false
  | String d s' => bool_decide (d = c) || str_mem c s'
  end.

Fixpoint str_rev_app s t : string :=
  match s with
  | EmptyString => t
  | String c s' => str_rev_app s' (String c t)
  end.
Definition str_rev s : string := str_rev_app s EmptyString.

Fixpoint str_drop (n : nat) s : string :=
  match n, s with
  | S n', String _ s' => str_drop n' s'
  | _, _ => s
  end.

(** ** Searching *)

(** [strings.HasPrefix(s, t)]. *)
Definition HasPrefix s t : bool := String.prefix t s.
#[global] Arguments HasPrefix : simpl never.

(** [strings.Contains(s, t)]. *)
Fixpoint Contains s t : bool :=
  HasPrefix s t ||
  match s with
  | EmptyString => false
  | String _ s' => Contains s' t
  end.

(** [strings.Index(s, t)], [-1] when absent. *)
Fixpoint Index s t : Z :=
  if HasPrefix s t then 0%Z
  else match s with
       | EmptyString => (-1)%Z
       | String _ s' => let i := Index s' t in if (i <? 0)%Z then (-1)%Z else (i + 1)%Z
       end.

(** ** Splitting and joining *)

(** Prepend a character to the first piece. *)
Definition cons_head c (l : list string) : list string :=
  match l with
  | [] => [str1 c]
  | p :: l' => String c p :: l'
  end.

(** [skip] counts the characters of a separator still to be consumed. *)
Fixpoint split_skip sep (skip : nat) s : list string :=
  match s with
  | EmptyString => [EmptyString]
  | String c s' =>
      match skip with
      | S k => split_skip sep k s'
      | O => if HasPrefix s sep
             then EmptyString :: split_skip sep (String.length sep - 1) s'
             else cons_head c (split_skip sep 0 s')
      end
  end.

(** [strings.Split(s, sep)] for a non-empty [sep]. *)
Definition Split s sep : list string := split_skip sep 0 s.

(** The two sides of the first occurrence of [sep]. *)
Fixpoint Cut s sep : option (string * string) :=
  if HasPrefix s sep then Some (EmptyString, str_drop (String.length sep) s)
  else match s with
       | EmptyString => None
       | String c s' =>
           match Cut s' sep with
           | Some (a, b) => Some (String c a, b)
           | None => None
           end
       end.

(** [strings.SplitN(s, sep, 2)]. *)
Definition SplitN2 s sep : list string :=
  match Cut s sep with
  | Some (a, b) => [a; b]
  | None => [s]
  end.

(** [strings.Join(l, sep)]. *)
Definition Join (l : list string) sep : string := String.concat sep l.

(** ** Replacing *)
Fixpoint replace_skip old new (skip : nat) s : string :=
  match s with
  | EmptyString => EmptyString
  | String c s' =>
      match skip with
      | S k => replace_skip old new k s'
      | O => if HasPrefix s old
             then new +:+ replace_skip old new (String.length old - 1) s'
             else String c (replace_skip old new 0 s')
      end
  end.

(** [strings.ReplaceAll(s, old, new)] for a non-empty [old]. *)
Definition ReplaceAll s old new : string := replace_skip old new 0 s.

(** ** Trimming and case *)
Fixpoint trim_left (P : ascii -> bool) s : string :=
  match s with
  | EmptyString => EmptyString
  | String c s' => if P c then trim_left P s' else s
  end.

Fixpoint trim_right (P : ascii -> bool) s : string :=
  match s with
  | EmptyString => EmptyString
  | String c s' =>
      match trim_right P s' with
      | EmptyString => if P c then EmptyString else str1 c
      | t => String c t
      end
  end.

(** [strings.TrimSpace], [strings.TrimRight], [strings.Trim], [strings.TrimSuffix]. *)
Definition TrimSpace s : string := trim_right is_space (trim_left is_space s).
Definition TrimRight s cutset : string := trim_right (fun c => str_mem c cutset) s.
Definition Trim s cutset : string :=
  trim_right (fun c => str_mem c cutset) (trim_left (fun c => str_mem c cutset) s).
Fixpoint TrimSuffix s t : string :=
  if bool_decide (s = t) then EmptyString
  else match s with
       | EmptyString => EmptyString
       | String c s' => String c (TrimSuffix s' t)
       end.

Definition lower c : ascii :=
  if is_upper c then ascii_of_nat (nat_of_ascii c + 32) else c.
Definition upper c : ascii :=
  if is_lower c then ascii_of_nat (nat_of_ascii c - 32) else c.
Definition ToLower s : string := str_map lower s.
Definition ToUpper s : string := str_map upper s.

(** ** Regular expressions of the program *)

(** [regexp `\s+`.ReplaceAllString(s, by)]: [inrun] is whether the previous
    character belonged to a run of white space. *)
Fixpoint collapse_go (by_ : string) (inrun : bool) s : string :=
  match s with
  | EmptyString => EmptyString
  | String c s' =>
      if is_re_space c
      then (if inrun then EmptyString else by_) +:+ collapse_go by_ true s'
      else String c (collapse_go by_ false s')
  end.
Definition re_space_ReplaceAll s by_ : string := collapse_go by_ false s.

(** [regexp `[^...]+`.ReplaceAllString(s, "")] for the class of the characters
    that satisfy [keep]. *)
Definition re_keep (keep : ascii -> bool) s : string := str_filter keep s.

(** ** Numbers *)

(** [strconv.Itoa], and the verb [%d]. *)
Definition Itoa (z : Z) : string := pretty z.

Definition digit_val c : option Z :=
  if is_digit c then Some (Z.of_nat (nat_of_ascii c - 48))
  else if is_lower c then Some (Z.of_nat (nat_of_ascii c - 87))
  else if is_upper c then Some (Z.of_nat (nat_of_ascii c - 55))
  else None.

Fixpoint parse_digits (base acc : Z) s : option Z :=
  match s with
  | EmptyString => Some acc
  | String c s' =>
      match digit_val c with
      | Some d => if (d <? base)%Z then parse_digits base (acc * base + d) s' else None
      | None => None
      end
  end.

(** The magnitude: at least one digit, and every character a digit. *)
Definition parse_mag (base : Z) s : option Z :=
  match s with EmptyString => None | _ => parse_digits base 0 s end.

(** [strconv.ParseUint(s, base, bits)]. *)
Definition ParseUint s (base bits : Z) : option Z :=
  match parse_mag base s with
  | Some z => if (z <? 2 ^ bits)%Z then Some z else None
  | None => None
  end.

(** [strconv.ParseInt(s, base, bits)]: an optional sign, then the magnitude,
    within the range of a signed integer of that width. *)
Definition ParseInt s (base bits : Z) : option Z :=
  let '(neg, m) :=
    match s with
    | String c s' =>
        if bool_decide (c = "-"%char) then (true, s')
        else if bool_decide (c = "+"%char) then (false, s')
        else (false, s)
    | EmptyString => (false, s)
    end in
  match parse_mag base m with
  | Some z =>
      let v := if neg : bool then (- z)%Z else z in
      if ((- 2 ^ (bits - 1) <=? v) && (v <? 2 ^ (bits - 1)))%Z then Some v else None
  | None => None
  end.

(** [strconv.Atoi]: [int] has 64 bits on the platforms the program is built for. *)
Definition Atoi s : option Z := ParseInt s 10 64.

Definition hex_digit (z : Z) : ascii :=
  if (z <? 10)%Z then ascii_of_nat (48 + Z.to_nat z) else ascii_of_nat (87 + Z.to_nat z).

Fixpoint hex_go (fuel : nat) (z : Z) (acc : string) : string :=
  match fuel with
  | O => acc
  | S f => if (z <? 16)%Z then String (hex_digit z) acc
           else hex_go f (z / 16) (String (hex_digit (z mod 16)) acc)
  end.

Fixpoint pad_zeros (n : nat) s : string :=
  match n with O => s | S n' => String "0" (pad_zeros n' s) end.

(** The verb [%04x] for an [int]: lower-case hexadecimal, the sign first, and
    zeros up to a width of four.  Sixteen digits cover 64 bits. *)
Definition fmt_04x (z : Z) : string :=
  let digits := hex_go 16 (Z.abs z) "" in
  if (z <? 0)%Z then "-" +:+ pad_zeros (3 - String.length digits) digits
  else pad_zeros (4 - String.length digits) digits.

(** The verb [%02d]. *)
Definition fmt_02d (z : Z) : string :=
  if (z <? 0)%Z then "-" +:+ pad_zeros (1 - String.length (Itoa (- z))) (Itoa (- z))
  else pad_zeros (2 - String.length (Itoa z)) (Itoa z).

(** ** [path/filepath] on Unix *)

Definition nonempty s : bool := match s with EmptyString => false | _ => true end.

(** The elements kept by [filepath.Clean], innermost first. *)
Fixpoint clean_go (rooted : bool) (stack elems : list string) : list string :=
  match elems with
  | [] => stack
  | e :: es =>
      if bool_decide (e = "") || bool_decide (e = ".") then clean_go rooted stack es
      else if bool_decide (e = "..") then
        match stack with
        | top :: stack' =>
            if bool_decide (top = "..") then clean_go rooted (".." :: stack) es
            else clean_go rooted stack' es
        | [] => if rooted then clean_go rooted [] es else clean_go rooted [".."] es
        end
      else clean_go rooted (e :: stack) es
  end.

(** [filepath.Clean]. *)
Definition Clean (p : string) : string :=
  let rooted := HasPrefix p "/" in
  let body := Join (rev (clean_go rooted [] (Split p "/"))) "/" in
  if rooted then "/" +:+ body else if nonempty body then body else ".".

(** [filepath.Join] (and [path.Join]). *)
Definition PathJoin (elems : list string) : string :=
  match List.filter nonempty elems with
  | [] => ""
  | es => Clean (Join es "/")
  end.

(** The part after the last slash: the file of [filepath.Split]. *)
Definition path_file (p : string) : string := List.last (Split p "/") "".

(** [filepath.Base]. *)
Definition Base (p : string) : string :=
  if negb (nonempty p) then "."
  else let q := trim_right (fun c => bool_decide (c = "/"%char)) p in
       if nonempty q then path_file q else "/".

(** ** [bufio.Scanner] with [ScanLines] *)

Definition newline : string := str1 "010".
Definition drop_cr s : string := TrimSuffix s (str1 "013").

(** The pieces between newlines; a final newline ends the last line. *)
Definition raw_lines s : list string :=
  let ps := Split s newline in
  if bool_decide (List.last ps "" = "") then removelast ps else ps.

(** [bufio.MaxScanTokenSize]: the scanner stops with [ErrTooLong] at a line that
    does not fit its buffer with its newline. *)

Fixpoint scan_raw (ls : list string) : list string * bool :=
  match ls with
  | [] => ([], true)
  | l :: ls' =>
      if (Z.of_nat (String.length l) <=? 65535)%Z
      then let '(r, ok) := scan_raw ls' in (drop_cr l :: r, ok)
      else ([], false)
  end.

(** The lines the loop [for scanner.Scan()] sees, and whether [scanner.Err()]
    is nil after it. *)
Definition ScanLines s : list string * bool := scan_raw (raw_lines s).
