(* ===== verification/GoStringLemmas.v ===== *)
(** * Lemmas on the string functions

    Lengths, membership and the equations of [Split], [ReplaceAll] and the
    trims, as the components use them. *)

From S2P Require Import Prelude GoStrings.
From Stdlib Require Import Ascii.

Implicit Types (s t u sep : string) (c d : ascii) (P : ascii -> bool).

(** ** Append *)
Lemma app_cons c s t : String c s +:+ t = String c (s +:+ t).
Proof. done. Qed.
Lemma app_empty_l t : "" +:+ t = t.
Proof. done. Qed.
Lemma app_empty_r s : s +:+ "" = s.
Proof. induction s as [|c s IH]; [done|]. by rewrite app_cons, IH. Qed.
Lemma app_assoc_str s t u : (s +:+ t) +:+ u = s +:+ (t +:+ u).
Proof. induction s as [|c s IH]; [done|]. by rewrite !app_cons, IH. Qed.
Lemma length_app_str s t : String.length (s +:+ t) = String.length s + String.length t.
Proof. induction s as [|c s IH]; [done|]. rewrite app_cons. simpl. by rewrite IH. Qed.
Lemma str1_app c s : str1 c +:+ s = String c s.
Proof. done. Qed.

#[export] Hint Rewrite app_empty_l app_empty_r app_assoc_str length_app_str : pcidev_rw.

(** ** Prefixes *)
Lemma HasPrefix_app s t : HasPrefix (t +:+ s) t = true.
Proof.
  unfold HasPrefix. induction t as [|c t IH]; [by destruct s|]. rewrite app_cons. simpl.
  by destruct (ascii_dec c c).
Qed.

Lemma HasPrefix_spec s t : HasPrefix s t = true -> s = t +:+ str_drop (String.length t) s.
Proof.
  unfold HasPrefix. revert s. induction t as [|c t IH]; intros [|d s]; simpl; try done.
  destruct (ascii_dec c d) as [->|]; [|done]. intros Hp.
  rewrite app_cons. f_equal. by apply IH.
Qed.

Lemma HasPrefix_length s t : HasPrefix s t = true -> String.length t <= String.length s.
Proof.
  intros Hp. apply HasPrefix_spec in Hp. rewrite Hp, length_app_str. lia.
Qed.

Lemma HasPrefix_str1 s c :
  HasPrefix s (str1 c) = match s with EmptyString => false | String d _ => bool_decide (c = d) end.
Proof.
  unfold HasPrefix, str1. destruct s as [|d s]; [done|]. simpl.
  destruct (ascii_dec c d) as [->|Hne].
  - rewrite bool_decide_eq_true_2 by done. by destruct s.
  - by rewrite bool_decide_eq_false_2.
Qed.

(** ** Characters of a string *)
Lemma str_forallb_app P s t : str_forallb P (s +:+ t) = str_forallb P s && str_forallb P t.
Proof.
  induction s as [|c s IH]; [done|]. rewrite app_cons. simpl. by rewrite IH, andb_assoc.
Qed.
Lemma str_mem_app c s t : str_mem c (s +:+ t) = str_mem c s || str_mem c t.
Proof. induction s as [|d s IH]; [done|]. rewrite app_cons. simpl. by rewrite IH, orb_assoc. Qed.

Lemma str_forallb_impl P Q s :
  (forall c, P c = true -> Q c = true) -> str_forallb P s = true -> str_forallb Q s = true.
Proof.
  intros HPQ. induction s as [|c s IH]; [done|]. simpl. rewrite !andb_true_iff.
  intros [? ?]. auto.
Qed.

Lemma str_forallb_filter P s : str_forallb P (str_filter P s) = true.
Proof.
  induction s as [|c s IH]; [done|]. simpl. destruct (P c) eqn:E; [|done]. simpl. by rewrite E.
Qed.

Lemma str_forallb_filter_other P Q s :
  str_forallb Q s = true -> str_forallb Q (str_filter P s) = true.
Proof.
  induction s as [|c s IH]; [done|]. simpl. rewrite andb_true_iff. intros [Hc Hs].
  destruct (P c); simpl; [rewrite Hc|]; auto.
Qed.

Lemma str_filter_id P s : str_forallb P s = true -> str_filter P s = s.
Proof.
  induction s as [|c s IH]; [done|]. simpl. rewrite andb_true_iff.
  intros [-> Hs]. by rewrite IH.
Qed.

Lemma str_forallb_trim_right P Q s :
  str_forallb Q s = true -> str_forallb Q (trim_right P s) = true.
Proof.
  induction s as [|c s IH]; [done|]. simpl. rewrite andb_true_iff. intros [Hc Hs].
  specialize (IH Hs). destruct (trim_right P s) as [|d t]; simpl in *.
  - destruct (P c); simpl; [done|]. by rewrite Hc.
  - by rewrite Hc.
Qed.

Lemma str_forallb_map P f s :
  (forall c, P (f c) = true) -> str_forallb P (str_map f s) = true.
Proof. intros Hf. induction s as [|c s IH]; [done|]. simpl. by rewrite Hf. Qed.

Lemma str_forallb_map_pres P f s :
  (forall c, P c = true -> P (f c) = true) ->
  str_forallb P s = true -> str_forallb P (str_map f s) = true.
Proof.
  intros Hf. induction s as [|c s IH]; [done|]. simpl. rewrite !andb_true_iff.
  intros [? ?]. auto.
Qed.

Lemma str_mem_forallb c P s : str_forallb P s = true -> P c = false -> str_mem c s = false.
Proof.
  intros Hs Hc. induction s as [|d s IH]; [done|]. simpl in *.
  apply andb_true_iff in Hs as [Hd Hs]. rewrite (IH Hs), orb_false_r.
  apply bool_decide_eq_false_2. intros ->. congruence.
Qed.

Lemma length_str_map f s : String.length (str_map f s) = String.length s.
Proof. induction s as [|c s IH]; [done|]. simpl. by rewrite IH. Qed.

(** ** ReplaceAll *)
Lemma replace_skip_length old new k s :
  String.length new <= String.length old -> 0 < String.length old ->
  String.length (replace_skip old new k s) + Nat.min k (String.length s) <= String.length s.
Proof.
  intros Hlen Hpos. revert k. induction s as [|c s IH]; intros k; [simpl; lia|].
  destruct k as [|k]; simpl.
  - destruct (HasPrefix (String c s) old) eqn:Hp.
    + apply HasPrefix_length in Hp. simpl in Hp.
      rewrite length_app_str. specialize (IH (String.length old - 1)). lia.
    + specialize (IH 0). simpl. lia.
  - specialize (IH k). lia.
Qed.

Lemma ReplaceAll_length old new s :
  String.length new <= String.length old -> 0 < String.length old ->
  String.length (ReplaceAll s old new) <= String.length s.
Proof.
  intros Hlen Hpos. pose proof (replace_skip_length old new 0 s Hlen Hpos).
  unfold ReplaceAll. lia.
Qed.

(** A replacement by something shorter shortens a string that has the pattern. *)
Lemma ReplaceAll_shorter old new s :
  String.length new < String.length old -> Contains s old = true ->
  String.length (ReplaceAll s old new) < String.length s.
Proof.
  intros Hlen. unfold ReplaceAll. induction s as [|c s IH]; simpl.
  - rewrite orb_false_r. intros Hp. apply HasPrefix_length in Hp. simpl in Hp. lia.
  - destruct (HasPrefix (String c s) old) eqn:Hp; simpl.
    + intros _. apply HasPrefix_length in Hp. simpl in Hp. rewrite length_app_str.
      pose proof (replace_skip_length old new (String.length old - 1) s). lia.
    + intros Hc. specialize (IH Hc). lia.
Qed.

(** Replacing one character: a fold over the string. *)
Lemma ReplaceAll_char_cons c new d s :
  ReplaceAll (String d s) (str1 c) new =
  (if bool_decide (c = d) then new else str1 d) +:+ ReplaceAll s (str1 c) new.
Proof.
  unfold ReplaceAll. simpl replace_skip. rewrite HasPrefix_str1.
  case_bool_decide; done.
Qed.

Lemma ReplaceAll_char_app c new s t :
  ReplaceAll (s +:+ t) (str1 c) new = ReplaceAll s (str1 c) new +:+ ReplaceAll t (str1 c) new.
Proof.
  induction s as [|d s IH]; [done|].
  rewrite app_cons, !ReplaceAll_char_cons, IH, app_assoc_str. done.
Qed.

Lemma ReplaceAll_char_id c new s : str_mem c s = false -> ReplaceAll s (str1 c) new = s.
Proof.
  induction s as [|d s IH]; [done|]. simpl. rewrite orb_false_iff. intros [Hd Hs].
  rewrite ReplaceAll_char_cons, (IH Hs). apply bool_decide_eq_false in Hd.
  by rewrite bool_decide_eq_false_2 by congruence.
Qed.

Lemma ReplaceAll_char_length c d s :
  String.length (ReplaceAll s (str1 c) (str1 d)) = String.length s.
Proof.
  induction s as [|e s IH]; [done|].
  rewrite ReplaceAll_char_cons, length_app_str, IH. by case_bool_decide.
Qed.

(** Deleting a character is filtering it out. *)
Lemma ReplaceAll_char_delete c s :
  ReplaceAll s (str1 c) "" = str_filter (fun d => negb (bool_decide (c = d))) s.
Proof.
  induction s as [|d s IH]; [done|].
  rewrite ReplaceAll_char_cons, IH. simpl. by case_bool_decide.
Qed.

(** Only characters of the source and of the replacement appear. *)
Lemma replace_skip_forallb P old new k s :
  str_forallb P s = true -> str_forallb P new = true ->
  str_forallb P (replace_skip old new k s) = true.
Proof.
  intros Hs Hnew. revert k. induction s as [|c s IH]; intros k; [done|].
  simpl in Hs. apply andb_true_iff in Hs as [Hc Hs]. simpl.
  destruct k as [|k]; [|by apply IH].
  destruct (HasPrefix _ _).
  - rewrite str_forallb_app, Hnew. by apply IH.
  - simpl. rewrite Hc. by apply IH.
Qed.

(** ** Split on one character *)
Lemma Split_char_cons c d s :
  Split (String d s) (str1 c) =
  if bool_decide (c = d) then "" :: Split s (str1 c) else cons_head d (Split s (str1 c)).
Proof. unfold Split. simpl split_skip. rewrite HasPrefix_str1. done. Qed.

Lemma Split_char_nonnil c s : Split s (str1 c) <> [].
Proof.
  destruct s as [|d s]; [done|]. rewrite Split_char_cons.
  case_bool_decide; [done|]. by destruct (Split s (str1 c)).
Qed.

Lemma Split_char_none c s : str_mem c s = false -> Split s (str1 c) = [s].
Proof.
  induction s as [|d s IH]; [done|]. simpl. rewrite orb_false_iff. intros [Hd Hs].
  rewrite Split_char_cons, (IH Hs). apply bool_decide_eq_false in Hd.
  by rewrite bool_decide_eq_false_2 by congruence.
Qed.

Lemma Split_char_app c s t :
  str_mem c s = false -> Split (s +:+ String c t) (str1 c) = s :: Split t (str1 c).
Proof.
  induction s as [|d s IH]; simpl.
  - intros _. rewrite app_empty_l, Split_char_cons, bool_decide_eq_true_2; done.
  - rewrite orb_false_iff. intros [Hd Hs]. apply bool_decide_eq_false in Hd.
    rewrite app_cons, Split_char_cons, (IH Hs).
    by rewrite bool_decide_eq_false_2 by congruence.
Qed.

Lemma Join_cons2 a b l sep : Join (a :: b :: l) sep = a +:+ sep +:+ Join (b :: l) sep.
Proof. done. Qed.

Lemma Join_cons_head c l sep : l <> [] -> Join (cons_head c l) sep = String c (Join l sep).
Proof. destruct l as [|a [|b l]]; [done|..]; done. Qed.

(** Joining what was split gives the string back. *)
Lemma Join_Split_char c s : Join (Split s (str1 c)) (str1 c) = s.
Proof.
  induction s as [|d s IH]; [done|]. rewrite Split_char_cons.
  pose proof (Split_char_nonnil c s) as Hnn.
  case_bool_decide as Hd.
  - subst d. destruct (Split s (str1 c)) as [|a l] eqn:E; [done|].
    rewrite Join_cons2, IH. done.
  - by rewrite Join_cons_head, IH.
Qed.

(** No piece contains the separator. *)
Lemma Split_char_no_sep c s : Forall (fun p => str_mem c p = false) (Split s (str1 c)).
Proof.
  induction s as [|d s IH]; [by constructor|]. rewrite Split_char_cons.
  case_bool_decide as Hd; [by constructor|].
  destruct (Split s (str1 c)) as [|a l]; simpl.
  - constructor; [|done]. simpl. rewrite bool_decide_eq_false_2 by congruence. done.
  - inversion IH as [|? ? Ha Hl]; subst. constructor; [|done]. simpl.
    by rewrite bool_decide_eq_false_2, Ha by congruence.
Qed.

(** Splitting what was joined from separator-free pieces gives the pieces back. *)
Lemma Split_Join_char c l :
  l <> [] -> Forall (fun p => str_mem c p = false) l -> Split (Join l (str1 c)) (str1 c) = l.
Proof.
  intros Hnn Hl. induction l as [|a l IH]; [done|].
  inversion Hl as [|? ? Ha Hl']; subst. destruct l as [|b l].
  - by apply Split_char_none.
  - rewrite Join_cons2, str1_app, Split_char_app by done. by rewrite IH.
Qed.

(** ** Cut: the first occurrence of a one-character separator *)
Lemma Cut_char_app c s t :
  str_mem c s = false -> Cut (s +:+ String c t) (str1 c) = Some (s, t).
Proof.
  induction s as [|d s IH].
  - intros _. rewrite app_empty_l. simpl. rewrite HasPrefix_str1.
    rewrite bool_decide_eq_true_2 by done. done.
  - simpl str_mem. rewrite orb_false_iff. intros [Hd Hs].
    apply bool_decide_eq_false in Hd. rewrite app_cons. simpl Cut. rewrite HasPrefix_str1.
    rewrite bool_decide_eq_false_2 by congruence. by rewrite (IH Hs).
Qed.

Lemma SplitN2_char_app c s t :
  str_mem c s = false -> SplitN2 (s +:+ String c t) (str1 c) = [s; t].
Proof. intros Hs. unfold SplitN2. by rewrite Cut_char_app. Qed.

(** Replacing a character removes it when the replacement lacks it. *)
Lemma ReplaceAll_char_removes c new s :
  str_mem c new = false -> str_mem c (ReplaceAll s (str1 c) new) = false.
Proof.
  intros Hnew. induction s as [|d s IH]; [done|].
  rewrite ReplaceAll_char_cons, str_mem_app, IH, orb_false_r.
  case_bool_decide as Hd; [done|]. simpl. rewrite orb_false_r.
  apply bool_decide_eq_false_2. congruence.
Qed.

Lemma str_mem_false_forallb c s :
  str_mem c s = false <-> str_forallb (fun d => negb (bool_decide (d = c))) s = true.
Proof.
  induction s as [|d s IH]; [done|]. simpl. rewrite orb_false_iff, andb_true_iff, IH.
  rewrite negb_true_iff. done.
Qed.

Lemma str_forallb_and P Q s :
  str_forallb (fun c => P c && Q c) s = str_forallb P s && str_forallb Q s.
Proof.
  induction s as [|c s IH]; [done|]. simpl. rewrite IH.
  destruct (P c), (Q c), (str_forallb P s); done.
Qed.

Lemma collapse_forallb P by_ inrun s :
  str_forallb P by_ = true -> str_forallb P s = true ->
  str_forallb P (collapse_go by_ inrun s) = true.
Proof.
  intros Hby. revert inrun. induction s as [|c s IH]; intros inrun; [done|].
  simpl. rewrite andb_true_iff. intros [Hc Hs]. destruct (is_re_space c).
  - rewrite str_forallb_app. destruct inrun; rewrite ?Hby, IH by done; done.
  - simpl. rewrite Hc. by apply IH.
Qed.

Lemma replace_nonempty old new s :
  new <> "" -> s <> "" -> ReplaceAll s old new <> "".
Proof.
  intros Hnew Hs. destruct s as [|c s]; [done|]. unfold ReplaceAll. simpl.
  destruct (HasPrefix _ _); [|done]. by destruct new.
Qed.

(** The last occurrence decides: two strings that end in equally long suffixes. *)
Lemma app_inj_tail_length s1 s2 t1 t2 :
  String.length t1 = String.length t2 -> s1 +:+ t1 = s2 +:+ t2 -> s1 = s2 /\ t1 = t2.
Proof.
  intros Hlen Heq.
  assert (String.length s1 = String.length s2) as Hs.
  { apply (f_equal String.length) in Heq. rewrite !length_app_str in Heq. lia. }
  revert s2 Hs Heq. induction s1 as [|c s1 IH]; intros [|d s2] Hs Heq; try done.
  rewrite !app_cons in Heq. injection Heq as -> Heq. injection Hs as Hs.
  by destruct (IH s2 Hs Heq) as [-> ->].
Qed.

Lemma Contains_short s t : String.length s < String.length t -> Contains s t = false.
Proof.
  induction s as [|c s IH]; intros Hlen; simpl.
  - destruct (HasPrefix "" t) eqn:E; [|done]. apply HasPrefix_length in E. simpl in *. lia.
  - destruct (HasPrefix (String c s) t) eqn:E; [apply HasPrefix_length in E; lia|].
    simpl. apply IH. simpl in Hlen. lia.
Qed.

(** ** Paths *)
Definition no_slash (s : string) : bool := negb (str_mem "/"%char s).

(** A name that [filepath.Clean] keeps as an element. *)
Definition plain_name (f : string) : bool :=
  no_slash f && nonempty f && negb (bool_decide (f = ".")) && negb (bool_decide (f = "..")).

Lemma clean_go_plain rooted stack f :
  plain_name f = true -> clean_go rooted stack [f] = f :: stack.
Proof.
  unfold plain_name. rewrite !andb_true_iff, !negb_true_iff. intros [[[_ Hne] Hd] Hdd].
  simpl. apply bool_decide_eq_false in Hd, Hdd.
  rewrite !bool_decide_eq_false_2; [done|done..|]. by intros ->.
Qed.

Lemma clean_go_app rooted stack l1 l2 :
  clean_go rooted stack (l1 ++ l2) = clean_go rooted (clean_go rooted stack l1) l2.
Proof.
  revert stack. induction l1 as [|e l1 IH]; intros stack; simpl; [done|].
  repeat case_match; auto.
Qed.

(** ** Trimming padded text *)
Lemma trim_left_pad P s t : str_forallb P s = true -> trim_left P (s +:+ t) = trim_left P t.
Proof.
  induction s as [|c s IH]; [done|]. simpl. rewrite andb_true_iff. intros [Hc Hs].
  by rewrite Hc, (IH Hs).
Qed.

Lemma trim_right_pad P s t : str_forallb P t = true -> trim_right P (s +:+ t) = trim_right P s.
Proof.
  intros Ht. induction s as [|c s IH]; [|by simpl; rewrite IH].
  rewrite app_empty_l. induction t as [|c t IH]; [done|]. simpl in Ht |- *.
  apply andb_true_iff in Ht as [Hc Ht]. by rewrite (IH Ht), Hc.
Qed.

(** Nothing to trim at an end: the text is empty or ends in another character. *)
Lemma trim_right_app P s t :
  trim_right P t <> "" -> trim_right P (s +:+ t) = s +:+ trim_right P t.
Proof.
  intros Ht. induction s as [|c s IH]; [done|]. simpl. rewrite IH, app_cons.
  destruct (s +:+ trim_right P t) as [|d u] eqn:E; [|done].
  exfalso. destruct s as [|d s]; [by rewrite app_empty_l in E|discriminate E].
Qed.

(** [TrimSpace] takes away the white space around a text without any at its ends. *)
Lemma TrimSpace_pad a s b :
  str_forallb is_space a = true -> str_forallb is_space b = true -> TrimSpace s = s ->
  TrimSpace (a +:+ s +:+ b) = s.
Proof.
  intros Ha Hb Hs. unfold TrimSpace in *. rewrite (trim_left_pad _ _ _ Ha).
  destruct s as [|c s].
  - rewrite app_empty_l. rewrite <- (app_empty_r b), (trim_left_pad _ _ _ Hb). done.
  - rewrite app_cons. simpl trim_left in *. destruct (is_space c).
    + exfalso. assert (String.length (trim_right is_space (trim_left is_space s)) <= String.length s) as Hle.
      { clear. transitivity (String.length (trim_left is_space s)).
        - generalize (trim_left is_space s). intros t. induction t as [|c t IH]; [done|]. simpl.
          destruct (trim_right is_space t); simpl in *; [destruct (is_space c); simpl; lia|lia].
        - induction s as [|c s IH]; [done|]. simpl. destruct (is_space c); simpl; lia. }
      rewrite Hs in Hle. simpl in Hle. lia.
    + change (String c (s +:+ b)) with (String c s +:+ b). by rewrite trim_right_pad.
Qed.

Lemma str_filter_app P s t : str_filter P (s +:+ t) = str_filter P s +:+ str_filter P t.
Proof. induction s as [|c s IH]; [done|]. simpl. destruct (P c); [|done]. by rewrite app_cons, IH. Qed.

(** ** The lines of a text *)
Definition lines_text (ls : list string) : string := foldr (fun l t => l +:+ newline +:+ t) "" ls.

(** A line that the scanner gives back as it is. *)
Definition plain_line s : bool :=
  negb (str_mem "010"%char s) && bool_decide (drop_cr s = s) &&
  (Z.of_nat (String.length s) <=? 65535)%Z.

Lemma Split_lines_text ls :
  Forall (fun l => str_mem "010"%char l = false) ls -> Split (lines_text ls) newline = ls ++ [""].
Proof.
  induction 1 as [|l ls Hl _ IH]; [done|]. cbn [lines_text foldr]. unfold newline in *.
  change (str1 "010" +:+ foldr (fun l t => l +:+ str1 "010" +:+ t) "" ls)
    with (String "010" (lines_text ls)).
  rewrite Split_char_app by done. by rewrite IH.
Qed.

Lemma raw_lines_text ls :
  Forall (fun l => str_mem "010"%char l = false) ls -> raw_lines (lines_text ls) = ls.
Proof.
  intros Hls. unfold raw_lines. rewrite (Split_lines_text ls Hls), last_last.
  rewrite bool_decide_eq_true_2 by done. apply removelast_last.
Qed.

(** What is written line by line is scanned line by line. *)
Lemma ScanLines_text ls : Forall (fun l => plain_line l = true) ls -> ScanLines (lines_text ls) = (ls, true).
Proof.
  intros Hls. unfold ScanLines. rewrite raw_lines_text.
  - induction Hls as [|l ls Hl _ IH]; [done|]. cbn [scan_raw]. rewrite IH.
    unfold plain_line in Hl. rewrite !andb_true_iff in Hl. destruct Hl as [[_ Hcr] Hlen].
    rewrite Hlen. apply bool_decide_eq_true in Hcr. by rewrite Hcr.
  - eapply Forall_impl; [exact Hls|]. intros l. unfold plain_line.
    rewrite !andb_true_iff, negb_true_iff. by intros [[? _] _].
Qed.

(** ** Numbers that are printed are read back *)
Definition int64 (z : Z) : Prop := (- 2 ^ 63 <= z < 2 ^ 63)%Z.

Lemma digit_val_pretty (d : N) : (d < 10)%N -> digit_val (pretty_N_char d) = Some (Z.of_N d).
Proof.
  intros Hd. assert (d = 0 \/ d = 1 \/ d = 2 \/ d = 3 \/ d = 4 \/ d = 5 \/ d = 6 \/ d = 7 \/ d = 8 \/ d = 9)%N
    as Hcases by lia.
  repeat destruct Hcases as [->|Hcases]; try done. by subst.
Qed.

Lemma parse_digits_pretty (x : N) s : parse_digits 10 0 (pretty_N_go x s) = parse_digits 10 (Z.of_N x) s.
Proof.
  revert s. induction (N.lt_wf_0 x) as [x _ IH]. intros s.
  destruct (decide (x = 0%N)) as [->|Hx]; [by rewrite pretty_N_go_0|].
  rewrite pretty_N_go_step by lia. rewrite IH by (apply N.div_lt; lia).
  cbn [parse_digits]. pose proof (N.mod_lt x 10 ltac:(lia)) as Hmod.
  rewrite (digit_val_pretty _ Hmod).
  destruct (Z.ltb_spec (Z.of_N (x mod 10)) 10) as [_|Hge]; [|lia].
  f_equal. pose proof (N.div_mod x 10 ltac:(lia)). lia.
Qed.

Lemma pretty_go_head (x : N) s :
  (0 < x)%N -> exists (d : N) t, (d < 10)%N /\ pretty_N_go x s = String (pretty_N_char d) t.
Proof.
  revert s. induction (N.lt_wf_0 x) as [x _ IH]. intros s Hx. rewrite pretty_N_go_step by done.
  destruct (decide (x / 10 = 0)%N) as [->|Hne].
  - rewrite pretty_N_go_0. exists (x mod 10)%N, s. split; [|done]. apply N.mod_lt. lia.
  - apply IH; [apply N.div_lt; lia|by apply N.neq_0_lt_0].
Qed.

Lemma parse_mag_pretty p : parse_mag 10 (pretty (N.pos p)) = Some (Z.pos p).
Proof.
  unfold pretty, pretty_N. rewrite decide_False by done.
  destruct (pretty_go_head (N.pos p) "" ltac:(lia)) as (d & t & _ & E).
  unfold parse_mag. rewrite E, <- E. by rewrite parse_digits_pretty.
Qed.

(** [strconv.Atoi] after [strconv.Itoa]. *)
Lemma Atoi_Itoa z : int64 z -> Atoi (Itoa z) = Some z.
Proof.
  intros Hz. unfold int64 in Hz. unfold Atoi, ParseInt, Itoa, pretty, pretty_Z.
  assert (forall v, v = z -> (if ((- 2 ^ (64 - 1) <=? v) && (v <? 2 ^ (64 - 1)))%Z then Some v else None) = Some z) as Hfit.
  { intros v ->. change (64 - 1)%Z with 63%Z.
    destruct (Z.leb_spec (- 2 ^ 63) z), (Z.ltb_spec z (2 ^ 63)); [done|lia..]. }
  destruct z as [|p|p]; [done| |].
  - change (pretty p) with (pretty (N.pos p)). pose proof (parse_mag_pretty p) as Hmag.
    unfold pretty, pretty_N in *. rewrite decide_False in * by done.
    destruct (pretty_go_head (N.pos p) "" ltac:(lia)) as (d & t & Hd & E). rewrite E in *.
    rewrite !bool_decide_eq_false_2; [rewrite Hmag; by apply Hfit|..].
    + intros Hc. pose proof (digit_val_pretty d Hd) as Hv. by rewrite Hc in Hv.
    + intros Hc. pose proof (digit_val_pretty d Hd) as Hv. by rewrite Hc in Hv.
  - rewrite app_cons, app_empty_l. rewrite bool_decide_eq_true_2 by done.
    change (pretty p) with (pretty (N.pos p)). rewrite parse_mag_pretty. by apply Hfit.
Qed.

Lemma Atoi_range s z : Atoi s = Some z -> int64 z.
Proof.
  unfold Atoi, ParseInt, int64. intros Hp. repeat case_match; simplify_eq.
  all: change (64 - 1)%Z with 63%Z in *.
  all: match goal with E : (_ && _)%Z = true |- _ => apply andb_true_iff in E as [?%Z.leb_le ?%Z.ltb_lt] end; lia.
Qed.

Lemma Itoa_inj z1 z2 : int64 z1 -> int64 z2 -> Itoa z1 = Itoa z2 -> z1 = z2.
Proof. intros H1 H2 E. apply (f_equal Atoi) in E. rewrite !Atoi_Itoa in E by done. by injection E. Qed.
