(* ===== verification/GoMonad.v ===== *)
(** * Errors, outcomes and the state monad of the handlers

    A Go call that returns [(x, err)] is a computation whose outcome is [Ok x],
    [Err err] or, for a run-time panic, [Panic]; it threads the state of the
    process ([mem]) and of everything outside it ([world]).  The value a Go
    function returns next to a non-nil error is dropped: no caller in the
    program reads one. *)

From S2P Require Import Prelude.

(** ** Errors: the class [apierrors.IsNotFound] and its siblings read, and a text *)
Inductive errkind := KNotFound | KAlreadyExists | KNotExist | KExist | KOther.
#[export] Instance errkind_eq_dec : EqDecision errkind.
Proof. solve_decision. Defined.

Record error := Error { ekind : errkind; emsg : string }.
#[export] Instance error_eq_dec : EqDecision error.
Proof. solve_decision. Defined.

(** [fmt.Errorf] with [%v] or [%s] forgets the class of the error it prints;
    with [%w] it keeps it.  The text is the constant prefix of the format. *)
Definition Errorf (msg : string) : error := Error KOther msg.
Definition Wrapf (msg : string) (e : error) : error := Error (ekind e) msg.

Definition IsNotFound (e : error) : bool := bool_decide (ekind e = KNotFound).
Definition IsAlreadyExists (e : error) : bool := bool_decide (ekind e = KAlreadyExists).
(** [os.IsNotExist] / [errors.Is(err, os.ErrNotExist)] and [os.IsExist]. *)
Definition IsNotExist (e : error) : bool := bool_decide (ekind e = KNotExist).
Definition IsExist (e : error) : bool := bool_decide (ekind e = KExist).

(** ** Outcomes *)
Inductive outcome (A : Type) :=
| Ok (a : A)
| Err (e : error)
| Panic (msg : string).
Arguments Ok {A} a.
Arguments Err {A} e.
Arguments Panic {A} msg.

Definition is_Ok {A} (o : outcome A) : bool := match o with Ok _ => true | _ => false end.
Definition is_Err {A} (o : outcome A) : bool := match o with Err _ => true | _ => false end.

Definition obind {A B} (o : outcome A) (f : A -> outcome B) : outcome B :=
  match o with
  | Ok a => f a
  | Err e => Err e
  | Panic m => Panic m
  end.

Notation "x <-o m ;; k" := (obind m (fun x => k))
  (at level 100, m at next level, right associativity) : go_scope.

(** A list of fallible results, in order, stopping at the first that is not [Ok]. *)
Fixpoint omapM {A B} (f : A -> outcome B) (l : list A) : outcome (list B) :=
  match l with
  | [] => Ok []
  | x :: l' => y <-o f x ;; ys <-o omapM f l' ;; Ok (y :: ys)
  end.

Lemma omapM_Ok_iff {A B} (f : A -> outcome B) l ys :
  omapM f l = Ok ys <-> Forall2 (fun x y => f x = Ok y) l ys.
Proof.
  revert ys. induction l as [|x l IH]; intros ys; simpl.
  - split; [by intros [= <-]|]. by inversion 1.
  - destruct (f x) as [y|e|m] eqn:Hx; simpl; [|split; [done|]; inversion 1; congruence..].
    destruct (omapM f l) as [zs|e|m] eqn:Hl; simpl.
    + split; [intros [= <-]; constructor; [done|]; by apply IH|].
      inversion 1 as [|? y' ? ys' Hy Hys]; subst. rewrite Hx in Hy. injection Hy as ->.
      apply IH in Hys. by injection Hys as ->.
    + split; [done|]. inversion 1 as [|? y' ? ys' Hy Hys]; subst.
      by apply IH in Hys.
    + split; [done|]. inversion 1 as [|? y' ? ys' Hy Hys]; subst.
      by apply IH in Hys.
Qed.

(** ** The monad *)
Record state (Mem W : Type) := State { mem : Mem; world : W }.
Arguments State {Mem W} mem world.
Arguments mem {Mem W} s.
Arguments world {Mem W} s.

Definition M (Mem W A : Type) : Type := state Mem W -> outcome A * state Mem W.

Section Ops.
Context {Mem W : Type}.
#[local] Abbreviation M := (M Mem W).
Implicit Types (s : state Mem W).

Definition ret {A} (a : A) : M A := fun s => (Ok a, s).
Definition fail {A} (e : error) : M A := fun s => (Err e, s).
Definition panic {A} (msg : string) : M A := fun s => (Panic msg, s).
Definition bind {A B} (m : M A) (f : A -> M B) : M B := fun s =>
  match m s with
  | (Ok a, s') => f a s'
  | (Err e, s') => (Err e, s')
  | (Panic msg, s') => (Panic msg, s')
  end.
(** [x, err := m]: the error as a value. *)
Definition try {A} (m : M A) : M (error + A) := fun s =>
  match m s with
  | (Ok a, s') => (Ok (inr a), s')
  | (Err e, s') => (Ok (inl e), s')
  | (Panic msg, s') => (Panic msg, s')
  end.
(** [if err != nil { return ..., wrap(err) }]. *)
Definition on_err {A} (wrap : error -> error) (m : M A) : M A := fun s =>
  match m s with
  | (Err e, s') => (Err (wrap e), s')
  | r => r
  end.
(** [defer cleanup()]: runs on every exit of [m], panics included. *)
Definition defer {A} (cleanup : M unit) (m : M A) : M A := fun s =>
  let '(o, s1) := m s in
  let '(_, s2) := cleanup s1 in (o, s2).
Definition get_mem : M Mem := fun s => (Ok (mem s), s).
Definition modify_mem (f : Mem -> Mem) : M unit := fun s =>
  (Ok tt, State (f (mem s)) (world s)).
Definition lift_o {A} (o : outcome A) : M A := fun s => (o, s).

Fixpoint for_each {A} (f : A -> M unit) (l : list A) : M unit :=
  match l with
  | [] => ret tt
  | x :: l' => bind (f x) (fun _ => for_each f l')
  end.

Fixpoint fold_m {A B} (f : B -> A -> M B) (b : B) (l : list A) : M B :=
  match l with
  | [] => ret b
  | x :: l' => bind (f b x) (fun b' => fold_m f b' l')
  end.
End Ops.

Notation "x <- m ;; k" := (bind m (fun x => k))
  (at level 100, m at next level, right associativity) : go_scope.
Notation "m ;;; k" := (bind m (fun _ => k))
  (at level 100, right associativity) : go_scope.

(** ** Monad laws *)
Section Laws.
Context {Mem W : Type}.
Implicit Types (s : state Mem W).

Lemma bind_ret_l {A B} (a : A) (f : A -> M Mem W B) s : bind (ret a) f s = f a s.
Proof. done. Qed.

Lemma bind_ret_r {A} (m : M Mem W A) s : bind m ret s = m s.
Proof. unfold bind, ret. by destruct (m s) as [[] ?]. Qed.

Lemma bind_assoc {A B C} (m : M Mem W A) (f : A -> M Mem W B) (g : B -> M Mem W C) s :
  bind (bind m f) g s = bind m (fun a => bind (f a) g) s.
Proof. unfold bind. by destruct (m s) as [[] ?]. Qed.

Lemma bind_Ok_inv {A B} (m : M Mem W A) (f : A -> M Mem W B) s b s' :
  bind m f s = (Ok b, s') ->
  exists a s1, m s = (Ok a, s1) /\ f a s1 = (Ok b, s').
Proof. unfold bind. destruct (m s) as [[a|e|p] s1]; intros H; [eauto|congruence..]. Qed.

Lemma bind_Err_inv {A B} (m : M Mem W A) (f : A -> M Mem W B) s e s' :
  bind m f s = (Err e, s') ->
  m s = (Err e, s') \/ exists a s1, m s = (Ok a, s1) /\ f a s1 = (Err e, s').
Proof. unfold bind. destruct (m s) as [[a|e'|p] s1]; intros H; [eauto| |]; left; congruence. Qed.

Lemma try_Ok_inv {A} (m : M Mem W A) s r s' :
  try m s = (Ok r, s') ->
  match r with inl e => m s = (Err e, s') | inr a => m s = (Ok a, s') end.
Proof. unfold try. destruct (m s) as [[a|e|p] s1]; intros [= <- <-]; done. Qed.

Lemma on_err_Ok_inv {A} w (m : M Mem W A) s a s' :
  on_err w m s = (Ok a, s') -> m s = (Ok a, s').
Proof. unfold on_err. destruct (m s) as [[a'|e|p] s1]; congruence. Qed.

Lemma defer_inv {A} c (m : M Mem W A) s o s' :
  defer c m s = (o, s') -> exists s1, m s = (o, s1) /\ snd (c s1) = s'.
Proof.
  unfold defer. destruct (m s) as [o' s1]. destruct (c s1) as [o2 s2] eqn:Hc.
  intros [= <- <-]. exists s1. by rewrite Hc.
Qed.
End Laws.

(** An invariant of the accumulator of a loop that ended. *)
Lemma fold_m_Ok_inv {Mem W A B} (I : B -> Prop) (f : B -> A -> M Mem W B) l b s r s' :
  fold_m f b l s = (Ok r, s') -> I b ->
  (forall b x s1 r s2, x ∈ l -> I b -> f b x s1 = (Ok r, s2) -> I r) -> I r.
Proof.
  revert b s. induction l as [|x l IH]; intros b s Hrun Hb Hf; simpl in Hrun.
  - injection Hrun as <- _. done.
  - apply bind_Ok_inv in Hrun as (b' & s1 & Hx & Hrun). eapply IH; [exact Hrun|..].
    + eapply Hf; [left|exact Hb|exact Hx].
    + intros ? y ? ? ? Hy. apply Hf. by right.
Qed.

(** Unfold a run that ended with [Ok] into the runs of its parts. *)
Ltac inv_ok :=
  repeat match goal with
  | H : bind _ _ _ = (Ok _, _) |- _ =>
      let a := fresh "a" in let s1 := fresh "s" in let H1 := fresh "Hrun" in
      apply bind_Ok_inv in H as (a & s1 & H1 & H)
  | H : on_err _ _ _ = (Ok _, _) |- _ => apply on_err_Ok_inv in H
  | H : try _ _ = (Ok _, _) |- _ => apply try_Ok_inv in H
  | H : ret _ _ = (Ok _, _) |- _ => injection H as <- <-
  | H : ret _ _ = (Ok _, _) |- _ => injection H; clear H; intros; subst
  | H : lift_o _ _ = (Ok _, _) |- _ => injection H as H <-
  | H : fail _ _ = (Ok _, _) |- _ => discriminate H
  | H : panic _ _ = (Ok _, _) |- _ => discriminate H
  end.

(** ** What every run of a computation does to the state

    [Steps R m]: from any state, whatever the outcome, the final state is
    related by [R] to the initial one.  For a preorder [R] this composes, so a
    whole handler's effect on the state follows from that of its effects. *)
Definition Steps {Mem W A} (R : relation (state Mem W)) (m : M Mem W A) : Prop :=
  forall s, R s (snd (m s)).

Section Steps.
Context {Mem W : Type} (R : relation (state Mem W)) `{!PreOrder R}.

Lemma Steps_ret {A} (a : A) : Steps R (ret a).
Proof. intros s. reflexivity. Qed.
Lemma Steps_fail {A} e : Steps R (@fail Mem W A e).
Proof. intros s. reflexivity. Qed.
Lemma Steps_panic {A} p : Steps R (@panic Mem W A p).
Proof. intros s. reflexivity. Qed.
Lemma Steps_lift_o {A} (o : outcome A) : Steps R (lift_o o).
Proof. intros s. reflexivity. Qed.
Lemma Steps_get_mem : Steps R get_mem.
Proof. intros s. reflexivity. Qed.
Lemma Steps_bind {A B} (m : M Mem W A) (f : A -> M Mem W B) :
  Steps R m -> (forall a, Steps R (f a)) -> Steps R (bind m f).
Proof.
  intros Hm Hf s. unfold bind. specialize (Hm s).
  destruct (m s) as [[a|e|p] s1]; simpl in *; [|done..].
  etransitivity; [exact Hm|apply Hf].
Qed.
Lemma Steps_try {A} (m : M Mem W A) : Steps R m -> Steps R (try m).
Proof. intros Hm s. specialize (Hm s). unfold try. by destruct (m s) as [[] ?]. Qed.
Lemma Steps_on_err {A} w (m : M Mem W A) : Steps R m -> Steps R (on_err w m).
Proof. intros Hm s. specialize (Hm s). unfold on_err. by destruct (m s) as [[] ?]. Qed.
Lemma Steps_defer {A} c (m : M Mem W A) : Steps R c -> Steps R m -> Steps R (defer c m).
Proof.
  intros Hc Hm s. specialize (Hm s). unfold defer. destruct (m s) as [o s1].
  specialize (Hc s1). destruct (c s1) as [o2 s2]. simpl in *. by etransitivity.
Qed.
Lemma Steps_for_each {A} (f : A -> M Mem W unit) l :
  (forall x, x ∈ l -> Steps R (f x)) -> Steps R (for_each f l).
Proof.
  induction l as [|x l IH]; intros Hf; simpl; [apply Steps_ret|].
  apply Steps_bind; [apply Hf; left|]. intros _. apply IH. intros y Hy.
  apply Hf. by right.
Qed.
Lemma Steps_fold_m {A B} (f : B -> A -> M Mem W B) b l :
  (forall b x, x ∈ l -> Steps R (f b x)) -> Steps R (fold_m f b l).
Proof.
  revert b. induction l as [|x l IH]; intros b Hf; simpl; [apply Steps_ret|].
  apply Steps_bind; [apply Hf; left|]. intros b'. apply IH. intros b'' y Hy.
  apply Hf. by right.
Qed.
End Steps.

(** A loop whose accumulator keeps an invariant that its body relies on. *)
Lemma Steps_fold_m_inv {Mem W A B} (R : relation (state Mem W)) `{!PreOrder R} (I : B -> Prop)
    (f : B -> A -> M Mem W B) l b s :
  I b ->
  (forall b x s, x ∈ l -> I b -> R s (snd (f b x s)) /\ forall r s', f b x s = (Ok r, s') -> I r) ->
  R s (snd (fold_m f b l s)) /\ forall r s', fold_m f b l s = (Ok r, s') -> I r.
Proof.
  revert b s. induction l as [|x l IH]; intros b s Hb Hf; simpl.
  - split; [reflexivity|]. by intros r s' [= <- _].
  - unfold bind. destruct (Hf b x s ltac:(left) Hb) as [HR HI].
    destruct (f b x s) as [[b'|e|p] s1]; simpl in *; [|split; [done|discriminate]..].
    destruct (IH b' s1 (HI b' s1 eq_refl)) as [HR' HI'].
    { intros ? y ? Hy. apply Hf. by right. }
    split; [|done]. by etransitivity.
Qed.

(** A property of states that every run keeps is the preorder [s ⊢ I → s' ⊢ I]. *)
Definition keeps {S} (I : S -> Prop) : relation S := fun s s' => I s -> I s'.
#[export] Instance keeps_preorder {S} (I : S -> Prop) : PreOrder (keeps I).
Proof. split; unfold keeps; [intros s; tauto|intros a b c; tauto]. Qed.

(** The computation leaves the memory of the process alone. *)
Definition same_mem {Mem W} : relation (state Mem W) := fun s s' => mem s' = mem s.
#[export] Instance same_mem_preorder {Mem W} : PreOrder (@same_mem Mem W).
Proof. split; unfold same_mem; [done|]. intros a b c -> ->. done. Qed.

(** Walk through a handler, closing the structural cases of [Steps]. *)
Ltac steps_tac :=
  repeat first
    [ progress intros
    | apply Steps_ret | apply Steps_fail | apply Steps_panic | apply Steps_lift_o
    | apply Steps_get_mem | apply Steps_bind | apply Steps_try | apply Steps_on_err
    | apply Steps_defer | apply Steps_for_each | apply Steps_fold_m
    | match goal with
      | |- Steps _ (match ?x with _ => _ end) => destruct x
      | |- PreOrder _ => typeclasses eauto
      end
    | solve [eauto with pcidev] ].

(** ** Computations that never panic *)
Definition NoPanic {Mem W A} (m : M Mem W A) : Prop := forall s p s', m s <> (Panic p, s').

Section NoPanic.
Context {Mem W : Type}.

Lemma NoPanic_ret {A} (a : A) : NoPanic (@ret Mem W A a).
Proof. intros s p s'. discriminate. Qed.
Lemma NoPanic_fail {A} e : NoPanic (@fail Mem W A e).
Proof. intros s p s'. discriminate. Qed.
Lemma NoPanic_get_mem : NoPanic (@get_mem Mem W).
Proof. intros s p s'. discriminate. Qed.
Lemma NoPanic_modify_mem f : NoPanic (@modify_mem Mem W f).
Proof. intros s p s'. discriminate. Qed.
Lemma NoPanic_bind {A B} (m : M Mem W A) (f : A -> M Mem W B) :
  NoPanic m -> (forall a, NoPanic (f a)) -> NoPanic (bind m f).
Proof.
  intros Hm Hf s p s'. unfold bind. destruct (m s) as [[a|e|q] s1] eqn:E; [apply Hf|discriminate|].
  by apply Hm in E.
Qed.
Lemma NoPanic_try {A} (m : M Mem W A) : NoPanic m -> NoPanic (try m).
Proof.
  intros Hm s p s'. unfold try. destruct (m s) as [[a|e|q] s1] eqn:E; [discriminate..|].
  by apply Hm in E.
Qed.
Lemma NoPanic_on_err {A} w (m : M Mem W A) : NoPanic m -> NoPanic (on_err w m).
Proof.
  intros Hm s p s'. unfold on_err. destruct (m s) as [[a|e|q] s1] eqn:E; [discriminate..|].
  by apply Hm in E.
Qed.
Lemma NoPanic_defer {A} c (m : M Mem W A) : NoPanic m -> NoPanic (defer c m).
Proof.
  intros Hm s p s'. unfold defer. destruct (m s) as [o s1] eqn:E. destruct (c s1).
  intros [= -> ->]. by apply Hm in E.
Qed.
Lemma NoPanic_for_each {A} (f : A -> M Mem W unit) l :
  (forall x, x ∈ l -> NoPanic (f x)) -> NoPanic (for_each f l).
Proof.
  induction l as [|x l IH]; intros Hf; simpl; [apply NoPanic_ret|].
  apply NoPanic_bind; [apply Hf; left|]. intros _. apply IH. intros y Hy. apply Hf. by right.
Qed.
Lemma NoPanic_fold_m {A B} (f : B -> A -> M Mem W B) b l :
  (forall b x, x ∈ l -> NoPanic (f b x)) -> NoPanic (fold_m f b l).
Proof.
  revert b. induction l as [|x l IH]; intros b Hf; simpl; [apply NoPanic_ret|].
  apply NoPanic_bind; [apply Hf; left|]. intros b'. apply IH. intros b'' y Hy. apply Hf. by right.
Qed.
End NoPanic.

(** Walk through a handler, closing the structural cases of [NoPanic]. *)
Ltac nopanic_tac :=
  repeat first
    [ progress intros
    | apply NoPanic_ret | apply NoPanic_fail | apply NoPanic_get_mem | apply NoPanic_modify_mem
    | apply NoPanic_bind | apply NoPanic_try | apply NoPanic_on_err | apply NoPanic_defer
    | apply NoPanic_for_each | apply NoPanic_fold_m
    | match goal with
      | |- NoPanic (match ?x with _ => _ end) => destruct x
      end
    | solve [eauto with pcidev] ].
