(* ===== verification/Types.v ===== *)
(** * The objects the controllers store and read

    The custom resources of pkg/apis/devices.harvesterhci.io/v1beta1, with the
    fields the source declares, and, of the objects that other projects define
    (KubeVirt's and Kubernetes' own), the fields the program reads or writes.

    A nil Go map and an empty one behave alike in every place the program uses
    one (it allocates before it writes), so both are the empty [gmap].  A nil
    slice is told apart from an empty one ([option (list _)]) where
    [reflect.DeepEqual] compares it, and so is the map of a vGPU's types. *)

From S2P Require Import Prelude.

(** ** Metadata *)
Record OwnerReference := {
  or_APIVersion : string;
  or_Kind : string;
  or_Name : string;
  or_UID : string
}.
#[export] Instance OwnerReference_eq_dec : EqDecision OwnerReference.
Proof. solve_decision. Defined.

Record ObjectMeta := {
  m_Kind : string;
  m_APIVersion : string;
  m_Name : string;
  m_Namespace : string;
  m_UID : string;
  m_Labels : gmap string string;
  m_Annotations : gmap string string;
  m_OwnerReferences : option (list OwnerReference);
  m_Finalizers : list string;
  m_DeletionTimestamp : bool
}.
#[export] Instance ObjectMeta_eq_dec : EqDecision ObjectMeta.
Proof. solve_decision. Defined.

(** The metadata of a new object: a name, labels and annotations. *)
Definition new_meta (name : string) (labels annotations : gmap string string) : ObjectMeta :=
  {| m_Kind := ""; m_APIVersion := ""; m_Name := name; m_Namespace := ""; m_UID := "";
     m_Labels := labels; m_Annotations := annotations; m_OwnerReferences := None;
     m_Finalizers := []; m_DeletionTimestamp := false |}.

Definition set_Labels (l : gmap string string) (m : ObjectMeta) : ObjectMeta :=
  {| m_Kind := m_Kind m; m_APIVersion := m_APIVersion m; m_Name := m_Name m;
     m_Namespace := m_Namespace m; m_UID := m_UID m; m_Labels := l;
     m_Annotations := m_Annotations m; m_OwnerReferences := m_OwnerReferences m;
     m_Finalizers := m_Finalizers m; m_DeletionTimestamp := m_DeletionTimestamp m |}.
Definition set_Annotations (a : gmap string string) (m : ObjectMeta) : ObjectMeta :=
  {| m_Kind := m_Kind m; m_APIVersion := m_APIVersion m; m_Name := m_Name m;
     m_Namespace := m_Namespace m; m_UID := m_UID m; m_Labels := m_Labels m;
     m_Annotations := a; m_OwnerReferences := m_OwnerReferences m;
     m_Finalizers := m_Finalizers m; m_DeletionTimestamp := m_DeletionTimestamp m |}.
Definition set_OwnerReferences (o : option (list OwnerReference)) (m : ObjectMeta) : ObjectMeta :=
  {| m_Kind := m_Kind m; m_APIVersion := m_APIVersion m; m_Name := m_Name m;
     m_Namespace := m_Namespace m; m_UID := m_UID m; m_Labels := m_Labels m;
     m_Annotations := m_Annotations m; m_OwnerReferences := o;
     m_Finalizers := m_Finalizers m; m_DeletionTimestamp := m_DeletionTimestamp m |}.
Definition set_Finalizers (f : list string) (m : ObjectMeta) : ObjectMeta :=
  {| m_Kind := m_Kind m; m_APIVersion := m_APIVersion m; m_Name := m_Name m;
     m_Namespace := m_Namespace m; m_UID := m_UID m; m_Labels := m_Labels m;
     m_Annotations := m_Annotations m; m_OwnerReferences := m_OwnerReferences m;
     m_Finalizers := f; m_DeletionTimestamp := m_DeletionTimestamp m |}.

(** ** Constants shared by the packages *)
Definition PciDeviceDriver : string := "harvesterhci.io/pcideviceDriver".
Definition NodeKeyName : string := "nodename".
Definition DeviceAllocationKey : string := "harvesterhci.io/deviceAllocationDetails".
Definition SkipVFIOBindingAnnotationKey : string := "pcidevices.harvesterhci.io/skip-vfio-binding".
Definition PCIDeviceOverrideResourceName : string :=
  "pcidevice.harvesterhci.io/override-resource-name".
Definition ParentSRIOVGPUDeviceLabel : string := "harvesterhci.io/parentSRIOVGPUDevice".
Definition ParentSRIOVNetworkDevice : string := "harvesterhci.io/parent-sriov-network-device".
Definition NvidiaDriverNeededKey : string := "sriovgpu.harvesterhci.io/driver-needed".
Definition SRIOVFromVF : string := "sriov-dev-from-vf".
Definition USBDevicePCIAddress : string := "usb-device-pci-address".

(** ** PCI devices and claims *)
Record PCIDeviceStatus := {
  pd_Address : string;
  pd_VendorID : string;
  pd_DeviceID : string;
  pd_ClassID : string;
  pd_IOMMUGroup : string;
  pd_NodeName : string;
  pd_ResourceName : string;
  pd_Description : string;
  pd_KernelDriverInUse : string
}.
#[export] Instance PCIDeviceStatus_eq_dec : EqDecision PCIDeviceStatus.
Proof. solve_decision. Defined.

Record PCIDevice := { pd_meta : ObjectMeta; pd_Status : PCIDeviceStatus }.
#[export] Instance PCIDevice_eq_dec : EqDecision PCIDevice.
Proof. solve_decision. Defined.

Definition set_KernelDriverInUse (d : string) (st : PCIDeviceStatus) : PCIDeviceStatus :=
  {| pd_Address := pd_Address st; pd_VendorID := pd_VendorID st;
     pd_DeviceID := pd_DeviceID st; pd_ClassID := pd_ClassID st;
     pd_IOMMUGroup := pd_IOMMUGroup st; pd_NodeName := pd_NodeName st;
     pd_ResourceName := pd_ResourceName st; pd_Description := pd_Description st;
     pd_KernelDriverInUse := d |}.
Definition set_ResourceName (r : string) (st : PCIDeviceStatus) : PCIDeviceStatus :=
  {| pd_Address := pd_Address st; pd_VendorID := pd_VendorID st;
     pd_DeviceID := pd_DeviceID st; pd_ClassID := pd_ClassID st;
     pd_IOMMUGroup := pd_IOMMUGroup st; pd_NodeName := pd_NodeName st;
     pd_ResourceName := r; pd_Description := pd_Description st;
     pd_KernelDriverInUse := pd_KernelDriverInUse st |}.

Record PCIDeviceClaimSpec := {
  pdc_Address : string;
  pdc_NodeName : string;
  pdc_UserName : string;
  pdc_DisableResourcePooling : bool
}.
Record PCIDeviceClaimStatus := {
  pdc_KernelDriverToUnbind : string;
  pdc_PassthroughEnabled : bool
}.
Record PCIDeviceClaim := {
  pdc_meta : ObjectMeta;
  pdc_Spec : PCIDeviceClaimSpec;
  pdc_Status : PCIDeviceClaimStatus
}.
#[export] Instance PCIDeviceClaimSpec_eq_dec : EqDecision PCIDeviceClaimSpec.
Proof. solve_decision. Defined.
#[export] Instance PCIDeviceClaimStatus_eq_dec : EqDecision PCIDeviceClaimStatus.
Proof. solve_decision. Defined.
#[export] Instance PCIDeviceClaim_eq_dec : EqDecision PCIDeviceClaim.
Proof. solve_decision. Defined.

(** ** SR-IOV network devices, SR-IOV GPUs, vGPUs *)
Record SRIOVNetworkDeviceSpec := { sn_Address : string; sn_NodeName : string; sn_NumVFs : Z }.
Record SRIOVNetworkDeviceStatus := {
  sn_VFAddresses : option (list string);
  sn_VFPCIDevices : option (list string);
  sn_status : string
}.
#[export] Instance SRIOVNetworkDeviceStatus_eq_dec : EqDecision SRIOVNetworkDeviceStatus.
Proof. solve_decision. Defined.
Record SRIOVNetworkDevice := {
  sn_meta : ObjectMeta;
  sn_Spec : SRIOVNetworkDeviceSpec;
  sn_Status : SRIOVNetworkDeviceStatus
}.
Definition DeviceDisabled : string := "sriovNetworkDeviceDisabled".
Definition DeviceEnabled : string := "sriovNetworkDeviceEnabled".

Record SRIOVGPUDeviceSpec := { gpu_Address : string; gpu_NodeName : string; gpu_Enabled : bool }.
Record SRIOVGPUDeviceStatus := {
  gpu_VFAddresses : option (list string);
  gpu_VGPUDevices : option (list string)
}.
#[export] Instance SRIOVGPUDeviceSpec_eq_dec : EqDecision SRIOVGPUDeviceSpec.
Proof. solve_decision. Defined.
#[export] Instance SRIOVGPUDeviceStatus_eq_dec : EqDecision SRIOVGPUDeviceStatus.
Proof. solve_decision. Defined.
Record SRIOVGPUDevice := {
  gpu_meta : ObjectMeta;
  gpu_Spec : SRIOVGPUDeviceSpec;
  gpu_Status : SRIOVGPUDeviceStatus
}.

Record VGPUDeviceSpec := {
  vgpu_VGPUTypeName : string;
  vgpu_Address : string;
  vgpu_Enabled : bool;
  vgpu_NodeName : string;
  vgpu_ParentGPUDeviceAddress : string
}.
(** [VGPUStatus]: the enabled constant, or the empty string. *)
Definition VGPUEnabled : string := "vGPUConfigured".
Definition VGPUDisabled : string := "".
Record VGPUDeviceStatus := {
  vgpu_VGPUStatus : string;
  vgpu_UUID : string;
  vgpu_ConfiguredVGPUTypeName : string;
  vgpu_AvailableTypes : option (gmap string string)
}.
#[export] Instance VGPUDeviceSpec_eq_dec : EqDecision VGPUDeviceSpec.
Proof. solve_decision. Defined.
#[export] Instance VGPUDeviceStatus_eq_dec : EqDecision VGPUDeviceStatus.
Proof. solve_decision. Defined.
Record VGPUDevice := {
  vgpu_meta : ObjectMeta;
  vgpu_Spec : VGPUDeviceSpec;
  vgpu_Status : VGPUDeviceStatus
}.

(** ** MIG configurations *)
Record MigProfileRequest := { mpr_Name : string; mpr_ID : Z; mpr_Requested : Z }.
Record MigProfileStatus := {
  mps_Name : string;
  mps_ID : Z;
  mps_Available : Z;
  mps_Total : Z;
  mps_VGPUID : list string
}.
#[export] Instance MigProfileRequest_eq_dec : EqDecision MigProfileRequest.
Proof. solve_decision. Defined.
#[export] Instance MigProfileStatus_eq_dec : EqDecision MigProfileStatus.
Proof. solve_decision. Defined.
Record MigConfigurationSpec := {
  mig_Enabled : bool;
  mig_GPUAddress : string;
  mig_NodeName : string;
  mig_ProfileSpec : option (list MigProfileRequest)
}.
(** [MIGConfigurationStatus] is a string; a new status has the empty one. *)
Definition MIGConfigurationSynced : string := "synced".
Definition MIGConfigurationOutOfSync : string := "out-of-sync".
Definition MIGConfigurationDisabled : string := "disabled".
Record MigConfigurationStatus := {
  mig_ProfileStatus : option (list MigProfileStatus);
  mig_status : string;
  mig_Message : string
}.
#[export] Instance MigConfigurationStatus_eq_dec : EqDecision MigConfigurationStatus.
Proof. solve_decision. Defined.
Record MigConfiguration := {
  mig_meta : ObjectMeta;
  mig_Spec : MigConfigurationSpec;
  mig_Status : MigConfigurationStatus
}.

(** ** USB devices and claims *)
Definition USBDeviceStatusOrphaned : string := "orphaned".
Record USBDeviceStatus := {
  usb_VendorID : string;
  usb_ProductID : string;
  usb_NodeName : string;
  usb_ResourceName : string;
  usb_DevicePath : string;
  usb_Description : string;
  usb_PCIAddress : string;
  usb_ClassType : string;
  usb_Enabled : bool;
  usb_status : string;
  usb_Message : string
}.
#[export] Instance USBDeviceStatus_eq_dec : EqDecision USBDeviceStatus.
Proof. solve_decision. Defined.
Record USBDevice := { usb_meta : ObjectMeta; usb_Status : USBDeviceStatus }.
#[export] Instance USBDevice_eq_dec : EqDecision USBDevice.
Proof. solve_decision. Defined.
Record USBDeviceClaimStatus := { uc_NodeName : string; uc_PCIAddress : string }.
Record USBDeviceClaim := {
  uc_meta : ObjectMeta;
  uc_UserName : string;
  uc_Status : USBDeviceClaimStatus
}.

(** The Node of this API group, one per cluster node, and Kubernetes' own Node. *)
Record Node := { node_meta : ObjectMeta }.
Record CoreNode := { cn_meta : ObjectMeta }.

(** ** KubeVirt and Kubernetes objects, with the fields the program uses *)
Record PciHostDevice := {
  phd_PCIVendorSelector : string;
  phd_ResourceName : string;
  phd_ExternalResourceProvider : bool
}.
#[export] Instance PciHostDevice_eq_dec : EqDecision PciHostDevice.
Proof. solve_decision. Defined.
Record USBSelector := { us_Vendor : string; us_Product : string }.
#[export] Instance USBSelector_eq_dec : EqDecision USBSelector.
Proof. solve_decision. Defined.
Record USBHostDevice := {
  uhd_Selectors : list USBSelector;
  uhd_ResourceName : string;
  uhd_ExternalResourceProvider : bool
}.
#[export] Instance USBHostDevice_eq_dec : EqDecision USBHostDevice.
Proof. solve_decision. Defined.
Record PermittedHostDevices := {
  php_PciHostDevices : list PciHostDevice;
  php_USB : list USBHostDevice
}.
#[export] Instance PermittedHostDevices_eq_dec : EqDecision PermittedHostDevices.
Proof. solve_decision. Defined.
Record KubeVirt := {
  kv_meta : ObjectMeta;
  kv_PermittedHostDevices : option PermittedHostDevices
}.

(** [HostDevice] and [GPU] of a VM: a name and the resource it asks for. *)
Record DeviceRef := { dr_Name : string; dr_DeviceName : string }.
#[export] Instance DeviceRef_eq_dec : EqDecision DeviceRef.
Proof. solve_decision. Defined.
(** A virtual machine: [Spec.Template] is a pointer, and the devices are those of the
    template; without one both lists are empty and reading them panics. *)
Record VirtualMachine := {
  vm_meta : ObjectMeta;
  vm_Template : bool;
  vm_HostDevices : list DeviceRef;
  vm_GPUs : list DeviceRef
}.
Record VirtualMachineInstance := {
  vmi_meta : ObjectMeta;
  vmi_HostDevices : list DeviceRef;
  vmi_GPUs : list DeviceRef;
  vmi_Phase : string;
  vmi_NodeName : string
}.
Record Pod := { pod_meta : ObjectMeta; pod_Phase : string; pod_NodeName : string }.
Record VlanConfig := { vc_meta : ObjectMeta; vc_NICs : list string }.

(** The allocation details kept in a VM's annotation. *)
Record AllocationDetails := {
  ad_GPUs : gmap string (list string);
  ad_HostDevices : gmap string (list string)
}.

(** ** What the node's hardware libraries report *)
(** ghw's PCI device, network card; netlink's link; nvpci's device. *)
Record pci_Device := {
  pci_Address : string;
  pci_VendorID : string; pci_VendorName : string;
  pci_ProductID : string; pci_ProductName : string;
  pci_ClassID : string; pci_ClassName : string;
  pci_SubclassID : string; pci_SubclassName : string;
  pci_Driver : string
}.
Record NIC := { nic_Name : string; nic_IsVirtual : bool; nic_PCIAddress : option string }.
Record Link := { link_Name : string; link_Index : Z; link_Slave : bool; link_MasterIndex : Z }.
Record NvidiaPCIDevice := { nv_Address : string; nv_Path : string; nv_IsGPU : bool; nv_IsVF : bool }.

(** ** The kinds of objects of the API, and the object of each kind *)
Inductive Kind :=
| KPCIDevice | KPCIDeviceClaim | KSRIOVNetworkDevice | KSRIOVGPUDevice | KVGPUDevice
| KMigConfiguration | KUSBDevice | KUSBDeviceClaim | KNode | KCoreNode | KPod
| KVirtualMachine | KVirtualMachineInstance | KKubeVirt | KVlanConfig.
#[export] Instance Kind_eq_dec : EqDecision Kind.
Proof. solve_decision. Defined.

Definition Obj (k : Kind) : Type :=
  match k with
  | KPCIDevice => PCIDevice
  | KPCIDeviceClaim => PCIDeviceClaim
  | KSRIOVNetworkDevice => SRIOVNetworkDevice
  | KSRIOVGPUDevice => SRIOVGPUDevice
  | KVGPUDevice => VGPUDevice
  | KMigConfiguration => MigConfiguration
  | KUSBDevice => USBDevice
  | KUSBDeviceClaim => USBDeviceClaim
  | KNode => Node
  | KCoreNode => CoreNode
  | KPod => Pod
  | KVirtualMachine => VirtualMachine
  | KVirtualMachineInstance => VirtualMachineInstance
  | KKubeVirt => KubeVirt
  | KVlanConfig => VlanConfig
  end.

Definition meta_of {k : Kind} : Obj k -> ObjectMeta :=
  match k with
  | KPCIDevice => pd_meta
  | KPCIDeviceClaim => pdc_meta
  | KSRIOVNetworkDevice => sn_meta
  | KSRIOVGPUDevice => gpu_meta
  | KVGPUDevice => vgpu_meta
  | KMigConfiguration => mig_meta
  | KUSBDevice => usb_meta
  | KUSBDeviceClaim => uc_meta
  | KNode => node_meta
  | KCoreNode => cn_meta
  | KPod => pod_meta
  | KVirtualMachine => vm_meta
  | KVirtualMachineInstance => vmi_meta
  | KKubeVirt => kv_meta
  | KVlanConfig => vc_meta
  end.

Definition name_of {k : Kind} (o : Obj k) : string := m_Name (meta_of o).
