(* ===== verification/Effects.v ===== *)
(** * What the program asks of its surroundings

    The Kubernetes API server and the informer caches, the node's file system,
    the kernel-module loader, the commands run on the driver pod and the
    hardware libraries are code outside the repository: each call is an effect,
    and the class [World] is the interface through which the program performs
    one.  Every definition of a handler is generic in the world; theorems state
    as hypotheses what they rely on.  [Logged] turns any world into one that
    records the calls, so that theorems can speak of their order. *)

From S2P Require Import Prelude GoMonad Types.

(** The executor of a GPU command: the local one, or one bound to a driver pod. *)
Inductive Executor := LocalExecutor | RemoteExecutor (pod : string).

Inductive Eff : Type -> Type :=
(* clients of the API server *)
| ApiGet (k : Kind) (ns name : string) : Eff (Obj k)
| ApiList (k : Kind) (ns : string) (sel : gmap string string) : Eff (list (Obj k))
| ApiCreate (k : Kind) (o : Obj k) : Eff (Obj k)
| ApiUpdate (k : Kind) (o : Obj k) : Eff (Obj k)
| ApiUpdateStatus (k : Kind) (o : Obj k) : Eff (Obj k)
| ApiDelete (k : Kind) (name : string) : Eff unit
(* informer caches and work queues *)
| CacheGet (k : Kind) (ns name : string) : Eff (Obj k)
| CacheList (k : Kind) (sel : gmap string string) : Eff (list (Obj k))
| CacheByIndex (k : Kind) (index key : string) : Eff (list (Obj k))
| CacheWrite (k : Kind) (o : Obj k) : Eff unit (* in place, through the pointer that a lookup returned *)
| Enqueue (k : Kind) (name : string) : Eff unit
| EnqueueAfter (k : Kind) (name : string) (seconds : Z) : Eff unit
(* the file system *)
| FsStat (path : string) : Eff unit
| FsReadFile (path : string) : Eff string
| FsReadlink (path : string) : Eff string
| FsReadDir (path : string) : Eff (list (string * bool))
| FsOpenWrite (path : string) : Eff unit
| FsWrite (path data : string) : Eff unit
| FsWriteFile (path data : string) : Eff unit
| FsRemove (path : string) : Eff unit
| FsLstatSymlink (path : string) : Eff bool
| FsGlob (pattern : string) : Eff (list string)
| FsEvalSymlinks (path : string) : Eff string
| FsWalk (root : string) : Eff (list (string * string)) (* the paths visited, and their names *)
(* fsnotify; the sockets and servers of the device plugins: a socket is made, a goroutine
   starts to serve it, it answers a dial, the kubelet is told its endpoint, and the
   error of the goroutine is awaited *)
| WatchAdd (path : string) : Eff unit
| NetListen (path : string) : Eff unit
| GrpcDial (path : string) : Eff unit
| GrpcRegister (endpoint resourceName : string) : Eff unit
| GrpcServe (path : string) : Eff unit
| GrpcWait (path : string) : Eff unit
(* kernel modules, commands, hardware *)
| ModProbe (driver : string) : Eff unit
| ExecCheckReady (ex : Executor) : Eff string
| ExecRun (ex : Executor) (cmd : string) (args : list string) : Eff string
| GhwPCI : Eff (list pci_Device)
| GhwNetwork : Eff (list NIC)
| NetlinkLinks : Eff (list Link)
| KubeClient : Eff unit (* a client for commands in a pod *)
| NvGPUs : Eff (list NvidiaPCIDevice)
| NvDevices : Eff (list NvidiaPCIDevice)
(* the process: the package's mutex, and a sleep, which answers which of the
   goroutines blocked on a channel got to send meanwhile *)
| LockAcquire (name : string) : Eff unit
| LockRelease (name : string) : Eff unit
| SleepFor (seconds : Z) : Eff (list nat).

(** Constants and pure functions of other modules that the program uses: ghw's
    name for an unknown product, KubeVirt's environment variable for a resource
    and its paths, the phases of a running pod and VM, and the JSON encoding of
    the values it stores in annotations and patches. *)
Class External := {
  ghw_UNKNOWN : string;
  ResourceNameToEnvVar : string -> string -> string;
  DevicePluginPath : string;
  HostRootMount : string;
  Pod_Running : string;
  VMI_Running : string;
  marshal_AllocationDetails : AllocationDetails -> string;
  unmarshal_AllocationDetails : string -> option AllocationDetails;
  marshal_HostDevice : DeviceRef -> string;
  unmarshal_strings : string -> option (list string)
}.

(** The interface of the surroundings: any call either fails or answers. *)
Class World (W : Type) := perform : forall {X : Type}, Eff X -> W -> (error + X) * W.

Section Eff.
Context {Mem W : Type} `{World W}.
Implicit Types (s : state Mem W).

(** One call, as a computation. *)
Definition eff {X} (e : Eff X) : M Mem W X := fun s =>
  let '(r, w') := perform e (world s) in
  (match r with inl er => Err er | inr x => Ok x end, State (mem s) w').

(** [l.Lock(); defer l.Unlock(); body]. *)
Definition with_lock {A} (l : string) (body : M Mem W A) : M Mem W A :=
  eff (LockAcquire l) ;;; defer (eff (LockRelease l)) body.

Lemma Steps_eff_same_mem {X} (e : Eff X) : Steps same_mem (eff e).
Proof. intros s. unfold eff. by destruct (perform e (world s)) as [[] ?]. Qed.

Lemma eff_Ok_inv {X} (e : Eff X) s x s' :
  eff e s = (Ok x, s') ->
  perform e (world s) = (inr x, world s') /\ mem s' = mem s.
Proof.
  unfold eff. destruct (perform e (world s)) as [[er|y] w']; intros [= <- <-]; done.
Qed.

Lemma eff_Err_inv {X} (e : Eff X) s er s' :
  eff e s = (Err er, s') ->
  perform e (world s) = (inl er, world s') /\ mem s' = mem s.
Proof.
  unfold eff. destruct (perform e (world s)) as [[er'|y] w']; intros [= <- <-]; done.
Qed.

Lemma eff_not_Panic {X} (e : Eff X) s p s' : eff e s <> (Panic p, s').
Proof. unfold eff. by destruct (perform e (world s)) as [[] ?]. Qed.

Lemma with_lock_Ok_inv {A} l (body : M Mem W A) s a s' :
  with_lock l body s = (Ok a, s') ->
  exists s1 s2, eff (LockAcquire l) s = (Ok tt, s1) /\ body s1 = (Ok a, s2) /\
                snd (eff (LockRelease l) s2) = s'.
Proof.
  unfold with_lock. intros Hrun.
  apply bind_Ok_inv in Hrun as ([] & s1 & Hacq & Hrun).
  apply defer_inv in Hrun as (s2 & Hbody & Hrel). eauto.
Qed.

Lemma Steps_with_lock {A} (R : relation (state Mem W)) `{!PreOrder R} l (m : M Mem W A) :
  (forall X (e : Eff X), Steps R (eff e)) -> Steps R m -> Steps R (with_lock l m).
Proof.
  intros He Hm. apply Steps_bind; [done|apply He|]. intros _.
  apply Steps_defer; [done|apply He|done].
Qed.
End Eff.

#[export] Hint Resolve Steps_eff_same_mem : pcidev.

Lemma NoPanic_eff {Mem W} `{World W} {X} (e : Eff X) : NoPanic (Mem := Mem) (eff e).
Proof. intros s p s'. apply eff_not_Panic. Qed.
#[export] Hint Resolve NoPanic_eff : pcidev.

(** ** Caches that answer

    An informer cache is a copy of the cluster in the process: while a handler
    that only reads runs, it can be seen as fixed contents, and the only error of
    a lookup by name is that there is no such object. *)
Record contents := {
  c_get : forall k : Kind, string -> option (Obj k);
  c_index : forall k : Kind, string -> string -> list (Obj k);
  c_list : forall k : Kind, gmap string string -> list (Obj k)
}.

Definition from_cache {A} (o : option A) : outcome A :=
  match o with Some x => Ok x | None => Err (Error KNotFound "not found") end.

Class Answers {Mem W} `{World W} (c : contents) (s : state Mem W) := {
  answers_get : forall k n, eff (CacheGet k "" n) s = (from_cache (c_get c k n), s);
  answers_index : forall k i key, eff (CacheByIndex k i key) s = (Ok (c_index c k i key), s);
  answers_list : forall k sel, eff (CacheList k sel) s = (Ok (c_list c k sel), s)
}.

(** ** Logged worlds *)

(** A call together with its answer. *)
Inductive event :=
| Ev {X : Type} (e : Eff X) (r : error + X).

Definition Logged (W : Type) : Type := W * list event.

#[export] Instance Logged_world {W} `{World W} : World (Logged W) :=
  fun X e wl =>
    let '(w, log) := wl in
    let '(r, w') := perform e w in
    (r, (w', log ++ [Ev e r])).

Definition log_of {Mem W} (s : state Mem (Logged W)) : list event := snd (world s).

(** The run appended [evs] to the log, all of which satisfy [P]. *)
Definition emits {Mem W} (P : event -> Prop) : relation (state Mem (Logged W)) :=
  fun s s' => exists evs, log_of s' = log_of s ++ evs /\ Forall P evs.

#[export] Instance emits_preorder {Mem W} P : PreOrder (@emits Mem W P).
Proof.
  split.
  - intros s. exists []. split; [by rewrite app_nil_r|constructor].
  - intros a b c (e1 & H1 & F1) (e2 & H2 & F2). exists (e1 ++ e2).
    split; [by rewrite H2, H1, app_assoc|by apply Forall_app].
Qed.

Section Logged.
Context {Mem W : Type} `{World W}.
Implicit Types (s : state Mem (Logged W)).

Lemma eff_log {X} (e : Eff X) s :
  exists r w', perform e (fst (world s)) = (r, w') /\
    eff e s = (match r with inl er => Err er | inr x => Ok x end,
               State (mem s) (w', log_of s ++ [Ev e r])).
Proof.
  unfold eff, log_of. destruct s as [m [w log]]. cbn.
  destruct (perform e w) as [r w'] eqn:E. by exists r, w'.
Qed.

Lemma Steps_emits_eff {X} (P : event -> Prop) (e : Eff X) :
  (forall r, P (Ev e r)) -> Steps (@emits Mem W P) (eff e).
Proof.
  intros HP s. destruct (eff_log e s) as (r & w' & _ & ->). exists [Ev e r]. cbn.
  split; [done|]. by repeat constructor.
Qed.

Lemma Steps_emits_modify P f : Steps (@emits Mem W P) (modify_mem f).
Proof. intros s. exists []. cbn. split; [by rewrite app_nil_r|constructor]. Qed.

Lemma eff_Ok_log {X} (e : Eff X) s x s' :
  eff e s = (Ok x, s') -> log_of s' = log_of s ++ [Ev e (inr x)] /\ mem s' = mem s.
Proof.
  destruct (eff_log e s) as (r & w' & _ & ->). destruct r as [er|y]; intros [= <- <-]; done.
Qed.

Lemma try_eff_log {X} (e : Eff X) s r s' :
  try (eff e) s = (Ok r, s') -> log_of s' = log_of s ++ [Ev e r] /\ mem s' = mem s.
Proof.
  unfold try. destruct (eff_log e s) as (r' & w' & _ & ->). destruct r'; by intros [= <- <-].
Qed.

(** Whatever a computation does, the log only grows. *)
Lemma emits_weaken (P Q : event -> Prop) (s s' : state Mem (Logged W)) :
  (forall ev, P ev -> Q ev) -> emits P s s' -> emits Q s s'.
Proof. intros HPQ (evs & Hl & HP). exists evs. split; [done|]. by eapply Forall_impl. Qed.

Lemma log_mono {A} (m : M Mem (Logged W) A) P s o s' ev :
  Steps (@emits Mem W P) m -> m s = (o, s') -> ev ∈ log_of s -> ev ∈ log_of s'.
Proof.
  intros Hm Hrun Hev. specialize (Hm s). rewrite Hrun in Hm. destruct Hm as (evs & Hl & _).
  simpl in Hl. rewrite Hl. apply elem_of_app. by left.
Qed.
End Logged.

(** Every call is allowed. *)
Definition any_event : event -> Prop := fun _ => True.

(** A loop that ended with every element done, for a property of the log that stays
    true as the log grows. *)
Lemma for_each_done {Mem W A} (f : A -> M Mem (Logged W) unit) (Q : A -> list event -> Prop) l s s' :
  for_each f l s = (Ok tt, s') ->
  (forall x, Steps (emits any_event) (f x)) ->
  (forall x l1 l2, l1 ⊆ l2 -> Q x l1 -> Q x l2) ->
  (forall x s1 s2, x ∈ l -> f x s1 = (Ok tt, s2) -> Q x (log_of s2)) ->
  Forall (fun x => Q x (log_of s')) l.
Proof.
  intros Hrun Hsteps Hmono. revert s Hrun. induction l as [|x l IH]; intros s Hrun HQ; [constructor|].
  cbn [for_each] in Hrun. apply bind_Ok_inv in Hrun as ([] & s1 & Hx & Hrun). constructor.
  - apply (Hmono x (log_of s1)).
    + intros ev Hev. refine (log_mono _ any_event _ _ _ _ _ Hrun Hev).
      apply Steps_for_each; [typeclasses eauto|auto].
    + eapply HQ; [left|exact Hx].
  - eapply IH; [exact Hrun|]. intros y s2 s3 Hy. apply HQ. by right.
Qed.
Lemma Steps_emits_any {Mem W} `{World W} {X} (e : Eff X) : Steps (@emits Mem W any_event) (eff e).
Proof. by apply Steps_emits_eff. Qed.
#[export] Hint Resolve Steps_emits_any Steps_emits_modify : pcidev.

(** ** Locks: every acquisition is followed by its release, on every path *)
Definition acquires (l : string) (ev : event) : nat :=
  match ev with
  | Ev e r =>
      match e in Eff X return (error + X) -> nat with
      | LockAcquire n => fun r =>
          if n ==s l then match r with inr _ => 1 | inl _ => 0 end else 0
      | _ => fun _ => 0
      end r
  end.
Definition releases (l : string) (ev : event) : nat :=
  match ev with
  | Ev e _ => match e with LockRelease n => if n ==s l then 1 else 0 | _ => 0 end
  end.
Definition total (f : event -> nat) (evs : list event) : nat := foldr (fun ev n => f ev + n) 0 evs.

Lemma total_app f l1 l2 : total f (l1 ++ l2) = total f l1 + total f l2.
Proof. induction l1 as [|x l1 IH]; simpl; [done|]. rewrite IH. lia. Qed.

(** The run acquired the lock as often as it released it. *)
Definition balanced {Mem W} (l : string) : relation (state Mem (Logged W)) :=
  fun s s' => exists evs, log_of s' = log_of s ++ evs /\
    total (acquires l) evs = total (releases l) evs.

#[export] Instance balanced_preorder {Mem W} l : PreOrder (@balanced Mem W l).
Proof.
  split.
  - intros s. exists []. by rewrite app_nil_r.
  - intros a b c (e1 & H1 & B1) (e2 & H2 & B2). exists (e1 ++ e2).
    rewrite H2, H1, <- app_assoc, !total_app. split; [done|lia].
Qed.

Definition lock_free {X} (e : Eff X) : bool :=
  match e with LockAcquire _ | LockRelease _ => false | _ => true end.

Section Locks.
Context {Mem W : Type} `{World W}.

Lemma Steps_balanced_eff {X} l (e : Eff X) :
  lock_free e = true -> Steps (@balanced Mem W l) (eff e).
Proof.
  intros He s. destruct (eff_log e s) as (r & w' & _ & ->). exists [Ev e r]. cbn.
  split; [done|]. by destruct e.
Qed.

Lemma Steps_balanced_modify l f : Steps (@balanced Mem W l) (modify_mem f).
Proof. intros s. exists []. by rewrite app_nil_r. Qed.

(** A balanced body under the lock is balanced, even when it fails or panics. *)
Lemma Steps_balanced_with_lock {A} l (body : M Mem (Logged W) A) :
  Steps (@balanced Mem W l) body -> Steps (@balanced Mem W l) (with_lock l body).
Proof.
  intros Hb s. unfold with_lock, bind.
  destruct (eff_log (LockAcquire l) s) as (r & w1 & _ & ->). destruct r as [er|[]]; cbn.
  - exists [Ev (LockAcquire l) (inl er)]. split; [done|]. cbn. by rewrite bool_decide_eq_true_2.
  - unfold defer. set (s1 := State _ _). specialize (Hb s1). destruct (body s1) as [o s2].
    destruct (eff_log (LockRelease l) s2) as (r & w3 & _ & ->). cbn in *.
    destruct Hb as (evs & Hl & Hbal).
    exists ([Ev (LockAcquire l) (inr tt)] ++ evs ++ [Ev (LockRelease l) r]). split.
    + cbn. rewrite Hl. unfold s1. cbn. by rewrite <- !app_assoc.
    + rewrite !total_app, Hbal. cbn. rewrite bool_decide_eq_true_2 by done. lia.
Qed.
End Locks.
#[export] Hint Resolve Steps_balanced_modify : pcidev.
#[export] Hint Extern 2 (Steps (balanced _) (eff _)) =>
  apply Steps_balanced_eff; reflexivity : pcidev.
#[export] Hint Resolve Steps_balanced_with_lock : pcidev.
