(* ===== verification/Sim.v ===== *)
(** * A concrete node and cluster

    An executable instance of [World]: a store of objects per kind, a file
    system with the bind and unbind files of sysfs, command outputs and hardware
    tables.  It is not a model of code of the repository; the witnesses run the
    handlers in it, so that the hypotheses theorems place on their surroundings
    are seen to be satisfiable. *)

From S2P Require Import Prelude GoStrings GoMonad Types Effects.

Record sim := {
  sim_store : forall k, gmap string (Obj k);
  sim_index : gmap (string * string) (list string);
  sim_files : gmap string string;
  sim_links : gmap string string;
  sim_dirs : gmap string (list (string * bool));
  sim_globs : gmap string (list string);
  sim_exec : gmap string string;
  sim_pci : list pci_Device;
  sim_nics : list NIC;
  sim_netlinks : list Link;
  sim_nv : list NvidiaPCIDevice;
  sim_locks : gset string;
  sim_queue : list string
}.

Definition sim_empty : sim :=
  {| sim_store := fun _ => ∅; sim_index := ∅; sim_files := ∅; sim_links := ∅; sim_dirs := ∅;
     sim_globs := ∅; sim_exec := ∅; sim_pci := []; sim_nics := []; sim_netlinks := [];
     sim_nv := []; sim_locks := ∅; sim_queue := [] |}.

Definition set_store (f : forall k, gmap string (Obj k)) (w : sim) : sim :=
  {| sim_store := f; sim_index := sim_index w; sim_files := sim_files w;
     sim_links := sim_links w; sim_dirs := sim_dirs w; sim_globs := sim_globs w;
     sim_exec := sim_exec w; sim_pci := sim_pci w; sim_nics := sim_nics w;
     sim_netlinks := sim_netlinks w; sim_nv := sim_nv w; sim_locks := sim_locks w;
     sim_queue := sim_queue w |}.
Definition set_fs (files links : gmap string string) (dirs : gmap string (list (string * bool)))
    (w : sim) : sim :=
  {| sim_store := sim_store w; sim_index := sim_index w; sim_files := files;
     sim_links := links; sim_dirs := dirs; sim_globs := sim_globs w;
     sim_exec := sim_exec w; sim_pci := sim_pci w; sim_nics := sim_nics w;
     sim_netlinks := sim_netlinks w; sim_nv := sim_nv w; sim_locks := sim_locks w;
     sim_queue := sim_queue w |}.
Definition set_locks (l : gset string) (q : list string) (w : sim) : sim :=
  {| sim_store := sim_store w; sim_index := sim_index w; sim_files := sim_files w;
     sim_links := sim_links w; sim_dirs := sim_dirs w; sim_globs := sim_globs w;
     sim_exec := sim_exec w; sim_pci := sim_pci w; sim_nics := sim_nics w;
     sim_netlinks := sim_netlinks w; sim_nv := sim_nv w; sim_locks := l;
     sim_queue := q |}.

Definition put (k : Kind) (o : Obj k) (w : sim) : sim :=
  set_store (fun k' =>
    match decide (k = k') with
    | left e => eq_rect k (fun j => gmap string (Obj j)) (<[name_of o := o]> (sim_store w k)) k' e
    | right _ => sim_store w k'
    end) w.
Definition del (k : Kind) (n : string) (w : sim) : sim :=
  set_store (fun k' => if decide (k = k') then delete n (sim_store w k') else sim_store w k') w.

(** [l] carries every pair of the selector. *)
Definition matches (sel l : gmap string string) : bool :=
  forallb (fun p => bool_decide (l !! p.1 = Some p.2)) (map_to_list sel).

Definition sim_listed (k : Kind) (sel : gmap string string) (w : sim) : list (Obj k) :=
  List.filter (fun o => matches sel (m_Labels (meta_of o))) (map_to_list (sim_store w k)).*2.

Definition not_found {X} : error + X := inl (Error KNotFound "not found").
Definition found {X} (o : option X) : error + X :=
  match o with Some x => inr x | None => not_found end.
Definition exists_or {X} (o : option X) : error + X :=
  match o with Some x => inr x | None => inl (Error KNotExist "no such file or directory") end.

(** Writing an address to a driver's [bind] or [unbind] file makes or removes the
    device's entry in the driver's directory. *)
Definition sim_write (path data : string) (w : sim) : sim :=
  let files := <[path := data]> (sim_files w) in
  match Split path "/" with
  | ["";"sys";"bus";"pci";"drivers";driver;op] =>
      let entry := "/sys/bus/pci/drivers/" +:+ driver +:+ "/" +:+ data in
      if op ==s "bind" then set_fs (<[entry := ""]> files) (sim_links w) (sim_dirs w) w
      else if op ==s "unbind" then set_fs (delete entry files) (sim_links w) (sim_dirs w) w
      else set_fs files (sim_links w) (sim_dirs w) w
  | _ => set_fs files (sim_links w) (sim_dirs w) w
  end.

#[export] Instance sim_world : World sim := fun X e w =>
  match e in Eff X return (error + X) * sim with
  | ApiGet k _ n | CacheGet k _ n => (found (sim_store w k !! n), w)
  | ApiList k _ sel | CacheList k sel => (inr (sim_listed k sel w), w)
  | ApiCreate k o =>
      match sim_store w k !! name_of o with
      | Some _ => (inl (Error KAlreadyExists "already exists"), w)
      | None => (inr o, put k o w)
      end
  | ApiUpdate k o | ApiUpdateStatus k o =>
      match sim_store w k !! name_of o with
      | Some _ => (inr o, put k o w)
      | None => (not_found, w)
      end
  | ApiDelete k n =>
      match sim_store w k !! n with
      | Some _ => (inr tt, del k n w)
      | None => (not_found, w)
      end
  | CacheByIndex k i key =>
      (inr (omap (fun n => sim_store w k !! n) (default [] (sim_index w !! (i, key)))), w)
  | CacheWrite k o => (inr tt, put k o w)
  | Enqueue _ n | EnqueueAfter _ n _ => (inr tt, set_locks (sim_locks w) (sim_queue w ++ [n]) w)
  | FsStat p =>
      (exists_or (if bool_decide (is_Some (sim_files w !! p)) || bool_decide (is_Some (sim_dirs w !! p))
                  then Some tt else None), w)
  | FsReadFile p => (exists_or (sim_files w !! p), w)
  | FsReadlink p => (exists_or (sim_links w !! p), w)
  | FsReadDir p => (exists_or (sim_dirs w !! p), w)
  | FsOpenWrite p => (exists_or ((fun _ => tt) <$> sim_files w !! p), w)
  | FsWrite p d | FsWriteFile p d => (inr tt, sim_write p d w)
  | FsRemove p =>
      (exists_or ((fun _ => tt) <$> sim_files w !! p),
       set_fs (delete p (sim_files w)) (sim_links w) (sim_dirs w) w)
  | FsLstatSymlink p =>
      (exists_or (if bool_decide (is_Some (sim_links w !! p)) then Some true
                  else (fun _ => false) <$> sim_files w !! p), w)
  | FsGlob p => (inr (default [] (sim_globs w !! p)), w)
  | FsEvalSymlinks p => (exists_or (sim_links w !! p), w)
  | FsWalk p =>
      (exists_or ((fun l => (p, Base p) :: ((fun e : string * bool => (p +:+ "/" +:+ e.1, e.1)) <$> l))
                    <$> sim_dirs w !! p), w)
  | WatchAdd p | GrpcDial p =>
      (exists_or (if bool_decide (is_Some (sim_files w !! p)) || bool_decide (is_Some (sim_dirs w !! p))
                  then Some tt else None), w)
  | NetListen p =>
      match sim_files w !! p with
      | Some _ => (inl (Errorf "address already in use"), w)
      | None => (inr tt, set_fs (<[p := ""]> (sim_files w)) (sim_links w) (sim_dirs w) w)
      end
  | GrpcRegister endpoint _ => (inr tt, set_locks (sim_locks w) (sim_queue w ++ [endpoint]) w)
  | GrpcServe _ | GrpcWait _ => (inr tt, w)
  | ModProbe _ => (inr tt, w)
  | ExecCheckReady _ => (inr "", w)
  | ExecRun _ cmd args => (found (sim_exec w !! Join (cmd :: args) " "), w)
  | KubeClient => (inr tt, w)
  | GhwPCI => (inr (sim_pci w), w)
  | GhwNetwork => (inr (sim_nics w), w)
  | NetlinkLinks => (inr (sim_netlinks w), w)
  | NvGPUs => (inr (List.filter nv_IsGPU (sim_nv w)), w)
  | NvDevices => (inr (sim_nv w), w)
  | LockAcquire l =>
      (if bool_decide (l ∈ sim_locks w) then inl (Errorf "deadlock") else inr tt,
       set_locks ({[ l ]} ∪ sim_locks w) (sim_queue w) w)
  | LockRelease l => (inr tt, set_locks (sim_locks w ∖ {[ l ]}) (sim_queue w) w)
  | SleepFor _ => (inr [], w)
  end.

(** What the caches of a concrete cluster answer. *)
Definition sim_contents (w : sim) : contents :=
  {| c_get := fun k n => sim_store w k !! n;
     c_index := fun k i key => omap (fun n => sim_store w k !! n) (default [] (sim_index w !! (i, key)));
     c_list := fun k sel => sim_listed k sel w |}.
#[export] Instance sim_answers {Mem} (m : Mem) (w : sim) : Answers (sim_contents w) (State m w).
Proof. split; [|done..]. intros k n. unfold eff. simpl. by destruct (sim_store w k !! n). Qed.

(** Maps visited in the order of their trie. *)
#[export] Program Instance sim_order : MapOrder := {| range := fun K _ _ V m => map_to_list m |}.
Next Obligation. reflexivity. Qed.

(** Run a handler in a node, from the memory [m]. *)
Definition run {Mem A} (c : M Mem sim A) (m : Mem) (w : sim) : outcome A * state Mem sim :=
  c (State m w).

(** The library functions of [External], with test values. *)
#[export] Instance sim_external : External :=
  {| ghw_UNKNOWN := "unknown";
     ResourceNameToEnvVar := fun prefix name =>
       prefix +:+ "_" +:+ ToUpper (ReplaceAll (ReplaceAll name "/" "_") "." "_");
     DevicePluginPath := "/var/lib/kubelet/device-plugins/";
     HostRootMount := "/proc/1/root/";
     Pod_Running := "Running"; VMI_Running := "Running";
     marshal_AllocationDetails := fun d =>
       Join ((fun p : string * list string => p.1 +:+ "=" +:+ Join p.2 ",")
               <$> map_to_list (ad_HostDevices d) ++ map_to_list (ad_GPUs d)) ";";
     unmarshal_AllocationDetails := fun _ => None;
     marshal_HostDevice := fun d => dr_Name d +:+ ":" +:+ dr_DeviceName d;
     unmarshal_strings := fun s => if s ==s "" then None else Some (Split s ",") |}.
