(* ===== verification/GoStore.v ===== *)
(** * Values that share memory, and their deep copies

    A Go struct is a value, but its slices, maps and pointers are references.  Here a
    value is read against a store, by its type; a function that copies is [deep]
    when what it returns reads the same and shares no memory with what was there.
    The ways in which the generated deep copies are put together each preserve it. *)

From S2P Require Import Prelude.
Set Warnings "-register-all".

(** ** Types, values, memory *)

(** [GBase]: strings, booleans, numbers. Map keys are strings. *)
Inductive gotype :=
| GBase
| GSlice (t : gotype)
| GMap (t : gotype)
| GPtr (t : gotype)
| GStruct (fields : list (string * gotype)).

Inductive base := BStr (s : string) | BBool (b : bool) | BInt (z : Z).
Abbreviation loc := nat (only parsing).
Inductive gval :=
| VBase (b : base)
| VNil
| VRef (l : loc)
| VStruct (fields : list (string * gval)).
Inductive cell :=
| CSlice (l : list gval)
| CMap (m : gmap string gval)
| CPtr (v : gval).
Abbreviation store := (gmap nat cell) (only parsing).

(** What a value is, references followed.  A nil slice differs from an empty one. *)
Inductive tree :=
| TBase (b : base)
| TNil
| TSlice (l : list tree)
| TMap (m : gmap string tree)
| TPtr (x : tree)
| TStruct (fields : list (string * tree)).

(** The value [v] of type [t] reads as [x] in the store. *)
Fixpoint reads (t : gotype) (s : store) (v : gval) (x : tree) {struct t} : Prop :=
  match t, v, x with
  | GBase, VBase b, TBase b' => b = b'
  | GSlice _, VNil, TNil | GMap _, VNil, TNil | GPtr _, VNil, TNil => True
  | GSlice t, VRef l, TSlice xs => exists vs, s !! l = Some (CSlice vs) /\ Forall2 (reads t s) vs xs
  | GMap t, VRef l, TMap xm => exists m, s !! l = Some (CMap m) /\ forall k, option_Forall2 (reads t s) (m !! k) (xm !! k)
  | GPtr t, VRef l, TPtr x => exists w, s !! l = Some (CPtr w) /\ reads t s w x
  | GStruct fs, VStruct vs, TStruct xs =>
      (fix fields fs vs xs := match fs, vs, xs with
       | [], [], [] => True
       | (n, t) :: fs, (n1, v) :: vs, (n2, x) :: xs => n1 = n /\ n2 = n /\ reads t s v x /\ fields fs vs xs
       | _, _, _ => False
       end) fs vs xs
  | _, _, _ => False
  end.
Fixpoint reads_fields (s : store) (fs : list (string * gotype)) (vs : list (string * gval)) (xs : list (string * tree)) : Prop :=
  match fs, vs, xs with
  | [], [], [] => True
  | (n, t) :: fs, (n1, v) :: vs, (n2, x) :: xs => n1 = n /\ n2 = n /\ reads t s v x /\ reads_fields s fs vs xs
  | _, _, _ => False
  end.
Lemma reads_struct s fs vs xs : reads (GStruct fs) s (VStruct vs) (TStruct xs) <-> reads_fields s fs vs xs.
Proof. revert vs xs. induction fs as [|[n t] fs IH]; intros [|[]] [|[]]; try done. cbn. by rewrite <- IH. Qed.

(** The locations that are read on the way. *)
Fixpoint reaches (t : gotype) (s : store) (v : gval) (l : loc) {struct t} : Prop :=
  match t, v with
  | GSlice t, VRef r => l = r \/ exists vs w, s !! r = Some (CSlice vs) /\ w ∈ vs /\ reaches t s w l
  | GMap t, VRef r => l = r \/ exists m k w, s !! r = Some (CMap m) /\ m !! k = Some w /\ reaches t s w l
  | GPtr t, VRef r => l = r \/ exists w, s !! r = Some (CPtr w) /\ reaches t s w l
  | GStruct fs, VStruct vs =>
      (fix fields fs vs := match fs, vs with
       | (_, t) :: fs, (_, v) :: vs => reaches t s v l \/ fields fs vs
       | _, _ => False
       end) fs vs
  | _, _ => False
  end.
Fixpoint reaches_fields (s : store) (fs : list (string * gotype)) (vs : list (string * gval)) (l : loc) : Prop :=
  match fs, vs with
  | (_, t) :: fs, (_, v) :: vs => reaches t s v l \/ reaches_fields s fs vs l
  | _, _ => False
  end.
Lemma reaches_struct s (fs : list (string * gotype)) (vs : list (string * gval)) l :
  reaches (GStruct fs) s (VStruct vs) l <-> reaches_fields s fs vs l.
Proof. revert vs. induction fs as [|[n t] fs IH]; intros [|[]]; try done. cbn. by rewrite <- IH. Qed.

(** Induction on types that gives the fields of a struct. *)
Section Induction.
Variable P : gotype -> Prop.
Hypotheses (Hbase : P GBase) (Hslice : forall t, P t -> P (GSlice t)) (Hmap : forall t, P t -> P (GMap t))
  (Hptr : forall t, P t -> P (GPtr t)) (Hstruct : forall fs, Forall (fun f => P f.2) fs -> P (GStruct fs)).
Fixpoint gotype_fields_ind (t : gotype) : P t :=
  match t with
  | GBase => Hbase
  | GSlice t => Hslice t (gotype_fields_ind t)
  | GMap t => Hmap t (gotype_fields_ind t)
  | GPtr t => Hptr t (gotype_fields_ind t)
  | GStruct fs => Hstruct fs
      ((fix all fs := match fs return Forall (fun f => P f.2) fs with
        | [] => Forall_nil_2 _
        | f :: fs => Forall_cons_2 _ f fs (gotype_fields_ind f.2) (all fs)
        end) fs)
  end.
End Induction.

(** ** Frames: only what is reached matters *)
Lemma Forall2_impl_l {A B} (P Q : A -> B -> Prop) l k :
  Forall2 P l k -> (forall x y, x ∈ l -> P x y -> Q x y) -> Forall2 Q l k.
Proof.
  induction 1 as [|x y l k Hxy _ IH]; intros Himpl; constructor.
  - apply Himpl; [left|done].
  - apply IH. intros x' y' Hx'. apply Himpl. by right.
Qed.

Section Frame.
Context (s s' : store).
#[local] Abbreviation agree t v := (forall l, reaches t s v l -> s' !! l = s !! l).

Lemma reads_frame t v x : agree t v -> reads t s v x -> reads t s' v x.
Proof.
  revert v x. induction t as [|t IH|t IH|t IH|fs IH] using gotype_fields_ind; intros v x Hag Hr.
  - exact Hr.
  - destruct v as [| |r|], x as [| |xs|xm|z|xf]; try done. destruct Hr as (vs & Hs & Hvs). exists vs.
    rewrite Hag by (by left). split; [done|]. apply (Forall2_impl_l _ _ _ _ Hvs). intros w y Hw. apply IH.
    intros l Hl. apply Hag. right. eauto.
  - destruct v as [| |r|], x as [| |xs|xm|z|xf]; try done. destruct Hr as (m' & Hs & Hm). exists m'.
    rewrite Hag by (by left). split; [done|]. intros k. specialize (Hm k).
    destruct (m' !! k) as [w|] eqn:Hk; inversion Hm; constructor. apply IH; [|done].
    intros l Hl. apply Hag. right. eauto 6.
  - destruct v as [| |r|], x as [| |xs|xm|z|xf]; try done. destruct Hr as (w & Hs & Hw). exists w.
    rewrite Hag by (by left). split; [done|]. apply IH; [|done]. intros l Hl. apply Hag. right. eauto.
  - destruct v as [| | |vs], x as [| | | | |xs]; try done. apply reads_struct. apply reads_struct in Hr.
    assert (forall l, reaches_fields s fs vs l -> s' !! l = s !! l) as Hfs by (intros l Hl; by apply Hag, reaches_struct).
    clear Hag. revert vs xs Hr Hfs. induction IH as [|[n t] fs IHt _ IHfs]; intros [|[]] [|[]]; try done.
    cbn. intros (-> & -> & Hv & Hr) Hfs. split_and!; [done..| |]; [apply IHt|apply IHfs]; auto.
Qed.

Lemma reaches_frame t v l : agree t v -> reaches t s' v l -> reaches t s v l.
Proof.
  revert v. induction t as [|t IH|t IH|t IH|fs IH] using gotype_fields_ind; intros v Hag Hr; [done|..].
  - destruct v as [| |r|]; try done. destruct Hr as [->|(vs & w & Hs & Hw & Hl)]; [by left|].
    rewrite Hag in Hs by (by left). right. exists vs, w. split_and!; [done..|]. apply IH; [|done].
    intros l' Hl'. apply Hag. right. eauto.
  - destruct v as [| |r|]; try done. destruct Hr as [->|(m & k & w & Hs & Hw & Hl)]; [by left|].
    rewrite Hag in Hs by (by left). right. exists m, k, w. split_and!; [done..|]. apply IH; [|done].
    intros l' Hl'. apply Hag. right. eauto 6.
  - destruct v as [| |r|]; try done. destruct Hr as [->|(w & Hs & Hl)]; [by left|].
    rewrite Hag in Hs by (by left). right. exists w. split; [done|]. apply IH; [|done].
    intros l' Hl'. apply Hag. right. eauto.
  - destruct v as [| | |vs]; try done. apply reaches_struct. apply reaches_struct in Hr.
    assert (forall l, reaches_fields s fs vs l -> s' !! l = s !! l) as Hfs by (intros l' Hl'; by apply Hag, reaches_struct).
    clear Hag. revert vs Hr Hfs. induction IH as [|[n t] fs IHt _ IHfs]; intros [|[]]; try done.
    cbn. intros [Hl|Hl] Hfs; [left; apply IHt|right; apply IHfs]; auto.
Qed.
End Frame.

(** What a readable value reaches is there. *)
Lemma reads_dom t s v x l : reads t s v x -> reaches t s v l -> l ∈ dom s.
Proof.
  revert v x. induction t as [|t IH|t IH|t IH|fs IH] using gotype_fields_ind; intros v x Hr Hl; [done|..].
  - destruct v as [| |r|], x as [| |xs|xm|z|xf]; try done. destruct Hr as (vs & Hs & Hvs).
    destruct Hl as [->|(vs' & w & Hs' & Hw & Hl)]; [by apply elem_of_dom|]. simplify_eq.
    apply list_elem_of_lookup in Hw as [i Hi]. destruct (Forall2_lookup_l _ _ _ _ _ Hvs Hi) as (y & _ & Hy). by eapply IH.
  - destruct v as [| |r|], x as [| | |xm| |]; try done. destruct Hr as (m & Hs & Hm).
    destruct Hl as [->|(m' & k & w & Hs' & Hw & Hl)]; [by apply elem_of_dom|]. simplify_eq.
    specialize (Hm k). rewrite Hw in Hm. inversion Hm. by eapply IH.
  - destruct v as [| |r|], x as [| |xs|xm|z|xf]; try done. destruct Hr as (w & Hs & Hw).
    destruct Hl as [->|(w' & Hs' & Hl)]; [by apply elem_of_dom|]. simplify_eq. by eapply IH.
  - destruct v as [| | |vs], x as [| | | | |xs]; try done. apply reads_struct in Hr. apply reaches_struct in Hl.
    revert vs xs Hr Hl. induction IH as [|[n t] fs IHt _ IHfs]; intros [|[]] [|[]]; try done.
    cbn. intros (-> & -> & Hv & Hr) [Hl|Hl]; eauto.
Qed.

(** A larger store changes nothing for what was readable. *)
Section Extension.
Context (s s' : store) (Hsub : s ⊆ s').
Lemma subseteq_agree l : l ∈ dom s -> s' !! l = s !! l.
Proof.
  intros [c Hc]%elem_of_dom. transitivity (Some c); [by eapply lookup_weaken|done].
Qed.
Lemma reads_mono t v x : reads t s v x -> reads t s' v x.
Proof. intros Hr. apply (reads_frame s); [|done]. intros l Hl. by eapply subseteq_agree, reads_dom. Qed.
Lemma reaches_mono t v x l : reads t s v x -> reaches t s' v l -> reaches t s v l.
Proof. intros Hr. apply reaches_frame. intros l' Hl'. by eapply subseteq_agree, reads_dom. Qed.
End Extension.

(** ** Copying *)
Definition Alloc (A : Type) : Type := store -> A * store.
Definition keep {A} (a : A) : Alloc A := fun s => (a, s).
Definition andThen {A B} (m : Alloc A) (k : A -> Alloc B) : Alloc B := fun s => let (a, s') := m s in k a s'.
Declare Scope alloc_scope.
Delimit Scope alloc_scope with alloc.
Notation "x <~ m ;; k" := (andThen m%alloc (fun x => k%alloc)) (at level 100, m at next level, right associativity) : alloc_scope.
Definition Copier : Type := gval -> Alloc gval.

(** [out.F = in.F]: the bits of a value, references and all. *)
Definition assign : Copier := keep.

Definition new_cell (c : cell) : Alloc loc := fun s => let l := fresh (dom s) in (l, <[l := c]> s).
Definition modify_cell (l : loc) (f : cell -> cell) : Alloc unit := fun s => (tt, alter f l s).

(** The loop over the entries of a container: each value is copied and stored under its
    key in the new container [l]. *)
Fixpoint copy_loop {K} (copy : Copier) (put : K -> gval -> cell -> cell) (l : loc) (entries : list (K * gval))
    : Alloc unit :=
  (match entries with
   | [] => keep tt
   | (k, v) :: rest => w <~ copy v ;; _ <~ modify_cell l (put k w) ;; copy_loop copy put l rest
   end)%alloc.
(** [make], and the loop. *)
Definition copy_into {K} (copy : Copier) (put : K -> gval -> cell -> cell) (made : cell) (entries : list (K * gval))
    : Alloc gval :=
  (l <~ new_cell made ;; _ <~ copy_loop copy put l entries ;; keep (VRef l))%alloc.

Definition put_item (i : nat) (v : gval) (c : cell) : cell :=
  match c with CSlice vs => CSlice (<[i := v]> vs) | _ => c end.
Definition put_key (k : string) (v : gval) (c : cell) : cell :=
  match c with CMap m => CMap (<[k := v]> m) | _ => c end.
Definition put_ptr (_ : unit) (v : gval) (_ : cell) : cell := CPtr v.

(** [make([]T, len(in))] and [copy]. *)
Definition copy_slice : Copier := fun v s =>
  match v with
  | VRef l => match s !! l with
              | Some (CSlice vs) => let (l', s') := new_cell (CSlice vs) s in (VRef l', s')
              | _ => (v, s)
              end
  | _ => (v, s)
  end.
(** [make([]T, len(in))] and a [DeepCopyInto] per element; until its turn an element is
    zero, which nobody reads. *)
Definition copy_items (copy : Copier) : Copier := fun v s =>
  match v with
  | VRef l => match s !! l with
              | Some (CSlice vs) => copy_into copy put_item (CSlice (replicate (length vs) VNil)) (imap pair vs) s
              | _ => (v, s)
              end
  | _ => (v, s)
  end.
(** [make(map[string]T, len(in))] and the range over it. *)
Definition copy_map `{MapOrder} (copy : Copier) : Copier := fun v s =>
  match v with
  | VRef l => match s !! l with
              | Some (CMap m) => copy_into copy put_key (CMap ∅) (range m) s
              | _ => (v, s)
              end
  | _ => (v, s)
  end.
(** [DeepCopy]: nil for nil, and else [new(T)] and [DeepCopyInto]. *)
Definition DeepCopy_of (DeepCopyInto : Copier) : Copier := fun v s =>
  match v with
  | VRef l => match s !! l with
              | Some (CPtr w) => copy_into DeepCopyInto put_ptr (CPtr VNil) [(tt, w)] s
              | _ => (v, s)
              end
  | _ => (v, s)
  end.
(** [DeepCopyObject]: no object for a nil pointer. *)
Definition DeepCopyObject_of (DeepCopy : Copier) : gval -> Alloc (option gval) := fun v =>
  (c <~ DeepCopy v ;; keep (match c with VNil => None | _ => Some c end))%alloc.

(** [DeepCopyInto] of a struct: [*out = *in], and then the fields that are named, one after
    the other. *)
Definition copier_of (copiers : list (string * Copier)) (field : string) : Copier :=
  match List.find (fun c => c.1 ==s field) copiers with Some (_, f) => f | None => assign end.
Fixpoint copy_fields (copiers : list (string * Copier)) (vs : list (string * gval)) : Alloc (list (string * gval)) :=
  (match vs with
   | [] => keep []
   | (n, v) :: rest => w <~ copier_of copiers n v ;; ws <~ copy_fields copiers rest ;; keep ((n, w) :: ws)
   end)%alloc.
Definition into (copiers : list (string * Copier)) : Copier := fun v =>
  match v with
  | VStruct vs => (ws <~ copy_fields copiers vs ;; keep (VStruct ws))%alloc
  | _ => keep v
  end.

(** ** Deep copies *)

(** The copy reads the same, nothing that was there has changed, and the copy reaches
    nothing that was there. *)
Definition copied (t : gotype) (s : store) (x : tree) (r : gval * store) : Prop :=
  s ⊆ r.2 /\ reads t r.2 r.1 x /\ forall l, reaches t r.2 r.1 l -> l ∉ dom s.
Definition deep (t : gotype) (copy : Copier) : Prop :=
  forall s v x, reads t s v x -> copied t s x (copy v s).

(** A type without references is copied by assignment. *)
Fixpoint plain (t : gotype) : bool :=
  match t with GBase => true | GStruct fs => forallb (fun f => plain f.2) fs | _ => false end.
Lemma plain_reaches t s v l : plain t = true -> ~ reaches t s v l.
Proof.
  revert v. induction t as [|t IH|t IH|t IH|fs IH] using gotype_fields_ind; intros v Hp Hl; try done.
  destruct v as [| | |vs]; try done. apply reaches_struct in Hl. cbn in Hp. revert vs Hp Hl.
  induction IH as [|[n t] fs IHt _ IHfs]; intros [|[]]; try done. cbn. intros [Ht Hfs]%andb_true_iff [Hl|Hl].
  - by eapply IHt.
  - by eapply IHfs.
Qed.
Lemma deep_assign t : plain t = true -> deep t assign.
Proof. intros Hp s v x Hr. split_and!; [done..|]. intros l Hl. by eapply plain_reaches in Hl. Qed.

Lemma deep_nil t copy s v x : match v with VRef _ => False | _ => True end -> copy v s = (v, s) ->
  match t with GSlice _ | GMap _ | GPtr _ => True | _ => False end -> reads t s v x -> copied t s x (copy v s).
Proof. intros Hv -> Ht Hr. destruct t, v; try done; (split_and!; [done..|]; intros l Hl; done). Qed.

(** An element of the new container, after the loop: it reads as the old one did, and
    reaches neither what was there nor the container itself. *)
Definition element_copied (t : gotype) (s0 s' : store) (l : loc) (v w : gval) : Prop :=
  (forall x, reads t s0 v x -> reads t s' w x) /\ forall l', reaches t s' w l' -> (l' ∉ dom s0) /\ l' <> l.

Lemma copy_loop_spec {K} t copy (put : K -> gval -> cell -> cell) s0 l entries s c :
  deep t copy -> s0 ⊆ s -> l ∉ dom s0 -> s !! l = Some c -> Forall (fun e => exists x, reads t s0 e.2 x) entries ->
  let s' := (copy_loop copy put l entries s).2 in
  s0 ⊆ s' /\ (forall l', l' ∈ dom s -> l' <> l -> s' !! l' = s !! l') /\
  exists ws, s' !! l = Some (fold_left (fun c p => put p.1 p.2 c) (zip entries.*1 ws) c) /\
    Forall2 (fun e => element_copied t s0 s' l e.2) entries ws.
Proof.
  intros Hdeep. revert s c. induction entries as [|[k v] entries IH]; intros s c Hsub Hl Hc Hall; cbn.
  { split_and!; [done..|]. exists []. split; [done|constructor]. }
  apply Forall_cons in Hall as [[x0 Hx0] Hall]. cbn in Hx0.
  assert (forall x, reads t s0 v x -> copied t s x (copy v s)) as Hcopy
    by (intros x Hx; apply Hdeep; by apply (reads_mono s0)).
  unfold andThen. destruct (copy v s) as [w s1] eqn:E.
  destruct (Hcopy x0 Hx0) as (Hs1 & Hw0 & Hfresh). cbn [fst snd] in Hs1, Hw0, Hfresh.
  set (s2 := alter (put k w) l s1).
  assert (s1 !! l = Some c) as Hc1 by (by eapply lookup_weaken).
  assert (forall l', l' <> l -> s2 !! l' = s1 !! l') as Hs2 by (intros l' Hne; by apply lookup_alter_ne).
  assert (s0 ⊆ s2) as Hsub2.
  { apply map_subseteq_spec. intros l' c' Hc'. rewrite Hs2; [|intros ->; by apply Hl, elem_of_dom].
    eapply lookup_weaken; [|exact Hs1]. by eapply lookup_weaken. }
  destruct (IH s2 (put k w c) Hsub2 Hl) as (Hsub' & Hkeep & ws & Hws & Hes).
  { unfold s2. rewrite lookup_alter_eq. by rewrite Hc1. }
  { done. }
  unfold modify_cell. cbn [snd]. fold s2. set (s' := (copy_loop copy put l entries s2).2) in *.
  assert (forall l', reaches t s1 w l' -> (l' ∉ dom s0) /\ l' <> l /\ s' !! l' = s1 !! l') as Hw.
  { intros l' Hl'. assert (l' <> l) as Hne by (intros ->; apply (Hfresh l Hl'); by apply elem_of_dom).
    split_and!; [|done|].
    - intros Hin. apply (Hfresh l' Hl'). by eapply (subseteq_dom s0 s).
    - rewrite Hkeep, Hs2; [done..| |done]. unfold s2. rewrite dom_alter. by eapply reads_dom. }
  split_and!; [done| |].
  - intros l' Hin Hne. assert (l' ∈ dom s1) by (by eapply (subseteq_dom s s1)).
    rewrite Hkeep, Hs2; [|done| |done]; [|unfold s2; by rewrite dom_alter]. by apply subseteq_agree.
  - exists (w :: ws). split; [exact Hws|]. constructor; [|exact Hes]. split.
    + intros x Hx. apply (reads_frame s1); [by intros l' (_ & _ & ?)%Hw|]. by apply (Hcopy x Hx).
    + intros l' Hl'. apply reaches_frame with (s := s1) in Hl'; [|by intros l2 (_ & _ & ?)%Hw]. by destruct (Hw l' Hl') as (? & ? & _).
Qed.

Lemma copy_into_spec {K} t copy (put : K -> gval -> cell -> cell) made entries s :
  deep t copy -> Forall (fun e => exists x, reads t s e.2 x) entries ->
  exists l s' ws, copy_into copy put made entries s = (VRef l, s') /\ s ⊆ s' /\ (l ∉ dom s) /\
    s' !! l = Some (fold_left (fun c p => put p.1 p.2 c) (zip entries.*1 ws) made) /\
    Forall2 (fun e => element_copied t s s' l e.2) entries ws.
Proof.
  intros Hdeep Hall. unfold copy_into, andThen, new_cell, keep. set (l := fresh (dom s)).
  assert (l ∉ dom s) as Hl by apply is_fresh.
  assert (s ⊆ <[l := made]> s) as Hsub by (by apply insert_subseteq, not_elem_of_dom).
  pose proof (copy_loop_spec t copy put s l entries (<[l := made]> s) made Hdeep Hsub Hl (lookup_insert_eq _ _ _) Hall)
    as (Hs' & _ & ws & Hws & Hes).
  destruct (copy_loop copy put l entries _) as [[] s'] eqn:E. cbn [snd] in *. by exists l, s', ws.
Qed.

(** A fresh container whose elements are copied. *)
Lemma copied_container t s x l s' c :
  s ⊆ s' -> (l ∉ dom s) -> s' !! l = Some c -> reads t s' (VRef l) x ->
  (forall l', reaches t s' (VRef l) l' -> l' = l \/ l' ∉ dom s) -> copied t s x (VRef l, s').
Proof. intros Hs Hl _ Hr Hfresh. split_and!; [done..|]. intros l' [->|?]%Hfresh; done. Qed.

Lemma deep_slice t : plain t = true -> deep (GSlice t) copy_slice.
Proof.
  intros Hp s v x Hr. destruct v as [| |r|]; [by apply deep_nil..| |by apply deep_nil].
  destruct x as [| |xs| | |]; try done. pose proof Hr as (vs & Hs & Hvs). unfold copy_slice. rewrite Hs. cbn.
  set (l := fresh (dom s)). assert (l ∉ dom s) as Hl by apply is_fresh.
  assert (s ⊆ <[l := CSlice vs]> s) as Hsub by (by apply insert_subseteq, not_elem_of_dom).
  apply (copied_container _ _ _ _ _ (CSlice vs)); [done|done|by rewrite lookup_insert_eq| |].
  - exists vs. rewrite lookup_insert_eq. split; [done|]. apply (Forall2_impl _ _ _ _ Hvs). intros w y. by apply reads_mono.
  - intros l' [->|(? & w & _ & _ & Hw)]; [by left|]. by eapply plain_reaches in Hw.
Qed.

Lemma fold_put_items (pre rest ws : list gval) :
  length rest = length ws ->
  fold_left (fun c p => put_item p.1 p.2 c) (zip (seq (length pre) (length ws)) ws) (CSlice (pre ++ rest)) = CSlice (pre ++ ws).
Proof.
  revert pre rest. induction ws as [|w ws IH]; intros pre [|r rest]; try done. cbn. intros [= Hlen].
  rewrite insert_app_r_alt, Nat.sub_diag by lia. cbn.
  specialize (IH (pre ++ [w]) rest Hlen). rewrite length_app, Nat.add_1_r, <- !app_assoc in IH. exact IH.
Qed.
Lemma imap_pair_fst {A} (l : list A) : (imap pair l).*1 = seq 0 (length l).
Proof. apply list_eq. intros i. rewrite list_lookup_fmap, list_lookup_imap. destruct (l !! i) eqn:E; cbn.
  - apply lookup_lt_Some in E. by rewrite lookup_seq_lt.
  - apply lookup_ge_None in E. by rewrite lookup_seq_ge.
Qed.

Lemma deep_items t copy : deep t copy -> deep (GSlice t) (copy_items copy).
Proof.
  intros Hdeep s v x Hr. destruct v as [| |r|]; [by apply deep_nil..| |by apply deep_nil].
  destruct x as [| |xs| | |]; try done. destruct Hr as (vs & Hs & Hvs). unfold copy_items. rewrite Hs.
  destruct (copy_into_spec t copy put_item (CSlice (replicate (length vs) VNil)) (imap pair vs) s Hdeep)
    as (l & s' & ws & -> & Hsub & Hl & Hws & Hes).
  { apply Forall_lookup. intros i [j w]. rewrite list_lookup_imap. intros (w' & Hw & [= -> ->])%fmap_Some.
    destruct (Forall2_lookup_l _ _ _ _ _ Hvs Hw) as (y & _ & Hy). by exists y. }
  assert (length ws = length vs) as Hlen by (by rewrite <- (Forall2_length _ _ _ Hes), length_imap).
  rewrite imap_pair_fst, <- Hlen in Hws.
  pose proof (fold_put_items [] (replicate (length ws) VNil) ws (length_replicate _ _)) as Hput.
  cbn [length app] in Hput. rewrite Hput in Hws.
  assert (forall i w, ws !! i = Some w -> exists v, vs !! i = Some v /\ element_copied t s s' l v w) as Hel.
  { intros i w Hi. destruct (Forall2_lookup_r _ _ _ _ _ Hes Hi) as ([j v] & Hv & He).
    rewrite list_lookup_imap in Hv. apply fmap_Some in Hv as (v' & Hv & [= -> ->]). by exists v'. }
  apply (copied_container _ _ _ _ _ (CSlice ws)); [done..| |].
  - exists ws. split; [done|]. apply Forall2_same_length_lookup_2.
    + rewrite Hlen. by eapply Forall2_length.
    + intros i w y Hw Hy. destruct (Hel i w Hw) as (v & Hv & Hread & _). apply Hread. by eapply Forall2_lookup_lr.
  - intros l' [->|(ws' & w & Hws' & Hin & Hw)]; [by left|right]. simplify_eq.
    apply list_elem_of_lookup in Hin as [i Hi]. destruct (Hel i w Hi) as (v & _ & _ & Hf). by apply Hf.
Qed.

Lemma fold_put_keys kws m :
  fold_left (fun c p => put_key p.1 p.2 c) kws (CMap m) = CMap (fold_left (fun m p => <[p.1 := p.2]> m) kws m).
Proof. revert m. induction kws as [|[k w] kws IH]; [done|]. intros m. cbn. by rewrite IH. Qed.

Lemma deep_map `{MapOrder} t copy : deep t copy -> deep (GMap t) (copy_map copy).
Proof.
  intros Hdeep s v x Hr. destruct v as [| |r|]; [by apply deep_nil..| |by apply deep_nil].
  destruct x as [| | |xm| |]; try done. destruct Hr as (m & Hs & Hm). unfold copy_map. rewrite Hs.
  destruct (copy_into_spec t copy put_key (CMap ∅) (range m) s Hdeep) as (l & s' & ws & -> & Hsub & Hl & Hws & Hes).
  { apply Forall_forall. intros [k v] Hin%elem_of_range. specialize (Hm k). rewrite Hin in Hm. inversion Hm. eauto. }
  rewrite fold_put_keys in Hws. fold (index_by fst snd (zip (range m).*1 ws)) in Hws.
  set (m' := index_by fst snd (zip (range m).*1 ws)) in Hws.
  assert (length ws = length (range m)) as Hlen by (symmetry; by eapply Forall2_length).
  assert (forall k w, m' !! k = Some w <-> exists v, m !! k = Some v /\ (k, w) ∈ zip (range m).*1 ws /\ element_copied t s s' l v w) as Hm'.
  { intros k w. split.
    - intros ([k' w'] & Hin & Hk & Hw)%index_by_Some. cbn in Hk, Hw. subst k' w'.
      pose proof Hin as [i Hi]%list_elem_of_lookup. apply lookup_zip_Some in Hi as [Hk Hw].
      destruct (Forall2_lookup_r _ _ _ _ _ Hes Hw) as ([k' v] & Hv & He). rewrite list_lookup_fmap, Hv in Hk.
      injection Hk as ->. exists v. split_and!; [|done..]. by eapply elem_of_range, list_elem_of_lookup_2.
    - intros (v & _ & Hin & _). apply (index_by_NoDup fst snd _ (k, w)); [|done].
      rewrite fst_zip by (rewrite length_fmap; lia). rewrite range_perm. apply NoDup_fst_map_to_list. }
  apply (copied_container _ _ _ _ _ (CMap m')); [done..| |].
  - exists m'. split; [done|]. intros k. specialize (Hm k). destruct (m !! k) as [v|] eqn:Hk.
    + assert ((k, v) ∈ range m) as [i Hi]%list_elem_of_lookup by (by apply elem_of_range).
      destruct (Forall2_lookup_l _ _ _ _ _ Hes Hi) as (w & Hw & He).
      rewrite (proj2 (Hm' k w)).
      * inversion Hm. constructor. by apply He.
      * exists v. split_and!; [done| |done]. apply (list_elem_of_lookup_2 _ i). apply lookup_zip_Some.
        by rewrite list_lookup_fmap, Hi.
    + destruct (m' !! k) as [w|] eqn:Hk'; [|destruct (xm !! k); inversion Hm; constructor].
      apply Hm' in Hk' as (v & Hv & _). congruence.
  - intros l' [->|(m2 & k & w & Hm2 & Hk & Hw)]; [by left|right]. simplify_eq.
    apply Hm' in Hk as (v & _ & _ & _ & Hf). by apply Hf.
Qed.

Lemma deep_ptr t copy : deep t copy -> deep (GPtr t) (DeepCopy_of copy).
Proof.
  intros Hdeep s v x Hr. destruct v as [| |r|]; [by apply deep_nil..| |by apply deep_nil].
  destruct x as [| | | |y|]; try done. destruct Hr as (v & Hs & Hv). unfold DeepCopy_of. rewrite Hs.
  destruct (copy_into_spec t copy put_ptr (CPtr VNil) [((), v)] s Hdeep) as (l & s' & ws & -> & Hsub & Hl & Hws & Hes).
  { constructor; [by exists y|constructor]. }
  apply Forall2_cons_inv_l in Hes as (w & ws' & [Hread Hf] & Hnil & ->). apply Forall2_nil_inv_l in Hnil as ->.
  apply (copied_container _ _ _ _ _ (CPtr w)); [done..| |].
  - exists w. split; [done|]. by apply Hread.
  - intros l' [->|(w' & Hw & Hl')]; [by left|right]. change (s' !! l = Some (CPtr w)) in Hws. simplify_eq. by apply Hf.
Qed.

Lemma deep_fields copiers fs : Forall (fun f => deep f.2 (copier_of copiers f.1)) fs ->
  forall s vs xs, reads_fields s fs vs xs ->
  let '(ws, s') := copy_fields copiers vs s in
  s ⊆ s' /\ reads_fields s' fs ws xs /\ forall l, reaches_fields s' fs ws l -> l ∉ dom s.
Proof.
  induction 1 as [|[n t] fs Hf _ IH]; intros s [|[n1 v] vs] [|[n2 x] xs]; try done. cbn. intros (-> & -> & Hv & Hvs).
  unfold andThen. pose proof (Hf s v x Hv) as Hcopy. cbn [fst] in Hcopy.
  destruct (copier_of copiers n v s) as [w s1]. destruct Hcopy as (Hs1 & Hr1 & Hf1). cbn [fst snd] in Hs1, Hr1, Hf1.
  assert (reads_fields s1 fs vs xs) as Hvs1.
  { apply reads_struct. apply (reads_mono s s1 Hs1 (GStruct fs)). by apply reads_struct. }
  specialize (IH s1 vs xs Hvs1). destruct (copy_fields copiers vs s1) as [ws s2]. destruct IH as (Hs2 & Hr2 & Hf2). cbn.
  split_and!; [by etrans|done|done|by eapply reads_mono|done|].
  intros l [Hl|Hl]; [by eapply Hf1, reaches_mono|]. intros Hin. apply (Hf2 l Hl). by eapply (subseteq_dom s s1).
Qed.
Lemma deep_into copiers fs : Forall (fun f => deep f.2 (copier_of copiers f.1)) fs -> deep (GStruct fs) (into copiers).
Proof.
  intros Hfs s v x Hr. destruct v as [| | |vs], x as [| | | | |xs]; try done.
  pose proof (deep_fields copiers fs Hfs s vs xs (proj1 (reads_struct _ _ _ _) Hr)) as Hc.
  unfold into, andThen, keep. destruct (copy_fields copiers vs s) as [ws s']. destruct Hc as (Hs & Hrd & Hf).
  split_and!; [done|by apply reads_struct|]. intros l Hl. by eapply Hf, reaches_struct.
Qed.

(** What is done for a field, by its name. *)
Ltac find_copier :=
  unfold copier_of, List.find; cbn [fst snd];
  repeat match goal with |- context [?a ==s ?b] => let r := eval vm_compute in (a ==s b) in change (a ==s b) with r; cbv iota end.
(** A copy is deep by the form of the type and of the copy; types and copies of other
    modules are known from the context. *)
Ltac deep_tac :=
  lazymatch goal with
  | |- deep _ assign => apply deep_assign; first [assumption|reflexivity]
  | |- deep (GSlice _) copy_slice => apply deep_slice; reflexivity
  | |- deep (GSlice _) (copy_items _) => apply deep_items; deep_tac
  | |- deep (GMap _) (copy_map _) => apply deep_map; deep_tac
  | |- deep (GPtr _) (DeepCopy_of _) => apply deep_ptr; deep_tac
  | |- deep (GStruct _) (into _) => apply deep_into; repeat apply Forall_cons_2; try apply Forall_nil_2; find_copier; deep_tac
  | |- deep ?t ?f => first [assumption|let t' := eval red in t in change (deep t' f); deep_tac
                           |let f' := eval red in f in change (deep t f'); deep_tac]
  end.
