(* ===== verification/DeepCopy.v ===== *)
(** * The deep copies of the API's types (pkg/apis/.../zz_generated_deepcopy.go)

    The controllers and webhooks change a copy of what the informers' caches hand
    out.  The generated [DeepCopyInto] of a struct assigns it and then replaces what the
    assignment shares: slices and maps, and structs that have such fields.  The
    structs are listed with their fields' types, and each generated function with what
    it does field by field; that nothing was forgotten is the theorem. *)

From S2P Require Import Prelude GoStore Sim.
From Stdlib Require Import Ascii.

(** The metadata is Kubernetes': kind and API version are values, the rest has deep copies
    of its own. *)
Class ApiMachinery := {
  TypeMeta : gotype;
  ObjectMeta : gotype;
  ListMeta : gotype;
  ObjectMeta_DeepCopyInto : Copier;
  ListMeta_DeepCopyInto : Copier;
  TypeMeta_plain : plain TypeMeta = true;
  ObjectMeta_deep : deep ObjectMeta ObjectMeta_DeepCopyInto;
  ListMeta_deep : deep ListMeta ListMeta_DeepCopyInto
}.

Section DeepCopies.
Context `{ApiMachinery} `{MapOrder}.

(** ** The structs, field by field *)
Definition t_AllocationDetails : gotype := GStruct [("GPUs", GMap (GSlice GBase));
   ("HostDevices", GMap (GSlice GBase))].
Definition t_MigProfiles : gotype := GStruct [("Name", GBase); ("ID", GBase)].
Definition t_MigProfileRequest : gotype := GStruct [("MigProfiles", t_MigProfiles); ("Requested", GBase)].
Definition t_MigConfigurationSpec : gotype := GStruct [("Enabled", GBase); ("GPUAddress", GBase);
   ("NodeName", GBase); ("ProfileSpec", GSlice t_MigProfileRequest)].
Definition t_MigProfileStatus : gotype := GStruct [("MigProfiles", t_MigProfiles); ("Available", GBase);
   ("Total", GBase); ("VGPUID", GSlice GBase)].
Definition t_MigConfigurationStatus : gotype := GStruct [("ProfileStatus", GSlice t_MigProfileStatus);
   ("Status", GBase); ("Message", GBase)].
Definition t_MigConfiguration : gotype := GStruct [("TypeMeta", TypeMeta); ("ObjectMeta", ObjectMeta);
   ("Spec", t_MigConfigurationSpec); ("Status", t_MigConfigurationStatus)].
Definition t_MigConfigurationList : gotype := GStruct [("TypeMeta", TypeMeta); ("ListMeta", ListMeta);
   ("Items", GSlice t_MigConfiguration)].
Definition t_NodeSpec : gotype := GStruct [].
Definition t_Node : gotype := GStruct [("TypeMeta", TypeMeta); ("ObjectMeta", ObjectMeta); ("Spec", t_NodeSpec)].
Definition t_NodeList : gotype := GStruct [("TypeMeta", TypeMeta); ("ListMeta", ListMeta);
   ("Items", GSlice t_Node)].
Definition t_PCIDeviceSpec : gotype := GStruct [].
Definition t_PCIDeviceStatus : gotype := GStruct [("Address", GBase); ("VendorID", GBase); ("DeviceID", GBase);
   ("ClassID", GBase); ("IOMMUGroup", GBase); ("NodeName", GBase); ("ResourceName", GBase); ("Description", GBase);
   ("KernelDriverInUse", GBase)].
Definition t_PCIDevice : gotype := GStruct [("TypeMeta", TypeMeta); ("ObjectMeta", ObjectMeta);
   ("Spec", t_PCIDeviceSpec); ("Status", t_PCIDeviceStatus)].
Definition t_PCIDeviceClaimSpec : gotype := GStruct [("Address", GBase); ("NodeName", GBase); ("UserName", GBase);
   ("DisableResourcePooling", GBase)].
Definition t_PCIDeviceClaimStatus : gotype := GStruct [("KernelDriverToUnbind", GBase);
   ("PassthroughEnabled", GBase)].
Definition t_PCIDeviceClaim : gotype := GStruct [("TypeMeta", TypeMeta); ("ObjectMeta", ObjectMeta);
   ("Spec", t_PCIDeviceClaimSpec); ("Status", t_PCIDeviceClaimStatus)].
Definition t_PCIDeviceClaimList : gotype := GStruct [("TypeMeta", TypeMeta); ("ListMeta", ListMeta);
   ("Items", GSlice t_PCIDeviceClaim)].
Definition t_PCIDeviceList : gotype := GStruct [("TypeMeta", TypeMeta); ("ListMeta", ListMeta);
   ("Items", GSlice t_PCIDevice)].
Definition t_SRIOVGPUDeviceSpec : gotype := GStruct [("Address", GBase); ("NodeName", GBase); ("Enabled", GBase)].
Definition t_SRIOVGPUDeviceStatus : gotype := GStruct [("VFAddresses", GSlice GBase);
   ("VGPUDevices", GSlice GBase)].
Definition t_SRIOVGPUDevice : gotype := GStruct [("TypeMeta", TypeMeta); ("ObjectMeta", ObjectMeta);
   ("Spec", t_SRIOVGPUDeviceSpec); ("Status", t_SRIOVGPUDeviceStatus)].
Definition t_SRIOVGPUDeviceList : gotype := GStruct [("TypeMeta", TypeMeta); ("ListMeta", ListMeta);
   ("Items", GSlice t_SRIOVGPUDevice)].
Definition t_SRIOVNetworkDeviceSpec : gotype := GStruct [("Address", GBase); ("NodeName", GBase);
   ("NumVFs", GBase)].
Definition t_SRIOVNetworkDeviceStatus : gotype := GStruct [("VFAddresses", GSlice GBase);
   ("VFPCIDevices", GSlice GBase); ("Status", GBase)].
Definition t_SRIOVNetworkDevice : gotype := GStruct [("TypeMeta", TypeMeta); ("ObjectMeta", ObjectMeta);
   ("Spec", t_SRIOVNetworkDeviceSpec); ("Status", t_SRIOVNetworkDeviceStatus)].
Definition t_SRIOVNetworkDeviceList : gotype := GStruct [("TypeMeta", TypeMeta); ("ListMeta", ListMeta);
   ("Items", GSlice t_SRIOVNetworkDevice)].
Definition t_USBDeviceStatus : gotype := GStruct [("VendorID", GBase); ("ProductID", GBase); ("NodeName", GBase);
   ("ResourceName", GBase); ("DevicePath", GBase); ("Description", GBase); ("PCIAddress", GBase);
   ("ClassType", GBase); ("Enabled", GBase); ("Status", GBase); ("Message", GBase)].
Definition t_USBDevice : gotype := GStruct [("TypeMeta", TypeMeta); ("ObjectMeta", ObjectMeta);
   ("Status", t_USBDeviceStatus)].
Definition t_USBDeviceClaimSpec : gotype := GStruct [("UserName", GBase)].
Definition t_USBDeviceClaimStatus : gotype := GStruct [("NodeName", GBase); ("PCIAddress", GBase)].
Definition t_USBDeviceClaim : gotype := GStruct [("TypeMeta", TypeMeta); ("ObjectMeta", ObjectMeta);
   ("Spec", t_USBDeviceClaimSpec); ("Status", t_USBDeviceClaimStatus)].
Definition t_USBDeviceClaimList : gotype := GStruct [("TypeMeta", TypeMeta); ("ListMeta", ListMeta);
   ("Items", GSlice t_USBDeviceClaim)].
Definition t_USBDeviceList : gotype := GStruct [("TypeMeta", TypeMeta); ("ListMeta", ListMeta);
   ("Items", GSlice t_USBDevice)].
Definition t_VGPUDeviceSpec : gotype := GStruct [("VGPUTypeName", GBase); ("Address", GBase); ("Enabled", GBase);
   ("NodeName", GBase); ("ParentGPUDeviceAddress", GBase)].
Definition t_VGPUDeviceStatus : gotype := GStruct [("VGPUStatus", GBase); ("UUID", GBase);
   ("ConfiguredVGPUTypeName", GBase); ("AvailableTypes", GMap GBase)].
Definition t_VGPUDevice : gotype := GStruct [("TypeMeta", TypeMeta); ("ObjectMeta", ObjectMeta);
   ("Spec", t_VGPUDeviceSpec); ("Status", t_VGPUDeviceStatus)].
Definition t_VGPUDeviceList : gotype := GStruct [("TypeMeta", TypeMeta); ("ListMeta", ListMeta);
   ("Items", GSlice t_VGPUDevice)].

(** ** [DeepCopyInto] of each *)
Definition AllocationDetails_DeepCopyInto : Copier := into [("GPUs", copy_map copy_slice);
   ("HostDevices", copy_map copy_slice)].
Definition MigProfiles_DeepCopyInto : Copier := into [].
Definition MigProfileRequest_DeepCopyInto : Copier := into [("MigProfiles", assign)].
Definition MigConfigurationSpec_DeepCopyInto : Copier := into [("ProfileSpec", copy_slice)].
Definition MigProfileStatus_DeepCopyInto : Copier := into [("MigProfiles", assign); ("VGPUID", copy_slice)].
Definition MigConfigurationStatus_DeepCopyInto : Copier := into [
   ("ProfileStatus", copy_items MigProfileStatus_DeepCopyInto)].
Definition MigConfiguration_DeepCopyInto : Copier := into [("TypeMeta", assign);
   ("ObjectMeta", ObjectMeta_DeepCopyInto); ("Spec", MigConfigurationSpec_DeepCopyInto);
   ("Status", MigConfigurationStatus_DeepCopyInto)].
Definition MigConfigurationList_DeepCopyInto : Copier := into [("TypeMeta", assign);
   ("ListMeta", ListMeta_DeepCopyInto); ("Items", copy_items MigConfiguration_DeepCopyInto)].
Definition NodeSpec_DeepCopyInto : Copier := into [].
Definition Node_DeepCopyInto : Copier := into [("TypeMeta", assign); ("ObjectMeta", ObjectMeta_DeepCopyInto);
   ("Spec", assign)].
Definition NodeList_DeepCopyInto : Copier := into [("TypeMeta", assign); ("ListMeta", ListMeta_DeepCopyInto);
   ("Items", copy_items Node_DeepCopyInto)].
Definition PCIDeviceSpec_DeepCopyInto : Copier := into [].
Definition PCIDeviceStatus_DeepCopyInto : Copier := into [].
Definition PCIDevice_DeepCopyInto : Copier := into [("TypeMeta", assign); ("ObjectMeta", ObjectMeta_DeepCopyInto);
   ("Spec", assign); ("Status", assign)].
Definition PCIDeviceClaimSpec_DeepCopyInto : Copier := into [].
Definition PCIDeviceClaimStatus_DeepCopyInto : Copier := into [].
Definition PCIDeviceClaim_DeepCopyInto : Copier := into [("TypeMeta", assign);
   ("ObjectMeta", ObjectMeta_DeepCopyInto); ("Spec", assign); ("Status", assign)].
Definition PCIDeviceClaimList_DeepCopyInto : Copier := into [("TypeMeta", assign);
   ("ListMeta", ListMeta_DeepCopyInto); ("Items", copy_items PCIDeviceClaim_DeepCopyInto)].
Definition PCIDeviceList_DeepCopyInto : Copier := into [("TypeMeta", assign); ("ListMeta", ListMeta_DeepCopyInto);
   ("Items", copy_items PCIDevice_DeepCopyInto)].
Definition SRIOVGPUDeviceSpec_DeepCopyInto : Copier := into [].
Definition SRIOVGPUDeviceStatus_DeepCopyInto : Copier := into [("VFAddresses", copy_slice);
   ("VGPUDevices", copy_slice)].
Definition SRIOVGPUDevice_DeepCopyInto : Copier := into [("TypeMeta", assign);
   ("ObjectMeta", ObjectMeta_DeepCopyInto); ("Spec", assign); ("Status", SRIOVGPUDeviceStatus_DeepCopyInto)].
Definition SRIOVGPUDeviceList_DeepCopyInto : Copier := into [("TypeMeta", assign);
   ("ListMeta", ListMeta_DeepCopyInto); ("Items", copy_items SRIOVGPUDevice_DeepCopyInto)].
Definition SRIOVNetworkDeviceSpec_DeepCopyInto : Copier := into [].
Definition SRIOVNetworkDeviceStatus_DeepCopyInto : Copier := into [("VFAddresses", copy_slice);
   ("VFPCIDevices", copy_slice)].
Definition SRIOVNetworkDevice_DeepCopyInto : Copier := into [("TypeMeta", assign);
   ("ObjectMeta", ObjectMeta_DeepCopyInto); ("Spec", assign); ("Status", SRIOVNetworkDeviceStatus_DeepCopyInto)].
Definition SRIOVNetworkDeviceList_DeepCopyInto : Copier := into [("TypeMeta", assign);
   ("ListMeta", ListMeta_DeepCopyInto); ("Items", copy_items SRIOVNetworkDevice_DeepCopyInto)].
Definition USBDeviceStatus_DeepCopyInto : Copier := into [].
Definition USBDevice_DeepCopyInto : Copier := into [("TypeMeta", assign); ("ObjectMeta", ObjectMeta_DeepCopyInto);
   ("Status", assign)].
Definition USBDeviceClaimSpec_DeepCopyInto : Copier := into [].
Definition USBDeviceClaimStatus_DeepCopyInto : Copier := into [].
Definition USBDeviceClaim_DeepCopyInto : Copier := into [("TypeMeta", assign);
   ("ObjectMeta", ObjectMeta_DeepCopyInto); ("Spec", assign); ("Status", assign)].
Definition USBDeviceClaimList_DeepCopyInto : Copier := into [("TypeMeta", assign);
   ("ListMeta", ListMeta_DeepCopyInto); ("Items", copy_items USBDeviceClaim_DeepCopyInto)].
Definition USBDeviceList_DeepCopyInto : Copier := into [("TypeMeta", assign); ("ListMeta", ListMeta_DeepCopyInto);
   ("Items", copy_items USBDevice_DeepCopyInto)].
Definition VGPUDeviceSpec_DeepCopyInto : Copier := into [].
Definition VGPUDeviceStatus_DeepCopyInto : Copier := into [("AvailableTypes", copy_map assign)].
Definition VGPUDevice_DeepCopyInto : Copier := into [("TypeMeta", assign); ("ObjectMeta", ObjectMeta_DeepCopyInto);
   ("Spec", assign); ("Status", VGPUDeviceStatus_DeepCopyInto)].
Definition VGPUDeviceList_DeepCopyInto : Copier := into [("TypeMeta", assign); ("ListMeta", ListMeta_DeepCopyInto);
   ("Items", copy_items VGPUDevice_DeepCopyInto)].

(** ** [DeepCopy], and [DeepCopyObject] of the objects and their lists *)
Definition AllocationDetails_DeepCopy : Copier := DeepCopy_of AllocationDetails_DeepCopyInto.
Definition MigProfiles_DeepCopy : Copier := DeepCopy_of MigProfiles_DeepCopyInto.
Definition MigProfileRequest_DeepCopy : Copier := DeepCopy_of MigProfileRequest_DeepCopyInto.
Definition MigConfigurationSpec_DeepCopy : Copier := DeepCopy_of MigConfigurationSpec_DeepCopyInto.
Definition MigProfileStatus_DeepCopy : Copier := DeepCopy_of MigProfileStatus_DeepCopyInto.
Definition MigConfigurationStatus_DeepCopy : Copier := DeepCopy_of MigConfigurationStatus_DeepCopyInto.
Definition MigConfiguration_DeepCopy : Copier := DeepCopy_of MigConfiguration_DeepCopyInto.
Definition MigConfigurationList_DeepCopy : Copier := DeepCopy_of MigConfigurationList_DeepCopyInto.
Definition NodeSpec_DeepCopy : Copier := DeepCopy_of NodeSpec_DeepCopyInto.
Definition Node_DeepCopy : Copier := DeepCopy_of Node_DeepCopyInto.
Definition NodeList_DeepCopy : Copier := DeepCopy_of NodeList_DeepCopyInto.
Definition PCIDeviceSpec_DeepCopy : Copier := DeepCopy_of PCIDeviceSpec_DeepCopyInto.
Definition PCIDeviceStatus_DeepCopy : Copier := DeepCopy_of PCIDeviceStatus_DeepCopyInto.
Definition PCIDevice_DeepCopy : Copier := DeepCopy_of PCIDevice_DeepCopyInto.
Definition PCIDeviceClaimSpec_DeepCopy : Copier := DeepCopy_of PCIDeviceClaimSpec_DeepCopyInto.
Definition PCIDeviceClaimStatus_DeepCopy : Copier := DeepCopy_of PCIDeviceClaimStatus_DeepCopyInto.
Definition PCIDeviceClaim_DeepCopy : Copier := DeepCopy_of PCIDeviceClaim_DeepCopyInto.
Definition PCIDeviceClaimList_DeepCopy : Copier := DeepCopy_of PCIDeviceClaimList_DeepCopyInto.
Definition PCIDeviceList_DeepCopy : Copier := DeepCopy_of PCIDeviceList_DeepCopyInto.
Definition SRIOVGPUDeviceSpec_DeepCopy : Copier := DeepCopy_of SRIOVGPUDeviceSpec_DeepCopyInto.
Definition SRIOVGPUDeviceStatus_DeepCopy : Copier := DeepCopy_of SRIOVGPUDeviceStatus_DeepCopyInto.
Definition SRIOVGPUDevice_DeepCopy : Copier := DeepCopy_of SRIOVGPUDevice_DeepCopyInto.
Definition SRIOVGPUDeviceList_DeepCopy : Copier := DeepCopy_of SRIOVGPUDeviceList_DeepCopyInto.
Definition SRIOVNetworkDeviceSpec_DeepCopy : Copier := DeepCopy_of SRIOVNetworkDeviceSpec_DeepCopyInto.
Definition SRIOVNetworkDeviceStatus_DeepCopy : Copier := DeepCopy_of SRIOVNetworkDeviceStatus_DeepCopyInto.
Definition SRIOVNetworkDevice_DeepCopy : Copier := DeepCopy_of SRIOVNetworkDevice_DeepCopyInto.
Definition SRIOVNetworkDeviceList_DeepCopy : Copier := DeepCopy_of SRIOVNetworkDeviceList_DeepCopyInto.
Definition USBDeviceStatus_DeepCopy : Copier := DeepCopy_of USBDeviceStatus_DeepCopyInto.
Definition USBDevice_DeepCopy : Copier := DeepCopy_of USBDevice_DeepCopyInto.
Definition USBDeviceClaimSpec_DeepCopy : Copier := DeepCopy_of USBDeviceClaimSpec_DeepCopyInto.
Definition USBDeviceClaimStatus_DeepCopy : Copier := DeepCopy_of USBDeviceClaimStatus_DeepCopyInto.
Definition USBDeviceClaim_DeepCopy : Copier := DeepCopy_of USBDeviceClaim_DeepCopyInto.
Definition USBDeviceClaimList_DeepCopy : Copier := DeepCopy_of USBDeviceClaimList_DeepCopyInto.
Definition USBDeviceList_DeepCopy : Copier := DeepCopy_of USBDeviceList_DeepCopyInto.
Definition VGPUDeviceSpec_DeepCopy : Copier := DeepCopy_of VGPUDeviceSpec_DeepCopyInto.
Definition VGPUDeviceStatus_DeepCopy : Copier := DeepCopy_of VGPUDeviceStatus_DeepCopyInto.
Definition VGPUDevice_DeepCopy : Copier := DeepCopy_of VGPUDevice_DeepCopyInto.
Definition VGPUDeviceList_DeepCopy : Copier := DeepCopy_of VGPUDeviceList_DeepCopyInto.
Definition MigConfiguration_DeepCopyObject := DeepCopyObject_of MigConfiguration_DeepCopy.
Definition MigConfigurationList_DeepCopyObject := DeepCopyObject_of MigConfigurationList_DeepCopy.
Definition Node_DeepCopyObject := DeepCopyObject_of Node_DeepCopy.
Definition NodeList_DeepCopyObject := DeepCopyObject_of NodeList_DeepCopy.
Definition PCIDevice_DeepCopyObject := DeepCopyObject_of PCIDevice_DeepCopy.
Definition PCIDeviceClaim_DeepCopyObject := DeepCopyObject_of PCIDeviceClaim_DeepCopy.
Definition PCIDeviceClaimList_DeepCopyObject := DeepCopyObject_of PCIDeviceClaimList_DeepCopy.
Definition PCIDeviceList_DeepCopyObject := DeepCopyObject_of PCIDeviceList_DeepCopy.
Definition SRIOVGPUDevice_DeepCopyObject := DeepCopyObject_of SRIOVGPUDevice_DeepCopy.
Definition SRIOVGPUDeviceList_DeepCopyObject := DeepCopyObject_of SRIOVGPUDeviceList_DeepCopy.
Definition SRIOVNetworkDevice_DeepCopyObject := DeepCopyObject_of SRIOVNetworkDevice_DeepCopy.
Definition SRIOVNetworkDeviceList_DeepCopyObject := DeepCopyObject_of SRIOVNetworkDeviceList_DeepCopy.
Definition USBDevice_DeepCopyObject := DeepCopyObject_of USBDevice_DeepCopy.
Definition USBDeviceClaim_DeepCopyObject := DeepCopyObject_of USBDeviceClaim_DeepCopy.
Definition USBDeviceClaimList_DeepCopyObject := DeepCopyObject_of USBDeviceClaimList_DeepCopy.
Definition USBDeviceList_DeepCopyObject := DeepCopyObject_of USBDeviceList_DeepCopy.
Definition VGPUDevice_DeepCopyObject := DeepCopyObject_of VGPUDevice_DeepCopy.
Definition VGPUDeviceList_DeepCopyObject := DeepCopyObject_of VGPUDeviceList_DeepCopy.

Definition generated : list (gotype * Copier) :=
  [(t_AllocationDetails, AllocationDetails_DeepCopy);
   (t_MigProfiles, MigProfiles_DeepCopy); (t_MigProfileRequest, MigProfileRequest_DeepCopy);
   (t_MigConfigurationSpec, MigConfigurationSpec_DeepCopy); (t_MigProfileStatus, MigProfileStatus_DeepCopy);
   (t_MigConfigurationStatus, MigConfigurationStatus_DeepCopy); (t_MigConfiguration, MigConfiguration_DeepCopy);
   (t_MigConfigurationList, MigConfigurationList_DeepCopy); (t_NodeSpec, NodeSpec_DeepCopy);
   (t_Node, Node_DeepCopy); (t_NodeList, NodeList_DeepCopy); (t_PCIDeviceSpec, PCIDeviceSpec_DeepCopy);
   (t_PCIDeviceStatus, PCIDeviceStatus_DeepCopy); (t_PCIDevice, PCIDevice_DeepCopy);
   (t_PCIDeviceClaimSpec, PCIDeviceClaimSpec_DeepCopy); (t_PCIDeviceClaimStatus, PCIDeviceClaimStatus_DeepCopy);
   (t_PCIDeviceClaim, PCIDeviceClaim_DeepCopy); (t_PCIDeviceClaimList, PCIDeviceClaimList_DeepCopy);
   (t_PCIDeviceList, PCIDeviceList_DeepCopy); (t_SRIOVGPUDeviceSpec, SRIOVGPUDeviceSpec_DeepCopy);
   (t_SRIOVGPUDeviceStatus, SRIOVGPUDeviceStatus_DeepCopy); (t_SRIOVGPUDevice, SRIOVGPUDevice_DeepCopy);
   (t_SRIOVGPUDeviceList, SRIOVGPUDeviceList_DeepCopy); (t_SRIOVNetworkDeviceSpec, SRIOVNetworkDeviceSpec_DeepCopy);
   (t_SRIOVNetworkDeviceStatus, SRIOVNetworkDeviceStatus_DeepCopy);
   (t_SRIOVNetworkDevice, SRIOVNetworkDevice_DeepCopy); (t_SRIOVNetworkDeviceList, SRIOVNetworkDeviceList_DeepCopy);
   (t_USBDeviceStatus, USBDeviceStatus_DeepCopy); (t_USBDevice, USBDevice_DeepCopy);
   (t_USBDeviceClaimSpec, USBDeviceClaimSpec_DeepCopy); (t_USBDeviceClaimStatus, USBDeviceClaimStatus_DeepCopy);
   (t_USBDeviceClaim, USBDeviceClaim_DeepCopy); (t_USBDeviceClaimList, USBDeviceClaimList_DeepCopy);
   (t_USBDeviceList, USBDeviceList_DeepCopy); (t_VGPUDeviceSpec, VGPUDeviceSpec_DeepCopy);
   (t_VGPUDeviceStatus, VGPUDeviceStatus_DeepCopy); (t_VGPUDevice, VGPUDevice_DeepCopy);
   (t_VGPUDeviceList, VGPUDeviceList_DeepCopy)].

Lemma generated_deep : Forall (fun g => deep (GPtr g.1) g.2) generated.
Proof.
  pose proof ObjectMeta_deep. pose proof ListMeta_deep. pose proof TypeMeta_plain.
  unfold generated. repeat apply Forall_cons_2; try apply Forall_nil_2; cbn [fst snd]; deep_tac.
Qed.

(** C36: the copies that the controllers work on are theirs alone: for every type of the API,
    the generated [DeepCopy] of a pointer leaves the memory that was there as it was and
    returns a pointer, nil for nil, that reads as the old one does, nil and empty slices
    told apart; whatever is then written to memory that the copying took shows in
    the old object nowhere, and whatever is written to memory that was there shows
    nowhere in the copy. *)
Theorem deep_copy_independent (t : gotype) (DeepCopy : Copier) (s : gmap nat cell) (p : gval) (x : tree)
    (Hgen : (t, DeepCopy) ∈ generated) (Hreads : reads (GPtr t) s p x) :
  let (p', s') := DeepCopy p s in
  s ⊆ s' /\ reads (GPtr t) s' p' x /\ (p' = VNil <-> p = VNil) /\
  (forall s2, (forall l, l ∈ dom s -> s2 !! l = s' !! l) -> reads (GPtr t) s2 p x) /\
  (forall s2, (forall l, l ∉ dom s -> s2 !! l = s' !! l) -> reads (GPtr t) s2 p' x).
Proof.
  pose proof generated_deep as Hdeep. rewrite Forall_forall in Hdeep. specialize (Hdeep _ Hgen s p x Hreads).
  cbn [fst snd] in Hdeep. destruct (DeepCopy p s) as [p' s']. destruct Hdeep as (Hsub & Hr & Hfresh). cbn [fst snd] in *.
  split_and!; [done|done| | |].
  - destruct p, p', x; try done.
  - intros s2 Hs2. apply (reads_frame s); [|done]. intros l Hl. pose proof (reads_dom _ _ _ _ _ Hreads Hl) as Hin.
    rewrite Hs2 by done. by apply subseteq_agree.
  - intros s2 Hs2. apply (reads_frame s'); [|done]. intros l Hl. by apply Hs2, Hfresh.
Qed.

(** The object of a nil pointer is no object, not a nil pointer in an interface. *)
Lemma DeepCopyObject_nil (copy : Copier) (p : gval) s :
  fst (DeepCopyObject_of (DeepCopy_of copy) p s) = None <-> fst (DeepCopy_of copy p s) = VNil.
Proof.
  unfold DeepCopyObject_of, andThen, keep. destruct (DeepCopy_of copy p s) as [[] s']; cbn; split; congruence.
Qed.
End DeepCopies.

(** ** The theorem at work *)
Definition demo_ObjectMeta : gotype := GStruct [("Name", GBase); ("Labels", GMap GBase)].
#[export] Program Instance demo_machinery : ApiMachinery := {|
  TypeMeta := GStruct [("Kind", GBase); ("APIVersion", GBase)];
  ObjectMeta := demo_ObjectMeta;
  ListMeta := GStruct [("ResourceVersion", GBase)];
  ObjectMeta_DeepCopyInto := into [("Labels", copy_map assign)];
  ListMeta_DeepCopyInto := into []
|}.
Next Obligation. reflexivity. Qed.
Next Obligation. deep_tac. Qed.
Next Obligation. deep_tac. Qed.

Definition vstr (s : string) : gval := VBase (BStr s).
(** A GPU with one label and two vGPUs, in three cells. *)
Definition gpu_store : gmap nat cell :=
  {[ 0 := CPtr (VStruct [("TypeMeta", VStruct [("Kind", vstr ""); ("APIVersion", vstr "")]);
            ("ObjectMeta", VStruct [("Name", vstr "n1-gpu"); ("Labels", VRef 1)]);
            ("Spec", VStruct [("Address", vstr "0000:08:00.0"); ("NodeName", vstr "n1"); ("Enabled", VBase (BBool true))]);
            ("Status", VStruct [("VFAddresses", VNil); ("VGPUDevices", VRef 2)])]);
     1 := CMap {[ "nodename" := vstr "n1" ]};
     2 := CSlice [vstr "n1-gpu-1"; vstr "n1-gpu-2"] ]}.
Definition tstr (s : string) : tree := TBase (BStr s).
Definition gpu_tree : tree :=
  TPtr (TStruct [("TypeMeta", TStruct [("Kind", tstr ""); ("APIVersion", tstr "")]);
    ("ObjectMeta", TStruct [("Name", tstr "n1-gpu"); ("Labels", TMap {[ "nodename" := tstr "n1" ]})]);
    ("Spec", TStruct [("Address", tstr "0000:08:00.0"); ("NodeName", tstr "n1"); ("Enabled", TBase (BBool true))]);
    ("Status", TStruct [("VFAddresses", TNil); ("VGPUDevices", TSlice [tstr "n1-gpu-1"; tstr "n1-gpu-2"])])]).

Lemma gpu_reads : reads (GPtr t_SRIOVGPUDevice) gpu_store (VRef 0) gpu_tree.
Proof.
  eexists. split; [reflexivity|]. cbn. split_and!; try done.
  - eexists. split; [reflexivity|]. intros k. destruct (decide (k = "nodename")) as [->|Hne].
    + rewrite !lookup_singleton_eq. by constructor.
    + rewrite !lookup_singleton_ne by done. constructor.
  - eexists. split; [reflexivity|]. by repeat constructor.
Qed.

(** The copy loses its second vGPU; the object in the cache keeps it. *)
Definition gpu_shrunk : gmap nat cell :=
  let (_, s) := SRIOVGPUDevice_DeepCopy (VRef 0) gpu_store in <[5 := CSlice [vstr "n1-gpu-1"]]> s.
Lemma deep_copy_independent_witness :
  fst (SRIOVGPUDevice_DeepCopy (VRef 0) gpu_store) = VRef 3 /\ reads (GPtr t_SRIOVGPUDevice) gpu_shrunk (VRef 0) gpu_tree.
Proof.
  split; [vm_compute; reflexivity|].
  pose proof (deep_copy_independent t_SRIOVGPUDevice SRIOVGPUDevice_DeepCopy gpu_store (VRef 0) gpu_tree) as Hind.
  unfold gpu_shrunk. destruct (SRIOVGPUDevice_DeepCopy (VRef 0) gpu_store) as [p' s'].
  destruct Hind as (_ & _ & _ & Hold & _).
  - apply (list_elem_of_lookup_2 generated 21). reflexivity.
  - exact gpu_reads.
  - apply Hold. intros l Hl. apply lookup_insert_ne. intros <-. apply elem_of_dom in Hl as [c Hc].
    vm_compute in Hc. discriminate Hc.
Defined.
