(* ===== verification/PCIDeviceApi.v ===== *)
(** * PCIDevice objects (pkg/apis/.../v1beta1/pcidevice.go)

    The name, the description and the resource name of a PCI device, and the
    status the controller writes.  The resource name is what KubeVirt schedules
    by and what names the device plugin's socket, so its shape and its length
    are the properties of this file. *)

From S2P Require Import Prelude GoStrings GoStringLemmas GoMonad Types Effects.
From Stdlib Require Import Ascii.

Definition PluginNamePrefix : string := "/var/lib/kubelet/device-plugins/kubevirt-".
Definition SocketFileNameLimit : nat := 108.
Definition VFSuffix : string := "VIRTUAL_FUNCTION".
Definition ShortenedVFSuffix : string := "VF".

Section Definitions.
Context `{External}.

Definition description (dev : pci_Device) : string :=
  let vendorName :=
    if pci_VendorName dev !=s ghw_UNKNOWN then pci_VendorName dev
    else "Vendor " +:+ pci_VendorID dev in
  let deviceName :=
    if pci_ProductName dev !=s ghw_UNKNOWN then pci_ProductName dev
    else "Device " +:+ pci_ProductID dev in
  let className :=
    if pci_SubclassName dev !=s ghw_UNKNOWN then pci_SubclassName dev
    else if pci_ClassName dev !=s ghw_UNKNOWN then pci_ClassName dev
    else "Class " +:+ pci_ClassID dev +:+ pci_SubclassID dev in
  className +:+ ": " +:+ vendorName +:+ " " +:+ deviceName.

Definition strip (s : string) : string := re_keep is_alnum s.

(** The text before the next closing bracket, if there is one. *)
Fixpoint upto_close (s : string) : option string :=
  match s with
  | EmptyString => None
  | String c s' =>
      if bool_decide (c = "]"%char) then Some EmptyString
      else String c <$> upto_close s'
  end.

(** The submatch of the leftmost match of the pattern
    [bracket, one or more non-closing characters, bracket]. *)
Fixpoint bracket_submatch (s : string) : option string :=
  match s with
  | EmptyString => None
  | String c s' =>
      if bool_decide (c = "["%char)
      then match upto_close s' with
           | Some m => if nonempty m then Some m else bracket_submatch s'
           | None => bracket_submatch s'
           end
      else bracket_submatch s'
  end.

(** [matches[1]] panics when the pattern does not match. *)
Definition extractVendorNameFromBrackets (vendorName : string) : outcome string :=
  match bracket_submatch vendorName with
  | None => Panic "index out of range"
  | Some m => Ok (strip (List.hd "" (Split m "/")))
  end.

(** The recursion of the source replaces the suffix and tries again; [fuel]
    bounds it, and [trimResourceNameIfNeeded] gives as much as the length of
    the name, which every replacement shortens. *)
Fixpoint trim_fuel (fuel : nat) (vendorCleaned productCleaned ID : string) : string :=
  let fullSocketName :=
    PluginNamePrefix +:+ "/" +:+ vendorCleaned +:+ "-" +:+ productCleaned +:+ ".sock" in
  if SocketFileNameLimit <? String.length fullSocketName then
    if Contains productCleaned VFSuffix then
      match fuel with
      | S fuel' =>
          trim_fuel fuel' vendorCleaned
            (ReplaceAll productCleaned VFSuffix ShortenedVFSuffix) ID
      | O => vendorCleaned +:+ "/" +:+ ID
      end
    else vendorCleaned +:+ "/" +:+ ID
  else vendorCleaned +:+ "/" +:+ productCleaned.

Definition trimResourceNameIfNeeded (vendorCleaned productCleaned ID : string) : string :=
  trim_fuel (String.length productCleaned) vendorCleaned productCleaned ID.

Definition resourceName (dev : pci_Device) : outcome string :=
  vendorBase <-o
    (if Contains (pci_VendorName dev) "["
     then extractVendorNameFromBrackets (pci_VendorName dev)
     else Ok (strip (List.hd "" (Split (pci_VendorName dev) " ")))) ;;
  let vendorCleaned := ToLower (ReplaceAll vendorBase " " "") +:+ ".com" in
  if pci_ProductName dev !=s ghw_UNKNOWN then
    let p := TrimSpace (pci_ProductName dev) in
    let p := ToUpper p in
    let p := ReplaceAll p "/" "_" in
    let p := ReplaceAll p "." "_" in
    let p := re_space_ReplaceAll p "_" in
    let p := re_keep (fun c => is_alnum c || bool_decide (c = "_"%char)
                               || bool_decide (c = "."%char)) p in
    let p := TrimRight p "_.-" in
    let p := if p ==s "" then pci_ProductID dev else p in
    Ok (trimResourceNameIfNeeded vendorCleaned p (pci_ProductID dev))
  else Ok (vendorCleaned +:+ "/" +:+ pci_ProductID dev).

(** [(status *PCIDeviceStatus) Update]. *)
Definition Update (status : PCIDeviceStatus) (dev : pci_Device) (hostname : string)
    (iommuGroups : gmap string Z) (overrideResourceName : string)
    : outcome PCIDeviceStatus :=
  generated <-o resourceName dev ;;
  Ok {| pd_Address := pci_Address dev;
        pd_VendorID := pci_VendorID dev;
        pd_DeviceID := pci_ProductID dev;
        pd_ClassID := pci_ClassID dev +:+ pci_SubclassID dev;
        pd_ResourceName :=
          if overrideResourceName !=s "" then overrideResourceName else generated;
        pd_Description := description dev;
        pd_IOMMUGroup :=
          match iommuGroups !! pci_Address dev with
          | Some group => Itoa group
          | None => pd_IOMMUGroup status
          end;
        pd_KernelDriverInUse := pci_Driver dev;
        pd_NodeName := hostname |}.

Definition PCIDeviceNameForHostname (address hostname : string) : string :=
  let addrDNSsafe := ReplaceAll (ReplaceAll address ":" "") "." "" in
  hostname +:+ "-" +:+ addrDNSsafe.

Definition NewPCIDeviceForHostname (dev : pci_Device) (hostname : string) : outcome PCIDevice :=
  rn <-o resourceName dev ;;
  Ok {| pd_meta :=
          new_meta (PCIDeviceNameForHostname (pci_Address dev) hostname) ∅
                   {[ PciDeviceDriver := pci_Driver dev ]};
        pd_Status :=
          {| pd_Address := pci_Address dev;
             pd_VendorID := pci_VendorID dev;
             pd_DeviceID := pci_ProductID dev;
             pd_ClassID := pci_ClassID dev +:+ pci_SubclassID dev;
             pd_NodeName := hostname;
             pd_ResourceName := rn;
             pd_Description := description dev;
             pd_KernelDriverInUse := pci_Driver dev;
             pd_IOMMUGroup := "" |} |}.
End Definitions.

(** ** Examples from pcidevice_test.go *)
Section Examples.
#[local] Instance ext_demo : External :=
  {| ghw_UNKNOWN := "unknown"; ResourceNameToEnvVar := fun a b => a +:+ "_" +:+ b;
     DevicePluginPath := "/var/lib/kubelet/device-plugins/"; HostRootMount := "/proc/1/root/";
     Pod_Running := "Running"; VMI_Running := "Running";
     marshal_AllocationDetails := fun _ => ""; unmarshal_AllocationDetails := fun _ => None;
     marshal_HostDevice := dr_Name; unmarshal_strings := fun _ => None |}.

Definition demo_dev (vendor product id : string) : pci_Device :=
  {| pci_Address := "00:1f.6"; pci_VendorID := "10de"; pci_VendorName := vendor;
     pci_ProductID := id; pci_ProductName := product; pci_ClassID := "02";
     pci_ClassName := "Network controller"; pci_SubclassID := "00";
     pci_SubclassName := "Ethernet controller"; pci_Driver := "fake" |}.

Example resourceName_a100 :
  resourceName (demo_dev "NVIDIA Corporation" "GA100 [A100 SXM4 40GB]" "20b0")
  = Ok "nvidia.com/GA100_A100_SXM4_40GB".
Proof. vm_compute. reflexivity. Qed.

Example resourceName_amd :
  resourceName (demo_dev "Advanced Micro Devices, Inc. [AMD/ATI]" "R481 [Radeon X850 XT AGP]" "4b49")
  = Ok "amd.com/R481_RADEON_X850_XT_AGP".
Proof. vm_compute. reflexivity. Qed.

Example resourceName_empty :
  resourceName (demo_dev "Test Vendor" "!!!" "5678") = Ok "test.com/5678".
Proof. vm_compute. reflexivity. Qed.
End Examples.

(** ** The trimming recursion *)

Lemma trim_fuel_enough n m vendorCleaned productCleaned ID :
  String.length productCleaned <= n -> String.length productCleaned <= m ->
  trim_fuel n vendorCleaned productCleaned ID = trim_fuel m vendorCleaned productCleaned ID.
Proof.
  revert m productCleaned. induction n as [|n IH]; intros [|m] p Hn Hm; simpl; [done|..];
    (destruct (_ <? _); [|done]); (destruct (Contains p VFSuffix) eqn:Hc; [|done]);
    pose proof (ReplaceAll_shorter VFSuffix ShortenedVFSuffix p ltac:(simpl; lia) Hc);
    [lia|lia|]. apply IH; lia.
Qed.

(** The definition satisfies the equation of the source, for every argument:
    the fuel never runs out. *)
Lemma trim_unfold vendorCleaned productCleaned ID :
  trimResourceNameIfNeeded vendorCleaned productCleaned ID =
  if SocketFileNameLimit <?
     String.length (PluginNamePrefix +:+ "/" +:+ vendorCleaned +:+ "-" +:+ productCleaned +:+ ".sock")
  then if Contains productCleaned VFSuffix
       then trimResourceNameIfNeeded vendorCleaned
              (ReplaceAll productCleaned VFSuffix ShortenedVFSuffix) ID
       else vendorCleaned +:+ "/" +:+ ID
  else vendorCleaned +:+ "/" +:+ productCleaned.
Proof.
  unfold trimResourceNameIfNeeded at 1. destruct productCleaned as [|c p].
  - simpl String.length at 1. simpl trim_fuel. by destruct (_ <? _).
  - cbn [String.length trim_fuel]. destruct (_ <? _); [|done].
    destruct (Contains (String c p) VFSuffix) eqn:Hc; [|done].
    apply trim_fuel_enough; [|done].
    pose proof (ReplaceAll_shorter VFSuffix ShortenedVFSuffix (String c p) ltac:(simpl; lia) Hc).
    simpl in *. lia.
Qed.

(** Either the name falls back to the device ID, or it is a product name that
    fits the limit, has only characters of the product's name and of the
    replacement, and is not empty when the product's name is not. *)
Lemma trim_cases vendorCleaned productCleaned ID :
  trimResourceNameIfNeeded vendorCleaned productCleaned ID = vendorCleaned +:+ "/" +:+ ID \/
  exists p,
    trimResourceNameIfNeeded vendorCleaned productCleaned ID = vendorCleaned +:+ "/" +:+ p /\
    String.length (PluginNamePrefix +:+ "/" +:+ vendorCleaned +:+ "-" +:+ p +:+ ".sock")
      <= SocketFileNameLimit /\
    (productCleaned <> "" -> p <> "") /\
    (forall P, str_forallb P productCleaned = true -> str_forallb P ShortenedVFSuffix = true ->
               str_forallb P p = true).
Proof.
  remember (String.length productCleaned) as n eqn:Hn.
  revert productCleaned Hn. induction n as [n IH] using lt_wf_ind; intros p ->.
  rewrite trim_unfold. destruct (SocketFileNameLimit <? _) eqn:Hlim.
  - destruct (Contains p VFSuffix) eqn:Hc; [|by left].
    destruct (IH _ (ReplaceAll_shorter VFSuffix ShortenedVFSuffix p ltac:(simpl; lia) Hc) _ eq_refl)
      as [->|(q & -> & Hq & Hne & HP)]; [by left|right].
    exists q. split_and!; [done|done| |].
    + intros Hp. by apply Hne, replace_nonempty.
    + intros P HpP HvP. apply HP; [|done]. by apply replace_skip_forallb.
  - right. exists p. apply Nat.ltb_ge in Hlim. split_and!; [done|exact Hlim|done|done].
Qed.

(** ** The shape of a generated resource name *)
Definition is_vendor_char (c : ascii) : bool := is_digit c || is_lower c.
Definition is_product_char (c : ascii) : bool :=
  is_digit c || is_upper c || bool_decide (c = "_"%char).

Lemma lower_alnum c : is_alnum c = true -> is_vendor_char (lower c) = true.
Proof.
  unfold is_alnum, is_vendor_char, lower, is_digit, is_upper, is_lower, in_range.
  destruct c as [[] [] [] [] [] [] [] []]; vm_compute; congruence.
Qed.

Lemma upper_not_lower c : is_lower (upper c) = false.
Proof. destruct c as [[] [] [] [] [] [] [] []]; vm_compute; reflexivity. Qed.

Lemma ToLower_strip s : str_forallb is_vendor_char (ToLower (strip s)) = true.
Proof.
  unfold ToLower, strip, re_keep. pose proof (str_forallb_filter is_alnum s) as Hs.
  revert Hs. generalize (str_filter is_alnum s). intros t.
  induction t as [|c t IH]; simpl; [done|]. rewrite !andb_true_iff.
  intros [? ?]. by split; [apply lower_alnum|apply IH].
Qed.

Lemma strip_no_space s : ReplaceAll (strip s) " " "" = strip s.
Proof.
  change " " with (str1 " "%char). apply ReplaceAll_char_id.
  apply (str_mem_forallb _ is_alnum); [apply str_forallb_filter|done].
Qed.

Lemma resourceName_vendor `{External} (dev : pci_Device) v :
  (if Contains (pci_VendorName dev) "["
   then extractVendorNameFromBrackets (pci_VendorName dev)
   else Ok (strip (List.hd "" (Split (pci_VendorName dev) " ")))) = Ok v ->
  str_forallb is_vendor_char (ToLower (ReplaceAll v " " "")) = true.
Proof.
  intros Hv. assert (exists s, v = strip s) as [s ->].
  { destruct (Contains _ _); [|injection Hv as <-; eauto].
    unfold extractVendorNameFromBrackets in Hv.
    destruct (bracket_submatch _); [injection Hv as <-; eauto|done]. }
  rewrite strip_no_space. apply ToLower_strip.
Qed.

(** The clean-up steps leave upper-case letters, digits and underscores. *)
Lemma product_clean_shape s :
  str_forallb is_product_char
    (TrimRight (re_keep (fun c => is_alnum c || bool_decide (c = "_"%char)
                                  || bool_decide (c = "."%char))
      (re_space_ReplaceAll (ReplaceAll (ReplaceAll (ToUpper s) "/" "_") "." "_") "_")) "_.-")
  = true.
Proof.
  apply str_forallb_trim_right.
  set (kept := fun c => is_alnum c || bool_decide (c = "_"%char) || bool_decide (c = "."%char)).
  set (good := fun c => negb (is_lower c) && negb (bool_decide (c = "."%char))).
  apply (str_forallb_impl (fun c => kept c && good c)).
  { intros c. unfold kept, good, is_alnum, is_product_char.
    destruct (is_digit c), (is_upper c), (is_lower c),
      (bool_decide (c = "_"%char)), (bool_decide (c = "."%char)); done. }
  rewrite str_forallb_and. apply andb_true_iff. split; [apply str_forallb_filter|].
  apply str_forallb_filter_other, collapse_forallb; [done|].
  unfold good. rewrite str_forallb_and. apply andb_true_iff. split.
  - apply replace_skip_forallb; [|done]. apply replace_skip_forallb; [|done].
    apply str_forallb_map. intros c. by rewrite upper_not_lower.
  - change "." with (str1 "."%char). rewrite <- str_mem_false_forallb.
    by apply ReplaceAll_char_removes.
Qed.

Definition socket_room (vendorCleaned productCleaned : string) : bool :=
  String.length (PluginNamePrefix +:+ "/" +:+ vendorCleaned +:+ "-" +:+ productCleaned +:+ ".sock")
    <=? SocketFileNameLimit.

(** Whenever [resourceName] returns, for a device whose ID has the four
    digits of PCI, the name is a vendor of lower-case letters and digits, then
    [.com/], then either the device ID or a non-empty product of upper-case
    letters, digits and underscores whose socket file name fits the limit of 108
    characters. *)
Theorem resourceName_shape `{External} (dev : pci_Device) (rn : string)
    (Hid : String.length (pci_ProductID dev) = 4) (Hrn : resourceName dev = Ok rn) :
  exists vendor product,
    rn = (vendor +:+ ".com") +:+ "/" +:+ product /\
    str_forallb is_vendor_char vendor = true /\
    (product = pci_ProductID dev \/
     (product <> "" /\ str_forallb is_product_char product = true /\
      socket_room (vendor +:+ ".com") product = true)).
Proof.
  unfold resourceName in Hrn. destruct (if Contains _ _ then _ else _) as [v|e|m] eqn:Hv;
    simpl in Hrn; [|done..].
  exists (ToLower (ReplaceAll v " " "")). apply resourceName_vendor in Hv.
  destruct (bool_decide (pci_ProductName dev = ghw_UNKNOWN)); simpl in Hrn;
    [injection Hrn as <-; eauto|].
  injection Hrn as <-. pose proof (product_clean_shape (TrimSpace (pci_ProductName dev))) as Hp.
  revert Hp. set (p := TrimRight _ _). intros Hp. case_bool_decide as Hpe.
  - exists (pci_ProductID dev). split; [|eauto].
    rewrite trim_unfold, (Contains_short _ VFSuffix) by (rewrite Hid; simpl; lia).
    by destruct (_ <? _).
  - destruct (trim_cases (ToLower (ReplaceAll v " " "") +:+ ".com") p (pci_ProductID dev))
      as [->|(q & -> & Hq & Hne & HP)]; [eauto|].
    exists q. split_and!; [done..|right]. split_and!; [auto|by apply HP|].
    by apply Nat.leb_le.
Qed.

(** ** Names of the objects: an address as sysfs writes it, [dddd:bb:dd.f] *)
Definition is_hex (c : ascii) : bool := is_digit c || in_range 97 102 c.
Definition hex_of_length (n : nat) (s : string) : bool :=
  (String.length s =? n) && str_forallb is_hex s.
Definition wf_address (a : string) : bool :=
  match Split a ":" with
  | [d; b; df] =>
      match Split df "." with
      | [s; f] => hex_of_length 4 d && hex_of_length 2 b && hex_of_length 2 s && hex_of_length 1 f
      | _ => false
      end
  | _ => false
  end.

Lemma wf_address_parts a :
  wf_address a = true ->
  exists d b s f, a = d +:+ ":" +:+ b +:+ ":" +:+ s +:+ "." +:+ f /\
    hex_of_length 4 d = true /\ hex_of_length 2 b = true /\
    hex_of_length 2 s = true /\ hex_of_length 1 f = true.
Proof.
  unfold wf_address. pose proof (Join_Split_char ":"%char a) as Ha.
  change (str1 ":"%char) with ":" in Ha. destruct (Split a ":") as [|d [|b [|df [|]]]]; try done.
  pose proof (Join_Split_char "."%char df) as Hdf. change (str1 "."%char) with "." in Hdf.
  destruct (Split df ".") as [|s [|f [|]]]; try done.
  rewrite !andb_true_iff. intros [[[? ?] ?] ?]. exists d, b, s, f.
  split_and!; try done. rewrite <- Ha, <- Hdf. done.
Qed.

Lemma hex_clean n s c : hex_of_length n s = true -> is_hex c = false ->
  ReplaceAll s (str1 c) "" = s /\ String.length s = n.
Proof.
  unfold hex_of_length. rewrite andb_true_iff, Nat.eqb_eq. intros [? Hs] Hc. split; [|done].
  by apply ReplaceAll_char_id, (str_mem_forallb _ is_hex).
Qed.

Lemma wf_address_clean d b s f :
  hex_of_length 4 d = true -> hex_of_length 2 b = true ->
  hex_of_length 2 s = true -> hex_of_length 1 f = true ->
  ReplaceAll (ReplaceAll (d +:+ ":" +:+ b +:+ ":" +:+ s +:+ "." +:+ f) ":" "") "." ""
  = d +:+ b +:+ s +:+ f.
Proof.
  intros Hd Hb Hs Hf.
  change ":" with (str1 ":"%char). change "." with (str1 "."%char).
  repeat match goal with
  | H : hex_of_length _ ?x = true |- _ =>
      destruct (hex_clean _ _ ":"%char H eq_refl) as [? ?];
      destruct (hex_clean _ _ "."%char H eq_refl) as [? _]; clear H
  end.
  rewrite !ReplaceAll_char_app.
  repeat match goal with H : ReplaceAll _ _ _ = _ |- _ => rewrite !H; revert H end. intros.
  change (ReplaceAll (str1 ":"%char) (str1 ":"%char) "") with "".
  change (ReplaceAll (ReplaceAll (str1 "."%char) (str1 ":"%char) "") (str1 "."%char) "") with "".
  change (ReplaceAll "" (str1 "."%char) "") with "". rewrite !app_empty_l.
  by repeat match goal with H : ReplaceAll _ _ _ = _ |- _ => rewrite !H; revert H end.
Qed.

(** The object name identifies the device in the whole cluster: for two
    addresses in the form sysfs gives them, equal names mean the same node and
    the same address. *)
Theorem PCIDeviceNameForHostname_inj (a1 a2 h1 h2 : string)
    (H1 : wf_address a1 = true) (H2 : wf_address a2 = true)
    (Heq : PCIDeviceNameForHostname a1 h1 = PCIDeviceNameForHostname a2 h2) :
  h1 = h2 /\ a1 = a2.
Proof.
  apply wf_address_parts in H1 as (d1 & b1 & s1 & f1 & -> & Hd1 & Hb1 & Hs1 & Hf1).
  apply wf_address_parts in H2 as (d2 & b2 & s2 & f2 & -> & Hd2 & Hb2 & Hs2 & Hf2).
  unfold PCIDeviceNameForHostname in Heq. rewrite !wf_address_clean in Heq by done.
  repeat match goal with
  | H : hex_of_length _ ?x = true |- _ =>
      destruct (hex_clean _ _ ":"%char H eq_refl) as [_ ?]; clear H
  end.
  rewrite <- !app_assoc_str in Heq.
  apply app_inj_tail_length in Heq as [Heq ->]; [|congruence].
  apply app_inj_tail_length in Heq as [Heq ->]; [|congruence].
  apply app_inj_tail_length in Heq as [Heq ->]; [|congruence].
  apply app_inj_tail_length in Heq as [Heq ->]; [|congruence].
  by apply app_inj_tail_length in Heq as [-> _].
Qed.

Lemma PCIDeviceNameForHostname_inj_witness :
  PCIDeviceNameForHostname "0000:04:10.7" "node1" = "node1-000004107" /\
  "node1" = "node1" /\ "0000:04:10.7" = "0000:04:10.7".
Proof.
  split; [vm_compute; reflexivity|].
  apply (PCIDeviceNameForHostname_inj "0000:04:10.7" "0000:04:10.7" "node1" "node1");
    vm_compute; reflexivity.
Defined.

Lemma resourceName_shape_witness :
  exists vendor product,
    "nvidia.com/GA100_A100_SXM4_40GB" = (vendor +:+ ".com") +:+ "/" +:+ product /\
    str_forallb is_vendor_char vendor = true /\
    (product = "20b0" \/
     (product <> "" /\ str_forallb is_product_char product = true /\
      socket_room (vendor +:+ ".com") product = true)).
Proof.
  apply (resourceName_shape (H := ext_demo)
           (demo_dev "NVIDIA Corporation" "GA100 [A100 SXM4 40GB]" "20b0"));
    vm_compute; reflexivity.
Defined.
