(* ===== verification/Iommu.v ===== *)
(** * IOMMU groups (pkg/iommu/iommu.go)

    Reading [/sys/kernel/iommu_groups] into a map from PCI addresses to group
    numbers.  The property of this file is the round trip: what [GroupPaths]
    lists, [GroupMapForPCIDevices] reads back. *)

From S2P Require Import Prelude GoStrings GoStringLemmas GoMonad Types Effects Sim.
From Stdlib Require Import Ascii.

(** One path of the loop.  [logrus.Fatalf] ends the process, like a panic; a
    group that is not a number is logged and skipped. *)
Definition group_entry (groupMap : gmap string Z) (groupPath : string) : outcome (gmap string Z) :=
  match Split groupPath "/" with
  | _ :: _ :: _ :: _ :: group :: _ :: deviceAddr :: _ =>
      match Atoi group with
      | Some groupInt => Ok (<[deviceAddr := groupInt]> groupMap)
      | None => Ok groupMap
      end
  | _ => Panic "groupPath does not contain a valid PCI address"
  end.

Fixpoint group_entries (groupMap : gmap string Z) (groupPaths : list string)
    : outcome (gmap string Z) :=
  match groupPaths with
  | [] => Ok groupMap
  | p :: ps => m <-o group_entry groupMap p ;; group_entries m ps
  end.

Definition GroupMapForPCIDevices (groupPaths : list string) : outcome (gmap string Z) :=
  group_entries ∅ groupPaths.

Definition sysKernelIommuGroups : string := "/sys/kernel/iommu_groups".

Definition device_path (group device : string) : string :=
  sysKernelIommuGroups +:+ "/" +:+ group +:+ "/devices/" +:+ device.

Section Handlers.
Context {Mem W : Type} `{World W}.

Definition group_devices (groupPaths : list string) (group : string * bool) : M Mem W (list string) :=
  devices <- eff (FsReadDir (sysKernelIommuGroups +:+ "/" +:+ group.1 +:+ "/devices")) ;;
  ret (groupPaths ++ ((fun device : string * bool => device_path group.1 device.1) <$> devices)).

Definition GroupPaths : M Mem W (list string) :=
  iommuGroups <- eff (FsReadDir sysKernelIommuGroups) ;;
  fold_m group_devices [] iommuGroups.

Definition GetGroupMap (address : string) : M Mem W string :=
  iommuGroupPaths <- GroupPaths ;;
  iommuGroupMap <- lift_o (GroupMapForPCIDevices iommuGroupPaths) ;;
  match iommuGroupMap !! address with
  | Some group => ret (Itoa group)
  | None => fail (Errorf ("missing group for address: " +:+ address))
  end.
End Handlers.

(** ** Lemmas *)
Lemma Split_device_path group device :
  no_slash group = true -> no_slash device = true ->
  Split (device_path group device) "/" =
    [""; "sys"; "kernel"; "iommu_groups"; group; "devices"; device].
Proof.
  unfold no_slash. rewrite !negb_true_iff. intros Hg Hd.
  change (device_path group device)
    with (Join ["" ; "sys"; "kernel"; "iommu_groups"; group; "devices"; device] (str1 "/"%char)).
  change "/" with (str1 "/"%char).
  apply Split_Join_char; [done|]. by repeat constructor.
Qed.

Lemma group_entry_path m group device :
  no_slash group = true -> no_slash device = true ->
  group_entry m (device_path group device) =
    Ok (match Atoi group with Some g => <[device := g]> m | None => m end).
Proof.
  intros Hg Hd. unfold group_entry. rewrite Split_device_path by done.
  by destruct (Atoi group).
Qed.

(** The entries of a directory tree: names without a slash, as the kernel makes them. *)
Definition wf_entries (l : list (string * string)) : bool :=
  forallb (fun p => no_slash p.1 && no_slash p.2) l.

Lemma group_entries_paths l m :
  wf_entries l = true ->
  group_entries m ((fun p => device_path p.1 p.2) <$> l) =
  Ok (fold_left (fun m p => match Atoi p.1 with Some g => <[p.2 := g]> m | None => m end) l m).
Proof.
  revert m. induction l as [|[g d] l IH]; intros m; [done|]. csimpl.
  rewrite !andb_true_iff. intros [[Hg Hd] Hl]. rewrite group_entry_path by done.
  cbn [obind]. by rewrite IH.
Qed.

Lemma fold_groups_lookup l m d :
  fold_left (fun (m : gmap string Z) p =>
      match Atoi p.1 with Some g => <[p.2 := g]> m | None => m end) l m !! d =
  match List.find (fun p : string * string => (p.2 ==s d) && bool_decide (is_Some (Atoi p.1))) (rev l) with
  | Some p => Atoi p.1
  | None => m !! d
  end.
Proof.
  revert m. induction l as [|[g a] l IH] using rev_ind; intros m; [done|].
  rewrite fold_left_app, rev_app_distr. simpl.
  destruct (Atoi g) as [z|] eqn:Hz; simpl.
  - case_bool_decide as Ha; simpl; simplify_map_eq; [done|]. by rewrite IH.
  - rewrite andb_false_r. by rewrite IH.
Qed.

Lemma find_unique {A} (P : A -> bool) (l : list A) x :
  x ∈ l -> P x = true -> (forall y, y ∈ l -> P y = true -> y = x) ->
  List.find P l = Some x.
Proof.
  intros Hx HP Huniq. destruct (List.find P l) as [y|] eqn:Hf.
  - apply List.find_some in Hf as [Hin Hy]. f_equal. apply Huniq; [|done]. by apply list_elem_of_In.
  - apply List.find_none with (x := x) in Hf; [congruence|by apply list_elem_of_In].
Qed.

(** Reading back the paths that [GroupPaths] builds from group and device
    names gives every device the number of its group, when each device is in one
    group; no such list of paths ends the process. *)
Theorem GroupMap_roundtrip (l : list (string * string)) (group device : string) (g : Z)
    (Hwf : wf_entries l = true) (Hnd : NoDup l.*2)
    (Hin : (group, device) ∈ l) (Hg : Atoi group = Some g) :
  exists m, GroupMapForPCIDevices ((fun p => device_path p.1 p.2) <$> l) = Ok m /\
            m !! device = Some g.
Proof.
  unfold GroupMapForPCIDevices. rewrite group_entries_paths by done.
  eexists. split; [done|]. rewrite fold_groups_lookup.
  rewrite (find_unique _ (rev l) (group, device)); [done|..].
  - apply list_elem_of_In, in_rev. rewrite rev_involutive. by apply list_elem_of_In.
  - simpl. by rewrite bool_decide_eq_true_2, Hg.
  - intros [g' d'] Hin'. apply list_elem_of_In, in_rev, list_elem_of_In in Hin'. simpl.
    rewrite andb_true_iff, bool_decide_eq_true. intros [-> _].
    apply list_elem_of_lookup in Hin as [i Hi]. apply list_elem_of_lookup in Hin' as [j Hj].
    assert (i = j) as ->.
    { eapply NoDup_lookup; [exact Hnd|..]; by rewrite list_lookup_fmap, ?Hi, ?Hj. }
    congruence.
Qed.

Lemma GroupMap_roundtrip_witness :
  exists m, GroupMapForPCIDevices
      ["/sys/kernel/iommu_groups/12/devices/0000:04:00.0";
       "/sys/kernel/iommu_groups/45/devices/0000:65:00.0"] = Ok m /\
    m !! "0000:65:00.0" = Some 45%Z.
Proof.
  apply (GroupMap_roundtrip [("12", "0000:04:00.0"); ("45", "0000:65:00.0")] "45").
  - vm_compute. reflexivity.
  - apply (bool_decide_unpack _). vm_compute. exact I.
  - apply (bool_decide_unpack _). vm_compute. exact I.
  - vm_compute. reflexivity.
Defined.

Section HandlerLemmas.
Context {Mem W : Type} `{World W}.

Lemma Steps_GroupPaths : Steps (@same_mem Mem W) GroupPaths.
Proof. unfold GroupPaths, group_devices. steps_tac. Qed.

Lemma Steps_GetGroupMap address : Steps (@same_mem Mem W) (GetGroupMap address).
Proof. unfold GetGroupMap. pose proof Steps_GroupPaths. steps_tac. Qed.

Lemma NoPanic_GroupPaths : NoPanic (Mem := Mem) GroupPaths.
Proof. unfold GroupPaths, group_devices. nopanic_tac. Qed.

(** Every path the walk of the tree lists has the form the reader expects, when
    the directories hold names without a slash. *)
Lemma GroupPaths_form (s s' : state Mem W) paths
    (Hread : forall w p l w', perform (FsReadDir p) w = (inr l, w') ->
             Forall (fun e : string * bool => no_slash e.1 = true) l) :
  GroupPaths s = (Ok paths, s') ->
  exists l, paths = (fun p => device_path p.1 p.2) <$> l /\ wf_entries l = true.
Proof.
  unfold GroupPaths. intros Hrun. inv_ok. apply eff_Ok_inv in Hrun0 as [Hgs _].
  apply Hread in Hgs. pattern paths. eapply (fold_m_Ok_inv _ _ _ _ _ _ _ Hrun); [by exists []|].
  clear - Hread Hgs. intros acc g s1 r s2 Hg (l & -> & Hl) Hrun.
  rewrite Forall_forall in Hgs. specialize (Hgs _ Hg).
  unfold group_devices in Hrun. inv_ok. apply eff_Ok_inv in Hrun0 as [Hds _].
  apply Hread in Hds. exists (l ++ ((fun d : string * bool => (g.1, d.1)) <$> a0)). split.
  - by rewrite fmap_app, <- list_fmap_compose.
  - unfold wf_entries in *. rewrite forallb_app, Hl. simpl.
    clear - Hds Hgs. induction Hds as [|d ds Hd _ IH]; simpl; [done|]. by rewrite Hgs, Hd.
Qed.

(** The process is never ended by the walk of [/sys/kernel/iommu_groups]:
    when the directories hold names without a slash, every path [GroupPaths]
    builds is one [GroupMapForPCIDevices] accepts, so [GetGroupMap] answers a
    group number or an error, and the [Fatalf] of the reader is dead code. *)
Theorem GetGroupMap_no_fatal (address : string) (s : state Mem W)
    (Hread : forall w p l w', perform (FsReadDir p) w = (inr l, w') ->
             Forall (fun e : string * bool => no_slash e.1 = true) l) :
  exists r s', GetGroupMap address s = (r, s') /\
    match r with
    | Ok g => exists n, g = Itoa n
    | Err _ => True
    | Panic _ => False
    end.
Proof.
  unfold GetGroupMap, bind at 1. destruct (GroupPaths s) as [[paths|e|p] s1] eqn:Hp.
  2: by eexists _, _. 2: by apply NoPanic_GroupPaths in Hp.
  destruct (GroupPaths_form _ _ _ Hread Hp) as (l & -> & Hl).
  unfold bind, lift_o, GroupMapForPCIDevices. rewrite group_entries_paths by done.
  destruct (_ !! address) as [g|]; eexists _, _; (split; [done|]); [by exists g|done].
Qed.
End HandlerLemmas.

(** A node whose directories hold only the two groups of the tree below. *)
Definition iommu_node : sim :=
  set_fs ∅ ∅
    (<["/sys/kernel/iommu_groups" := [("12", true); ("45", true)]]>
     (<["/sys/kernel/iommu_groups/12/devices" := [("0000:04:00.0", false)]]>
      {[ "/sys/kernel/iommu_groups/45/devices" := [("0000:65:00.0", false)] ]})) sim_empty.

(** The same node, as a world that answers any other directory with an error and
    never changes. *)
#[local] Instance iommu_world : World unit := fun X e w =>
  match e in Eff X return (error + X) * unit with
  | FsReadDir p =>
      (exists_or ((fun l => List.filter (fun q : string * bool => no_slash q.1) l)
                    <$> sim_dirs iommu_node !! p), w)
  | _ => (inl (Errorf "unavailable"), w)
  end.

Lemma GetGroupMap_no_fatal_witness :
  GetGroupMap "0000:65:00.0" (State tt tt) = (Ok "45", State tt tt) /\
  exists r s', GetGroupMap "0000:65:00.0" (State tt tt) = (r, s') /\
    match r with
    | Ok g => exists n, g = Itoa n
    | Err _ => True
    | Panic _ => False
    end.
Proof.
  split; [vm_compute; reflexivity|].
  apply GetGroupMap_no_fatal. intros w p l w' Hl. unfold perform, iommu_world, exists_or in Hl.
  destruct (sim_dirs iommu_node !! p) as [l'|]; [|discriminate Hl].
  simpl in Hl. injection Hl as <- _. apply Forall_forall. intros e He.
  apply list_elem_of_In, filter_In in He. tauto.
Defined.
