(* ===== verification/DevicePlugins.v ===== *)
(** * The device plugins (pkg/deviceplugins)

    What the three plugins share (common.go), the PCI plugin (device_manager.go,
    deviceplugin.go) and the vGPU plugin (vgpu_device_manager.go): the devices a
    plugin advertises to the kubelet, their health, and the answer to an
    allocation.  A value offered on a plugin's unbuffered [health] channel by a
    goroutine is a pending send; any pending send may be received next.  Sockets,
    gRPC and registration are not modelled. *)

From S2P Require Import Prelude GoStrings GoStringLemmas GoMonad Types Effects PCIDeviceApi Sim.
From Stdlib Require Import Ascii.

(** ** Devices and their health *)
Inductive Health := Healthy | Unhealthy.
#[export] Instance Health_eq_dec : EqDecision Health.
Proof. solve_decision. Defined.

(** A device of the kubelet's API: its ID, its health and its NUMA node. *)
Record Device := { dev_ID : string; dev_Health : Health; dev_Topology : option Z }.
#[export] Instance Device_eq_dec : EqDecision Device.
Proof. solve_decision. Defined.

Record deviceHealth := { dh_DevID : string; dh_Health : Health }.
#[export] Instance deviceHealth_eq_dec : EqDecision deviceHealth.
Proof. solve_decision. Defined.

Record DeviceSpec := { ds_HostPath : string; ds_ContainerPath : string; ds_Permissions : string }.
Record ContainerAllocateResponse := {
  car_Devices : list DeviceSpec;
  car_Envs : gmap string string
}.

Definition vfioDevicePath : string := "/dev/vfio/".
Definition vfioMount : string := "/dev/vfio/vfio".
Definition pciBasePath : string := "/sys/bus/pci/devices".
Definition PCIResourcePrefix : string := "PCI_RESOURCE".
Definition VGPUPrefix : string := "MDEV_PCI_RESOURCE".
Definition MdevRoot : string := "/sys/bus/mdev/devices/".

Definition is_healthy (d : Device) : bool := bool_decide (dev_Health d = Healthy).
Definition with_health (h : Health) (d : Device) : Device :=
  {| dev_ID := dev_ID d; dev_Health := h; dev_Topology := dev_Topology d |}.

(** The loop over the devices in [ListAndWatch], for a received [deviceHealth]. *)
Definition set_health (h : deviceHealth) (devs : list Device) : list Device :=
  (fun d => if dev_ID d ==s dh_DevID h then with_health (dh_Health h) d else d) <$> devs.

(** [GetCount]: the devices that are healthy. *)
Definition count_healthy (devs : list Device) : nat :=
  fold_left (fun count d => if is_healthy d then S count else count) devs 0.

Section Common.
Context `{External} {Mem W : Type} `{World W}.

Definition SocketPath (deviceName : string) : string :=
  PathJoin [DevicePluginPath; "kubevirt-" +:+ deviceName +:+ ".sock"].

Definition formatVFIODeviceSpecs (devID : string) : list DeviceSpec :=
  let vfioDevice := PathJoin [vfioDevicePath; devID] in
  [ {| ds_HostPath := vfioMount; ds_ContainerPath := vfioMount; ds_Permissions := "mrw" |};
    {| ds_HostPath := vfioDevice; ds_ContainerPath := vfioDevice; ds_Permissions := "mrw" |} ].

Definition GetDeviceIOMMUGroup (basepath pciAddress : string) : M Mem W string :=
  iommuPath <- eff (FsReadlink (PathJoin [basepath; pciAddress; "iommu_group"])) ;;
  ret (path_file iommuPath).

Definition GetDeviceDriver (basepath pciAddress : string) : M Mem W string :=
  driverPath <- eff (FsReadlink (PathJoin [basepath; pciAddress; "driver"])) ;;
  ret (path_file driverPath).

(** [-1] when the file cannot be read; [strconv.Atoi] answers 0 next to a syntax error. *)
Definition GetDeviceNumaNode (basepath pciAddress : string) : M Mem W Z :=
  r <- try (eff (FsReadFile (PathJoin [basepath; pciAddress; "numa_node"]))) ;;
  match r with
  | inl _ => ret (-1)%Z
  | inr numaNodeStr => ret (default 0%Z (Atoi (TrimSpace numaNodeStr)))
  end.

Fixpoint find_pci_id (lines : list string) : option string :=
  match lines with
  | [] => None
  | line :: ls =>
      if HasPrefix line "PCI_ID"
      then Some (ToLower (TrimSpace (str_drop (Z.to_nat (Index line "=" + 1)) line)))
      else find_pci_id ls
  end.

Definition GetDevicePCIID (basepath pciAddress : string) : M Mem W string :=
  file <- eff (FsReadFile (PathJoin [basepath; pciAddress; "uevent"])) ;;
  match find_pci_id (fst (ScanLines file)) with
  | Some id => ret id
  | None => fail (Errorf "no pci_id is found")
  end.

(** [os.Remove] of the socket, for which an absent file is no error. *)
Definition cleanup (socketPath : string) : M Mem W unit :=
  r <- try (eff (FsRemove socketPath)) ;;
  match r with
  | inl e => if negb (IsNotExist e) then fail e else ret tt
  | inr _ => ret tt
  end.
End Common.

(** ** Lemmas on health *)
Lemma count_healthy_length devs :
  count_healthy devs = length (List.filter is_healthy devs).
Proof.
  unfold count_healthy.
  assert (forall n, fold_left (fun c d => if is_healthy d then S c else c) devs n =
                    n + length (List.filter is_healthy devs)) as ->; [|done].
  induction devs as [|d devs IH]; intros n; simpl; [lia|].
  destruct (is_healthy d); rewrite IH; simpl; lia.
Qed.

Lemma set_health_IDs h devs : dev_ID <$> set_health h devs = dev_ID <$> devs.
Proof.
  unfold set_health. rewrite <- list_fmap_compose. apply list_fmap_ext.
  intros i d _. simpl. by case_bool_decide.
Qed.

Lemma set_health_length h devs : length (set_health h devs) = length devs.
Proof. apply length_fmap. Qed.

Lemma set_health_app h l1 l2 : set_health h (l1 ++ l2) = set_health h l1 ++ set_health h l2.
Proof. apply fmap_app. Qed.

Lemma elem_of_set_health h devs d :
  d ∈ set_health h devs ->
  exists d0, d0 ∈ devs /\ dev_ID d = dev_ID d0 /\
    dev_Health d = if dev_ID d0 ==s dh_DevID h then dh_Health h else dev_Health d0.
Proof.
  unfold set_health. rewrite list_elem_of_fmap. intros (d0 & -> & Hd0).
  exists d0. by case_bool_decide.
Qed.

(** ** The socket of a generated resource name *)
Definition kubelet_dir : string := "/var/lib/kubelet/device-plugins/".

Lemma PathJoin2 a f : nonempty a = true -> nonempty f = true -> PathJoin [a; f] = Clean (Join [a; f] "/").
Proof. intros Ha Hf. unfold PathJoin. simpl. by rewrite Ha, Hf. Qed.

Lemma PathJoin_socket f :
  plain_name f = true -> PathJoin [kubelet_dir; f] = kubelet_dir +:+ f.
Proof.
  intros Hf. pose proof Hf as Hf'. unfold plain_name, no_slash in Hf'.
  rewrite !andb_true_iff, !negb_true_iff in Hf'. destruct Hf' as [[[Hs Hne] _] _].
  rewrite PathJoin2 by done.
  set (l := ["" ; "var"; "lib"; "kubelet"; "device-plugins"; ""] ++ [f]).
  assert (Join [kubelet_dir; f] "/" = Join l "/") as -> by done.
  unfold Clean. assert (Split (Join l "/") "/" = l) as ->.
  { change "/" with (str1 "/"%char). apply Split_Join_char; [done|by repeat constructor]. }
  unfold l. rewrite clean_go_app, clean_go_plain by done. reflexivity.
Qed.

Lemma SocketPath_of_name `{External} (vendor product : string) :
  DevicePluginPath = kubelet_dir ->
  str_mem "/"%char vendor = false -> str_mem "/"%char product = false ->
  SocketPath (ReplaceAll ((vendor +:+ ".com") +:+ "/" +:+ product) "/" "-") =
    PluginNamePrefix +:+ vendor +:+ ".com-" +:+ product +:+ ".sock".
Proof.
  intros Hdir Hv Hp. assert (ReplaceAll ((vendor +:+ ".com") +:+ "/" +:+ product) "/" "-" = vendor +:+ ".com-" +:+ product) as ->.
  { change "/" with (str1 "/"%char). rewrite !ReplaceAll_char_app.
    rewrite (ReplaceAll_char_id _ _ vendor), (ReplaceAll_char_id _ _ product) by done.
    by rewrite !app_assoc_str. }
  unfold SocketPath. rewrite Hdir, PathJoin_socket; [by rewrite !app_assoc_str|].
  unfold plain_name, no_slash. rewrite !str_mem_app. by rewrite Hv, Hp.
Qed.

(** C40: the sockets of the plugins fit a Unix socket address: for every device that
    ghw reports with an ID of four hexadecimal digits, the resource name that
    [resourceName] generates and [trimResourceNameIfNeeded] shortens makes a socket
    path of the kubelet's directory, [kubevirt-], the name with a dash for its slash
    and [.sock]; the path has at most 107 characters, so that its terminating zero
    fits the 108 bytes of [sun_path].  Only a vendor of more than 52 characters can
    escape the bound, and then the name was already cut down to the device's ID. *)
Theorem SocketPath_fits `{External} (dev : pci_Device) (rn : string)
    (Hdir : DevicePluginPath = kubelet_dir) (Hid : hex_of_length 4 (pci_ProductID dev) = true)
    (Hrn : resourceName dev = Ok rn) :
  let path := SocketPath (ReplaceAll rn "/" "-") in
  exists vendor product,
    rn = (vendor +:+ ".com") +:+ "/" +:+ product /\
    path = PluginNamePrefix +:+ vendor +:+ ".com-" +:+ product +:+ ".sock" /\
    (String.length path <= 107 \/ (product = pci_ProductID dev /\ 52 < String.length vendor)).
Proof.
  intros path. unfold hex_of_length in Hid. apply andb_true_iff in Hid as [Hid%Nat.eqb_eq Hhex].
  destruct (resourceName_shape dev rn Hid Hrn) as (vendor & product & -> & Hv & Hp).
  assert (str_mem "/"%char product = false) as Hslash.
  { destruct Hp as [->|(_ & Hp & _)]; by eapply str_mem_forallb. }
  pose proof (SocketPath_of_name vendor product Hdir (str_mem_forallb "/" _ vendor Hv eq_refl) Hslash) as Heq.
  fold path in Heq. exists vendor, product. split_and!; [done..|]. rewrite Heq.
  unfold socket_room, SocketFileNameLimit, PluginNamePrefix in *. rewrite !length_app_str in *. simpl in *.
  destruct Hp as [->|(_ & _ & Hroom)].
  - rewrite Hid. destruct (decide (52 < String.length vendor)); [auto|left; lia].
  - apply Nat.leb_le in Hroom. left. lia.
Qed.

(** A name of 128 characters is cut down to the ID of the device. *)
Definition demo_long : pci_Device :=
  demo_dev "Mellanox Technologies"
    "MT2892 Family [ConnectX-6 Dx] with a name as long as names of cards are when they tell the whole story of the card"
    "101d".

Lemma SocketPath_fits_witness :
  resourceName demo_long = Ok "mellanox.com/101d" /\
  exists vendor product,
    "mellanox.com/101d" = (vendor +:+ ".com") +:+ "/" +:+ product /\
    SocketPath "mellanox.com-101d" = PluginNamePrefix +:+ vendor +:+ ".com-" +:+ product +:+ ".sock" /\
    (String.length (SocketPath "mellanox.com-101d") <= 107 \/ (product = "101d" /\ 52 < String.length vendor)).
Proof.
  assert (resourceName demo_long = Ok "mellanox.com/101d") as Hrn by (vm_compute; reflexivity).
  split; [exact Hrn|]. exact (SocketPath_fits demo_long "mellanox.com/101d" eq_refl eq_refl Hrn).
Defined.
