(* ===== verification/PCIPlugin.v ===== *)
(** * The PCI device plugin (device_manager.go, deviceplugin.go)

    A plugin advertises the PCI devices of one resource name.  [dp_pending] holds
    the sends that the goroutines of [MarkPCIDeviceAs(Un)Healthy] have pending on
    the unbuffered channel [health]. *)

From S2P Require Import Prelude GoStrings GoStringLemmas GoMonad Types Effects PCIDeviceApi DevicePlugins Sim.
From Stdlib Require Import Ascii.

(** [PCIDevice] of the package: not the custom resource. *)
Record hostPCIDevice := {
  hp_pciID : string;
  hp_driver : string;
  hp_pciAddress : string;
  hp_iommuGroup : string;
  hp_numaNode : Z
}.

Record PCIDevicePlugin := {
  dp_pcidevs : list hostPCIDevice;
  dp_devs : list Device;
  dp_socketPath : string;
  dp_devicePath : string;
  dp_resourceName : string;
  dp_deviceRoot : string;
  dp_iommuToPCIMap : gmap string string;
  dp_initialized : bool;
  dp_started : bool;
  dp_pending : list deviceHealth
}.

Definition set_devs (devs : list Device) (m : gmap string string) (pending : list deviceHealth)
    (dp : PCIDevicePlugin) : PCIDevicePlugin :=
  {| dp_pcidevs := dp_pcidevs dp; dp_devs := devs; dp_socketPath := dp_socketPath dp;
     dp_devicePath := dp_devicePath dp; dp_resourceName := dp_resourceName dp;
     dp_deviceRoot := dp_deviceRoot dp; dp_iommuToPCIMap := m;
     dp_initialized := dp_initialized dp; dp_started := dp_started dp;
     dp_pending := pending |}.

Definition SetStarted (dp : PCIDevicePlugin) : PCIDevicePlugin :=
  {| dp_pcidevs := dp_pcidevs dp; dp_devs := dp_devs dp; dp_socketPath := dp_socketPath dp;
     dp_devicePath := dp_devicePath dp; dp_resourceName := dp_resourceName dp;
     dp_deviceRoot := dp_deviceRoot dp; dp_iommuToPCIMap := dp_iommuToPCIMap dp;
     dp_initialized := dp_initialized dp; dp_started := true;
     dp_pending := dp_pending dp |}.

Definition setInitialized (initialized : bool) (dp : PCIDevicePlugin) : PCIDevicePlugin :=
  {| dp_pcidevs := dp_pcidevs dp; dp_devs := dp_devs dp; dp_socketPath := dp_socketPath dp;
     dp_devicePath := dp_devicePath dp; dp_resourceName := dp_resourceName dp;
     dp_deviceRoot := dp_deviceRoot dp; dp_iommuToPCIMap := dp_iommuToPCIMap dp;
     dp_initialized := initialized; dp_started := dp_started dp;
     dp_pending := dp_pending dp |}.

Definition Started (dp : PCIDevicePlugin) : bool := dp_started dp.
Definition GetCount (dp : PCIDevicePlugin) : nat := count_healthy (dp_devs dp).

(** The device and the map it fills on the way. *)
Fixpoint constructDPIdevices (pciDevices : list hostPCIDevice) (iommuToPCIMap : gmap string string)
    : list Device * gmap string string :=
  match pciDevices with
  | [] => ([], iommuToPCIMap)
  | pciDevice :: rest =>
      let dpiDev :=
        {| dev_ID := hp_pciID pciDevice; dev_Health := Unhealthy;
           dev_Topology := if (0 <=? hp_numaNode pciDevice)%Z then Some (hp_numaNode pciDevice) else None |} in
      let '(devs, m) :=
        constructDPIdevices rest (<[hp_pciAddress pciDevice := hp_iommuGroup pciDevice]> iommuToPCIMap) in
      (dpiDev :: devs, m)
  end.

Definition MarkPCIDeviceAsHealthy (pciAddress : string) (dp : PCIDevicePlugin) : PCIDevicePlugin :=
  set_devs (dp_devs dp) (dp_iommuToPCIMap dp)
    (dp_pending dp ++ [{| dh_DevID := pciAddress; dh_Health := Healthy |}]) dp.
Definition MarkPCIDeviceAsUnhealthy (pciAddress : string) (dp : PCIDevicePlugin) : PCIDevicePlugin :=
  set_devs (dp_devs dp) (dp_iommuToPCIMap dp)
    (dp_pending dp ++ [{| dh_DevID := pciAddress; dh_Health := Unhealthy |}]) dp.

Definition Find (resourceName : string) (dps : gmap string PCIDevicePlugin) : option PCIDevicePlugin :=
  dps !! resourceName.

(** [pcidevs] of [Create] and [AddDevice]: the NUMA node is left at its zero value. *)
Definition host_device (pd : PCIDevice) : hostPCIDevice :=
  {| hp_pciID := pd_Address (pd_Status pd); hp_driver := pd_KernelDriverInUse (pd_Status pd);
     hp_pciAddress := pd_Address (pd_Status pd); hp_iommuGroup := pd_IOMMUGroup (pd_Status pd);
     hp_numaNode := 0 |}.

Section Definitions.
Context `{External}.

Definition NewPCIDevicePlugin (pciDevices : list hostPCIDevice) (resourceName : string) : PCIDevicePlugin :=
  let serverSock := SocketPath (ReplaceAll resourceName "/" "-") in
  let '(devs, iommuToPCIMap) := constructDPIdevices pciDevices ∅ in
  {| dp_pcidevs := pciDevices; dp_devs := devs; dp_socketPath := serverSock;
     dp_devicePath := vfioDevicePath; dp_resourceName := resourceName;
     dp_deviceRoot := HostRootMount; dp_iommuToPCIMap := iommuToPCIMap;
     dp_initialized := false; dp_started := false; dp_pending := [] |}.

Definition Create (resourceName pciAddressInitial : string)
    (pdsWithSameResourceName : list PCIDevice) : PCIDevicePlugin :=
  let pcidevs := host_device <$> pdsWithSameResourceName in
  MarkPCIDeviceAsHealthy pciAddressInitial (NewPCIDevicePlugin pcidevs resourceName).

(** [AddDevice(pd, pdc)], of which it reads the claim's address. *)
Definition AddDevice (pd : PCIDevice) (pdc : PCIDeviceClaim) (dp : PCIDevicePlugin) : PCIDevicePlugin :=
  match dp_iommuToPCIMap dp !! pd_Address (pd_Status pd) with
  | Some _ => dp
  | None =>
      let '(devs, m) := constructDPIdevices [host_device pd] (dp_iommuToPCIMap dp) in
      MarkPCIDeviceAsHealthy (pdc_Address (pdc_Spec pdc))
        (set_devs (dp_devs dp ++ devs) m (dp_pending dp) dp)
  end.

(** The nil plugin is no error. *)
Definition RemoveDevice (pdc : PCIDeviceClaim) (dp : option PCIDevicePlugin) : option PCIDevicePlugin :=
  MarkPCIDeviceAsUnhealthy (pdc_Address (pdc_Spec pdc)) <$> dp.

(** One pending send is received by the loop of [ListAndWatch]. *)
Definition deliver (i : nat) (dp : PCIDevicePlugin) : option PCIDevicePlugin :=
  h ← dp_pending dp !! i;
  Some (set_devs (set_health h (dp_devs dp)) (dp_iommuToPCIMap dp) (delete i (dp_pending dp)) dp).

(** ** Allocate *)
Context `{MapOrder}.

(** The loop body for one device ID: the addresses allocated so far, across all
    the containers of the request, and the device specs of this container. *)
Definition allocate_device (dp : PCIDevicePlugin) (acc : list string * list DeviceSpec)
    (devID : string) : list string * list DeviceSpec :=
  let '(allocatedDevices, deviceSpecs) := acc in
  match dp_iommuToPCIMap dp !! devID with
  | Some iommuGroup =>
      (allocatedDevices ++ [devID] ++
         (List.filter (fun p : string * string => p.2 ==s iommuGroup) (range (dp_iommuToPCIMap dp))).*1,
       deviceSpecs ++ formatVFIODeviceSpecs iommuGroup)
  | None => (allocatedDevices, deviceSpecs)
  end.

(** One container request: it overwrites the one [containerResponse] that every
    element of the answer points to. *)
Definition allocate_container (dp : PCIDevicePlugin)
    (acc : list string * ContainerAllocateResponse) (DevicesIDs : list string)
    : list string * ContainerAllocateResponse :=
  let '(allocatedDevices, deviceSpecs) := fold_left (allocate_device dp) DevicesIDs (acc.1, []) in
  (allocatedDevices,
   {| car_Devices := deviceSpecs;
      car_Envs := {[ ResourceNameToEnvVar PCIResourcePrefix (dp_resourceName dp)
                       := Join allocatedDevices "," ]} |}).

Definition Allocate (dp : PCIDevicePlugin) (ContainerRequests : list (list string))
    : list ContainerAllocateResponse :=
  let containerResponse := {| car_Devices := []; car_Envs := ∅ |} in
  let '(_, final) := fold_left (allocate_container dp) ContainerRequests ([], containerResponse) in
  replicate (length ContainerRequests) final.
End Definitions.

(** ** The health check *)
Inductive fs_op := OpCreate | OpRemove | OpRename | OpOther.
Record fs_event := { ev_Name : string; ev_Op : fs_op }.

(** What the loop does with an event of the watcher. *)
Inductive reaction := SendHealth (h : deviceHealth) | SocketRemoved | NoReaction.

(** The probe of all devices: keyed by the ID of the device.  At most one key of
    the map equals an ID, so the inner loop over the map is a lookup. *)
Definition monitoredDevices (dp : PCIDevicePlugin) : gmap string string :=
  let devicePath := PathJoin [dp_deviceRoot dp; dp_devicePath dp] in
  fold_left (fun m dev =>
    match dp_iommuToPCIMap dp !! dev_ID dev with
    | Some iommuGroup => <[dev_ID dev := PathJoin [devicePath; iommuGroup]]> m
    | None => m
    end) (dp_devs dp) ∅.

(** The loop over the watcher's events, shared with the vGPU plugin. *)
Definition on_event (monitored : gmap string string) (socketPath : string) (event : fs_event) : reaction :=
  match monitored !! ev_Name event with
  | Some monDevID =>
      match ev_Op event with
      | OpCreate => SendHealth {| dh_DevID := monDevID; dh_Health := Healthy |}
      | OpRemove | OpRename => SendHealth {| dh_DevID := monDevID; dh_Health := Unhealthy |}
      | OpOther => NoReaction
      end
  | None =>
      if ev_Name event ==s socketPath
      then match ev_Op event with OpRemove => SocketRemoved | _ => NoReaction end
      else NoReaction
  end.

Definition healthCheck_event (dp : PCIDevicePlugin) (event : fs_event) : reaction :=
  on_event (monitoredDevices dp) (dp_socketPath dp) event.

(** ** Lemmas *)
Lemma construct_spec l m devs m' :
  constructDPIdevices l m = (devs, m') ->
  dev_ID <$> devs = hp_pciID <$> l /\
  Forall (fun d => dev_Health d = Unhealthy) devs /\
  (forall a, is_Some (m' !! a) <-> is_Some (m !! a) \/ a ∈ hp_pciAddress <$> l).
Proof.
  revert m devs m'. induction l as [|x l IH]; intros m devs m'; simpl.
  - intros [= <- <-]. split_and!; [done|constructor|]. intros a. set_solver.
  - destruct (constructDPIdevices l _) as [ds m1] eqn:Hc. intros [= <- <-].
    apply IH in Hc as (HID & Hun & Hdom). csimpl. split_and!; [by rewrite HID|by constructor|].
    intros a. rewrite Hdom, elem_of_cons.
    destruct (decide (a = hp_pciAddress x)) as [->|Hne].
    + rewrite lookup_insert_eq. split; [by right; left|]. intros _. by left.
    + rewrite lookup_insert_ne by done. tauto.
Qed.

(** The devices advertised are those of the map, each once. *)
Definition plugin_wf (dp : PCIDevicePlugin) : Prop :=
  NoDup (dev_ID <$> dp_devs dp) /\
  forall a, is_Some (dp_iommuToPCIMap dp !! a) <-> a ∈ dev_ID <$> dp_devs dp.

Lemma host_device_IDs (pds : list PCIDevice) :
  hp_pciID <$> (host_device <$> pds) = (fun pd => pd_Address (pd_Status pd)) <$> pds /\
  hp_pciAddress <$> (host_device <$> pds) = (fun pd => pd_Address (pd_Status pd)) <$> pds.
Proof. by rewrite <- !list_fmap_compose. Qed.

Lemma Create_wf `{External} rn a (pds : list PCIDevice) :
  NoDup ((fun pd => pd_Address (pd_Status pd)) <$> pds) -> plugin_wf (Create rn a pds).
Proof.
  intros Hnd. unfold Create, NewPCIDevicePlugin.
  destruct (constructDPIdevices _ ∅) as [devs m] eqn:Hc.
  apply construct_spec in Hc as (HID & _ & Hdom).
  destruct (host_device_IDs pds) as [H1 H2]. rewrite H1 in HID. rewrite H2 in Hdom.
  unfold plugin_wf. simpl. rewrite HID. split; [done|]. intros b.
  rewrite Hdom, lookup_empty, is_Some_alt. tauto.
Qed.

Lemma AddDevice_cases pd pdc dp :
  (is_Some (dp_iommuToPCIMap dp !! pd_Address (pd_Status pd)) /\ AddDevice pd pdc dp = dp) \/
  (dp_iommuToPCIMap dp !! pd_Address (pd_Status pd) = None /\
   AddDevice pd pdc dp =
     set_devs (dp_devs dp ++ [{| dev_ID := pd_Address (pd_Status pd); dev_Health := Unhealthy;
                                 dev_Topology := Some 0%Z |}])
       (<[pd_Address (pd_Status pd) := pd_IOMMUGroup (pd_Status pd)]> (dp_iommuToPCIMap dp))
       (dp_pending dp ++ [{| dh_DevID := pdc_Address (pdc_Spec pdc); dh_Health := Healthy |}]) dp).
Proof. unfold AddDevice. destruct (_ !! _) eqn:E; [left; eauto|right; done]. Qed.

Lemma AddDevice_wf pd pdc dp : plugin_wf dp -> plugin_wf (AddDevice pd pdc dp).
Proof.
  intros [Hnd Hdom]. destruct (AddDevice_cases pd pdc dp) as [[_ ->]|[Hnone ->]]; [done|].
  unfold plugin_wf. simpl. rewrite fmap_app. simpl. split.
  - apply NoDup_app. split_and!; [done| |by apply NoDup_singleton].
    intros x Hx ->%list_elem_of_singleton. apply Hdom in Hx. rewrite Hnone in Hx.
    by apply is_Some_None in Hx.
  - intros a. rewrite elem_of_app, <- Hdom, list_elem_of_singleton.
    destruct (decide (a = pd_Address (pd_Status pd))) as [->|Hne].
    + rewrite lookup_insert_eq. split; [by right|by intros _].
    + rewrite lookup_insert_ne by done. tauto.
Qed.

Lemma deliver_inv i dp dp' :
  deliver i dp = Some dp' ->
  exists h, dp_pending dp !! i = Some h /\
    dp' = set_devs (set_health h (dp_devs dp)) (dp_iommuToPCIMap dp) (delete i (dp_pending dp)) dp.
Proof. unfold deliver. destruct (dp_pending dp !! i) as [h|]; simpl; [|done]. intros [= <-]. eauto. Qed.

Lemma deliver_wf i dp dp' : deliver i dp = Some dp' -> plugin_wf dp -> plugin_wf dp'.
Proof.
  intros (h & _ & ->)%deliver_inv. unfold plugin_wf. simpl. by rewrite set_health_IDs.
Qed.

(** What happens to a plugin while it is registered: devices are added and
    removed by the claim controller and pending sends are received, in any order. *)
Inductive plugin_step : relation PCIDevicePlugin :=
| step_add dp pd pdc : plugin_step dp (AddDevice pd pdc dp)
| step_remove dp pdc dp' : RemoveDevice pdc (Some dp) = Some dp' -> plugin_step dp dp'
| step_deliver dp i dp' : deliver i dp = Some dp' -> plugin_step dp dp'.

Lemma plugin_step_wf dp dp' : plugin_step dp dp' -> plugin_wf dp -> plugin_wf dp'.
Proof.
  intros [d pd pdc|d pdc d' [= <-]|d i d' Hd] Hwf; [by apply AddDevice_wf|done|by eapply deliver_wf].
Qed.

Lemma plugin_steps_wf dp dp' : rtc plugin_step dp dp' -> plugin_wf dp -> plugin_wf dp'.
Proof. induction 1 as [|d1 d2 d3 Hs _ IH]; intros Hwf; [done|]. by eapply IH, plugin_step_wf. Qed.

(** Devices are only ever added, at the end of the list. *)
Lemma plugin_steps_IDs dp dp' :
  rtc plugin_step dp dp' -> exists l, dev_ID <$> dp_devs dp' = (dev_ID <$> dp_devs dp) ++ l.
Proof.
  induction 1 as [d|d1 d2 d3 Hs _ [l IH]]; [exists []; by rewrite app_nil_r|].
  destruct Hs as [d pd pdc|d pdc d' [= <-]|d i d' (h & _ & ->)%deliver_inv].
  - destruct (AddDevice_cases pd pdc d) as [[_ E]|[_ E]]; rewrite E in IH; [eauto|].
    simpl in IH. rewrite fmap_app, <- app_assoc in IH. eauto.
  - eauto.
  - simpl in IH. rewrite set_health_IDs in IH. eauto.
Qed.

(** C13: through every interleaving of claims added and removed and health
    messages received, the plugin of a resource advertises each device once, the
    advertised IDs are exactly the keys of the map that [Allocate] looks up, and
    no device is ever dropped from the list. *)
Theorem plugin_advertises_map `{External} (rn a : string) (pds : list PCIDevice) (dp : PCIDevicePlugin)
    (Hnd : NoDup ((fun pd => pd_Address (pd_Status pd)) <$> pds))
    (Hsteps : rtc plugin_step (Create rn a pds) dp) :
  NoDup (dev_ID <$> dp_devs dp) /\
  (forall x, is_Some (dp_iommuToPCIMap dp !! x) <-> x ∈ dev_ID <$> dp_devs dp) /\
  (forall pd, pd ∈ pds -> pd_Address (pd_Status pd) ∈ dev_ID <$> dp_devs dp) /\
  GetCount dp <= length (dp_devs dp).
Proof.
  pose proof (plugin_steps_wf _ _ Hsteps (Create_wf rn a pds Hnd)) as [H1 H2].
  split_and!; [done|done| |].
  - intros pd Hpd. destruct (plugin_steps_IDs _ _ Hsteps) as [l ->].
    apply elem_of_app. left. unfold Create, NewPCIDevicePlugin.
    destruct (constructDPIdevices _ ∅) as [devs m] eqn:Hc.
    apply construct_spec in Hc as (HID & _). simpl. rewrite HID, (proj1 (host_device_IDs pds)).
    apply list_elem_of_fmap. eauto.
  - unfold GetCount. rewrite count_healthy_length. clear.
    induction (dp_devs dp) as [|d l IH]; simpl; [done|]. destruct (is_healthy d); simpl; lia.
Qed.

(** A device claimed for the first time becomes allocatable: [AddDevice]
    leaves a send pending whose reception makes the device healthy. *)
Theorem AddDevice_becomes_healthy (pd : PCIDevice) (pdc : PCIDeviceClaim) (dp : PCIDevicePlugin)
    (Hnew : dp_iommuToPCIMap dp !! pd_Address (pd_Status pd) = None)
    (Hclaim : pdc_Address (pdc_Spec pdc) = pd_Address (pd_Status pd)) :
  exists i dp', deliver i (AddDevice pd pdc dp) = Some dp' /\
    (exists d, d ∈ dp_devs dp' /\ dev_ID d = pd_Address (pd_Status pd) /\ dev_Health d = Healthy) /\
    dp_pending dp' = dp_pending dp.
Proof.
  destruct (AddDevice_cases pd pdc dp) as [[[x Hx] _]|[_ ->]]; [congruence|].
  exists (length (dp_pending dp)). unfold deliver. simpl.
  rewrite list_lookup_middle by done. eexists. split; [done|]. split.
  - simpl. rewrite set_health_app, Hclaim. simpl. rewrite bool_decide_eq_true_2 by done.
    eexists. split; [apply elem_of_app; right; by apply list_elem_of_singleton|]. done.
  - simpl. rewrite delete_middle. by rewrite app_nil_r.
Qed.

(** A device whose claim is deleted and created again while its plugin lives
    stays unhealthy: [AddDevice] finds the address in the map that
    [RemoveDevice] does not clear, so the only message left marks it unhealthy. *)
Theorem readd_stays_unhealthy (pd : PCIDevice) (pdc : PCIDeviceClaim) (dp : PCIDevicePlugin)
    (Hknown : is_Some (dp_iommuToPCIMap dp !! pd_Address (pd_Status pd)))
    (Hclaim : pdc_Address (pdc_Spec pdc) = pd_Address (pd_Status pd))
    (Hidle : dp_pending dp = []) :
  exists dp1 dp2, RemoveDevice pdc (Some dp) = Some dp1 /\
    deliver 0 (AddDevice pd pdc dp1) = Some dp2 /\ dp_pending dp2 = [] /\
    forall d, d ∈ dp_devs dp2 -> dev_ID d = pd_Address (pd_Status pd) -> dev_Health d = Unhealthy.
Proof.
  eexists. pose (dp1 := MarkPCIDeviceAsUnhealthy (pdc_Address (pdc_Spec pdc)) dp).
  destruct (AddDevice_cases pd pdc dp1) as [[_ E]|[Hn _]];
    [|simpl in Hn; destruct Hknown as [x Hx]; congruence].
  eexists. split; [done|]. fold dp1. rewrite E. unfold deliver. simpl. rewrite Hidle. simpl.
  split; [done|]. split; [done|]. simpl. intros d Hd HID.
  apply elem_of_set_health in Hd as (d0 & _ & HID0 & ->). simpl.
  by rewrite <- HID0, HID, Hclaim, bool_decide_eq_true_2.
Qed.

(** ** Allocation *)
Section Allocation.
Context `{External} `{MapOrder}.
Implicit Types (dp : PCIDevicePlugin).

(** [a] shares an IOMMU group with [id]. *)
Definition same_group dp (id a : string) : Prop :=
  exists g, dp_iommuToPCIMap dp !! id = Some g /\ dp_iommuToPCIMap dp !! a = Some g.

(** The device specs a container is given for one device ID. *)
Definition specs_of dp (devID : string) : list DeviceSpec :=
  match dp_iommuToPCIMap dp !! devID with
  | Some g => formatVFIODeviceSpecs g
  | None => []
  end.

Lemma elem_of_group_range (m : gmap string string) g a :
  a ∈ (List.filter (fun p : string * string => p.2 ==s g) (range m)).*1 <-> m !! a = Some g.
Proof.
  rewrite list_elem_of_fmap. split.
  - intros ([a' g'] & -> & Hin). apply list_elem_of_In, filter_In in Hin as [Hin Hg].
    apply bool_decide_eq_true in Hg. simpl in *. subst g'.
    by apply list_elem_of_In, elem_of_range in Hin.
  - intros Ha. exists (a, g). split; [done|]. apply list_elem_of_In, filter_In. split.
    + by apply list_elem_of_In, elem_of_range.
    + by apply bool_decide_eq_true.
Qed.

Lemma allocate_devices_spec dp ids acc r :
  fold_left (allocate_device dp) ids acc = r ->
  (forall a, a ∈ r.1 <-> a ∈ acc.1 \/ exists id, id ∈ ids /\ same_group dp id a) /\
  r.2 = acc.2 ++ concat (specs_of dp <$> ids).
Proof.
  revert acc r. induction ids as [|id ids IH]; intros acc r; simpl.
  - intros <-. rewrite app_nil_r. split; [|done]. intros a.
    split; [by left|]. intros [?|(id & Hid & _)]; [done|]. by apply not_elem_of_nil in Hid.
  - intros Hr. apply IH in Hr as [Hin Hspecs]. destruct acc as [al ds]. simpl in *.
    unfold specs_of, same_group in *. destruct (dp_iommuToPCIMap dp !! id) as [g|] eqn:Hid; simpl in *.
    + split; [|by rewrite Hspecs, <- app_assoc]. intros a. rewrite Hin.
      rewrite elem_of_app, elem_of_cons, elem_of_group_range. setoid_rewrite elem_of_cons.
      split.
      * intros [[?|[->|?]]|(j & ? & ?)]; [by left|right; exists id..|right; exists j]; eauto.
      * intros [?|(j & [->|?] & g' & Hj & Ha)]; [tauto| |right; eauto].
        rewrite Hid in Hj. injection Hj as <-. tauto.
    + split; [|done]. intros a. rewrite Hin. setoid_rewrite elem_of_cons. split.
      * intros [?|(j & ? & ?)]; [by left|right; exists j; eauto].
      * intros [?|(j & [->|?] & g' & Hj & Ha)]; [by left|congruence|right; eauto].
Qed.

Lemma allocate_containers_spec dp reqs acc r :
  fold_left (allocate_container dp) reqs acc = r -> reqs <> [] ->
  (forall a, a ∈ r.1 <-> a ∈ acc.1 \/ exists ids id, ids ∈ reqs /\ id ∈ ids /\ same_group dp id a) /\
  r.2 = {| car_Devices := concat (specs_of dp <$> List.last reqs []);
           car_Envs := {[ ResourceNameToEnvVar PCIResourcePrefix (dp_resourceName dp)
                            := Join r.1 "," ]} |}.
Proof.
  revert acc. induction reqs as [|ids reqs IH]; intros acc Hr Hne; [done|].
  simpl in Hr. destruct (fold_left (allocate_device dp) ids (acc.1, [])) as [al ds] eqn:Hids.
  pose proof (allocate_devices_spec dp ids _ _ Hids) as [Hin Hds]. simpl in Hin, Hds.
  assert (allocate_container dp acc ids =
    (al, {| car_Devices := concat (specs_of dp <$> ids);
            car_Envs := {[ ResourceNameToEnvVar PCIResourcePrefix (dp_resourceName dp) := Join al "," ]} |}))
    as Hc by (unfold allocate_container; by rewrite Hids, Hds).
  rewrite Hc in Hr. destruct reqs as [|ids' reqs].
  - simpl in Hr. subst r. simpl. split; [|done]. intros a. rewrite Hin.
    setoid_rewrite list_elem_of_singleton. split; [intros [?|(id & ? & ?)]; [by left|right; exists ids, id; done]|].
    intros [?|(i & j & Hi & ? & ?)]; [by left|right]. subst i. eauto.
  - apply IH in Hr as [Ha Hcell]; [|done]. split; [|exact Hcell].
    intros a. rewrite Ha. simpl. rewrite Hin. setoid_rewrite (elem_of_cons (ids' :: reqs) _ ids).
    split.
    + intros [[?|(id & ? & ?)]|(i & id & ? & ? & ?)]; [by left|right..]; eauto 6.
    + intros [?|(i & id & [->|?] & ? & ?)]; [tauto|left; right; eauto|right; eauto].
Qed.

(** C21: [Allocate] answers every container of the request, and names to KubeVirt,
    in the resource's environment variable, exactly the addresses that share an
    IOMMU group with a requested device that the plugin knows (the device itself
    included); a device it does not know adds nothing.  The device specs are the
    VFIO control file and the group files of the devices of the last container:
    all the answers are one shared object. *)
Theorem Allocate_spec dp (reqs : list (list string)) (Hne : reqs <> []) :
  exists addrs response, Allocate dp reqs = replicate (length reqs) response /\
    car_Envs response =
      {[ ResourceNameToEnvVar PCIResourcePrefix (dp_resourceName dp) := Join addrs "," ]} /\
    (forall a, a ∈ addrs <-> exists ids id, ids ∈ reqs /\ id ∈ ids /\ same_group dp id a) /\
    car_Devices response = concat (specs_of dp <$> List.last reqs []).
Proof.
  unfold Allocate. destruct (fold_left _ reqs _) as [addrs final] eqn:Hf.
  apply allocate_containers_spec in Hf as [Hin Hfinal]; [|done]. simpl in *. subst final.
  exists addrs. eexists. split; [done|]. split_and!; [done| |done].
  intros a. rewrite Hin, elem_of_nil. tauto.
Qed.
End Allocation.

(** The file watcher never reports a health change: the probed devices are
    stored under their IDs, which are PCI addresses, and looked up by the name of
    an event, which is a path from the root. *)
Theorem healthCheck_never_reports (dp : PCIDevicePlugin) (event : fs_event) (h : deviceHealth)
    (HIDs : forall d, d ∈ dp_devs dp -> HasPrefix (dev_ID d) "/" = false)
    (Hpath : HasPrefix (ev_Name event) "/" = true) :
  healthCheck_event dp event <> SendHealth h.
Proof.
  assert (monitoredDevices dp !! ev_Name event = None) as Hnone.
  { unfold monitoredDevices. revert HIDs. generalize (dp_devs dp). intros l.
    assert ((∅ : gmap string string) !! ev_Name event = None) as Hm by done. revert Hm.
    generalize (∅ : gmap string string). induction l as [|d l IH]; intros m Hm HIDs; simpl; [done|].
    apply IH; [|intros d' ?; apply HIDs; by right].
    destruct (dp_iommuToPCIMap dp !! dev_ID d); [|done].
    rewrite lookup_insert_ne; [done|]. intros Heq.
    specialize (HIDs d ltac:(left)). congruence. }
  unfold healthCheck_event, on_event. rewrite Hnone.
  case_bool_decide; destruct (ev_Op event); done.
Qed.

(** ** Witnesses *)
Definition demo_pd (address group : string) : PCIDevice :=
  {| pd_meta := new_meta ("node1-" +:+ address) ∅ ∅;
     pd_Status :=
       {| pd_Address := address; pd_VendorID := "10de"; pd_DeviceID := "20b0"; pd_ClassID := "0302";
          pd_IOMMUGroup := group; pd_NodeName := "node1"; pd_ResourceName := "nvidia.com/GA100";
          pd_Description := ""; pd_KernelDriverInUse := "nvidia" |} |}.
Definition demo_pdc (address : string) : PCIDeviceClaim :=
  {| pdc_meta := new_meta ("node1-" +:+ address) ∅ ∅;
     pdc_Spec := {| pdc_Address := address; pdc_NodeName := "node1"; pdc_UserName := "admin";
                    pdc_DisableResourcePooling := false |};
     pdc_Status := {| pdc_KernelDriverToUnbind := ""; pdc_PassthroughEnabled := false |} |}.
Definition demo_plugin : PCIDevicePlugin :=
  Create "nvidia.com/GA100" "0000:04:00.0" [demo_pd "0000:04:00.0" "12"; demo_pd "0000:04:00.1" "12"].

Lemma plugin_advertises_map_witness :
  NoDup (dev_ID <$> dp_devs demo_plugin) /\
  (forall x, is_Some (dp_iommuToPCIMap demo_plugin !! x) <-> x ∈ dev_ID <$> dp_devs demo_plugin) /\
  (forall pd, pd ∈ [demo_pd "0000:04:00.0" "12"; demo_pd "0000:04:00.1" "12"] ->
    pd_Address (pd_Status pd) ∈ dev_ID <$> dp_devs demo_plugin) /\
  GetCount demo_plugin <= length (dp_devs demo_plugin).
Proof.
  apply (plugin_advertises_map "nvidia.com/GA100" "0000:04:00.0"); [|apply rtc_refl].
  apply (bool_decide_unpack _). vm_compute. exact I.
Defined.

Lemma AddDevice_becomes_healthy_witness :
  exists i dp', deliver i (AddDevice (demo_pd "0000:05:00.0" "13") (demo_pdc "0000:05:00.0") demo_plugin)
                = Some dp' /\
    (exists d, d ∈ dp_devs dp' /\ dev_ID d = "0000:05:00.0" /\ dev_Health d = Healthy) /\
    dp_pending dp' = dp_pending demo_plugin.
Proof.
  apply (AddDevice_becomes_healthy (demo_pd "0000:05:00.0" "13") (demo_pdc "0000:05:00.0") demo_plugin);
    vm_compute; reflexivity.
Defined.

(** The first device once its health has been received. *)
Definition demo_plugin_up : PCIDevicePlugin := default demo_plugin (deliver 0 demo_plugin).

Lemma readd_stays_unhealthy_witness :
  GetCount demo_plugin_up = 1 /\
  exists dp1 dp2, RemoveDevice (demo_pdc "0000:04:00.0") (Some demo_plugin_up) = Some dp1 /\
    deliver 0 (AddDevice (demo_pd "0000:04:00.0" "12") (demo_pdc "0000:04:00.0") dp1) = Some dp2 /\
    dp_pending dp2 = [] /\
    forall d, d ∈ dp_devs dp2 -> dev_ID d = "0000:04:00.0" -> dev_Health d = Unhealthy.
Proof.
  split; [vm_compute; reflexivity|].
  apply (readd_stays_unhealthy (demo_pd "0000:04:00.0" "12") (demo_pdc "0000:04:00.0") demo_plugin_up);
    [|vm_compute; reflexivity..].
  eexists. vm_compute. reflexivity.
Defined.

Example Allocate_demo :
  (fun r => car_Envs r !! "PCI_RESOURCE_NVIDIA_COM_GA100") <$>
    Allocate demo_plugin [["0000:04:00.0"; "0000:09:00.0"]] =
  [Some "0000:04:00.0,0000:04:00.1,0000:04:00.0"].
Proof. vm_compute. reflexivity. Qed.

Lemma Allocate_spec_witness :
  let reqs := [["0000:04:00.0"; "0000:09:00.0"]] in
  exists addrs response, Allocate demo_plugin reqs = replicate (length reqs) response /\
    car_Envs response =
      {[ ResourceNameToEnvVar PCIResourcePrefix (dp_resourceName demo_plugin) := Join addrs "," ]} /\
    (forall a, a ∈ addrs <-> exists ids id, ids ∈ reqs /\ id ∈ ids /\ same_group demo_plugin id a) /\
    car_Devices response = concat (specs_of demo_plugin <$> List.last reqs []).
Proof. apply (Allocate_spec demo_plugin [["0000:04:00.0"; "0000:09:00.0"]]). discriminate. Defined.

Lemma healthCheck_never_reports_witness :
  healthCheck_event demo_plugin {| ev_Name := "/proc/1/root/dev/vfio/12"; ev_Op := OpRemove |}
    <> SendHealth {| dh_DevID := "0000:04:00.0"; dh_Health := Unhealthy |}.
Proof.
  apply healthCheck_never_reports; [|vm_compute; reflexivity].
  intros d Hd. vm_compute in Hd. apply elem_of_cons in Hd as [->|Hd]; [vm_compute; reflexivity|].
  apply list_elem_of_singleton in Hd as ->. vm_compute. reflexivity.
Defined.
