(* ===== verification/PluginSession.v ===== *)
(** * One registration of a plugin: ListAndWatch against Stop

    The loop of [ListAndWatch] (device_manager.go, vgpu_device_manager.go) runs
    in a goroutine of the gRPC server, while the claim controller adds devices,
    goroutines offer health messages and [stopDevicePlugin] waits for the loop to
    say goodbye.  Its steps are the transitions of a session; [vgpu] tells the two
    plugins apart: the vGPU plugin closes [done] before it waits, the PCI plugin
    only when it returns. *)

From S2P Require Import Prelude GoStrings GoMonad Types DevicePlugins.

(** Where the two goroutines are.  [LWFailed]: a send failed and the loop
    returned its error, without closing [deregistered]. *)
Inductive lw_pc := LWLoop | LWReturned | LWFailed.
Inductive stop_pc := StIdle | StWaiting | StReturned.
#[export] Instance lw_pc_eq_dec : EqDecision lw_pc.
Proof. solve_decision. Defined.
#[export] Instance stop_pc_eq_dec : EqDecision stop_pc.
Proof. solve_decision. Defined.

(** The devices, the pending sends on [health], the responses sent to the
    kubelet, the closed channels, the two program counters. *)
Record session := {
  ss_devs : list Device;
  ss_pending : list deviceHealth;
  ss_sent : list (list Device);
  ss_stop : bool;
  ss_done : bool;
  ss_deregistered : bool;
  ss_lw : lw_pc;
  ss_stopper : stop_pc
}.

(** [ListAndWatch] begins by sending the devices. *)
Definition ListAndWatch_start (devs : list Device) (pending : list deviceHealth) : session :=
  {| ss_devs := devs; ss_pending := pending; ss_sent := [devs]; ss_stop := false;
     ss_done := false; ss_deregistered := false; ss_lw := LWLoop; ss_stopper := StIdle |}.

(** [case devHealth := <-dp.health]. *)
Definition receive (i : nat) (h : deviceHealth) (send_ok : bool) (s : session) : session :=
  let devs := set_health h (ss_devs s) in
  {| ss_devs := devs; ss_pending := delete i (ss_pending s);
     ss_sent := if send_ok then ss_sent s ++ [devs] else ss_sent s;
     ss_stop := ss_stop s; ss_done := ss_done s; ss_deregistered := ss_deregistered s;
     ss_lw := if send_ok then LWLoop else LWFailed; ss_stopper := ss_stopper s |}.

(** The end of [ListAndWatch]: an empty list, then [close(dp.deregistered)]. *)
Definition say_goodbye (s : session) : session :=
  {| ss_devs := ss_devs s; ss_pending := ss_pending s; ss_sent := ss_sent s ++ [[]];
     ss_stop := ss_stop s; ss_done := ss_done s; ss_deregistered := true;
     ss_lw := LWReturned; ss_stopper := ss_stopper s |}.

Definition change_devs (devs : list Device) (pending : list deviceHealth) (s : session) : session :=
  {| ss_devs := devs; ss_pending := pending; ss_sent := ss_sent s;
     ss_stop := ss_stop s; ss_done := ss_done s; ss_deregistered := ss_deregistered s;
     ss_lw := ss_lw s; ss_stopper := ss_stopper s |}.

Definition stop_to (done : bool) (pc : stop_pc) (s : session) : session :=
  {| ss_devs := ss_devs s; ss_pending := ss_pending s; ss_sent := ss_sent s;
     ss_stop := ss_stop s; ss_done := done; ss_deregistered := ss_deregistered s;
     ss_lw := ss_lw s; ss_stopper := pc |}.

Definition close_stop (s : session) : session :=
  {| ss_devs := ss_devs s; ss_pending := ss_pending s; ss_sent := ss_sent s;
     ss_stop := true; ss_done := ss_done s; ss_deregistered := ss_deregistered s;
     ss_lw := ss_lw s; ss_stopper := ss_stopper s |}.

Inductive step (vgpu : bool) : relation session :=
| step_receive s i h send_ok :
    ss_lw s = LWLoop -> ss_pending s !! i = Some h -> step vgpu s (receive i h send_ok s)
| step_goodbye s :
    ss_lw s = LWLoop -> ss_stop s || ss_done s = true -> step vgpu s (say_goodbye s)
| step_offer s h :
    step vgpu s (change_devs (ss_devs s) (ss_pending s ++ [h]) s)
| step_add_device s d :
    dev_ID d ∉ dev_ID <$> ss_devs s ->
    step vgpu s (change_devs (ss_devs s ++ [d])
                  (ss_pending s ++ [{| dh_DevID := dev_ID d; dh_Health := Healthy |}]) s)
| step_vgpu_remove s ID :
    vgpu = true ->
    step vgpu s (change_devs (set_health {| dh_DevID := ID; dh_Health := Unhealthy |} (ss_devs s))
                  (ss_pending s) s)
| step_close_stop s : step vgpu s (close_stop s)
| step_stop_call s :
    ss_stopper s = StIdle -> step vgpu s (stop_to (vgpu || ss_done s) StWaiting s)
| step_stop_deregistered s :
    ss_stopper s = StWaiting -> ss_deregistered s = true -> step vgpu s (stop_to true StReturned s)
| step_stop_tick s :
    ss_stopper s = StWaiting -> step vgpu s (stop_to true StReturned s).

(** ** What the kubelet has been told *)

(** The last response is a prefix of the devices, and a message is pending for
    each device that is not in it. *)
Definition view_inv (s : session) : Prop :=
  ss_lw s = LWLoop ->
  exists k, last (ss_sent s) = Some (take k (ss_devs s)) /\
    forall d, d ∈ drop k (ss_devs s) -> exists h, h ∈ ss_pending s /\ dh_DevID h = dev_ID d.

Lemma view_inv_start devs pending : view_inv (ListAndWatch_start devs pending).
Proof.
  intros _. exists (length devs). simpl. rewrite firstn_all, drop_all. split; [done|].
  intros d Hd. by apply not_elem_of_nil in Hd.
Qed.

Lemma view_inv_change devs pending s k :
  view_inv s -> ss_lw s = LWLoop -> last (ss_sent s) = Some (take k devs) ->
  (forall d, d ∈ drop k devs -> exists h, h ∈ pending /\ dh_DevID h = dev_ID d) ->
  view_inv (change_devs devs pending s).
Proof. intros _ _ Hl Hd _. exists k. done. Qed.

Lemma view_inv_step s s' : step false s s' -> view_inv s -> view_inv s'.
Proof.
  intros Hs Hinv. destruct Hs as [s i h ok Hlw Hi|s Hlw Hc|s h|s d Hd|s ID Hv|s|s Hst|s Hst Hd|s Hst];
    try done.
  - intros Hlw'. destruct ok; [|done]. simpl. exists (length (set_health h (ss_devs s))).
    rewrite last_snoc, firstn_all, drop_all. split; [done|]. intros d Hd.
    by apply not_elem_of_nil in Hd.
  - intros Hlw. destruct (Hinv Hlw) as (k & Hl & Hp). exists k. split; [done|]. simpl.
    intros d (h' & ? & ?)%Hp. exists h'. split; [apply elem_of_app; by left|done].
  - intros Hlw. destruct (Hinv Hlw) as (k & Hl & Hp). simpl in *.
    exists (k `min` length (ss_devs s)). rewrite take_app_le by lia. split.
    + rewrite Hl. f_equal. destruct (decide (k <= length (ss_devs s))) as [Hk|Hk].
      * by rewrite Nat.min_l by lia.
      * rewrite Nat.min_r by lia. by rewrite !take_ge by lia.
    + intros d' Hd'. rewrite drop_app_le in Hd' by lia. apply elem_of_app in Hd' as [Hd'|Hd'].
      * assert (d' ∈ drop k (ss_devs s)) as (h & ? & ?)%Hp.
        { destruct (decide (k <= length (ss_devs s))) as [Hk|Hk].
          - by rewrite Nat.min_l in Hd' by lia.
          - rewrite Nat.min_r, drop_all in Hd' by lia. by apply not_elem_of_nil in Hd'. }
        exists h. split; [apply elem_of_app; by left|done].
      * apply list_elem_of_singleton in Hd' as ->. eexists.
        split; [apply elem_of_app; right; by apply list_elem_of_singleton|done].
Qed.

Lemma steps_inv (I : session -> Prop) vgpu s s' :
  (forall a b, step vgpu a b -> I a -> I b) -> rtc (step vgpu) s s' -> I s -> I s'.
Proof. intros HI. induction 1; eauto. Qed.

(** C15: as long as the PCI plugin's loop runs, what it last sent to the kubelet
    is a prefix of its list of devices with their current health, and a message
    is pending for each device beyond it; once no message is pending the kubelet
    knows every device with the health the plugin gives it. *)
Theorem ListAndWatch_view (devs : list Device) (pending : list deviceHealth) (s : session)
    (Hreach : rtc (step false) (ListAndWatch_start devs pending) s) (Hloop : ss_lw s = LWLoop) :
  (exists k, last (ss_sent s) = Some (take k (ss_devs s)) /\
     forall d, d ∈ drop k (ss_devs s) -> exists h, h ∈ ss_pending s /\ dh_DevID h = dev_ID d) /\
  (ss_pending s = [] -> last (ss_sent s) = Some (ss_devs s)).
Proof.
  pose proof (steps_inv _ _ _ _ view_inv_step Hreach (view_inv_start devs pending) Hloop)
    as (k & Hl & Hp).
  split; [by exists k|]. intros Hnil. rewrite Hl. f_equal. apply take_ge.
  destruct (drop k (ss_devs s)) as [|d l] eqn:Hd; [|].
  - assert (length (drop k (ss_devs s)) = 0) as H0 by (by rewrite Hd).
    rewrite length_drop in H0. lia.
  - destruct (Hp d ltac:(left)) as (h & Hh & _). rewrite Hnil in Hh. by apply not_elem_of_nil in Hh.
Qed.

(** ** Stopping *)

(** The PCI plugin: [deregistered] is closed only behind [stop] or after
    [stopDevicePlugin] has returned. *)
Definition pci_stop_inv (s : session) : Prop :=
  (ss_done s = true -> ss_stopper s = StReturned) /\
  (ss_deregistered s = true -> ss_stop s = true \/ ss_stopper s = StReturned) /\
  (ss_lw s = LWReturned -> ss_deregistered s = true).

Lemma pci_stop_inv_step s s' : step false s s' -> pci_stop_inv s -> pci_stop_inv s'.
Proof.
  intros Hs (Hd & Hr & Hl).
  destruct Hs as [s i h ok Hlw Hi|s Hlw Hc|s h|s d Hni|s ID Hv|s|s Hst|s Hst Hdr|s Hst];
    unfold pci_stop_inv in *; simpl in *; try done.
  - destruct ok; (split_and!; [done|done|]); intros ?; discriminate.
  - apply orb_true_iff in Hc. split_and!; [done| |done]. intros _. destruct Hc; tauto.
  - split_and!; [done| |done]. intros H. by left.
  - rewrite Hst in *. split_and!; [intros H; by apply Hd in H| |done].
    intros H. apply Hr in H as [?|?]; [by left|done].
  - split_and!; [done| |done]. intros _. by right.
  - split_and!; [done| |done]. intros _. by right.
Qed.

(** C37: while [stopDevicePlugin] of the PCI plugin waits for the plugin to
    deregister, and nobody closed [stop], the loop of [ListAndWatch] cannot say
    goodbye: [done], which would end it, is closed only when the wait is over.
    The kubelet is never sent the empty list in time, and the wait always lasts
    until the ticker fires. *)
Theorem pci_stop_waits_in_vain (devs : list Device) (pending : list deviceHealth) (s s' : session)
    (Hreach : rtc (step false) (ListAndWatch_start devs pending) s)
    (Hwait : ss_stopper s = StWaiting) (Hstop : ss_stop s = false) :
  ss_deregistered s = false /\ ss_lw s <> LWReturned /\
  (step false s s' -> ss_stopper s' = StWaiting ->
   ss_lw s' <> LWReturned /\ ss_deregistered s' = false).
Proof.
  assert (pci_stop_inv (ListAndWatch_start devs pending)) as H0 by (by split_and!).
  pose proof (steps_inv _ _ _ _ pci_stop_inv_step Hreach H0) as (Hd & Hr & Hl).
  assert (ss_deregistered s = false) as Hdf.
  { destruct (ss_deregistered s); [|done]. destruct (Hr eq_refl) as [?|?]; congruence. }
  assert (ss_lw s <> LWReturned) as Hlw.
  { intros H. apply Hl in H. congruence. }
  split_and!; [done|done|]. intros Hs Hw.
  destruct Hs as [s i h ok Hlw' Hi|s Hlw' Hc|s h|s d Hni|s ID Hv|s|s Hst|s Hst Hdr|s Hst];
    simpl in *; try done.
  - destruct ok; done.
  - rewrite Hstop in Hc. simpl in Hc. apply Hd in Hc. congruence.
Qed.

(** The vGPU plugin closes [done] first. *)
Definition vgpu_stop_inv (s : session) : Prop :=
  (ss_stopper s <> StIdle -> ss_done s = true) /\
  (ss_deregistered s = true -> last (ss_sent s) = Some [] /\ ss_lw s = LWReturned) /\
  (ss_lw s = LWReturned -> ss_deregistered s = true).

Lemma vgpu_stop_inv_step s s' : step true s s' -> vgpu_stop_inv s -> vgpu_stop_inv s'.
Proof.
  intros Hs (Hd & Hr & Hl).
  destruct Hs as [s i h ok Hlw Hi|s Hlw Hc|s h|s d Hni|s ID Hv|s|s Hst|s Hst Hdr|s Hst];
    unfold vgpu_stop_inv in *; simpl in *; try done.
  - rewrite Hlw in *. split_and!; [done| |by destruct ok].
    intros H. apply Hr in H as [_ ?]. done.
  - split_and!; [done| |done]. intros _. by rewrite last_snoc.
Qed.

(** While [stopDevicePlugin] of the vGPU plugin waits, the loop of
    [ListAndWatch] can end at once (if no send to the kubelet failed), and when
    the wait ends because [deregistered] was closed the last thing the kubelet
    was told is the empty list. *)
Theorem vgpu_stop_deregisters (devs : list Device) (pending : list deviceHealth) (s : session)
    (Hreach : rtc (step true) (ListAndWatch_start devs pending) s)
    (Hwait : ss_stopper s = StWaiting) (Hok : ss_lw s <> LWFailed) :
  (exists s', rtc (step true) s s' /\ ss_stopper s' = StReturned /\ last (ss_sent s') = Some []) /\
  (ss_deregistered s = true -> last (ss_sent s) = Some []).
Proof.
  assert (vgpu_stop_inv (ListAndWatch_start devs pending)) as H0 by (by split_and!).
  pose proof (steps_inv _ _ _ _ vgpu_stop_inv_step Hreach H0) as (Hd & Hr & Hl).
  split; [|by intros H; apply Hr].
  destruct (ss_lw s) eqn:Hlw; [| |done].
  - exists (stop_to true StReturned (say_goodbye s)). split_and!; [|done|simpl; apply last_snoc].
    eapply rtc_l; [apply (step_goodbye _ s); [done|]|].
    + rewrite Hd by congruence. by rewrite orb_true_r.
    + apply rtc_once, step_stop_deregistered; done.
  - exists (stop_to true StReturned s). split_and!; [|done|simpl; by apply Hr, Hl].
    by apply rtc_once, step_stop_deregistered; [|apply Hl].
Qed.

(** ** Witnesses *)
Definition one_device : list Device :=
  [{| dev_ID := "0000:04:00.0"; dev_Health := Unhealthy; dev_Topology := Some 0%Z |}].
Definition one_message : list deviceHealth := [{| dh_DevID := "0000:04:00.0"; dh_Health := Healthy |}].

Lemma ListAndWatch_view_witness :
  let s := receive 0 {| dh_DevID := "0000:04:00.0"; dh_Health := Healthy |} true
             (ListAndWatch_start one_device one_message) in
  (exists k, last (ss_sent s) = Some (take k (ss_devs s)) /\
     forall d, d ∈ drop k (ss_devs s) -> exists h, h ∈ ss_pending s /\ dh_DevID h = dev_ID d) /\
  (ss_pending s = [] -> last (ss_sent s) = Some (ss_devs s)).
Proof.
  intros s. apply (ListAndWatch_view one_device one_message s); [|reflexivity].
  apply rtc_once, step_receive; reflexivity.
Defined.

Lemma pci_stop_waits_in_vain_witness :
  let s := stop_to false StWaiting (ListAndWatch_start one_device one_message) in
  ss_deregistered s = false /\ ss_lw s <> LWReturned /\
  (step false s s -> ss_stopper s = StWaiting -> ss_lw s <> LWReturned /\ ss_deregistered s = false).
Proof.
  intros s. apply (pci_stop_waits_in_vain one_device one_message s s); [|reflexivity..].
  apply rtc_once, (step_stop_call false). reflexivity.
Defined.

Lemma vgpu_stop_deregisters_witness :
  let s := stop_to true StWaiting (ListAndWatch_start one_device one_message) in
  (exists s', rtc (step true) s s' /\ ss_stopper s' = StReturned /\ last (ss_sent s') = Some []) /\
  (ss_deregistered s = true -> last (ss_sent s) = Some []).
Proof.
  intros s. apply (vgpu_stop_deregisters one_device one_message s); [|reflexivity|discriminate].
  apply rtc_once, (step_stop_call true). reflexivity.
Defined.
