(* ===== verification/VGPUPlugin.v ===== *)
(** * The vGPU device plugin (vgpu_device_manager.go)

    A plugin advertises the mediated devices of one vGPU type, by UUID. *)

From S2P Require Import Prelude GoStrings GoStringLemmas GoMonad Types Effects DevicePlugins PCIPlugin Sim.

Record VGPUDevicePlugin := {
  vp_devs : list Device;
  vp_socketPath : string;
  vp_devicePath : string;
  vp_resourceName : string;
  vp_deviceRoot : string;
  vp_initialized : bool;
  vp_started : bool;
  vp_pending : list deviceHealth
}.

Definition set_vdevs (devs : list Device) (pending : list deviceHealth) (dp : VGPUDevicePlugin)
    : VGPUDevicePlugin :=
  {| vp_devs := devs; vp_socketPath := vp_socketPath dp; vp_devicePath := vp_devicePath dp;
     vp_resourceName := vp_resourceName dp; vp_deviceRoot := vp_deviceRoot dp;
     vp_initialized := vp_initialized dp; vp_started := vp_started dp; vp_pending := pending |}.

Definition vgpu_SetStarted (dp : VGPUDevicePlugin) : VGPUDevicePlugin :=
  {| vp_devs := vp_devs dp; vp_socketPath := vp_socketPath dp; vp_devicePath := vp_devicePath dp;
     vp_resourceName := vp_resourceName dp; vp_deviceRoot := vp_deviceRoot dp;
     vp_initialized := vp_initialized dp; vp_started := true; vp_pending := vp_pending dp |}.

Definition constructVGPUDPIdevices (vGPUList : list string) : list Device :=
  (fun v => {| dev_ID := v; dev_Health := Unhealthy; dev_Topology := None |}) <$> vGPUList.

Definition vgpu_GetCount (dp : VGPUDevicePlugin) : nat := count_healthy (vp_devs dp).

Definition DeviceExists (uuid : string) (dp : VGPUDevicePlugin) : bool :=
  existsb (fun v => dev_ID v ==s uuid) (vp_devs dp).

(** A goroutine offers the message. *)
Definition MarkVGPUDeviceAsHealthy (uuid : string) (dp : VGPUDevicePlugin) : VGPUDevicePlugin :=
  set_vdevs (vp_devs dp) (vp_pending dp ++ [{| dh_DevID := uuid; dh_Health := Healthy |}]) dp.

(** The caller itself offers the message: it returns once [ListAndWatch] has
    received it, and never ([None]) when no [ListAndWatch] is running. *)
Definition MarkVGPUDeviceAsUnHealthy (listening : bool) (uuid : string) (dp : VGPUDevicePlugin)
    : option VGPUDevicePlugin :=
  if listening
  then Some (set_vdevs (set_health {| dh_DevID := uuid; dh_Health := Unhealthy |} (vp_devs dp))
               (vp_pending dp) dp)
  else None.

(** A nil plugin is left alone. *)
Definition vgpu_AddDevice (uuid : string) (dp : option VGPUDevicePlugin) : option VGPUDevicePlugin :=
  dp0 ← dp;
  Some (if DeviceExists uuid dp0 then dp0
        else MarkVGPUDeviceAsHealthy uuid
               (set_vdevs (vp_devs dp0 ++ constructVGPUDPIdevices [uuid]) (vp_pending dp0) dp0)).

(** [Some dp'] when the call returns. *)
Definition vgpu_RemoveDevice (listening : bool) (uuid : string) (dp : option VGPUDevicePlugin)
    : option (option VGPUDevicePlugin) :=
  match dp with
  | None => Some None
  | Some dp0 =>
      dp1 ← MarkVGPUDeviceAsUnHealthy listening uuid dp0;
      Some (Some (set_vdevs
        (set_health {| dh_DevID := uuid; dh_Health := Unhealthy |} (vp_devs dp1)) (vp_pending dp1) dp1))
  end.

Definition vgpu_deliver (i : nat) (dp : VGPUDevicePlugin) : option VGPUDevicePlugin :=
  h ← vp_pending dp !! i;
  Some (set_vdevs (set_health h (vp_devs dp)) (delete i (vp_pending dp)) dp).

(** [healthCheck] watches the path of each device and keys it by ID. *)
Definition vgpu_monitoredDevices (dp : VGPUDevicePlugin) : gmap string string :=
  let devicePath := PathJoin [vp_deviceRoot dp; vp_devicePath dp] in
  fold_left (fun m dev => <[dev_ID dev := PathJoin [devicePath; dev_ID dev]]> m) (vp_devs dp) ∅.

Definition vgpu_healthCheck_event (dp : VGPUDevicePlugin) (event : fs_event) : reaction :=
  on_event (vgpu_monitoredDevices dp) (vp_socketPath dp) event.

Section Definitions.
Context `{External} {Mem W : Type} `{World W}.

Definition NewVGPUDevicePlugin (vGPUList : list string) (resourceName : string) : VGPUDevicePlugin :=
  {| vp_devs := constructVGPUDPIdevices vGPUList;
     vp_socketPath := SocketPath (ReplaceAll resourceName "/" "-");
     vp_devicePath := MdevRoot; vp_resourceName := resourceName; vp_deviceRoot := HostRootMount;
     vp_initialized := false; vp_started := false; vp_pending := [] |}.

(** [performCheck] begins with the devices that exist already: the messages it
    offers, one after the other. *)
Definition performCheck_initial `{MapOrder} (monitored : gmap string string)
    : M Mem W (list deviceHealth) :=
  fold_m (fun sent (p : string * string) =>
    r <- try (eff (FsStat p.2)) ;;
    match r with
    | inr _ => ret (sent ++ [{| dh_DevID := p.1; dh_Health := Healthy |}])
    | inl _ => ret sent
    end) [] (range monitored).

Definition vfio_dir_spec : DeviceSpec :=
  {| ds_ContainerPath := vfioDevicePath; ds_HostPath := vfioDevicePath; ds_Permissions := "mrw" |}.

Definition vgpu_allocate_device (acc : list string * list DeviceSpec) (devID : string)
    : M Mem W (list string * list DeviceSpec) :=
  r <- try (eff (FsStat (PathJoin [MdevRoot; devID]))) ;;
  match r with
  | inl _ => ret acc
  | inr _ => ret (acc.1 ++ [devID], acc.2 ++ [vfio_dir_spec])
  end.

Definition vgpu_allocate_container (dp : VGPUDevicePlugin)
    (acc : list string * ContainerAllocateResponse) (DevicesIDs : list string)
    : M Mem W (list string * ContainerAllocateResponse) :=
  r <- fold_m vgpu_allocate_device (acc.1, []) DevicesIDs ;;
  ret (r.1, {| car_Devices := r.2;
               car_Envs := {[ ResourceNameToEnvVar VGPUPrefix (vp_resourceName dp) := Join r.1 "," ]} |}).

Definition vgpu_Allocate (dp : VGPUDevicePlugin) (ContainerRequests : list (list string))
    : M Mem W (list ContainerAllocateResponse) :=
  r <- fold_m (vgpu_allocate_container dp) ([], {| car_Devices := []; car_Envs := ∅ |}) ContainerRequests ;;
  ret (replicate (length ContainerRequests) r.2).
End Definitions.

(** ** Properties *)
Lemma DeviceExists_spec uuid dp :
  DeviceExists uuid dp = true <-> uuid ∈ dev_ID <$> vp_devs dp.
Proof.
  unfold DeviceExists. rewrite existsb_exists, list_elem_of_fmap. split.
  - intros (d & Hd & E). apply bool_decide_eq_true in E. exists d. split; [done|].
    by apply list_elem_of_In.
  - intros (d & -> & Hd). exists d. split; [by apply list_elem_of_In|]. by apply bool_decide_eq_true.
Qed.

(** A vGPU added to its plugin is listed once however often it is added;
    its first message makes it healthy, and [RemoveDevice] leaves it listed and
    unhealthy, if the plugin is being watched: otherwise it never returns, with
    the plugin's lock held. *)
Theorem vgpu_add_remove (uuid : string) (dp : VGPUDevicePlugin)
    (Hnd : NoDup (dev_ID <$> vp_devs dp)) :
  exists dp1, vgpu_AddDevice uuid (Some dp) = Some dp1 /\
    vgpu_AddDevice uuid (Some dp1) = Some dp1 /\
    NoDup (dev_ID <$> vp_devs dp1) /\ uuid ∈ dev_ID <$> vp_devs dp1 /\
    (uuid ∉ dev_ID <$> vp_devs dp ->
       exists dp2, vgpu_deliver (length (vp_pending dp)) dp1 = Some dp2 /\
         exists d, d ∈ vp_devs dp2 /\ dev_ID d = uuid /\ dev_Health d = Healthy) /\
    (exists dp3, vgpu_RemoveDevice true uuid (Some dp1) = Some (Some dp3) /\
       uuid ∈ dev_ID <$> vp_devs dp3 /\
       forall d, d ∈ vp_devs dp3 -> dev_ID d = uuid -> dev_Health d = Unhealthy) /\
    vgpu_RemoveDevice false uuid (Some dp1) = None.
Proof.
  eexists. split; [done|]. set (dp1 := if DeviceExists uuid dp then _ else _).
  assert (NoDup (dev_ID <$> vp_devs dp1) /\ uuid ∈ dev_ID <$> vp_devs dp1) as [Hnd1 Hin].
  { unfold dp1. destruct (DeviceExists uuid dp) eqn:E; [by apply DeviceExists_spec in E|].
    simpl. rewrite fmap_app. simpl. rewrite elem_of_app. split; [|by right; left].
    assert (uuid ∉ dev_ID <$> vp_devs dp) as Hni.
    { intros H%DeviceExists_spec. congruence. }
    apply NoDup_app. split_and!; [done| |by apply NoDup_singleton].
    intros x Hx ->%list_elem_of_singleton. done. }
  split_and!; [|done|done| | |done].
  - simpl. pose proof (proj2 (DeviceExists_spec uuid dp1) Hin) as E. by rewrite E.
  - intros Hni. assert (DeviceExists uuid dp = false) as E.
    { destruct (DeviceExists uuid dp) eqn:E; [by apply DeviceExists_spec in E|done]. }
    unfold dp1, vgpu_deliver. rewrite E. simpl. rewrite list_lookup_middle by done.
    eexists. split; [done|]. simpl. rewrite set_health_app. simpl.
    rewrite bool_decide_eq_true_2 by done. eexists.
    split; [apply elem_of_app; right; by apply list_elem_of_singleton|done].
  - eexists. split; [done|]. simpl. rewrite !set_health_IDs. split; [done|].
    intros d Hd HID. apply elem_of_set_health in Hd as (d0 & _ & HID0 & ->). simpl.
    by rewrite <- HID0, HID, bool_decide_eq_true_2.
Qed.

Section Allocation.
Context `{External} {Mem W : Type} `{World W}.
Variable present : string -> bool.
Variable absent : error.
(** [os.Stat] reads the file system and nothing else. *)
Hypothesis stat_reads : forall p (w : W),
  perform (FsStat p) w = (if present p then inr tt else inl absent, w).

Let mdev (devID : string) : bool := present (PathJoin [MdevRoot; devID]).

Lemma vgpu_allocate_devices_run ids acc (s : state Mem W) :
  fold_m vgpu_allocate_device acc ids s =
  (Ok (acc.1 ++ List.filter mdev ids,
       acc.2 ++ replicate (length (List.filter mdev ids)) vfio_dir_spec), s).
Proof.
  revert acc. induction ids as [|id ids IH]; intros [al ds]; simpl.
  - unfold ret. simpl. by rewrite !app_nil_r.
  - unfold bind at 1, vgpu_allocate_device, bind, try, eff. rewrite stat_reads.
    destruct s as [m w]. change (present (PathJoin [MdevRoot; id])) with (mdev id).
    cbn [world mem]. destruct (mdev id); unfold ret; rewrite IH; [|done].
    cbn [fst snd length replicate]. by rewrite <- !app_assoc.
Qed.

Lemma vgpu_allocate_container_run dp acc ids (s : state Mem W) :
  vgpu_allocate_container dp acc ids s =
  (Ok (acc.1 ++ List.filter mdev ids,
       {| car_Devices := replicate (length (List.filter mdev ids)) vfio_dir_spec;
          car_Envs := {[ ResourceNameToEnvVar VGPUPrefix (vp_resourceName dp)
                           := Join (acc.1 ++ List.filter mdev ids) "," ]} |}), s).
Proof. unfold vgpu_allocate_container, bind. by rewrite vgpu_allocate_devices_run. Qed.

Lemma vgpu_allocate_containers_run dp reqs acc (s : state Mem W) :
  reqs <> [] ->
  fold_m (vgpu_allocate_container dp) acc reqs s =
  (Ok (acc.1 ++ List.filter mdev (concat reqs),
       {| car_Devices := replicate (length (List.filter mdev (List.last reqs []))) vfio_dir_spec;
          car_Envs := {[ ResourceNameToEnvVar VGPUPrefix (vp_resourceName dp)
                           := Join (acc.1 ++ List.filter mdev (concat reqs)) "," ]} |}), s).
Proof.
  revert acc. induction reqs as [|ids reqs IH]; intros acc Hne; [done|].
  cbn [fold_m]. unfold bind at 1. rewrite vgpu_allocate_container_run.
  cbn [concat]. rewrite List.filter_app.
  destruct reqs as [|ids' reqs]; [cbn; unfold ret; by rewrite app_nil_r|].
  rewrite IH by done. cbn [fst]. by rewrite <- app_assoc.
Qed.

(** A vGPU allocation names, in the resource's environment variable, exactly
    the requested devices that exist under the mediated-device directory, in the
    order of the request, and gives the container one VFIO directory for each of
    its own; it never fails and changes nothing. *)
Theorem vgpu_Allocate_spec (dp : VGPUDevicePlugin) (reqs : list (list string)) (s : state Mem W)
    (Hne : reqs <> []) :
  let response :=
    {| car_Devices := replicate (length (List.filter (fun devID => present (PathJoin [MdevRoot; devID]))
                                   (List.last reqs []))) vfio_dir_spec;
       car_Envs := {[ ResourceNameToEnvVar VGPUPrefix (vp_resourceName dp) :=
         Join (List.filter (fun devID => present (PathJoin [MdevRoot; devID])) (concat reqs)) "," ]} |} in
  vgpu_Allocate dp reqs s = (Ok (replicate (length reqs) response), s).
Proof.
  intros response. unfold vgpu_Allocate, bind. by rewrite vgpu_allocate_containers_run.
Qed.
End Allocation.

Definition demo_vgpu : VGPUDevicePlugin := NewVGPUDevicePlugin ["u-1"; "u-2"] "nvidia.com/NVIDIA_A2-4Q".

Lemma vgpu_add_remove_witness :
  exists dp1, vgpu_AddDevice "u-3" (Some demo_vgpu) = Some dp1 /\
    vgpu_AddDevice "u-3" (Some dp1) = Some dp1 /\
    NoDup (dev_ID <$> vp_devs dp1) /\ "u-3" ∈ dev_ID <$> vp_devs dp1 /\
    ("u-3" ∉ dev_ID <$> vp_devs demo_vgpu ->
       exists dp2, vgpu_deliver (length (vp_pending demo_vgpu)) dp1 = Some dp2 /\
         exists d, d ∈ vp_devs dp2 /\ dev_ID d = "u-3" /\ dev_Health d = Healthy) /\
    (exists dp3, vgpu_RemoveDevice true "u-3" (Some dp1) = Some (Some dp3) /\
       "u-3" ∈ dev_ID <$> vp_devs dp3 /\
       forall d, d ∈ vp_devs dp3 -> dev_ID d = "u-3" -> dev_Health d = Unhealthy) /\
    vgpu_RemoveDevice false "u-3" (Some dp1) = None.
Proof. apply vgpu_add_remove. apply (bool_decide_unpack _). vm_compute. exact I. Defined.

Lemma vgpu_Allocate_spec_witness :
  let w := set_fs {[ "/sys/bus/mdev/devices/u-1" := "" ]} ∅ ∅ sim_empty in
  let present := fun p => p ==s "/sys/bus/mdev/devices/u-1" in
  exists (W' : World sim) response,
    vgpu_Allocate demo_vgpu [["u-1"; "u-9"]] (State tt w) = (Ok (replicate 1 response), State tt w) /\
    car_Envs response = {[ "MDEV_PCI_RESOURCE_NVIDIA_COM_NVIDIA_A2-4Q" := "u-1" ]}.
Proof.
  intros w present.
  exists (fun X e w => match e in Eff X return (error + X) * sim with
                       | FsStat p => (if present p then inr tt else inl (Errorf "absent"), w)
                       | _ => (inl (Errorf "unavailable"), w) end).
  eexists. split.
  - apply (vgpu_Allocate_spec present (Errorf "absent") (fun p w => eq_refl) demo_vgpu
             [["u-1"; "u-9"]] (State tt w)). discriminate.
  - vm_compute. reflexivity.
Defined.
