(* ===== verification/USBHelper.v ===== *)
(** * USB devices of the node (usb_device_plugin_helper.go)

    The scan of [/sys/bus/usb/devices]: the [uevent] file of a device, its class
    and the PCI address its link leads through. *)

From S2P Require Import Prelude GoStrings GoStringLemmas GoMonad Types Effects Sim.
From Stdlib Require Import Ascii.

(** [USBDevice] of the package: not the custom resource. *)
Record hostUSBDevice := {
  hu_Vendor : Z;
  hu_Product : Z;
  hu_BCD : Z;
  hu_Bus : Z;
  hu_DeviceNumber : Z;
  hu_DevicePath : string;
  hu_PCIAddress : string;
  hu_ClassType : string;
  hu_ProductName : string
}.

Definition new_usb (pciAddress : string) : hostUSBDevice :=
  {| hu_Vendor := 0; hu_Product := 0; hu_BCD := 0; hu_Bus := 0; hu_DeviceNumber := 0;
     hu_DevicePath := ""; hu_PCIAddress := pciAddress; hu_ClassType := ""; hu_ProductName := "" |}.

Definition GetID (dev : hostUSBDevice) : string :=
  fmt_04x (hu_Vendor dev) +:+ ":" +:+ fmt_04x (hu_Product dev) +:+ "-" +:+
  fmt_02d (hu_Bus dev) +:+ ":" +:+ fmt_02d (hu_DeviceNumber dev).

Definition usbClassNames : gmap string string :=
  list_to_map
    [("01", "Audio"); ("02", "Communications"); ("03", "HID"); ("05", "Physical");
     ("06", "Image"); ("07", "Printer"); ("08", "Mass Storage"); ("09", "Hub");
     ("0a", "CDC-Data"); ("0b", "Smart Card"); ("0d", "Content Security"); ("0e", "Video");
     ("0f", "Personal Healthcare"); ("10", "Audio/Video"); ("11", "Billboard");
     ("12", "USB Type-C Bridge"); ("13", "USB Bulk Display Protocol"); ("14", "MCTP over USB");
     ("3c", "I3C Device"); ("dc", "Diagnostic"); ("e0", "Wireless Controller");
     ("ef", "Miscellaneous"); ("fe", "Application Specific"); ("ff", "Vendor Specific")].

Definition classTypeName (code : string) : string :=
  match usbClassNames !! code with
  | Some name => name
  | None => "Unknown (0x" +:+ code +:+ ")"
  end.

Definition parseUSBSymLinkToPCIAddress (link : string) : string :=
  let paths := Split link "/usb" in
  if length paths <? 2 then ""
  else List.last (Split (List.hd "" paths) "/") "".

Definition set_numbers (vendor product bcd bus dev : Z) (path : string) (u : hostUSBDevice) : hostUSBDevice :=
  {| hu_Vendor := vendor; hu_Product := product; hu_BCD := bcd; hu_Bus := bus;
     hu_DeviceNumber := dev; hu_DevicePath := path; hu_PCIAddress := hu_PCIAddress u;
     hu_ClassType := hu_ClassType u; hu_ProductName := hu_ProductName u |}.
Definition set_names (product class : string) (u : hostUSBDevice) : hostUSBDevice :=
  {| hu_Vendor := hu_Vendor u; hu_Product := hu_Product u; hu_BCD := hu_BCD u; hu_Bus := hu_Bus u;
     hu_DeviceNumber := hu_DeviceNumber u; hu_DevicePath := hu_DevicePath u;
     hu_PCIAddress := hu_PCIAddress u; hu_ClassType := class; hu_ProductName := product |}.

(** [None] where the source answers [false]; the device under construction is
    then dropped by the caller. *)
Definition parseSysUeventKeyValue (key value : string) (u : hostUSBDevice) : option hostUSBDevice :=
  if key ==s "BUSNUM" then
    val ← ParseInt value 10 32;
    Some (set_numbers (hu_Vendor u) (hu_Product u) (hu_BCD u) val (hu_DeviceNumber u) (hu_DevicePath u) u)
  else if key ==s "DEVNUM" then
    val ← ParseInt value 10 32;
    Some (set_numbers (hu_Vendor u) (hu_Product u) (hu_BCD u) (hu_Bus u) val (hu_DevicePath u) u)
  else if key ==s "PRODUCT" then
    match Split value "/" with
    | [p0; p1; p2] =>
        vendor ← ParseInt p0 16 32;
        product ← ParseInt p1 16 32;
        bcd ← ParseInt p2 16 32;
        Some (set_numbers vendor product bcd (hu_Bus u) (hu_DeviceNumber u) (hu_DevicePath u) u)
    | _ => None
    end
  else if key ==s "DEVNAME" then
    Some (set_numbers (hu_Vendor u) (hu_Product u) (hu_BCD u) (hu_Bus u) (hu_DeviceNumber u)
            (PathJoin ["/dev"; value]) u)
  else Some u.

(** The loop over the lines of a [uevent] file. *)
Fixpoint parse_uevent_lines (lines : list string) (u : hostUSBDevice) : option hostUSBDevice :=
  match lines with
  | [] => Some u
  | line :: rest =>
      match Split line "=" with
      | [key; value] => u' ← parseSysUeventKeyValue key value u; parse_uevent_lines rest u'
      | _ => parse_uevent_lines rest u
      end
  end.

Section Handlers.
Context {Mem W : Type} `{World W}.

Definition readSysfsString (dir filename : string) : M Mem W string :=
  r <- try (eff (FsReadFile (PathJoin [dir; filename]))) ;;
  match r with
  | inl _ => ret ""
  | inr data => ret (TrimSpace data)
  end.

Definition parseClassCode (dir filename : string) : M Mem W (option string) :=
  data <- readSysfsString dir filename ;;
  if data ==s "" then ret None else ret (Some (ToLower data)).

(** The loop over the entries of a device whose class is that of its interface. *)
Fixpoint first_interface_class (path : string) (entries : list (string * bool)) : M Mem W string :=
  match entries with
  | [] => ret ""
  | (name, isDir) :: rest =>
      if negb isDir || negb (Contains name ":") then first_interface_class path rest
      else
        iCode <- parseClassCode (PathJoin [path; name]) "bInterfaceClass" ;;
        match iCode with
        | Some c => ret (classTypeName c)
        | None => first_interface_class path rest
        end
  end.

Definition parseUSBClassType (path : string) : M Mem W string :=
  code <- parseClassCode path "bDeviceClass" ;;
  match code with
  | None => ret ""
  | Some c =>
      if c !=s "00" then ret (classTypeName c)
      else
        entries <- try (eff (FsReadDir path)) ;;
        match entries with
        | inl _ => ret ""
        | inr es => first_interface_class path es
        end
  end.

Definition parseSysUeventFile (path : string) : M Mem W (option hostUSBDevice) :=
  link <- try (eff (FsReadlink path)) ;;
  match link with
  | inl _ => ret None
  | inr l =>
      file <- try (eff (FsReadFile (PathJoin [path; "uevent"]))) ;;
      match file with
      | inl _ => ret None
      | inr text =>
          match parse_uevent_lines (fst (ScanLines text)) (new_usb (parseUSBSymLinkToPCIAddress l)) with
          | None => ret None
          | Some u =>
              product <- readSysfsString path "product" ;;
              class <- parseUSBClassType path ;;
              ret (Some (set_names product class u))
          end
      end
  end.

Definition pathToUSBDevices : string := "/sys/bus/usb/devices".

(** The walk function, for one visited path: it never fails by itself. *)
Definition visit_usb (usbDevices : gmap Z (list hostUSBDevice)) (file : string * string)
    : M Mem W (gmap Z (list hostUSBDevice)) :=
  let '(path, name) := file in
  if HasPrefix name "usb" then ret usbDevices
  else
    st <- try (eff (FsStat (PathJoin [path; "idVendor"]))) ;;
    match st with
    | inl _ => ret usbDevices
    | inr _ =>
        device <- parseSysUeventFile path ;;
        match device with
        | None => ret usbDevices
        | Some d => ret (<[hu_Vendor d := default [] (usbDevices !! hu_Vendor d) ++ [d]]> usbDevices)
        end
    end.

Definition WalkUSBDevices : M Mem W (gmap Z (list hostUSBDevice)) :=
  files <- eff (FsWalk pathToUSBDevices) ;;
  fold_m visit_usb ∅ files.
End Handlers.

(** ** The tests of the repository *)
Example symlink_ex1 :
  parseUSBSymLinkToPCIAddress "../../../devices/pci0000:00/0000:00:14.0/usb1/1-1" = "0000:00:14.0".
Proof. vm_compute. reflexivity. Qed.
Example symlink_ex2 : parseUSBSymLinkToPCIAddress "../../../devices/pci0000:00/0000:00:14.0" = "".
Proof. vm_compute. reflexivity. Qed.
Example class_ex : classTypeName "0e" = "Video" /\ classTypeName "4e" = "Unknown (0x4e)".
Proof. vm_compute. done. Qed.

(** ** Properties *)
Definition kv_line (key value : string) : string := key +:+ "=" +:+ value.

Lemma parse_uevent_line key value rest u :
  str_mem "="%char key = false -> str_mem "="%char value = false ->
  parse_uevent_lines (kv_line key value :: rest) u =
  (u' ← parseSysUeventKeyValue key value u; parse_uevent_lines rest u').
Proof.
  intros Hk Hv. cbn [parse_uevent_lines]. unfold kv_line.
  assert (Split (key +:+ "=" +:+ value) "=" = [key; value]) as ->; [|done].
  change (key +:+ "=" +:+ value) with (Join [key; value] (str1 "="%char)).
  change "=" with (str1 "="%char). apply Split_Join_char; [done|]. by repeat constructor.
Qed.

(** The cases of [parseSysUeventKeyValue]. *)
Lemma parse_other key value u :
  key ∉ ["BUSNUM"; "DEVNUM"; "PRODUCT"; "DEVNAME"] -> parseSysUeventKeyValue key value u = Some u.
Proof.
  rewrite !not_elem_of_cons. intros (? & ? & ? & ? & _). unfold parseSysUeventKeyValue.
  by rewrite !bool_decide_eq_false_2.
Qed.
Lemma parse_devname value u :
  parseSysUeventKeyValue "DEVNAME" value u =
  Some (set_numbers (hu_Vendor u) (hu_Product u) (hu_BCD u) (hu_Bus u) (hu_DeviceNumber u)
          (PathJoin ["/dev"; value]) u).
Proof. reflexivity. Qed.
Lemma parse_busnum value u :
  parseSysUeventKeyValue "BUSNUM" value u =
  (val ← ParseInt value 10 32;
   Some (set_numbers (hu_Vendor u) (hu_Product u) (hu_BCD u) val (hu_DeviceNumber u) (hu_DevicePath u) u)).
Proof. reflexivity. Qed.
Lemma parse_devnum value u :
  parseSysUeventKeyValue "DEVNUM" value u =
  (val ← ParseInt value 10 32;
   Some (set_numbers (hu_Vendor u) (hu_Product u) (hu_BCD u) (hu_Bus u) val (hu_DevicePath u) u)).
Proof. reflexivity. Qed.
Lemma parse_product value p0 p1 p2 u :
  Split value "/" = [p0; p1; p2] ->
  parseSysUeventKeyValue "PRODUCT" value u =
  (vendor ← ParseInt p0 16 32; product ← ParseInt p1 16 32; bcd ← ParseInt p2 16 32;
   Some (set_numbers vendor product bcd (hu_Bus u) (hu_DeviceNumber u) (hu_DevicePath u) u)).
Proof. intros Hs. unfold parseSysUeventKeyValue. rewrite Hs. reflexivity. Qed.

(** A [uevent] file that the kernel writes for a USB device ([BUSNUM],
    [DEVNUM], [PRODUCT] with three hexadecimal numbers and [DEVNAME], among any
    other lines) is read into exactly these numbers and the path under [/dev];
    lines that are not one [key=value] or have another key change nothing. *)
Theorem uevent_parsed (u : hostUSBDevice) (other : list string) (major name bus dev v p b : string)
    (vendor product bcd busnum devnum : Z)
    (Hother : forall u', parse_uevent_lines other u' = Some u')
    (Hmajor : str_mem "="%char major = false) (Hname : str_mem "="%char name = false)
    (Hv : ParseInt v 16 32 = Some vendor) (Hp : ParseInt p 16 32 = Some product)
    (Hb : ParseInt b 16 32 = Some bcd)
    (Hbus : ParseInt bus 10 32 = Some busnum) (Hdev : ParseInt dev 10 32 = Some devnum)
    (Hclean : Forall (fun s => no_slash s = true /\ str_mem "="%char s = false) [v; p; b; bus; dev]) :
  parse_uevent_lines
    ([kv_line "MAJOR" major; kv_line "DEVNAME" name; kv_line "PRODUCT" (v +:+ "/" +:+ p +:+ "/" +:+ b);
      kv_line "BUSNUM" bus; kv_line "DEVNUM" dev] ++ other) u =
  Some (set_numbers vendor product bcd busnum devnum (PathJoin ["/dev"; name]) u).
Proof.
  rewrite !Forall_cons in Hclean.
  destruct Hclean as ([Hv1 Hv2] & [Hp1 Hp2] & [Hb1 Hb2] & [_ Hbus2] & [_ Hdev2] & _).
  cbn [app].
  assert (Split (v +:+ "/" +:+ p +:+ "/" +:+ b) "/" = [v; p; b]) as Hsplit.
  { change (v +:+ "/" +:+ p +:+ "/" +:+ b) with (Join [v; p; b] (str1 "/"%char)).
    change "/" with (str1 "/"%char). unfold no_slash in *. rewrite negb_true_iff in *.
    apply Split_Join_char; [done|]. by repeat constructor. }
  rewrite parse_uevent_line by done. rewrite parse_other by (by apply (bool_decide_unpack _)). cbn [mbind option_bind].
  rewrite parse_uevent_line by done. rewrite parse_devname. cbn [mbind option_bind].
  rewrite parse_uevent_line by (rewrite ?str_mem_app, ?Hv2, ?Hp2, ?Hb2; done).
  rewrite (parse_product _ _ _ _ _ Hsplit), Hv, Hp, Hb. cbn [mbind option_bind].
  rewrite parse_uevent_line by done. rewrite parse_busnum, Hbus. cbn [mbind option_bind].
  rewrite parse_uevent_line by done. rewrite parse_devnum, Hdev. cbn [mbind option_bind].
  apply Hother.
Qed.

Lemma uevent_parsed_witness :
  parse_uevent_lines
    ([kv_line "MAJOR" "189"; kv_line "DEVNAME" "bus/usb/001/002";
      kv_line "PRODUCT" ("46d" +:+ "/" +:+ "c077" +:+ "/" +:+ "7200");
      kv_line "BUSNUM" "001"; kv_line "DEVNUM" "002"] ++ ["DEVTYPE=usb_device"; "DRIVER=usb"])
    (new_usb "0000:00:14.0") =
  Some (set_numbers 1133 49271 29184 1 2 (PathJoin ["/dev"; "bus/usb/001/002"]) (new_usb "0000:00:14.0")).
Proof.
  apply uevent_parsed; try (vm_compute; reflexivity).
  repeat constructor.
Defined.

(** A scan never panics, and every device it finds is filed under its vendor. *)
Theorem WalkUSBDevices_filed {Mem W} `{World W} (s : state Mem W) :
  match WalkUSBDevices s with
  | (Ok m, _) => forall vendor l d, m !! vendor = Some l -> d ∈ l -> hu_Vendor d = vendor
  | (Err _, _) => True
  | (Panic _, _) => False
  end.
Proof.
  destruct (WalkUSBDevices s) as [[m|e|p] s'] eqn:Hrun; [|done|].
  - unfold WalkUSBDevices in Hrun. inv_ok. pattern m.
    eapply (fold_m_Ok_inv _ _ _ _ _ _ _ Hrun); [by intros ? ? ? H1|].
    clear. intros acc [path name] s1 r s2 _ Hacc Hvisit. unfold visit_usb in Hvisit.
    destruct (HasPrefix name "usb"); [inv_ok; done|]. inv_ok.
    destruct a0 as [e|[]]; [inv_ok; done|]. inv_ok. destruct a0 as [d|]; [|inv_ok; done].
    injection Hvisit as <- _. intros vendor l d' Hl Hd'.
    destruct (decide (hu_Vendor d = vendor)) as [<-|Hne].
    + rewrite lookup_insert_eq in Hl. injection Hl as <-.
      apply elem_of_app in Hd' as [Hd'|Hd']; [|by apply list_elem_of_singleton in Hd' as ->].
      destruct (acc !! hu_Vendor d) as [l0|] eqn:E; [by eapply Hacc|by apply not_elem_of_nil in Hd'].
    + rewrite lookup_insert_ne in Hl by done. by eapply Hacc.
  - assert (forall dir f, NoPanic (Mem := Mem) (readSysfsString dir f)) as Hr.
    { intros. unfold readSysfsString. nopanic_tac. }
    assert (forall dir f, NoPanic (Mem := Mem) (parseClassCode dir f)) as Hc.
    { intros. unfold parseClassCode. nopanic_tac. }
    assert (forall path es, NoPanic (Mem := Mem) (first_interface_class path es)) as Hi.
    { intros path. induction es as [|[n b] es IH]; simpl; nopanic_tac. }
    assert (forall path, NoPanic (Mem := Mem) (parseUSBClassType path)) as Ht.
    { intros. unfold parseUSBClassType. nopanic_tac. }
    revert Hrun. assert (NoPanic (Mem := Mem) WalkUSBDevices) as HN; [|by intros ?%HN].
    unfold WalkUSBDevices, visit_usb, parseSysUeventFile. nopanic_tac.
Qed.
