(* ===== verification/USBPlugin.v ===== *)
(** * The USB device plugin (usb_device_plugin.go)

    A plugin per USB device.  Its [update] channel, on which a change of health is
    signalled to [ListAndWatch], is a field that no code ever makes; a send on it
    is a send on a nil channel. *)

From S2P Require Import Prelude GoStrings GoStringLemmas GoMonad Types Effects DevicePlugins PCIPlugin Sim.
From Stdlib Require Import Ascii.

Record PluginDevice := {
  pdev_ID : string;
  pdev_isHealthy : bool;
  pdev_DevicePath : string;
  pdev_Bus : Z;
  pdev_DeviceNumber : Z
}.

Record USBDevicePlugin := {
  up_socketPath : string;
  up_update_made : bool; (* the channel [update] is not nil *)
  up_resourceName : string;
  up_device : PluginDevice;
  up_started : bool;
  up_stop_closed : bool
}.

Definition toKubeVirtDevicePlugin (pd : PluginDevice) : Device :=
  {| dev_ID := pdev_ID pd;
     dev_Health := if pdev_isHealthy pd then Healthy else Unhealthy;
     dev_Topology := None |}.

Definition devicesToKubeVirtDevicePlugin (plugin : USBDevicePlugin) : list Device :=
  [toKubeVirtDevicePlugin (up_device plugin)].

Definition set_isHealthy (b : bool) (plugin : USBDevicePlugin) : USBDevicePlugin :=
  let pd := up_device plugin in
  {| up_socketPath := up_socketPath plugin; up_update_made := up_update_made plugin;
     up_resourceName := up_resourceName plugin;
     up_device := {| pdev_ID := pdev_ID pd; pdev_isHealthy := b; pdev_DevicePath := pdev_DevicePath pd;
                     pdev_Bus := pdev_Bus pd; pdev_DeviceNumber := pdev_DeviceNumber pd |};
     up_started := up_started plugin; up_stop_closed := up_stop_closed plugin |}.

(** What the goroutine of the health check does next: go on, signal [ListAndWatch]
    and go on, or block for ever in the send on a nil channel. *)
Inductive signal := NoSignal | Signalled | BlockedForever.

Definition setDeviceHealth (isHealthy : bool) (plugin : USBDevicePlugin) : signal * USBDevicePlugin :=
  let isDifferent := negb (Bool.eqb (pdev_isHealthy (up_device plugin)) isHealthy) in
  (if isDifferent then if up_update_made plugin then Signalled else BlockedForever else NoSignal,
   set_isHealthy isHealthy plugin).

(** An event in the loop of [healthCheck]; [None] when the loop ends. *)
Definition usb_healthCheck_event (monitored : gmap string string) (event : fs_event)
    (plugin : USBDevicePlugin) : option (signal * USBDevicePlugin) :=
  match monitored !! ev_Name event with
  | Some _ =>
      match ev_Op event with
      | OpCreate => Some (setDeviceHealth true plugin)
      | OpRemove | OpRename => Some (setDeviceHealth false plugin)
      | OpOther => Some (NoSignal, plugin)
      end
  | None =>
      if ev_Name event ==s up_socketPath plugin
      then match ev_Op event with OpRemove => None | _ => Some (NoSignal, plugin) end
      else Some (NoSignal, plugin)
  end.

Definition generateBusAndDevice (devicePath : string) : outcome (Z * Z) :=
  match rev (Split devicePath "/") with
  | deviceNumberStr :: busStr :: _ =>
      match Atoi busStr with
      | None => Err (Errorf "failed to convert busStr")
      | Some bus =>
          match Atoi deviceNumberStr with
          | None => Err (Errorf "failed to convert deviceNumberStr")
          | Some deviceNumber => Ok (bus, deviceNumber)
          end
      end
  | _ => Panic "index out of range [-1]"
  end.

Definition StartDevicePlugin (plugin : USBDevicePlugin) : USBDevicePlugin :=
  if up_started plugin then plugin
  else {| up_socketPath := up_socketPath plugin; up_update_made := up_update_made plugin;
          up_resourceName := up_resourceName plugin; up_device := up_device plugin;
          up_started := true; up_stop_closed := false |}.

Definition StopDevicePlugin (plugin : USBDevicePlugin) : USBDevicePlugin :=
  if negb (up_started plugin) then plugin
  else {| up_socketPath := up_socketPath plugin; up_update_made := up_update_made plugin;
          up_resourceName := up_resourceName plugin; up_device := up_device plugin;
          up_started := false; up_stop_closed := true |}.

Section Definitions.
Context `{External}.

Definition NewUSBDevicePlugin (usb : USBDevice) : outcome USBDevicePlugin :=
  let s := Split (usb_ResourceName (usb_Status usb)) "/" in
  let resourceID := match s with _ :: s1 :: _ => s1 | s0 :: _ => s0 | [] => "" end in
  p <-o generateBusAndDevice (usb_DevicePath (usb_Status usb)) ;;
  Ok {| up_socketPath := SocketPath ("usb-" +:+ resourceID);
        up_update_made := false;
        up_resourceName := usb_ResourceName (usb_Status usb);
        up_device := {| pdev_ID := m_Name (usb_meta usb); pdev_isHealthy := true;
                        pdev_DevicePath := usb_DevicePath (usb_Status usb);
                        pdev_Bus := p.1; pdev_DeviceNumber := p.2 |};
        up_started := false; up_stop_closed := false |}.

(** The paths [getMonitoredDevices] watches, when the device file is there. *)
Definition getMonitoredDevices (plugin : USBDevicePlugin) : gmap string string :=
  {[ PathJoin [HostRootMount; pdev_DevicePath (up_device plugin)] := pdev_ID (up_device plugin) ]}.

(** [open_chown] resolves the device file below the host's root and gives it to
    the user of the VM: KubeVirt's [safepath]. *)
Variable open_chown : string -> option error.
Variable USBResourcePrefix : string.

Definition usb_spec (plugin : USBDevicePlugin) : DeviceSpec :=
  {| ds_ContainerPath := pdev_DevicePath (up_device plugin);
     ds_HostPath := pdev_DevicePath (up_device plugin); ds_Permissions := "mrw" |}.

(** The loop over the IDs of a container.  [env] is one map, shared by all the
    containers of the answer; [None] as the container's environment is a nil map,
    [Some tt] a reference to [env]. *)
Fixpoint usb_allocate_ids (plugin : USBDevicePlugin) (ids : list string)
    (env : gmap string string) (cell : list DeviceSpec * option unit)
    : outcome (gmap string string * (list DeviceSpec * option unit)) :=
  match ids with
  | [] => Ok (env, cell)
  | _ :: rest =>
      match open_chown (pdev_DevicePath (up_device plugin)) with
      | Some e => Err (Wrapf "error opening or setting the permission of the socket" e)
      | None =>
          let key := ResourceNameToEnvVar USBResourcePrefix (up_resourceName plugin) in
          let value := Itoa (pdev_Bus (up_device plugin)) +:+ ":" +:+
                       Itoa (pdev_DeviceNumber (up_device plugin)) in
          let env' := match env !! key with
                      | Some previous => <[key := previous +:+ "," +:+ value]> env
                      | None => <[key := value]> env
                      end in
          usb_allocate_ids plugin rest env' (cell.1 ++ [usb_spec plugin], Some tt)
      end
  end.

Fixpoint usb_allocate_containers (plugin : USBDevicePlugin) (reqs : list (list string))
    (env : gmap string string) : outcome (gmap string string * list (list DeviceSpec * option unit)) :=
  match reqs with
  | [] => Ok (env, [])
  | ids :: rest =>
      r <-o usb_allocate_ids plugin ids env ([], None) ;;
      rs <-o usb_allocate_containers plugin rest r.1 ;;
      Ok (rs.1, r.2 :: rs.2)
  end.

(** The answer, with the references to the shared map followed. *)
Definition usb_Allocate (plugin : USBDevicePlugin) (reqs : list (list string))
    : outcome (list ContainerAllocateResponse) :=
  r <-o usb_allocate_containers plugin reqs ∅ ;;
  Ok ((fun c : list DeviceSpec * option unit =>
         {| car_Devices := c.1; car_Envs := match c.2 with Some _ => r.1 | None => ∅ end |}) <$> r.2).
End Definitions.

(** ** Properties *)

(** The path of a USB device file ends in its bus and device numbers, which
    [generateBusAndDevice] reads back; a path without a slash is a panic. *)
Theorem generateBusAndDevice_spec (dir bus dev : string) :
  (str_mem "/"%char bus = false -> str_mem "/"%char dev = false ->
   generateBusAndDevice (dir +:+ "/" +:+ bus +:+ "/" +:+ dev) =
     match Atoi bus, Atoi dev with
     | Some b, Some d => Ok (b, d)
     | Some _, None => Err (Errorf "failed to convert deviceNumberStr")
     | None, _ => Err (Errorf "failed to convert busStr")
     end) /\
  (str_mem "/"%char dev = false -> exists msg, generateBusAndDevice dev = Panic msg).
Proof.
  unfold generateBusAndDevice. split.
  - intros Hb Hd.
    assert (Split (dir +:+ "/" +:+ bus +:+ "/" +:+ dev) "/" = Split dir "/" ++ [bus; dev]) as ->.
    { change "/" with (str1 "/"%char).
      rewrite <- (Join_Split_char "/"%char dir) at 1.
      pose proof (Split_char_no_sep "/"%char dir) as Hns.
      pose proof (Split_char_nonnil "/"%char dir) as Hnn. revert Hns Hnn.
      generalize (Split dir (str1 "/"%char)). intros l Hns Hnn.
      replace (Join l (str1 "/"%char) +:+ str1 "/"%char +:+ bus +:+ str1 "/"%char +:+ dev)
        with (Join (l ++ [bus; dev]) (str1 "/"%char)).
      - apply Split_Join_char; [by destruct l|]. apply Forall_app. split; [done|by repeat constructor].
      - clear Hns. destruct l as [|a l]; [done|]. clear Hnn. revert a.
        induction l as [|b l IH]; intros a; [done|].
        cbn [app]. rewrite !Join_cons2. cbn [app] in IH. rewrite IH. by rewrite !app_assoc_str. }
    rewrite rev_app_distr. simpl. by destruct (Atoi bus), (Atoi dev).
  - intros Hd. change "/" with (str1 "/"%char). rewrite Split_char_none by done. simpl. eauto.
Qed.

(** The first change of a USB device's health blocks the plugin's health
    check for ever: the [update] channel of a new plugin is nil, whatever has
    been started or stopped since, so [ListAndWatch] is never told. *)
Theorem usb_health_change_blocks `{External} (usb : USBDevice) (plugin : USBDevicePlugin) (op : fs_op)
    (Hnew : NewUSBDevicePlugin usb = Ok plugin) (Hop : op = OpRemove \/ op = OpRename) :
  let running := StartDevicePlugin plugin in
  let gone := {| ev_Name := PathJoin [HostRootMount; usb_DevicePath (usb_Status usb)]; ev_Op := op |} in
  exists plugin', usb_healthCheck_event (getMonitoredDevices running) gone running
    = Some (BlockedForever, plugin') /\
    pdev_isHealthy (up_device plugin') = false.
Proof.
  intros running gone. unfold NewUSBDevicePlugin in Hnew.
  destruct (generateBusAndDevice _) as [[b d]|e|m]; simpl in Hnew; [|done..].
  injection Hnew as <-. unfold usb_healthCheck_event, getMonitoredDevices. simpl.
  rewrite lookup_singleton_eq. destruct Hop as [-> | ->]; simpl; eauto.
Qed.

Section Allocation.
Context `{External}.
Variable open_chown : string -> option error.
Variable USBResourcePrefix : string.

Definition usb_value (plugin : USBDevicePlugin) : string :=
  Itoa (pdev_Bus (up_device plugin)) +:+ ":" +:+ Itoa (pdev_DeviceNumber (up_device plugin)).

Definition usb_env (plugin : USBDevicePlugin) (n : nat) : gmap string string :=
  if n =? 0 then ∅
  else {[ ResourceNameToEnvVar USBResourcePrefix (up_resourceName plugin)
            := Join (replicate n (usb_value plugin)) "," ]}.

Lemma Join_snoc_str l x : l <> [] -> Join (l ++ [x]) "," = Join l "," +:+ "," +:+ x.
Proof.
  induction l as [|a l IH]; [done|]. intros _. destruct l as [|b l]; [done|].
  cbn [app] in *. rewrite !Join_cons2, IH by done. by rewrite !app_assoc_str.
Qed.

Lemma usb_env_S plugin n :
  match usb_env plugin n !! ResourceNameToEnvVar USBResourcePrefix (up_resourceName plugin) with
  | Some previous =>
      <[ResourceNameToEnvVar USBResourcePrefix (up_resourceName plugin)
          := previous +:+ "," +:+ usb_value plugin]> (usb_env plugin n)
  | None => <[ResourceNameToEnvVar USBResourcePrefix (up_resourceName plugin)
          := usb_value plugin]> (usb_env plugin n)
  end = usb_env plugin (S n).
Proof.
  unfold usb_env. destruct n as [|n]; simpl Nat.eqb; cbn iota.
  - rewrite lookup_empty. by rewrite insert_empty.
  - rewrite lookup_singleton_eq, insert_singleton_eq. f_equal.
    rewrite <- Join_snoc_str by done. by rewrite <- replicate_cons_app.
Qed.

Lemma usb_allocate_ids_run plugin ids n cell :
  open_chown (pdev_DevicePath (up_device plugin)) = None ->
  usb_allocate_ids open_chown USBResourcePrefix plugin ids (usb_env plugin n) cell =
  Ok (usb_env plugin (n + length ids),
      (cell.1 ++ replicate (length ids) (usb_spec plugin),
       if length ids =? 0 then cell.2 else Some tt)).
Proof.
  intros Ho. revert n cell. induction ids as [|id ids IH]; intros n cell; cbn [usb_allocate_ids].
  - simpl. rewrite Nat.add_0_r, app_nil_r. by destruct cell.
  - rewrite Ho. fold (usb_value plugin). rewrite usb_env_S, IH. cbn [fst snd length].
    rewrite <- app_assoc, Nat.add_succ_r. by destruct (length ids =? 0).
Qed.

Lemma usb_allocate_containers_run plugin reqs n :
  open_chown (pdev_DevicePath (up_device plugin)) = None ->
  usb_allocate_containers open_chown USBResourcePrefix plugin reqs (usb_env plugin n) =
  Ok (usb_env plugin (n + length (concat reqs)),
      (fun ids : list string => (replicate (length ids) (usb_spec plugin),
                 if length ids =? 0 then None else Some tt)) <$> reqs).
Proof.
  intros Ho. revert n. induction reqs as [|ids reqs IH]; intros n; cbn [usb_allocate_containers].
  - simpl. by rewrite Nat.add_0_r.
  - rewrite usb_allocate_ids_run by done. cbn [obind fst snd]. rewrite IH. cbn [obind fst snd concat].
    by rewrite length_app, Nat.add_assoc.
Qed.

(** When the device file can be handed over, [Allocate] gives every
    container one device spec per requested ID, whatever the IDs, and every
    container that asked for one the same environment variable: the device's
    [bus:number], once for each ID of the whole request. *)
Theorem usb_Allocate_spec (plugin : USBDevicePlugin) (reqs : list (list string))
    (Hopen : open_chown (pdev_DevicePath (up_device plugin)) = None) :
  usb_Allocate open_chown USBResourcePrefix plugin reqs =
  Ok ((fun ids : list string =>
         {| car_Devices := replicate (length ids) (usb_spec plugin);
            car_Envs := if length ids =? 0 then ∅ else usb_env plugin (length (concat reqs)) |})
        <$> reqs).
Proof.
  unfold usb_Allocate. change (∅ : gmap string string) with (usb_env plugin 0) at 1.
  rewrite usb_allocate_containers_run by done. cbn [obind fst snd].
  rewrite <- list_fmap_compose. f_equal. apply list_fmap_ext. intros i ids _. simpl.
  by destruct (length ids =? 0).
Qed.
End Allocation.

(** ** Witnesses *)
Definition demo_usb : USBDevice :=
  {| usb_meta := new_meta "node1-046d-c077-001002" ∅ ∅;
     usb_Status :=
       {| usb_VendorID := "046d"; usb_ProductID := "c077"; usb_NodeName := "node1";
          usb_ResourceName := "kubevirt.io/node1-046d-c077-001002";
          usb_DevicePath := "/dev/bus/usb/001/002"; usb_Description := ""; usb_PCIAddress := "";
          usb_ClassType := ""; usb_Enabled := true; usb_status := ""; usb_Message := "" |} |}.

Definition demo_usb_plugin : USBDevicePlugin :=
  match NewUSBDevicePlugin demo_usb with
  | Ok p => p
  | _ => {| up_socketPath := ""; up_update_made := false; up_resourceName := "";
            up_device := {| pdev_ID := ""; pdev_isHealthy := false; pdev_DevicePath := "";
                            pdev_Bus := 0; pdev_DeviceNumber := 0 |};
            up_started := false; up_stop_closed := false |}
  end.

Lemma generateBusAndDevice_spec_witness :
  generateBusAndDevice ("/dev/bus/usb" +:+ "/" +:+ "001" +:+ "/" +:+ "002") = Ok (1%Z, 2%Z) /\
  exists msg, generateBusAndDevice "ttyUSB0" = Panic msg.
Proof.
  split.
  - exact (proj1 (generateBusAndDevice_spec "/dev/bus/usb" "001" "002") eq_refl eq_refl).
  - exact (proj2 (generateBusAndDevice_spec "" "" "ttyUSB0") eq_refl).
Defined.

Lemma usb_health_change_blocks_witness :
  let gone := {| ev_Name := PathJoin [HostRootMount; "/dev/bus/usb/001/002"]; ev_Op := OpRemove |} in
  exists plugin',
    usb_healthCheck_event (getMonitoredDevices (StartDevicePlugin demo_usb_plugin)) gone
      (StartDevicePlugin demo_usb_plugin) = Some (BlockedForever, plugin') /\
    pdev_isHealthy (up_device plugin') = false.
Proof.
  apply (usb_health_change_blocks demo_usb demo_usb_plugin OpRemove);
    [vm_compute; reflexivity|by left].
Defined.

Lemma usb_Allocate_spec_witness :
  exists r, usb_Allocate (fun _ => None) "USB_RESOURCE" demo_usb_plugin [["a"]; ["b"]] = Ok r /\
    (fun c => car_Envs c !! "USB_RESOURCE_KUBEVIRT_IO_NODE1-046D-C077-001002") <$> r
      = [Some "1:2,1:2"; Some "1:2,1:2"].
Proof.
  eexists. split; [apply (usb_Allocate_spec (fun _ => None) "USB_RESOURCE"); reflexivity|].
  vm_compute. reflexivity.
Defined.
