(* ===== verification/PluginServer.v ===== *)
(** * The servers of the device plugins (device_manager.go, vgpu_device_manager.go,
    usb_device_plugin.go, common.go)

    A plugin listens on its socket, starts a goroutine that serves it, waits until it
    answers, registers with the kubelet and awaits the end of its server; its health check watches the files of
    its devices and its socket.  The server, the connection and the watcher are
    outside the repository: each call on them is an effect.  The start of the USB
    plugin defers its stop; those of the others do not. *)

From S2P Require Import Prelude GoStrings GoStringLemmas GoMonad Types Effects PCIDeviceApi DevicePlugins PCIPlugin VGPUPlugin USBPlugin Sim.

(** [filepath.Dir]. *)
Definition Dir (p : string) : string :=
  match rev (Split p "/") with
  | _ :: (_ :: _) as rest => Clean (Join (rev rest) "/" +:+ "/")
  | _ => "."
  end.

Definition vgpu_setInitialized (initialized : bool) (dp : VGPUDevicePlugin) : VGPUDevicePlugin :=
  {| vp_devs := vp_devs dp; vp_socketPath := vp_socketPath dp; vp_devicePath := vp_devicePath dp;
     vp_resourceName := vp_resourceName dp; vp_deviceRoot := vp_deviceRoot dp;
     vp_initialized := initialized; vp_started := vp_started dp; vp_pending := vp_pending dp |}.

Section Servers.
Context `{External} {W : Type} `{World W}.
(** The kubelet's socket, a constant of the plugin API. *)
Variable KubeletSocket : string.

Definition waitForGRPCServer {Mem} (socketPath : string) : M Mem W unit := eff (GrpcDial socketPath).

(** [go func() { errChan <- server.Serve(sock) }()]: starting a goroutine does not fail; what
    it comes to is received from the channel. *)
Definition go_serve {Mem} (socketPath : string) : M Mem W unit := _ <- try (eff (GrpcServe socketPath)) ;; ret tt.
(** [<-errChan]. *)
Definition serve_error {Mem} (socketPath : string) : M Mem W unit := eff (GrpcWait socketPath).

(** The [register] of all three plugins. *)
Definition register {Mem} (socketPath resourceName : string) : M Mem W unit :=
  eff (GrpcDial KubeletSocket) ;;;
  eff (GrpcRegister (Base socketPath) resourceName).

(** ** PCI and vGPU plugins *)
Definition Start : M PCIDevicePlugin W unit :=
  dp <- get_mem ;;
  cleanup (dp_socketPath dp) ;;;
  on_err (fun _ => Errorf "error creating GRPC server socket") (eff (NetListen (dp_socketPath dp))) ;;;
  go_serve (dp_socketPath dp) ;;;
  on_err (fun _ => Errorf "error starting the GRPC server") (waitForGRPCServer (dp_socketPath dp)) ;;;
  on_err (fun _ => Errorf "error registering with device plugin manager")
    (register (dp_socketPath dp) (dp_resourceName dp)) ;;;
  modify_mem (fun dp => SetStarted (setInitialized true dp)) ;;;
  serve_error (dp_socketPath dp).

(** After the wait for the loop to deregister ([PluginSession]). *)
Definition stopDevicePlugin : M PCIDevicePlugin W unit :=
  dp <- get_mem ;;
  modify_mem (setInitialized false) ;;;
  cleanup (dp_socketPath dp).

Definition vgpu_Start : M VGPUDevicePlugin W unit :=
  dp <- get_mem ;;
  cleanup (vp_socketPath dp) ;;;
  on_err (fun _ => Errorf "error creating GRPC server socket") (eff (NetListen (vp_socketPath dp))) ;;;
  go_serve (vp_socketPath dp) ;;;
  on_err (fun _ => Errorf "error starting the GRPC server") (waitForGRPCServer (vp_socketPath dp)) ;;;
  on_err (fun _ => Errorf "error registering with device plugin manager")
    (register (vp_socketPath dp) (vp_resourceName dp)) ;;;
  modify_mem (fun dp => vgpu_SetStarted (vgpu_setInitialized true dp)) ;;;
  serve_error (vp_socketPath dp).

Definition vgpu_stopDevicePlugin : M VGPUDevicePlugin W unit :=
  dp <- get_mem ;;
  modify_mem (vgpu_setInitialized false) ;;;
  cleanup (vp_socketPath dp).

(** The end of the set-up of the PCI and vGPU health checks. *)
Definition watch_socket {Mem} (socketPath : string) : M Mem W unit :=
  on_err (fun _ => Errorf "failed to add the device-plugin kubelet path to the watcher") (eff (WatchAdd (Dir socketPath))) ;;;
  on_err (fun _ => Errorf "failed to stat the device-plugin socket") (eff (FsStat socketPath)) ;;;
  on_err (fun _ => Errorf "failed to watch device-plugin socket") (eff (WatchAdd socketPath)).

(** Its beginning: the directory of the devices, which need not be there. *)
Definition watch_root {Mem} (devicePath : string) : M Mem W unit :=
  on_err (fun _ => Errorf "failed to add the device root path to the watcher") (eff (WatchAdd (Dir devicePath))) ;;;
  r <- try (eff (FsStat devicePath)) ;;
  match r with
  | inl err => if negb (IsNotExist err) then fail (Errorf "could not stat the device") else ret tt
  | inr _ => ret tt
  end.

Definition healthCheck_setup : M PCIDevicePlugin W (gmap string string) :=
  dp <- get_mem ;;
  let devicePath := PathJoin [dp_deviceRoot dp; dp_devicePath dp] in
  watch_root devicePath ;;;
  monitored <- fold_m (fun m dev =>
    match dp_iommuToPCIMap dp !! dev_ID dev with
    | Some iommuGroup =>
        on_err (fun _ => Errorf "failed to add the device to the watcher") (eff (WatchAdd (PathJoin [devicePath; iommuGroup]))) ;;;
        ret (<[dev_ID dev := PathJoin [devicePath; iommuGroup]]> m)
    | None => ret m
    end) ∅ (dp_devs dp) ;;
  watch_socket (dp_socketPath dp) ;;;
  ret monitored.

Definition vgpu_healthCheck_setup : M VGPUDevicePlugin W (gmap string string) :=
  dp <- get_mem ;;
  let devicePath := PathJoin [vp_deviceRoot dp; vp_devicePath dp] in
  watch_root devicePath ;;;
  monitored <- fold_m (fun m dev =>
    on_err (fun _ => Errorf "failed to add the device to the watcher") (eff (WatchAdd (PathJoin [devicePath; dev_ID dev]))) ;;;
    ret (<[dev_ID dev := PathJoin [devicePath; dev_ID dev]]> m)) ∅ (vp_devs dp) ;;
  watch_socket (vp_socketPath dp) ;;;
  ret monitored.

(** ** The USB plugin *)

(** [defer plugin.stopDevicePlugin()]: after the wait for the loop, which ends in any
    case after five seconds, the server is stopped and the socket removed. *)
Definition usb_stopDevicePlugin : M USBDevicePlugin W unit :=
  plugin <- get_mem ;;
  cleanup (up_socketPath plugin).

(** The end of the server or of the health check is awaited. *)
Definition startDevicePlugin : M USBDevicePlugin W unit :=
  plugin <- get_mem ;;
  on_err (fun _ => Errorf "error on cleanup") (cleanup (up_socketPath plugin)) ;;;
  on_err (fun _ => Errorf "error creating GRPC server socket") (eff (NetListen (up_socketPath plugin))) ;;;
  defer usb_stopDevicePlugin
    (go_serve (up_socketPath plugin) ;;;
     on_err (fun _ => Errorf "error starting the GRPC server") (waitForGRPCServer (up_socketPath plugin)) ;;;
     on_err (fun _ => Errorf "error registering with device plugin manager")
       (register (up_socketPath plugin) (up_resourceName plugin)) ;;;
     serve_error (up_socketPath plugin)).

(** The directory is watched once: the map of watched directories is new. *)
Definition usb_getMonitoredDevices : M USBDevicePlugin W (gmap string string) :=
  plugin <- get_mem ;;
  let usbDevicePath := PathJoin [HostRootMount; pdev_DevicePath (up_device plugin)] in
  on_err (fun _ => Errorf "failed to watch device parent directory") (eff (WatchAdd (Dir usbDevicePath))) ;;;
  on_err (fun _ => Errorf "failed to add the device to the watcher") (eff (WatchAdd usbDevicePath)) ;;;
  on_err (fun _ => Errorf "failed to validate device") (eff (FsStat usbDevicePath)) ;;;
  ret (getMonitoredDevices plugin).

Definition addSocketPath : M USBDevicePlugin W unit :=
  plugin <- get_mem ;;
  on_err (fun _ => Errorf "failed to add the device-plugin kubelet path to the watcher")
    (eff (WatchAdd (Dir (up_socketPath plugin)))) ;;;
  on_err (fun _ => Errorf "failed to stat the device-plugin socket") (eff (FsStat (up_socketPath plugin))).

Definition usb_healthCheck_setup : M USBDevicePlugin W (gmap string string) :=
  monitored <- usb_getMonitoredDevices ;;
  addSocketPath ;;;
  ret monitored.
End Servers.

Example Dir_socket : Dir "/var/lib/kubelet/device-plugins/kubevirt-x.sock" = "/var/lib/kubelet/device-plugins".
Proof. vm_compute. reflexivity. Qed.
Example Dir_root : Dir "/dev" = "/" /\ Dir "x" = "." /\ Dir "/a/b/" = "/a/b".
Proof. vm_compute. done. Qed.

(** ** The start-up sequence *)

(** The calls on servers and sockets. *)
Definition told (ev : event) : option string :=
  match ev with
  | Ev e _ =>
      match e with
      | FsRemove p => Some ("remove " +:+ p)
      | NetListen p => Some ("listen " +:+ p)
      | GrpcDial p => Some ("dial " +:+ p)
      | GrpcRegister endpoint name => Some ("register " +:+ endpoint +:+ " " +:+ name)
      | GrpcServe p => Some ("serve " +:+ p)
      | GrpcWait p => Some ("await the end of " +:+ p)
      | _ => None
      end
  end.
Definition start_up (KubeletSocket socketPath resourceName : string) : list (option string) :=
  [Some ("remove " +:+ socketPath); Some ("listen " +:+ socketPath); Some ("serve " +:+ socketPath);
   Some ("dial " +:+ socketPath); Some ("dial " +:+ KubeletSocket);
   Some ("register " +:+ Base socketPath +:+ " " +:+ resourceName); Some ("await the end of " +:+ socketPath)].

(** The call succeeded; an absent socket need not be removed, and a goroutine is started. *)
Definition went_well (ev : event) : Prop :=
  match ev with
  | Ev e r =>
      match r with
      | inl er => match e with FsRemove _ => IsNotExist er = true | GrpcServe _ => True | _ => False end
      | inr _ => True
      end
  end.

Section StartUp.
Context `{External} {W : Type} `{World W} (KubeletSocket : string).

Lemma cleanup_log {Mem} (p : string) (s : state Mem (Logged W)) o s' :
  cleanup p s = (o, s') ->
  exists r, log_of s' = log_of s ++ [Ev (FsRemove p) r] /\ mem s' = mem s /\
    ((o = Ok tt /\ went_well (Ev (FsRemove p) r)) \/ is_Ok o = false).
Proof.
  unfold cleanup, bind, try. destruct (eff_log (FsRemove p) s) as (r & w' & _ & ->).
  destruct r as [e|u].
  - destruct (IsNotExist e) eqn:E; intros [= <- <-]; exists (inl e); (split_and!; [done|done|]); [by left|by right].
  - intros [= <- <-]. exists (inr u). split_and!; [done|done|by left].
Qed.

Lemma eff_cases {Mem X} (e : Eff X) (s : state Mem (Logged W)) o s' :
  eff e s = (o, s') ->
  exists r, log_of s' = log_of s ++ [Ev e r] /\ mem s' = mem s /\
    match r with inl er => o = Err er | inr x => o = Ok x end.
Proof. destruct (eff_log e s) as (r & w' & _ & ->). intros Heq. exists r. destruct r; by injection Heq as <- <-. Qed.

(** A run whose calls are the first of a script, all but the last of which went well;
    the last one too when the run succeeded, which makes all of them.  Before the last
    call of the script the memory is changed by [f]. *)
Definition follows {Mem} (script : list (option string)) (f : Mem -> Mem) (s s' : state Mem (Logged W)) (ok : bool) : Prop :=
  exists evs, log_of s' = log_of s ++ evs /\ (told <$> evs) = take (length evs) script /\
    Forall went_well (removelast evs) /\
    (ok = true -> Forall went_well evs /\ length evs = length script) /\
    evs <> [] /\
    mem s' = if length evs =? length script then f (mem s) else mem s.

(** The computation makes one call, and succeeds exactly when it went well. *)
Definition calls {Mem} (c : option string) (m : M Mem (Logged W) unit) : Prop :=
  forall s o s', m s = (o, s') ->
    exists ev, told ev = c /\ log_of s' = log_of s ++ [ev] /\ mem s' = mem s /\
      ((o = Ok tt /\ went_well ev) \/ is_Ok o = false).

Lemma calls_cleanup {Mem} p : calls (Mem := Mem) (Some ("remove " +:+ p)) (cleanup p).
Proof. intros s o s' (r & Hl & Hm & Ho)%cleanup_log. by exists (Ev (FsRemove p) r). Qed.

Lemma calls_eff {Mem} (e : Eff unit) c : told (Ev e (inr tt)) = c -> calls (Mem := Mem) c (eff e).
Proof.
  intros Hc s o s' (r & Hl & Hm & Ho)%eff_cases. exists (Ev e r). split_and!; [by rewrite <- Hc|done|done|].
  destruct r as [er|[]]; subst o; [by right|left]. by split.
Qed.

Lemma calls_go_serve {Mem} p : calls (Mem := Mem) (Some ("serve " +:+ p)) (go_serve p).
Proof.
  intros s o s'. unfold go_serve, bind, try. destruct (eff_log (GrpcServe p) s) as (r & w' & _ & ->).
  intros Hrun. exists (Ev (GrpcServe p) r). destruct r as [er|u]; injection Hrun as <- <-; (split_and!; [done..|by left]).
Qed.

Lemma calls_on_err {Mem} c w (m : M Mem (Logged W) unit) : calls c m -> calls c (on_err w m).
Proof.
  intros Hm s o s' Hrun. unfold on_err in Hrun. destruct (m s) as [o1 s1] eqn:E.
  destruct (Hm s o1 s1 E) as (ev & Hev & Hl & Hmem & Ho). exists ev. destruct o1; injection Hrun as <- <-; (split_and!; [done..|]);
    destruct Ho as [[? ?]|?]; auto.
Qed.

Lemma follows_bind {Mem A} (m : M Mem (Logged W) unit) (k : unit -> M Mem (Logged W) A) c script f
    (s s' : state Mem (Logged W)) o :
  calls c m -> script <> [] ->
  (forall s1, mem s1 = mem s -> k tt s1 = (o, s') -> follows script f s1 s' (is_Ok o)) ->
  bind m k s = (o, s') -> follows (c :: script) f s s' (is_Ok o).
Proof.
  intros Hm Hscript Hk Hrun. unfold bind in Hrun. destruct (m s) as [o1 s1] eqn:E.
  destruct (Hm s o1 s1 E) as (ev & Hc & Hl & Hmem & [[-> Hwell]|Hbad]).
  - destruct (Hk s1 Hmem Hrun) as (evs & Hl' & Htold & Hwells & Hok & Hne & Hm'). exists (ev :: evs). split_and!.
    + rewrite Hl', Hl. by rewrite <- app_assoc.
    + cbn. by rewrite Hc, Htold.
    + destruct evs as [|e' evs]; [done|]. by constructor.
    + intros Ho. destruct (Hok Ho) as [Hw Hlen]. split; [by constructor|]. cbn. by rewrite Hlen.
    + done.
    + rewrite Hm', Hmem. done.
  - assert (is_Ok o = false /\ s' = s1) as [-> ->] by by destruct o1; [|injection Hrun as <- <-..].
    exists [ev]. split_and!; [done|by cbn; rewrite Hc|constructor|done|done|]. by destruct script.
Qed.

Lemma follows_last {Mem} (m : M Mem (Logged W) unit) c f (s s' : state Mem (Logged W)) o :
  calls c m -> (modify_mem f ;;; m) s = (o, s') -> follows [c] f s s' (is_Ok o).
Proof.
  intros Hm Hrun. destruct (Hm (State (f (mem s)) (world s)) o s' Hrun) as (ev & Hc & Hl & Hmem & Ho). exists [ev].
  split_and!; [done|by cbn; rewrite Hc|constructor| |done|done].
  intros Hok. destruct Ho as [[_ Hw]|Ho]; [|congruence]. split; [by repeat constructor|done].
Qed.

(** The error of two calls is that of the one that fails. *)
Lemma on_err_two {Mem A} w (m1 m2 : M Mem (Logged W) unit) (k : M Mem (Logged W) A) s :
  (on_err w (m1 ;;; m2) ;;; k) s = (on_err w m1 ;;; on_err w m2 ;;; k) s.
Proof. unfold bind, on_err. destruct (m1 s) as [[] s1]; [|done..]. by destruct (m2 s1) as [[] s2]. Qed.

#[local] Hint Resolve calls_cleanup calls_go_serve calls_on_err : pcidev.
#[local] Hint Extern 2 (calls _ (eff _)) => apply calls_eff; reflexivity : pcidev.

(** The first half of every plugin's start. *)
Lemma follows_start {Mem} (sock name : string) w1 w2 w3 (f : Mem -> Mem) (s s' : state Mem (Logged W)) o :
  (cleanup sock ;;;
   on_err w1 (eff (NetListen sock)) ;;;
   go_serve sock ;;;
   on_err w2 (waitForGRPCServer sock) ;;;
   on_err w3 (register KubeletSocket sock name) ;;;
   modify_mem f ;;;
   serve_error sock) s = (o, s') ->
  follows (start_up KubeletSocket sock name) f s s' (is_Ok o).
Proof.
  apply follows_bind; [auto with pcidev|done|]. intros s1 _.
  apply follows_bind; [auto with pcidev|done|]. intros s2 _.
  apply follows_bind; [auto with pcidev|done|]. intros s2' _.
  apply follows_bind; [unfold waitForGRPCServer; auto with pcidev|done|]. intros s3 _. unfold register.
  rewrite on_err_two. apply follows_bind; [auto with pcidev|done|]. intros s4 _.
  apply follows_bind; [auto with pcidev|done|]. intros s5 _.
  apply follows_last. unfold serve_error. auto with pcidev.
Qed.

(** C35: a PCI plugin starts in one order, cut short at the first failure: its old
    socket is removed, its socket is made, a goroutine starts to serve it, it is dialled
    until it answers, the kubelet is reached, the plugin is registered under the base name
    of its socket, and the end of the server is awaited; it becomes
    initialized and started between the last two.  A start that fails after the
    socket is made leaves it behind. *)
Theorem Start_order (s s' : state PCIDevicePlugin (Logged W)) o (Hrun : Start KubeletSocket s = (o, s')) :
  let dp := mem s in
  follows (start_up KubeletSocket (dp_socketPath dp) (dp_resourceName dp))
    (fun dp => SetStarted (setInitialized true dp)) s s' (is_Ok o).
Proof. intros dp. unfold Start in Hrun. unfold bind at 1, get_mem in Hrun. by apply follows_start in Hrun. Qed.

Lemma vgpu_Start_order (s s' : state VGPUDevicePlugin (Logged W)) o (Hrun : vgpu_Start KubeletSocket s = (o, s')) :
  let dp := mem s in
  follows (start_up KubeletSocket (vp_socketPath dp) (vp_resourceName dp))
    (fun dp => vgpu_SetStarted (vgpu_setInitialized true dp)) s s' (is_Ok o).
Proof. intros dp. unfold vgpu_Start in Hrun. unfold bind at 1, get_mem in Hrun. by apply follows_start in Hrun. Qed.

Lemma follows_end {Mem} (m : M Mem (Logged W) unit) c (s s' : state Mem (Logged W)) o :
  calls c m -> m s = (o, s') -> follows [c] (fun x => x) s s' (is_Ok o).
Proof. intros Hm Hrun. apply (follows_last m); [done|]. unfold bind, modify_mem. by destruct s. Qed.

(** A USB plugin cleans up after itself: whatever happened to the server and the
    registration once its server listened, the last thing its start does is to remove
    its socket; before, it makes the calls of a start in their order, cut short at
    the first failure; when it could not listen it stops there. *)
Theorem usb_start_cleans_up (s s' : state USBDevicePlugin (Logged W)) o
    (Hrun : startDevicePlugin KubeletSocket s = (o, s')) :
  let plugin := mem s in
  let script := start_up KubeletSocket (up_socketPath plugin) (up_resourceName plugin) in
  exists evs n, log_of s' = log_of s ++ evs /\ mem s' = plugin /\ 1 <= n /\
    ((told <$> evs) = take n script /\ n <= 2 /\ is_Ok o = false \/
     2 < n /\ Ev (NetListen (up_socketPath plugin)) (inr tt) ∈ evs /\
     (told <$> evs) = take n script ++ [Some ("remove " +:+ up_socketPath plugin)] /\
     (is_Ok o = true -> n = length script)).
Proof.
  intros plugin script. unfold startDevicePlugin in Hrun. unfold bind at 1, get_mem in Hrun. fold plugin in Hrun.
  set (sock := up_socketPath plugin) in *. unfold bind at 1, on_err at 1 in Hrun.
  destruct (cleanup sock s) as [o1 s1] eqn:E1. destruct (calls_cleanup sock s o1 s1 E1) as (ev1 & Hc1 & Hl1 & Hm1 & Ho1).
  destruct o1 as [[]|e|p].
  2,3: injection Hrun as <- <-; exists [ev1], 1; split_and!; [done..|left; split_and!; [cbn; by rewrite Hc1|lia|done]].
  unfold bind at 1, on_err at 1 in Hrun. destruct (eff (NetListen sock) s1) as [o2 s2] eqn:E2.
  destruct (eff_cases _ _ _ _ E2) as (r2 & Hl2 & Hm2 & Ho2).
  destruct r2 as [er|[]]; subst o2.
  { injection Hrun as <- <-. exists [ev1; Ev (NetListen sock) (inl er)], 2. rewrite Hl2, Hl1, <- app_assoc.
    split_and!; [done|by rewrite Hm2, Hm1|lia|left; split_and!; [cbn; by rewrite Hc1|lia|done]]. }
  apply defer_inv in Hrun as (s3 & Hbody & Hstop).
  assert (follows (drop 2 script) (fun x => x) s2 s3 (is_Ok o)) as (evs & Hl3 & Htold & _ & Hok & Hne & Hm3).
  { revert Hbody. apply follows_bind; [auto with pcidev|done|]. intros s3' _.
    apply follows_bind; [unfold waitForGRPCServer; auto with pcidev|done|]. intros s4 _. unfold register.
    rewrite on_err_two. apply follows_bind; [auto with pcidev|done|]. intros s5 _.
    apply follows_bind; [auto with pcidev|done|]. intros s6 _. apply follows_end. unfold serve_error. auto with pcidev. }
  assert (mem s3 = plugin) as Hmem by (rewrite Hm3; destruct (_ =? _); cbn; by rewrite Hm2, Hm1).
  unfold usb_stopDevicePlugin, bind, get_mem in Hstop. rewrite Hmem in Hstop. fold sock in Hstop.
  destruct (cleanup sock s3) as [o4 s4] eqn:E4. destruct (calls_cleanup sock s3 o4 s4 E4) as (ev4 & Hc4 & Hl4 & Hm4 & _).
  simpl in Hstop. subst s4.
  exists ([ev1; Ev (NetListen sock) (inr tt)] ++ evs ++ [ev4]), (2 + length evs).
  split_and!; [rewrite Hl4, Hl3, Hl2, Hl1; by rewrite <- !app_assoc|congruence|lia|right].
  assert (0 < length evs) as Hpos by (destruct evs; [done|cbn; lia]).
  split_and!; [lia|set_solver| |].
  - rewrite !fmap_app, Htold. cbn. by rewrite Hc1, Hc4.
  - intros Ho. destruct (Hok Ho) as [_ Hlen]. by rewrite Hlen.
Qed.

(** ** What the health checks watch *)
Definition watched (p : string) (log : list event) : Prop := Ev (WatchAdd p) (inr tt) ∈ log.

Lemma watch_socket_Ok {Mem} sock (s s' : state Mem (Logged W)) :
  watch_socket sock s = (Ok tt, s') -> watched sock (log_of s') /\ watched (Dir sock) (log_of s') /\ (log_of s ⊆ log_of s') /\ mem s' = mem s.
Proof.
  unfold watch_socket. intros Hrun. apply bind_Ok_inv in Hrun as ([] & s1 & H1 & Hrun).
  apply bind_Ok_inv in Hrun as ([] & s2 & H2 & Hrun). apply on_err_Ok_inv, eff_Ok_log in H1 as [Hl1 Hm1].
  apply on_err_Ok_inv, eff_Ok_log in H2 as [Hl2 Hm2]. apply on_err_Ok_inv, eff_Ok_log in Hrun as [Hl3 Hm3].
  unfold watched. rewrite Hl3, Hl2, Hl1. split_and!; [set_solver..|congruence].
Qed.

(** The set-up of the PCI plugin's check ends with the table that its loop reads, keyed by the
    devices' IDs, and with every device's file and the socket watched. *)
Lemma healthCheck_setup_monitors (s s' : state PCIDevicePlugin (Logged W)) m :
  healthCheck_setup s = (Ok m, s') ->
  m = monitoredDevices (mem s) /\ watched (dp_socketPath (mem s)) (log_of s') /\ mem s' = mem s.
Proof.
  unfold healthCheck_setup. intros Hrun. apply bind_Ok_inv in Hrun as (dp & s0 & Hdp & Hrun). injection Hdp as <- <-.
  apply bind_Ok_inv in Hrun as ([] & s1 & Hroot & Hrun). apply bind_Ok_inv in Hrun as (mon & s2 & Hloop & Hrun).
  apply bind_Ok_inv in Hrun as ([] & s3 & Hsock & Hrun). injection Hrun as <- <-.
  apply watch_socket_Ok in Hsock as (Hw & _ & _ & Hm3).
  assert (mem s1 = mem s) as Hm1.
  { assert (Steps (@same_mem PCIDevicePlugin (Logged W)) (watch_root (PathJoin [dp_deviceRoot (mem s); dp_devicePath (mem s)]))) as Hst
      by (unfold watch_root; steps_tac). specialize (Hst s). by rewrite Hroot in Hst. }
  assert (mon = monitoredDevices (mem s) /\ mem s2 = mem s1) as [-> Hm2]; [|split_and!; [done|done|congruence]].
  unfold monitoredDevices. revert Hloop. generalize (∅ : gmap string string) as m0. generalize (dp_devs (mem s)) as l.
  intros l. clear Hroot Hm1 Hw Hm3. revert s1. induction l as [|d l IH]; intros s1 m0 Hloop; [by injection Hloop as <- <-|].
  cbn [fold_m] in Hloop. apply bind_Ok_inv in Hloop as (m1 & s4 & Hd & Hloop). apply IH in Hloop as [-> Hm].
  cbn [fold_left]. destruct (dp_iommuToPCIMap (mem s) !! dev_ID d).
  - apply bind_Ok_inv in Hd as ([] & s5 & Hadd & Hd). injection Hd as <- <-.
    apply on_err_Ok_inv, eff_Ok_log in Hadd as [_ Hm5]. split; [done|congruence].
  - injection Hd as <- <-. split; [done|congruence].
Qed.
End StartUp.

(** ** The theorems at work *)
Definition demo_kubelet : string := "/var/lib/kubelet/device-plugins/kubelet.sock".
Definition demo_plugin : PCIDevicePlugin := NewPCIDevicePlugin [] "nvidia.com/GPU".
Definition no_kubelet : sim := sim_empty.
Definition kubelet_up : sim := set_fs {[ demo_kubelet := "" ]} ∅ ∅ sim_empty.

(** Without a kubelet the start fails when it is dialled, and the socket stays. *)
Lemma Start_order_witness :
  exists s' e, Start demo_kubelet (State demo_plugin (no_kubelet, @nil event)) = (Err e, s') /\
    follows (start_up demo_kubelet (dp_socketPath demo_plugin) "nvidia.com/GPU")
      (fun dp => SetStarted (setInitialized true dp)) (State demo_plugin (no_kubelet, @nil event)) s' false /\
    (told <$> log_of s') = take 5 (start_up demo_kubelet (dp_socketPath demo_plugin) "nvidia.com/GPU").
Proof.
  set (s := State demo_plugin (no_kubelet, @nil event)).
  assert (is_Err (fst (Start demo_kubelet s)) = true) as Hbad by (vm_compute; reflexivity).
  assert ((told <$> log_of (snd (Start demo_kubelet s))) = take 5 (start_up demo_kubelet (dp_socketPath demo_plugin) "nvidia.com/GPU"))
    as Htold by (vm_compute; reflexivity).
  destruct (Start demo_kubelet s) as [[r|e|p] s'] eqn:E; try discriminate Hbad.
  exists s', e. split; [done|]. split; [|exact Htold].
  exact (Start_order demo_kubelet s s' (Err e) E).
Defined.

Lemma usb_start_cleans_up_witness :
  exists plugin s' evs n, startDevicePlugin demo_kubelet (State plugin (kubelet_up, @nil event)) = (Ok tt, s') /\
    log_of s' = evs /\ 2 < n /\
    (told <$> evs) = take n (start_up demo_kubelet (up_socketPath plugin) (up_resourceName plugin))
                     ++ [Some ("remove " +:+ up_socketPath plugin)].
Proof.
  set (plugin := {| up_socketPath := "/var/lib/kubelet/device-plugins/kubevirt-usb-x.sock"; up_update_made := false;
    up_resourceName := "kubevirt.io/x"; up_device := {| pdev_ID := "x"; pdev_isHealthy := true;
      pdev_DevicePath := "/dev/bus/usb/001/002"; pdev_Bus := 1; pdev_DeviceNumber := 2 |};
    up_started := true; up_stop_closed := false |}).
  set (s := State plugin (kubelet_up, @nil event)).
  assert (is_Ok (fst (startDevicePlugin demo_kubelet s)) = true) as Hok by (vm_compute; reflexivity).
  destruct (startDevicePlugin demo_kubelet s) as [[[]|e|p] s'] eqn:E; [|discriminate Hok..].
  destruct (usb_start_cleans_up demo_kubelet s s' (Ok tt) E) as (evs & n & Hl & _ & _ & [(_ & _ & Hbad)|(Hn & _ & Htold & _)]);
    [discriminate Hbad|].
  exists plugin, s', evs, n. split_and!; [exact E|exact Hl|exact Hn|exact Htold].
Defined.
