(* ===== verification/USBSession.v ===== *)
(** * Starting and stopping a USB plugin (usb_device_plugin.go)

    [StartDevicePlugin] spawns a goroutine that starts the plugin again and again
    until it finds the channel [stop] closed; [StopDevicePlugin] closes the channel
    and returns.  The goroutine reads the fields [plugin.stop] and
    [plugin.serverDone] anew each time it uses them, and a new start puts new channels
    there.  A wait of five seconds that begins on a closed channel is taken to notice
    it; [deregistered] is not modelled, the wait on it ends with the ticker.  The health
    check runs in a goroutine of its own, whose result the starting one awaits and
    does nothing else meanwhile: the two are one here.  A health check that is left behind
    by a server that ended is not modelled. *)

From S2P Require Import Prelude.

(** Where a goroutine of [StartDevicePlugin] is: about to call [startDevicePlugin]; past
    the making of its channels; past the making of the server, with [stopDevicePlugin]
    deferred; in the health check, waiting on a [stop] channel; in the health check,
    sending a change of health to [plugin.update], which is a nil channel; in
    [stopDevicePlugin]; in the wait before it starts again, on a [stop] channel. *)
Inductive runner := Begin | Ready | Up | Serving (c : nat) | Blocked | Ending | Waiting (c : nat).

(** The flag; the [stop] channels made so far (the field holds the last one) and those
    that are closed; the same of the [serverDone] channels; the goroutines; whether
    a channel was closed twice, which ends the process. *)
Record process := {
  pr_started : bool;
  pr_made : nat;
  pr_closed : gset nat;
  pr_dones : nat;
  pr_dones_closed : gset nat;
  pr_runners : list runner;
  pr_crashed : bool
}.
Definition fresh_process : process :=
  {| pr_started := false; pr_made := 0; pr_closed := ∅; pr_dones := 0; pr_dones_closed := ∅;
     pr_runners := []; pr_crashed := false |}.

Definition with_runners (l : list runner) (p : process) : process :=
  {| pr_started := pr_started p; pr_made := pr_made p; pr_closed := pr_closed p; pr_dones := pr_dones p;
     pr_dones_closed := pr_dones_closed p; pr_runners := l; pr_crashed := pr_crashed p |}.
(** [plugin.stop] and [plugin.serverDone]. *)
Definition stop_field (p : process) : nat := pr_made p - 1.
Definition done_field (p : process) : nat := pr_dones p - 1.

Definition StartDevicePlugin (p : process) : process :=
  if pr_started p then p
  else {| pr_started := true; pr_made := S (pr_made p); pr_closed := pr_closed p; pr_dones := pr_dones p;
          pr_dones_closed := pr_dones_closed p; pr_runners := pr_runners p ++ [Begin]; pr_crashed := pr_crashed p |}.
Definition StopDevicePlugin (p : process) : process :=
  if negb (pr_started p) then p
  else {| pr_started := false; pr_made := pr_made p; pr_closed := {[ stop_field p ]} ∪ pr_closed p;
          pr_dones := pr_dones p; pr_dones_closed := pr_dones_closed p; pr_runners := pr_runners p;
          pr_crashed := pr_crashed p |}.

(** [plugin.serverDone = make(chan struct{})]. *)
Definition make_done (p : process) : process :=
  {| pr_started := pr_started p; pr_made := pr_made p; pr_closed := pr_closed p; pr_dones := S (pr_dones p);
     pr_dones_closed := pr_dones_closed p; pr_runners := pr_runners p; pr_crashed := pr_crashed p |}.
(** [close(plugin.serverDone)]. *)
Definition close_done (p : process) : process :=
  {| pr_started := pr_started p; pr_made := pr_made p; pr_closed := pr_closed p; pr_dones := pr_dones p;
     pr_dones_closed := {[ done_field p ]} ∪ pr_dones_closed p; pr_runners := pr_runners p;
     pr_crashed := pr_crashed p || bool_decide (done_field p ∈ pr_dones_closed p) |}.

(** What a goroutine does next when nothing fails; [None]: it returns. *)
Inductive moves (p : process) : runner -> process -> option runner -> Prop :=
| mv_begin : moves p Begin (make_done p) (Some Ready)
| mv_listen : moves p Ready p (Some Up)
| mv_serve : moves p Up p (Some (Serving (stop_field p)))
| mv_stop c : c ∈ pr_closed p -> moves p (Serving c) p (Some Ending)
| mv_ended : moves p Ending (close_done p) (Some (Waiting (stop_field p)))
| mv_return c : c ∈ pr_closed p -> moves p (Waiting c) p None
| mv_again c : c ∉ pr_closed p -> moves p (Waiting c) p (Some Begin).

(** What its surroundings do to it: the socket cannot be removed or listened on; the server
    does not answer, cannot register or ends, the socket is removed; an event of a
    watched file, which makes the health check read [plugin.stop] again, or which
    changes the health. *)
Inductive suffers (p : process) : runner -> option runner -> Prop :=
| sf_no_socket : suffers p Ready (Some (Waiting (stop_field p)))
| sf_no_server : suffers p Up (Some Ending)
| sf_server_ends c : suffers p (Serving c) (Some Ending)
| sf_unblocked : suffers p Blocked (Some Ending)
| sf_event c : c <> stop_field p -> suffers p (Serving c) (Some (Serving (stop_field p)))
| sf_change c : suffers p (Serving c) (Some Blocked).

(** One goroutine moves by itself, or moves or suffers. *)
Inductive own_step : relation process :=
| own_move p l1 r l2 p' o :
    pr_crashed p = false -> pr_runners p = l1 ++ r :: l2 -> moves p r p' o ->
    own_step p (with_runners (l1 ++ option_list o ++ l2) p').
Inductive run_step : relation process :=
| run_own p p' : own_step p p' -> run_step p p'
| run_suffer p l1 r l2 o :
    pr_crashed p = false -> pr_runners p = l1 ++ r :: l2 -> suffers p r o ->
    run_step p (with_runners (l1 ++ option_list o ++ l2) p).

Inductive step : relation process :=
| step_start p : step p (StartDevicePlugin p)
| step_stop p : step p (StopDevicePlugin p)
| step_run p p' : run_step p p' -> step p p'.

(** Both kinds of step at once. *)
Lemma run_step_inv p q :
  run_step p q ->
  exists l1 r l2 p' o, pr_crashed p = false /\ pr_runners p = l1 ++ r :: l2 /\ q = with_runners (l1 ++ option_list o ++ l2) p' /\
    (moves p r p' o \/ p' = p /\ suffers p r o).
Proof. intros [q1 q2 Hown|q1 l1 r l2 o Hc Hr Hm]; [destruct Hown|]; eauto 15. Qed.

(** A step of a goroutine leaves the flag and the [stop] channels alone. *)
Lemma moves_same p r p' o :
  moves p r p' o -> pr_started p' = pr_started p /\ pr_made p' = pr_made p /\ pr_closed p' = pr_closed p.
Proof. by intros []. Qed.

(** ** Stopping *)

(** The channels that the goroutines wait on were made, and all but the one of a started
    plugin are closed. *)
Definition channel_of (r : runner) : option nat :=
  match r with Serving c | Waiting c => Some c | _ => None end.
Definition channels_ok (p : process) : Prop :=
  (forall c, c < pr_made p -> pr_started p = true /\ c = stop_field p \/ c ∈ pr_closed p) /\
  (forall r c, r ∈ pr_runners p -> channel_of r = Some c -> c < pr_made p) /\
  (pr_runners p <> [] -> 0 < pr_made p) /\ (pr_started p = true -> 0 < pr_made p).

Lemma next_channel p r p' o r' c :
  moves p r p' o \/ p' = p /\ suffers p r o -> o = Some r' -> channel_of r' = Some c -> c = stop_field p.
Proof. intros [Hm|[_ Hm]] Ho Hc; destruct Hm; simplify_eq/=; done. Qed.

Lemma next_same p r p' o :
  moves p r p' o \/ p' = p /\ suffers p r o ->
  pr_started p' = pr_started p /\ pr_made p' = pr_made p /\ pr_closed p' = pr_closed p.
Proof. intros [?%moves_same|[-> _]]; done. Qed.

Lemma channels_ok_start p : channels_ok p -> channels_ok (StartDevicePlugin p).
Proof.
  intros Hok. pose proof Hok as (Hclosed & Hmade & Hpos & Hst). unfold StartDevicePlugin.
  destruct (pr_started p) eqn:E; [exact Hok|]. unfold channels_ok, stop_field. cbn. split_and!; [| |lia..].
  - intros c Hc. destruct (decide (c = pr_made p)) as [->|Hne]; [left; split; [done|lia]|].
    destruct (Hclosed c ltac:(lia)) as [[? _]|?]; [done|by right].
  - intros r c Hr Hc. apply elem_of_app in Hr as [Hr|Hr]; [by apply Hmade in Hc; [lia|]|].
    apply list_elem_of_singleton in Hr as ->. done.
Qed.

Lemma channels_ok_stop p : channels_ok p -> channels_ok (StopDevicePlugin p).
Proof.
  intros Hok. pose proof Hok as (Hclosed & Hmade & Hpos & Hst). unfold StopDevicePlugin.
  destruct (pr_started p) eqn:E; [|exact Hok]. unfold channels_ok, stop_field in *. cbn. split_and!; try done.
  intros c Hc. right. destruct (Hclosed c Hc) as [[_ ->]|?]; set_solver.
Qed.

Lemma channels_ok_run p q : run_step p q -> channels_ok p -> channels_ok q.
Proof.
  intros (l1 & r & l2 & p' & o & Hcr & Hr & -> & Hm)%run_step_inv (Hclosed & Hmade & Hpos & Hst).
  destruct (next_same _ _ _ _ Hm) as (Hs & Hk & Hc).
  unfold channels_ok, stop_field in *. cbn. rewrite Hs, Hk, Hc. rewrite Hr in Hmade, Hpos. split_and!; [done| | |done].
  - intros r' c Hr' Hc'. rewrite !elem_of_app in Hr'. destruct Hr' as [Hr'|[Hr'|Hr']].
    + apply (Hmade r' c); [set_solver|done].
    + destruct o as [r0|]; [|by apply not_elem_of_nil in Hr']. apply list_elem_of_singleton in Hr' as ->.
      apply (next_channel p r _ _ _ _ Hm eq_refl) in Hc' as ->.
      specialize (Hpos ltac:(by destruct l1)). unfold stop_field. lia.
    + apply (Hmade r' c); [set_solver|done].
  - intros _. apply Hpos. by destruct l1.
Qed.

Lemma channels_ok_reachable p : rtc step fresh_process p -> channels_ok p.
Proof.
  intros Hr. assert (channels_ok fresh_process) as Hinit.
  { split_and!; [intros c Hc; cbn in Hc; lia|intros r c Hin; by apply not_elem_of_nil in Hin|done..]. }
  revert Hinit. induction Hr as [|p q p' Hpq _ IH]; [done|]. intros Hok. apply IH.
  destruct Hpq; auto using channels_ok_start, channels_ok_stop. by eapply channels_ok_run.
Qed.

(** How many moves a goroutine of a stopped plugin has left at most. *)
Definition weight (field : nat) (r : runner) : nat :=
  match r with
  | Begin => 8
  | Ready => 7
  | Up => 6
  | Serving c => if decide (c = field) then 4 else 5
  | Blocked => 3
  | Ending => 2
  | Waiting _ => 1
  end.
Definition total (p : process) : nat := sum_list (weight (stop_field p) <$> pr_runners p).

Lemma next_weight p r p' o :
  (forall c, channel_of r = Some c -> c ∈ pr_closed p) -> moves p r p' o \/ p' = p /\ suffers p r o ->
  sum_list (weight (stop_field p) <$> option_list o) < weight (stop_field p) r.
Proof.
  intros Hc [Hm|[_ Hm]]; destruct Hm as [ | | | | | |c Hopen] || destruct Hm; cbn;
    rewrite ?decide_True by done; try (destruct (decide _)); try lia; try done.
  exfalso. by apply Hopen, Hc.
Qed.

(** A stopped plugin has closed every channel that its goroutines wait on. *)
Lemma stopped_closed p r c :
  channels_ok p -> pr_started p = false -> r ∈ pr_runners p -> channel_of r = Some c -> c ∈ pr_closed p.
Proof.
  intros (Hclosed & Hmade & _ & _) Hst Hr Hc. destruct (Hclosed c (Hmade r c Hr Hc)) as [[? _]|?]; congruence.
Qed.

Lemma sum_list_app (l l' : list nat) : sum_list (l ++ l') = sum_list l + sum_list l'.
Proof. induction l as [|x l IH]; [done|]. cbn. rewrite IH. lia. Qed.

Lemma run_step_total p q :
  channels_ok p -> pr_started p = false -> run_step p q ->
  total q < total p /\ channels_ok q /\ pr_started q = false.
Proof.
  intros Hok Hst Hstep. assert (channels_ok q) as Hok' by (by eapply channels_ok_run).
  apply run_step_inv in Hstep as (l1 & r & l2 & p' & o & _ & Hr & -> & Hm).
  destruct (next_same _ _ _ _ Hm) as (Hs & Hk & Hc). split_and!; [|done|cbn; congruence].
  assert (sum_list (weight (stop_field p) <$> option_list o) < weight (stop_field p) r) as Hlt.
  { apply (next_weight _ _ p'); [|done]. intros c Hch. eapply (stopped_closed p r c); [done..| |done]. rewrite Hr. set_solver. }
  unfold total. change (pr_runners (with_runners ?l p')) with l.
  assert (stop_field (with_runners (l1 ++ option_list o ++ l2) p') = stop_field p) as -> by (unfold stop_field; cbn; by rewrite Hk).
  rewrite Hr, !fmap_app, fmap_cons, !sum_list_app. revert Hlt. generalize (weight (stop_field p)) as w. intros w Hlt.
  change (sum_list (w r :: (w <$> l2))) with (w r + sum_list (w <$> l2)). lia.
Qed.

(** Only a goroutine that sends a change of health cannot move. *)
Lemma own_step_progress p :
  channels_ok p -> pr_started p = false -> pr_crashed p = false -> (forall q, ~ own_step p q) ->
  Forall (eq Blocked) (pr_runners p).
Proof.
  intros Hok Hst Hcr Hend. apply Forall_forall. intros r Hin.
  assert (forall p' o, ~ moves p r p' o) as Hno.
  { intros p' o Hm. apply list_elem_of_split in Hin as (l1 & l2 & Hr). eapply Hend. by apply (own_move p l1 r l2 p' o). }
  destruct r as [| | |c| | |c]; [| | | |done| |]; exfalso; eapply Hno; constructor; by eapply stopped_closed.
Qed.

(** C18: a plugin that is stopped stops: from every state that starts and stops can
    lead to, as long as no new start comes, its goroutines move at most a bounded
    number of times, whatever happens to them; and when none can move by itself any
    more, either a channel was closed twice and the process is gone, or each of them
    has returned, except one whose health check is sending a change of health: that
    one serves on. *)
Theorem usb_stop_terminates (p : process)
    (Hreach : rtc step fresh_process p) (Hstopped : pr_started p = false) :
  (forall n p', nsteps run_step n p p' -> n <= total p) /\
  (forall p', rtc run_step p p' -> (forall q, ~ own_step p' q) ->
     pr_crashed p' = true \/ Forall (eq Blocked) (pr_runners p')).
Proof.
  pose proof (channels_ok_reachable p Hreach) as Hok. split.
  - intros n p' Hn. revert Hok Hstopped. clear Hreach. induction Hn as [p|n p q p' Hpq _ IH]; [lia|].
    intros Hok Hst. destruct (run_step_total p q Hok Hst Hpq) as (Hlt & Hok' & Hst'). specialize (IH Hok' Hst'). lia.
  - intros p' Hrun Hend. revert Hok Hstopped. clear Hreach. induction Hrun as [p|p q p' Hpq _ IH]; intros Hok Hst.
    + destruct (pr_crashed p) eqn:Hcr; [by left|right]. by apply own_step_progress.
    + destruct (run_step_total p q Hok Hst Hpq) as (_ & Hok' & Hst'). by apply IH.
Qed.

(** ** Starting again *)

(** Starts that wait until the goroutine of the one before has returned. *)
Inductive patient_step : relation process :=
| patient_start p : pr_started p = true \/ pr_runners p = [] -> patient_step p (StartDevicePlugin p)
| patient_stop p : patient_step p (StopDevicePlugin p)
| patient_run p p' : run_step p p' -> patient_step p p'.

(** A goroutine that has still to close [serverDone]. *)
Definition owes (r : runner) : bool :=
  match r with Begin | Waiting _ => false | _ => true end.
Definition one_runner (p : process) : Prop :=
  pr_crashed p = false /\ (forall c, c ∈ pr_dones_closed p -> c < pr_dones p) /\
  (pr_runners p = [] \/ exists r, pr_runners p = [r] /\
     (owes r = true -> 0 < pr_dones p /\ done_field p ∉ pr_dones_closed p)).

Lemma one_runner_run p q : run_step p q -> one_runner p -> one_runner q.
Proof.
  intros (l1 & r & l2 & p' & o & _ & Hr & -> & Hm)%run_step_inv (Hcr & Hmade & Hone).
  destruct Hone as [Hone|(r0 & Hone & Howes)]; rewrite Hr in Hone; [by destruct l1|].
  destruct l1 as [|? [|]]; [|done..]. destruct l2; [|done]. injection Hone as ->.
  unfold one_runner, done_field in *. cbn. rewrite app_nil_r.
  destruct Hm as [Hm|[-> Hm]]; destruct Hm; cbn in *;
    try (split_and!; [done..|first [by left|right; eexists; split; [done|]; done || (intros _; by apply Howes)]]).
  - split_and!; [done|intros c Hc; by apply Hmade in Hc; lia|]. right. eexists. split; [done|]. intros _.
    split; [lia|]. intros Hc. apply Hmade in Hc. lia.
  - destruct (Howes eq_refl) as [Hpos Hopen]. split_and!.
    + by rewrite Hcr, bool_decide_eq_false_2.
    + intros c. rewrite elem_of_union, elem_of_singleton. intros [->|Hc]; [unfold done_field; lia|by apply Hmade].
    + right. eexists. by split.
Qed.

(** A plugin that is only started again once its goroutine has returned has at most
    one goroutine at any time, and never closes a channel twice. *)
Theorem usb_patient_single (p : process) (Hreach : rtc patient_step fresh_process p) :
  pr_crashed p = false /\ length (pr_runners p) <= 1.
Proof.
  assert (one_runner fresh_process) as Hone by (split_and!; [done|set_solver|by left]). revert Hone.
  induction Hreach as [p|p q p' Hpq _ IH]; intros Hone.
  - destruct Hone as (Hcr & _ & [->|(r & -> & _)]); cbn; auto.
  - apply IH. clear IH. destruct Hpq as [p Hwait|p|p q Hrun]; [| |by eapply one_runner_run].
    + unfold StartDevicePlugin. destruct (pr_started p) eqn:E; [done|]. destruct Hwait as [?|Hnil]; [done|].
      destruct Hone as (Hcr & Hmade & _). split_and!; [done..|]. right. exists Begin. cbn. by rewrite Hnil.
    + unfold StopDevicePlugin. by destruct (negb _).
Qed.

Lemma run_own_move p l1 r l2 p' o q :
  pr_crashed p = false -> pr_runners p = l1 ++ r :: l2 -> moves p r p' o ->
  rtc run_step (with_runners (l1 ++ option_list o ++ l2) p') q -> rtc run_step p q.
Proof. intros Hcr Hr Hm Hq. eapply rtc_l; [exact (run_own _ _ (own_move p l1 r l2 p' o Hcr Hr Hm))|done]. Qed.

(** A plugin that is started again while its goroutine is still stopping can take the
    process down: the goroutine of the new start puts a new [serverDone] channel in the
    field, the stopping one closes that channel, and the new goroutine, whose server it
    also stopped, closes it again. *)
Theorem usb_hasty_start_crashes (p : process) (l1 l2 : list runner)
    (Hcr : pr_crashed p = false) (Hst : pr_started p = false) (Hending : pr_runners p = l1 ++ Ending :: l2)
    (Hmade : forall c, c ∈ pr_dones_closed p -> c < pr_dones p) :
  exists q, rtc run_step (StartDevicePlugin p) q /\ pr_crashed q = true.
Proof.
  set (w := Waiting (pr_made p)). unfold StartDevicePlugin. rewrite Hst, Hending.
  eexists. split.
  - eapply (run_own_move _ (l1 ++ Ending :: l2) Begin []); [done|done|constructor|].
    eapply (run_own_move _ l1 Ending (l2 ++ [Ready])); [done|cbn; by rewrite <- app_assoc|constructor|].
    eapply (run_own_move _ (l1 ++ w :: l2) Ready []); [|cbn; rewrite <- app_assoc; cbn; unfold stop_field; cbn; by rewrite Nat.sub_0_r|constructor|].
    { cbn. unfold done_field. cbn. rewrite Hcr. apply bool_decide_eq_false_2. intros Hc. apply Hmade in Hc. lia. }
    eapply rtc_l; [eapply (run_suffer _ (l1 ++ w :: l2) Up []); [|done|constructor]|].
    { cbn. unfold done_field. cbn. rewrite Hcr. apply bool_decide_eq_false_2. intros Hc. apply Hmade in Hc. lia. }
    eapply (run_own_move _ (l1 ++ w :: l2) Ending []); [|done|constructor|reflexivity].
    cbn. unfold done_field. cbn. rewrite Hcr. apply bool_decide_eq_false_2. intros Hc. apply Hmade in Hc. lia.
  - cbn. unfold done_field. cbn. rewrite (bool_decide_eq_true_2 (_ ∈ {[ _ ]} ∪ _)) by set_solver. apply orb_true_r.
Qed.

(** ** The theorems at work *)

(** The plugin serves, its device goes, and the plugin is stopped: its goroutine stays. *)
Definition unplugged : process := with_runners [Blocked] (StopDevicePlugin (make_done (StartDevicePlugin fresh_process))).
Definition serving : process := with_runners [Serving 0] (make_done (StartDevicePlugin fresh_process)).

Lemma serving_reachable {R : relation process} :
  R fresh_process (StartDevicePlugin fresh_process) -> (forall p q, run_step p q -> R p q) -> rtc R fresh_process serving.
Proof.
  intros Hstart Hrun. eapply rtc_l; [exact Hstart|].
  eapply rtc_l; [apply Hrun, run_own, (own_move _ [] Begin []); [done|done|constructor]|].
  eapply rtc_l; [apply Hrun, run_own, (own_move _ [] Ready []); [done|done|constructor]|].
  eapply rtc_l; [apply Hrun, run_own, (own_move _ [] Up []); [done|done|constructor]|]. reflexivity.
Qed.

Lemma unplugged_reachable : rtc step fresh_process unplugged.
Proof.
  etransitivity; [apply serving_reachable; [apply step_start|apply step_run]|].
  eapply rtc_l; [apply step_run, (run_suffer _ [] (Serving 0) []); [done|done|apply sf_change]|].
  eapply rtc_l; [apply step_stop|]. reflexivity.
Qed.

Lemma usb_stop_terminates_witness :
  (forall n p', nsteps run_step n unplugged p' -> n <= 3) /\
  (forall p', rtc run_step unplugged p' -> (forall q, ~ own_step p' q) ->
     pr_crashed p' = true \/ Forall (eq Blocked) (pr_runners p')).
Proof. exact (usb_stop_terminates unplugged unplugged_reachable eq_refl). Defined.

Lemma usb_patient_single_witness : pr_crashed serving = false /\ length (pr_runners serving) <= 1.
Proof. apply (usb_patient_single serving). apply serving_reachable; [apply patient_start; by right|apply patient_run]. Defined.

Lemma usb_hasty_start_crashes_witness :
  exists q, rtc run_step (StartDevicePlugin (with_runners [Ending] (StopDevicePlugin serving))) q /\ pr_crashed q = true.
Proof. apply (usb_hasty_start_crashes _ [] []); [reflexivity..|set_solver]. Defined.
