(* ===== verification/USBStream.v ===== *)
(** * What the kubelet hears of a USB device (usb_device_plugin.go)

    Between two starts of a USB plugin the kubelet opens streams with [ListAndWatch],
    the health check writes the health of the device and signals it on [update], and
    the plugin ends with [stop] or [serverDone] closed.  Each stream has its own loop;
    the device and the channels are shared. *)

From S2P Require Import Prelude GoStrings GoMonad Types Effects DevicePlugins PCIPlugin PluginSession USBPlugin.

(** A call of [ListAndWatch]: what it sent, and where it is. *)
Record stream := { sm_sent : list (list Device); sm_pc : lw_pc }.

(** The plugin; the health checks that wait to send on [update]; the closed channels;
    the streams; whether [deregistered] was closed twice, which ends the process. *)
Record watch := {
  wt_plugin : USBDevicePlugin;
  wt_signals : nat;
  wt_stop : bool;
  wt_serverDone : bool;
  wt_deregistered : bool;
  wt_streams : list stream;
  wt_crashed : bool
}.
Definition fresh_watch (plugin : USBDevicePlugin) : watch :=
  {| wt_plugin := plugin; wt_signals := 0; wt_stop := false; wt_serverDone := false; wt_deregistered := false;
     wt_streams := []; wt_crashed := false |}.

Definition with_streams (l : list stream) (w : watch) : watch :=
  {| wt_plugin := wt_plugin w; wt_signals := wt_signals w; wt_stop := wt_stop w; wt_serverDone := wt_serverDone w;
     wt_deregistered := wt_deregistered w; wt_streams := l; wt_crashed := wt_crashed w |}.

(** [sendUpdate]: the stream with what it sent, and whether [Send] succeeded. *)
Definition sendUpdate (devices : list Device) (send_ok : bool) (sent : list (list Device)) : list (list Device) :=
  if send_ok then sent ++ [devices] else sent.

(** The first send of [ListAndWatch], or one in its loop: its failure is returned. *)
Definition send_device (send_ok : bool) (w : watch) (sent : list (list Device)) : stream :=
  {| sm_sent := sendUpdate (devicesToKubeVirtDevicePlugin (wt_plugin w)) send_ok sent;
     sm_pc := if send_ok then LWLoop else LWFailed |}.
Definition usb_ListAndWatch_start (send_ok : bool) (w : watch) : watch :=
  with_streams (wt_streams w ++ [send_device send_ok w []]) w.

(** [case <-plugin.update]: one of the waiting sends is taken. *)
Definition receive_update (i : nat) (sm : stream) (send_ok : bool) (w : watch) : watch :=
  {| wt_plugin := wt_plugin w; wt_signals := wt_signals w - 1; wt_stop := wt_stop w; wt_serverDone := wt_serverDone w;
     wt_deregistered := wt_deregistered w;
     wt_streams := <[i := send_device send_ok w (sm_sent sm)]> (wt_streams w); wt_crashed := wt_crashed w |}.

(** The end of [ListAndWatch]: the empty list, whose failure is logged, then
    [close(plugin.deregistered)]. *)
Definition deregister (i : nat) (sm : stream) (send_ok : bool) (w : watch) : watch :=
  {| wt_plugin := wt_plugin w; wt_signals := wt_signals w; wt_stop := wt_stop w; wt_serverDone := wt_serverDone w;
     wt_deregistered := true;
     wt_streams := <[i := {| sm_sent := sendUpdate [] send_ok (sm_sent sm); sm_pc := LWReturned |}]> (wt_streams w);
     wt_crashed := wt_crashed w || wt_deregistered w |}.

(** [setDeviceHealth] of the health check.  One that blocks gets no further; the steps below
    allow it more. *)
Definition change_health (b : bool) (w : watch) : watch :=
  let (s, plugin) := setDeviceHealth b (wt_plugin w) in
  {| wt_plugin := plugin;
     wt_signals := match s with Signalled => S (wt_signals w) | _ => wt_signals w end;
     wt_stop := wt_stop w; wt_serverDone := wt_serverDone w; wt_deregistered := wt_deregistered w;
     wt_streams := wt_streams w; wt_crashed := wt_crashed w |}.
(** [close(plugin.stop)] and [close(plugin.serverDone)]. *)
Definition close_channels (stop done : bool) (w : watch) : watch :=
  {| wt_plugin := wt_plugin w; wt_signals := wt_signals w; wt_stop := wt_stop w || stop;
     wt_serverDone := wt_serverDone w || done; wt_deregistered := wt_deregistered w; wt_streams := wt_streams w;
     wt_crashed := wt_crashed w |}.

(** One of the loops goes on. *)
Inductive loop_step : relation watch :=
| lp_update w i sm send_ok :
    wt_crashed w = false -> wt_streams w !! i = Some sm -> sm_pc sm = LWLoop -> 0 < wt_signals w ->
    loop_step w (receive_update i sm send_ok w)
| lp_end w i sm send_ok :
    wt_crashed w = false -> wt_streams w !! i = Some sm -> sm_pc sm = LWLoop ->
    wt_stop w || wt_serverDone w = true -> loop_step w (deregister i sm send_ok w).
Inductive step : relation watch :=
| step_loop w w' : loop_step w w' -> step w w'
| step_open w send_ok : wt_crashed w = false -> step w (usb_ListAndWatch_start send_ok w)
| step_health w b : wt_crashed w = false -> step w (change_health b w)
| step_close w stop done : wt_crashed w = false -> step w (close_channels stop done w).

(** ** What a stream says *)

(** The streams of a plugin whose [update] is nil: the device as it was when the stream
    opened, then at most an empty list. *)
Definition told (plugin : USBDevicePlugin) (sm : stream) : Prop :=
  exists b, let first := devicesToKubeVirtDevicePlugin (set_isHealthy b plugin) in
  match sm_pc sm with
  | LWLoop => sm_sent sm = [first]
  | LWFailed => sm_sent sm = []
  | LWReturned => sm_sent sm = [first] \/ sm_sent sm = [first; []]
  end.
Definition untold (plugin : USBDevicePlugin) (w : watch) : Prop :=
  wt_signals w = 0 /\ (exists b, wt_plugin w = set_isHealthy b plugin) /\ Forall (told plugin) (wt_streams w).

Lemma set_isHealthy_twice a b plugin : set_isHealthy a (set_isHealthy b plugin) = set_isHealthy a plugin.
Proof. done. Qed.
Lemma set_isHealthy_same plugin : set_isHealthy (pdev_isHealthy (up_device plugin)) plugin = plugin.
Proof. by destruct plugin as [? ? ? []]. Qed.

Lemma untold_step plugin w w' : up_update_made plugin = false -> step w w' -> untold plugin w -> untold plugin w'.
Proof.
  intros Hnil Hs (Hsig & [b Hp] & Hall). destruct Hs as [w w' []|w ok _|w c _|w st dn _].
  - lia.
  - split_and!; [done|by exists b|]. cbn. apply Forall_insert; [done|].
    apply (Forall_lookup_1 _ _ i sm) in Hall as [b' Hb]; [|done]. exists b'. rewrite H1 in Hb.
    destruct send_ok; cbn; rewrite Hb; auto.
  - split_and!; [done|by exists b|]. cbn. apply Forall_app; split; [done|]. apply Forall_singleton.
    exists b. rewrite <- Hp. by destruct ok.
  - unfold change_health, setDeviceHealth. split_and!; cbn; [|exists c; by rewrite Hp|done].
    rewrite Hp. cbn. rewrite Hnil. by destruct (negb _).
  - split_and!; [done|by exists b|done].
Qed.

(** A stream is told of the device once: whatever becomes of its health, no signal is
    ever there to be received, and a loop has sent the device as it was when the stream
    opened and nothing else, until it says goodbye with an empty list. *)
Theorem usb_stream_stale `{External} (usb : USBDevice) (plugin : USBDevicePlugin) (w : watch)
    (Hnew : NewUSBDevicePlugin usb = Ok plugin)
    (Hreach : rtc step (fresh_watch (USBPlugin.StartDevicePlugin plugin)) w) :
  wt_signals w = 0 /\
  forall sm, sm ∈ wt_streams w -> exists health,
    let first := [{| dev_ID := m_Name (usb_meta usb); dev_Health := health; dev_Topology := None |}] in
    match sm_pc sm with
    | LWLoop => sm_sent sm = [first]
    | LWFailed => sm_sent sm = []
    | LWReturned => sm_sent sm = [first] \/ sm_sent sm = [first; []]
    end.
Proof.
  assert (up_update_made (USBPlugin.StartDevicePlugin plugin) = false /\
          pdev_ID (up_device (USBPlugin.StartDevicePlugin plugin)) = m_Name (usb_meta usb)) as [Hnil Hid].
  { unfold NewUSBDevicePlugin in Hnew. destruct (generateBusAndDevice _) as [[b d]|e|m]; simpl in Hnew; [|done..].
    by injection Hnew as <-. }
  set (p := USBPlugin.StartDevicePlugin plugin) in *.
  assert (untold p (fresh_watch p)) as H0.
  { split_and!; [done|eexists; symmetry; apply set_isHealthy_same|constructor]. }
  assert (untold p w) as (Hsig & _ & Hall).
  { revert H0. induction Hreach; [done|]. intros. by eapply IHHreach, untold_step. }
  split; [done|]. intros sm Hin.
  rewrite Forall_forall in Hall. destruct (Hall sm Hin) as [b Hb].
  exists (if b then Healthy else Unhealthy).
  unfold devicesToKubeVirtDevicePlugin, toKubeVirtDevicePlugin in Hb. cbn in Hb. by rewrite Hid in Hb.
Qed.

(** ** How streams end *)

Definition count (pc : lw_pc) (w : watch) : nat := length (filter (fun sm => sm_pc sm = pc) (wt_streams w)).

Lemma count_insert pc w i sm sm' w' :
  wt_streams w !! i = Some sm -> wt_streams w' = <[i := sm']> (wt_streams w) ->
  count pc w' + (if decide (sm_pc sm = pc) then 1 else 0) = count pc w + (if decide (sm_pc sm' = pc) then 1 else 0).
Proof.
  intros Hi Hw. unfold count. rewrite Hw. pose proof (lookup_lt_Some _ _ _ Hi) as Hlt.
  rewrite insert_take_drop by done. rewrite <- (take_drop_middle _ _ _ Hi) at 3.
  rewrite !filter_app, !filter_cons, !length_app.
  destruct (decide (sm_pc sm = pc)), (decide (sm_pc sm' = pc)); cbn; lia.
Qed.

(** The two tests of [count_insert], evaluated. *)
Ltac counted H :=
  cbn [send_device sm_pc] in H; repeat first [rewrite decide_True in H by done|rewrite decide_False in H by done].

Definition closings (w : watch) : Prop :=
  wt_deregistered w = bool_decide (0 < count LWReturned w) /\ wt_crashed w = bool_decide (1 < count LWReturned w).

Lemma closings_step w w' : step w w' -> closings w -> closings w'.
Proof.
  intros Hs [Hd Hc]. destruct Hs as [w w' Hl|w ok _|w c _|w st dn _].
  - destruct Hl as [w i sm ok Hcr Hi Hpc _|w i sm ok Hcr Hi Hpc _].
  + pose proof (count_insert LWReturned w i sm _ (receive_update i sm ok w) Hi eq_refl) as Hn.
    rewrite Hpc in Hn. counted Hn. unfold closings. cbn [wt_deregistered wt_crashed receive_update].
    rewrite Hd, Hc. assert (count LWReturned (receive_update i sm ok w) = count LWReturned w) as -> by (destruct ok; counted Hn; lia).
    done.
  + pose proof (count_insert LWReturned w i sm _ (deregister i sm ok w) Hi eq_refl) as Hn.
    rewrite Hpc in Hn. counted Hn. unfold closings. cbn [wt_deregistered wt_crashed deregister].
    rewrite Hcr, Hd. split; [symmetry; apply bool_decide_eq_true_2; lia|]. rewrite orb_false_l. apply bool_decide_ext. lia.
  - unfold closings, count, usb_ListAndWatch_start in *. cbn [wt_deregistered wt_crashed with_streams wt_streams] in *.
    rewrite filter_app, length_app. rewrite Hd, Hc. destruct ok; cbn; by rewrite Nat.add_0_r.
  - unfold closings, count, change_health in *. destruct (setDeviceHealth c _). done.
  - done.
Qed.

(** [deregistered] is one channel for all the streams of a plugin: the first loop that
    says goodbye closes it, and a second one takes the process down.  One stream at a
    time until the next start is what the code relies on. *)
Theorem usb_streams_crash (plugin : USBDevicePlugin) (w : watch) (Hreach : rtc step (fresh_watch plugin) w) :
  (wt_deregistered w = true <-> 1 <= count LWReturned w) /\ (wt_crashed w = true <-> 2 <= count LWReturned w).
Proof.
  assert (closings w) as [-> ->]; [|split; apply bool_decide_eq_true].
  assert (closings (fresh_watch plugin)) as H0 by done. revert H0.
  induction Hreach; [done|]. intros. by eapply IHHreach, closings_step.
Qed.

(** Behind the closing of [stop] or [serverDone] every loop ends: the loops take no more
    steps than there are signals and loops, and where none can go on the process is
    gone or each stream has returned. *)
Theorem usb_streams_end (w : watch) (Hclosed : wt_stop w || wt_serverDone w = true) :
  (forall n w', nsteps loop_step n w w' -> n <= wt_signals w + count LWLoop w) /\
  (forall w', rtc loop_step w w' -> (forall w2, ~ loop_step w' w2) -> wt_crashed w' = true \/ count LWLoop w' = 0).
Proof.
  assert (forall a b, loop_step a b -> wt_stop a || wt_serverDone a = true ->
    wt_signals b + count LWLoop b < wt_signals a + count LWLoop a /\ wt_stop b || wt_serverDone b = true) as Hone.
  { intros a b [w1 i sm ok _ Hi Hpc Hp|w1 i sm ok _ Hi Hpc _] Hc; (split; [|done]).
    - pose proof (count_insert LWLoop w1 i sm _ (receive_update i sm ok w1) Hi eq_refl) as Hn.
      rewrite Hpc in Hn. cbn [wt_signals receive_update]. destruct ok; counted Hn; lia.
    - pose proof (count_insert LWLoop w1 i sm _ (deregister i sm ok w1) Hi eq_refl) as Hn.
      rewrite Hpc in Hn. counted Hn. cbn [wt_signals deregister]. lia. }
  split.
  - intros n w' Hn. revert Hclosed. induction Hn as [a|n a b c Hab _ IH]; [lia|]. intros Hc.
    destruct (Hone a b Hab Hc) as [Hlt Hb]. specialize (IH Hb). lia.
  - intros w' Hr. revert Hclosed. induction Hr as [a|a b c Hab _ IH]; intros Hc Hstuck.
    + destruct (wt_crashed a) eqn:Hcr; [by left|right]. unfold count.
      destruct (filter _ _) as [|sm l] eqn:E; [done|exfalso].
      assert (sm ∈ filter (fun sm => sm_pc sm = LWLoop) (wt_streams a)) as [Hpc [i Hi]%list_elem_of_lookup]%list_elem_of_filter
        by (rewrite E; left).
      by eapply Hstuck, (lp_end a i sm true).
    + destruct (Hone a b Hab Hc) as [_ Hb]. by apply IH.
Qed.

(** ** The theorems at work *)

(** A stream opens, the device goes, and the plugin is stopped. *)
Definition gone_watch : watch :=
  change_health false (usb_ListAndWatch_start true (fresh_watch (USBPlugin.StartDevicePlugin demo_usb_plugin))).
Lemma gone_reachable : rtc step (fresh_watch (USBPlugin.StartDevicePlugin demo_usb_plugin)) gone_watch.
Proof.
  eapply rtc_l; [by apply (step_open _ true)|]. eapply rtc_l; [by apply (step_health _ false)|]. reflexivity.
Qed.

Lemma usb_stream_stale_witness :
  pdev_isHealthy (up_device (wt_plugin gone_watch)) = false /\ sm_sent <$> wt_streams gone_watch =
    [[[{| dev_ID := "node1-046d-c077-001002"; dev_Health := Healthy; dev_Topology := None |}]]] /\ wt_signals gone_watch = 0.
Proof.
  split; [reflexivity|]. split; [reflexivity|].
  exact (proj1 (usb_stream_stale demo_usb demo_usb_plugin gone_watch eq_refl gone_reachable)).
Defined.

(** Two streams of one start, and both loops end. *)
Definition twice : watch :=
  let w := close_channels false true (usb_ListAndWatch_start true (usb_ListAndWatch_start true (fresh_watch demo_usb_plugin))) in
  match wt_streams w with
  | [a; b] => deregister 1 b true (deregister 0 a true w)
  | _ => w
  end.
Lemma usb_streams_crash_witness : wt_crashed twice = true /\ 2 <= count LWReturned twice.
Proof.
  assert (wt_crashed twice = true) as Hc by reflexivity. split; [exact Hc|].
  refine (proj1 (proj2 (usb_streams_crash demo_usb_plugin twice _)) Hc).
  eapply rtc_l; [by apply (step_open _ true)|]. eapply rtc_l; [by apply (step_open _ true)|].
  eapply rtc_l; [by apply (step_close _ false true)|].
  eapply rtc_l; [apply step_loop; by eapply (lp_end _ 0 _ true)|].
  eapply rtc_l; [apply step_loop; by eapply (lp_end _ 1 _ true)|]. reflexivity.
Defined.

Lemma usb_streams_end_witness :
  forall n w', nsteps loop_step n (close_channels true false gone_watch) w' -> n <= 1.
Proof. exact (proj1 (usb_streams_end (close_channels true false gone_watch) eq_refl)). Defined.
