(* ===== verification/ClaimController.v ===== *)
(** * The PCI device claim controller (pkg/controller/pcideviceclaim)

    A claim hands a PCI device of this node to virtual machines: its device is
    unbound from its driver and bound to vfio-pci, its resource is permitted in
    the KubeVirt object, and its address is advertised by the device plugin of
    the resource.  Deleting the claim takes these steps back. *)

From S2P Require Import Prelude GoStrings GoStringLemmas GoMonad Types Effects PCIDeviceApi Iommu DevicePlugins PCIPlugin Sim.
From Stdlib Require Import Ascii.

Definition vfioPCIDriver : string := "vfio-pci".
Definition DefaultNS : string := "harvester-system".
Definition KubevirtCR : string := "kubevirt".
Definition vfioPCIDriverPath : string := "/sys/bus/pci/drivers/vfio-pci".
Definition claim_lock : string := "pcideviceclaim.lock".

(** The fields of [Handler] that are not clients. *)
Record Handler := {
  h_nodeName : string;
  h_devicePlugins : gmap string PCIDevicePlugin
}.

Definition set_plugins (m : gmap string PCIDevicePlugin) (h : Handler) : Handler :=
  {| h_nodeName := h_nodeName h; h_devicePlugins := m |}.

Definition set_pd_meta (m : ObjectMeta) (pd : PCIDevice) : PCIDevice :=
  {| pd_meta := m; pd_Status := pd_Status pd |}.
Definition set_pd_status (st : PCIDeviceStatus) (pd : PCIDevice) : PCIDevice :=
  {| pd_meta := pd_meta pd; pd_Status := st |}.
Definition set_pdc_status (driver : string) (enabled : bool) (pdc : PCIDeviceClaim) : PCIDeviceClaim :=
  {| pdc_meta := pdc_meta pdc; pdc_Spec := pdc_Spec pdc;
     pdc_Status := {| pdc_KernelDriverToUnbind := driver; pdc_PassthroughEnabled := enabled |} |}.
Definition enable_claim (pdc : PCIDeviceClaim) : PCIDeviceClaim :=
  set_pdc_status (pdc_KernelDriverToUnbind (pdc_Status pdc)) true pdc.

Definition pd_name (pd : PCIDevice) : string := m_Name (pd_meta pd).
Definition pd_address (pd : PCIDevice) : string := pd_Address (pd_Status pd).
Definition pd_annotation (pd : PCIDevice) (key : string) : option string :=
  m_Annotations (pd_meta pd) !! key.

Definition skipDeviceBindingOp (pdc : PCIDeviceClaim) : bool :=
  bool_decide (is_Some (m_Annotations (pdc_meta pdc) !! SkipVFIOBindingAnnotationKey)).

(** [val, ok := pdc.Annotations[...]; if ok { resourceName = val }]. *)
Definition claim_resource (pdc : PCIDeviceClaim) (resourceName : string) : string :=
  default resourceName (m_Annotations (pdc_meta pdc) !! PCIDeviceOverrideResourceName).

(** ** The KubeVirt object *)
Definition devToPermit (pd : PCIDevice) : PciHostDevice :=
  {| phd_PCIVendorSelector := pd_VendorID (pd_Status pd) +:+ ":" +:+ pd_DeviceID (pd_Status pd);
     phd_ResourceName := pd_ResourceName (pd_Status pd);
     phd_ExternalResourceProvider := true |}.

(** [permittedPCIDevices = append(l[:i], l[i+1:]...)] shifts the tail of the array
    that the object's own slice still covers with its old length: seen through
    that slice, the last element appears twice. *)
Definition shifted (l : list PciHostDevice) (i : nat) : list PciHostDevice :=
  take i l ++ drop (S i) l ++ drop (length l - 1) l.

Definition reconcileKubevirtCR (kv : KubeVirt) (pd : PCIDevice) : KubeVirt :=
  let permitted := default {| php_PciHostDevices := []; php_USB := [] |} (kv_PermittedHostDevices kv) in
  let l := php_PciHostDevices permitted in
  let resourceName := pd_ResourceName (pd_Status pd) in
  let l' :=
    match find_index (fun d => phd_ResourceName d ==s resourceName) l with
    | Some i =>
        match l !! i with
        | Some d =>
            if phd_ExternalResourceProvider d then shifted l i
            else take i l ++ drop (S i) l ++ [devToPermit pd]
        | None => l
        end
    | None => l ++ [devToPermit pd]
    end in
  {| kv_meta := kv_meta kv;
     kv_PermittedHostDevices := Some {| php_PciHostDevices := l'; php_USB := php_USB permitted |} |}.

(** ** Orphans *)

(** [OwnerReferences[0]] of an empty list that is not nil is a panic. *)
Fixpoint pciDeviceIsClaimed (pd : PCIDevice) (pdcs : list PCIDeviceClaim) (nodeName : string)
    : outcome bool :=
  match pdcs with
  | [] => Ok false
  | pdc :: rest =>
      if pd_NodeName (pd_Status pd) !=s nodeName then pciDeviceIsClaimed pd rest nodeName
      else match m_OwnerReferences (pdc_meta pdc) with
           | None => Ok false
           | Some [] => Panic "index out of range [0]"
           | Some (o :: _) =>
               if or_Name o ==s pd_name pd then Ok true else pciDeviceIsClaimed pd rest nodeName
           end
  end.

Fixpoint getOrphanedPCIDevices (pdcs : list PCIDeviceClaim) (pds : list PCIDevice)
    (nodeName : string) : outcome (list PCIDevice) :=
  match pds with
  | [] => Ok []
  | pd :: rest =>
      let isVfioPci := pd_KernelDriverInUse (pd_Status pd) ==s "vfio-pci" in
      let isOnThisNode := nodeName ==s pd_NodeName (pd_Status pd) in
      orphan <-o (if isVfioPci && isOnThisNode
                  then c <-o pciDeviceIsClaimed pd pdcs nodeName ;; Ok (negb c)
                  else Ok false) ;;
      others <-o getOrphanedPCIDevices pdcs rest nodeName ;;
      Ok (if orphan then pd :: others else others)
  end.

(** ** Kernel modules *)

(** The loop over the lines of [/proc/modules]: [mark] is the set of modules seen. *)
Fixpoint modules_in (modules : list string) (mark : gset string) (lines : list string) : bool :=
  match lines with
  | [] => false
  | line :: rest =>
      let mark' := mark ∪ list_to_set (List.filter (Contains line) modules) in
      if size mark' =? length modules then true else modules_in modules mark' rest
  end.

Section Handlers.
Context `{External} {W : Type} `{World W}.
#[local] Abbreviation M := (M Handler W).

Definition checkModulesExists (filename : string) (modules : list string) : M bool :=
  text <- on_err (fun _ => Errorf "failed to open /proc/modules") (eff (FsReadFile filename)) ;;
  let '(lines, ok) := ScanLines text in
  if modules_in modules ∅ lines then ret true
  else if negb ok then fail (Errorf "failed to read /proc/modules")
  else ret false.

Definition checkVFIOModules : M bool :=
  checkModulesExists "/proc/modules" ["vfio_pci"; "vfio_iommu_type1"].

(** A driver that cannot be loaded is logged. *)
Definition loadVfioDrivers : M unit :=
  for_each (fun driver => _ <- try (eff (ModProbe driver)) ;; ret tt) ["vfio-pci"; "vfio_iommu_type1"].

(** ** Drivers *)
Definition deviceBoundToDriver (driverPath pciAddress : string) : M bool :=
  r <- try (eff (FsStat (driverPath +:+ "/" +:+ pciAddress))) ;;
  ret (match r with inr _ => true | inl _ => false end).

Definition unbindDeviceFromDriver (addr driver : string) : M unit :=
  let driverPath := "/sys/bus/pci/drivers/" +:+ driver in
  bound <- deviceBoundToDriver driverPath addr ;;
  if negb bound then ret tt
  else
    let path := driverPath +:+ "/unbind" in
    eff (FsOpenWrite path) ;;;
    eff (FsWrite path addr) ;;;
    still <- deviceBoundToDriver driverPath addr ;;
    if (still : bool) then fail (Errorf "device still bound to driver, will check again") else ret tt.

Definition bindDeviceToVFIOPCIDriver (pd : PCIDevice) : M unit :=
  bound <- deviceBoundToDriver vfioPCIDriverPath (pd_address pd) ;;
  if (bound : bool) then ret tt
  else
    let id := pd_VendorID (pd_Status pd) +:+ " " +:+ pd_DeviceID (pd_Status pd) in
    on_err (fun _ => Errorf "error opening new_id file")
      (eff (FsOpenWrite "/sys/bus/pci/drivers/vfio-pci/new_id")) ;;;
    w <- try (eff (FsWrite "/sys/bus/pci/drivers/vfio-pci/new_id" id)) ;;
    (match w with
     | inl e => if negb (IsExist e) then fail (Errorf "error writing to new_id file") else ret tt
     | inr _ => ret tt
     end) ;;;
    on_err (fun _ => Errorf "error opening bind file")
      (eff (FsOpenWrite "/sys/bus/pci/drivers/vfio-pci/bind")) ;;;
    on_err (fun _ => Errorf "error writing to bind file")
      (eff (FsWrite "/sys/bus/pci/drivers/vfio-pci/bind" (pd_address pd))) ;;;
    now <- deviceBoundToDriver vfioPCIDriverPath (pd_address pd) ;;
    if negb now then fail (Errorf "no device found at /sys/bus/pci/drivers/vfio-pci") else ret tt.

Definition enablePassthrough (pd : PCIDevice) : M unit :=
  bindDeviceToVFIOPCIDriver pd ;;;
  eff (ApiUpdateStatus KPCIDevice
         (set_pd_status (set_KernelDriverInUse vfioPCIDriver (pd_Status pd)) pd)) ;;;
  ret tt.

Definition bindDeviceToOriginalDriver (pd : PCIDevice) : M unit :=
  match pd_annotation pd PciDeviceDriver with
  | None => ret tt
  | Some orgDriver =>
      if orgDriver ==s "" then ret tt
      else
        let orgDriverPath := "/sys/bus/pci/drivers/" +:+ orgDriver in
        bound <- deviceBoundToDriver orgDriverPath (pd_address pd) ;;
        if (bound : bool) then ret tt
        else
          eff (FsOpenWrite (orgDriverPath +:+ "/bind")) ;;;
          eff (FsWrite (orgDriverPath +:+ "/bind") (pd_address pd)) ;;;
          eff (ApiUpdateStatus KPCIDevice
                 (set_pd_status (set_KernelDriverInUse orgDriver (pd_Status pd)) pd)) ;;;
          ret tt
  end.

Definition disablePassthrough (pd : PCIDevice) : M unit :=
  on_err (fun _ => Errorf "failed unbinding driver")
    (unbindDeviceFromDriver (pd_address pd) vfioPCIDriver) ;;;
  bindDeviceToOriginalDriver pd.

(** The claim it marks enabled is the caller's. *)
Definition attemptToEnablePassthrough (pd : PCIDevice) (pdc : PCIDeviceClaim) : M PCIDeviceClaim :=
  bound <- deviceBoundToDriver vfioPCIDriverPath (pd_address pd) ;;
  (if negb bound then
     (if TrimSpace (pd_KernelDriverInUse (pd_Status pd)) !=s ""
      then unbindDeviceFromDriver (pd_address pd) (pd_KernelDriverInUse (pd_Status pd))
      else ret tt) ;;;
     (match pd_annotation pd PciDeviceDriver with
      | Some originalDriver => unbindDeviceFromDriver (pd_address pd) originalDriver
      | None => ret tt
      end) ;;;
     enablePassthrough pd
   else ret tt) ;;;
  ret (enable_claim pdc).

(** ** Objects *)
Definition getPCIDeviceForClaim (pdc : PCIDeviceClaim) : M PCIDevice :=
  match m_OwnerReferences (pdc_meta pdc) with
  | None => fail (Errorf "Cannot find PCIDevice that owns the claim")
  | Some [] => panic "index out of range [0]"
  | Some (o :: _) => eff (ApiGet KPCIDevice "" (or_Name o))
  end.

Definition individualResourceName (pd : PCIDevice) : string :=
  match SplitN2 (pd_ResourceName (pd_Status pd)) "/" with
  | [p0; _] => p0 +:+ "/" +:+ pd_name pd
  | _ => pd_name pd
  end.

Definition ensureIndividualDeviceResourceName (pd : PCIDevice) : M PCIDevice :=
  let name := individualResourceName pd in
  let m := set_Annotations (<[PCIDeviceOverrideResourceName := name]> (m_Annotations (pd_meta pd))) (pd_meta pd) in
  updated <- eff (ApiUpdate KPCIDevice (set_pd_meta m pd)) ;;
  eff (ApiUpdateStatus KPCIDevice (set_pd_status (set_ResourceName name (pd_Status updated)) updated)).

Definition cleanupIndividualDeviceResourceName (pd : PCIDevice) : M unit :=
  match pd_annotation pd PCIDeviceOverrideResourceName with
  | None => ret tt
  | Some _ =>
      let m := set_Annotations (delete PCIDeviceOverrideResourceName (m_Annotations (pd_meta pd))) (pd_meta pd) in
      eff (ApiUpdate KPCIDevice (set_pd_meta m pd)) ;;; ret tt
  end.

Definition checkGroupMap (pd : PCIDevice) : M unit :=
  group <- GetGroupMap (pd_address pd) ;;
  if group !=s pd_IOMMUGroup (pd_Status pd) then fail (Errorf "group mismatch") else ret tt.

Definition permitHostDeviceInKubeVirt (pd : PCIDevice) : M unit :=
  kv <- on_err (fun _ => Errorf "cannot obtain KubeVirt CR") (eff (ApiGet KKubeVirt DefaultNS KubevirtCR)) ;;
  let kvCopy := reconcileKubevirtCR kv pd in
  if negb (bool_decide (kv_PermittedHostDevices kv = kv_PermittedHostDevices kvCopy))
  then eff (ApiUpdate KKubeVirt kvCopy) ;;; ret tt
  else ret tt.

(** ** Device plugins *)
Definition startDevicePlugin (dp : PCIDevicePlugin) : PCIDevicePlugin :=
  if Started dp then dp else SetStarted dp.

Definition createDevicePlugin (pds : list PCIDevice) (pdc : PCIDeviceClaim) (resourceName : string)
    : PCIDevicePlugin :=
  let dp := Create resourceName (pdc_Address (pdc_Spec pdc)) pds in
  if pdc_PassthroughEnabled (pdc_Status pdc) && negb (Started dp) then startDevicePlugin dp else dp.

(** [dp.Stop()], of whose effects the socket's removal is one the model has. *)
Definition Stop (dp : PCIDevicePlugin) : M unit := cleanup (dp_socketPath dp).

(** The messages received while a goroutine sleeps, in the order of the schedule. *)
Definition deliver_all (schedule : list nat) (dp : PCIDevicePlugin) : PCIDevicePlugin :=
  fold_left (fun d i => default d (deliver i d)) schedule dp.

Definition store_plugin (resourceName : string) (dp : PCIDevicePlugin) : M unit :=
  modify_mem (fun h => set_plugins (<[resourceName := dp]> (h_devicePlugins h)) h).

(** ** OnRemove *)
Definition remove_from_plugin (resourceName : string) (pdc : PCIDeviceClaim) : M unit :=
  h <- get_mem ;;
  match Find resourceName (h_devicePlugins h) with
  | None => ret tt
  | Some dp =>
      let dp1 := MarkPCIDeviceAsUnhealthy (pdc_Address (pdc_Spec pdc)) dp in
      store_plugin resourceName dp1 ;;;
      schedule <- eff (SleepFor 5) ;;
      let dp2 := deliver_all schedule dp1 in
      store_plugin resourceName dp2 ;;;
      if GetCount dp2 =? 0
      then Stop dp2 ;;;
           modify_mem (fun h => set_plugins (delete resourceName (h_devicePlugins h)) h)
      else ret tt
  end.

Definition OnRemove (pdc : option PCIDeviceClaim) : M (option PCIDeviceClaim) :=
  match pdc with
  | None => ret None
  | Some c =>
      if negb (m_DeletionTimestamp (pdc_meta c)) then ret pdc
      else
        h <- get_mem ;;
        if pdc_NodeName (pdc_Spec c) !=s h_nodeName h
        then fail (Errorf "controller cannot process claims for node")
        else
          r <- try (getPCIDeviceForClaim c) ;;
          match r with
          | inl e => if IsNotFound e then ret pdc else fail e
          | inr pd =>
              with_lock claim_lock
                ((if negb (skipDeviceBindingOp c) then disablePassthrough pd else ret tt) ;;;
                 remove_from_plugin (claim_resource c (pd_ResourceName (pd_Status pd))) c ;;;
                 (if pdc_DisableResourcePooling (pdc_Spec c)
                  then on_err (fun _ => Errorf "error cleaning up individual device resource name")
                         (cleanupIndividualDeviceResourceName pd)
                  else ret tt) ;;;
                 ret pdc)
          end
  end.

(** ** reconcilePCIDeviceClaims *)
Definition add_to_plugin (resourceName : string) (pd : PCIDevice) (pdc : PCIDeviceClaim) : M unit :=
  h <- get_mem ;;
  match Find resourceName (h_devicePlugins h) with
  | None => store_plugin resourceName (createDevicePlugin [pd] pdc resourceName)
  | Some dp => store_plugin resourceName (AddDevice pd pdc dp)
  end.

(** The part under the lock.  [pdc] is the object of the informer's cache, which
    the handler marks enabled in place; [pdcCopy] is the copy taken before. *)
Definition enable_claimed_device (pd : PCIDevice) (pdc : PCIDeviceClaim) : M (option PCIDeviceClaim) :=
  let pdcCopy := pdc in
  on_err (fun _ => Errorf "error updating kubevirt CR") (permitHostDeviceInKubeVirt pd) ;;;
  pdc' <- (if negb (skipDeviceBindingOp pdc)
           then attemptToEnablePassthrough pd pdc
           else ret (enable_claim pdc)) ;;
  let resourceName :=
    if negb (skipDeviceBindingOp pdc) then pd_ResourceName (pd_Status pd)
    else claim_resource pdc (pd_ResourceName (pd_Status pd)) in
  add_to_plugin resourceName pd pdc' ;;;
  if negb (pdc_PassthroughEnabled (pdc_Status pdcCopy))
  then updated <- eff (ApiUpdateStatus KPCIDeviceClaim
                    (set_pdc_status (pd_KernelDriverInUse (pd_Status pd)) true pdcCopy)) ;;
       ret (Some updated)
  else ret (Some pdc').

Definition reconcilePCIDeviceClaims (pdc : option PCIDeviceClaim) : M (option PCIDeviceClaim) :=
  match pdc with
  | None => ret None
  | Some c =>
      h <- get_mem ;;
      if m_DeletionTimestamp (pdc_meta c) || (pdc_NodeName (pdc_Spec c) !=s h_nodeName h) then ret pdc
      else
        found <- on_err (fun _ => Errorf "error checking vfio modules") checkVFIOModules ;;
        if negb found
        then loadVfioDrivers ;;; eff (EnqueueAfter KPCIDeviceClaim (m_Name (pdc_meta c)) 3) ;;; ret pdc
        else
          pd <- getPCIDeviceForClaim c ;;
          checkGroupMap pd ;;;
          pd' <- (if pdc_DisableResourcePooling (pdc_Spec c)
                  then on_err (fun _ => Errorf "error setting individual device resource name")
                         (ensureIndividualDeviceResourceName pd)
                  else ret pd) ;;
          with_lock claim_lock (enable_claimed_device pd' c)
  end.

(** ** At start-up, and when a device changes *)
Definition unbindOrphanedPCIDevices : M unit :=
  h <- get_mem ;;
  pdcs <- eff (ApiList KPCIDeviceClaim "" ∅) ;;
  pds <- eff (ApiList KPCIDevice "" ∅) ;;
  orphanedPCIDevices <- lift_o (getOrphanedPCIDevices pdcs pds (h_nodeName h)) ;;
  for_each (fun pd => unbindDeviceFromDriver (pd_address pd) vfioPCIDriver) orphanedPCIDevices.

(** The keys of the claims that name the device as an owner, once per reference. *)
Definition claims_of (pd : PCIDevice) (pdcs : list PCIDeviceClaim) : list (string * string) :=
  concat ((fun v =>
    (fun _ => (m_Namespace (pdc_meta v), m_Name (pdc_meta v))) <$>
      List.filter (fun owner =>
        (or_Kind owner ==s m_Kind (pd_meta pd)) && (or_APIVersion owner ==s m_APIVersion (pd_meta pd)) &&
        (or_Name owner ==s pd_name pd)) (default [] (m_OwnerReferences (pdc_meta v)))) <$> pdcs).

Definition OnDeviceChange (obj : option PCIDevice) : M (list (string * string)) :=
  match obj with
  | None => ret []
  | Some pd =>
      h <- get_mem ;;
      if (pd_NodeName (pd_Status pd) ==s h_nodeName h) &&
         (pd_KernelDriverInUse (pd_Status pd) !=s vfioPCIDriver)
      then pdcs <- on_err (fun _ => Errorf "error listing PCIDeviceClaims during device watch")
                     (eff (ApiList KPCIDeviceClaim "" {[ NodeKeyName := h_nodeName h ]})) ;;
           ret (claims_of pd pdcs)
      else ret []
  end.
End Handlers.
