(* ===== verification/ClaimTheorems.v ===== *)
(** * Properties of the PCI device claim controller *)

From S2P Require Import Prelude GoStrings GoStringLemmas GoMonad Types Effects PCIDeviceApi Iommu DevicePlugins PCIPlugin ClaimController Sim.
From Stdlib Require Import Ascii.

(** ** The permitted devices of KubeVirt *)
Definition permitted_list (kv : KubeVirt) : list PciHostDevice :=
  match kv_PermittedHostDevices kv with Some p => php_PciHostDevices p | None => [] end.
(** The resource is permitted, and served by an external plugin. *)
Definition permits (rn : string) (l : list PciHostDevice) : bool :=
  existsb (fun d => (phd_ResourceName d ==s rn) && phd_ExternalResourceProvider d) l.
Definition has_resource (rn : string) (d : PciHostDevice) : bool := phd_ResourceName d ==s rn.

Lemma reconcile_list kv pd :
  permitted_list (reconcileKubevirtCR kv pd) =
  match find_index (has_resource (pd_ResourceName (pd_Status pd))) (permitted_list kv) with
  | Some i =>
      match permitted_list kv !! i with
      | Some d => if phd_ExternalResourceProvider d then shifted (permitted_list kv) i
                  else take i (permitted_list kv) ++ drop (S i) (permitted_list kv) ++ [devToPermit pd]
      | None => permitted_list kv
      end
  | None => permitted_list kv ++ [devToPermit pd]
  end.
Proof. unfold reconcileKubevirtCR, permitted_list. by destruct (kv_PermittedHostDevices kv). Qed.

Lemma shifted_last l x : shifted (l ++ [x]) (length l) = l ++ [x].
Proof.
  unfold shifted. rewrite take_app_length, length_app. simpl.
  rewrite drop_ge by (rewrite length_app; simpl; lia).
  by rewrite Nat.add_sub, drop_app_length.
Qed.

Lemma permits_devToPermit pd : permits (pd_ResourceName (pd_Status pd)) [devToPermit pd] = true.
Proof. unfold permits. simpl. by rewrite bool_decide_eq_true_2. Qed.

Lemma permits_app rn l1 l2 : permits rn (l1 ++ l2) = permits rn l1 || permits rn l2.
Proof. apply existsb_app. Qed.

Lemma permits_none rn l : Forall (fun d => has_resource rn d = false) l -> permits rn l = false.
Proof.
  induction 1 as [|d l Hd _ IH]; [done|]. unfold permits in *. simpl. unfold has_resource in Hd.
  by rewrite Hd, IH.
Qed.

(** The first entry of the resource, if it is there. *)
Lemma find_has_resource rn l i :
  find_index (has_resource rn) l = Some i ->
  exists l1 d l2, l = l1 ++ d :: l2 /\ length l1 = i /\ phd_ResourceName d = rn /\
    Forall (fun d => has_resource rn d = false) l1.
Proof.
  intros (d & Hd & Hrn & Hall)%find_index_Some.
  apply list_elem_of_split_length in Hd as (l1 & l2 & -> & ->).
  exists l1, d, l2. split_and!; [done..| |].
  - by apply bool_decide_eq_true in Hrn.
  - by rewrite take_app_length in Hall.
Qed.

Lemma find_index_snoc {A} (P : A -> bool) l x :
  Forall (fun y => P y = false) l -> P x = true -> find_index P (l ++ [x]) = Some (length l).
Proof.
  intros Hl Hx. induction Hl as [|y l Hy _ IH]; simpl; [by rewrite Hx|]. by rewrite Hy, IH.
Qed.

#[local] Abbreviation names := (fmap phd_ResourceName).

Lemma drop_S_app {A} (l1 l2 : list A) d : drop (S (length l1)) (l1 ++ d :: l2) = l2.
Proof. induction l1 as [|x l1 IH]; simpl; [done|]. apply IH. Qed.

Lemma others_free rn (l1 l2 : list PciHostDevice) d :
  NoDup (names (l1 ++ d :: l2)) -> phd_ResourceName d = rn ->
  Forall (fun d => has_resource rn d = false) (l1 ++ l2).
Proof.
  rewrite fmap_app, fmap_cons. intros Hnd <-. apply NoDup_app in Hnd as (_ & Hdis & Hnd).
  apply NoDup_cons in Hnd as [Hd _]. apply Forall_app. split; apply Forall_forall; intros x Hx;
    apply bool_decide_eq_false; intros Heq.
  - apply (Hdis (phd_ResourceName x)); [by apply list_elem_of_fmap_2|]. rewrite Heq. left.
  - apply Hd. rewrite <- Heq. by apply list_elem_of_fmap_2.
Qed.

(** An entry of the resource at the end of the list is left where it is. *)
Lemma reconcile_last kv pd p base d :
  kv_PermittedHostDevices kv = Some p -> php_PciHostDevices p = base ++ [d] ->
  phd_ResourceName d = pd_ResourceName (pd_Status pd) -> phd_ExternalResourceProvider d = true ->
  Forall (fun d => has_resource (pd_ResourceName (pd_Status pd)) d = false) base ->
  reconcileKubevirtCR kv pd = kv.
Proof.
  intros Hkv Hl Hd Hext Hbase. unfold reconcileKubevirtCR. rewrite Hkv. simpl. rewrite Hl.
  fold (has_resource (pd_ResourceName (pd_Status pd))).
  rewrite find_index_snoc, list_lookup_middle; [|done..|by apply bool_decide_eq_true].
  rewrite Hext, shifted_last, <- Hl. destruct kv, p. simpl in *. by subst.
Qed.

(** What [reconcileKubevirtCR] promises. *)
Definition permit_promise (kv : KubeVirt) (pd : PCIDevice) : Prop :=
  let rn := pd_ResourceName (pd_Status pd) in
  let kv' := reconcileKubevirtCR kv pd in
  permits rn (permitted_list kv') = true /\
  NoDup (names (permitted_list kv')) /\
  (forall d, phd_ResourceName d <> rn -> d ∈ permitted_list kv' <-> d ∈ permitted_list kv) /\
  reconcileKubevirtCR kv' pd = kv'.

Lemma permit_promise_snoc kv pd base :
  permitted_list (reconcileKubevirtCR kv pd) = base ++ [devToPermit pd] ->
  NoDup (names base) ->
  Forall (fun d => has_resource (pd_ResourceName (pd_Status pd)) d = false) base ->
  (forall d, phd_ResourceName d <> pd_ResourceName (pd_Status pd) ->
     d ∈ base <-> d ∈ permitted_list kv) ->
  permit_promise kv pd.
Proof.
  intros Hl Hnd Hfree Hsame. unfold permit_promise. rewrite Hl. split_and!.
  - by rewrite permits_app, permits_devToPermit, orb_true_r.
  - rewrite fmap_app. apply NoDup_app. split_and!; [done| |by apply NoDup_singleton].
    intros x (d & -> & Hd)%list_elem_of_fmap Hx%list_elem_of_singleton.
    rewrite Forall_forall in Hfree. specialize (Hfree d Hd).
    by apply bool_decide_eq_false in Hfree.
  - intros d Hd. rewrite elem_of_app, list_elem_of_singleton, (Hsame d Hd).
    split; [intros [?| ->]; done|by left].
  - unfold permitted_list in Hl.
    destruct (kv_PermittedHostDevices (reconcileKubevirtCR kv pd)) as [p|] eqn:Hp;
      [|by destruct base].
    by eapply reconcile_last.
Qed.

(** The resource that is not permitted yet, or by the last entry of the list. *)
Lemma permit_promise_kept (kv : KubeVirt) (pd : PCIDevice)
    (Hnd : NoDup (names (permitted_list kv)))
    (Hlast : forall i d, permitted_list kv !! i = Some d ->
       phd_ResourceName d = pd_ResourceName (pd_Status pd) ->
       phd_ExternalResourceProvider d = true -> S i = length (permitted_list kv)) :
  permit_promise kv pd.
Proof.
  pose proof (reconcile_list kv pd) as Hl.
  destruct (find_index _ (permitted_list kv)) as [i|] eqn:Hi.
  - apply find_has_resource in Hi as (l1 & d & l2 & Heq & <- & Hrn & Hfree).
    rewrite Heq in *. rewrite list_lookup_middle in Hl by done.
    pose proof (others_free _ _ _ _ Hnd Hrn) as Hfree2.
    destruct (phd_ExternalResourceProvider d) eqn:Hext.
    + assert (l2 = []) as ->.
      { specialize (Hlast (length l1) d). rewrite list_lookup_middle in Hlast by done.
        specialize (Hlast eq_refl Hrn Hext). rewrite length_app in Hlast. simpl in Hlast.
        destruct l2; [done|simpl in Hlast; lia]. }
      assert (reconcileKubevirtCR kv pd = kv) as Hkv.
      { unfold permitted_list in Heq. destruct (kv_PermittedHostDevices kv) as [p|] eqn:Hp;
          [|by destruct l1]. by eapply reconcile_last. }
      unfold permit_promise. rewrite Hkv, Heq. split_and!; [|done|done|done].
      rewrite permits_app. unfold permits at 2. simpl.
      by rewrite Hrn, Hext, bool_decide_eq_true_2, orb_true_r.
    + rewrite take_app_length, drop_S_app in Hl.
      apply permit_promise_snoc with (base := l1 ++ l2); [by rewrite <- app_assoc| |done|].
      * rewrite fmap_app in *. rewrite fmap_cons in Hnd.
        apply NoDup_app in Hnd as (? & Hdis & [_ ?]%NoDup_cons). apply NoDup_app.
        split_and!; [done| |done]. intros x Hx1 Hx2. apply (Hdis x Hx1). by right.
      * intros d' Hd'. rewrite Heq, !elem_of_app, elem_of_cons.
        split; [tauto|]. intros [?|[->|?]]; [tauto|done|tauto].
  - apply find_index_None in Hi. by apply (permit_promise_snoc kv pd (permitted_list kv)).
Qed.

(** The resource is permitted by an entry that others follow, none of which permits it:
    the case in which [reconcileKubevirtCR] takes the permission away. *)
Definition loses_permit (rn : string) (l : list PciHostDevice) : Prop :=
  exists l1 d l2, l = l1 ++ d :: l2 /\ Forall (fun d => has_resource rn d = false) l1 /\
    phd_ResourceName d = rn /\ phd_ExternalResourceProvider d = true /\ l2 <> [] /\ permits rn l2 = false.

Lemma shifted_app l1 d l2 :
  exists base x, d :: l2 = base ++ [x] /\ shifted (l1 ++ d :: l2) (length l1) = l1 ++ l2 ++ [x].
Proof.
  destruct (exists_last (l := d :: l2) ltac:(done)) as (base & x & Hx). exists base, x. split; [done|].
  unfold shifted. rewrite take_app_length, drop_S_app, Hx.
  replace (length (l1 ++ base ++ [x]) - 1) with (length (l1 ++ base)) by (rewrite !length_app; simpl; lia).
  by rewrite (app_assoc l1 base [x]), drop_app_length.
Qed.

(** What becomes of the list, by its first entry of the resource. *)
Lemma reconcile_cases kv pd :
  let rn := pd_ResourceName (pd_Status pd) in
  let l' := permitted_list (reconcileKubevirtCR kv pd) in
  (Forall (fun d => has_resource rn d = false) (permitted_list kv) /\ l' = permitted_list kv ++ [devToPermit pd]) \/
  exists l1 d l2, permitted_list kv = l1 ++ d :: l2 /\ Forall (fun d => has_resource rn d = false) l1 /\
    phd_ResourceName d = rn /\
    ((phd_ExternalResourceProvider d = false /\ l' = l1 ++ l2 ++ [devToPermit pd]) \/
     (phd_ExternalResourceProvider d = true /\ exists base x, d :: l2 = base ++ [x] /\ l' = l1 ++ l2 ++ [x])).
Proof.
  intros rn l'. unfold l'. rewrite reconcile_list. fold rn.
  destruct (find_index _ (permitted_list kv)) as [i|] eqn:Hi; [right|left; by apply find_index_None in Hi].
  apply find_has_resource in Hi as (l1 & d & l2 & -> & <- & Hrn & Hfree).
  exists l1, d, l2. split_and!; [done..|]. rewrite list_lookup_middle by done.
  destruct (phd_ExternalResourceProvider d); [right|left].
  - split; [done|]. apply shifted_app.
  - by rewrite take_app_length, drop_S_app.
Qed.

Lemma first_entry_unique rn (l1 l1' l2 l2' : list PciHostDevice) d d' :
  l1 ++ d :: l2 = l1' ++ d' :: l2' -> phd_ResourceName d = rn -> phd_ResourceName d' = rn ->
  Forall (fun d => has_resource rn d = false) l1 -> Forall (fun d => has_resource rn d = false) l1' ->
  l1 = l1' /\ d = d' /\ l2 = l2'.
Proof.
  intros Heq Hd Hd' Hf. revert l1' Heq. induction Hf as [|x l1 Hx _ IH]; intros [|y l1'] Heq Hf'; simplify_eq/=.
  - done.
  - apply Forall_cons in Hf' as [Hy _]. by apply bool_decide_eq_false in Hy.
  - by apply bool_decide_eq_false in Hx.
  - apply Forall_cons in Hf' as [_ Hf']. destruct (IH l1') as (-> & -> & ->); done.
Qed.

Lemma permits_after kv pd :
  let rn := pd_ResourceName (pd_Status pd) in
  permits rn (permitted_list (reconcileKubevirtCR kv pd)) = true <-> ~ loses_permit rn (permitted_list kv).
Proof.
  intros rn. destruct (reconcile_cases kv pd) as [[Hfree ->]|(l1 & d & l2 & Hl & Hfree & Hd & Hcase)].
  - rewrite permits_app. unfold rn at 2. rewrite permits_devToPermit, orb_true_r. split; [|done].
    intros _ (k1 & e & k2 & Heq & _ & He & _). rewrite Heq in Hfree.
    apply Forall_app in Hfree as [_ [Hbad _]%Forall_cons]. by apply bool_decide_eq_false in Hbad.
  - assert (loses_permit rn (permitted_list kv) <->
      phd_ExternalResourceProvider d = true /\ l2 <> [] /\ permits rn l2 = false) as ->.
    { split.
      - intros (k1 & e & k2 & Heq & Hk & He & ? & ? & ?). rewrite Hl in Heq.
        by destruct (first_entry_unique rn _ _ _ _ _ _ Heq Hd He Hfree Hk) as (-> & -> & ->).
      - intros (? & ? & ?). by exists l1, d, l2. }
    destruct Hcase as [[Hext ->]|[Hext (base & x & Hx & ->)]]; rewrite !permits_app.
    + unfold rn at 3. rewrite permits_devToPermit, !orb_true_r. split; [|done]. intros _ (? & _). congruence.
    + rewrite (permits_none rn l1) by done. destruct base as [|e base]; injection Hx as <- Hl2.
      * subst l2. unfold permits. simpl. rewrite Hd, Hext, bool_decide_eq_true_2 by done.
        split; [|done]. intros _ (_ & Hne & _). by destruct Hne.
      * assert (permits rn l2 || permits rn [x] = permits rn l2) as Hlast
          by (rewrite Hl2, permits_app; by destruct (permits rn base), (permits rn [x])).
        cbn [orb]. unfold rn in *. rewrite Hlast. destruct (permits _ l2); split.
        -- intros _ (_ & _ & Hbad). discriminate Hbad.
        -- done.
        -- intros Hbad. discriminate Hbad.
        -- intros Hkeep. destruct Hkeep. split; [done|]. split; [|done]. rewrite Hl2. by destruct base.
Qed.

Lemma others_after kv pd d :
  phd_ResourceName d <> pd_ResourceName (pd_Status pd) ->
  d ∈ permitted_list (reconcileKubevirtCR kv pd) <-> d ∈ permitted_list kv.
Proof.
  intros Hne. assert (d <> devToPermit pd) as Hdev by by intros ->.
  destruct (reconcile_cases kv pd) as [[_ ->]|(l1 & e & l2 & -> & _ & He & [[_ ->]|[_ (base & x & Hx & ->)]])];
    rewrite !elem_of_app, ?elem_of_cons, ?elem_of_nil; [naive_solver..|].
  assert (d <> e) as Hde by congruence.
  destruct base as [|b base]; injection Hx as <- Hl2; [naive_solver|].
  rewrite Hl2, elem_of_app, list_elem_of_singleton. naive_solver.
Qed.

Lemma not_permitted kv pd :
  let rn := pd_ResourceName (pd_Status pd) in
  permits rn (permitted_list (reconcileKubevirtCR kv pd)) = false -> loses_permit rn (permitted_list kv).
Proof.
  intros rn Hp. destruct (reconcile_cases kv pd) as [[_ Hl]|(l1 & d & l2 & Hl & Hfree & Hd & Hcase)].
  - rewrite Hl, permits_app in Hp. unfold rn in Hp at 2. by rewrite permits_devToPermit, orb_true_r in Hp.
  - destruct Hcase as [[_ Hl']|[Hext (base & x & Hx & Hl')]]; rewrite Hl', !permits_app in Hp.
    + unfold rn in Hp at 3. by rewrite permits_devToPermit, !orb_true_r in Hp.
    + apply orb_false_iff in Hp as [_ [Hp2 Hpx]%orb_false_iff]. exists l1, d, l2. split_and!; try done.
      intros ->. destruct base as [|e [|]]; [|done..]. injection Hx as <-.
      unfold permits in Hpx. simpl in Hpx. by rewrite Hd, Hext, bool_decide_eq_true_2 in Hpx.
Qed.

(** C30: after [reconcileKubevirtCR] the claimed device's resource is permitted with an
    external provider in all cases but one: the resource was permitted by an entry
    that others follow, none of which permits it; then, and only then, the
    permission is gone.  Every entry of another resource is kept and none is added.
    From a list that has no resource twice, when the resource is permitted
    afterwards, again no resource is listed twice and a second run changes
    nothing, so that the KubeVirt object is not written again. *)
Theorem reconcileKubevirtCR_permits (kv : KubeVirt) (pd : PCIDevice) :
  let rn := pd_ResourceName (pd_Status pd) in
  let kv' := reconcileKubevirtCR kv pd in
  (permits rn (permitted_list kv') = true <-> ~ loses_permit rn (permitted_list kv)) /\
  (forall d, phd_ResourceName d <> rn -> d ∈ permitted_list kv' <-> d ∈ permitted_list kv) /\
  (NoDup (names (permitted_list kv)) -> permits rn (permitted_list kv') = true ->
   NoDup (names (permitted_list kv')) /\ reconcileKubevirtCR kv' pd = kv').
Proof.
  intros rn kv'. split_and!; [apply permits_after|apply others_after|].
  intros Hnd Hperm%permits_after. edestruct (permit_promise_kept kv pd Hnd) as (_ & ? & _ & ?); [|done].
  intros i d Hi Hd Hext. apply list_elem_of_split_length in Hi as (l1 & l2 & Hl & ->).
  rewrite Hl in Hnd. pose proof (others_free rn l1 l2 d Hnd Hd) as [Hf1 Hf2]%Forall_app.
  rewrite Hl, length_app. destruct l2 as [|y l2]; [simpl; lia|]. exfalso. apply Hperm. rewrite Hl.
  exists l1, d, (y :: l2). split_and!; [done..|]. by apply permits_none.
Qed.

(** When the resource is already permitted by an entry that is not the last
    one, [reconcileKubevirtCR] removes it: the tail of the array is shifted under
    the object's own slice, which keeps its length, so the resource is no longer
    permitted and the last entry is listed twice. *)
Theorem reconcileKubevirtCR_drops (kv : KubeVirt) (pd : PCIDevice)
    (l1 l2 : list PciHostDevice) (d x : PciHostDevice)
    (Hl : permitted_list kv = l1 ++ d :: l2 ++ [x])
    (Hnd : NoDup (names (permitted_list kv)))
    (Hrn : phd_ResourceName d = pd_ResourceName (pd_Status pd))
    (Hext : phd_ExternalResourceProvider d = true) :
  let l' := permitted_list (reconcileKubevirtCR kv pd) in
  l' = l1 ++ l2 ++ [x; x] /\ permits (pd_ResourceName (pd_Status pd)) l' = false.
Proof.
  intros l'. pose proof (reconcile_list kv pd) as Hr. rewrite Hl in *.
  pose proof (others_free _ _ _ _ Hnd Hrn) as Hfree.
  assert (find_index (has_resource (pd_ResourceName (pd_Status pd))) (l1 ++ d :: l2 ++ [x])
          = Some (length l1)) as Hf.
  { apply Forall_app in Hfree as [Hfree _]. clear - Hfree Hrn.
    induction Hfree as [|y l Hy _ IH]; simpl; [|by rewrite Hy, IH].
    unfold has_resource. by rewrite bool_decide_eq_true_2. }
  rewrite Hf, list_lookup_middle, Hext in Hr by done.
  assert (l' = l1 ++ l2 ++ [x; x]) as Heq.
  { unfold l'. rewrite Hr. unfold shifted. rewrite take_app_length.
    rewrite drop_S_app.
    replace (length (l1 ++ d :: l2 ++ [x]) - 1) with (length (l1 ++ d :: l2)).
    - assert (l1 ++ d :: l2 ++ [x] = (l1 ++ d :: l2) ++ [x]) as -> by (by rewrite <- app_assoc).
      by rewrite drop_app_length, <- app_assoc.
    - rewrite !length_app. simpl. rewrite length_app. simpl. lia. }
  split; [done|]. rewrite Heq. apply permits_none. rewrite !Forall_app in *.
  destruct Hfree as (? & ? & [? _]%Forall_cons). split_and!; [done..|]. by repeat constructor.
Qed.

(** ** Orphans *)
Definition owned_by (pd : PCIDevice) (pdc : PCIDeviceClaim) : bool :=
  match m_OwnerReferences (pdc_meta pdc) with
  | Some (o :: _) => or_Name o ==s pd_name pd
  | _ => false
  end.
Definition has_owner (pdc : PCIDeviceClaim) : bool :=
  match m_OwnerReferences (pdc_meta pdc) with Some (_ :: _) => true | _ => false end.

Lemma pciDeviceIsClaimed_owned pd pdcs nodeName :
  pd_NodeName (pd_Status pd) = nodeName -> forallb has_owner pdcs = true ->
  pciDeviceIsClaimed pd pdcs nodeName = Ok (existsb (owned_by pd) pdcs).
Proof.
  intros Hn. induction pdcs as [|pdc pdcs IH]; [done|]. simpl. rewrite andb_true_iff.
  intros [Ho Hs]. rewrite (bool_decide_eq_true_2 _ Hn). simpl. unfold has_owner in Ho.
  unfold owned_by at 1. destruct (m_OwnerReferences _) as [[|o os]|]; [done| |done].
  case_bool_decide; simpl; [done|]. by apply IH.
Qed.

(** When every claim has its owner reference, [unbindOrphanedPCIDevices]
    works on exactly the devices of this node that use vfio-pci and that no claim
    names as its owner, in the order of the list, and never panics. *)
Theorem getOrphanedPCIDevices_spec (pdcs : list PCIDeviceClaim) (pds : list PCIDevice)
    (nodeName : string) (Hown : forallb has_owner pdcs = true) :
  getOrphanedPCIDevices pdcs pds nodeName =
  Ok (List.filter (fun pd => (pd_KernelDriverInUse (pd_Status pd) ==s "vfio-pci") &&
                             (nodeName ==s pd_NodeName (pd_Status pd)) &&
                             negb (existsb (owned_by pd) pdcs)) pds).
Proof.
  induction pds as [|pd pds IH]; [done|]. simpl. rewrite IH.
  destruct (pd_KernelDriverInUse (pd_Status pd) ==s "vfio-pci"); simpl; [|done].
  destruct (decide (nodeName = pd_NodeName (pd_Status pd))) as [Hn|Hn];
    [rewrite (bool_decide_eq_true_2 _ Hn)|by rewrite (bool_decide_eq_false_2 _ Hn)].
  simpl. rewrite pciDeviceIsClaimed_owned by done. simpl. by destruct (existsb _ _).
Qed.

(** A claim that has no owner reference yet hides every claim after it: a
    device of this node bound to vfio-pci is unbound at start-up although another
    claim in the list owns it. *)
Theorem getOrphanedPCIDevices_hidden (fresh owner : PCIDeviceClaim) (pdcs : list PCIDeviceClaim)
    (pd : PCIDevice) (nodeName : string)
    (Hfresh : m_OwnerReferences (pdc_meta fresh) = None)
    (Hvfio : pd_KernelDriverInUse (pd_Status pd) = "vfio-pci")
    (Hnode : pd_NodeName (pd_Status pd) = nodeName)
    (Howned : owned_by pd owner = true) :
  getOrphanedPCIDevices (fresh :: owner :: pdcs) [pd] nodeName = Ok [pd] /\
  getOrphanedPCIDevices [owner] [pd] nodeName = Ok [].
Proof.
  simpl. rewrite Hfresh, !bool_decide_eq_true_2 by done. simpl. split; [done|].
  unfold owned_by in Howned. destruct (m_OwnerReferences (pdc_meta owner)) as [[|o os]|]; [done| |done].
  by rewrite Howned.
Qed.

(** ** Resource names of single devices *)
Lemma SplitN2_spec v n :
  no_slash v = true -> SplitN2 (v +:+ "/" +:+ n) "/" = [v; n].
Proof.
  unfold no_slash. rewrite negb_true_iff. intros Hv. change "/" with (str1 "/"%char).
  by apply SplitN2_char_app.
Qed.

(** With resource pooling disabled every device gets a resource name of its
    own: two devices whose object names hold no slash share an individual name
    only if they have the same object name; and the name keeps the vendor's
    prefix. *)
Theorem individualResourceName_inj (pd1 pd2 : PCIDevice) (v1 v2 p1 p2 : string)
    (H1 : pd_ResourceName (pd_Status pd1) = v1 +:+ "/" +:+ p1) (Hv1 : no_slash v1 = true)
    (H2 : pd_ResourceName (pd_Status pd2) = v2 +:+ "/" +:+ p2) (Hv2 : no_slash v2 = true)
    (Heq : individualResourceName pd1 = individualResourceName pd2) :
  pd_name pd1 = pd_name pd2 /\ v1 = v2 /\
  individualResourceName pd1 = v1 +:+ "/" +:+ pd_name pd1.
Proof.
  unfold individualResourceName in *. rewrite H1, H2, !SplitN2_spec in * by done.
  apply (f_equal (fun s => SplitN2 s "/")) in Heq. rewrite !SplitN2_spec in Heq by done.
  by injection Heq as -> ->.
Qed.

(** ** Kernel modules *)
Definition loaded (lines : list string) (m : string) : bool := existsb (fun l => Contains l m) lines.

Lemma full_size (modules : list string) (mark : gset string) :
  NoDup modules -> mark ⊆ list_to_set modules ->
  (size mark =? length modules) = true <-> list_to_set modules ⊆ mark.
Proof.
  intros Hnd Hsub. rewrite Nat.eqb_eq, <- (size_list_to_set (C := gset string) modules) by done.
  split; [|intros H; by rewrite (anti_symm (⊆) _ _ Hsub H)].
  intros Hs. rewrite (set_subseteq_size_eq mark (list_to_set modules)); [done|done|by rewrite Hs].
Qed.

Lemma elem_of_line_mark (modules : list string) line x :
  x ∈ (list_to_set (List.filter (Contains line) modules) : gset string) <->
  x ∈ modules /\ Contains line x = true.
Proof. by rewrite elem_of_list_to_set, list_elem_of_In, filter_In, <- list_elem_of_In. Qed.

Lemma modules_in_spec modules mark lines :
  NoDup modules -> mark ⊆ list_to_set modules -> lines <> [] ->
  modules_in modules mark lines = true <->
  forall m, m ∈ modules -> m ∈ mark \/ loaded lines m = true.
Proof.
  intros Hnd. revert mark. induction lines as [|line lines IH]; intros mark Hsub; [done|]. intros _.
  cbn [modules_in]. set (mark' := mark ∪ _).
  assert (mark' ⊆ list_to_set modules) as Hsub'.
  { intros x [Hx|[Hx _]%elem_of_line_mark]%elem_of_union; [by apply Hsub|by apply elem_of_list_to_set]. }
  assert (forall m, m ∈ modules -> m ∈ mark' <-> m ∈ mark \/ Contains line m = true) as Hmark.
  { intros m Hm. unfold mark'. rewrite elem_of_union, elem_of_line_mark. tauto. }
  pose proof (full_size modules mark' Hnd Hsub') as Hfull. unfold loaded. cbn [existsb].
  destruct (_ =? _).
  - split; [|done]. intros _ m Hm. assert (m ∈ mark') as [?|Hc]%(Hmark m Hm); [|by left|].
    + apply Hfull; [done|]. by apply elem_of_list_to_set.
    + right. by rewrite Hc.
  - destruct lines as [|l ls].
    + split; [done|]. intros Hall. apply Hfull. intros x Hx%elem_of_list_to_set.
      apply Hmark; [done|]. destruct (Hall x Hx) as [?|Hc]; [by left|].
      rewrite orb_false_r in Hc. by right.
    + rewrite (IH mark' Hsub') by done. unfold loaded. split; intros Hall m Hm; specialize (Hall m Hm).
      * rewrite (Hmark m Hm) in Hall. destruct Hall as [[?|Hc]|Hc]; [by left|right; by rewrite Hc|].
        right. rewrite Hc. by rewrite orb_true_r.
      * rewrite (Hmark m Hm). destruct Hall as [?|[Hc|Hc]%orb_true_iff]; tauto.
Qed.

(** [checkModulesExists] answers [true] exactly when the file can be read
    and each module's name occurs in some line of it (for distinct modules, and a
    file of lines that the scanner can hold); it does not look at where a name
    begins and ends. *)
Theorem checkModulesExists_spec `{External} {W} `{World W} (filename text : string)
    (modules : list string) (s s1 : state Handler W)
    (Hnd : NoDup modules) (Hne : modules <> [])
    (Hread : eff (FsReadFile filename) s = (Ok text, s1))
    (Hok : snd (ScanLines text) = true) :
  checkModulesExists filename modules s =
  (Ok (forallb (loaded (fst (ScanLines text))) modules), s1).
Proof.
  unfold checkModulesExists, bind, on_err. rewrite Hread. destruct (ScanLines text) as [lines ok].
  simpl in Hok. subst ok. simpl.
  assert (modules_in modules ∅ lines = forallb (loaded lines) modules) as ->.
  { apply eq_true_iff_eq. destruct lines as [|l ls].
    - destruct modules as [|m ms]; [done|]. simpl. done.
    - rewrite modules_in_spec by (done || apply empty_subseteq). rewrite forallb_forall. split.
      + intros Hall m Hm%list_elem_of_In. destruct (Hall m Hm) as [?%elem_of_empty|?]; done.
      + intros Hall m Hm%list_elem_of_In. right. by apply Hall. }
  by destruct (forallb _ _).
Qed.

(** ** What the handlers touch *)
Definition new_id_file : string := "/sys/bus/pci/drivers/vfio-pci/new_id".

(** Writes of the device's own address (or, to [new_id], of its vendor and device
    ID) and status updates of the device's own object; no other change. *)
Definition touches_only (pd : PCIDevice) (ev : event) : Prop :=
  match ev with
  | Ev e _ =>
      match e with
      | FsWrite path data =>
          data = pd_address pd \/
          (path = new_id_file /\ data = pd_VendorID (pd_Status pd) +:+ " " +:+ pd_DeviceID (pd_Status pd))
      | ApiUpdateStatus k o =>
          match k return Obj k -> Prop with
          | KPCIDevice => fun o => pd_meta o = pd_meta pd /\ pd_address o = pd_address pd
          | _ => fun _ => False
          end o
      | FsWriteFile _ _ | FsRemove _ | ApiCreate _ _ | ApiUpdate _ _ | ApiDelete _ _ | ModProbe _ => False
      | _ => True
      end
  end.

Section Handlers.
Context `{External} {W : Type} `{World W}.
Implicit Types (s : state Handler (Logged W)).

#[local] Hint Extern 3 (Steps (emits (touches_only _)) (eff _)) =>
  apply Steps_emits_eff; simpl; tauto : pcidev.

Lemma Steps_unbind pd driver :
  Steps (@emits Handler W (touches_only pd)) (unbindDeviceFromDriver (pd_address pd) driver).
Proof. unfold unbindDeviceFromDriver, deviceBoundToDriver. steps_tac. Qed.
#[local] Hint Resolve Steps_unbind : pcidev.

Lemma Steps_enablePassthrough pd :
  Steps (@emits Handler W (touches_only pd)) (enablePassthrough pd).
Proof. unfold enablePassthrough, bindDeviceToVFIOPCIDriver, deviceBoundToDriver. steps_tac. Qed.
#[local] Hint Resolve Steps_enablePassthrough : pcidev.

(** Claiming and releasing a device touches no other device: on every path,
    failures included, all that is written to sysfs is the device's own address
    (to bind and unbind files) and its own vendor and device ID (to vfio-pci's
    [new_id]), and all that is written to the API server is the status of its own
    object. *)
Theorem passthrough_touches_only (pd : PCIDevice) (pdc : PCIDeviceClaim) :
  Steps (@emits Handler W (touches_only pd)) (attemptToEnablePassthrough pd pdc) /\
  Steps (@emits Handler W (touches_only pd)) (disablePassthrough pd).
Proof.
  split.
  - unfold attemptToEnablePassthrough, deviceBoundToDriver. steps_tac.
  - unfold disablePassthrough, bindDeviceToOriginalDriver, deviceBoundToDriver. steps_tac.
Qed.

(** ** The lock *)
Lemma balanced_GetGroupMap address :
  Steps (@balanced Handler W claim_lock) (GetGroupMap address).
Proof. unfold GetGroupMap, GroupPaths, group_devices. steps_tac. Qed.
#[local] Hint Resolve balanced_GetGroupMap : pcidev.

Lemma balanced_unbind addr driver :
  Steps (@balanced Handler W claim_lock) (unbindDeviceFromDriver addr driver).
Proof. unfold unbindDeviceFromDriver, deviceBoundToDriver. steps_tac. Qed.
#[local] Hint Resolve balanced_unbind : pcidev.

Lemma balanced_enable pd pdc :
  Steps (@balanced Handler W claim_lock) (enable_claimed_device pd pdc).
Proof.
  unfold enable_claimed_device, permitHostDeviceInKubeVirt, attemptToEnablePassthrough,
    enablePassthrough, bindDeviceToVFIOPCIDriver, deviceBoundToDriver, add_to_plugin, store_plugin.
  steps_tac.
Qed.
#[local] Hint Resolve balanced_enable : pcidev.

Lemma balanced_remove_from_plugin rn pdc :
  Steps (@balanced Handler W claim_lock) (remove_from_plugin rn pdc).
Proof. unfold remove_from_plugin, store_plugin, Stop, cleanup. steps_tac. Qed.
#[local] Hint Resolve balanced_remove_from_plugin : pcidev.

Lemma balanced_rebind pd : Steps (@balanced Handler W claim_lock) (bindDeviceToOriginalDriver pd).
Proof. unfold bindDeviceToOriginalDriver, deviceBoundToDriver. steps_tac. Qed.
#[local] Hint Resolve balanced_rebind : pcidev.

#[local] Opaque with_lock.
(** C12: the package's lock is released as often as it is acquired by both
    handlers of a claim, whatever the surroundings answer: no early return, error
    or panic leaves it held. *)
Theorem claim_lock_balanced (pdc : option PCIDeviceClaim) :
  Steps (@balanced Handler W claim_lock) (reconcilePCIDeviceClaims pdc) /\
  Steps (@balanced Handler W claim_lock) (OnRemove pdc).
Proof.
  split.
  - unfold reconcilePCIDeviceClaims, checkVFIOModules, checkModulesExists, loadVfioDrivers,
      getPCIDeviceForClaim, checkGroupMap, ensureIndividualDeviceResourceName.
    steps_tac.
  - unfold OnRemove, getPCIDeviceForClaim, cleanupIndividualDeviceResourceName.
    steps_tac. apply Steps_balanced_with_lock. steps_tac.
Qed.
End Handlers.

(** ** What a handled claim leaves behind *)
Section Outcomes.
Context `{External} {W : Type} `{World W}.
Implicit Types (s : state Handler (Logged W)).

Definition resource_of (pd : PCIDevice) (pdc : PCIDeviceClaim) : string :=
  if skipDeviceBindingOp pdc then claim_resource pdc (pd_ResourceName (pd_Status pd))
  else pd_ResourceName (pd_Status pd).

Definition bound_event (pd : PCIDevice) : event :=
  Ev (FsStat (vfioPCIDriverPath +:+ "/" +:+ pd_address pd)) (inr tt).

Lemma deviceBound_log driverPath addr s s' :
  deviceBoundToDriver driverPath addr s = (Ok true, s') ->
  Ev (FsStat (driverPath +:+ "/" +:+ addr)) (inr tt) ∈ log_of s'.
Proof.
  unfold deviceBoundToDriver. intros Hrun. apply bind_Ok_inv in Hrun as (a & s1 & Ha & Hrun).
  apply try_Ok_inv in Ha. destruct a as [e|[]]; [done|].
  injection Hrun as <-. apply eff_Ok_log in Ha as [-> _]. apply elem_of_app. right. left.
Qed.

Lemma same_mem_deviceBound driverPath addr :
  Steps (@same_mem Handler (Logged W)) (deviceBoundToDriver driverPath addr).
Proof. unfold deviceBoundToDriver. steps_tac. Qed.

Lemma enablePassthrough_bound pd s s' :
  enablePassthrough pd s = (Ok tt, s') -> bound_event pd ∈ log_of s'.
Proof.
  unfold enablePassthrough. intros Hrun. apply bind_Ok_inv in Hrun as ([] & s1 & Hbind & Hrun).
  refine (log_mono _ any_event _ _ _ _ _ Hrun _); [steps_tac|]. clear Hrun.
  unfold bindDeviceToVFIOPCIDriver in Hbind. apply bind_Ok_inv in Hbind as (b & s2 & Hb & Hbind).
  destruct b.
  - injection Hbind as <-. by eapply deviceBound_log.
  - do 5 apply bind_Ok_inv in Hbind as (? & ? & _ & Hbind).
    apply bind_Ok_inv in Hbind as (b & s3 & Hb' & Hbind).
    destruct b; [|done]. injection Hbind as <-. by eapply deviceBound_log.
Qed.

Lemma attempt_post pd pdc pdc' s s' :
  attemptToEnablePassthrough pd pdc s = (Ok pdc', s') ->
  bound_event pd ∈ log_of s' /\ mem s' = mem s /\ pdc' = enable_claim pdc.
Proof.
  intros Hrun. assert (Steps (@same_mem Handler (Logged W)) (attemptToEnablePassthrough pd pdc)) as Hm.
  { unfold attemptToEnablePassthrough, unbindDeviceFromDriver, enablePassthrough,
      bindDeviceToVFIOPCIDriver, deviceBoundToDriver. steps_tac. }
  specialize (Hm s). rewrite Hrun in Hm. simpl in Hm.
  unfold attemptToEnablePassthrough in Hrun.
  apply bind_Ok_inv in Hrun as (b & s1 & Hb & Hrun).
  apply bind_Ok_inv in Hrun as ([] & s2 & Hmid & Hrun). injection Hrun as <- <-.
  split; [|done]. destruct b; simpl in Hmid.
  - injection Hmid as <-. by eapply deviceBound_log.
  - do 2 apply bind_Ok_inv in Hmid as (? & ? & _ & Hmid). by eapply enablePassthrough_bound.
Qed.

Lemma permit_post pd s s' :
  permitHostDeviceInKubeVirt pd s = (Ok tt, s') ->
  mem s' = mem s /\
  exists kv, Ev (ApiGet KKubeVirt DefaultNS KubevirtCR) (inr kv) ∈ log_of s' /\
    (kv_PermittedHostDevices (reconcileKubevirtCR kv pd) = kv_PermittedHostDevices kv \/
     exists o, Ev (ApiUpdate KKubeVirt (reconcileKubevirtCR kv pd)) (inr o) ∈ log_of s').
Proof.
  unfold permitHostDeviceInKubeVirt. intros Hrun. inv_ok. rename a into kv.
  apply eff_Ok_log in Hrun0 as [Hl0 Hm0]. case_bool_decide as Hd; simpl in Hrun.
  - injection Hrun as <-. split; [done|]. exists kv. split; [|by left].
    rewrite Hl0. apply elem_of_app. right. left.
  - inv_ok. apply eff_Ok_log in Hrun0 as [Hl1 Hm1]. split; [congruence|]. exists kv.
    rewrite Hl1, Hl0. split; [|right; exists a]; rewrite !elem_of_app; [left; right; left|right; left].
Qed.

Lemma add_to_plugin_post rn pd pdc s s' :
  pdc_PassthroughEnabled (pdc_Status pdc) = true -> add_to_plugin rn pd pdc s = (Ok tt, s') ->
  log_of s' = log_of s /\
  exists dp, h_devicePlugins (mem s') = <[rn := dp]> (h_devicePlugins (mem s)) /\
    is_Some (dp_iommuToPCIMap dp !! pd_address pd) /\
    (h_devicePlugins (mem s) !! rn = None -> Started dp = true).
Proof.
  intros Hen Hrun. unfold add_to_plugin, Find in Hrun. inv_ok. injection Hrun0 as <- <-.
  destruct (h_devicePlugins (mem s) !! rn) as [dp|] eqn:Hdp; injection Hrun as <-; (split; [done|]).
  - exists (AddDevice pd pdc dp). split_and!; [done| |done].
    destruct (AddDevice_cases pd pdc dp) as [[? ->]|[_ ->]]; [done|]. simpl.
    exists (pd_IOMMUGroup (pd_Status pd)). apply lookup_insert_eq.
  - exists (createDevicePlugin [pd] pdc rn). split_and!; [done| |].
    + unfold createDevicePlugin. rewrite Hen. simpl. exists (pd_IOMMUGroup (pd_Status pd)).
      apply lookup_insert_eq.
    + intros _. unfold createDevicePlugin. by rewrite Hen.
Qed.

(** No file is written. *)
Definition no_write (ev : event) : Prop :=
  match ev with
  | Ev e _ => match e with FsOpenWrite _ | FsWrite _ _ | FsWriteFile _ _ => False | _ => True end
  end.
#[local] Hint Extern 3 (Steps (emits no_write) (eff _)) => apply Steps_emits_eff; exact (fun _ => I) : pcidev.

Lemma permit_no_write pd : Steps (@emits Handler W no_write) (permitHostDeviceInKubeVirt pd).
Proof. unfold permitHostDeviceInKubeVirt. steps_tac. Qed.

Lemma skipped_no_write (pd : PCIDevice) (pdc : PCIDeviceClaim) s :
  skipDeviceBindingOp pdc = true -> emits no_write s (snd (enable_claimed_device pd pdc s)).
Proof.
  intros Hskip. unfold enable_claimed_device. rewrite Hskip. cbn [negb].
  match goal with |- emits _ _ (snd (?m _)) => assert (Steps (@emits Handler W no_write) m) as Hm end; [|apply Hm].
  apply Steps_bind; [typeclasses eauto|apply Steps_on_err, permit_no_write|intros _].
  unfold add_to_plugin. steps_tac.
Qed.

(** C10: when the handler of a claim succeeds, KubeVirt's object permits the device's
    resource, the device is bound, and its plugin advertises it.  For the first, the
    object that the handler found permits the resource once [reconcileKubevirtCR] has
    changed it, and the changed object was sent if it differs; the one exception is
    an object that already permits the resource by an entry that others follow
    ([loses_permit]), from which the permission is taken away.  For the second, the
    kernel has confirmed that the device is bound to vfio-pci, except for a claim
    that asks to skip the binding, for which no file is written at all.  For the
    third, the plugin of the resource, started if it is new, advertises the device's
    address, and no other plugin changes. *)
Theorem enable_claimed_device_post (pd : PCIDevice) (pdc : PCIDeviceClaim) s s'
    (r : option PCIDeviceClaim)
    (Hrun : enable_claimed_device pd pdc s = (Ok r, s')) :
  (exists kv, Ev (ApiGet KKubeVirt DefaultNS KubevirtCR) (inr kv) ∈ log_of s' /\
    let rn := pd_ResourceName (pd_Status pd) in
    let kv' := reconcileKubevirtCR kv pd in
    (permits rn (permitted_list kv') = true \/ loses_permit rn (permitted_list kv)) /\
    (kv_PermittedHostDevices kv' = kv_PermittedHostDevices kv \/
     exists o, Ev (ApiUpdate KKubeVirt kv') (inr o) ∈ log_of s')) /\
  (if skipDeviceBindingOp pdc then emits no_write s s' else bound_event pd ∈ log_of s') /\
  (exists dp, h_devicePlugins (mem s') = <[resource_of pd pdc := dp]> (h_devicePlugins (mem s)) /\
    is_Some (dp_iommuToPCIMap dp !! pd_address pd) /\
    (h_devicePlugins (mem s) !! resource_of pd pdc = None -> Started dp = true)).
Proof.
  assert (skipDeviceBindingOp pdc = true -> emits no_write s s') as Hquiet.
  { intros Hskip. pose proof (skipped_no_write pd pdc s Hskip) as Hq. by rewrite Hrun in Hq. }
  unfold enable_claimed_device in Hrun.
  apply bind_Ok_inv in Hrun as ([] & s1 & Hperm & Hrun). apply on_err_Ok_inv in Hperm.
  apply permit_post in Hperm as [Hm1 (kv & Hget & Hput)].
  apply bind_Ok_inv in Hrun as (pdc' & s2 & Hatt & Hrun).
  assert (Steps (@emits Handler W any_event) (attemptToEnablePassthrough pd pdc)) as Hgrow.
  { unfold attemptToEnablePassthrough, unbindDeviceFromDriver, enablePassthrough,
      bindDeviceToVFIOPCIDriver, deviceBoundToDriver. steps_tac. }
  assert (mem s2 = mem s1 /\ pdc' = enable_claim pdc /\
    (skipDeviceBindingOp pdc = false -> bound_event pd ∈ log_of s2) /\
    (forall ev, ev ∈ log_of s1 -> ev ∈ log_of s2)) as (Hm2 & -> & Hbound & Hmono).
  { destruct (skipDeviceBindingOp pdc); simpl in Hatt.
    - by injection Hatt as <- <-.
    - pose proof (fun ev => log_mono _ _ _ _ _ ev Hgrow Hatt) as Hmono.
      apply attempt_post in Hatt as (? & ? & ->). done. }
  apply bind_Ok_inv in Hrun as ([] & s3 & Hadd & Hrun).
  apply add_to_plugin_post in Hadd as [Hl3 (dp & Hdp & Hin & Hst)]; [|done].
  assert (mem s' = mem s3 /\ (forall ev, ev ∈ log_of s3 -> ev ∈ log_of s')) as [Hm' Hmono'].
  { destruct (pdc_PassthroughEnabled (pdc_Status pdc)); simpl in Hrun; [by injection Hrun as _ <-|].
    inv_ok. apply eff_Ok_log in Hrun0 as [-> ->]. split; [done|]. intros ev ?. apply elem_of_app. by left. }
  rewrite Hm', Hdp, Hm2, Hm1. rewrite Hm2, Hm1 in Hst.
  assert ((if negb (skipDeviceBindingOp pdc) then pd_ResourceName (pd_Status pd)
           else claim_resource pdc (pd_ResourceName (pd_Status pd))) = resource_of pd pdc) as Hres
    by (unfold resource_of; by destruct (skipDeviceBindingOp pdc)).
  rewrite Hres in *. rewrite Hl3 in Hmono'. split_and!.
  - exists kv. split; [auto|]. split.
    + destruct (permits _ (permitted_list (reconcileKubevirtCR kv pd))) eqn:Hp; [by left|right].
      by apply not_permitted.
    + destruct Hput as [?|[o Ho]]; [by left|right; exists o; auto].
  - destruct (skipDeviceBindingOp pdc); auto.
  - by exists dp.
Qed.

(** The health a plugin gives to a device after the messages of a schedule. *)
Lemma deliver_all_nil schedule dp : dp_pending dp = [] -> deliver_all schedule dp = dp.
Proof.
  intros Hp. unfold deliver_all. induction schedule as [|i l IH]; [done|]. simpl.
  assert (deliver i dp = None) as -> by (unfold deliver; by rewrite Hp). done.
Qed.

Lemma count_healthy_zero devs :
  count_healthy devs = 0 <-> forall d, d ∈ devs -> dev_Health d = Unhealthy.
Proof.
  rewrite count_healthy_length. induction devs as [|d l IH]; simpl.
  - split; [|done]. intros _ d Hd. by apply not_elem_of_nil in Hd.
  - unfold is_healthy at 1. setoid_rewrite elem_of_cons. case_bool_decide as Hh; simpl.
    + split; [done|]. intros Hl. specialize (Hl d ltac:(by left)). congruence.
    + rewrite IH. split; [|auto]. intros Hl d' [->|?]; [|auto]. by destruct (dev_Health d).
Qed.

(** The last claim of a resource stops its plugin: if the message that the
    released device is unhealthy is received while the handler sleeps, the plugin
    is stopped and forgotten exactly when no other of its devices is healthy, and
    every other plugin is left as it was. *)
Theorem remove_from_plugin_last (rn : string) (pdc : PCIDeviceClaim) (dp : PCIDevicePlugin) s s'
    (schedule : list nat) (w' : Logged W)
    (Hdp : h_devicePlugins (mem s) !! rn = Some dp) (Hidle : dp_pending dp = [])
    (Hsleep : perform (SleepFor 5) (world s) = (inr (0 :: schedule), w'))
    (Hrun : remove_from_plugin rn pdc s = (Ok tt, s')) :
  (h_devicePlugins (mem s') !! rn = None <->
   forall d, d ∈ dp_devs dp -> dev_ID d <> pdc_Address (pdc_Spec pdc) -> dev_Health d = Unhealthy) /\
  (forall rn', rn' <> rn -> h_devicePlugins (mem s') !! rn' = h_devicePlugins (mem s) !! rn').
Proof.
  unfold remove_from_plugin, Find in Hrun. apply bind_Ok_inv in Hrun as (h & s0 & Hget & Hrun).
  injection Hget as <- <-. rewrite Hdp in Hrun. set (dp1 := MarkPCIDeviceAsUnhealthy _ dp) in Hrun.
  apply bind_Ok_inv in Hrun as ([] & s1 & Hst & Hrun). injection Hst as <-.
  apply bind_Ok_inv in Hrun as (sch & s2 & Hsl & Hrun).
  apply eff_Ok_inv in Hsl as [Hsl Hm2]. simpl in Hsl, Hm2. rewrite Hsleep in Hsl. injection Hsl as <- _.
  set (dp2 := deliver_all _ dp1) in Hrun.
  assert (dp2 = set_devs (set_health {| dh_DevID := pdc_Address (pdc_Spec pdc); dh_Health := Unhealthy |}
                            (dp_devs dp)) (dp_iommuToPCIMap dp) [] dp) as Hdp2.
  { unfold dp2. change (deliver_all (0 :: schedule) dp1)
      with (deliver_all schedule (default dp1 (deliver 0 dp1))).
    unfold deliver, dp1. simpl. rewrite Hidle. simpl. by rewrite deliver_all_nil. }
  apply bind_Ok_inv in Hrun as ([] & s3 & Hst & Hrun). injection Hst as <-.
  assert (GetCount dp2 = 0 <-> forall d, d ∈ dp_devs dp -> dev_ID d <> pdc_Address (pdc_Spec pdc) ->
            dev_Health d = Unhealthy) as Hcount.
  { rewrite Hdp2. unfold GetCount. rewrite count_healthy_zero. simpl. split.
    - intros Hall d Hd HID. apply Hall. unfold set_health. apply list_elem_of_fmap.
      exists d. split; [|done]. simpl. by rewrite bool_decide_eq_false_2.
    - intros Hall d (d0 & Hd0 & _ & ->)%elem_of_set_health. simpl. case_bool_decide; [done|auto]. }
  rewrite <- Hcount. destruct (GetCount dp2) as [|n]; simpl in Hrun.
  - apply bind_Ok_inv in Hrun as ([] & s4 & Hstop & Hrun). injection Hrun as <-.
    assert (Steps (@same_mem Handler (Logged W)) (Stop dp2)) as Hs.
    { unfold Stop, cleanup. steps_tac. }
    match type of Hstop with Stop dp2 ?s0 = _ => specialize (Hs s0) end. rewrite Hstop in Hs.
    unfold same_mem in Hs. simpl in Hs. simpl. rewrite Hs. simpl. rewrite Hm2. simpl.
    split; [split; [done|]; intros _; apply lookup_delete_eq|].
    intros rn' Hne. by rewrite lookup_delete_ne, !lookup_insert_ne.
  - injection Hrun as <-. simpl. rewrite Hm2. simpl. rewrite lookup_insert_eq.
    split; [done|]. intros rn' Hne. by rewrite !lookup_insert_ne.
Qed.

(** A claim of another node is handled by that node: reconciling it does
    nothing at all, and removing it is refused without touching anything, so that
    the work queue offers it again. *)
Theorem claims_of_other_nodes (pdc : PCIDeviceClaim) s
    (Hnode : pdc_NodeName (pdc_Spec pdc) <> h_nodeName (mem s)) :
  reconcilePCIDeviceClaims (Some pdc) s = (Ok (Some pdc), s) /\
  (m_DeletionTimestamp (pdc_meta pdc) = true -> exists e, OnRemove (Some pdc) s = (Err e, s)) /\
  (m_DeletionTimestamp (pdc_meta pdc) = false -> OnRemove (Some pdc) s = (Ok (Some pdc), s)).
Proof.
  unfold reconcilePCIDeviceClaims, OnRemove, bind, get_mem. rewrite bool_decide_eq_false_2 by done.
  simpl. rewrite orb_true_r. split_and!; [done| |]; intros ->; simpl; [|done].
  rewrite bool_decide_eq_false_2 by done. by eexists.
Qed.
End Outcomes.

(** ** Witnesses *)
Definition gpu_pd : PCIDevice := demo_pd "0000:04:00.0" "12".
Definition gpu_claim : PCIDeviceClaim :=
  {| pdc_meta := set_OwnerReferences
       (Some [{| or_APIVersion := "devices.harvesterhci.io/v1beta1"; or_Kind := "PCIDevice";
                 or_Name := pd_name gpu_pd; or_UID := "" |}]) (pdc_meta (demo_pdc "0000:04:00.0"));
     pdc_Spec := pdc_Spec (demo_pdc "0000:04:00.0"); pdc_Status := pdc_Status (demo_pdc "0000:04:00.0") |}.
Definition permit (rn : string) : PciHostDevice :=
  {| phd_PCIVendorSelector := "8086:1521"; phd_ResourceName := rn; phd_ExternalResourceProvider := true |}.
Definition kubevirt_with (l : list PciHostDevice) : KubeVirt :=
  {| kv_meta := new_meta "kubevirt" ∅ ∅;
     kv_PermittedHostDevices := Some {| php_PciHostDevices := l; php_USB := [] |} |}.

(** A node with the GPU bound to its driver, vfio-pci loaded and an empty KubeVirt object. *)
Definition gpu_node : sim :=
  put KPCIDeviceClaim gpu_claim (put KKubeVirt (kubevirt_with []) (put KPCIDevice gpu_pd
    (set_fs
      (<["/proc/modules" := "vfio_iommu_type1 49152 0 -" +:+ newline +:+ "vfio_pci 16384 0 -"]>
       (<["/sys/bus/pci/drivers/nvidia/0000:04:00.0" := ""]>
       (<["/sys/bus/pci/drivers/nvidia/unbind" := ""]> (<["/sys/bus/pci/drivers/vfio-pci/new_id" := ""]>
         {[ "/sys/bus/pci/drivers/vfio-pci/bind" := "" ]})))) ∅
      (<["/sys/kernel/iommu_groups" := [("12", true)]]>
        {[ "/sys/kernel/iommu_groups/12/devices" := [("0000:04:00.0", false)] ]}) sim_empty))).
Definition handler1 : Handler := {| h_nodeName := "node1"; h_devicePlugins := ∅ |}.
Definition start1 : state Handler (Logged sim) := State handler1 (gpu_node, []).

Example reconcile_binds :
  let '(r, s) := reconcilePCIDeviceClaims (Some gpu_claim) start1 in
  is_Ok r = true /\
  is_Some (sim_files (fst (world s)) !! "/sys/bus/pci/drivers/vfio-pci/0000:04:00.0") /\
  sim_files (fst (world s)) !! "/sys/bus/pci/drivers/nvidia/0000:04:00.0" = None /\
  sim_locks (fst (world s)) = ∅.
Proof. vm_compute. split_and!; eauto. Qed.

Lemma reconcileKubevirtCR_permits_witness :
  let kv := kubevirt_with [permit "intel.com/I350"; permit "nvidia.com/GA100"] in
  let kv' := reconcileKubevirtCR kv gpu_pd in
  ~ loses_permit "nvidia.com/GA100" (permitted_list kv) /\
  NoDup (names (permitted_list kv')) /\ reconcileKubevirtCR kv' gpu_pd = kv'.
Proof.
  intros kv kv'. destruct (reconcileKubevirtCR_permits kv gpu_pd) as (Hp & _ & Hn).
  split; [apply Hp; vm_compute; reflexivity|].
  apply Hn; [apply (bool_decide_unpack _); vm_compute; exact I|vm_compute; reflexivity].
Defined.

Lemma reconcileKubevirtCR_drops_witness :
  let kv := kubevirt_with [permit "nvidia.com/GA100"; permit "intel.com/I350"] in
  let l' := permitted_list (reconcileKubevirtCR kv gpu_pd) in
  l' = [] ++ [] ++ [permit "intel.com/I350"; permit "intel.com/I350"] /\
  permits (pd_ResourceName (pd_Status gpu_pd)) l' = false.
Proof.
  apply (reconcileKubevirtCR_drops (kubevirt_with [permit "nvidia.com/GA100"; permit "intel.com/I350"])
           gpu_pd [] [] (permit "nvidia.com/GA100") (permit "intel.com/I350")); try reflexivity.
  apply (bool_decide_unpack _). vm_compute. exact I.
Defined.

Definition vfio_pd : PCIDevice :=
  set_pd_status (set_KernelDriverInUse "vfio-pci" (pd_Status gpu_pd)) gpu_pd.

Lemma getOrphanedPCIDevices_spec_witness :
  getOrphanedPCIDevices [gpu_claim] [vfio_pd; gpu_pd] "node1" =
  Ok (List.filter (fun pd => (pd_KernelDriverInUse (pd_Status pd) ==s "vfio-pci") &&
                             ("node1" ==s pd_NodeName (pd_Status pd)) &&
                             negb (existsb (owned_by pd) [gpu_claim])) [vfio_pd; gpu_pd]).
Proof. apply getOrphanedPCIDevices_spec. vm_compute. reflexivity. Defined.

Lemma getOrphanedPCIDevices_hidden_witness :
  getOrphanedPCIDevices [demo_pdc "0000:09:00.0"; gpu_claim] [vfio_pd] "node1" = Ok [vfio_pd] /\
  getOrphanedPCIDevices [gpu_claim] [vfio_pd] "node1" = Ok [].
Proof.
  apply (getOrphanedPCIDevices_hidden (demo_pdc "0000:09:00.0") gpu_claim [] vfio_pd "node1");
    vm_compute; reflexivity.
Defined.

Lemma individualResourceName_inj_witness :
  individualResourceName gpu_pd = "nvidia.com/node1-0000:04:00.0" /\
  pd_name gpu_pd = pd_name gpu_pd /\ "nvidia.com" = "nvidia.com" /\
  individualResourceName gpu_pd = "nvidia.com" +:+ "/" +:+ pd_name gpu_pd.
Proof.
  split; [vm_compute; reflexivity|].
  apply (individualResourceName_inj gpu_pd gpu_pd "nvidia.com" "nvidia.com" "GA100" "GA100");
    vm_compute; reflexivity.
Defined.

Lemma checkModulesExists_spec_witness :
  exists s1,
    checkModulesExists "/proc/modules" ["vfio_pci"; "vfio_iommu_type1"] (State handler1 gpu_node) =
    (Ok (forallb (loaded (fst (ScanLines
           ("vfio_iommu_type1 49152 0 -" +:+ newline +:+ "vfio_pci 16384 0 -"))))
           ["vfio_pci"; "vfio_iommu_type1"]), s1).
Proof.
  eexists. apply checkModulesExists_spec; [|discriminate| |vm_compute; reflexivity].
  - apply (bool_decide_unpack _). vm_compute. exact I.
  - reflexivity.
Defined.

(** The substring matters: a kernel with only [vfio_pci_core] passes the check. *)
Example vfio_pci_core_counts :
  fst (checkModulesExists "/proc/modules" ["vfio_pci"; "vfio_iommu_type1"]
    (State handler1 (set_fs {[ "/proc/modules" :=
       "vfio_pci_core 73728 0" +:+ newline +:+ "vfio_iommu_type1 49152 0" ]} ∅ ∅ sim_empty))) = Ok true.
Proof. vm_compute. reflexivity. Qed.

Lemma enable_claimed_device_post_witness :
  exists r s' kv, enable_claimed_device gpu_pd gpu_claim start1 = (Ok r, s') /\
    bound_event gpu_pd ∈ log_of s' /\
    Ev (ApiGet KKubeVirt DefaultNS KubevirtCR) (inr kv) ∈ log_of s' /\
    (permits "nvidia.com/GA100" (permitted_list (reconcileKubevirtCR kv gpu_pd)) = true \/
     loses_permit "nvidia.com/GA100" (permitted_list kv)).
Proof.
  assert (is_Ok (fst (enable_claimed_device gpu_pd gpu_claim start1)) = true) as Hok
    by (vm_compute; reflexivity).
  destruct (enable_claimed_device gpu_pd gpu_claim start1) as [[r|e|p] s'] eqn:E; [|discriminate Hok..].
  destruct (enable_claimed_device_post gpu_pd gpu_claim start1 s' r E) as ((kv & Hget & Hp & _) & Hb & _).
  exists r, s', kv. split; [reflexivity|]. exact (conj Hb (conj Hget Hp)).
Defined.

(** A world in which the goroutine's message is received during the sleep. *)
Definition sleep_world : World sim := fun X e w =>
  match e in Eff X return (error + X) * sim with
  | SleepFor n => (inr [0], w)
  | e => @perform sim sim_world _ e w
  end.
Definition plugins1 : Handler :=
  {| h_nodeName := "node1"; h_devicePlugins := {[ "nvidia.com/GA100" := demo_plugin_up ]} |}.

Lemma remove_from_plugin_last_witness :
  let s := State plugins1 (gpu_node, []) in
  exists s', @remove_from_plugin (Logged sim) (@Logged_world sim sleep_world) "nvidia.com/GA100" gpu_claim s
    = (Ok tt, s') /\
  (h_devicePlugins (mem s') !! "nvidia.com/GA100" = None <->
   forall d, d ∈ dp_devs demo_plugin_up -> dev_ID d <> "0000:04:00.0" -> dev_Health d = Unhealthy) /\
  (forall rn', rn' <> "nvidia.com/GA100" ->
     h_devicePlugins (mem s') !! rn' = h_devicePlugins (mem s) !! rn').
Proof.
  intros s.
  assert (is_Ok (fst (@remove_from_plugin (Logged sim) (@Logged_world sim sleep_world) "nvidia.com/GA100"
                        gpu_claim s)) = true) as Hok by (vm_compute; reflexivity).
  destruct (@remove_from_plugin (Logged sim) (@Logged_world sim sleep_world) "nvidia.com/GA100"
              gpu_claim s) as [[[]|e|p] s'] eqn:E; [|discriminate Hok..].
  exists s'. split; [reflexivity|].
  eapply (@remove_from_plugin_last sim sleep_world "nvidia.com/GA100" gpu_claim demo_plugin_up s s' []);
    [reflexivity|vm_compute; reflexivity|reflexivity|exact E].
Defined.

Lemma claims_of_other_nodes_witness :
  let s := State {| h_nodeName := "node2"; h_devicePlugins := ∅ |} (gpu_node, []) in
  reconcilePCIDeviceClaims (Some gpu_claim) s = (Ok (Some gpu_claim), s) /\
  (m_DeletionTimestamp (pdc_meta gpu_claim) = true -> exists e, OnRemove (Some gpu_claim) s = (Err e, s)) /\
  (m_DeletionTimestamp (pdc_meta gpu_claim) = false -> OnRemove (Some gpu_claim) s = (Ok (Some gpu_claim), s)).
Proof. intros s. apply (claims_of_other_nodes gpu_claim s). vm_compute. discriminate. Defined.
