(* ===== verification/Passthrough.v ===== *)
(** * Passing a device through and giving it back

    The driver of a PCI device is what the files under /sys/bus/pci/drivers say.  The
    claim controller changes it only by writing to the [bind], [unbind] and [new_id]
    files of drivers.  Here what these files do is an interface, with what the code
    relies on as its laws, and the controller's two operations are shown to be
    inverses of each other on it. *)

From S2P Require Import Prelude GoStrings GoStringLemmas GoMonad Types Effects PCIDeviceApi Iommu DevicePlugins ClaimController ClaimTheorems Sim.
From Stdlib Require Import Ascii.

Definition driver_path (d : string) : string := "/sys/bus/pci/drivers/" +:+ d.
(** One component of a path. *)
Definition plain_name (s : string) : bool := negb (str_mem "/"%char s) && (s !=s "").

(** Calls that do not reach a driver: all but the writing of files, the loading of
    modules and commands (the files of drivers cannot be removed). *)
Definition calm {X} (e : Eff X) : bool :=
  match e with
  | FsWrite _ _ | FsWriteFile _ _ | ModProbe _ | ExecRun _ _ _ => false
  | _ => true
  end.

(** The drivers of devices by their address.  A device's entry in a driver's
    directory says whether it is bound to it; a successful write to [bind] binds it;
    [bind] and [unbind] concern no other device; a new identity can only bind devices
    that no driver has. *)
Class Sysfs (W : Type) `{World W} := {
  driver_of : W -> string -> option string;
  sysfs_stat : forall w d a, plain_name d = true -> plain_name a = true ->
    (exists w', perform (FsStat (driver_path d +:+ "/" +:+ a)) w = (inr tt, w')) <-> driver_of w a = Some d;
  sysfs_calm : forall X (e : Eff X) w, calm e = true -> driver_of (snd (perform e w)) = driver_of w;
  sysfs_bind : forall w w' d a, plain_name d = true -> plain_name a = true ->
    perform (FsWrite (driver_path d +:+ "/bind") a) w = (inr tt, w') -> driver_of w' a = Some d;
  sysfs_others : forall w d a b op, op ∈ ["/bind"; "/unbind"] -> plain_name d = true -> plain_name a = true -> b <> a ->
    driver_of (snd (perform (FsWrite (driver_path d +:+ op) a) w)) b = driver_of w b;
  sysfs_new_id : forall w d id b, plain_name d = true -> driver_of w b <> None ->
    driver_of (snd (perform (FsWrite (driver_path d +:+ "/new_id") id) w)) b = driver_of w b
}.

Section Passthrough.
Context `{External} {W : Type} `{Sysfs W}.
Implicit Types (s : state Handler W).

(** Every other device that has a driver keeps it. *)
Definition others_kept (a : string) : relation (state Handler W) :=
  fun s s' => forall b, b <> a -> driver_of (world s) b <> None -> driver_of (world s') b = driver_of (world s) b.
#[export] Instance others_kept_preorder a : PreOrder (others_kept a).
Proof. split; [done|]. intros x y z Hxy Hyz b Hb Hx. rewrite Hyz; [by apply Hxy|done|by rewrite Hxy]. Qed.

(** No driver changes. *)
Definition drivers_kept : relation (state Handler W) :=
  fun s s' => forall b, driver_of (world s') b = driver_of (world s) b.
#[export] Instance drivers_kept_preorder : PreOrder drivers_kept.
Proof. split; [done|]. intros x y z Hxy Hyz b. by rewrite Hyz. Qed.

Lemma world_eff {X} (e : Eff X) s : world (snd (eff e s)) = snd (perform e (world s)).
Proof. unfold eff. by destruct (perform e (world s)). Qed.

Lemma kept_calm {X} (e : Eff X) : calm e = true -> Steps drivers_kept (eff e).
Proof. intros He s b. rewrite world_eff. by rewrite sysfs_calm. Qed.
Lemma others_calm a {X} (e : Eff X) : calm e = true -> Steps (others_kept a) (eff e).
Proof. intros He s b _ _. rewrite world_eff. by rewrite sysfs_calm. Qed.
Lemma others_bind a d op : op ∈ ["/bind"; "/unbind"] -> plain_name d = true -> plain_name a = true ->
  Steps (others_kept a) (eff (FsWrite (driver_path d +:+ op) a)).
Proof. intros Hop Hd Ha s b Hb _. rewrite world_eff. by apply sysfs_others. Qed.
Lemma others_new_id a d id : plain_name d = true ->
  Steps (others_kept a) (eff (FsWrite (driver_path d +:+ "/new_id") id)).
Proof. intros Hd s b _ Hb. rewrite world_eff. by apply sysfs_new_id. Qed.

#[local] Hint Resolve kept_calm others_calm others_new_id : pcidev.
#[local] Hint Extern 3 (calm _ = true) => reflexivity : pcidev.

Lemma bound_kept p a : Steps drivers_kept (deviceBoundToDriver p a).
Proof. unfold deviceBoundToDriver. steps_tac. Qed.
Lemma bound_others b p a : Steps (others_kept b) (deviceBoundToDriver p a).
Proof. unfold deviceBoundToDriver. steps_tac. Qed.
#[local] Hint Resolve bound_kept bound_others : pcidev.

(** The test of the driver tells the driver. *)
Lemma deviceBound_spec d a s r s' :
  plain_name d = true -> plain_name a = true ->
  deviceBoundToDriver (driver_path d) a s = (Ok r, s') ->
  r = bool_decide (driver_of (world s) a = Some d) /\ forall b, driver_of (world s') b = driver_of (world s) b.
Proof.
  intros Hd Ha Hrun. pose proof (bound_kept (driver_path d) a s) as Hk. rewrite Hrun in Hk. split; [|exact Hk].
  unfold deviceBoundToDriver in Hrun. apply bind_Ok_inv in Hrun as (x & s1 & Hx & [= <- <-]).
  pose proof (sysfs_stat (world s) d a Hd Ha) as Hstat. unfold try, eff in Hx.
  destruct (perform _ (world s)) as [[er|[]] w'] eqn:E; injection Hx as <- <-.
  - symmetry. apply bool_decide_eq_false_2. intros [w2 Hw]%Hstat. discriminate Hw.
  - symmetry. apply bool_decide_eq_true_2. apply Hstat. by exists w'.
Qed.

(** The address and the drivers that the object names are components of a path. *)
Record wf_device (pd : PCIDevice) : Prop := {
  wd_address : plain_name (pd_address pd) = true;
  wd_in_use : TrimSpace (pd_KernelDriverInUse (pd_Status pd)) <> "" ->
    plain_name (pd_KernelDriverInUse (pd_Status pd)) = true;
  wd_original : forall d, pd_annotation pd PciDeviceDriver = Some d -> plain_name d = true
}.

Section Device.
Context (pd : PCIDevice) (Hwf : wf_device pd).
Let Haddr : plain_name (pd_address pd) = true := wd_address pd Hwf.

Lemma unbind_others d : plain_name d = true -> Steps (others_kept (pd_address pd)) (unbindDeviceFromDriver (pd_address pd) d).
Proof.
  intros Hd. unfold unbindDeviceFromDriver. steps_tac.
  apply others_bind; [set_solver|done..].
Qed.

Lemma enable_others : Steps (others_kept (pd_address pd)) (enablePassthrough pd).
Proof.
  unfold enablePassthrough, bindDeviceToVFIOPCIDriver. steps_tac.
  - by apply (others_new_id _ vfioPCIDriver).
  - apply (others_bind _ vfioPCIDriver "/bind"); [set_solver|done..].
Qed.

Lemma enable_bound s s' :
  enablePassthrough pd s = (Ok tt, s') -> driver_of (world s') (pd_address pd) = Some vfioPCIDriver.
Proof.
  unfold enablePassthrough. intros Hrun. apply bind_Ok_inv in Hrun as ([] & s1 & Hbind & Hrun).
  assert (driver_of (world s1) (pd_address pd) = Some vfioPCIDriver) as <-.
  { unfold bindDeviceToVFIOPCIDriver in Hbind. apply bind_Ok_inv in Hbind as (b & s2 & Hb & Hbind).
    apply (deviceBound_spec vfioPCIDriver) in Hb as [-> Hk]; [|done..].
    case_bool_decide as Hv.
    - injection Hbind as <-. by rewrite Hk.
    - do 5 apply bind_Ok_inv in Hbind as (? & ? & _ & Hbind). apply bind_Ok_inv in Hbind as (b & s3 & Hb & Hbind).
      apply (deviceBound_spec vfioPCIDriver) in Hb as [-> Hk']; [|done..].
      case_bool_decide as Hv'; [|done]. injection Hbind as <-. by rewrite Hk'. }
  assert (Steps drivers_kept (updated <- eff (ApiUpdateStatus KPCIDevice
    (set_pd_status (set_KernelDriverInUse vfioPCIDriver (pd_Status pd)) pd)) ;; ret tt)) as Hk by steps_tac.
  specialize (Hk s1). unfold bind in *. revert Hrun Hk.
  destruct (eff _ s1) as [[o|e|p] s2]; [|done..]. intros [= <-] Hk. apply Hk.
Qed.

Lemma attempt_bound pdc c s s' :
  attemptToEnablePassthrough pd pdc s = (Ok c, s') -> driver_of (world s') (pd_address pd) = Some vfioPCIDriver.
Proof.
  unfold attemptToEnablePassthrough. intros Hrun. apply bind_Ok_inv in Hrun as (b & s1 & Hb & Hrun).
  apply (deviceBound_spec vfioPCIDriver) in Hb as [-> Hk]; [|done..].
  apply bind_Ok_inv in Hrun as ([] & s2 & Hmid & Hrun). injection Hrun as _ <-.
  case_bool_decide as Hv; simpl in Hmid.
  - injection Hmid as <-. by rewrite Hk.
  - do 2 apply bind_Ok_inv in Hmid as (? & ? & _ & Hmid). by eapply enable_bound.
Qed.

Lemma attempt_others pdc : Steps (others_kept (pd_address pd)) (attemptToEnablePassthrough pd pdc).
Proof.
  unfold attemptToEnablePassthrough. apply Steps_bind; [typeclasses eauto|auto with pcidev|]. intros b.
  apply Steps_bind; [typeclasses eauto| |steps_tac]. intros. destruct b; simpl; [steps_tac|].
  apply Steps_bind; [typeclasses eauto| |intros _; apply Steps_bind; [typeclasses eauto| |intros _; apply enable_others]].
  - case_bool_decide as Hin; simpl; [steps_tac|]. apply unbind_others. by apply wd_in_use.
  - destruct (pd_annotation pd PciDeviceDriver) as [d|] eqn:E; [|steps_tac]. apply unbind_others. by apply (wd_original pd Hwf).
Qed.

Lemma disable_others : Steps (others_kept (pd_address pd)) (disablePassthrough pd).
Proof.
  unfold disablePassthrough. apply Steps_bind; [typeclasses eauto| |intros _].
  - apply Steps_on_err, unbind_others. reflexivity.
  - unfold bindDeviceToOriginalDriver. destruct (pd_annotation pd PciDeviceDriver) as [d|] eqn:E; [|steps_tac].
    pose proof (wd_original pd Hwf d E) as Hd. steps_tac. apply (others_bind _ d "/bind"); [set_solver|done..].
Qed.

Lemma disable_bound d s s' :
  pd_annotation pd PciDeviceDriver = Some d ->
  disablePassthrough pd s = (Ok tt, s') -> driver_of (world s') (pd_address pd) = Some d.
Proof.
  intros Hann. pose proof (wd_original pd Hwf d Hann) as Hd. unfold disablePassthrough. intros Hrun.
  apply bind_Ok_inv in Hrun as ([] & s1 & _ & Hrun). unfold bindDeviceToOriginalDriver in Hrun. rewrite Hann in Hrun.
  assert (d <> "") as Hne by (intros ->; discriminate Hd). rewrite (bool_decide_eq_false_2 (d = "")) in Hrun by done.
  apply bind_Ok_inv in Hrun as (b & s2 & Hb & Hrun).
  apply (deviceBound_spec d) in Hb as [-> Hk]; [|done..]. case_bool_decide as Hv.
  - injection Hrun as <-. by rewrite Hk.
  - apply bind_Ok_inv in Hrun as ([] & s3 & _ & Hrun). apply bind_Ok_inv in Hrun as ([] & s4 & Hw & Hrun).
    assert (driver_of (world s4) (pd_address pd) = Some d) as <-.
    { apply eff_Ok_inv in Hw as [Hw _]. by eapply (sysfs_bind (world s3) (world s4) d). }
    pose proof (kept_calm (ApiUpdateStatus KPCIDevice (set_pd_status (set_KernelDriverInUse d (pd_Status pd)) pd))
      eq_refl s4) as Hk'.
    apply bind_Ok_inv in Hrun as (o & s5 & Hu & Hrun). injection Hrun as <-. rewrite Hu in Hk'. apply Hk'.
Qed.

(** *** The handlers *)
Lemma permit_kept : Steps drivers_kept (permitHostDeviceInKubeVirt pd).
Proof. unfold permitHostDeviceInKubeVirt. steps_tac. Qed.
Lemma modify_kept f : Steps drivers_kept (modify_mem f).
Proof. by intros s b. Qed.
#[local] Hint Resolve modify_kept : pcidev.
Lemma add_kept r c : Steps drivers_kept (add_to_plugin r pd c).
Proof. unfold add_to_plugin, store_plugin. steps_tac. Qed.
Lemma remove_kept r c : Steps drivers_kept (remove_from_plugin r c).
Proof. unfold remove_from_plugin, store_plugin, Stop, cleanup. steps_tac. Qed.
Lemma cleanup_kept : Steps drivers_kept (cleanupIndividualDeviceResourceName pd).
Proof. unfold cleanupIndividualDeviceResourceName. steps_tac. Qed.

Lemma kept_others a {A} (m : M Handler W A) : Steps drivers_kept m -> Steps (others_kept a) m.
Proof. intros Hm s b _ _. apply Hm. Qed.

Lemma run_kept {A} (m : M Handler W A) s o s' b :
  Steps drivers_kept m -> m s = (o, s') -> driver_of (world s') b = driver_of (world s) b.
Proof. intros Hm Hrun. specialize (Hm s b). by rewrite Hrun in Hm. Qed.

(** The part of the handler of a claim that binds its device. *)
Lemma enable_claimed_drivers c s r s' :
  skipDeviceBindingOp c = false -> enable_claimed_device pd c s = (Ok r, s') ->
  driver_of (world s') (pd_address pd) = Some vfioPCIDriver /\ others_kept (pd_address pd) s s'.
Proof.
  intros Hskip Hrun. unfold enable_claimed_device in Hrun. rewrite Hskip in Hrun. cbn [negb] in Hrun.
  apply bind_Ok_inv in Hrun as ([] & s1 & Hp%on_err_Ok_inv & Hrun).
  apply bind_Ok_inv in Hrun as (c' & s2 & Hatt & Hrun).
  assert (forall b, driver_of (world s') b = driver_of (world s2) b) as Htail.
  { intros b. refine (run_kept _ _ _ _ _ _ Hrun). apply Steps_bind; [typeclasses eauto|apply add_kept|].
    intros _. steps_tac. }
  split; [rewrite Htail; by eapply attempt_bound|].
  pose proof (attempt_others c s1) as Ho. rewrite Hatt in Ho. cbn in Ho.
  intros b Hb Hs. rewrite Htail, (Ho b Hb); [|rewrite (run_kept _ _ _ _ b permit_kept Hp); done].
  by apply (run_kept _ _ _ _ _ permit_kept Hp).
Qed.

(** The handler of a removed claim, once it has found the device. *)
Lemma OnRemove_drivers c d s s1 o s' :
  skipDeviceBindingOp c = false -> m_DeletionTimestamp (pdc_meta c) = true ->
  pdc_NodeName (pdc_Spec c) = h_nodeName (mem s) -> getPCIDeviceForClaim c s = (Ok pd, s1) ->
  pd_annotation pd PciDeviceDriver = Some d -> OnRemove (Some c) s = (Ok o, s') ->
  driver_of (world s') (pd_address pd) = Some d /\ others_kept (pd_address pd) s s'.
Proof.
  intros Hskip Hdel Hnode Hget Hann Hrun.
  assert (forall b, driver_of (world s1) b = driver_of (world s) b) as Hk1.
  { intros b. refine (run_kept _ _ _ _ _ _ Hget). unfold getPCIDeviceForClaim. steps_tac. }
  unfold OnRemove in Hrun. rewrite Hdel in Hrun. cbn [negb] in Hrun. unfold bind at 1, get_mem at 1 in Hrun.
  rewrite Hnode, bool_decide_eq_true_2 in Hrun by done. cbn [negb] in Hrun. unfold bind at 1, try at 1 in Hrun.
  rewrite Hget in Hrun. apply with_lock_Ok_inv in Hrun as (s2 & s3 & Hacq & Hbody & Hrel).
  rewrite Hskip in Hbody. cbn [negb] in Hbody. apply bind_Ok_inv in Hbody as ([] & s4 & Hdis & Hbody).
  assert (forall b, driver_of (world s3) b = driver_of (world s4) b) as Hk3.
  { intros b. refine (run_kept _ _ _ _ _ _ Hbody).
    apply Steps_bind; [typeclasses eauto|apply remove_kept|intros _].
    apply Steps_bind; [typeclasses eauto| |intros _; steps_tac].
    destruct (pdc_DisableResourcePooling _); [apply Steps_on_err, cleanup_kept|steps_tac]. }
  assert (forall b, driver_of (world s2) b = driver_of (world s1) b) as Hk2
    by (intros b; exact (run_kept _ _ _ _ _ (kept_calm (LockAcquire claim_lock) eq_refl) Hacq)).
  assert (forall b, driver_of (world s') b = driver_of (world s3) b) as Hk4.
  { intros b. pose proof (kept_calm (LockRelease claim_lock) eq_refl s3 b) as Hk. by rewrite Hrel in Hk. }
  split; [rewrite Hk4, Hk3; by eapply disable_bound|].
  pose proof (disable_others s2) as Ho. rewrite Hdis in Ho. cbn in Ho.
  intros b Hb Hs. rewrite Hk4, Hk3, (Ho b Hb), Hk2, Hk1; [done|by rewrite Hk2, Hk1].
Qed.
End Device.

(** C2: passing a device through and giving it back are inverses on the drivers: when the
    handler of a claim has enabled its device, the device is bound to vfio-pci, and when
    the handler of the claim's removal has succeeded after it, the device is bound to the
    driver that its annotation names again; all other devices that had a driver keep
    it through both. *)
Theorem passthrough_roundtrip (pd pd' : PCIDevice) (c c' : PCIDeviceClaim) (d : string) s s1 s2 s3 r o
    (Hwf : wf_device pd) (Hwf' : wf_device pd') (Hsame : pd_address pd' = pd_address pd)
    (Hskip : skipDeviceBindingOp c = false) (Hskip' : skipDeviceBindingOp c' = false)
    (Henable : enable_claimed_device pd c s = (Ok r, s1))
    (Hremoved : m_DeletionTimestamp (pdc_meta c') = true) (Hnode : pdc_NodeName (pdc_Spec c') = h_nodeName (mem s1))
    (Hdevice : getPCIDeviceForClaim c' s1 = (Ok pd', s2)) (Hdriver : pd_annotation pd' PciDeviceDriver = Some d)
    (Hremove : OnRemove (Some c') s1 = (Ok o, s3)) :
  driver_of (world s1) (pd_address pd) = Some vfioPCIDriver /\
  driver_of (world s3) (pd_address pd) = Some d /\
  forall b, b <> pd_address pd -> driver_of (world s) b <> None -> driver_of (world s3) b = driver_of (world s) b.
Proof.
  destruct (enable_claimed_drivers pd Hwf c s r s1 Hskip Henable) as [Hb1 Ho1].
  destruct (OnRemove_drivers pd' Hwf' c' d s1 s2 o s3 Hskip' Hremoved Hnode Hdevice Hdriver Hremove) as [Hb3 Ho3].
  rewrite Hsame in Hb3, Ho3. split_and!; [done..|].
  assert (others_kept (pd_address pd) s s3) as Ho by (etransitivity; [exact Ho1|exact Ho3]). exact Ho.
Qed.

(** *** Orphans *)
Lemma unbind_post a d s s' :
  plain_name d = true -> plain_name a = true -> unbindDeviceFromDriver a d s = (Ok tt, s') ->
  driver_of (world s') a <> Some d.
Proof.
  intros Hd Ha Hrun. unfold unbindDeviceFromDriver in Hrun. apply bind_Ok_inv in Hrun as (b & s1 & Hb & Hrun).
  apply (deviceBound_spec d) in Hb as [-> Hk]; [|done..]. case_bool_decide as Hv; simpl in Hrun.
  - do 2 apply bind_Ok_inv in Hrun as (? & ? & _ & Hrun). apply bind_Ok_inv in Hrun as (b & s2 & Hb & Hrun).
    apply (deviceBound_spec d) in Hb as [-> Hk']; [|done..]. case_bool_decide as Hv'; [done|].
    injection Hrun as <-. by rewrite Hk'.
  - injection Hrun as <-. by rewrite Hk.
Qed.

Lemma unbind_keeps a b d s s' o :
  plain_name d = true -> plain_name a = true -> unbindDeviceFromDriver a d s = (o, s') ->
  driver_of (world s) b <> Some d -> driver_of (world s') b <> Some d.
Proof.
  intros Hd Ha Hrun Hb. destruct (decide (b = a)) as [->|Hne].
  - pose proof (bound_kept (driver_path d) a s a) as Hk0. unfold driver_path in Hk0.
    unfold unbindDeviceFromDriver, bind at 1 in Hrun.
    destruct (deviceBoundToDriver _ a s) as [[r|e|p] s1] eqn:E; cbn in Hk0.
    + apply (deviceBound_spec d) in E as [-> Hk]; [|done..]. rewrite bool_decide_eq_false_2 in Hrun by done.
      cbn in Hrun. injection Hrun as _ <-. by rewrite Hk.
    + injection Hrun as _ <-. by rewrite Hk0.
    + injection Hrun as _ <-. by rewrite Hk0.
  - assert (driver_of (world s') b = driver_of (world s) b) as ->; [|done].
    assert (Steps (fun s s' => driver_of (world s') b = driver_of (world s) b) (unbindDeviceFromDriver a d)) as Hst.
    { assert (PreOrder (fun s s' : state Handler W => driver_of (world s') b = driver_of (world s) b))
        by (split; [done|intros x y z Hxy Hyz; congruence]).
      unfold unbindDeviceFromDriver. steps_tac; try (intros t; apply bound_kept); try (intros t; by apply kept_calm).
      intros t. rewrite world_eff. apply (sysfs_others (world t) d a b "/unbind"); [set_solver|done..]. }
    specialize (Hst s). by rewrite Hrun in Hst.
Qed.

Definition release_all (l : list PCIDevice) : M Handler W unit :=
  for_each (fun pd => unbindDeviceFromDriver (pd_address pd) vfioPCIDriver) l.

Lemma release_all_keeps l b s s' o :
  Forall (fun pd => plain_name (pd_address pd) = true) l -> release_all l s = (o, s') ->
  driver_of (world s) b <> Some vfioPCIDriver -> driver_of (world s') b <> Some vfioPCIDriver.
Proof.
  intros Hl. revert s. induction Hl as [|pd l Hpd Hl IH]; intros s Hrun Hb; [by injection Hrun as _ <-|].
  unfold release_all in Hrun. cbn [for_each] in Hrun. unfold bind in Hrun.
  destruct (unbindDeviceFromDriver _ _ s) as [[[]|e|p] s1] eqn:E;
    pose proof (unbind_keeps _ b vfioPCIDriver _ _ _ eq_refl Hpd E Hb) as Hb1; [by apply (IH s1)|by injection Hrun as _ <-..].
Qed.

(** At start-up the devices that are passed through without a claim are released: when
    the release returns no error, none of the orphans among the listed devices is
    bound to vfio-pci any more, one after the other without undoing another. *)
Theorem orphans_released (pdcs : list PCIDeviceClaim) (pds orphans : list PCIDevice) s s1 s2 s'
    (Hclaims : eff (ApiList KPCIDeviceClaim "" ∅) s = (Ok pdcs, s1))
    (Hdevices : eff (ApiList KPCIDevice "" ∅) s1 = (Ok pds, s2))
    (Horphans : getOrphanedPCIDevices pdcs pds (h_nodeName (mem s)) = Ok orphans)
    (Hplain : Forall (fun pd => plain_name (pd_address pd) = true) orphans)
    (Hrun : unbindOrphanedPCIDevices s = (Ok tt, s')) :
  Forall (fun pd => driver_of (world s') (pd_address pd) <> Some vfioPCIDriver) orphans.
Proof.
  unfold unbindOrphanedPCIDevices, bind at 1, get_mem in Hrun.
  unfold bind at 1 in Hrun. rewrite Hclaims in Hrun. unfold bind at 1 in Hrun. rewrite Hdevices in Hrun.
  unfold bind at 1, lift_o in Hrun. rewrite Horphans in Hrun. clear - Hrun Hplain.
  change (release_all orphans s2 = (Ok tt, s')) in Hrun. revert s2 Hrun.
  induction Hplain as [|pd l Hpd Hl IH]; intros s Hrun; [constructor|].
  unfold release_all in Hrun. cbn [for_each] in Hrun. apply bind_Ok_inv in Hrun as ([] & s1 & Hone & Hrun).
  constructor; [|by apply (IH s1)]. apply (release_all_keeps l _ s1 s' (Ok tt)); [done..|].
  by apply (unbind_post _ vfioPCIDriver s s1).
Qed.
End Passthrough.

(** ** A kernel that keeps the promises

    [bind] refuses a device that has a driver, [unbind] one that has another; a new
    identity binds every device of that identity that has no driver, and is refused
    when the driver knows it. *)
Record kernel := {
  k_sim : sim;
  k_drivers : gmap string string;
  k_ids : gmap string string;
  k_known : list (string * string)
}.
Definition set_drivers (l : gmap string string) (w : kernel) : kernel :=
  {| k_sim := k_sim w; k_drivers := l; k_ids := k_ids w; k_known := k_known w |}.

(** The driver and the file of a path under the drivers' directory. *)
Definition driver_file (p : string) : option (string * string) :=
  match Split p "/" with
  | ["";"sys";"bus";"pci";"drivers";d;x] => Some (d, x)
  | _ => None
  end.

Definition kernel_write (d x data : string) (w : kernel) : (error + unit) * kernel :=
  if x ==s "bind" then
    match k_drivers w !! data with
    | Some _ => (inl (Errorf "device or resource busy"), w)
    | None => (inr tt, set_drivers (<[data := d]> (k_drivers w)) w)
    end
  else if x ==s "unbind" then
    if bool_decide (k_drivers w !! data = Some d) then (inr tt, set_drivers (delete data (k_drivers w)) w)
    else (inl (Errorf "no such device"), w)
  else if bool_decide ((d, data) ∈ k_known w) then (inl (Error KExist "file exists"), w)
  else (inr tt, {| k_sim := k_sim w;
                   k_drivers := k_drivers w ∪ ((fun _ => d) <$> filter (fun p => p.2 = data) (k_ids w));
                   k_ids := k_ids w; k_known := (d, data) :: k_known w |}).

#[export] Instance kernel_world : World kernel := fun X e w =>
  let other {X} (e : Eff X) :=
    let '(r, w') := sim_world X e (k_sim w) in
    (r, {| k_sim := w'; k_drivers := k_drivers w; k_ids := k_ids w; k_known := k_known w |}) in
  match e in Eff X return (error + X) * kernel with
  | FsStat p =>
      match driver_file p with
      | Some (d, a) => (exists_or (if bool_decide (k_drivers w !! a = Some d) then Some tt else None), w)
      | None => other (FsStat p)
      end
  | FsOpenWrite p => match driver_file p with Some _ => (inr tt, w) | None => other (FsOpenWrite p) end
  | FsWrite p data => match driver_file p with Some (d, x) => kernel_write d x data w | None => other (FsWrite p data) end
  | e => other e
  end.

Lemma driver_file_path d x : plain_name d = true -> str_mem "/"%char x = false ->
  driver_file (driver_path d +:+ "/" +:+ x) = Some (d, x).
Proof.
  intros Hd Hx. unfold plain_name in Hd. apply andb_true_iff in Hd as [Hd%negb_true_iff _]. unfold driver_file.
  assert (driver_path d +:+ "/" +:+ x = Join ["";"sys";"bus";"pci";"drivers";d;x] (str1 "/"%char)) as ->.
  { unfold driver_path. rewrite !app_assoc_str. reflexivity. }
  change "/" with (str1 "/"%char) at 1. rewrite Split_Join_char; [done..|]. repeat constructor; done.
Qed.

Lemma kernel_write_others d x data w b : x ∈ ["bind"; "unbind"] -> b <> data ->
  k_drivers (snd (kernel_write d x data w)) !! b = k_drivers w !! b.
Proof.
  intros Hx Hb. unfold kernel_write.
  rewrite !elem_of_cons in Hx. destruct Hx as [->|[->|Hx]]; [..|by apply not_elem_of_nil in Hx].
  - rewrite bool_decide_eq_true_2 by done. destruct (k_drivers w !! data); [done|]. by apply lookup_insert_ne.
  - rewrite bool_decide_eq_false_2, bool_decide_eq_true_2 by done. case_bool_decide; [|done]. by apply lookup_delete_ne.
Qed.

#[export] Program Instance kernel_sysfs : Sysfs kernel := {| driver_of := fun w a => k_drivers w !! a |}.
Next Obligation.
  intros w d a Hd Ha. cbn. unfold plain_name in Ha. apply andb_true_iff in Ha as [Ha%negb_true_iff _].
  rewrite driver_file_path by done. case_bool_decide as Hv; cbn; split; try done; [by exists w|by intros [? [=]]].
Qed.
Next Obligation.
  intros X e w He. destruct e; try discriminate He; cbn [kernel_world perform];
    try (match goal with |- context [driver_file ?p] => destruct (driver_file p) as [[]|]; [done|] end);
    match goal with |- context [sim_world ?T ?e ?s] => by destruct (sim_world T e s) end.
Qed.
Next Obligation.
  intros w w' d a Hd Ha. cbn [kernel_world perform].
  change (driver_path d +:+ "/bind") with (driver_path d +:+ "/" +:+ "bind"). rewrite driver_file_path by done.
  unfold kernel_write. rewrite bool_decide_eq_true_2 by done.
  destruct (k_drivers w !! a); intros [= <-]. by apply lookup_insert_eq.
Qed.
Next Obligation.
  intros w d a b op Hop Hd Ha Hb. cbn [kernel_world perform].
  rewrite !elem_of_cons in Hop. destruct Hop as [->|[->|Hop]]; [..|by apply not_elem_of_nil in Hop].
  - change (driver_path d +:+ "/bind") with (driver_path d +:+ "/" +:+ "bind"). rewrite driver_file_path by done.
    apply kernel_write_others; [by left|done].
  - change (driver_path d +:+ "/unbind") with (driver_path d +:+ "/" +:+ "unbind"). rewrite driver_file_path by done.
    apply kernel_write_others; [by right; left|done].
Qed.
Next Obligation.
  intros w d id b Hd Hb. cbn [kernel_world perform].
  change (driver_path d +:+ "/new_id") with (driver_path d +:+ "/" +:+ "new_id"). rewrite driver_file_path by done.
  unfold kernel_write. rewrite !bool_decide_eq_false_2 by done. case_bool_decide; [done|]. cbn [snd k_drivers].
  destruct (k_drivers w !! b) as [x|] eqn:E; [|done]. by apply lookup_union_Some_l.
Qed.

(** ** A claim's life on a node *)
Definition annotated_pd : PCIDevice :=
  set_pd_meta (set_Annotations {[ PciDeviceDriver := "nvidia" ]} (pd_meta gpu_pd)) gpu_pd.
Definition roundtrip_kernel : kernel :=
  {| k_sim := put KPCIDevice annotated_pd gpu_node; k_drivers := {[ "0000:04:00.0" := "nvidia"; "0000:05:00.0" := "igb" ]};
     k_ids := {[ "0000:04:00.0" := "10de 20b0"; "0000:06:00.0" := "10de 20b0" ]};
     k_known := [("vfio-pci", pd_VendorID (pd_Status gpu_pd) +:+ " " +:+ pd_DeviceID (pd_Status gpu_pd))] |}.
Definition removed_claim : PCIDeviceClaim :=
  {| pdc_meta := {| m_Kind := ""; m_APIVersion := ""; m_Name := m_Name (pdc_meta gpu_claim); m_Namespace := "";
       m_UID := ""; m_Labels := ∅; m_Annotations := ∅;
       m_OwnerReferences := m_OwnerReferences (pdc_meta gpu_claim); m_Finalizers := [];
       m_DeletionTimestamp := true |};
     pdc_Spec := pdc_Spec gpu_claim; pdc_Status := pdc_Status gpu_claim |}.
Definition roundtrip_start : state Handler kernel := State handler1 roundtrip_kernel.

Lemma wf_annotated pd : pd_address pd = "0000:04:00.0" -> pd_annotation pd PciDeviceDriver = Some "nvidia" ->
  TrimSpace (pd_KernelDriverInUse (pd_Status pd)) = "" \/ plain_name (pd_KernelDriverInUse (pd_Status pd)) = true ->
  wf_device pd.
Proof. intros Ha Hd Hu. split; [by rewrite Ha|by intros ?; destruct Hu|]. rewrite Hd. by intros d [= <-]. Qed.

Lemma passthrough_roundtrip_witness :
  exists r s1 o s3, enable_claimed_device annotated_pd gpu_claim roundtrip_start = (Ok r, s1) /\
    OnRemove (Some removed_claim) s1 = (Ok o, s3) /\
    driver_of (world s1) "0000:04:00.0" = Some vfioPCIDriver /\
    driver_of (world s3) "0000:04:00.0" = Some "nvidia" /\ driver_of (world s3) "0000:05:00.0" = Some "igb".
Proof.
  pose (run := enable_claimed_device annotated_pd gpu_claim roundtrip_start).
  assert (match run with
    | (Ok _, s1) =>
        match getPCIDeviceForClaim removed_claim s1, OnRemove (Some removed_claim) s1 with
        | (Ok pd', _), (o, _) => is_Ok o && bool_decide (pd_address pd' = "0000:04:00.0") &&
            bool_decide (pd_annotation pd' PciDeviceDriver = Some "nvidia") &&
            plain_name (pd_KernelDriverInUse (pd_Status pd')) && bool_decide (h_nodeName (mem s1) = "node1")
        | _, _ => false
        end
    | _ => false
    end = true) as Hok by (vm_compute; reflexivity).
  destruct run as [[r|e|p] s1] eqn:E; [|discriminate Hok..].
  destruct (getPCIDeviceForClaim removed_claim s1) as [[pd'|e|p] s2] eqn:Eg; [|discriminate Hok..].
  destruct (OnRemove (Some removed_claim) s1) as [[o|e|p] s3] eqn:Eo; [|discriminate Hok..].
  rewrite !andb_true_iff, !bool_decide_eq_true in Hok. destruct Hok as [[[[_ Ha] Hd] Hu] Hn].
  assert (wf_device annotated_pd) as Hwf
    by (apply wf_annotated; [reflexivity..|right; vm_compute; reflexivity]).
  assert (wf_device pd') as Hwf' by (apply wf_annotated; auto).
  destruct (passthrough_roundtrip annotated_pd pd' gpu_claim removed_claim "nvidia" roundtrip_start s1 s2 s3 r o Hwf Hwf'
    Ha eq_refl eq_refl E eq_refl ltac:(rewrite Hn; reflexivity) Eg Hd Eo) as (H1 & H3 & Ho).
  exists r, s1, o, s3. split_and!; [done..|]. apply (Ho "0000:05:00.0"); discriminate.
Defined.

(** The first device of an identity: [new_id] binds it at once, and with it the other
    device of that identity that has no driver; the write to [bind] is then refused,
    the handler fails, and its next run finds the device bound. *)
Example first_of_identity :
  let w := {| k_sim := k_sim roundtrip_kernel; k_drivers := k_drivers roundtrip_kernel;
              k_ids := (fun _ => pd_VendorID (pd_Status gpu_pd) +:+ " " +:+ pd_DeviceID (pd_Status gpu_pd))
                <$> k_ids roundtrip_kernel; k_known := [] |} in
  let '(r1, s1) := enable_claimed_device annotated_pd gpu_claim (State handler1 w) in
  let '(r2, s2) := enable_claimed_device annotated_pd gpu_claim s1 in
  is_Ok r1 = false /\ driver_of (world s1) "0000:06:00.0" = Some vfioPCIDriver /\ is_Ok r2 = true /\
  driver_of (world s2) "0000:04:00.0" = Some vfioPCIDriver.
Proof. vm_compute. split_and!; reflexivity. Qed.
