(* ===== verification/Common.v ===== *)
(** * Shared helpers (pkg/util/common/common.go)

    SR-IOV files of a device, the index functions of virtual machines and
    devices, the resource name of a vGPU type and JSON pointer escaping. *)

From S2P Require Import Prelude GoStrings GoStringLemmas GoMonad Types Effects Sim.
From Stdlib Require Import Ascii.

Definition defaultConfiguredVFFile : string := "sriov_numvfs".
Definition defaultVFCheckFile : string := "sriov_vf_device".

Section Files.
Context {Mem W : Type} `{World W}.

Definition IsDeviceSRIOVCapable (devicePath : string) : M Mem W bool :=
  let vfCheckFilePath := PathJoin [devicePath; defaultVFCheckFile] in
  st <- try (eff (FsStat vfCheckFilePath)) ;;
  match st with
  | inl e => if IsNotExist e then ret false else fail e
  | inr _ =>
      contents <- eff (FsReadFile vfCheckFilePath) ;;
      ret (negb (TrimSuffix contents newline ==s "0"))
  end.

Definition CurrentVFConfigured (devicePath : string) : M Mem W Z :=
  contents <- on_err (fun _ => Errorf "error reading sriov_numvfs for device")
    (eff (FsReadFile (PathJoin [devicePath; defaultConfiguredVFFile]))) ;;
  match Atoi (Trim contents newline) with
  | Some n => ret n
  | None => fail (Errorf "strconv.Atoi: parsing sriov_numvfs")
  end.

(** One [virtfn*] entry: the target of a link; anything else is skipped. *)
Definition vf_of_dir (vfList : list string) (dir : string) : M Mem W (list string) :=
  dirInfo <- try (eff (FsLstatSymlink dir)) ;;
  match dirInfo with
  | inr true =>
      linkName <- try (eff (FsEvalSymlinks dir)) ;;
      match linkName with
      | inr l => ret (vfList ++ [Base l])
      | inl _ => ret vfList
      end
  | _ => ret vfList
  end.

Definition GetVFList (pfDir : string) : M Mem W (list string) :=
  on_err (fun _ => Errorf "error: could not get PF directory information for device")
    (eff (FsLstatSymlink pfDir)) ;;;
  vfDirs <- on_err (fun _ => Errorf "error reading VF directories")
    (eff (FsGlob (PathJoin [pfDir; "virtfn*"]))) ;;
  fold_m vf_of_dir [] vfDirs.
End Files.

(** ** Index functions *)
Definition nil_dereference : string := "invalid memory address or nil pointer dereference".
Definition VMBySpecHostDeviceName (obj : VirtualMachine) : outcome (list string) :=
  if vm_Template obj then Ok (dr_Name <$> vm_HostDevices obj) else Panic nil_dereference.

(** What reads the devices of a VM's template. *)
Definition with_template {Mem W A} (vm : VirtualMachine) (m : M Mem W A) : M Mem W A :=
  if vm_Template vm then m else panic nil_dereference.

Section Indexers.
Context `{External} `{MapOrder}.

Definition generateDeviceAllocationDetails (allocationDetails : string) : outcome AllocationDetails :=
  match unmarshal_AllocationDetails allocationDetails with
  | Some d => Ok d
  | None => Err (Errorf "json: cannot unmarshal allocation details")
  end.

(** The names of all resources, one resource after the other. *)
Definition generateDeviceInfo (devices : gmap string (list string)) : list string :=
  concat (range devices).*2.

Definition generateHostDeviceAllocation (allocationDetails : string) : outcome (list string) :=
  match generateDeviceAllocationDetails allocationDetails with
  | Ok allocation => Ok (generateDeviceInfo (ad_HostDevices allocation))
  | _ => Err (Errorf "error generating device allocation details")
  end.

Definition VMByHostDeviceName (obj : VirtualMachine) : outcome (list string) :=
  match m_Annotations (vm_meta obj) !! DeviceAllocationKey with
  | None => Ok []
  | Some allocationDetails => generateHostDeviceAllocation allocationDetails
  end.
End Indexers.

Definition USBDeviceByResourceName (obj : USBDevice) : outcome (list string) :=
  Ok [usb_ResourceName (usb_Status obj)].

(** ** The resource name of a vGPU type *)

Definition bad_prefix : string := "a-zA-Z0-9_-".

(** The pattern of the source starts with a circumflex and holds no opening
    bracket: it matches, at the start of the text only, the literal characters of
    the intended class, one more character and a run of closing brackets. *)
Definition drop_bad_prefix (s : string) : string :=
  if HasPrefix s bad_prefix then
    match str_drop (String.length bad_prefix) s with
    | String c (String d rest) =>
        if negb (bool_decide (c = "010"%char)) && bool_decide (d = "]"%char)
        then trim_left (fun e => bool_decide (e = "]"%char)) rest
        else s
    | _ => s
    end
  else s.

Definition GeneratevGPUDeviceName (deviceName : string) : string :=
  let deviceName := TrimSpace deviceName in
  let deviceName := ReplaceAll deviceName "/" "_" in
  let deviceName := ReplaceAll deviceName "." "_" in
  let deviceName := re_space_ReplaceAll deviceName "_" in
  let deviceName := drop_bad_prefix deviceName in
  "nvidia.com/" +:+ deviceName.

Definition VGPUDeviceByResourceName (obj : VGPUDevice) : outcome (list string) :=
  Ok [GeneratevGPUDeviceName (vgpu_ConfiguredVGPUTypeName (vgpu_Status obj))].

(** ** JSON pointers *)
Fixpoint EscapeJSONPointer (s : string) : string :=
  match s with
  | EmptyString => EmptyString
  | String c s' =>
      (if bool_decide (c = "~"%char) then "~0"
       else if bool_decide (c = "/"%char) then "~1"
       else str1 c) +:+ EscapeJSONPointer s'
  end.

(** The reading of a token by RFC 6901. *)
Fixpoint unescape (s : string) : string :=
  match s with
  | EmptyString => EmptyString
  | String c s' =>
      if bool_decide (c = "~"%char) then
        match s' with
        | String d s'' =>
            if bool_decide (d = "0"%char) then String "~" (unescape s'')
            else if bool_decide (d = "1"%char) then String "/" (unescape s'')
            else String c (unescape s')
        | EmptyString => String c EmptyString
        end
      else String c (unescape s')
  end.

(** An annotation key escaped for a JSON patch path is one token (it holds no
    slash), and the reader of the patch gets the key back. *)
Theorem EscapeJSONPointer_roundtrip (s : string) :
  no_slash (EscapeJSONPointer s) = true /\ unescape (EscapeJSONPointer s) = s.
Proof.
  unfold no_slash. rewrite negb_true_iff. induction s as [|c s [IH1 IH2]]; [done|].
  cbn [EscapeJSONPointer]. rewrite str_mem_app, IH1, orb_false_r.
  case_bool_decide as H1; [|case_bool_decide as H2]; subst; split; try done.
  - change (unescape ("~0" +:+ EscapeJSONPointer s)) with (String "~" (unescape (EscapeJSONPointer s))).
    by rewrite IH2.
  - change (unescape ("~1" +:+ EscapeJSONPointer s)) with (String "/" (unescape (EscapeJSONPointer s))).
    by rewrite IH2.
  - simpl. by rewrite orb_false_r, bool_decide_eq_false_2.
  - rewrite str1_app. cbn [unescape]. by rewrite bool_decide_eq_false_2, IH2.
Qed.

Lemma trim_left_id P s : str_forallb (fun c => negb (P c)) s = true -> trim_left P s = s.
Proof.
  destruct s as [|c s]; [done|]. simpl. rewrite andb_true_iff, negb_true_iff. by intros [-> _].
Qed.
Lemma trim_right_id P s : str_forallb (fun c => negb (P c)) s = true -> trim_right P s = s.
Proof.
  induction s as [|c s IH]; [done|]. simpl. rewrite andb_true_iff, negb_true_iff.
  intros [Hc Hs]. rewrite (IH Hs). destruct s; [by rewrite Hc|done].
Qed.
Lemma collapse_id by_ b s :
  str_forallb (fun c => negb (is_re_space c)) s = true -> collapse_go by_ b s = s.
Proof.
  revert b. induction s as [|c s IH]; intros b; [done|]. simpl. rewrite andb_true_iff, negb_true_iff.
  intros [-> Hs]. by rewrite IH.
Qed.

(** A character that none of the replacements looks for. *)
Definition untouched (c : ascii) : bool :=
  negb (is_space c) && negb (bool_decide (c = "/"%char)) && negb (bool_decide (c = "."%char)).

(** Only slashes, dots and white space of a vGPU type name are cleaned up:
    any other character, whether or not the class named in the comment of
    [GeneratevGPUDeviceName] allows it, stays in the resource name, unless the
    type name begins with the text of that class itself. *)
Theorem GeneratevGPUDeviceName_keeps (s : string)
    (Hstart : HasPrefix s bad_prefix = false) (Hplain : str_forallb untouched s = true) :
  GeneratevGPUDeviceName s = "nvidia.com/" +:+ s.
Proof.
  assert (forall P, (forall c, untouched c = true -> P c = true) -> str_forallb P s = true) as Hall.
  { intros P HP. by eapply str_forallb_impl. }
  assert (TrimSpace s = s) as Htrim.
  { assert (str_forallb (fun c => negb (is_space c)) s = true) as Hsp.
    { apply Hall. intros c. unfold untouched. rewrite !andb_true_iff. tauto. }
    unfold TrimSpace. by rewrite trim_left_id, trim_right_id. }
  unfold GeneratevGPUDeviceName. rewrite Htrim.
  assert (forall c, untouched c = false -> ReplaceAll s (str1 c) "_" = s) as Hrep.
  { intros c Hc. by apply ReplaceAll_char_id, (str_mem_forallb _ untouched). }
  pose proof (Hrep "/"%char eq_refl) as Hr1. pose proof (Hrep "."%char eq_refl) as Hr2.
  change (str1 "/"%char) with "/" in Hr1. change (str1 "."%char) with "." in Hr2.
  rewrite Hr1, Hr2.
  unfold re_space_ReplaceAll. rewrite collapse_id.
  - unfold drop_bad_prefix. by rewrite Hstart.
  - apply Hall. intros c. unfold untouched, is_re_space. rewrite !andb_true_iff, !negb_true_iff.
    intros [[-> _] _]. done.
Qed.

Lemma GeneratevGPUDeviceName_keeps_witness :
  GeneratevGPUDeviceName "GRID+A100(1-5C)" = "nvidia.com/GRID+A100(1-5C)".
Proof. apply GeneratevGPUDeviceName_keeps; vm_compute; reflexivity. Defined.

Example GeneratevGPUDeviceName_demo :
  GeneratevGPUDeviceName "NVIDIA A2-4Q " = "nvidia.com/NVIDIA_A2-4Q".
Proof. vm_compute. reflexivity. Qed.

(** ** The shared helpers change nothing in memory and never panic *)
Section HelperLemmas.
Context {Mem W : Type} `{World W}.

Lemma NoPanic_CurrentVFConfigured p : NoPanic (Mem := Mem) (CurrentVFConfigured p).
Proof. unfold CurrentVFConfigured. nopanic_tac. Qed.
Lemma NoPanic_GetVFList p : NoPanic (Mem := Mem) (GetVFList p).
Proof. unfold GetVFList, vf_of_dir. nopanic_tac. Qed.
Lemma NoPanic_IsDeviceSRIOVCapable p : NoPanic (Mem := Mem) (IsDeviceSRIOVCapable p).
Proof. unfold IsDeviceSRIOVCapable. nopanic_tac. Qed.
Lemma same_mem_GetVFList p : Steps (@same_mem Mem W) (GetVFList p).
Proof. unfold GetVFList, vf_of_dir. steps_tac. Qed.
End HelperLemmas.
#[export] Hint Resolve NoPanic_CurrentVFConfigured NoPanic_GetVFList NoPanic_IsDeviceSRIOVCapable
  same_mem_GetVFList : pcidev.
