(* ===== verification/Mig.v ===== *)
(** * MIG instances of a GPU (pkg/util/gpuhelper/mig.go)

    The commands of nvidia-smi that list, create and delete the instances of a
    GPU, and the reading of the tables they print.  A row of a table loses its
    vertical bars, and what is left is split at its runs of white space; the
    fields are then taken by position, so that a short row is a panic. *)

From S2P Require Import Prelude GoStrings GoStringLemmas GoMonad Types Effects Sim.
From Stdlib Require Import Ascii.

Definition MigPrefix : string := "MIG".
Definition NA : string := "[N/A]".

(** ** Commands *)
Definition generateMigStatusCheckCommand (address : string) : string :=
  "nvidia-smi -i " +:+ address +:+ " --query-gpu=mig.mode.current --format=csv,noheader".
Definition generateListMIGProfileCommand (address : string) : string :=
  "nvidia-smi mig -i " +:+ address +:+ " -lgip".
Definition generateListMIGComputeInstanceCommand (address : string) : string :=
  "nvidia-smi mig -i " +:+ address +:+ " -lci || exit 0".
Definition generateListMigInstanceInfoCommand (address : string) : string :=
  "nvidia-smi mig -i " +:+ address +:+ " -lgi || exit 0".
Definition generateCreateInstanceCommand (address : string) (profile : Z) : string :=
  "nvidia-smi mig -i " +:+ address +:+ " -cgi " +:+ Itoa profile +:+ " -C".
Definition generateDeleteComputeInstanceCommand (address instance_ : string) : string :=
  "nvidia-smi mig -i " +:+ address +:+ " -dci -gi " +:+ instance_.
Definition generateDeleteGPUInstanceCommand (address instance_ : string) : string :=
  "nvidia-smi mig -i " +:+ address +:+ " -dgi -gi " +:+ instance_.
Definition generateEnableMIGModeCommand (address : string) : string :=
  "nvidia-smi -i " +:+ address +:+ " -mig 1".

(** ** Tables *)
Definition parseMigInfo (input : string) : outcome (list string) :=
  let '(lines, ok) := ScanLines input in
  if ok : bool then Ok (List.filter (fun line => Contains line MigPrefix) lines)
  else Err (Errorf "bufio.Scanner: token too long").

Definition clean_row (v : string) : string :=
  re_space_ReplaceAll (TrimSpace (ReplaceAll v "|" "")) ",".

(** [elements[i]]. *)
Definition element (elements : list string) (i : nat) : outcome string :=
  match elements !! i with
  | Some e => Ok e
  | None => Panic "index out of range"
  end.

Record MigProfiles := { mp_Name : string; mp_ID : Z }.

Definition generateProfile (profileInfo : string) : outcome (MigProfiles * string * string) :=
  let elements := Split profileInfo "," in
  e1 <-o element elements 1 ;;
  e2 <-o element elements 2 ;;
  e3 <-o element elements 3 ;;
  match Atoi e3 with
  | None => Err (Errorf "error converting profile id to string")
  | Some id =>
      e4 <-o element elements 4 ;;
      let capacity := Split e4 "/" in
      available <-o element capacity 0 ;;
      total <-o element capacity 1 ;;
      Ok ({| mp_Name := e1 +:+ " " +:+ e2; mp_ID := id |}, available, total)
  end.

Definition generateProfileSpec (input : string) : outcome (list MigProfileRequest) :=
  match parseMigInfo input with
  | Ok info =>
      omapM (fun v =>
        match generateProfile (clean_row v) with
        | Ok (profile, _, _) =>
            Ok {| mpr_Name := mp_Name profile; mpr_ID := mp_ID profile; mpr_Requested := 0 |}
        | Err _ => Err (Errorf "error calling generateProfile in GenerateProfileSpec")
        | Panic p => Panic p
        end) info
  | _ => Err (Errorf "error parsing mig info")
  end.

(** One row: the instance is added to those of its profile, once. *)
Definition instance_row (profileMap : gmap string (list string)) (v : string)
    : outcome (gmap string (list string)) :=
  let elements := Split (clean_row v) "," in
  e3 <-o element elements 3 ;;
  e4 <-o element elements 4 ;;
  let ids := default [] (profileMap !! e3) in
  Ok (<[e3 := if slices_Contains ids e4 then ids else ids ++ [e4]]> profileMap).

Fixpoint generateProfileInstanceMap_go (profileMap : gmap string (list string)) (info : list string)
    : outcome (gmap string (list string)) :=
  match info with
  | [] => Ok profileMap
  | v :: info' => m <-o instance_row profileMap v ;; generateProfileInstanceMap_go m info'
  end.
Definition generateProfileInstanceMap (info : list string) : outcome (gmap string (list string)) :=
  generateProfileInstanceMap_go ∅ info.

Definition isMigSupported (info : string) : bool := negb (Contains info NA).

Definition generateComputeInstanceList (info : string) : outcome (list string) :=
  match parseMigInfo info with
  | Ok parsedInfo => omapM (fun v => element (Split (clean_row v) ",") 1) parsedInfo
  | _ => Err (Errorf "error parsing mig info")
  end.

Section Ranges.
Context `{MapOrder}.

(** The map with its keys read as numbers. *)
Fixpoint int_keys (entries : list (string * list string)) (profileIntMap : gmap Z (list string))
    : outcome (gmap Z (list string)) :=
  match entries with
  | [] => Ok profileIntMap
  | (k, v) :: rest =>
      match Atoi k with
      | Some intK => int_keys rest (<[intK := v]> profileIntMap)
      | None => Err (Errorf "error converting to int")
      end
  end.

Definition generateMIGInstanceInfo (instanceInfo : string) : outcome (gmap Z (list string)) :=
  match parseMigInfo instanceInfo with
  | Ok info =>
      profileStringMap <-o generateProfileInstanceMap info ;;
      int_keys (range profileStringMap) ∅
  | _ => Err (Errorf "error parsing instance info")
  end.

Definition profile_status (v : string) : outcome MigProfileStatus :=
  p <-o generateProfile (clean_row v) ;;
  let '(profile, available, total) := p in
  match Atoi available with
  | None => Err (Errorf "error converting available count to int")
  | Some availableInt =>
      match Atoi total with
      | None => Err (Errorf "error converting total count to int")
      | Some totalInt =>
          Ok {| mps_Name := mp_Name profile; mps_ID := mp_ID profile;
                mps_Available := availableInt; mps_Total := totalInt; mps_VGPUID := [] |}
      end
  end.

Definition set_VGPUID (ids : list string) (p : MigProfileStatus) : MigProfileStatus :=
  {| mps_Name := mps_Name p; mps_ID := mps_ID p; mps_Available := mps_Available p;
     mps_Total := mps_Total p; mps_VGPUID := ids |}.

(** The statuses with their instances; an entry of the map is never an empty list,
    so a profile without instances has the nil slice of a new status. *)
Definition GenerateProfileStatus (profileInfo instanceInfo : string) : outcome (list MigProfileStatus) :=
  match parseMigInfo profileInfo with
  | Ok info =>
      profileStatuses <-o omapM profile_status info ;;
      match generateMIGInstanceInfo instanceInfo with
      | Ok profileInstanceMap =>
          Ok ((fun v => match profileInstanceMap !! mps_ID v with
                        | Some ids => set_VGPUID ids v
                        | None => v
                        end) <$> profileStatuses)
      | Err _ => Err (Errorf "error profile instance map")
      | Panic p => Panic p
      end
  | _ => Err (Errorf "error parsing mig info")
  end.
End Ranges.

(** ** Instances *)
Section Commands.
Context `{MapOrder} {Mem W : Type} `{World W}.
#[local] Abbreviation M := (M Mem W).
Implicit Types (ex : Executor).

(** [ex.Run(cmd, nil)]. *)
Definition Run ex (cmd : string) : M string := eff (ExecRun ex cmd []).

Definition IsMigConfigurationNeeded ex (deviceAddress : string) : M bool :=
  result <- on_err (Wrapf "error executing") (Run ex (generateMigStatusCheckCommand deviceAddress)) ;;
  ret (isMigSupported result).

Definition GenerateMIGConfiguration ex (deviceAddress deviceName : string) : M MigConfiguration :=
  profileResult <- on_err (Wrapf "error executing") (Run ex (generateListMIGProfileCommand deviceAddress)) ;;
  profileInfo <- on_err (Wrapf "error generating migconfiguration profile info")
    (lift_o (generateProfileSpec profileResult)) ;;
  ret {| mig_meta := new_meta deviceName ∅ ∅;
         mig_Spec := {| mig_Enabled := false; mig_GPUAddress := deviceAddress; mig_NodeName := "";
                        mig_ProfileSpec := Some profileInfo |};
         mig_Status := {| mig_ProfileStatus := None; mig_status := ""; mig_Message := "" |} |}.

Definition GenerateMIGConfigurationStatus ex (deviceAddress : string) : M MigConfigurationStatus :=
  instanceResult <- on_err (Wrapf "error executing")
    (Run ex (generateListMigInstanceInfoCommand deviceAddress)) ;;
  profileResult <- on_err (Wrapf "error executing") (Run ex (generateListMIGProfileCommand deviceAddress)) ;;
  profileStatus <- on_err (fun _ => Errorf "error generating profile status")
    (lift_o (GenerateProfileStatus profileResult instanceResult)) ;;
  ret {| mig_ProfileStatus := Some profileStatus; mig_status := ""; mig_Message := "" |}.

Definition CreateMIGInstance ex (deviceAddress : string) (profileID : Z) : M unit :=
  on_err (Wrapf "error executing") (Run ex (generateCreateInstanceCommand deviceAddress profileID)) ;;;
  ret tt.

(** The requests that ask for instances. *)
Definition wanted (mig : MigConfiguration) : list MigProfileRequest :=
  List.filter (fun v => 0 <? mpr_Requested v)%Z (default [] (mig_ProfileSpec (mig_Spec mig))).

(** The conversion [sort.IntSlice(impactedProfiles)] leaves the order as it is. *)
Definition EnableMIGProfiles ex (mig : MigConfiguration) : M unit :=
  let impactedProfiles := mpr_ID <$> wanted mig in
  let requestMap : gmap Z Z := fold_left (fun m v => <[mpr_ID v := mpr_Requested v]> m) (wanted mig) ∅ in
  for_each (fun profile =>
    for_each (fun _ =>
      on_err (Wrapf "failed creation for MIG configuration")
        (CreateMIGInstance ex (mig_GPUAddress (mig_Spec mig)) profile))
      (seq 0 (Z.to_nat (default 0%Z (requestMap !! profile)))))
    impactedProfiles.

(** The instance is listed under some profile; the deletion it leads to does not
    depend on which, and ends the loop. *)
Definition DeleteMIGInstance ex (deviceAddress migInstanceID : string) : M unit :=
  listComputeInstanceOutput <- on_err (Wrapf "error executing")
    (Run ex (generateListMIGComputeInstanceCommand deviceAddress)) ;;
  computeInstanceIDs <- on_err (Wrapf "error generating compute instance IDs")
    (lift_o (generateComputeInstanceList listComputeInstanceOutput)) ;;
  (if slices_Contains computeInstanceIDs migInstanceID
   then on_err (Wrapf "error deleting compute instance")
          (Run ex (generateDeleteComputeInstanceCommand deviceAddress migInstanceID)) ;;; ret tt
   else ret tt) ;;;
  listMigInstanceOutput <- on_err (Wrapf "error executing")
    (Run ex (generateListMigInstanceInfoCommand deviceAddress)) ;;
  profileInstanceMap <- on_err (Wrapf "error generating profileInstanceMap")
    (lift_o (generateMIGInstanceInfo listMigInstanceOutput)) ;;
  if existsb (fun e : Z * list string => slices_Contains e.2 migInstanceID) (range profileInstanceMap)
  then Run ex (generateDeleteGPUInstanceCommand deviceAddress migInstanceID) ;;; ret tt
  else ret tt.

Definition DisableMIGProfiles ex (mig : MigConfiguration) : M unit :=
  for_each (fun profiles =>
    for_each (fun id =>
      on_err (Wrapf "error deleting instance on gpu")
        (DeleteMIGInstance ex (mig_GPUAddress (mig_Spec mig)) id))
      (mps_VGPUID profiles))
    (default [] (mig_ProfileStatus (mig_Status mig))).

Definition EnableMIGMode ex (deviceAddress : string) : M unit :=
  on_err (Wrapf "error executing") (Run ex (generateEnableMIGModeCommand deviceAddress)) ;;;
  ret tt.
End Commands.

(** ** Printed tables

    A row as nvidia-smi prints it: words, each after some blanks, between two
    bars.  The other lines of a table do not mention MIG. *)
Definition is_blank (c : ascii) : bool := bool_decide (c = " "%char).
Definition is_word_char (c : ascii) : bool :=
  negb (is_space c) && negb (bool_decide (c = "|"%char)) && negb (bool_decide (c = ","%char)).

Record trow := { r_cells : list (string * string); r_end : string }.
Definition fields (r : trow) : list string := (r_cells r).*2.

Definition cells_text (cells : list (string * string)) (last : string) : string :=
  foldr (fun p t => p.1 +:+ p.2 +:+ t) last cells.
Definition row_text (r : trow) : string := "|" +:+ cells_text (r_cells r) (r_end r) +:+ "|".

Definition wf_cell (p : string * string) : bool :=
  nonempty p.1 && str_forallb is_blank p.1 && nonempty p.2 && str_forallb is_word_char p.2.
Definition wf_row (r : trow) : bool :=
  negb (bool_decide (r_cells r = [])) && forallb wf_cell (r_cells r) && str_forallb is_blank (r_end r).

Inductive tline := Noise (s : string) | Row (r : trow).
Definition line_text (l : tline) : string := match l with Noise s => s | Row r => row_text r end.
Definition table_text (t : list tline) : string := lines_text (line_text <$> t).
Definition rows (t : list tline) : list trow :=
  omap (fun l => match l with Row r => Some r | Noise _ => None end) t.
Definition wf_line (l : tline) : bool :=
  plain_line (line_text l) &&
  match l with
  | Noise s => negb (Contains s MigPrefix)
  | Row r => Contains (row_text r) MigPrefix && wf_row r
  end.
Definition wf_table (t : list tline) : bool := forallb wf_line t.

Lemma parse_table t :
  wf_table t = true -> parseMigInfo (table_text t) = Ok (row_text <$> rows t).
Proof.
  intros Hwf. unfold parseMigInfo, table_text. rewrite ScanLines_text.
  - f_equal. induction t as [|l t IH]; [done|]. simpl in Hwf. apply andb_true_iff in Hwf as [Hl Ht].
    specialize (IH Ht). apply andb_true_iff in Hl as [_ Hl]. cbn [fmap list_fmap List.filter].
    destruct l as [s|r]; simpl line_text.
    + apply negb_true_iff in Hl. by rewrite Hl.
    + apply andb_true_iff in Hl as [Hl _]. rewrite Hl. cbn. f_equal. exact IH.
  - apply Forall_fmap, Forall_forall. intros l Hl. unfold wf_table in Hwf.
    rewrite forallb_forall in Hwf. specialize (Hwf l ltac:(by apply list_elem_of_In)).
    by apply andb_true_iff in Hwf as [? _].
Qed.

Lemma wf_rows t : wf_table t = true -> Forall (fun r => wf_row r = true) (rows t).
Proof.
  induction t as [|l t IH]; [constructor|]. simpl. rewrite andb_true_iff. intros [Hl Ht].
  destruct l as [s|r]; [by apply IH|]. constructor; [|by apply IH].
  unfold wf_line in Hl. rewrite !andb_true_iff in Hl. tauto.
Qed.

(** *** The fields of a row *)
Lemma blank_space s : str_forallb is_blank s = true -> str_forallb is_space s = true.
Proof. apply str_forallb_impl. intros c Hc. apply bool_decide_eq_true in Hc as ->. done. Qed.

Lemma collapse_word by_ b w t :
  str_forallb (fun c => negb (is_re_space c)) w = true -> nonempty w = true ->
  collapse_go by_ b (w +:+ t) = w +:+ collapse_go by_ false t.
Proof.
  intros Hw Hne. destruct w as [|c w]; [done|]. clear Hne. revert c b Hw.
  induction w as [|d w IH]; intros c b; simpl; rewrite !andb_true_iff, !negb_true_iff.
  - by intros [-> _].
  - intros [-> Hw]. rewrite !app_cons. f_equal. apply (IH d false). simpl.
    by rewrite andb_true_iff, negb_true_iff.
Qed.

Lemma collapse_pad by_ p t :
  str_forallb is_blank p = true -> collapse_go by_ true (p +:+ t) = collapse_go by_ true t.
Proof.
  induction p as [|c p IH]; [done|]. simpl. rewrite andb_true_iff. intros [Hc Hp].
  apply bool_decide_eq_true in Hc as ->. simpl. rewrite app_empty_l. by apply IH.
Qed.

Lemma word_not_space w : str_forallb is_word_char w = true ->
  str_forallb (fun c => negb (is_re_space c)) w = true.
Proof.
  apply str_forallb_impl. intros c. unfold is_word_char, is_re_space.
  destruct (is_space c); [done|]. done.
Qed.

(** The text of cells after a first word: collapsed, the words each after a comma. *)
Lemma collapse_cells cells :
  forallb wf_cell cells = true ->
  collapse_go "," false (cells_text cells "") = foldr (fun w t => "," +:+ w +:+ t) "" cells.*2.
Proof.
  induction cells as [|[p w] cells IH]; [done|]. simpl. rewrite andb_true_iff. intros [Hc Hcells].
  unfold wf_cell in Hc. rewrite !andb_true_iff in Hc. destruct Hc as [[[Hp Hpb] Hw] Hww]. simpl in *.
  destruct p as [|c p]; [done|]. simpl in Hpb. apply andb_true_iff in Hpb as [Hc Hpb].
  apply bool_decide_eq_true in Hc as ->. rewrite app_cons. cbn [collapse_go is_re_space].
  change (is_re_space " ") with true. cbv iota. rewrite (collapse_pad _ _ _ Hpb).
  rewrite (collapse_word _ _ _ _ (word_not_space w Hww) Hw). by rewrite (IH Hcells).
Qed.

Lemma cells_last cells e :
  cells_text cells e = cells_text cells "" +:+ e.
Proof. induction cells as [|[p w] cells IH]; [done|]. simpl. by rewrite IH, !app_assoc_str. Qed.

(** No bar in a row but the two at its ends. *)
Lemma row_without_bars r :
  wf_row r = true -> ReplaceAll (row_text r) "|" "" = cells_text (r_cells r) (r_end r).
Proof.
  unfold wf_row, row_text. rewrite !andb_true_iff. intros [[_ Hcells] Hend].
  pose proof (ReplaceAll_char_delete "|"%char
    ("|" +:+ cells_text (r_cells r) (r_end r) +:+ "|")) as Hdel.
  change (str1 "|"%char) with "|" in Hdel. rewrite Hdel, !str_filter_app. clear Hdel.
  assert (forall s, str_forallb is_blank s = true ->
    str_filter (fun d => negb (bool_decide ("|"%char = d))) s = s) as Hblank.
  { intros s Hs. apply str_filter_id. revert Hs. apply str_forallb_impl. intros c Hc.
    apply bool_decide_eq_true in Hc as ->. done. }
  assert (str_filter (fun d => negb (bool_decide ("|"%char = d))) (cells_text (r_cells r) (r_end r))
          = cells_text (r_cells r) (r_end r)) as ->; [|by cbn; rewrite app_empty_r].
  induction (r_cells r) as [|[p w] cells IH]; [by apply Hblank|]. simpl in Hcells |- *.
  apply andb_true_iff in Hcells as [Hc Hcells]. unfold wf_cell in Hc. rewrite !andb_true_iff in Hc.
  destruct Hc as [[[_ Hp] _] Hw]. simpl in Hp, Hw. rewrite !str_filter_app, (IH Hcells), (Hblank _ Hp). f_equal. f_equal.
  apply str_filter_id. revert Hw. apply str_forallb_impl. intros c. unfold is_word_char.
  rewrite !andb_true_iff, !negb_true_iff, !bool_decide_eq_false. intros [[_ ?] _]. congruence.
Qed.

Lemma trim_cells cells :
  forallb wf_cell cells = true -> cells <> [] ->
  trim_right is_space (cells_text cells "") = cells_text cells "" /\ cells_text cells "" <> "".
Proof.
  induction cells as [|[p w] cells IH]; [done|]. simpl. rewrite andb_true_iff. intros [Hc Hcells] _.
  unfold wf_cell in Hc. rewrite !andb_true_iff in Hc. destruct Hc as [[[_ _] Hw] Hww]. simpl in *.
  rewrite <- !app_assoc_str.
  assert (trim_right is_space w = w) as Htw.
  { clear Hw. induction w as [|c w IHw]; [done|]. simpl in Hww |- *. apply andb_true_iff in Hww as [Hc Hww].
    rewrite (IHw Hww). destruct w; [|done]. unfold is_word_char in Hc. destruct (is_space c); [done|]. done. }
  destruct cells as [|q cells].
  - simpl. rewrite app_empty_r. rewrite trim_right_app by (rewrite Htw; by intros ->). rewrite Htw.
    split; [done|]. intros E. destruct w; [done|]. destruct p; discriminate E.
  - destruct (IH Hcells ltac:(done)) as [Hr Hne]. rewrite trim_right_app by by rewrite Hr. rewrite Hr.
    split; [done|]. intros E. apply Hne. destruct (p +:+ w); [by rewrite app_empty_l in E|discriminate E].
Qed.

Lemma trim_row p w cells e :
  str_forallb is_blank p = true -> str_forallb is_blank e = true -> wf_cell (" ", w) = true ->
  forallb wf_cell cells = true ->
  TrimSpace (p +:+ w +:+ cells_text cells e) = w +:+ cells_text cells "".
Proof.
  intros Hp He Hw Hrest. rewrite cells_last.
  replace (w +:+ cells_text cells "" +:+ e) with ((w +:+ cells_text cells "") +:+ e) by apply app_assoc_str.
  apply TrimSpace_pad; [by apply blank_space..|].
  destruct (trim_cells ((" ", w) :: cells)) as [E _]; [by cbn [forallb]; rewrite Hw|done|].
  unfold wf_cell in Hw. rewrite !andb_true_iff in Hw. destruct Hw as [[_ Hne] Hw].
  destruct w as [|c w]; [done|]. unfold TrimSpace. rewrite app_cons. simpl in Hw |- *.
  apply andb_true_iff in Hw as [Hc _]. unfold is_word_char in Hc. destruct (is_space c) eqn:Ec; [done|].
  simpl in E. rewrite app_cons, app_empty_l in E. simpl in E |- *. rewrite Ec in E |- *.
  destruct (trim_right is_space (w +:+ cells_text cells "")); rewrite app_cons in E; unfold str1 in *; congruence.
Qed.

Lemma commas_join w (l : list string) : w +:+ foldr (fun w t => "," +:+ w +:+ t) "" l = Join (w :: l) ",".
Proof.
  revert w. induction l as [|v l IH]; intros w; [by rewrite app_empty_r|]. rewrite Join_cons2, <- IH. done.
Qed.

Lemma words_without_commas cells :
  forallb wf_cell cells = true -> Forall (fun v => str_mem ","%char v = false) cells.*2.
Proof.
  intros Hcells. apply Forall_fmap, Forall_forall. intros [p w] Hin.
  rewrite forallb_forall in Hcells. specialize (Hcells (p, w) ltac:(by apply list_elem_of_In)).
  unfold wf_cell in Hcells. rewrite !andb_true_iff in Hcells. destruct Hcells as [_ Hw].
  by apply (str_mem_forallb _ is_word_char).
Qed.

(** A printed row is read as its words. *)
Lemma row_fields r : wf_row r = true -> Split (clean_row (row_text r)) "," = fields r.
Proof.
  intros Hwf. unfold clean_row. rewrite (row_without_bars r Hwf).
  unfold wf_row in Hwf. rewrite !andb_true_iff in Hwf. destruct Hwf as [[Hne Hcells] Hend].
  pose proof (words_without_commas _ Hcells) as Hcommas. unfold fields.
  destruct (r_cells r) as [|[p w] cells]; [done|]. simpl in Hcells. apply andb_true_iff in Hcells as [Hc Hrest].
  unfold wf_cell in Hc. rewrite !andb_true_iff in Hc. destruct Hc as [[[_ Hp] Hw] Hww]. simpl in Hp, Hw, Hww.
  simpl cells_text. rewrite trim_row; [|done..|unfold wf_cell; simpl; by rewrite Hw, Hww|done].
  unfold re_space_ReplaceAll. rewrite (collapse_word _ _ _ _ (word_not_space w Hww) Hw).
  rewrite (collapse_cells _ Hrest), commas_join.
  change "," with (str1 ","%char). by apply Split_Join_char.
Qed.

(** *** What the tables say *)

(** A row that names a profile, its number and its free and total instances; what
    it says besides is not read. *)
Definition prints_profile (r : trow) (p : MigProfileStatus) : Prop :=
  exists gpu w1 w2 wid free total rest,
    fields r = gpu :: w1 :: w2 :: wid :: (free +:+ "/" +:+ total) :: rest /\
    no_slash free = true /\ no_slash total = true /\
    mps_Name p = w1 +:+ " " +:+ w2 /\ Atoi wid = Some (mps_ID p) /\
    Atoi free = Some (mps_Available p) /\ Atoi total = Some (mps_Total p) /\ mps_VGPUID p = [].

(** A row of an instance: the number of its profile and its own name. *)
Definition prints_instance (r : trow) (i : Z * string) : Prop :=
  exists gpu w1 w2 rest, fields r = gpu :: w1 :: w2 :: Itoa i.1 :: i.2 :: rest /\ int64 i.1.

(** A list without repetitions, in the order of the first occurrences. *)
Definition add_new (ids : list string) (e : string) : list string :=
  if slices_Contains ids e then ids else ids ++ [e].
Definition firsts (l : list string) : list string := fold_left add_new l [].

Definition instances_of (id : Z) (insts : list (Z * string)) : list string :=
  firsts (List.filter (fun i => bool_decide (i.1 = id)) insts).*2.

Lemma generateProfile_row r p :
  wf_row r = true -> prints_profile r p -> profile_status (row_text r) = Ok p.
Proof.
  intros Hwf (gpu & w1 & w2 & wid & free & total & rest & Hf & Hfree & Htotal & Hname & Hid & Hav & Htot & Hids).
  unfold profile_status, generateProfile. rewrite (row_fields r Hwf), Hf. cbn. rewrite Hid.
  unfold no_slash in *. apply negb_true_iff in Hfree, Htotal. change "/" with (str1 "/"%char).
  rewrite str1_app, (Split_char_app _ _ _ Hfree), (Split_char_none _ _ Htotal). cbn.
  rewrite Hav, Htot, <- Hname. destruct p; simpl in *. by subst.
Qed.

Definition add_instance (m : gmap string (list string)) (i : Z * string) : gmap string (list string) :=
  <[Itoa i.1 := add_new (default [] (m !! Itoa i.1)) i.2]> m.

Lemma instance_map_rows rs insts m :
  Forall (fun r => wf_row r = true) rs -> Forall2 prints_instance rs insts ->
  generateProfileInstanceMap_go m (row_text <$> rs) = Ok (fold_left add_instance insts m).
Proof.
  intros Hwf Hrows. revert m Hwf. induction Hrows as [|r i rs insts Hr _ IH]; intros m Hwf; [done|].
  inversion Hwf as [|? ? Hwr Hwf']; subst. destruct Hr as (gpu & w1 & w2 & rest & Hf & _).
  cbn [fmap list_fmap generateProfileInstanceMap_go]. unfold instance_row.
  rewrite (row_fields r Hwr), Hf. cbn. by rewrite (IH _ Hwf').
Qed.

Lemma add_instances_lookup insts m z :
  Forall (fun i => int64 i.1) insts -> int64 z ->
  fold_left add_instance insts m !! Itoa z =
  match List.filter (fun i => bool_decide (i.1 = z)) insts with
  | [] => m !! Itoa z
  | l => Some (fold_left add_new l.*2 (default [] (m !! Itoa z)))
  end.
Proof.
  intros His Hz. revert m. induction His as [|i insts Hi _ IH]; intros m; [done|].
  cbn [fold_left List.filter]. rewrite IH. unfold add_instance. case_bool_decide as Hiz.
  - rewrite Hiz, lookup_insert_eq. cbn [fmap list_fmap fold_left default].
    destruct (List.filter _ insts); done.
  - rewrite lookup_insert_ne; [done|]. intros E. by apply Itoa_inj in E.
Qed.

(** Every key is the text of a number. *)
Lemma add_instances_keys insts m k v :
  Forall (fun i => int64 i.1) insts ->
  (forall k v, m !! k = Some v -> exists z, int64 z /\ k = Itoa z) ->
  fold_left add_instance insts m !! k = Some v -> exists z, int64 z /\ k = Itoa z.
Proof.
  intros His. revert m. induction His as [|i insts Hi _ IH]; intros m Hm; [apply Hm|].
  apply IH. intros k' v'. unfold add_instance. rewrite lookup_insert_Some.
  intros [[<- _]|[_ Hk]]; [by exists i.1|by eapply Hm].
Qed.

Lemma int_keys_lookup `{MapOrder} entries acc :
  (forall k v, (k, v) ∈ entries -> exists z, int64 z /\ k = Itoa z) -> NoDup entries.*1 ->
  exists m, int_keys entries acc = Ok m /\
    forall z, int64 z -> m !! z =
      match List.find (fun e => bool_decide (e.1 = Itoa z)) entries with
      | Some e => Some e.2
      | None => acc !! z
      end.
Proof.
  revert acc. induction entries as [|[k v] entries IH]; intros acc Hkeys Hnd; [by exists acc|].
  cbn [fmap list_fmap] in Hnd. apply NoDup_cons in Hnd as [Hk Hnd].
  destruct (Hkeys k v ltac:(left)) as (zk & Hzk & ->). cbn [int_keys]. rewrite (Atoi_Itoa zk Hzk).
  destruct (IH (<[zk := v]> acc)) as (m & Hm & Hlookup); [|done|].
  { intros k' v' Hin. eapply Hkeys. by right. }
  exists m. split; [done|]. intros z Hz. rewrite (Hlookup z Hz). cbn [List.find fst].
  case_bool_decide as E.
  - apply (Itoa_inj _ _ Hzk Hz) in E as ->. destruct (List.find _ _) as [e|] eqn:Hfind.
    + exfalso. apply Hk. apply List.find_some in Hfind as [Hin Heq]. apply bool_decide_eq_true in Heq.
      simpl. rewrite <- Heq. apply list_elem_of_fmap. exists e. split; [done|]. by apply list_elem_of_In.
    + by rewrite lookup_insert_eq.
  - destruct (List.find _ _); [done|]. rewrite lookup_insert_ne; [done|]. by intros ->.
Qed.

Lemma firsts_nonnil l : l <> [] -> firsts l <> [].
Proof.
  assert (forall l (pre : list string), pre <> [] -> fold_left add_new l pre <> []) as Hne.
  { clear. induction l as [|e l IH]; intros pre Hpre; [done|]. simpl. apply IH. unfold add_new.
    destruct (slices_Contains pre e); [done|]. by destruct pre. }
  destruct l as [|e l]; [done|]. intros _. unfold firsts. cbn [fold_left]. by apply Hne.
Qed.

Lemma generateMIGInstanceInfo_table `{MapOrder} t insts :
  wf_table t = true -> Forall2 prints_instance (rows t) insts ->
  exists m, generateMIGInstanceInfo (table_text t) = Ok m /\
    forall z, int64 z ->
      m !! z = match instances_of z insts with [] => None | ids => Some ids end.
Proof.
  intros Hwf Hrows. unfold generateMIGInstanceInfo. rewrite (parse_table t Hwf).
  unfold generateProfileInstanceMap. rewrite (instance_map_rows _ _ _ (wf_rows t Hwf) Hrows). cbn [obind].
  assert (Forall (fun i => int64 i.1) insts) as Hin.
  { clear -Hrows. induction Hrows as [|r i rs insts (gpu & w1 & w2 & rest & _ & Hi) _ IH]; by constructor. }
  set (m := fold_left add_instance insts ∅).
  destruct (int_keys_lookup (range m) ∅) as (m' & Hm' & Hlookup).
  - intros k v Hkv. apply elem_of_range in Hkv.
    eapply (add_instances_keys insts ∅); [done|by intros ? ? ?%lookup_empty_Some|exact Hkv].
  - rewrite range_perm. apply NoDup_fst_map_to_list.
  - exists m'. split; [done|]. intros z Hz. rewrite (Hlookup z Hz), lookup_empty.
    pose proof (add_instances_lookup insts ∅ z Hin Hz) as Hm. fold m in Hm. rewrite lookup_empty in Hm.
    assert (List.find (fun e => bool_decide (e.1 = Itoa z)) (range m) = (fun v => (Itoa z, v)) <$> m !! Itoa z) as ->.
    { destruct (List.find _ _) as [[k v]|] eqn:Hfind.
      - apply List.find_some in Hfind as [Hkv Hk]. apply bool_decide_eq_true in Hk. simpl in Hk. subst k.
        apply list_elem_of_In, elem_of_range in Hkv. by rewrite Hkv.
      - destruct (m !! Itoa z) as [v|] eqn:Hv; [|done]. exfalso.
        apply elem_of_range, list_elem_of_In in Hv. apply (List.find_none _ _ Hfind) in Hv.
        by apply bool_decide_eq_false in Hv. }
    rewrite Hm. unfold instances_of, firsts. destruct (List.filter _ insts) as [|i l]; [done|].
    cbn [fmap option_fmap option_map snd default]. change (from_option id [] None) with (@nil string).
    change (list_fmap (Z * string)%type string snd (i :: l)) with (i :: l).*2.
    assert (firsts (i :: l).*2 <> []) as Hne by by apply firsts_nonnil. unfold firsts in Hne.
    by destruct (fold_left add_new (i :: l).*2 []).
Qed.

Lemma profile_status_of `{MapOrder} (ptable itable : list tline)
    (profiles : list MigProfileStatus) (insts : list (Z * string))
    (Hwp : wf_table ptable = true) (Hwi : wf_table itable = true)
    (Hprofiles : Forall2 prints_profile (rows ptable) profiles)
    (Hinsts : Forall2 prints_instance (rows itable) insts) :
  GenerateProfileStatus (table_text ptable) (table_text itable) =
  Ok ((fun p => set_VGPUID (instances_of (mps_ID p) insts) p) <$> profiles).
Proof.
  unfold GenerateProfileStatus. rewrite (parse_table ptable Hwp).
  assert (omapM profile_status (row_text <$> rows ptable) = Ok profiles) as ->.
  { apply omapM_Ok_iff. pose proof (wf_rows ptable Hwp) as Hwf. clear -Hwf Hprofiles.
    induction Hprofiles as [|r p rs ps Hr _ IH]; [constructor|]. inversion Hwf; subst. constructor.
    - by apply generateProfile_row.
    - by apply IH. }
  cbn [obind]. destruct (generateMIGInstanceInfo_table itable insts Hwi Hinsts) as (m & -> & Hm).
  f_equal. apply list_fmap_ext. intros i p Hp.
  assert (int64 (mps_ID p) /\ mps_VGPUID p = []) as [Hid Hids].
  { apply list_elem_of_lookup_2 in Hp. apply list_elem_of_lookup in Hp as [j Hj].
    destruct (Forall2_lookup_r _ _ _ _ _ Hprofiles Hj) as (r & _ & gpu & w1 & w2 & wid & free & total & rest & Hr).
    destruct Hr as (_ & _ & _ & _ & Hid & _ & _ & Hids). split; [by eapply Atoi_range|done]. }
  rewrite (Hm _ Hid). destruct (instances_of (mps_ID p) insts) as [|e l]; [|done].
  destruct p; simpl in *. by subst.
Qed.

(** C29: the status of a MIG configuration is what nvidia-smi prints: from tables with
    a row for every profile (its number, free and total instances) and for every
    instance (the number of its profile and its own), the status lists the
    profiles in the order of the table, each with its free and total count and
    with its instances in the order of their rows, each once. *)
Theorem GenerateProfileStatus_reads `{MapOrder} (ptable itable : list tline)
    (profiles : list MigProfileStatus) (insts : list (Z * string))
    (Hwp : wf_table ptable = true) (Hwi : wf_table itable = true)
    (Hprofiles : Forall2 prints_profile (rows ptable) profiles)
    (Hinsts : Forall2 prints_instance (rows itable) insts) :
  GenerateProfileStatus (table_text ptable) (table_text itable) =
  Ok ((fun p => set_VGPUID (instances_of (mps_ID p) insts) p) <$> profiles).
Proof. by apply profile_status_of. Qed.

(** ** What the commands do to a GPU

    The interface of nvidia-smi for one GPU, as its documentation has it: the
    instances that exist, in the order of their rows; a listing prints them, or all
    profiles of the GPU, and changes nothing; deleting an instance takes it away;
    creating one adds an instance of that profile under a new name; nothing but
    commands changes the GPU. *)
Definition is_run {X} (e : Eff X) : bool := match e with ExecRun _ _ _ => true | _ => false end.

Class Smi `{MapOrder} {Mem W : Type} `{World W} (ex : Executor) (addr : string)
    (instances : W -> list (Z * string)) := {
  smi_instances : forall (s : state Mem W) o s',
    Run ex (generateListMigInstanceInfoCommand addr) s = (Ok o, s') ->
    instances (world s') = instances (world s) /\
    exists t, wf_table t = true /\ o = table_text t /\
      Forall2 prints_instance (rows t) (instances (world s));
  smi_profiles : forall (s : state Mem W) o s',
    Run ex (generateListMIGProfileCommand addr) s = (Ok o, s') ->
    instances (world s') = instances (world s) /\
    exists t ps, wf_table t = true /\ o = table_text t /\ Forall2 prints_profile (rows t) ps /\
      (instances (world s)).*1 ⊆ mps_ID <$> ps;
  smi_compute : forall (s : state Mem W) o s',
    Run ex (generateListMIGComputeInstanceCommand addr) s = (Ok o, s') ->
    instances (world s') = instances (world s);
  smi_delete_compute : forall id (s : state Mem W) o s',
    Run ex (generateDeleteComputeInstanceCommand addr id) s = (Ok o, s') ->
    instances (world s') = instances (world s);
  smi_delete : forall id (s : state Mem W) o s',
    Run ex (generateDeleteGPUInstanceCommand addr id) s = (Ok o, s') ->
    instances (world s') = List.filter (fun i => negb (i.2 ==s id)) (instances (world s));
  smi_create : forall profile (s : state Mem W) o s',
    Run ex (generateCreateInstanceCommand addr profile) s = (Ok o, s') ->
    exists id, ~ (id ∈ (instances (world s)).*2) /\
      instances (world s') = instances (world s) ++ [(profile, id)];
  smi_frame : forall X (e : Eff X) (s : state Mem W) o s',
    is_run e = false -> eff e s = (Ok o, s') -> instances (world s') = instances (world s)
}.
#[global] Arguments Smi {_} Mem {_ _} ex addr instances.

Lemma elem_of_firsts l x : x ∈ firsts l <-> x ∈ l.
Proof.
  assert (forall l pre, x ∈ fold_left add_new l pre <-> x ∈ pre \/ x ∈ l) as Hgen.
  { clear. induction l as [|e l IH]; intros pre; simpl; [set_solver|]. rewrite IH. unfold add_new.
    destruct (slices_Contains pre e) eqn:E; [apply slices_Contains_spec in E|]; set_solver. }
  unfold firsts. rewrite Hgen. set_solver.
Qed.

Lemma elem_of_instances_of id z (insts : list (Z * string)) :
  id ∈ instances_of z insts <-> (z, id) ∈ insts.
Proof.
  unfold instances_of. rewrite elem_of_firsts, list_elem_of_fmap. split.
  - intros ([z' id'] & -> & Hin). apply list_elem_of_In, filter_In in Hin as [Hin E].
    apply bool_decide_eq_true in E. simpl in E. subst. by apply list_elem_of_In.
  - intros Hin. exists (z, id). split; [done|]. apply list_elem_of_In, filter_In.
    split; [by apply list_elem_of_In|]. by apply bool_decide_eq_true.
Qed.

Lemma filter_id {A} (P : A -> bool) l : (forall x, x ∈ l -> P x = true) -> List.filter P l = l.
Proof.
  induction l as [|x l IH]; intros HP; [done|]. simpl. rewrite (HP x) by left. f_equal.
  apply IH. intros y Hy. apply HP. by right.
Qed.

Lemma requested_count (l : list MigProfileRequest) v :
  NoDup (mpr_ID <$> l) -> v ∈ l ->
  (fold_left (fun m v => <[mpr_ID v := mpr_Requested v]> m) l ∅ : gmap Z Z) !! mpr_ID v
    = Some (mpr_Requested v).
Proof.
  generalize (∅ : gmap Z Z) as m. induction l as [|w l IH]; intros m Hnd Hv; [by apply not_elem_of_nil in Hv|].
  cbn [fmap list_fmap] in Hnd. apply NoDup_cons in Hnd as [Hw Hnd].
  apply elem_of_cons in Hv as [->|Hv]; [|by apply IH]. cbn [fold_left]. clear IH.
  assert (forall (m : gmap Z Z), m !! mpr_ID w = Some (mpr_Requested w) ->
    fold_left (fun m v => <[mpr_ID v := mpr_Requested v]> m) l m !! mpr_ID w = Some (mpr_Requested w)) as Hkeep.
  { clear Hnd. induction l as [|u l IH]; intros m' Hm'; [done|]. cbn [fold_left]. apply IH.
    - intros Hin. apply Hw. by right.
    - rewrite lookup_insert_ne; [done|]. intros E. apply Hw. rewrite <- E. left. }
  apply Hkeep. by rewrite lookup_insert_eq.
Qed.

Section Gpu.
Context `{MapOrder} {Mem W : Type} `{World W} (ex : Executor) (addr : string)
  (instances : W -> list (Z * string)) `{!Smi Mem ex addr instances}.
Implicit Types (s : state Mem W).

(** An instance that the GPU has is named in the map. *)
Lemma listed_instance t insts m id :
  wf_table t = true -> Forall2 prints_instance (rows t) insts ->
  generateMIGInstanceInfo (table_text t) = Ok m -> id ∈ insts.*2 ->
  existsb (fun e : Z * list string => slices_Contains e.2 id) (range m) = true.
Proof.
  intros Hwf Hrows Hm Hid. destruct (generateMIGInstanceInfo_table t insts Hwf Hrows) as (m' & Hm' & Hlookup).
  rewrite Hm in Hm'. injection Hm' as <-. apply list_elem_of_fmap in Hid as ([z id'] & -> & Hin). simpl.
  assert (int64 z) as Hz.
  { apply list_elem_of_lookup in Hin as [j Hj].
    by destruct (Forall2_lookup_r _ _ _ _ _ Hrows Hj) as (r & _ & gpu & w1 & w2 & rest & _ & Hz). }
  pose proof (proj2 (elem_of_instances_of id' z insts) Hin) as Hids. specialize (Hlookup z Hz).
  destruct (instances_of z insts) as [|e l] eqn:E; [by apply not_elem_of_nil in Hids|]. rewrite <- E in *.
  apply existsb_exists. exists (z, instances_of z insts). split.
  - by apply list_elem_of_In, elem_of_range.
  - by apply slices_Contains_spec.
Qed.

Definition without (id : string) (insts : list (Z * string)) : list (Z * string) :=
  List.filter (fun i => negb (i.2 ==s id)) insts.

Lemma without_absent id insts : id ∉ insts.*2 -> without id insts = insts.
Proof.
  intros Hid. apply filter_id. intros i Hi. apply negb_true_iff, bool_decide_eq_false.
  intros <-. apply Hid. apply list_elem_of_fmap. by exists i.
Qed.

(** Deleting by name takes the instance away, whether or not it still exists. *)
Lemma DeleteMIGInstance_without id s s' :
  DeleteMIGInstance ex addr id s = (Ok tt, s') ->
  instances (world s') = without id (instances (world s)).
Proof.
  unfold DeleteMIGInstance. intros Hrun.
  apply bind_Ok_inv in Hrun as (ci & s1 & Hci & Hrun). apply on_err_Ok_inv, smi_compute in Hci.
  apply bind_Ok_inv in Hrun as (ids & s2 & Hids & Hrun). apply on_err_Ok_inv in Hids. injection Hids as Hids <-.
  apply bind_Ok_inv in Hrun as ([] & s3 & Hdci & Hrun).
  assert (instances (world s3) = instances (world s)) as Hs3.
  { destruct (slices_Contains ids id); [|by injection Hdci as <-].
    apply bind_Ok_inv in Hdci as (o & s4 & Hdci & E). injection E as <-.
    apply on_err_Ok_inv, smi_delete_compute in Hdci. congruence. }
  apply bind_Ok_inv in Hrun as (gi & s4 & Hgi & Hrun). apply on_err_Ok_inv, smi_instances in Hgi as [Hs4 (t & Hwf & -> & Hrows)].
  apply bind_Ok_inv in Hrun as (m & s5 & Hm & Hrun). apply on_err_Ok_inv in Hm. injection Hm as Hm <-.
  destruct (existsb _ _) eqn:E.
  - inv_ok. apply smi_delete in Hrun0. unfold without. congruence.
  - injection Hrun as <-. rewrite Hs4, Hs3. symmetry. apply without_absent. intros Hid.
    rewrite <- Hs3 in Hid. by rewrite (listed_instance t _ m id Hwf Hrows Hm Hid) in E.
Qed.

Definition without_all (ids : list string) (insts : list (Z * string)) : list (Z * string) :=
  List.filter (fun i => negb (slices_Contains ids i.2)) insts.

Lemma without_all_app l1 l2 insts : without_all l2 (without_all l1 insts) = without_all (l1 ++ l2) insts.
Proof.
  unfold without_all, slices_Contains. induction insts as [|i insts IH]; [done|]. simpl. rewrite existsb_app.
  destruct (existsb _ l1); simpl; [done|]. by rewrite IH.
Qed.
Lemma without_all_nil insts : without_all [] insts = insts.
Proof. by apply filter_id. Qed.
Lemma without_all_cons id l insts : without_all l (without id insts) = without_all (id :: l) insts.
Proof.
  unfold without_all, without. induction insts as [|i insts IH]; [done|]. simpl.
  rewrite (bool_decide_ext (i.2 = id) (id = i.2)) by done.
  case_bool_decide; simpl; [done|]. by rewrite IH.
Qed.

Lemma delete_all_without ids s s' :
  for_each (fun id => on_err (Wrapf "error deleting instance on gpu") (DeleteMIGInstance ex addr id)) ids s
    = (Ok tt, s') ->
  instances (world s') = without_all ids (instances (world s)).
Proof.
  revert s. induction ids as [|id ids IH]; intros s Hrun.
  - injection Hrun as <-. by rewrite without_all_nil.
  - cbn [for_each] in Hrun. apply bind_Ok_inv in Hrun as ([] & s1 & Hid & Hrun).
    apply on_err_Ok_inv, DeleteMIGInstance_without in Hid. by rewrite (IH _ Hrun), Hid, without_all_cons.
Qed.

(** Disabling a configuration implements taking instances away: on success the GPU
    has exactly the instances it had but those that the configuration's status
    names, in the same order; a status that names every instance leaves none. *)
Theorem DisableMIGProfiles_removes (mig : MigConfiguration) s s'
    (Haddr : mig_GPUAddress (mig_Spec mig) = addr)
    (Hrun : DisableMIGProfiles ex mig s = (Ok tt, s')) :
  let named := concat (mps_VGPUID <$> default [] (mig_ProfileStatus (mig_Status mig))) in
  instances (world s') = without_all named (instances (world s)) /\
  ((instances (world s)).*2 ⊆ named -> instances (world s') = []).
Proof.
  intros named.
  assert (instances (world s') = without_all named (instances (world s))) as Hs'.
  { unfold named. clear named. unfold DisableMIGProfiles in Hrun. rewrite Haddr in Hrun. revert s Hrun.
    induction (default [] _) as [|p ps IH]; intros s Hrun; [injection Hrun as <-; by rewrite without_all_nil|].
    cbn [for_each] in Hrun. apply bind_Ok_inv in Hrun as ([] & s1 & Hp & Hrun).
    apply delete_all_without in Hp. rewrite (IH _ Hrun), Hp, without_all_app. done. }
  split; [done|]. intros Hsub. rewrite Hs'. unfold without_all.
  assert (forall i, i ∈ instances (world s) -> negb (slices_Contains named i.2) = false) as Hall.
  { intros i Hi. apply negb_false_iff, slices_Contains_spec, Hsub, list_elem_of_fmap. by exists i. }
  revert Hall. clear -named. induction (instances (world s)) as [|i l IH]; intros Hall; [done|]. simpl.
  rewrite (Hall i) by left. apply IH. intros j Hj. apply Hall. by right.
Qed.

(** One request: as many instances of its profile as it asks for. *)
Lemma create_instances profile n s s' :
  for_each (fun _ => on_err (Wrapf "failed creation for MIG configuration")
    (CreateMIGInstance ex addr profile)) (seq 0 n) s = (Ok tt, s') ->
  exists new, instances (world s') = instances (world s) ++ new /\ new.*1 = replicate n profile.
Proof.
  generalize 0 as k. revert s. induction n as [|n IH]; intros s k Hrun.
  - injection Hrun as <-. exists []. by rewrite app_nil_r.
  - cbn [seq for_each] in Hrun. apply bind_Ok_inv in Hrun as ([] & s1 & Hc & Hrun).
    apply on_err_Ok_inv in Hc. unfold CreateMIGInstance in Hc. inv_ok.
    apply smi_create in Hrun0 as (id & _ & Hs1). destruct (IH _ _ Hrun) as (new & Hs' & Hnew).
    exists ((profile, id) :: new). rewrite Hs', Hs1, <- app_assoc. split; [done|].
    by rewrite fmap_cons, Hnew.
Qed.

(** Enabling a configuration creates what it asks for: on success, and when no
    profile is requested twice, the GPU has its old instances and, after them,
    for every request in the order of the specification as many instances of
    its profile as requested.  The order is that of the specification, not that
    of the profile numbers. *)
Theorem EnableMIGProfiles_creates (mig : MigConfiguration) s s'
    (Haddr : mig_GPUAddress (mig_Spec mig) = addr) (Hnd : NoDup (mpr_ID <$> wanted mig))
    (Hrun : EnableMIGProfiles ex mig s = (Ok tt, s')) :
  exists new, instances (world s') = instances (world s) ++ new /\
    new.*1 = concat ((fun v => replicate (Z.to_nat (mpr_Requested v)) (mpr_ID v)) <$> wanted mig).
Proof.
  unfold EnableMIGProfiles in Hrun. rewrite Haddr in Hrun.
  assert (forall v, v ∈ wanted mig ->
    (fold_left (fun m v => <[mpr_ID v := mpr_Requested v]> m) (wanted mig) ∅ : gmap Z Z) !! mpr_ID v
      = Some (mpr_Requested v)) as Hmap.
  { intros v Hv. by apply requested_count. }
  revert Hmap Hrun. generalize (fold_left (fun m v => <[mpr_ID v := mpr_Requested v]> m) (wanted mig) ∅ : gmap Z Z).
  clear Hnd. revert s. induction (wanted mig) as [|v l IH]; intros s m Hmap Hrun.
  - injection Hrun as <-. exists []. by rewrite app_nil_r.
  - cbn [fmap list_fmap for_each] in Hrun. apply bind_Ok_inv in Hrun as ([] & s1 & Hv & Hrun).
    rewrite (Hmap v) in Hv by left. apply create_instances in Hv as (new1 & Hs1 & Hnew1).
    destruct (IH s1 m) as (new & Hs' & Hnew); [intros w Hw; apply Hmap; by right|exact Hrun|].
    exists (new1 ++ new). rewrite Hs', Hs1, <- app_assoc. split; [done|].
    rewrite fmap_app, Hnew1, Hnew. done.
Qed.
End Gpu.
