(* ===== verification/Executors.v ===== *)
(** * What the executors run (pkg/util/executor)

    The local executor starts a file of the host with its arguments as they are; the
    remote one hands a shell in the driver pod one line of text.  A shell splits the
    line into words; it is outside the repository, and [shell_words] is what its
    language says of a line without quotes, expansions or operators. *)

From S2P Require Import Prelude GoStrings GoStringLemmas Types Effects Mig.
From Stdlib Require Import Ascii.

Definition localExecutorPrefix : string := "/host".
Definition sriovManageCommand : string := "/usr/lib/nvidia/sriov-manage".
Definition fileCommand : string := "/usr/bin/file".
Definition readyFile : string := "/tmp/ready".

(** The arguments of the process that [Run] starts, here or in the pod. *)
Definition local_Run (cmd : string) (args : list string) : list string :=
  PathJoin [localExecutorPrefix; cmd] :: args.
Definition remote_Run (cmd : string) (args : list string) : list string :=
  let argString := if 0 <? length args then Join args " " else "" in
  let cmdString := cmd +:+ " " +:+ argString in
  ["/bin/sh"; "-c"; cmdString].

Definition local_CheckReady : list string :=
  local_Run fileCommand [PathJoin [localExecutorPrefix; sriovManageCommand]].
Definition remote_CheckReady : list string := remote_Run fileCommand [readyFile].

Definition executor_argv (ex : Executor) (cmd : string) (args : list string) : list string :=
  match ex with LocalExecutor => local_Run cmd args | RemoteExecutor _ => remote_Run cmd args end.

(** ** Words of a shell line *)

(** Characters that mean nothing to a shell. *)
Definition is_plain_char (c : ascii) : bool :=
  is_alnum c || bool_decide (c ∈ ["/"; "-"; "_"; "."; ":"; ","; "+"; "@"]%char).
Definition plain_word (w : string) : bool := nonempty w && str_forallb is_plain_char w.

(** The words of a line of plain characters and blanks; any other line is not described. *)
Definition shell_words (line : string) : option (list string) :=
  if str_forallb (fun c => is_plain_char c || bool_decide (c = " "%char)) line
  then Some (List.filter nonempty (Split line " ")) else None.

(** The command that the shell of a remote executor runs. *)
Definition shell_command (argv : list string) : option (list string) :=
  match argv with [_; _; line] => shell_words line | _ => None end.

Lemma plain_no_blank w : plain_word w = true -> str_mem " "%char w = false.
Proof. intros [_ Hw]%andb_true_iff. by eapply str_mem_forallb. Qed.

Lemma plain_in_line w :
  plain_word w = true -> str_forallb (fun c => is_plain_char c || bool_decide (c = " "%char)) w = true.
Proof. intros [_ Hw]%andb_true_iff. revert Hw. apply str_forallb_impl. intros c ->. done. Qed.

Lemma plain_nonempty ws : Forall (fun w => plain_word w = true) ws -> List.filter nonempty ws = ws.
Proof.
  induction 1 as [|w ws [Hw _]%andb_true_iff _ IH]; [done|]. cbn [List.filter]. by rewrite Hw, IH.
Qed.

Lemma join_in_line ws :
  Forall (fun w => plain_word w = true) ws ->
  str_forallb (fun c => is_plain_char c || bool_decide (c = " "%char)) (Join ws " ") = true.
Proof.
  induction 1 as [|w ws Hw _ IH]; [done|]. destruct ws as [|w' ws]; [by apply plain_in_line|].
  rewrite Join_cons2, !str_forallb_app, IH. rewrite plain_in_line by done. done.
Qed.

(** Words joined by blanks are split again. *)
Lemma shell_words_Join ws : Forall (fun w => plain_word w = true) ws -> shell_words (Join ws " ") = Some ws.
Proof.
  intros Hws. unfold shell_words. rewrite join_in_line by done. f_equal.
  destruct ws as [|w ws]; [done|]. change " " with (str1 " "%char). rewrite Split_Join_char; [by apply plain_nonempty|done|].
  eapply Forall_impl; [exact Hws|]. exact plain_no_blank.
Qed.

(** A blank at the end adds no word. *)
Lemma shell_words_trailing ws :
  Forall (fun w => plain_word w = true) ws -> ws <> [] -> shell_words (Join ws " " +:+ " ") = Some ws.
Proof.
  intros Hws Hne. unfold shell_words. rewrite str_forallb_app, join_in_line by done. cbn [andb str_forallb]. f_equal.
  assert (Join ws " " +:+ " " = Join (ws ++ [""]) " ") as ->.
  { clear Hws. induction ws as [|w [|w' ws] IH]; [done|done|]. cbn [app] in *. rewrite !Join_cons2.
    rewrite <- IH by done. by rewrite !app_assoc_str. }
  change " " with (str1 " "%char). rewrite Split_Join_char; [|by destruct ws|].
  - rewrite List.filter_app, plain_nonempty by done. cbn. apply app_nil_r.
  - apply Forall_app. split; [eapply Forall_impl; [exact Hws|]; exact plain_no_blank|by repeat constructor].
Qed.

Lemma remote_words cmd args :
  Forall (fun w => plain_word w = true) (cmd :: args) -> shell_command (remote_Run cmd args) = Some (cmd :: args).
Proof.
  intros Hws. unfold remote_Run, shell_command. destruct args as [|a args].
  - change (cmd +:+ " " +:+ (if 0 <? length [] then _ else "")) with (Join [cmd] " " +:+ " "). by apply shell_words_trailing.
  - change (cmd +:+ " " +:+ (if 0 <? length (a :: args) then Join (a :: args) " " else "")) with (Join (cmd :: a :: args) " ").
    by apply shell_words_Join.
Qed.

(** A path under the host's root. *)
Lemma host_path f : plain_name f = true -> PathJoin [localExecutorPrefix; f] = "/host/" +:+ f.
Proof.
  intros Hf. pose proof Hf as Hparts. unfold plain_name in Hparts. rewrite !andb_true_iff in Hparts.
  destruct Hparts as [[[Hns Hne] _] _]. apply negb_true_iff in Hns.
  unfold PathJoin. cbn [List.filter nonempty localExecutorPrefix]. rewrite Hne.
  assert (Split ("/host/" +:+ f) "/" = [""; "host"] ++ [f]) as Hsplit.
  { change (Split ("" +:+ String "/"%char ("host" +:+ String "/"%char f)) (str1 "/"%char) = [""; "host"; f]).
    by rewrite !Split_char_app, Split_char_none. }
  change (Clean ("/host/" +:+ f) = "/host/" +:+ f). unfold Clean. rewrite Hsplit.
  change (HasPrefix ("/host/" +:+ f) "/") with true. cbv iota.
  rewrite clean_go_app, clean_go_plain by done. done.
Qed.

(** The two executors agree on commands whose name and arguments are plain words:
    the line for the shell of the driver pod has as its words exactly the command and
    the arguments that were asked for, and the local executor runs the file of that name under the host's root
    with the same arguments.  Both check for readiness with [file], on the
    sriov-manage command of the host and on the ready file of the pod. *)
Theorem executors_agree (cmd pod : string) (args : list string)
    (Hplain : Forall (fun w => plain_word w = true) (cmd :: args)) :
  shell_command (executor_argv (RemoteExecutor pod) cmd args) = Some (cmd :: args) /\
  executor_argv LocalExecutor cmd args = PathJoin ["/host"; cmd] :: args /\
  shell_command remote_CheckReady = Some ["/usr/bin/file"; "/tmp/ready"] /\
  local_CheckReady = ["/host/usr/bin/file"; "/host/usr/lib/nvidia/sriov-manage"].
Proof. split_and!; [by apply remote_words|done|vm_compute; reflexivity..]. Qed.

(** The words of a command of the MIG helper. *)
Definition mig_words (address : string) : list string := ["nvidia-smi"; "mig"; "-i"; address; "-lgip"].

(** The commands of the MIG helper are whole lines, and only the remote executor
    runs them: a plain address makes the line that lists the profiles one command of
    five words there, while the local executor looks for a file of the host whose name
    is the whole line. *)
Theorem mig_needs_a_shell (address pod : string) (Hplain : plain_word address = true) (Hslash : no_slash address = true) :
  shell_command (executor_argv (RemoteExecutor pod) (generateListMIGProfileCommand address) []) = Some (mig_words address) /\
  executor_argv LocalExecutor (generateListMIGProfileCommand address) [] =
    ["/host/nvidia-smi mig -i " +:+ address +:+ " -lgip"].
Proof.
  assert (generateListMIGProfileCommand address = Join (mig_words address) " ") as Hjoin.
  { unfold generateListMIGProfileCommand, mig_words. rewrite !Join_cons2. done. }
  split.
  - rewrite Hjoin. unfold executor_argv, remote_Run, shell_command.
    change (Join (mig_words address) " " +:+ " " +:+ (if 0 <? length [] then _ else "")) with (Join (mig_words address) " " +:+ " ").
    apply shell_words_trailing; [|done]. by repeat (constructor; [done|]).
  - unfold executor_argv, local_Run. f_equal. rewrite host_path; [done|]. unfold plain_name, generateListMIGProfileCommand.
    assert (no_slash ("nvidia-smi mig -i " +:+ address +:+ " -lgip") = true) as ->; [|done].
    unfold no_slash in *. rewrite !str_mem_app. apply negb_true_iff in Hslash. by rewrite Hslash.
Qed.

(** ** The theorems at work *)
Lemma executors_agree_witness :
  shell_command (executor_argv (RemoteExecutor "driver") sriovManageCommand ["-e"; "0000:08:00.0"]) =
    Some [sriovManageCommand; "-e"; "0000:08:00.0"].
Proof. apply (executors_agree sriovManageCommand "driver" ["-e"; "0000:08:00.0"]). by repeat constructor. Defined.

Lemma mig_needs_a_shell_witness :
  executor_argv LocalExecutor (generateListMIGProfileCommand "0000:08:00.0") [] = ["/host/nvidia-smi mig -i 0000:08:00.0 -lgip"].
Proof. exact (proj2 (mig_needs_a_shell "0000:08:00.0" "driver" eq_refl eq_refl)). Defined.
