(* ===== verification/SimGPU.v ===== *)
(** * A concrete GPU

    [Sim] with an nvidia-smi for one GPU that has MIG instances: an instance of
    the interface [Mig.Smi], in which the witnesses about MIG run.  Like [Sim] it
    is not a model of code of the repository. *)

From S2P Require Import Prelude GoStrings GoStringLemmas GoMonad Types Effects Sim Mig.
From Stdlib Require Import Ascii.

Record gsim := { g_sim : sim; g_instances : list (Z * string); g_next : Z }.

Definition demo_addr : string := "0000:04:00.0".
Definition demo_profiles : list (Z * string) := [(19%Z, "1g.5gb"); (14%Z, "2g.10gb"); (0%Z, "7g.40gb")].

Definition profile_row (p : Z * string) : tline :=
  Row {| r_cells := [("   ", "0"); ("  ", "MIG"); (" ", p.2); ("    ", Itoa p.1); ("  ", "7/7"); (" ", "4.75")];
         r_end := "   " |}.
Definition instance_line (i : Z * string) : tline :=
  Row {| r_cells := [("   ", "0"); ("  ", "MIG"); (" ", "1g.5gb"); ("   ", Itoa i.1); ("   ", i.2); (" ", "0:1")];
         r_end := "  " |}.
Definition profile_table : list tline := Noise "+------+" :: (profile_row <$> demo_profiles).
Definition instance_table (insts : list (Z * string)) : list tline :=
  Noise "+------+" :: (instance_line <$> insts).

Definition int64b (z : Z) : bool := ((- 2 ^ 63 <=? z) && (z <? 2 ^ 63))%Z.

(** A command that the tool refuses, or whose output would not be a table, fails. *)
Definition smi (cmd : string) (w : gsim) : (error + string) * gsim :=
  let insts := g_instances w in
  let set_insts l := {| g_sim := g_sim w; g_instances := l; g_next := g_next w + 1 |} in
  if cmd ==s generateListMigInstanceInfoCommand demo_addr then
    (if wf_table (instance_table insts) && forallb (fun i => int64b i.1) insts
     then inr (table_text (instance_table insts)) else inl (Errorf "bad name"), w)
  else if cmd ==s generateListMIGProfileCommand demo_addr then
    (if forallb (fun i => slices_Contains (demo_profiles.*1) i.1) insts
     then inr (table_text profile_table) else inl (Errorf "unknown profile"), w)
  else if cmd ==s generateListMIGComputeInstanceCommand demo_addr then (inr "", w)
  else match List.find (fun i => cmd ==s generateDeleteGPUInstanceCommand demo_addr i.2) insts with
  | Some i => (inr "", set_insts (List.filter (fun j => negb (j.2 ==s i.2)) insts))
  | None =>
      match List.find (fun p => cmd ==s generateCreateInstanceCommand demo_addr p.1) demo_profiles with
      | Some p =>
          if slices_Contains insts.*2 (Itoa (g_next w)) then (inl (Errorf "name taken"), w)
          else (inr "", set_insts (insts ++ [(p.1, Itoa (g_next w))]))
      | None =>
          if HasPrefix cmd "nvidia-smi mig -i 0000:04:00.0 -dci" then (inr "", w)
          else if HasPrefix cmd "nvidia-smi -i 0000:04:00.0" then (inr "Enabled", w)
          else (inl (Errorf "unknown command"), w)
      end
  end.

#[export] Instance gsim_world : World gsim := fun X e w =>
  match e in Eff X return (error + X) * gsim with
  | ExecRun _ cmd _ => smi cmd w
  | e' =>
      let '(r, w') := sim_world _ e' (g_sim w) in
      (r, {| g_sim := w'; g_instances := g_instances w; g_next := g_next w |})
  end.

Section Instance.
Context {Mem : Type}.
Implicit Types (s : state Mem gsim).

Lemma run_smi ex cmd s o s' :
  Run ex cmd s = (Ok o, s') -> smi cmd (world s) = (inr o, world s').
Proof.
  unfold Run. intros [Hp _]%eff_Ok_inv. exact Hp.
Qed.

Lemma rows_instances insts :
  forallb (fun i => int64b i.1) insts = true -> Forall2 prints_instance (rows (instance_table insts)) insts.
Proof.
  cbn [instance_table rows omap list_omap]. intros Hint. induction insts as [|i insts IH]; [constructor|].
  simpl in Hint. apply andb_true_iff in Hint as [Hi Hint]. constructor; [|by apply IH].
  exists "0", "MIG", "1g.5gb", ["0:1"]. split; [done|]. unfold int64b in Hi.
  apply andb_true_iff in Hi as [?%Z.leb_le ?%Z.ltb_lt]. done.
Qed.

Lemma rows_profiles : Forall2 prints_profile (rows profile_table)
  ((fun p => {| mps_Name := "MIG " +:+ p.2; mps_ID := p.1; mps_Available := 7; mps_Total := 7;
                mps_VGPUID := [] |}) <$> demo_profiles).
Proof.
  assert (Forall (fun p => int64 p.1) demo_profiles) as Hint.
  { unfold int64, demo_profiles. repeat constructor; cbn [fst]; lia. }
  cbn [profile_table rows omap list_omap]. induction Hint as [|p l Hp _ IH]; [constructor|].
  constructor; [|exact IH]. exists "0", "MIG", p.2, (Itoa p.1), "7", "7", ["4.75"].
  split_and!; try done. by apply Atoi_Itoa.
Qed.

Lemma find_other {A} (P : A -> bool) l : (forall x, P x = false) -> List.find P l = None.
Proof. intros HP. induction l as [|x l IH]; [done|]. simpl. by rewrite HP. Qed.

#[export] Instance smi_instance ex : Smi Mem ex demo_addr g_instances.
Proof.
  split.
  - intros s o s' Hrun%run_smi. unfold smi in Hrun. rewrite bool_decide_eq_true_2 in Hrun by done.
    destruct (wf_table _ && _) eqn:E; [|discriminate]. apply andb_true_iff in E as [Hwf Hint].
    injection Hrun as <- <-. split; [done|]. exists (instance_table (g_instances (world s))).
    split_and!; [done..|]. by apply rows_instances.
  - intros s o s' Hrun%run_smi. unfold smi in Hrun. rewrite bool_decide_eq_false_2 in Hrun by done.
    rewrite bool_decide_eq_true_2 in Hrun by done. destruct (forallb _ _) eqn:E; [|discriminate Hrun].
    injection Hrun as <- <-. split; [done|].
    exists profile_table. eexists. split_and!; [vm_compute; reflexivity|done|apply rows_profiles|].
    intros z Hz. apply list_elem_of_fmap in Hz as (i & -> & Hi). rewrite forallb_forall in E.
    specialize (E i ltac:(by apply list_elem_of_In)). by apply slices_Contains_spec in E.
  - intros s o s' Hrun%run_smi. unfold smi in Hrun. rewrite !bool_decide_eq_false_2 in Hrun by done.
    rewrite bool_decide_eq_true_2 in Hrun by done. by injection Hrun as <- <-.
  - intros id s o s' Hrun%run_smi. unfold smi in Hrun. rewrite !bool_decide_eq_false_2 in Hrun by done.
    rewrite find_other in Hrun by (intros; by apply bool_decide_eq_false).
    rewrite find_other in Hrun by (intros; by apply bool_decide_eq_false).
    by injection Hrun as <- <-.
  - intros id s o s' Hrun%run_smi. unfold smi in Hrun. rewrite !bool_decide_eq_false_2 in Hrun by done.
    destruct (List.find _ (g_instances _)) as [i|] eqn:Hfind.
    + apply List.find_some in Hfind as [_ E]. apply bool_decide_eq_true in E.
      assert (i.2 = id) as <- by by injection E. by injection Hrun as <- <-.
    + rewrite find_other in Hrun by (intros; by apply bool_decide_eq_false). discriminate Hrun.
  - intros profile s o s' Hrun%run_smi. unfold smi in Hrun. rewrite !bool_decide_eq_false_2 in Hrun by done.
    rewrite find_other in Hrun by (intros; by apply bool_decide_eq_false).
    destruct (List.find _ demo_profiles) as [p|] eqn:Hfind; [|discriminate Hrun].
    apply List.find_some in Hfind as [_ E]. apply bool_decide_eq_true in E.
    assert (profile = p.1) as ->.
    { unfold generateCreateInstanceCommand in E.
      assert (Itoa profile +:+ " -C" = Itoa p.1 +:+ " -C") as E' by by injection E.
      apply app_inj_tail_length in E' as [E' _]; [|done]. by apply (inj pretty) in E'. }
    destruct (slices_Contains _ _) eqn:Hc; [discriminate Hrun|]. injection Hrun as <- <-.
    exists (Itoa (g_next (world s))). split; [|done]. by apply slices_Contains_false.
  - intros X e s o s' He Hrun. apply eff_Ok_inv in Hrun as [Hp _]. unfold perform, gsim_world in Hp.
    destruct e; try discriminate He;
      match type of Hp with (let '(_, _) := ?c in _) = _ => destruct c end; by injection Hp as _ <-.
Qed.
End Instance.

(** ** The theorems about MIG at work *)
Definition demo_gpu : gsim :=
  {| g_sim := sim_empty; g_instances := [(19%Z, "1"); (14%Z, "2"); (19%Z, "3")]; g_next := 4 |}.

Definition demo_status (ids : list string) : MigProfileStatus :=
  {| mps_Name := "MIG 1g.5gb"; mps_ID := 19; mps_Available := 5; mps_Total := 7; mps_VGPUID := ids |}.
Definition demo_migconfig (enabled : bool) (requests : list (Z * Z)) (ids : list string) : MigConfiguration :=
  {| mig_meta := new_meta "n1-gpu" ∅ ∅;
     mig_Spec := {| mig_Enabled := enabled; mig_GPUAddress := demo_addr; mig_NodeName := "n1";
       mig_ProfileSpec := Some ((fun r => {| mpr_Name := "MIG"; mpr_ID := r.1; mpr_Requested := r.2 |}) <$> requests) |};
     mig_Status := {| mig_ProfileStatus := Some [demo_status ids]; mig_status := ""; mig_Message := "" |} |}.

Lemma DisableMIGProfiles_removes_witness :
  exists s', DisableMIGProfiles LocalExecutor (demo_migconfig false [] ["1"; "3"]) (State tt demo_gpu) = (Ok tt, s') /\
    g_instances (world s') = [(14%Z, "2")].
Proof.
  assert (is_Ok (fst (DisableMIGProfiles LocalExecutor (demo_migconfig false [] ["1"; "3"]) (State tt demo_gpu))) = true)
    as Hok by (vm_compute; reflexivity).
  destruct (DisableMIGProfiles _ _ _) as [[[]|e|p] s'] eqn:E; [|discriminate Hok..].
  exists s'. split; [done|].
  destruct (DisableMIGProfiles_removes LocalExecutor demo_addr g_instances
    (demo_migconfig false [] ["1"; "3"]) (State tt demo_gpu) s' eq_refl E) as [Hs' _].
  rewrite Hs'. vm_compute. reflexivity.
Defined.

Lemma EnableMIGProfiles_creates_witness :
  exists s' new, EnableMIGProfiles LocalExecutor (demo_migconfig true [(19, 2); (0, 0); (14, 1)]%Z []) (State tt demo_gpu)
      = (Ok tt, s') /\
    g_instances (world s') = g_instances demo_gpu ++ new /\ new.*1 = [19; 19; 14]%Z.
Proof.
  assert (is_Ok (fst (EnableMIGProfiles LocalExecutor (demo_migconfig true [(19, 2); (0, 0); (14, 1)]%Z [])
    (State tt demo_gpu))) = true) as Hok by (vm_compute; reflexivity).
  destruct (EnableMIGProfiles _ _ _) as [[[]|e|p] s'] eqn:E; [|discriminate Hok..].
  destruct (EnableMIGProfiles_creates LocalExecutor demo_addr g_instances
    (demo_migconfig true [(19, 2); (0, 0); (14, 1)]%Z []) (State tt demo_gpu) s' eq_refl) as (new & Hs' & Hnew).
  - apply (bool_decide_unpack _). vm_compute. exact I.
  - exact E.
  - exists s', new. split; [done|]. split; [exact Hs'|]. rewrite Hnew. vm_compute. reflexivity.
Defined.

Lemma GenerateProfileStatus_reads_witness :
  GenerateProfileStatus (table_text profile_table) (table_text (instance_table (g_instances demo_gpu))) =
    Ok ((fun p => set_VGPUID (instances_of (mps_ID p) (g_instances demo_gpu)) p) <$>
        ((fun p => {| mps_Name := "MIG " +:+ p.2; mps_ID := p.1; mps_Available := 7; mps_Total := 7;
                      mps_VGPUID := [] |}) <$> demo_profiles)) /\
  instances_of 19 (g_instances demo_gpu) = ["1"; "3"].
Proof.
  split; [|vm_compute; reflexivity].
  apply GenerateProfileStatus_reads.
  - vm_compute. reflexivity.
  - vm_compute. reflexivity.
  - apply rows_profiles.
  - apply rows_instances. vm_compute. reflexivity.
Defined.
