(* ===== verification/GPUHelper.v ===== *)
(** * The node's GPUs and their vGPUs (pkg/util/gpuhelper/gpuhelper.go)

    The objects of the SR-IOV GPUs and of the vGPUs of a node, from the hardware
    library and from sysfs; the types that a vGPU can be configured with are
    read from a table of identifiers and names. *)

From S2P Require Import Prelude GoStrings GoStringLemmas GoMonad Types Effects PCIDeviceApi Common Sim.
From Stdlib Require Import Ascii.

Definition SysDevRoot : string := "/sys/bus/pci/devices/".
Definition creatableVGPUTypes : string := "creatable_vgpu_types".
Definition currentVGPUType : string := "current_vgpu_type".

(** ** The table of types *)
Definition vgpu_type_line (availableTypes : gmap string string) (v : string) : gmap string string :=
  match Split v ":" with
  | [e0; e1] => delete "vGPU Name" (<[TrimSpace e1 := TrimSpace e0]> availableTypes)
  | _ => availableTypes
  end.
Definition parseCurrentVGPUTypes (contents : string) : gmap string string :=
  fold_left vgpu_type_line (Split contents newline) ∅.

Definition GenerateDeviceName (deviceName : string) : string := GeneratevGPUDeviceName deviceName.

Section Sysfs.
Context {Mem W : Type} `{World W}.
#[local] Abbreviation M := (M Mem W).

Definition fetchAvailableTypes (pciDeviceRoot deviceAddress : string) : M (gmap string string) :=
  let creatableVgpuTypesFile := PathJoin [pciDeviceRoot; deviceAddress; "nvidia"; creatableVGPUTypes] in
  on_err (Wrapf "could not get file for vgpu device") (eff (FsStat creatableVgpuTypesFile)) ;;;
  contents <- on_err (Wrapf "error reading creatable_vgpu_types_file") (eff (FsReadFile creatableVgpuTypesFile)) ;;
  ret (parseCurrentVGPUTypes contents).

Definition fetchCurrentVGPUType (basepath pciAddress : string) : M string :=
  data <- on_err (Wrapf "error reading current_vgpu_type for device")
    (eff (FsReadFile (PathJoin [basepath; pciAddress; "nvidia"; currentVGPUType]))) ;;
  ret (TrimSpace data).

Definition FetchVGPUStatus (pciDeviceRoot deviceAddress : string) : M VGPUDeviceStatus :=
  currentType <- on_err (Wrapf "error during fetchVGPUstatus") (fetchCurrentVGPUType pciDeviceRoot deviceAddress) ;;
  availableTypes <- on_err (Wrapf "error during fetchAvailableTypes")
    (fetchAvailableTypes pciDeviceRoot deviceAddress) ;;
  let configured := (currentType !=s "0") && (currentType !=s "") in
  ret {| vgpu_VGPUStatus := if configured then VGPUEnabled else VGPUDisabled;
         vgpu_UUID := if configured then currentType else "";
         vgpu_ConfiguredVGPUTypeName := "";
         vgpu_AvailableTypes := Some availableTypes |}.

(** The last element of the link's target. *)
Definition evalPhysFn (devicePath : string) : M string :=
  physResolvedLink <- on_err (fun _ => Errorf "error querying physical function")
    (eff (FsEvalSymlinks (PathJoin [devicePath; "physfn"]))) ;;
  ret (path_file physResolvedLink).

Definition generateVGPUDevice (device : NvidiaPCIDevice) (nodeName : string) : M VGPUDevice :=
  physFn <- evalPhysFn (nv_Path device) ;;
  status <- FetchVGPUStatus SysDevRoot (nv_Address device) ;;
  ret {| vgpu_meta := new_meta (PCIDeviceNameForHostname (nv_Address device) nodeName)
           (<[ParentSRIOVGPUDeviceLabel := PCIDeviceNameForHostname physFn nodeName]>
              {[ NodeKeyName := nodeName ]}) ∅;
         vgpu_Spec := {| vgpu_VGPUTypeName := ""; vgpu_Address := nv_Address device;
           vgpu_Enabled := vgpu_ConfiguredVGPUTypeName status !=s "";
           vgpu_NodeName := nodeName; vgpu_ParentGPUDeviceAddress := physFn |};
         vgpu_Status := status |}.

Definition IdentifyVGPU (nodeName : string) : M (list VGPUDevice) :=
  nvidiaDevices <- on_err (fun _ => Errorf "error querying devices") (eff NvDevices) ;;
  fold_m (fun vGPUDevices v =>
    if nv_IsGPU v && nv_IsVF v
    then dev <- generateVGPUDevice v nodeName ;; ret (vGPUDevices ++ [dev])
    else ret vGPUDevices) [] nvidiaDevices.

Definition generateSRIOVGPUDevice (nvidiaGpu : NvidiaPCIDevice) (nodeName : string) : SRIOVGPUDevice :=
  {| gpu_meta := new_meta (PCIDeviceNameForHostname (nv_Address nvidiaGpu) nodeName)
       {[ NodeKeyName := nodeName ]} ∅;
     gpu_Spec := {| gpu_Address := nv_Address nvidiaGpu; gpu_NodeName := nodeName; gpu_Enabled := false |};
     gpu_Status := {| gpu_VFAddresses := None; gpu_VGPUDevices := None |} |}.

(** Whether the GPU has virtual functions, and its status; the appended names of
    no virtual function are the nil slice. *)
Definition GenerateGPUStatus (devicePath hostname : string) : M (bool * SRIOVGPUDeviceStatus) :=
  count <- CurrentVFConfigured devicePath ;;
  vfs <- GetVFList devicePath ;;
  ret ((0 <? count)%Z,
       {| gpu_VFAddresses := Some vfs;
          gpu_VGPUDevices := match vfs with
            | [] => None
            | _ => Some ((fun v => PCIDeviceNameForHostname v hostname) <$> vfs)
            end |}).

Definition IdentifySRIOVGPU (hostname : string) : M (list SRIOVGPUDevice) :=
  nvidiaGPU <- on_err (fun _ => Errorf "error querying GPU's") (eff NvGPUs) ;;
  fold_m (fun sriovGPUDevices v =>
    ok <- IsDeviceSRIOVCapable (nv_Path v) ;;
    if ok : bool then
      r <- GenerateGPUStatus (nv_Path v) hostname ;;
      let devObj := generateSRIOVGPUDevice v hostname in
      ret (sriovGPUDevices ++
        [{| gpu_meta := gpu_meta devObj;
            gpu_Spec := {| gpu_Address := gpu_Address (gpu_Spec devObj);
                           gpu_NodeName := gpu_NodeName (gpu_Spec devObj); gpu_Enabled := r.1 |};
            gpu_Status := r.2 |}])
    else ret sriovGPUDevices) [] nvidiaGPU.
End Sysfs.

(** ** The printed table is read back *)

(** A row: the identifier, white space, a colon, white space, the name. *)
Record type_row := { t_id : string; t_pad1 : string; t_pad2 : string; t_name : string }.
Definition type_line (r : type_row) : string := t_id r +:+ t_pad1 r +:+ ":" +:+ t_pad2 r +:+ t_name r.
Definition types_header : string := "ID    : vGPU Name".
Definition types_text (l : list type_row) : string := lines_text (types_header :: (type_line <$> l)).

Definition no_colon (s : string) : bool := negb (str_mem ":"%char s) && negb (str_mem "010"%char s).
Definition pad (s : string) : bool := str_forallb (fun c => bool_decide (c = " "%char)) s.
(** Identifier and name are on one line, hold no colon and no white space at their
    ends; the name is not that of the header. *)
Definition wf_type_row (r : type_row) : bool :=
  no_colon (t_id r) && bool_decide (TrimSpace (t_id r) = t_id r) &&
  no_colon (t_name r) && bool_decide (TrimSpace (t_name r) = t_name r) &&
  (t_name r !=s "vGPU Name") && pad (t_pad1 r) && pad (t_pad2 r).

Lemma pad_space s : pad s = true -> str_forallb is_space s = true.
Proof. apply str_forallb_impl. intros c Hc. apply bool_decide_eq_true in Hc as ->. done. Qed.
Lemma pad_mem c s : pad s = true -> c <> " "%char -> str_mem c s = false.
Proof. intros Hs Hc. eapply str_mem_forallb; [exact Hs|]. by apply bool_decide_eq_false. Qed.

Lemma type_line_read r m :
  wf_type_row r = true ->
  vgpu_type_line m (type_line r) = delete "vGPU Name" (<[t_name r := t_id r]> m) /\
  str_mem "010"%char (type_line r) = false.
Proof.
  unfold wf_type_row, no_colon. rewrite !andb_true_iff, !negb_true_iff, !bool_decide_eq_true.
  intros [[[[[[[Hi Hin] Hit] [Hn Hnn]] Hnt] _] Hp1] Hp2]. unfold type_line. split.
  - unfold vgpu_type_line. change ":" with (str1 ":"%char) at 2. rewrite <- app_assoc_str.
    change ((t_id r +:+ t_pad1 r) +:+ ":" +:+ t_pad2 r +:+ t_name r)
      with ((t_id r +:+ t_pad1 r) +:+ String ":" (t_pad2 r +:+ t_name r)).
    rewrite Split_char_app by by rewrite str_mem_app, Hi, (pad_mem _ _ Hp1).
    rewrite Split_char_none by by rewrite str_mem_app, Hn, (pad_mem _ _ Hp2).
    f_equal. f_equal.
    + pose proof (TrimSpace_pad (t_pad2 r) (t_name r) "" (pad_space _ Hp2) eq_refl Hnt) as E.
      by rewrite app_empty_r in E.
    + exact (TrimSpace_pad "" (t_id r) (t_pad1 r) eq_refl (pad_space _ Hp1) Hit).
  - rewrite !str_mem_app, Hin, Hnn, (pad_mem _ _ Hp1), (pad_mem _ _ Hp2); done.
Qed.

Lemma fold_type_lines l m :
  Forall (fun r => wf_type_row r = true) l -> m !! "vGPU Name" = None ->
  fold_left vgpu_type_line (type_line <$> l) m = fold_left (fun m r => <[t_name r := t_id r]> m) l m.
Proof.
  intros Hl. revert m. induction Hl as [|r l Hr _ IH]; intros m Hm; [done|].
  cbn [fmap list_fmap fold_left]. destruct (type_line_read r m Hr) as [-> _].
  assert (<[t_name r := t_id r]> m !! "vGPU Name" = None) as Hnone.
  { rewrite lookup_insert_ne; [done|]. unfold wf_type_row in Hr.
    rewrite !andb_true_iff, negb_true_iff, bool_decide_eq_false in Hr. tauto. }
  rewrite delete_id by done. by apply IH.
Qed.

(** The types of a vGPU are read as the driver prints them: under its header line,
    every row gives its name the row's identifier, the last one of a name
    counting, and nothing else is in the map. *)
Theorem parseCurrentVGPUTypes_reads (l : list type_row) (Hl : Forall (fun r => wf_type_row r = true) l) :
  parseCurrentVGPUTypes (types_text l) = fold_left (fun m r => <[t_name r := t_id r]> m) l ∅.
Proof.
  unfold parseCurrentVGPUTypes, types_text. rewrite Split_lines_text.
  - rewrite fold_left_app. cbn [fold_left].
    rewrite <- (fold_type_lines l ∅ Hl) by done.
    assert (forall m, vgpu_type_line m "" = m) as -> by done.
    by f_equal.
  - constructor; [done|]. apply Forall_fmap. eapply Forall_impl; [exact Hl|]. intros r Hr.
    by destruct (type_line_read r ∅ Hr).
Qed.

Definition demo_types : list type_row :=
  [{| t_id := "1145"; t_pad1 := "  "; t_pad2 := " "; t_name := "NVIDIA L40S-1B" |};
   {| t_id := "2164"; t_pad1 := "  "; t_pad2 := " "; t_name := "NVIDIA L40S-3B" |}].

Lemma parseCurrentVGPUTypes_reads_witness :
  parseCurrentVGPUTypes (types_text demo_types) = fold_left (fun m r => <[t_name r := t_id r]> m) demo_types ∅ /\
  parseCurrentVGPUTypes (types_text demo_types) !! "NVIDIA L40S-3B" = Some "2164".
Proof.
  split; [|vm_compute; reflexivity]. apply parseCurrentVGPUTypes_reads. by repeat constructor.
Defined.

(** ** The objects of the node's vGPUs *)
Section Objects.
Context {Mem W : Type} `{World W}.
Implicit Types (s : state Mem W).

Lemma generateVGPUDevice_fields device nodeName s v s' :
  generateVGPUDevice device nodeName s = (Ok v, s') ->
  m_Name (vgpu_meta v) = PCIDeviceNameForHostname (nv_Address device) nodeName /\
  m_Labels (vgpu_meta v) !! NodeKeyName = Some nodeName /\
  m_Labels (vgpu_meta v) !! ParentSRIOVGPUDeviceLabel
    = Some (PCIDeviceNameForHostname (vgpu_ParentGPUDeviceAddress (vgpu_Spec v)) nodeName) /\
  vgpu_Address (vgpu_Spec v) = nv_Address device /\
  vgpu_Enabled (vgpu_Spec v) = false /\ vgpu_ConfiguredVGPUTypeName (vgpu_Status v) = "".
Proof.
  unfold generateVGPUDevice, FetchVGPUStatus. intros Hrun. inv_ok. cbn. done.
Qed.

(** A loop that appends an element for every device it keeps. *)
Lemma collect_Ok {A B} (P : A -> bool) (f : A -> M Mem W B) (R : A -> B -> Prop) l pre acc s r s' :
  Forall2 R pre acc ->
  fold_m (fun acc x => if P x then y <- f x ;; ret (acc ++ [y]) else ret acc) acc l s = (Ok r, s') ->
  (forall x s y s', f x s = (Ok y, s') -> R x y) ->
  Forall2 R (pre ++ List.filter P l) r.
Proof.
  intros Hacc Hrun HR. revert pre acc s Hacc Hrun. induction l as [|x l IH]; intros pre acc s Hacc Hrun.
  - injection Hrun as <- _. by rewrite app_nil_r.
  - cbn [fold_m] in Hrun. apply bind_Ok_inv in Hrun as (acc' & s1 & Hx & Hrun).
    cbn [List.filter]. destruct (P x).
    + apply bind_Ok_inv in Hx as (y & s2 & Hy & Hx). injection Hx as <- <-.
      replace (pre ++ x :: List.filter P l) with ((pre ++ [x]) ++ List.filter P l) by by rewrite <- app_assoc.
      eapply IH; [|exact Hrun]. apply Forall2_app; [done|]. constructor; [by eapply HR|done].
    + injection Hx as <- <-. by eapply IH.
Qed.

(** The node's vGPUs: one object for every virtual function of a GPU, in the order
    of the hardware library, named after its address and the node and labelled
    with the node and its parent.  None is ever generated as enabled: the status
    that is fetched does not name the configured type, even when the vGPU is
    configured. *)
Theorem IdentifyVGPU_objects (nodeName : string) s s' (vgpus : list VGPUDevice)
    (Hrun : IdentifyVGPU nodeName s = (Ok vgpus, s')) :
  exists devices s1, eff NvDevices s = (Ok devices, s1) /\
    Forall2 (fun d v =>
      m_Name (vgpu_meta v) = PCIDeviceNameForHostname (nv_Address d) nodeName /\
      m_Labels (vgpu_meta v) !! NodeKeyName = Some nodeName /\
      m_Labels (vgpu_meta v) !! ParentSRIOVGPUDeviceLabel
        = Some (PCIDeviceNameForHostname (vgpu_ParentGPUDeviceAddress (vgpu_Spec v)) nodeName) /\
      vgpu_Address (vgpu_Spec v) = nv_Address d /\
      vgpu_Enabled (vgpu_Spec v) = false /\ vgpu_ConfiguredVGPUTypeName (vgpu_Status v) = "")
      (List.filter (fun d => nv_IsGPU d && nv_IsVF d) devices) vgpus.
Proof.
  unfold IdentifyVGPU in Hrun. apply bind_Ok_inv in Hrun as (devices & s1 & Hd & Hrun).
  apply on_err_Ok_inv in Hd. exists devices, s1. split; [done|]. clear Hd.
  eapply (collect_Ok _ _ _ _ [] []); [by constructor|exact Hrun|].
  intros d s2 v s3. apply generateVGPUDevice_fields.
Qed.
End Objects.

Definition demo_vf : NvidiaPCIDevice :=
  {| nv_Address := "0000:04:00.4"; nv_Path := "/sys/bus/pci/devices/0000:04:00.4"; nv_IsGPU := true; nv_IsVF := true |}.
Definition demo_pf : NvidiaPCIDevice :=
  {| nv_Address := "0000:04:00.0"; nv_Path := "/sys/bus/pci/devices/0000:04:00.0"; nv_IsGPU := true; nv_IsVF := false |}.
Definition gpu_node : sim :=
  {| sim_store := fun _ => ∅; sim_index := ∅;
     sim_files := list_to_map
       [("/sys/bus/pci/devices/0000:04:00.4/nvidia/current_vgpu_type", "1145" +:+ newline);
        ("/sys/bus/pci/devices/0000:04:00.4/nvidia/creatable_vgpu_types", types_text demo_types)];
     sim_links := {[ "/sys/bus/pci/devices/0000:04:00.4/physfn" := "/sys/devices/pci0000:00/0000:04:00.0" ]};
     sim_dirs := ∅; sim_globs := ∅; sim_exec := ∅; sim_pci := []; sim_nics := []; sim_netlinks := [];
     sim_nv := [demo_pf; demo_vf]; sim_locks := ∅; sim_queue := [] |}.

(** A vGPU that is configured in sysfs, and is not generated as enabled. *)
Lemma IdentifyVGPU_objects_witness :
  exists v s', IdentifyVGPU "n1" (State tt gpu_node) = (Ok [v], s') /\
    vgpu_VGPUStatus (vgpu_Status v) = VGPUEnabled /\ vgpu_Enabled (vgpu_Spec v) = false.
Proof.
  assert (is_Ok (fst (IdentifyVGPU "n1" (State tt gpu_node))) = true) as Hok by (vm_compute; reflexivity).
  destruct (IdentifyVGPU "n1" (State tt gpu_node)) as [[r|e|p] s'] eqn:E; [|discriminate Hok..].
  destruct (IdentifyVGPU_objects "n1" (State tt gpu_node) s' r E) as (devices & s1 & Hd & Hall).
  vm_compute in Hd. injection Hd as <- _. vm_compute List.filter in Hall.
  inversion Hall as [|? v ? ? (_ & _ & _ & _ & Hen & _) Hnil]; subst. inversion Hnil; subst.
  exists v, s'. split; [done|]. split; [|done].
  vm_compute in E. injection E as <- _. vm_compute. reflexivity.
Defined.
