(* ===== verification/GPUController.v ===== *)
(** * GPUs with SR-IOV (pkg/controller/gpudevice/gpu_controller.go)

    The objects of the node's GPUs, the switching of their virtual functions by
    the driver's sriov-manage, the executor of commands (in the container or in
    the driver's pod), and the MIG configuration of an enabled GPU.

    The memory is the handler's executor and node and the informer's cache of
    vGPUs, whose objects the handlers of [VGPUController] write in place. *)

From S2P Require Import Prelude GoStrings GoStringLemmas GoMonad Types Effects PCIDeviceApi Common Mig GPUHelper Sim SimGPU.

Definition sriovManageCommand : string := "/usr/lib/nvidia/sriov-manage".
Definition DefaultNamespace : string := "harvester-system".
Definition NvidiaDriverLabel : string := "app=nvidia-driver-daemonset".

Record Handler := {
  h_nodeName : string;
  h_executor : Executor;
  h_vgpus : gmap string VGPUDevice
}.
Definition set_executor (ex : Executor) (h : Handler) : Handler :=
  {| h_nodeName := h_nodeName h; h_executor := ex; h_vgpus := h_vgpus h |}.
Definition set_vgpu (name : string) (v : VGPUDevice) (h : Handler) : Handler :=
  {| h_nodeName := h_nodeName h; h_executor := h_executor h; h_vgpus := <[name := v]> (h_vgpus h) |}.

Definition containsGPUDevices (gpu : SRIOVGPUDevice) (gpuList : list SRIOVGPUDevice) : bool :=
  existsb (fun v => m_Name (gpu_meta v) ==s m_Name (gpu_meta gpu)) gpuList.

Definition isNotDriverPod (pod : Pod) : bool :=
  match Split NvidiaDriverLabel "=" with
  | [key; value] =>
      match m_Labels (pod_meta pod) !! key with
      | Some val => val !=s value
      | None => true
      end
  | _ => true
  end.

Definition set_gpu_Status (st : SRIOVGPUDeviceStatus) (gpu : SRIOVGPUDevice) : SRIOVGPUDevice :=
  {| gpu_meta := gpu_meta gpu; gpu_Spec := gpu_Spec gpu; gpu_Status := st |}.

(** [reflect.DeepEqual(gpu.Status, gpuStatus)] compares a struct with a pointer to
    one: values of different types are not equal. *)
Definition status_equals_pointer (status gpuStatus : SRIOVGPUDeviceStatus) : bool := false.

(** [int] sums of lengths of slices. *)
Definition instanceCount (discoveredStatus : MigConfigurationStatus) : Z :=
  fold_left (fun n v => (n + Z.of_nat (length (mps_VGPUID v)))%Z)
    (default [] (mig_ProfileStatus discoveredStatus)) 0%Z.

Definition owner_of (m : ObjectMeta) : OwnerReference :=
  {| or_APIVersion := m_APIVersion m; or_Kind := m_Kind m; or_Name := m_Name m; or_UID := m_UID m |}.

Definition set_mig_Status (st : MigConfigurationStatus) (mig : MigConfiguration) : MigConfiguration :=
  {| mig_meta := mig_meta mig; mig_Spec := mig_Spec mig; mig_Status := st |}.

Section Handlers.
Context `{MapOrder} {W : Type} `{World W}.
#[local] Abbreviation M := (M Handler W).

Definition manageGPU (gpu : SRIOVGPUDevice) : M SRIOVGPUDevice :=
  let address := gpu_Address (gpu_Spec gpu) in
  let args := [if gpu_Enabled (gpu_Spec gpu) then "-e" else "-d"; address] in
  h <- get_mem ;;
  on_err (fun _ => Errorf "error during readiness check") (eff (ExecCheckReady (h_executor h))) ;;;
  on_err (fun _ => Errorf "error performing sriovmanage operation")
    (eff (ExecRun (h_executor h) sriovManageCommand args)) ;;;
  r <- GenerateGPUStatus (PathJoin [SysDevRoot; address]) (gpu_NodeName (gpu_Spec gpu)) ;;
  eff (CacheWrite KSRIOVGPUDevice (set_gpu_Status r.2 gpu)) ;;;
  eff (ApiUpdateStatus KSRIOVGPUDevice (set_gpu_Status r.2 gpu)).

Definition OnGPUChange (o : option SRIOVGPUDevice) : M (option SRIOVGPUDevice) :=
  match o with
  | None => ret None
  | Some gpu =>
      h <- get_mem ;;
      if m_DeletionTimestamp (gpu_meta gpu) || (gpu_NodeName (gpu_Spec gpu) !=s h_nodeName h) then ret o
      else
        r <- on_err (fun _ => Errorf "error generating status for SRIOVGPUDevice")
          (GenerateGPUStatus (PathJoin [SysDevRoot; gpu_Address (gpu_Spec gpu)]) (gpu_NodeName (gpu_Spec gpu))) ;;
        if negb (eqb (gpu_Enabled (gpu_Spec gpu)) r.1) then
          gpu' <- manageGPU gpu ;; ret (Some gpu')
        else if negb (status_equals_pointer (gpu_Status gpu) r.2) then
          eff (CacheWrite KSRIOVGPUDevice (set_gpu_Status r.2 gpu)) ;;;
          gpu' <- eff (ApiUpdateStatus KSRIOVGPUDevice (set_gpu_Status r.2 gpu)) ;; ret (Some gpu')
        else ret o
  end.

(** ** The set of objects *)
Definition createOrUpdateSRIOVGPUDevice (gpu : SRIOVGPUDevice) : M unit :=
  r <- try (eff (CacheGet KSRIOVGPUDevice "" (m_Name (gpu_meta gpu)))) ;;
  match r with
  | inr _ => ret tt
  | inl err => if IsNotFound err then eff (ApiCreate KSRIOVGPUDevice gpu) ;;; ret tt else fail err
  end.

(** One scanned GPU: left alone while it is passed through as a PCI device. *)
Definition setup_gpu (v : SRIOVGPUDevice) : M unit :=
  r <- try (eff (CacheGet KPCIDeviceClaim "" (m_Name (gpu_meta v)))) ;;
  match r with
  | inr _ => ret tt
  | inl err =>
      if IsNotFound err then createOrUpdateSRIOVGPUDevice v
      else fail (Errorf "error looking up pcideviceclaim for sriovGPUDevice")
  end.

(** One stored GPU. *)
Definition delete_gone_gpu (sriovGPUDevices : list SRIOVGPUDevice) (v : SRIOVGPUDevice) : M unit :=
  if negb (containsGPUDevices v sriovGPUDevices)
  then on_err (fun _ => Errorf "error deleting non existent GPU device")
         (eff (ApiDelete KSRIOVGPUDevice (m_Name (gpu_meta v))))
  else ret tt.

Definition reconcileSRIOVGPUSetup (sriovGPUDevices : list SRIOVGPUDevice) : M unit :=
  for_each setup_gpu sriovGPUDevices ;;;
  h <- get_mem ;;
  existingGPUs <- eff (CacheList KSRIOVGPUDevice {[ NodeKeyName := h_nodeName h ]}) ;;
  for_each (delete_gone_gpu sriovGPUDevices) existingGPUs.

Definition SetupSRIOVGPUDevices : M unit :=
  h <- get_mem ;;
  sriovGPUDevices <- IdentifySRIOVGPU (h_nodeName h) ;;
  reconcileSRIOVGPUSetup sriovGPUDevices.

(** ** The executor *)
Definition setupRemoteExecutor (o : option Pod) : M (option Pod) :=
  match o with
  | None => ret None
  | Some pod =>
      h <- get_mem ;;
      if (m_Namespace (pod_meta pod) !=s DefaultNamespace) || isNotDriverPod pod ||
         (pod_NodeName pod !=s h_nodeName h)
      then ret o
      else
        newExecutor <- (if negb (m_DeletionTimestamp (pod_meta pod))
          then on_err (fun _ => Errorf "error generating client for config in remote command executor")
                 (eff KubeClient) ;;;
               ret (RemoteExecutor (m_Name (pod_meta pod)))
          else ret LocalExecutor) ;;
        modify_mem (set_executor newExecutor) ;;;
        ret o
  end.

(** ** MIG configurations *)
Section MigSetup.
(** Whether the object that a cache's [Get] returns next to a not-found error is
    not nil: a fact of the wrangler library. *)
Variable get_returns_empty : bool.

(** The cached object is not nil. *)
Definition mig_exists (name : string) : M bool :=
  r <- try (eff (CacheGet KMigConfiguration "" name)) ;;
  match r with
  | inr _ => ret true
  | inl err => if negb (IsNotFound err) then fail (Wrapf "error looking up MIG Configuration" err)
               else ret get_returns_empty
  end.

(** The new object, and then its status. *)
Definition create_mig (ex : Executor) (gpu : SRIOVGPUDevice) : M unit :=
  migConfiguration <- on_err (Wrapf "error generating MIG Configuration")
    (GenerateMIGConfiguration ex (gpu_Address (gpu_Spec gpu)) (m_Name (gpu_meta gpu))) ;;
  migStatus <- on_err (Wrapf "error generating MIG configuration status")
    (GenerateMIGConfigurationStatus ex (gpu_Address (gpu_Spec gpu))) ;;
  migObject <- on_err (Wrapf "error setting up MIG configuration")
    (eff (ApiCreate KMigConfiguration
      {| mig_meta := set_OwnerReferences (Some [owner_of (gpu_meta gpu)]) (mig_meta migConfiguration);
         mig_Spec := {| mig_Enabled := (0 <? instanceCount migStatus)%Z || mig_Enabled (mig_Spec migConfiguration);
                        mig_GPUAddress := mig_GPUAddress (mig_Spec migConfiguration);
                        mig_NodeName := gpu_NodeName (gpu_Spec gpu);
                        mig_ProfileSpec := mig_ProfileSpec (mig_Spec migConfiguration) |};
         mig_Status := mig_Status migConfiguration |})) ;;
  eff (ApiUpdateStatus KMigConfiguration (set_mig_Status migStatus migObject)) ;;;
  ret tt.

Definition setupMigConfiguration (gpu : SRIOVGPUDevice) : M unit :=
  h <- get_mem ;;
  let ex := h_executor h in
  let address := gpu_Address (gpu_Spec gpu) in
  ok <- on_err (Wrapf "error checking if GPU supports MIG instances") (IsMigConfigurationNeeded ex address) ;;
  if negb ok then ret tt else
  on_err (Wrapf "error enable MIG Mode") (EnableMIGMode ex address) ;;;
  found <- mig_exists (m_Name (gpu_meta gpu)) ;;
  if found : bool then ret tt else
  create_mig ex gpu.

(** The handler reads [gpu.Spec] without a test: the object of a deletion event is
    nil. *)
Definition reconcileMIGConfiguration (o : option SRIOVGPUDevice) : M (option SRIOVGPUDevice) :=
  match o with
  | None => panic "invalid memory address or nil pointer dereference"
  | Some gpu =>
      if gpu_Enabled (gpu_Spec gpu) then setupMigConfiguration gpu ;;; ret o
      else
        r <- try (eff (CacheGet KMigConfiguration "" (m_Name (gpu_meta gpu)))) ;;
        match r with
        | inl err => if IsNotFound err then ret o else fail err
        | inr _ => eff (ApiDelete KMigConfiguration (m_Name (gpu_meta gpu))) ;;; ret o
        end
  end.
End MigSetup.
End Handlers.

(** ** Properties *)
Lemma containsGPUDevices_spec gpu l :
  containsGPUDevices gpu l = true <-> m_Name (gpu_meta gpu) ∈ (fun v => m_Name (gpu_meta v)) <$> l.
Proof.
  unfold containsGPUDevices. rewrite existsb_exists, list_elem_of_fmap. split.
  - intros (v & Hv & E%bool_decide_eq_true). exists v. split; [done|]. by apply list_elem_of_In.
  - intros (v & E & Hv). exists v. split; [by apply list_elem_of_In|]. by apply bool_decide_eq_true.
Qed.

(** What a pass may change: GPUs' objects, created for a scanned GPU, deleted when no
    scanned GPU has the name. *)
Definition gpu_setup_event (scanned : list SRIOVGPUDevice) (ev : event) : Prop :=
  match ev with
  | Ev e _ =>
      match e with
      | ApiCreate k o =>
          match k return Obj k -> Prop with
          | KSRIOVGPUDevice => fun o => o ∈ scanned
          | _ => fun _ => False
          end o
      | ApiDelete k n => k = KSRIOVGPUDevice /\ n ∉ (fun v => m_Name (gpu_meta v)) <$> scanned
      | ApiUpdate _ _ | ApiUpdateStatus _ _ | FsWrite _ _ | FsWriteFile _ _ | FsRemove _ => False
      | _ => True
      end
  end.

(** A scanned GPU that the pass has dealt with. *)
Definition gpu_done (v : SRIOVGPUDevice) (log : list event) : Prop :=
  (exists o, Ev (CacheGet KPCIDeviceClaim "" (m_Name (gpu_meta v))) (inr o) ∈ log) \/
  (exists o, Ev (CacheGet KSRIOVGPUDevice "" (m_Name (gpu_meta v))) (inr o) ∈ log) \/
  (exists o, Ev (ApiCreate KSRIOVGPUDevice v) (inr o) ∈ log).

Section Setup.
Context {W : Type} `{World W}.
Implicit Types (s : state Handler (Logged W)).

Lemma setup_gpu_steps scanned v :
  v ∈ scanned -> Steps (@emits Handler W (gpu_setup_event scanned)) (setup_gpu v).
Proof.
  intros Hv. unfold setup_gpu, createOrUpdateSRIOVGPUDevice.
  steps_tac; apply Steps_emits_eff; done.
Qed.

Lemma delete_gone_gpu_steps scanned v :
  Steps (@emits Handler W (gpu_setup_event scanned)) (delete_gone_gpu scanned v).
Proof.
  unfold delete_gone_gpu. destruct (containsGPUDevices v scanned) eqn:E; simpl; [steps_tac|].
  apply Steps_on_err, Steps_emits_eff. intros r. split; [done|].
  rewrite <- containsGPUDevices_spec. by rewrite E.
Qed.

Lemma setup_gpu_done v s s' : setup_gpu v s = (Ok tt, s') -> gpu_done v (log_of s').
Proof.
  unfold setup_gpu, createOrUpdateSRIOVGPUDevice, gpu_done. intros Hrun.
  apply bind_Ok_inv in Hrun as (r & s1 & Hc & Hrun). apply try_eff_log in Hc as [Hl1 _].
  destruct r as [err|c].
  - destruct (IsNotFound err); [|discriminate Hrun].
    apply bind_Ok_inv in Hrun as (r2 & s2 & Hg & Hrun). apply try_eff_log in Hg as [Hl2 _].
    destruct r2 as [err2|g].
    + destruct (IsNotFound err2); [|discriminate Hrun].
      apply bind_Ok_inv in Hrun as (o & s3 & Hcr & Hrun). injection Hrun as <-.
      apply eff_Ok_log in Hcr as [Hl3 _]. right; right. exists o. rewrite Hl3. set_solver.
    + injection Hrun as <-. right; left. exists g. rewrite Hl2. set_solver.
  - injection Hrun as <-. left. exists c. rewrite Hl1. set_solver.
Qed.

(** C24: the objects of the node's GPUs follow the scan: a pass creates objects only of
    scanned GPUs and deletes only those whose GPU was not scanned; when it
    succeeds, every scanned GPU is claimed as a PCI device, has an object or got
    one, and every listed object whose GPU is gone was deleted. *)
Theorem reconcileSRIOVGPUSetup_sync (scanned : list SRIOVGPUDevice) s s'
    (Hrun : reconcileSRIOVGPUSetup scanned s = (Ok tt, s')) :
  emits (gpu_setup_event scanned) s s' /\
  Forall (fun v => gpu_done v (log_of s')) scanned /\
  exists listed,
    Ev (CacheList KSRIOVGPUDevice {[ NodeKeyName := h_nodeName (mem s) ]}) (inr listed) ∈ log_of s' /\
    Forall (fun g => containsGPUDevices g scanned = false ->
      Ev (ApiDelete KSRIOVGPUDevice (m_Name (gpu_meta g))) (inr tt) ∈ log_of s') listed.
Proof.
  assert (Steps (@emits Handler W (gpu_setup_event scanned)) (for_each setup_gpu scanned)) as Hset.
  { apply Steps_for_each; [typeclasses eauto|]. intros v. apply setup_gpu_steps. }
  assert (Steps (@same_mem Handler (Logged W)) (for_each setup_gpu scanned)) as Hmem.
  { apply Steps_for_each; [typeclasses eauto|]. intros v _.
    unfold setup_gpu, createOrUpdateSRIOVGPUDevice. steps_tac. }
  unfold reconcileSRIOVGPUSetup in Hrun.
  apply bind_Ok_inv in Hrun as ([] & s1 & Hsetup & Hrun).
  specialize (Hset s). specialize (Hmem s). rewrite Hsetup in Hset, Hmem. simpl in Hset, Hmem.
  apply bind_Ok_inv in Hrun as (h & s1' & Hh & Hrun). injection Hh as <- <-.
  apply bind_Ok_inv in Hrun as (listed & s2 & Hlist & Hrun). apply eff_Ok_log in Hlist as [Hl2 _].
  assert (emits (gpu_setup_event scanned) s1 s2) as Hem.
  { eexists [_]. split; [exact Hl2|]. by repeat constructor. }
  pose proof (Steps_for_each _ (delete_gone_gpu scanned) listed
    (fun v _ => delete_gone_gpu_steps scanned v) s2) as Hem2. rewrite Hrun in Hem2. simpl in Hem2.
  assert (forall ev, ev ∈ log_of s2 -> ev ∈ log_of s') as Hmono.
  { destruct Hem2 as (evs & -> & _). set_solver. }
  split; [by etransitivity; [exact Hset|etransitivity; [exact Hem|exact Hem2]]|]. split.
  - pose proof (for_each_done setup_gpu gpu_done scanned s s1 Hsetup) as Hdone.
    eapply Forall_impl; [apply Hdone|].
    + intros v s0. unfold setup_gpu, createOrUpdateSRIOVGPUDevice. steps_tac.
    + unfold gpu_done. set_solver.
    + intros v sa sb _. apply setup_gpu_done.
    + assert (log_of s1 ⊆ log_of s') as Hsub by (intros ev Hev; apply Hmono; rewrite Hl2; set_solver).
      unfold gpu_done. set_solver.
  - exists listed. split; [apply Hmono; rewrite Hl2, Hmem; set_solver|].
    refine (for_each_done (delete_gone_gpu scanned) (fun g log => containsGPUDevices g scanned = false ->
      Ev (ApiDelete KSRIOVGPUDevice (m_Name (gpu_meta g))) (inr tt) ∈ log) listed s2 s' Hrun _ _ _).
    + intros v. unfold delete_gone_gpu. steps_tac.
    + set_solver.
    + intros v sa sb _ Hv E. unfold delete_gone_gpu in Hv. rewrite E in Hv. simpl in Hv.
      apply on_err_Ok_inv, eff_Ok_log in Hv as [-> _]. set_solver.
Qed.
End Setup.

(** ** The executor follows the last event of a driver pod *)
Definition driver_pod (nodeName : string) (pod : Pod) : bool :=
  (m_Namespace (pod_meta pod) ==s DefaultNamespace) && negb (isNotDriverPod pod) &&
  (pod_NodeName pod ==s nodeName).
Definition executor_after (nodeName : string) (ex : Executor) (pod : Pod) : Executor :=
  if driver_pod nodeName pod
  then if m_DeletionTimestamp (pod_meta pod) then LocalExecutor else RemoteExecutor (m_Name (pod_meta pod))
  else ex.

Section RemoteExecutor.
Context {W : Type} `{World W}.
Implicit Types (s : state Handler W).

Lemma setupRemoteExecutor_one pod s r s' :
  setupRemoteExecutor (Some pod) s = (Ok r, s') ->
  r = Some pod /\ mem s' = set_executor (executor_after (h_nodeName (mem s)) (h_executor (mem s)) pod) (mem s).
Proof.
  unfold setupRemoteExecutor, executor_after, driver_pod. intros Hrun.
  apply bind_Ok_inv in Hrun as (h & s1 & Hh & Hrun). injection Hh as <- <-.
  assert (set_executor (h_executor (mem s)) (mem s) = mem s) as Hid by by destruct (mem s).
  destruct (m_Namespace (pod_meta pod) ==s DefaultNamespace); simpl in Hrun; [|by injection Hrun as <- <-].
  destruct (isNotDriverPod pod); simpl in Hrun; [by injection Hrun as <- <-|].
  destruct (pod_NodeName pod ==s h_nodeName (mem s)); simpl in Hrun; [|by injection Hrun as <- <-].
  apply bind_Ok_inv in Hrun as (ex & s1 & Hex & Hrun).
  apply bind_Ok_inv in Hrun as ([] & s2 & Hmod & Hrun). injection Hmod as <-. injection Hrun as <- <-.
  split; [done|]. simpl. destruct (m_DeletionTimestamp (pod_meta pod)); simpl in *.
  - by injection Hex as <- <-.
  - apply bind_Ok_inv in Hex as (u & s2 & Hk & Hex). injection Hex as <- <-.
    apply on_err_Ok_inv, eff_Ok_inv in Hk as [_ Hm]. by rewrite Hm.
Qed.

(** The executor is that of the last event of a driver pod of the node: after any
    sequence of pod events that were handled without an error it is decided by
    them in order, a pod that runs setting the remote executor bound to it and a
    pod that is being deleted, whichever it is, setting the local one back. *)
Theorem executor_follows_pods (pods : list Pod) s s'
    (Hrun : for_each (fun pod => setupRemoteExecutor (Some pod) ;;; ret tt) pods s = (Ok tt, s')) :
  mem s' = set_executor (fold_left (executor_after (h_nodeName (mem s))) pods (h_executor (mem s))) (mem s).
Proof.
  revert s Hrun. induction pods as [|pod pods IH]; intros s Hrun.
  - injection Hrun as <-. by destruct (mem s).
  - cbn [for_each] in Hrun. apply bind_Ok_inv in Hrun as ([] & s1 & Hpod & Hrun).
    apply bind_Ok_inv in Hpod as (r & s2 & Hpod & E). injection E as <-.
    apply setupRemoteExecutor_one in Hpod as [_ Hm]. specialize (IH s2 Hrun). by rewrite IH, Hm.
Qed.
End RemoteExecutor.

Definition demo_driver (name : string) (deleted : bool) : Pod :=
  {| pod_meta := {| m_Kind := ""; m_APIVersion := ""; m_Name := name; m_Namespace := DefaultNamespace; m_UID := "";
       m_Labels := {[ "app" := "nvidia-driver-daemonset" ]}; m_Annotations := ∅; m_OwnerReferences := None;
       m_Finalizers := []; m_DeletionTimestamp := deleted |};
     pod_Phase := "Running"; pod_NodeName := "n1" |}.
Definition demo_handler : Handler := {| h_nodeName := "n1"; h_executor := LocalExecutor; h_vgpus := ∅ |}.

(** The driver's pod is replaced: the last event of the old one, after the new one
    is up, sets the local executor back although a driver pod runs. *)
Lemma executor_follows_pods_witness :
  exists s', for_each (fun pod => setupRemoteExecutor (Some pod) ;;; ret tt)
      [demo_driver "old" false; demo_driver "new" false; demo_driver "old" true]
      (State demo_handler sim_empty) = (Ok tt, s') /\
    h_executor (mem s') = LocalExecutor.
Proof.
  set (pods := [demo_driver "old" false; demo_driver "new" false; demo_driver "old" true]).
  set (run := for_each (fun pod => setupRemoteExecutor (Some pod) ;;; ret tt) pods).
  assert (is_Ok (fst (run (State demo_handler sim_empty))) = true) as Hok by (vm_compute; reflexivity).
  destruct (run (State demo_handler sim_empty)) as [[[]|e|p] s'] eqn:E; [|discriminate Hok..].
  exists s'. split; [done|].
  rewrite (executor_follows_pods pods (State demo_handler sim_empty) s' E). vm_compute. reflexivity.
Defined.

(** ** Switching a GPU's virtual functions *)
Section Manage.
Context `{MapOrder} {W : Type} `{World W}.
Implicit Types (s : state Handler (Logged W)).

Lemma GenerateGPUStatus_steps p host :
  Steps (@same_mem Handler (Logged W)) (GenerateGPUStatus p host) /\
  Steps (@emits Handler W any_event) (GenerateGPUStatus p host).
Proof. split; unfold GenerateGPUStatus, CurrentVFConfigured, GetVFList, vf_of_dir; steps_tac. Qed.

(** A GPU of the node is switched to what its specification says: on success the
    virtual functions were as specified, or sriov-manage was run for the GPU's
    address, with -e to enable and -d to disable, by the executor of the moment;
    in both cases the API server was sent the status last read from sysfs, even
    when the object had it already. *)
Theorem OnGPUChange_manages (gpu : SRIOVGPUDevice) s s' r
    (Hlive : m_DeletionTimestamp (gpu_meta gpu) = false)
    (Hnode : gpu_NodeName (gpu_Spec gpu) = h_nodeName (mem s))
    (Hrun : OnGPUChange (Some gpu) s = (Ok r, s')) :
  exists gpu' enabled st st' s1 s2 s3,
    let path := PathJoin [SysDevRoot; gpu_Address (gpu_Spec gpu)] in
    r = Some gpu' /\
    GenerateGPUStatus path (gpu_NodeName (gpu_Spec gpu)) s = (Ok (enabled, st), s1) /\
    Ev (ApiUpdateStatus KSRIOVGPUDevice (set_gpu_Status st' gpu)) (inr gpu') ∈ log_of s' /\
    (enabled = gpu_Enabled (gpu_Spec gpu) /\ st' = st \/
     enabled <> gpu_Enabled (gpu_Spec gpu) /\
     (exists out, Ev (ExecRun (h_executor (mem s)) sriovManageCommand
       [if gpu_Enabled (gpu_Spec gpu) then "-e" else "-d"; gpu_Address (gpu_Spec gpu)]) (inr out) ∈ log_of s') /\
     exists enabled', GenerateGPUStatus path (gpu_NodeName (gpu_Spec gpu)) s2 = (Ok (enabled', st'), s3)).
Proof.
  unfold OnGPUChange in Hrun. apply bind_Ok_inv in Hrun as (h & s0 & Hh & Hrun). injection Hh as <- <-.
  rewrite Hlive, Hnode, bool_decide_eq_true_2 in Hrun by done. cbn [orb negb] in Hrun. rewrite <- Hnode in Hrun.
  apply bind_Ok_inv in Hrun as ([enabled st] & s1 & Hst & Hrun). apply on_err_Ok_inv in Hst.
  destruct (GenerateGPUStatus_steps (PathJoin [SysDevRoot; gpu_Address (gpu_Spec gpu)]) (gpu_NodeName (gpu_Spec gpu)))
    as [Hmem Hany].
  pose proof (Hmem s) as Hmem1. rewrite Hst in Hmem1. simpl in Hmem1.
  cbn [fst snd] in Hrun. destruct (eqb (gpu_Enabled (gpu_Spec gpu)) enabled) eqn:E; cbn [negb] in Hrun.
  - apply eqb_prop in E. simpl in Hrun. apply bind_Ok_inv in Hrun as ([] & s3 & Hcached & Hrun).
    apply bind_Ok_inv in Hrun as (gpu' & s2 & Hup & Hrun). injection Hrun as <- <-. apply eff_Ok_log in Hup as [Hl _].
    exists gpu', enabled, st, st, s1, s1, s1. simpl. split_and!; [done..| |by left]. rewrite Hl. set_solver.
  - apply eqb_false_iff in E. apply bind_Ok_inv in Hrun as (gpu' & s2 & Hman & Hrun). injection Hrun as <- <-.
    unfold manageGPU in Hman. apply bind_Ok_inv in Hman as (h & s3 & Hh & Hman). injection Hh as <- <-.
    apply bind_Ok_inv in Hman as (o1 & s4 & Hready & Hman). apply on_err_Ok_inv, eff_Ok_log in Hready as [_ _].
    apply bind_Ok_inv in Hman as (o2 & s5 & Hcmd & Hman). apply on_err_Ok_inv, eff_Ok_log in Hcmd as [Hl5 _].
    apply bind_Ok_inv in Hman as ([enabled' st'] & s6 & Hst' & Hman).
    pose proof (Hany s5) as Hany5. rewrite Hst' in Hany5. destruct Hany5 as (evs & Hl6 & _).
    apply bind_Ok_inv in Hman as ([] & s7 & Hcached & Hman). apply eff_Ok_log in Hcached as [Hl6' _].
    apply eff_Ok_log in Hman as [Hl7 _]. rewrite Hl6' in Hl7. simpl in Hl6.
    exists gpu', enabled, st, st', s1, s5, s6. simpl. split_and!; [done..| |].
    + rewrite Hl7. set_solver.
    + right. split; [congruence|]. split; [|by exists enabled'].
      exists o2. rewrite Hl7, Hl6, Hl5, Hmem1. set_solver.
Qed.
End Manage.

(** ** The MIG configuration of an enabled GPU *)
Definition creates_mig (ev : event) : Prop :=
  match ev with Ev e _ => match e with ApiCreate k _ => k = KMigConfiguration | _ => False end end.

Section MigCreation.
Context `{MapOrder} {W : Type} `{World W}.
Implicit Types (s : state Handler (Logged W)).

Lemma IsMigConfigurationNeeded_log ex address s ok s' :
  IsMigConfigurationNeeded ex address s = (Ok ok, s') ->
  exists out, Ev (ExecRun ex (generateMigStatusCheckCommand address) []) (inr out) ∈ log_of s' /\
    ok = isMigSupported out.
Proof.
  unfold IsMigConfigurationNeeded. intros Hrun. apply bind_Ok_inv in Hrun as (out & s1 & Hout & Hrun).
  apply on_err_Ok_inv, eff_Ok_log in Hout as [Hl _]. injection Hrun as <- <-.
  exists out. split; [|done]. rewrite Hl. set_solver.
Qed.

Lemma mig_exists_log b name s found s' :
  mig_exists b name s = (Ok found, s') ->
  (found = true /\ exists o, Ev (CacheGet KMigConfiguration "" name) (inr o) ∈ log_of s') \/ found = b.
Proof.
  unfold mig_exists. intros Hrun. apply bind_Ok_inv in Hrun as (r & s1 & Hget & Hrun).
  apply try_eff_log in Hget as [Hl _]. destruct r as [err|o].
  - destruct (negb (IsNotFound err)); [discriminate|]. injection Hrun as <- <-. by right.
  - injection Hrun as <- <-. left. split; [done|]. exists o. rewrite Hl. set_solver.
Qed.

(** When the cache answers with an empty object, the configuration is taken to exist. *)
Lemma setup_never_creates gpu s :
  emits (fun ev => ~ creates_mig ev) s (snd (setupMigConfiguration true gpu s)).
Proof.
  assert (forall name, Steps (@emits Handler W (fun ev => ~ creates_mig ev)) (mig_exists true name)) as Hex.
  { intros name. unfold mig_exists. steps_tac. apply Steps_emits_eff. tauto. }
  unfold setupMigConfiguration, IsMigConfigurationNeeded, EnableMIGMode, Run. revert s.
  apply Steps_bind; [typeclasses eauto|apply Steps_get_mem; typeclasses eauto|]. intros h.
  apply Steps_bind; [typeclasses eauto| |].
  { steps_tac; apply Steps_emits_eff; tauto. }
  intros [|]; [|steps_tac]. cbn [negb]. apply Steps_bind; [typeclasses eauto| |].
  { steps_tac; apply Steps_emits_eff; tauto. }
  intros [] s. unfold bind at 1. specialize (Hex (m_Name (gpu_meta gpu)) s).
  destruct (mig_exists true (m_Name (gpu_meta gpu)) s) as [[b|e|p] s1] eqn:E; [|done..].
  apply mig_exists_log in E as [[-> _]| ->]; done.
Qed.

(** The configuration that was created, and the status that was sent for it. *)
Definition mig_created (gpu : SRIOVGPUDevice) (log : list event) : Prop :=
  exists mig o st o', Ev (ApiCreate KMigConfiguration mig) (inr o) ∈ log /\
    Ev (ApiUpdateStatus KMigConfiguration (set_mig_Status st o)) (inr o') ∈ log /\
    m_Name (mig_meta mig) = m_Name (gpu_meta gpu) /\
    m_OwnerReferences (mig_meta mig) = Some [owner_of (gpu_meta gpu)] /\
    mig_NodeName (mig_Spec mig) = gpu_NodeName (gpu_Spec gpu) /\
    mig_GPUAddress (mig_Spec mig) = gpu_Address (gpu_Spec gpu) /\
    mig_Enabled (mig_Spec mig) = (0 <? instanceCount st)%Z.

Lemma create_mig_log ex gpu s s' : create_mig ex gpu s = (Ok tt, s') -> mig_created gpu (log_of s').
Proof.
  unfold create_mig. intros Hrun. apply bind_Ok_inv in Hrun as (conf & s4 & Hconf & Hrun). apply on_err_Ok_inv in Hconf.
  apply bind_Ok_inv in Hrun as (st & s5 & _ & Hrun).
  apply bind_Ok_inv in Hrun as (o & s6 & Hcreate & Hrun). apply on_err_Ok_inv, eff_Ok_log in Hcreate as [Hl6 _].
  apply bind_Ok_inv in Hrun as (o' & s7 & Hup & Hrun). injection Hrun as <-. apply eff_Ok_log in Hup as [Hl7 _].
  unfold GenerateMIGConfiguration in Hconf.
  apply bind_Ok_inv in Hconf as (profiles & s8 & _ & Hconf).
  apply bind_Ok_inv in Hconf as (specs & s9 & _ & Hconf). injection Hconf as <- _. cbn in Hl6.
  eexists _, o, st, o'. rewrite Hl7, Hl6.
  split; [apply elem_of_app; left; apply elem_of_app; right; by left|].
  split; [apply elem_of_app; right; by left|].
  cbn. rewrite orb_false_r. by split_and!.
Qed.

(** The MIG configuration of an enabled GPU hangs on what the cache returns with a
    not-found error.  If that is an empty object, as the comment in
    [reconcileSRIOVGPUSetup] has it, none is ever created.  If it is nil, then on
    success the GPU reported no MIG support, or a configuration exists, or one was
    created for the GPU, owned by it, enabled exactly when the GPU has instances,
    and its status, as discovered, was sent. *)
Theorem setupMigConfiguration_creates (gpu : SRIOVGPUDevice) :
  (forall s, emits (fun ev => ~ creates_mig ev) s (snd (setupMigConfiguration true gpu s))) /\
  (forall s s', setupMigConfiguration false gpu s = (Ok tt, s') ->
    (exists out, Ev (ExecRun (h_executor (mem s)) (generateMigStatusCheckCommand (gpu_Address (gpu_Spec gpu))) [])
       (inr out) ∈ log_of s' /\ isMigSupported out = false) \/
    (exists o, Ev (CacheGet KMigConfiguration "" (m_Name (gpu_meta gpu))) (inr o) ∈ log_of s') \/
    mig_created gpu (log_of s')).
Proof.
  split; [by intros s; apply setup_never_creates|]. intros s s' Hrun. unfold setupMigConfiguration in Hrun.
  apply bind_Ok_inv in Hrun as (h & s0 & Hh & Hrun). injection Hh as <- <-.
  apply bind_Ok_inv in Hrun as (ok & s1 & Hneed & Hrun).
  apply on_err_Ok_inv, IsMigConfigurationNeeded_log in Hneed as (out & Hout & ->).
  destruct (isMigSupported out) eqn:Hsup; cbn [negb] in Hrun; [right|left; injection Hrun as <-; eauto].
  apply bind_Ok_inv in Hrun as ([] & s2 & _ & Hrun).
  apply bind_Ok_inv in Hrun as (found & s3 & Hfound & Hrun).
  apply mig_exists_log in Hfound as [(-> & o & Ho)| ->]; [left; injection Hrun as <-; eauto|right].
  by apply create_mig_log in Hrun.
Qed.
End MigCreation.

(** ** The theorems at work *)
Definition demo_gpuobj (name address : string) (enabled : bool) : SRIOVGPUDevice :=
  {| gpu_meta := new_meta name {[ NodeKeyName := "n1" ]} ∅;
     gpu_Spec := {| gpu_Address := address; gpu_NodeName := "n1"; gpu_Enabled := enabled |};
     gpu_Status := {| gpu_VFAddresses := None; gpu_VGPUDevices := None |} |}.

Definition gpu_files : sim :=
  {| sim_store := fun _ => ∅; sim_index := ∅;
     sim_files := list_to_map [("/sys/bus/pci/devices/0000:04:00.0", "");
       ("/sys/bus/pci/devices/0000:04:00.0/sriov_numvfs", "0" +:+ newline)];
     sim_links := {[ "/sys/bus/pci/devices/0000:04:00.0/virtfn0" := "/sys/devices/0000:04:00.4" ]};
     sim_dirs := ∅;
     sim_globs := {[ "/sys/bus/pci/devices/0000:04:00.0/virtfn*" := ["/sys/bus/pci/devices/0000:04:00.0/virtfn0"] ]};
     sim_exec := {[ "/usr/lib/nvidia/sriov-manage -e 0000:04:00.0" := "Enabling VFs" ]};
     sim_pci := []; sim_nics := []; sim_netlinks := []; sim_nv := []; sim_locks := ∅; sim_queue := [] |}.

(** Of two scanned GPUs one is claimed; the object of a third that is gone is deleted. *)
Definition gpu_cluster : sim :=
  put KSRIOVGPUDevice (demo_gpuobj "n1-gone" "0000:09:00.0" false)
    (put KPCIDeviceClaim
      {| pdc_meta := new_meta "n1-claimed" ∅ ∅;
         pdc_Spec := {| pdc_Address := "0000:05:00.0"; pdc_NodeName := "n1"; pdc_UserName := "u";
                        pdc_DisableResourcePooling := false |};
         pdc_Status := {| pdc_KernelDriverToUnbind := ""; pdc_PassthroughEnabled := true |} |} gpu_files).

Lemma reconcileSRIOVGPUSetup_sync_witness :
  exists s', reconcileSRIOVGPUSetup
      [demo_gpuobj "n1-claimed" "0000:05:00.0" false; demo_gpuobj "n1-new" "0000:04:00.0" false]
      (State demo_handler (gpu_cluster, [])) = (Ok tt, s') /\
    Forall (fun v => gpu_done v (log_of s'))
      [demo_gpuobj "n1-claimed" "0000:05:00.0" false; demo_gpuobj "n1-new" "0000:04:00.0" false].
Proof.
  set (scanned := [demo_gpuobj "n1-claimed" "0000:05:00.0" false; demo_gpuobj "n1-new" "0000:04:00.0" false]).
  set (run := reconcileSRIOVGPUSetup (W := Logged sim) scanned).
  assert (is_Ok (fst (run (State demo_handler (gpu_cluster, [])))) = true) as Hok by (vm_compute; reflexivity).
  destruct (run (State demo_handler (gpu_cluster, []))) as [[[]|e|p] s'] eqn:E; [|discriminate Hok..].
  exists s'. split; [done|].
  exact (proj1 (proj2 (reconcileSRIOVGPUSetup_sync scanned (State demo_handler (gpu_cluster, [])) s' E))).
Defined.

Lemma OnGPUChange_manages_witness :
  exists s' r out, OnGPUChange (Some (demo_gpuobj "n1-gpu" "0000:04:00.0" true))
      (State demo_handler (put KSRIOVGPUDevice (demo_gpuobj "n1-gpu" "0000:04:00.0" true) gpu_files, [])) = (Ok r, s') /\
    Ev (ExecRun LocalExecutor sriovManageCommand ["-e"; "0000:04:00.0"]) (inr out) ∈ log_of s'.
Proof.
  set (gpu := demo_gpuobj "n1-gpu" "0000:04:00.0" true).
  set (s := State demo_handler (put KSRIOVGPUDevice gpu gpu_files, [])).
  assert (is_Ok (fst (OnGPUChange (Some gpu) s)) = true) as Hok by (vm_compute; reflexivity).
  destruct (OnGPUChange (Some gpu) s) as [[r|e|p] s'] eqn:E; [|discriminate Hok..].
  destruct (OnGPUChange_manages gpu s s' r eq_refl eq_refl E)
    as (gpu' & enabled & st & st' & s1 & s2 & s3 & _ & Hst & _ & [[Hen _]|[_ [[out Hout] _]]]).
  - exfalso. subst enabled. vm_compute in Hst. discriminate Hst.
  - by exists s', r, out.
Defined.

(** The GPU has no MIG support, or its configuration was found. *)
Definition settled (ev : event) : bool :=
  match ev with
  | Ev e r =>
      match e in Eff X return error + X -> bool with
      | ExecRun _ _ _ => fun r => match r with inr out => negb (isMigSupported out) | inl _ => false end
      | CacheGet KMigConfiguration _ _ => fun r => match r with inr _ => true | inl _ => false end
      | _ => fun _ => false
      end r
  end.

Lemma setupMigConfiguration_creates_witness :
  exists s', setupMigConfiguration false (demo_gpuobj "n1-gpu" demo_addr true)
      (State demo_handler (demo_gpu, [])) = (Ok tt, s') /\
    mig_created (demo_gpuobj "n1-gpu" demo_addr true) (log_of s').
Proof.
  set (gpu := demo_gpuobj "n1-gpu" demo_addr true).
  set (s := State demo_handler (demo_gpu, [])).
  assert (is_Ok (fst (setupMigConfiguration false gpu s)) = true) as Hok by (vm_compute; reflexivity).
  destruct (setupMigConfiguration false gpu s) as [[[]|e|p] s'] eqn:E; [|discriminate Hok..].
  exists s'. split; [done|].
  assert (existsb settled (log_of (snd (setupMigConfiguration false gpu s))) = false) as Hno
    by (vm_compute; reflexivity).
  rewrite E in Hno. simpl in Hno.
  destruct (proj2 (setupMigConfiguration_creates gpu) s s' E) as [(out & Hout & Hsup)|[[o Ho]|Hcreated]]; [..|done].
  - exfalso. assert (existsb settled (log_of s') = true); [|congruence]. apply existsb_exists.
    eexists. split; [by apply list_elem_of_In|]. simpl. by rewrite Hsup.
  - exfalso. assert (existsb settled (log_of s') = true); [|congruence]. apply existsb_exists.
    eexists. split; [by apply list_elem_of_In|]. done.
Defined.
