(* ===== verification/VGPUController.v ===== *)
(** * vGPUs (pkg/controller/gpudevice/vgpu_controller.go)

    The objects of the node's vGPUs, and the configuring of one: its type is
    written to sysfs, its PCI device gets the resource name of the type and is
    claimed without binding it to vfio-pci.

    The informer hands out pointers to the cached vGPUs, and the handlers write
    their status in place before they send it to the API server; a pointer is
    modelled by the name of the cached object, the cache by the memory. *)

From S2P Require Import Prelude GoStrings GoStringLemmas GoMonad Types Effects PCIDeviceApi Common GPUHelper GPUController Sim.

Definition defaultUser : string := "admin".

Definition set_vgpu_Status (st : VGPUDeviceStatus) (v : VGPUDevice) : VGPUDevice :=
  {| vgpu_meta := vgpu_meta v; vgpu_Spec := vgpu_Spec v; vgpu_Status := st |}.

(** The status with the three fields that sysfs tells. *)
Definition discovered (found old : VGPUDeviceStatus) : VGPUDeviceStatus :=
  {| vgpu_VGPUStatus := vgpu_VGPUStatus found; vgpu_UUID := vgpu_UUID found;
     vgpu_ConfiguredVGPUTypeName := vgpu_ConfiguredVGPUTypeName old;
     vgpu_AvailableTypes := vgpu_AvailableTypes found |}.

Definition configured (status uuid typeName : string) (old : VGPUDeviceStatus) : VGPUDeviceStatus :=
  {| vgpu_VGPUStatus := status; vgpu_UUID := uuid; vgpu_ConfiguredVGPUTypeName := typeName;
     vgpu_AvailableTypes := vgpu_AvailableTypes old |}.

(** [containsVGPU] against a slice of pointers, which are names. *)
Definition containsVGPU (vgpu : string) (vgpuList : list string) : option string :=
  List.find (fun v => vgpu ==s v) vgpuList.

Definition vgpu_name (v : VGPUDevice) : string := m_Name (vgpu_meta v).

Definition set_pd_meta (m : ObjectMeta) (pd : PCIDevice) : PCIDevice :=
  {| pd_meta := m; pd_Status := pd_Status pd |}.
Definition set_pd_Status (st : PCIDeviceStatus) (pd : PCIDevice) : PCIDevice :=
  {| pd_meta := pd_meta pd; pd_Status := st |}.

Section Handlers.
Context `{MapOrder} {W : Type} `{World W}.
#[local] Abbreviation M := (M Handler W).

(** ** The cache of vGPUs *)
Definition selected (sel : gmap string string) (l : gmap string string) : bool :=
  forallb (fun p => bool_decide (l !! p.1 = Some p.2)) (map_to_list sel).

Definition vGPUCache_List (sel : gmap string string) : M (list string) :=
  h <- get_mem ;;
  ret (List.filter (fun p : string * VGPUDevice => selected sel (m_Labels (vgpu_meta p.2))) (range (h_vgpus h))).*1.

(** Reading through a pointer that the cache handed out. *)
Definition deref (p : string) : M VGPUDevice :=
  h <- get_mem ;;
  match h_vgpus h !! p with
  | Some v => ret v
  | None => panic "invalid memory address or nil pointer dereference"
  end.
Definition write_status (p : string) (st : VGPUDeviceStatus) : M VGPUDevice :=
  v <- deref p ;;
  modify_mem (set_vgpu p (set_vgpu_Status st v)) ;;;
  ret (set_vgpu_Status st v).

(** ** The PCI device and the claim of a vGPU *)
Definition patchPCIDeviceSpec (vgpu resourceName parentAddress : string) : M unit :=
  pdObj <- on_err (Wrapf "error looking up pcidevice in patchPCIDeviceSpec") (eff (CacheGet KPCIDevice "" vgpu)) ;;
  h <- get_mem ;;
  let m := pd_meta pdObj in
  let pdObjCopy := set_pd_meta
    (set_Labels (<[ParentSRIOVGPUDeviceLabel := PCIDeviceNameForHostname parentAddress (h_nodeName h)]> (m_Labels m))
      (set_Annotations (<[PCIDeviceOverrideResourceName := resourceName]> (m_Annotations m)) m)) pdObj in
  if bool_decide (pdObj = pdObjCopy) then ret tt
  else eff (ApiUpdate KPCIDevice pdObjCopy) ;;; ret tt.

Definition patchPCIDeviceStatus (vgpu resourceName : string) : M unit :=
  pdObj <- on_err (Wrapf "error looking up pcidevice in patchPCIDeviceStatus") (eff (CacheGet KPCIDevice "" vgpu)) ;;
  let pdObjCopy := set_pd_Status (set_ResourceName resourceName (pd_Status pdObj)) pdObj in
  if bool_decide (pd_Status pdObj = pd_Status pdObjCopy) then ret tt
  else eff (ApiUpdateStatus KPCIDevice pdObjCopy) ;;; ret tt.

Definition cleanupPCIDeviceSpec (vgpu : string) : M unit :=
  pdObj <- on_err (Wrapf "error looking up pcidevice in cleanupPCIDeviceSpec") (eff (CacheGet KPCIDevice "" vgpu)) ;;
  let m := pd_meta pdObj in
  let pdObjCopy := set_pd_meta (set_Labels (delete ParentSRIOVGPUDeviceLabel (m_Labels m))
    (set_Annotations (delete PCIDeviceOverrideResourceName (m_Annotations m)) m)) pdObj in
  if bool_decide (pdObj = pdObjCopy) then ret tt
  else eff (ApiUpdate KPCIDevice pdObjCopy) ;;; ret tt.

Definition cleanupRelatedPCIDeviceObjects (vgpu : string) : M unit :=
  r <- try (eff (ApiDelete KPCIDeviceClaim vgpu)) ;;
  match r with
  | inl err => if negb (IsNotFound err) then fail err else cleanupPCIDeviceSpec vgpu
  | inr _ => cleanupPCIDeviceSpec vgpu
  end.

Definition vgpu_claim (vgpu : VGPUDevice) (pcidevice : PCIDevice) (resourceName : string) : PCIDeviceClaim :=
  {| pdc_meta := set_OwnerReferences (Some [owner_of (pd_meta pcidevice); owner_of (vgpu_meta vgpu)])
       (new_meta (vgpu_name vgpu)
         {[ ParentSRIOVGPUDeviceLabel :=
              PCIDeviceNameForHostname (vgpu_ParentGPUDeviceAddress (vgpu_Spec vgpu)) (vgpu_NodeName (vgpu_Spec vgpu)) ]}
         (<[SkipVFIOBindingAnnotationKey := "true"]> {[ PCIDeviceOverrideResourceName := resourceName ]}));
     pdc_Spec := {| pdc_Address := vgpu_Address (vgpu_Spec vgpu); pdc_NodeName := vgpu_NodeName (vgpu_Spec vgpu);
                    pdc_UserName := defaultUser; pdc_DisableResourcePooling := false |};
     pdc_Status := {| pdc_KernelDriverToUnbind := ""; pdc_PassthroughEnabled := false |} |}.

Definition submitPCIDeviceClaim (vgpu : VGPUDevice) : M unit :=
  let resourceName := GenerateDeviceName (vgpu_VGPUTypeName (vgpu_Spec vgpu)) in
  pcidevice <- on_err (Wrapf "error looking up pcidevice when trying to setup vgpu passthrough")
    (eff (CacheGet KPCIDevice "" (vgpu_name vgpu))) ;;
  on_err (Wrapf "error patching pcidevice status resource name for vgpu")
    (patchPCIDeviceStatus (vgpu_name vgpu) resourceName) ;;;
  on_err (Wrapf "error patching pcidevice resource name for vgpu")
    (patchPCIDeviceSpec (vgpu_name vgpu) resourceName (vgpu_ParentGPUDeviceAddress (vgpu_Spec vgpu))) ;;;
  eff (ApiCreate KPCIDeviceClaim (vgpu_claim vgpu pcidevice resourceName)) ;;;
  ret tt.

(** ** Enabling and disabling *)
Definition reconcileDisabledVGPUStatus (vgpu : VGPUDevice) : M VGPUDevice :=
  h <- get_mem ;;
  if m_DeletionTimestamp (vgpu_meta vgpu) || (vgpu_NodeName (vgpu_Spec vgpu) !=s h_nodeName h) then ret vgpu
  else
    vgpuList <- vGPUCache_List {[ ParentSRIOVGPUDeviceLabel :=
      PCIDeviceNameForHostname (vgpu_ParentGPUDeviceAddress (vgpu_Spec vgpu)) (h_nodeName h) ]} ;;
    for_each (fun p =>
      v <- deref p ;;
      if vgpu_Enabled (vgpu_Spec v) || (vgpu_name v ==s vgpu_name vgpu) then ret tt
      else eff (Enqueue KVGPUDevice (vgpu_name v))) vgpuList ;;;
    ret vgpu.

Definition current_type_file (vgpu : VGPUDevice) : string :=
  PathJoin [SysDevRoot; vgpu_Address (vgpu_Spec vgpu); "nvidia"; currentVGPUType].

(** [p] points to the vGPU. *)
Definition enableVGPU (p : string) : M VGPUDevice :=
  vgpu <- deref p ;;
  match default ∅ (vgpu_AvailableTypes (vgpu_Status vgpu)) !! vgpu_VGPUTypeName (vgpu_Spec vgpu) with
  | None => fail (Errorf "VGPUType specified is not available for vGPU")
  | Some vgpuID =>
      r <- try (submitPCIDeviceClaim vgpu) ;;
      match r with
      | inl err => if negb (IsAlreadyExists err)
                   then fail (Wrapf "error creating pcideviceclaim for associated vgpu device" err) else ret tt
      | inr _ => ret tt
      end ;;;
      on_err (fun _ => Errorf "error writing to create file for vgpu")
        (eff (FsWriteFile (current_type_file vgpu) vgpuID)) ;;;
      vgpu' <- write_status p
        (configured VGPUEnabled vgpuID (vgpu_VGPUTypeName (vgpu_Spec vgpu)) (vgpu_Status vgpu)) ;;
      vgpuObj <- eff (ApiUpdateStatus KVGPUDevice vgpu') ;;
      reconcileDisabledVGPUStatus vgpuObj
  end.

Definition disableVGPU (p : string) : M VGPUDevice :=
  vgpu <- deref p ;;
  cleanupRelatedPCIDeviceObjects (vgpu_name vgpu) ;;;
  on_err (fun _ => Errorf "error writing to create file for vgpu")
    (eff (FsWriteFile (current_type_file vgpu) "0")) ;;;
  vgpu' <- write_status p (configured VGPUDisabled "" "" (vgpu_Status vgpu)) ;;
  vgpuObj <- eff (ApiUpdateStatus KVGPUDevice vgpu') ;;
  reconcileDisabledVGPUStatus vgpuObj.

Definition OnVGPUChange (o : option string) : M (option VGPUDevice) :=
  match o with
  | None => ret None
  | Some p =>
      h <- get_mem ;;
      vgpu <- deref p ;;
      if m_DeletionTimestamp (vgpu_meta vgpu) || (vgpu_NodeName (vgpu_Spec vgpu) !=s h_nodeName h)
      then ret (Some vgpu)
      else
        discoveredVGPUStatus <- on_err (fun _ => Errorf "error generating vgpu status")
          (FetchVGPUStatus SysDevRoot (vgpu_Address (vgpu_Spec vgpu))) ;;
        if vgpu_Enabled (vgpu_Spec vgpu) && (vgpu_VGPUStatus discoveredVGPUStatus ==s VGPUDisabled)
        then v <- enableVGPU p ;; ret (Some v)
        else if negb (vgpu_Enabled (vgpu_Spec vgpu)) && (vgpu_VGPUStatus discoveredVGPUStatus ==s VGPUEnabled)
        then v <- disableVGPU p ;; ret (Some v)
        else
          let status := discovered discoveredVGPUStatus (vgpu_Status vgpu) in
          if negb (bool_decide (status = vgpu_Status vgpu))
          then v <- eff (ApiUpdateStatus KVGPUDevice (set_vgpu_Status status vgpu)) ;; ret (Some v)
          else ret None
  end.

(** ** The set of objects *)
Definition isParentGPUEnabled (gpuAddress : string) : M bool :=
  h <- get_mem ;;
  r <- try (eff (CacheGet KSRIOVGPUDevice "" (PCIDeviceNameForHostname gpuAddress (h_nodeName h)))) ;;
  match r with
  | inl err => if IsNotFound err then ret false else fail err
  | inr parentSRIOVGPUDevice => ret (gpu_Enabled (gpu_Spec parentSRIOVGPUDevice))
  end.

(** One scanned vGPU: its object's status is brought up to date, or it is created. *)
Definition update_or_create (vGPUList : list string) (v : VGPUDevice) : M unit :=
  match containsVGPU (vgpu_name v) vGPUList with
  | Some p =>
      existingVGPU <- deref p ;;
      existingVGPU' <- write_status p (discovered (vgpu_Status v) (vgpu_Status existingVGPU)) ;;
      if negb (bool_decide (vgpu_Status existingVGPU = vgpu_Status existingVGPU'))
      then eff (ApiUpdateStatus KVGPUDevice existingVGPU') ;;; ret tt
      else ret tt
  | None => eff (ApiCreate KVGPUDevice v) ;;; ret tt
  end.

(** One stored vGPU: kept while it is there or its GPU is enabled. *)
Definition delete_if_gone (vGPUDevices : list VGPUDevice) (p : string) : M unit :=
  v <- deref p ;;
  parentDeviceEnabled <- isParentGPUEnabled (vgpu_ParentGPUDeviceAddress (vgpu_Spec v)) ;;
  match containsVGPU (vgpu_name v) (vgpu_name <$> vGPUDevices) with
  | None => if negb parentDeviceEnabled then eff (ApiDelete KVGPUDevice (vgpu_name v)) else ret tt
  | Some _ => ret tt
  end.

(** The label of a PCI device that is a vGPU; a missing label of the vGPU reads as the
    empty string. *)
Definition label_pci_device (v : VGPUDevice) : M unit :=
  r <- try (eff (CacheGet KPCIDevice "" (vgpu_name v))) ;;
  match r with
  | inl err => if IsNotFound err then ret tt
               else fail (Wrapf "error looking up PCIDevice as part of vGPUDevice" err)
  | inr pciDeviceObj =>
      let m := pd_meta pciDeviceObj in
      let label := default "" (m_Labels (vgpu_meta v) !! ParentSRIOVGPUDeviceLabel) in
      let pciDeviceObjCopy := set_pd_meta (set_Labels (<[ParentSRIOVGPUDeviceLabel := label]> (m_Labels m)) m) pciDeviceObj in
      if negb (bool_decide (pciDeviceObjCopy = pciDeviceObj))
      then on_err (Wrapf "error applying label to pcidevice during vGPU setup")
             (eff (ApiUpdate KPCIDevice pciDeviceObjCopy)) ;;; ret tt
      else ret tt
  end.

Definition reconcileVGPUSetup (vGPUDevices : list VGPUDevice) : M unit :=
  h <- get_mem ;;
  vGPUList <- vGPUCache_List {[ NodeKeyName := h_nodeName h ]} ;;
  for_each (update_or_create vGPUList) vGPUDevices ;;;
  for_each (delete_if_gone vGPUDevices) vGPUList ;;;
  for_each label_pci_device vGPUDevices.

Definition SetupVGPUDevices : M unit :=
  h <- get_mem ;;
  vGPUDevices <- on_err (fun _ => Errorf "error identifying vgpu devices") (IdentifyVGPU (h_nodeName h)) ;;
  reconcileVGPUSetup vGPUDevices.
End Handlers.

(** ** Properties *)
Lemma containsVGPU_None n l : containsVGPU n l = None <-> n ∉ l.
Proof.
  unfold containsVGPU. split.
  - intros Hf Hn. apply list_elem_of_In in Hn. apply (List.find_none _ _ Hf) in Hn.
    by apply bool_decide_eq_false in Hn.
  - intros Hn. destruct (List.find _ l) as [v|] eqn:Hf; [|done]. exfalso.
    apply List.find_some in Hf as [Hin E]. apply bool_decide_eq_true in E as <-.
    by apply Hn, list_elem_of_In.
Qed.
Lemma containsVGPU_Some n l p : containsVGPU n l = Some p -> p = n /\ n ∈ l.
Proof.
  intros [Hin E]%List.find_some. apply bool_decide_eq_true in E as <-. split; [done|].
  by apply list_elem_of_In.
Qed.

(** *** Enabling a vGPU *)

(** The calls that look up and mark the PCI device of a vGPU and claim it. *)
Definition claims_device (ev : event) : Prop :=
  match ev with
  | Ev e _ => match e with
              | CacheGet KPCIDevice _ _ | ApiUpdate KPCIDevice _ | ApiUpdateStatus KPCIDevice _
              | ApiCreate KPCIDeviceClaim _ => True
              | _ => False
              end
  end.
Definition queues_vgpu (ev : event) : Prop :=
  match ev with Ev e _ => match e with Enqueue KVGPUDevice _ => True | _ => False end end.

(** The claim of a vGPU was created. *)
Definition claim_created (vgpu : VGPUDevice) (log : list event) : Prop :=
  exists pd o, Ev (ApiCreate KPCIDeviceClaim
    (vgpu_claim vgpu pd (GenerateDeviceName (vgpu_VGPUTypeName (vgpu_Spec vgpu))))) (inr o) ∈ log.

Section Enable.
Context `{MapOrder} {W : Type} `{World W}.
Implicit Types (s : state Handler (Logged W)).

Lemma deref_Ok p s v s' : deref p s = (Ok v, s') -> h_vgpus (mem s) !! p = Some v /\ s' = s.
Proof.
  unfold deref, bind, get_mem. intros Hrun. destruct (h_vgpus (mem s) !! p) as [u|]; [|discriminate].
  by injection Hrun as <- <-.
Qed.

Lemma write_status_Ok p st s v s' :
  write_status p st s = (Ok v, s') ->
  exists u, h_vgpus (mem s) !! p = Some u /\ v = set_vgpu_Status st u /\
    s' = State (set_vgpu p v (mem s)) (world s).
Proof.
  unfold write_status. intros Hrun. apply bind_Ok_inv in Hrun as (u & s1 & Hu & Hrun).
  apply deref_Ok in Hu as [Hu ->]. apply bind_Ok_inv in Hrun as ([] & s2 & Hmod & Hrun).
  injection Hmod as <-. injection Hrun as <- <-. by exists u.
Qed.

Lemma submit_steps vgpu :
  Steps (@same_mem Handler (Logged W)) (submitPCIDeviceClaim vgpu) /\
  Steps (@emits Handler W claims_device) (submitPCIDeviceClaim vgpu).
Proof.
  split; unfold submitPCIDeviceClaim, patchPCIDeviceStatus, patchPCIDeviceSpec; steps_tac;
    apply Steps_emits_eff; exact (fun _ => I).
Qed.

Lemma submit_Ok vgpu s s' :
  submitPCIDeviceClaim vgpu s = (Ok tt, s') ->
  exists l, log_of s' = log_of s ++ l /\ Forall claims_device l /\ claim_created vgpu l.
Proof.
  intros Hrun. pose proof (proj2 (submit_steps vgpu) s) as (l & Hl & Hevs). rewrite Hrun in Hl.
  exists l. split; [done|]. split; [done|].
  unfold submitPCIDeviceClaim in Hrun. apply bind_Ok_inv in Hrun as (pd & s1 & Hget & Hrun).
  apply on_err_Ok_inv, eff_Ok_log in Hget as [Hl1 _].
  apply bind_Ok_inv in Hrun as ([] & s2 & Hst & Hrun). apply bind_Ok_inv in Hrun as ([] & s3 & Hsp & Hrun).
  apply bind_Ok_inv in Hrun as (o & s4 & Hc & Hrun). injection Hrun as <-. apply eff_Ok_log in Hc as [Hl4 _].
  assert (emits any_event s1 s3) as (evs & Hl3 & _).
  { transitivity s2.
    - assert (Steps (@emits Handler W any_event) (on_err (Wrapf "error patching pcidevice status resource name for vgpu")
        (patchPCIDeviceStatus (vgpu_name vgpu) (GenerateDeviceName (vgpu_VGPUTypeName (vgpu_Spec vgpu)))))) as H1
        by (unfold patchPCIDeviceStatus; steps_tac).
      specialize (H1 s1). by rewrite Hst in H1.
    - assert (Steps (@emits Handler W any_event) (on_err (Wrapf "error patching pcidevice resource name for vgpu")
        (patchPCIDeviceSpec (vgpu_name vgpu) (GenerateDeviceName (vgpu_VGPUTypeName (vgpu_Spec vgpu)))
           (vgpu_ParentGPUDeviceAddress (vgpu_Spec vgpu))))) as H1
        by (unfold patchPCIDeviceSpec; steps_tac).
      specialize (H1 s2). by rewrite Hsp in H1. }
  cbn [snd] in Hl. rewrite Hl4, Hl3, Hl1, <- !app_assoc in Hl. apply app_inv_head in Hl as <-.
  exists pd, o. rewrite !elem_of_app. right. right. by left.
Qed.

(** The claim was created, or was there already. *)
Lemma submit_or_exists vgpu s s' :
  (r <- try (submitPCIDeviceClaim vgpu) ;;
   match r with
   | inl err => if negb (IsAlreadyExists err)
                then fail (Wrapf "error creating pcideviceclaim for associated vgpu device" err) else ret tt
   | inr _ => ret tt
   end) s = (Ok tt, s') ->
  mem s' = mem s /\
  exists l, log_of s' = log_of s ++ l /\ Forall claims_device l /\
    (claim_created vgpu l \/ exists err, submitPCIDeviceClaim vgpu s = (Err err, s') /\ IsAlreadyExists err = true).
Proof.
  intros Hrun. apply bind_Ok_inv in Hrun as (r & s1 & Hr & Hrun).
  pose proof (proj1 (submit_steps vgpu) s) as Hm. pose proof (proj2 (submit_steps vgpu) s) as (l & Hl & Hevs).
  apply try_Ok_inv in Hr. destruct r as [err|[]].
  - rewrite Hr in Hm, Hl. destruct (IsAlreadyExists err) eqn:E; [|discriminate Hrun]. injection Hrun as <-.
    split; [done|]. exists l. split; [done|]. split; [done|]. right. by exists err.
  - rewrite Hr in Hm. injection Hrun as <-. split; [done|]. apply submit_Ok in Hr as (l' & ? & ? & ?).
    exists l'. auto.
Qed.

Lemma siblings_mem v : Steps (@same_mem Handler (Logged W)) (reconcileDisabledVGPUStatus v).
Proof. unfold reconcileDisabledVGPUStatus, vGPUCache_List, deref; steps_tac. Qed.

Lemma enqueue_siblings (vgpu : VGPUDevice) names s s' :
  for_each (fun p => v <- deref p ;;
    if vgpu_Enabled (vgpu_Spec v) || (vgpu_name v ==s vgpu_name vgpu) then ret tt
    else eff (Enqueue KVGPUDevice (vgpu_name v))) names s = (Ok tt, s') ->
  exists l, log_of s' = log_of s ++ l /\ Forall queues_vgpu l /\
    Forall (fun p => exists v, h_vgpus (mem s) !! p = Some v /\
      (vgpu_Enabled (vgpu_Spec v) = true \/ vgpu_name v = vgpu_name vgpu \/
       Ev (Enqueue KVGPUDevice (vgpu_name v)) (inr tt) ∈ l)) names.
Proof.
  revert s. induction names as [|p names IH]; intros s Hrun.
  { injection Hrun as <-. exists []. by rewrite app_nil_r. }
  cbn [for_each] in Hrun. apply bind_Ok_inv in Hrun as ([] & s1 & Hp & Hrun).
  apply bind_Ok_inv in Hp as (v & s0 & Hv & Hp). apply deref_Ok in Hv as [Hv ->].
  assert (mem s1 = mem s /\ exists l, log_of s1 = log_of s ++ l /\ Forall queues_vgpu l /\
     (vgpu_Enabled (vgpu_Spec v) = true \/ vgpu_name v = vgpu_name vgpu \/
      Ev (Enqueue KVGPUDevice (vgpu_name v)) (inr tt) ∈ l)) as [Hm (l1 & Hl1 & Hq1 & Hdone)].
  { destruct (vgpu_Enabled (vgpu_Spec v)); simpl in Hp;
      [injection Hp as <-; split; [done|]; exists []; rewrite app_nil_r; auto|].
    case_bool_decide as Hn; [injection Hp as <-; split; [done|]; exists []; rewrite app_nil_r; auto|].
    apply eff_Ok_log in Hp as [-> ->]. split; [done|]. eexists. split; [done|]. split; [by repeat constructor|]. right. right. by left. }
  destruct (IH _ Hrun) as (l2 & Hl2 & Hq2 & Hrest). exists (l1 ++ l2). rewrite Hl2, Hl1, app_assoc.
  split; [done|]. split; [by apply Forall_app|]. constructor.
  - exists v. split; [done|]. rewrite elem_of_app. tauto.
  - rewrite Hm in Hrest. eapply Forall_impl; [exact Hrest|]. intros q (u & Hu & Hd). exists u. split; [done|]. rewrite elem_of_app. tauto.
Qed.

Lemma selected_one k x l : selected {[ k := x ]} l = true <-> l !! k = Some x.
Proof.
  unfold selected. rewrite map_to_list_singleton. simpl. rewrite andb_true_r. apply bool_decide_eq_true.
Qed.

Lemma siblings_result (vgpu : VGPUDevice) s s' r :
  reconcileDisabledVGPUStatus vgpu s = (Ok r, s') ->
  r = vgpu /\ mem s' = mem s /\
  exists l, log_of s' = log_of s ++ l /\ Forall queues_vgpu l /\
  (m_DeletionTimestamp (vgpu_meta vgpu) = false -> vgpu_NodeName (vgpu_Spec vgpu) = h_nodeName (mem s) ->
   forall q v, h_vgpus (mem s) !! q = Some v ->
     m_Labels (vgpu_meta v) !! ParentSRIOVGPUDeviceLabel
       = Some (PCIDeviceNameForHostname (vgpu_ParentGPUDeviceAddress (vgpu_Spec vgpu)) (h_nodeName (mem s))) ->
     vgpu_Enabled (vgpu_Spec v) = true \/ vgpu_name v = vgpu_name vgpu \/
     Ev (Enqueue KVGPUDevice (vgpu_name v)) (inr tt) ∈ l).
Proof.
  intros Hrun. pose proof (siblings_mem vgpu s) as Hmem. rewrite Hrun in Hmem.
  unfold reconcileDisabledVGPUStatus in Hrun. apply bind_Ok_inv in Hrun as (h & s0 & Hh & Hrun). injection Hh as <- <-.
  destruct (_ || _) eqn:Hskip.
  - injection Hrun as <- <-. split_and!; [done..|]. exists []. rewrite app_nil_r. split_and!; [done..|].
    intros Hlive Hnode. exfalso. rewrite Hlive, Hnode, bool_decide_eq_true_2 in Hskip; done.
  - apply bind_Ok_inv in Hrun as (names & s1 & Hlist & Hrun).
    apply bind_Ok_inv in Hlist as (h & s2 & Hh & Hlist). injection Hh as <- <-. injection Hlist as <- <-.
    apply bind_Ok_inv in Hrun as ([] & s1 & Hloop & Hrun). injection Hrun as <- <-.
    split_and!; [done..|]. apply enqueue_siblings in Hloop as (l & Hl & Hqs & Hall).
    exists l. split_and!; [done..|]. intros _ _ q v Hq Hlabel. rewrite Forall_forall in Hall.
    destruct (Hall q) as (v' & Hv' & Hdone); [|congruence].
    apply list_elem_of_fmap. exists (q, v). split; [done|]. apply list_elem_of_In, filter_In. split.
    + by apply list_elem_of_In, elem_of_range.
    + by apply selected_one.
Qed.

(** C20: enabling a vGPU claims its PCI device and configures it, in this order: on
    success the calls of the process were first those that mark the PCI device and
    claim it, by which the claim was created, or turned out to exist; then one write,
    of the identifier of the wanted type to the vGPU's file in sysfs; then one
    update, which sends the cached vGPU, now enabled with that type, to the API
    server; and last the queueing of vGPUs, among them every one of the same GPU that
    is not enabled, so that its available types are read again. *)
Theorem enableVGPU_post (p : string) s s' (r : VGPUDevice) (Hrun : enableVGPU p s = (Ok r, s')) :
  exists vgpu vgpuID vgpu' claiming queueing,
    h_vgpus (mem s) !! p = Some vgpu /\
    default ∅ (vgpu_AvailableTypes (vgpu_Status vgpu)) !! vgpu_VGPUTypeName (vgpu_Spec vgpu) = Some vgpuID /\
    vgpu' = set_vgpu_Status (configured VGPUEnabled vgpuID (vgpu_VGPUTypeName (vgpu_Spec vgpu)) (vgpu_Status vgpu)) vgpu /\
    log_of s' = log_of s ++ claiming ++
      [Ev (FsWriteFile (current_type_file vgpu) vgpuID) (inr tt); Ev (ApiUpdateStatus KVGPUDevice vgpu') (inr r)] ++
      queueing /\
    Forall claims_device claiming /\ Forall queues_vgpu queueing /\
    (claim_created vgpu claiming \/
     exists err s1, submitPCIDeviceClaim vgpu s = (Err err, s1) /\ IsAlreadyExists err = true) /\
    h_vgpus (mem s') !! p = Some vgpu' /\
    (m_DeletionTimestamp (vgpu_meta r) = false -> vgpu_NodeName (vgpu_Spec r) = h_nodeName (mem s) ->
     forall q v, h_vgpus (mem s') !! q = Some v ->
       m_Labels (vgpu_meta v) !! ParentSRIOVGPUDeviceLabel
         = Some (PCIDeviceNameForHostname (vgpu_ParentGPUDeviceAddress (vgpu_Spec r)) (h_nodeName (mem s))) ->
       vgpu_Enabled (vgpu_Spec v) = true \/ vgpu_name v = vgpu_name r \/
       Ev (Enqueue KVGPUDevice (vgpu_name v)) (inr tt) ∈ queueing).
Proof.
  unfold enableVGPU in Hrun. apply bind_Ok_inv in Hrun as (vgpu & s0 & Hv & Hrun). apply deref_Ok in Hv as [Hv ->].
  destruct (default ∅ _ !! _) as [vgpuID|] eqn:Hid; [|discriminate Hrun].
  rewrite <- bind_assoc in Hrun. apply bind_Ok_inv in Hrun as ([] & s1 & Hsub & Hrun).
  apply submit_or_exists in Hsub as (Hm1 & l1 & Hl1 & Hevs & Hclaim).
  apply bind_Ok_inv in Hrun as ([] & s2 & Hw & Hrun). apply on_err_Ok_inv, eff_Ok_log in Hw as [Hl2 Hm2].
  apply bind_Ok_inv in Hrun as (vgpu' & s3 & Hst & Hrun). apply write_status_Ok in Hst as (u & Hu & Hv' & Hs3).
  rewrite Hm2, Hm1, Hv in Hu. injection Hu as <-.
  apply bind_Ok_inv in Hrun as (vgpuObj & s4 & Hup & Hrun). apply eff_Ok_log in Hup as [Hl4 Hm4].
  apply siblings_result in Hrun as (-> & Hm & l5 & Hl5 & Hqs & Hsib).
  assert (log_of s3 = log_of s2) as Hl3 by by rewrite Hs3.
  assert (mem s3 = set_vgpu p vgpu' (mem s)) as Hm3 by by rewrite Hs3, Hm2, Hm1.
  exists vgpu, vgpuID, vgpu', l1, l5. split_and!; [done|done|done| |done|done| | |].
  - rewrite Hl5, Hl4, Hl3, Hl2, Hl1, <- !app_assoc. done.
  - destruct Hclaim as [Hc|(err & He & Hex)]; [by left|right]. by exists err, s1.
  - rewrite Hm, Hm4, Hm3. apply lookup_insert_eq.
  - intros Hlive Hnode q v Hq Hlabel. rewrite Hm in Hq. eapply (Hsib Hlive); [|exact Hq|].
    + by rewrite Hm4, Hm3.
    + by rewrite Hm4, Hm3.
Qed.

(** The type of a configured vGPU is left as it is: while sysfs says that an
    enabled vGPU is configured, a change of its object, of its wanted type too,
    leads to no command and no write in sysfs, and at most to one status update,
    which keeps the type name that the cached status has, wrong or missing as it
    may be; none is sent when the cached status agrees with sysfs. *)
Theorem OnVGPUChange_configured (p : string) (v : VGPUDevice) (found : VGPUDeviceStatus) s s1 s' r
    (Hcached : h_vgpus (mem s) !! p = Some v)
    (Hlive : m_DeletionTimestamp (vgpu_meta v) = false)
    (Hnode : vgpu_NodeName (vgpu_Spec v) = h_nodeName (mem s))
    (Henabled : vgpu_Enabled (vgpu_Spec v) = true)
    (Hfetch : FetchVGPUStatus SysDevRoot (vgpu_Address (vgpu_Spec v)) s = (Ok found, s1))
    (Hfound : vgpu_VGPUStatus found = VGPUEnabled)
    (Hrun : OnVGPUChange (Some p) s = (Ok r, s')) :
  let st := discovered found (vgpu_Status v) in
  vgpu_ConfiguredVGPUTypeName st = vgpu_ConfiguredVGPUTypeName (vgpu_Status v) /\
  (st = vgpu_Status v -> r = None /\ s' = s1) /\
  (st <> vgpu_Status v -> exists o, r = Some o /\ mem s' = mem s1 /\
     log_of s' = log_of s1 ++ [Ev (ApiUpdateStatus KVGPUDevice (set_vgpu_Status st v)) (inr o)]).
Proof.
  intros st. split; [done|]. unfold OnVGPUChange in Hrun.
  apply bind_Ok_inv in Hrun as (h & s0 & Hh & Hrun). injection Hh as <- <-.
  apply bind_Ok_inv in Hrun as (u & s0 & Hu & Hrun). apply deref_Ok in Hu as [Hu ->].
  rewrite Hcached in Hu. injection Hu as <-.
  rewrite Hlive, Hnode, bool_decide_eq_true_2 in Hrun by done. cbn [orb negb] in Hrun.
  apply bind_Ok_inv in Hrun as (found' & s2 & Hf & Hrun). apply on_err_Ok_inv in Hf.
  rewrite Hfetch in Hf. injection Hf as <- <-. rewrite Henabled, Hfound in Hrun.
  rewrite bool_decide_eq_false_2 in Hrun by done. cbn [andb negb] in Hrun. fold st in Hrun.
  case_bool_decide as Heq; cbn [negb] in Hrun.
  - injection Hrun as <- <-. by split.
  - apply bind_Ok_inv in Hrun as (o & s3 & Hup & Hrun). injection Hrun as <- <-.
    apply eff_Ok_log in Hup as [Hl Hm]. split; [done|]. intros _. by exists o.
Qed.
End Enable.

(** *** The set of objects *)

(** What a pass may change besides the status of vGPUs: it creates scanned vGPUs that
    were not cached, deletes cached ones that were not scanned, and labels the PCI
    devices of scanned vGPUs. *)
Definition vgpu_setup_event (cached : list string) (scanned : list VGPUDevice) (ev : event) : Prop :=
  match ev with
  | Ev e _ =>
      match e with
      | ApiCreate k o =>
          match k return Obj k -> Prop with
          | KVGPUDevice => fun o => o ∈ scanned /\ vgpu_name o ∉ cached
          | _ => fun _ => False
          end o
      | ApiDelete k n => k = KVGPUDevice /\ n ∉ vgpu_name <$> scanned
      | ApiUpdateStatus k _ => k = KVGPUDevice
      | ApiUpdate k _ => k = KPCIDevice
      | FsWrite _ _ | FsWriteFile _ _ | FsRemove _ => False
      | _ => True
      end
  end.

(** The cache's objects have the names they are filed under, and only their statuses
    change. *)
Definition same_specs (h1 h2 : Handler) : Prop :=
  h_nodeName h2 = h_nodeName h1 /\
  forall p, (fun v => (vgpu_meta v, vgpu_Spec v)) <$> h_vgpus h2 !! p
          = (fun v => (vgpu_meta v, vgpu_Spec v)) <$> h_vgpus h1 !! p.

Section Setup.
Context `{MapOrder} {W : Type} `{World W}.
Implicit Types (s : state Handler (Logged W)).

Definition specs_kept : relation (state Handler (Logged W)) := fun s s' => same_specs (mem s) (mem s').
#[local] Instance specs_kept_preorder : PreOrder specs_kept.
Proof.
  split.
  - intros s. by split.
  - intros s1 s2 s3 [H1 K1] [H2 K2]. split; [congruence|]. intros p. by rewrite K2, K1.
Qed.

Lemma eff_keeps_specs {X} (e : Eff X) : Steps specs_kept (eff e).
Proof. intros s. pose proof (Steps_eff_same_mem e s) as Hm. unfold specs_kept. rewrite Hm. by split. Qed.

Lemma write_status_steps cached scanned p st :
  Steps specs_kept (write_status p st) /\
  Steps (@emits Handler W (vgpu_setup_event cached scanned)) (write_status p st).
Proof.
  split; intros s; unfold write_status, deref, bind, get_mem, modify_mem, ret, panic;
    destruct (h_vgpus (mem s) !! p) as [v|] eqn:Hv; cbn.
  - split; [done|]. intros q. cbn. destruct (decide (q = p)) as [->|Hq].
    + by rewrite lookup_insert_eq, Hv.
    + by rewrite lookup_insert_ne by done.
  - by split.
  - exists []. by rewrite app_nil_r.
  - exists []. by rewrite app_nil_r.
Qed.

Lemma update_or_create_steps cached scanned v :
  v ∈ scanned ->
  Steps specs_kept (update_or_create cached v) /\
  Steps (@emits Handler W (vgpu_setup_event cached scanned)) (update_or_create cached v).
Proof.
  intros Hv. unfold update_or_create. destruct (containsVGPU (vgpu_name v) cached) as [p|] eqn:E.
  - split.
    + apply Steps_bind; [typeclasses eauto|unfold deref; steps_tac|]. intros old.
      apply Steps_bind; [typeclasses eauto|apply (write_status_steps cached scanned)|]. intros new.
      destruct (negb _); [|apply Steps_ret; typeclasses eauto].
      apply Steps_bind; [typeclasses eauto|apply eff_keeps_specs|]. intros _. apply Steps_ret. typeclasses eauto.
    + apply Steps_bind; [typeclasses eauto|unfold deref; steps_tac|]. intros old.
      apply Steps_bind; [typeclasses eauto|apply write_status_steps|]. intros new.
      destruct (negb _); steps_tac. by apply Steps_emits_eff.
  - apply containsVGPU_None in E. split.
    + apply Steps_bind; [typeclasses eauto|apply eff_keeps_specs|]. intros _. apply Steps_ret. typeclasses eauto.
    + steps_tac. by apply Steps_emits_eff.
Qed.

Lemma delete_if_gone_steps cached scanned p :
  Steps (@emits Handler W (vgpu_setup_event cached scanned)) (delete_if_gone scanned p).
Proof.
  unfold delete_if_gone, deref, isParentGPUEnabled.
  apply Steps_bind; [typeclasses eauto|steps_tac|]. intros v.
  apply Steps_bind; [typeclasses eauto|steps_tac; by apply Steps_emits_eff|]. intros b.
  destruct (containsVGPU _ _) eqn:E; [steps_tac|]. apply containsVGPU_None in E.
  steps_tac. by apply Steps_emits_eff.
Qed.

Lemma label_same_mem v : Steps (@same_mem Handler (Logged W)) (label_pci_device v).
Proof. unfold label_pci_device. steps_tac. Qed.

Lemma label_steps cached scanned v :
  Steps (@emits Handler W (vgpu_setup_event cached scanned)) (label_pci_device v).
Proof. unfold label_pci_device. steps_tac; by apply Steps_emits_eff. Qed.

(** A scanned vGPU that was not cached is created; the status of one that was cached is
    what sysfs tells, in the cache and, when it differed, at the API server. *)
Definition vgpu_synced (cached : list string) (before after : gmap string VGPUDevice) (log : list event)
    (v : VGPUDevice) : Prop :=
  (~ (vgpu_name v ∈ cached) /\ exists o, Ev (ApiCreate KVGPUDevice v) (inr o) ∈ log) \/
  (vgpu_name v ∈ cached /\ exists u,
     let u' := set_vgpu_Status (discovered (vgpu_Status v) (vgpu_Status u)) u in
     before !! vgpu_name v = Some u /\ after !! vgpu_name v = Some u' /\
     (u' = u \/ exists o, Ev (ApiUpdateStatus KVGPUDevice u') (inr o) ∈ log)).

Lemma vgpu_synced_mono cached before after l1 l2 v :
  l1 ⊆ l2 -> vgpu_synced cached before after l1 v -> vgpu_synced cached before after l2 v.
Proof.
  intros Hsub [[? [o Ho]]|(? & u & Hu & Hu' & Hsent)].
  - left. split; [done|]. exists o. by apply Hsub.
  - right. split; [done|]. exists u. split; [done|]. split; [done|].
    destruct Hsent as [?|[o Ho]]; [by left|right]. exists o. by apply Hsub.
Qed.

Lemma update_or_create_Ok cached v s s' :
  update_or_create cached v s = (Ok tt, s') ->
  vgpu_synced cached (h_vgpus (mem s)) (h_vgpus (mem s')) (log_of s') v /\
  (forall q, q <> vgpu_name v -> h_vgpus (mem s') !! q = h_vgpus (mem s) !! q).
Proof.
  unfold update_or_create, vgpu_synced. intros Hrun.
  destruct (containsVGPU (vgpu_name v) cached) as [p|] eqn:E.
  - apply containsVGPU_Some in E as [-> Hin].
    apply bind_Ok_inv in Hrun as (u & s1 & Hu & Hrun). apply deref_Ok in Hu as [Hu ->].
    apply bind_Ok_inv in Hrun as (u' & s1 & Hw & Hrun). apply write_status_Ok in Hw as (u2 & Hu2 & Hu' & Hs1).
    rewrite Hu in Hu2. injection Hu2 as <-.
    assert (mem s' = set_vgpu (vgpu_name v) u' (mem s) /\
      (u' = u \/ exists o, Ev (ApiUpdateStatus KVGPUDevice u') (inr o) ∈ log_of s')) as [Hm Hsent].
    { case_bool_decide as Heq; cbn [negb] in Hrun.
      - injection Hrun as <-. rewrite Hs1. split; [done|]. left. rewrite Hu' in Heq |- *.
        unfold set_vgpu_Status in *. cbn in Heq. rewrite <- Heq. by destruct u.
      - apply bind_Ok_inv in Hrun as (o & s2 & Hup & Hrun). injection Hrun as <-.
        apply eff_Ok_log in Hup as [Hl Hm]. rewrite Hm, Hs1. split; [done|]. right. exists o. rewrite Hl. set_solver. }
    rewrite Hm. cbn. split.
    + right. split; [done|]. exists u. rewrite <- Hu'. by rewrite lookup_insert_eq.
    + intros q Hq. by rewrite lookup_insert_ne.
  - apply containsVGPU_None in E. apply bind_Ok_inv in Hrun as (o & s1 & Hc & Hrun). injection Hrun as <-.
    apply eff_Ok_log in Hc as [Hl Hm]. rewrite Hm. split; [|done]. left. split; [done|]. exists o.
    rewrite Hl. set_solver.
Qed.

Lemma update_loop cached scanned s s' :
  NoDup (vgpu_name <$> scanned) ->
  for_each (update_or_create cached) scanned s = (Ok tt, s') ->
  Forall (vgpu_synced cached (h_vgpus (mem s)) (h_vgpus (mem s')) (log_of s')) scanned /\
  (forall q, q ∉ vgpu_name <$> scanned -> h_vgpus (mem s') !! q = h_vgpus (mem s) !! q).
Proof.
  revert s. induction scanned as [|v scanned IH]; intros s Hnd Hrun; [by injection Hrun as <-|].
  cbn [fmap list_fmap] in Hnd |- *. apply NoDup_cons in Hnd as [Hv Hnd].
  cbn [for_each] in Hrun. apply bind_Ok_inv in Hrun as ([] & s1 & Hone & Hrun).
  apply update_or_create_Ok in Hone as [Hsync Hother]. destruct (IH s1 Hnd Hrun) as [Hall Hrest].
  assert (log_of s1 ⊆ log_of s') as Hmono.
  { intros ev Hev. refine (log_mono _ (vgpu_setup_event cached scanned) _ _ _ _ _ Hrun Hev).
    apply Steps_for_each; [typeclasses eauto|]. intros u Hu. by apply update_or_create_steps. }
  split; [constructor|].
  - apply (vgpu_synced_mono _ _ _ _ _ _ Hmono). unfold vgpu_synced in *. by rewrite (Hrest _ Hv).
  - apply Forall_forall. intros u Hu. rewrite Forall_forall in Hall. specialize (Hall u Hu).
    assert (vgpu_name u <> vgpu_name v) as Hne.
    { intros E. apply Hv. rewrite <- E. apply list_elem_of_fmap. by exists u. }
    unfold vgpu_synced in *. by rewrite (Hother _ Hne) in Hall.
  - intros q Hq. rewrite not_elem_of_cons in Hq. destruct Hq as [Hq1 Hq2].
    by rewrite (Hrest q Hq2), (Hother q Hq1).
Qed.

(** A cached vGPU that was not scanned is deleted, unless its GPU is enabled. *)
Definition parent_of (nodeName : string) (v : VGPUDevice) : string :=
  PCIDeviceNameForHostname (vgpu_ParentGPUDeviceAddress (vgpu_Spec v)) nodeName.
Definition gone_done (nodeName : string) (scanned : list VGPUDevice) (log : list event) (v : VGPUDevice) : Prop :=
  vgpu_name v ∉ vgpu_name <$> scanned ->
  Ev (ApiDelete KVGPUDevice (vgpu_name v)) (inr tt) ∈ log \/
  exists gpu, Ev (CacheGet KSRIOVGPUDevice "" (parent_of nodeName v)) (inr gpu) ∈ log /\
    gpu_Enabled (gpu_Spec gpu) = true.

Lemma delete_if_gone_Ok scanned p s s' :
  delete_if_gone scanned p s = (Ok tt, s') ->
  mem s' = mem s /\ exists v, h_vgpus (mem s) !! p = Some v /\ gone_done (h_nodeName (mem s)) scanned (log_of s') v.
Proof.
  unfold delete_if_gone, gone_done. intros Hrun.
  apply bind_Ok_inv in Hrun as (v & s1 & Hv & Hrun). apply deref_Ok in Hv as [Hv ->].
  apply bind_Ok_inv in Hrun as (b & s2 & Hb & Hrun). unfold isParentGPUEnabled in Hb.
  apply bind_Ok_inv in Hb as (h & s1 & Hh & Hb). injection Hh as <- <-.
  apply bind_Ok_inv in Hb as (r & s1 & Hget & Hb). apply try_eff_log in Hget as [Hl1 Hm1].
  assert (s2 = s1 /\ (b = true -> exists gpu, Ev (CacheGet KSRIOVGPUDevice "" (parent_of (h_nodeName (mem s)) v)) (inr gpu) ∈ log_of s1 /\
    gpu_Enabled (gpu_Spec gpu) = true)) as [-> Hparent].
  { destruct r as [err|gpu].
    - destruct (IsNotFound err); [|discriminate]. injection Hb as <- <-. by split.
    - injection Hb as <- <-. split; [done|]. intros Hen. exists gpu. rewrite Hl1. split; [|done].
      apply elem_of_app; right. by left. }
  destruct (containsVGPU _ _) as [q|] eqn:E.
  - apply containsVGPU_Some in E as [_ Hin]. injection Hrun as <-. split; [done|]. by exists v.
  - destruct b; cbn [negb] in Hrun.
    + injection Hrun as <-. split; [done|]. exists v. split; [done|]. intros _. right. by apply Hparent.
    + apply eff_Ok_log in Hrun as [Hl2 Hm2]. split; [congruence|]. exists v. split; [done|].
      intros _. left. rewrite Hl2. set_solver.
Qed.

Lemma delete_loop scanned names s s' :
  for_each (delete_if_gone scanned) names s = (Ok tt, s') ->
  mem s' = mem s /\
  Forall (fun p => exists v, h_vgpus (mem s) !! p = Some v /\ gone_done (h_nodeName (mem s)) scanned (log_of s') v) names.
Proof.
  revert s. induction names as [|p names IH]; intros s Hrun; [by injection Hrun as <-|].
  cbn [for_each] in Hrun. apply bind_Ok_inv in Hrun as ([] & s1 & Hone & Hrun).
  apply delete_if_gone_Ok in Hone as (Hm & v & Hv & Hdone). destruct (IH s1 Hrun) as [Hm' Hall].
  rewrite Hm in Hm', Hall. split; [done|]. constructor; [|done]. exists v. split; [done|].
  assert (log_of s1 ⊆ log_of s') as Hmono.
  { intros ev Hev. refine (log_mono _ (vgpu_setup_event [] scanned) _ _ _ _ _ Hrun Hev).
    apply Steps_for_each; [typeclasses eauto|]. intros q _. apply delete_if_gone_steps. }
  unfold gone_done in *. intros Hn. destruct (Hdone Hn) as [?|(gpu & ? & ?)]; [left; by apply Hmono|right].
  exists gpu. split; [by apply Hmono|done].
Qed.

(** C17: the objects of the node's vGPUs follow the scan: on success every scanned vGPU
    without a cached object was created, the status of every other is what sysfs
    tells, in the cache and, if it differed, at the API server, and every cached
    vGPU of the node that was not scanned was deleted unless its GPU was found
    enabled; nothing else is created or deleted. *)
Theorem reconcileVGPUSetup_sync (scanned : list VGPUDevice) s s'
    (Hnames : NoDup (vgpu_name <$> scanned))
    (Hrun : reconcileVGPUSetup scanned s = (Ok tt, s')) :
  exists cached : list string,
    (forall p, p ∈ cached <-> exists v, h_vgpus (mem s) !! p = Some v /\
       m_Labels (vgpu_meta v) !! NodeKeyName = Some (h_nodeName (mem s))) /\
    emits (vgpu_setup_event cached scanned) s s' /\
    Forall (vgpu_synced cached (h_vgpus (mem s)) (h_vgpus (mem s')) (log_of s')) scanned /\
    Forall (fun p => exists v, h_vgpus (mem s') !! p = Some v /\ gone_done (h_nodeName (mem s)) scanned (log_of s') v) cached.
Proof.
  unfold reconcileVGPUSetup in Hrun. apply bind_Ok_inv in Hrun as (h & s0 & Hh & Hrun). injection Hh as <- <-.
  apply bind_Ok_inv in Hrun as (cached & s1 & Hlist & Hrun).
  apply bind_Ok_inv in Hlist as (h & s0 & Hh & Hlist). injection Hh as <- <-. injection Hlist as Hcached <-.
  apply bind_Ok_inv in Hrun as ([] & s1 & Hup & Hrun). apply bind_Ok_inv in Hrun as ([] & s2 & Hdel & Hlabel).
  pose proof (Steps_for_each _ (update_or_create cached) scanned
    (fun v Hv => proj2 (update_or_create_steps cached scanned v Hv)) s) as E1.
  pose proof (Steps_for_each _ (delete_if_gone scanned) cached
    (fun p _ => delete_if_gone_steps cached scanned p) s1) as E2.
  pose proof (Steps_for_each _ label_pci_device scanned (fun v _ => label_steps cached scanned v) s2) as E3.
  assert (mem s' = mem s2) as Hm3.
  { pose proof (Steps_for_each same_mem label_pci_device scanned (fun v _ => label_same_mem v) s2) as Hsame.
    by rewrite Hlabel in Hsame. }
  pose proof (Steps_for_each specs_kept (update_or_create cached) scanned
    (fun v Hv => proj1 (update_or_create_steps cached scanned v Hv)) s) as [Hnode _].
  rewrite Hup in Hnode. cbn [snd] in Hnode.
  rewrite Hup in E1. rewrite Hdel in E2. rewrite Hlabel in E3. simpl in E1, E2, E3.
  apply (update_loop _ _ _ _ Hnames) in Hup as [Hsync _]. apply delete_loop in Hdel as [Hm2 Hgone].
  assert (log_of s1 ⊆ log_of s' /\ log_of s2 ⊆ log_of s') as [Hmono1 Hmono2].
  { destruct E2 as (e2 & Hl2 & _), E3 as (e3 & Hl3 & _). rewrite Hl3, Hl2. set_solver. }
  exists cached. split_and!.
  - intros p. rewrite <- Hcached, list_elem_of_fmap. split.
    + intros ([q v] & -> & Hin). apply list_elem_of_In, filter_In in Hin as [Hin Hsel].
      apply list_elem_of_In, elem_of_range in Hin. apply selected_one in Hsel. by exists v.
    + intros (v & Hv & Hl). exists (p, v). split; [done|]. apply list_elem_of_In, filter_In.
      split; [by apply list_elem_of_In, elem_of_range|by apply selected_one].
  - by etransitivity; [exact E1|etransitivity; [exact E2|exact E3]].
  - rewrite Hm3, Hm2. eapply Forall_impl; [exact Hsync|]. intros v. apply vgpu_synced_mono, Hmono1.
  - rewrite Hm3, Hm2. eapply Forall_impl; [exact Hgone|]. intros p (v & Hv & Hdone). exists v. split; [done|].
    rewrite Hnode in Hdone. unfold gone_done in *. intros Hn.
    destruct (Hdone Hn) as [?|(gpu & ? & ?)]; [left; by apply Hmono2|right]. exists gpu.
    split; [by apply Hmono2|done].
Qed.
End Setup.

(** ** The theorems at work *)
Definition demo_vgpu (n : string) (enabled : bool) (st : VGPUDeviceStatus) : VGPUDevice :=
  {| vgpu_meta := new_meta ("n1-00000400" +:+ n)
       (<[NodeKeyName := "n1"]> {[ ParentSRIOVGPUDeviceLabel := PCIDeviceNameForHostname "0000:04:00.0" "n1" ]}) ∅;
     vgpu_Spec := {| vgpu_VGPUTypeName := "NVIDIA A2-4Q"; vgpu_Address := "0000:04:00." +:+ n; vgpu_Enabled := enabled;
       vgpu_NodeName := "n1"; vgpu_ParentGPUDeviceAddress := "0000:04:00.0" |};
     vgpu_Status := st |}.
Definition demo_types : VGPUDeviceStatus :=
  {| vgpu_VGPUStatus := VGPUDisabled; vgpu_UUID := ""; vgpu_ConfiguredVGPUTypeName := "";
     vgpu_AvailableTypes := Some {[ "NVIDIA A2-4Q" := "1150" ]} |}.
Definition demo_vgpus (enabled : bool) (st : VGPUDeviceStatus) : list VGPUDevice :=
  [demo_vgpu "4" enabled st; demo_vgpu "5" false demo_types].
Definition demo_memory (l : list VGPUDevice) : Handler :=
  {| h_nodeName := "n1"; h_executor := LocalExecutor; h_vgpus := list_to_map ((fun v => (vgpu_name v, v)) <$> l) |}.
Definition demo_pcidevice (v : VGPUDevice) : PCIDevice :=
  {| pd_meta := new_meta (vgpu_name v) ∅ ∅;
     pd_Status := {| pd_Address := vgpu_Address (vgpu_Spec v); pd_VendorID := "10de"; pd_DeviceID := "25b6";
       pd_ClassID := "0302"; pd_IOMMUGroup := "7"; pd_NodeName := "n1"; pd_ResourceName := ""; pd_Description := "";
       pd_KernelDriverInUse := "nvidia" |} |}.
(** A node whose GPU has two vGPUs; sysfs says of the first which type it has. *)
Definition demo_node (current : string) (l : list VGPUDevice) : sim :=
  let dir v := "/sys/bus/pci/devices/" +:+ vgpu_Address (vgpu_Spec v) +:+ "/nvidia/" in
  foldr (fun v w => put KPCIDevice (demo_pcidevice v) (put KVGPUDevice v w))
    (set_fs (list_to_map (concat ((fun v => [(dir v +:+ currentVGPUType, current +:+ newline);
        (dir v +:+ creatableVGPUTypes, "ID    : vGPU Name" +:+ newline +:+ "1150  : NVIDIA A2-4Q" +:+ newline)]) <$> l)))
      ∅ ∅ sim_empty) l.

Lemma enableVGPU_post_witness :
  exists s' r, let s := State (demo_memory (demo_vgpus true demo_types)) (demo_node "0" (demo_vgpus true demo_types), []) in
    enableVGPU "n1-000004004" s = (Ok r, s') /\
    Ev (FsWriteFile "/sys/bus/pci/devices/0000:04:00.4/nvidia/current_vgpu_type" "1150") (inr tt) ∈ log_of s'.
Proof.
  set (s := State (demo_memory (demo_vgpus true demo_types)) (demo_node "0" (demo_vgpus true demo_types), [])).
  assert (is_Ok (fst (enableVGPU "n1-000004004" s)) = true) as Hok by (vm_compute; reflexivity).
  destruct (enableVGPU "n1-000004004" s) as [[r|e|p] s'] eqn:E; [|discriminate Hok..].
  exists s', r. split; [done|].
  destruct (enableVGPU_post "n1-000004004" s s' r E) as (v & id & v' & l1 & l2 & Hv & Hid & _ & Hl & _).
  vm_compute in Hv. injection Hv as <-. vm_compute in Hid. injection Hid as <-. rewrite Hl, !elem_of_app. right. right. left. by left.
Defined.

(** A vGPU that sysfs has configured before this process saw it: its status never gets
    the name of the type. *)
Definition demo_found : VGPUDeviceStatus :=
  {| vgpu_VGPUStatus := VGPUEnabled; vgpu_UUID := "1150"; vgpu_ConfiguredVGPUTypeName := "";
     vgpu_AvailableTypes := Some {[ "NVIDIA A2-4Q" := "1150" ]} |}.

Lemma OnVGPUChange_configured_witness :
  exists s' o, let s := State (demo_memory (demo_vgpus true demo_types)) (demo_node "1150" (demo_vgpus true demo_types), []) in
    OnVGPUChange (Some "n1-000004004") s = (Ok (Some o), s') /\
    Ev (ApiUpdateStatus KVGPUDevice (demo_vgpu "4" true demo_found)) (inr o) ∈ log_of s'.
Proof.
  set (s := State (demo_memory (demo_vgpus true demo_types)) (demo_node "1150" (demo_vgpus true demo_types), [])).
  assert (is_Ok (fst (OnVGPUChange (Some "n1-000004004") s)) = true) as Hok by (vm_compute; reflexivity).
  assert (fst (FetchVGPUStatus SysDevRoot "0000:04:00.4" s) = Ok demo_found) as Hfound by (vm_compute; reflexivity).
  destruct (OnVGPUChange (Some "n1-000004004") s) as [[r|e|p] s'] eqn:E; [|discriminate Hok..].
  destruct (FetchVGPUStatus SysDevRoot "0000:04:00.4" s) as [f s1] eqn:F. simpl in Hfound. subst f.
  destruct (OnVGPUChange_configured "n1-000004004" (demo_vgpu "4" true demo_types) demo_found s s1 s' r
    ltac:(vm_compute; reflexivity) eq_refl eq_refl eq_refl F eq_refl E) as (_ & _ & Hchanged).
  destruct Hchanged as (o & -> & _ & Hl); [intros Heq; discriminate (f_equal vgpu_UUID Heq)|].
  exists s', o. split; [done|]. rewrite Hl. apply elem_of_app; right. by left.
Defined.

Lemma reconcileVGPUSetup_sync_witness :
  exists s', let s := State (demo_memory (demo_vgpus true demo_types)) (demo_node "0" (demo_vgpus true demo_types), []) in
    reconcileVGPUSetup [demo_vgpu "4" true demo_found] s = (Ok tt, s') /\
    h_vgpus (mem s') !! "n1-000004004" = Some (demo_vgpu "4" true demo_found) /\
    exists cached, Forall (vgpu_synced cached (h_vgpus (mem s)) (h_vgpus (mem s')) (log_of s'))
      [demo_vgpu "4" true demo_found].
Proof.
  set (s := State (demo_memory (demo_vgpus true demo_types)) (demo_node "0" (demo_vgpus true demo_types), [])).
  assert (is_Ok (fst (reconcileVGPUSetup [demo_vgpu "4" true demo_found] s)) = true) as Hok by (vm_compute; reflexivity).
  assert (h_vgpus (mem (snd (reconcileVGPUSetup [demo_vgpu "4" true demo_found] s))) !! "n1-000004004"
    = Some (demo_vgpu "4" true demo_found)) as Hcache by (vm_compute; reflexivity).
  destruct (reconcileVGPUSetup [demo_vgpu "4" true demo_found] s) as [[[]|e|p] s'] eqn:E; [|discriminate Hok..].
  exists s'. split; [done|]. split; [exact Hcache|].
  destruct (reconcileVGPUSetup_sync [demo_vgpu "4" true demo_found] s s' (NoDup_singleton _) E)
    as (cached & _ & _ & Hsync & _).
  exists cached. exact Hsync.
Defined.
