(* ===== verification/VGPUClaims.v ===== *)
(** * The claim of a vGPU in the hands of the claim controller

    The vGPU controller submits a claim for the PCI device of a vGPU
    ([VGPUController.vgpu_claim]); the controller of PCI device claims
    ([ClaimController]) then acts on it.  The two agree through annotations and
    owner references, and the theorems here join their models. *)

From S2P Require Import Prelude GoStrings GoStringLemmas GoMonad Types Effects Iommu PCIPlugin ClaimController ClaimTheorems Sim.
From S2P Require GPUHelper VGPUController.

(** Nothing is written to sysfs and no kernel module is loaded. *)
Definition sysfs_untouched (ev : event) : Prop :=
  match ev with
  | Ev e _ =>
      match e with
      | FsWrite _ _ | FsOpenWrite _ | FsWriteFile _ _ | ModProbe _ => False
      | _ => True
      end
  end.

Section Claims.
Context `{External} {W : Type} `{World W}.
Implicit Types (s : state Handler (Logged W)) (pd : PCIDevice) (c : PCIDeviceClaim).

#[local] Hint Extern 3 (Steps (emits sysfs_untouched) (eff _)) =>
  apply Steps_emits_eff; simpl; tauto : pcidev.
#[local] Hint Extern 3 (Steps (emits sysfs_untouched) (modify_mem _)) =>
  apply Steps_emits_modify : pcidev.

#[local] Hint Extern 3 (Steps (emits no_write) (eff _)) => apply Steps_emits_eff; exact (fun _ => I) : pcidev.

(** The claim as [submitPCIDeviceClaim] made it, in what the API server and the claim
    controller leave as it is. *)
Definition submitted (vgpu : VGPUDevice) pd c : Prop :=
  let c0 := VGPUController.vgpu_claim vgpu pd (GPUHelper.GenerateDeviceName (vgpu_VGPUTypeName (vgpu_Spec vgpu))) in
  m_Annotations (pdc_meta c) = m_Annotations (pdc_meta c0) /\
  m_OwnerReferences (pdc_meta c) = m_OwnerReferences (pdc_meta c0) /\
  pdc_Spec c = pdc_Spec c0.

Lemma submitted_skips vgpu pd c : submitted vgpu pd c -> skipDeviceBindingOp c = true.
Proof. intros (Hann & _). unfold skipDeviceBindingOp. by rewrite Hann. Qed.
Lemma submitted_resource vgpu pd c d :
  submitted vgpu pd c -> claim_resource c d = GPUHelper.GenerateDeviceName (vgpu_VGPUTypeName (vgpu_Spec vgpu)).
Proof. intros (Hann & _). unfold claim_resource. by rewrite Hann. Qed.
Lemma submitted_device vgpu pd c :
  submitted vgpu pd c -> getPCIDeviceForClaim (W := Logged W) c = eff (ApiGet KPCIDevice "" (pd_name pd)).
Proof. intros (_ & Hown & _). unfold getPCIDeviceForClaim. by rewrite Hown. Qed.

(** *** What the handlers do to the node *)
Lemma skipping_untouched pd c :
  skipDeviceBindingOp c = true -> Steps (@emits Handler W sysfs_untouched) (enable_claimed_device pd c).
Proof.
  intros Hskip. unfold enable_claimed_device. rewrite Hskip. cbn [negb].
  unfold permitHostDeviceInKubeVirt, add_to_plugin, store_plugin. steps_tac.
Qed.

Lemma release_untouched vgpu pd c :
  submitted vgpu pd c -> Steps (@emits Handler W sysfs_untouched) (ClaimController.OnRemove (Some c)).
Proof.
  intros Hc. unfold ClaimController.OnRemove, with_lock. rewrite (submitted_skips vgpu pd c Hc). cbn [negb].
  unfold getPCIDeviceForClaim, remove_from_plugin, cleanupIndividualDeviceResourceName, Stop, DevicePlugins.cleanup,
    store_plugin. steps_tac.
Qed.

Lemma check_steps : Steps (@emits Handler W sysfs_untouched) checkVFIOModules /\ Steps (@same_mem Handler (Logged W)) checkVFIOModules.
Proof. split; unfold checkVFIOModules, checkModulesExists; steps_tac. Qed.

(** From the modules on. *)
Definition handle_loaded c : M Handler (Logged W) (option PCIDeviceClaim) :=
  pd <- getPCIDeviceForClaim c ;;
  checkGroupMap pd ;;;
  pd' <- (if pdc_DisableResourcePooling (pdc_Spec c)
          then on_err (fun _ => Errorf "error setting individual device resource name")
                 (ensureIndividualDeviceResourceName pd)
          else ret pd) ;;
  with_lock claim_lock (enable_claimed_device pd' c).
Definition load_and_wait c : M Handler (Logged W) (option PCIDeviceClaim) :=
  loadVfioDrivers ;;; eff (EnqueueAfter KPCIDeviceClaim (m_Name (pdc_meta c)) 3) ;;; ret (Some c).

Lemma claim_reconcile_cases c s :
  m_DeletionTimestamp (pdc_meta c) = false -> pdc_NodeName (pdc_Spec c) = h_nodeName (mem s) ->
  reconcilePCIDeviceClaims (Some c) s =
    match checkVFIOModules s with
    | (Ok found, s1) => (if negb found then load_and_wait c else handle_loaded c) s1
    | (Err _, s1) => (Err (Errorf "error checking vfio modules"), s1)
    | (Panic p, s1) => (Panic p, s1)
    end.
Proof.
  intros Hlive Hnode. unfold reconcilePCIDeviceClaims, bind at 1, get_mem.
  rewrite Hlive, Hnode, bool_decide_eq_true_2 by done. cbn [orb negb]. unfold bind at 1, on_err at 1.
  destruct (checkVFIOModules s) as [[found|e|p] s1]; done.
Qed.

Lemma loaded_untouched c : skipDeviceBindingOp c = true -> Steps (@emits Handler W sysfs_untouched) (handle_loaded c).
Proof.
  intros Hskip. unfold handle_loaded.
  apply Steps_bind; [typeclasses eauto|unfold getPCIDeviceForClaim; steps_tac|intros pd].
  apply Steps_bind; [typeclasses eauto|unfold checkGroupMap, GetGroupMap, GroupPaths, group_devices; steps_tac|intros []].
  apply Steps_bind; [typeclasses eauto|unfold ensureIndividualDeviceResourceName; steps_tac|intros pd'].
  apply Steps_bind; [typeclasses eauto|steps_tac|intros []].
  apply Steps_defer; [typeclasses eauto|steps_tac|by apply skipping_untouched].
Qed.
Lemma wait_steps c : Steps (@emits Handler W no_write) (load_and_wait c) /\ Steps (@same_mem Handler (Logged W)) (load_and_wait c).
Proof. split; unfold load_and_wait, loadVfioDrivers; steps_tac. Qed.

Lemma wait_queues c s s1 r :
  emits sysfs_untouched s s1 -> fst (load_and_wait c s1) = Ok r ->
  exists evs, log_of (snd (load_and_wait c s1)) =
    log_of s ++ evs ++ [Ev (EnqueueAfter KPCIDeviceClaim (m_Name (pdc_meta c)) 3) (inr tt)].
Proof.
  intros (e1 & Hl1 & _) Hr. destruct (load_and_wait c s1) as [o s2] eqn:E. cbn in *. subst o.
  unfold load_and_wait in E. apply bind_Ok_inv in E as ([] & s3 & Hload & E).
  apply bind_Ok_inv in E as ([] & s4 & Henq & E). injection E as _ <-. apply eff_Ok_log in Henq as [Hl4 _].
  assert (emits any_event s1 s3) as (e3 & Hl3 & _).
  { assert (Steps (@emits Handler W any_event) loadVfioDrivers) as Hall by (unfold loadVfioDrivers; steps_tac).
    specialize (Hall s1). by rewrite Hload in Hall. }
  exists (e1 ++ e3). rewrite Hl4, Hl3, Hl1, <- !app_assoc. done.
Qed.

(** *** What a handled claim leaves *)
Lemma enabled_plugin vgpu pd c dev s r s' :
  submitted vgpu pd c -> enable_claimed_device dev c s = (Ok r, s') ->
  exists dp, h_devicePlugins (mem s') !! GPUHelper.GenerateDeviceName (vgpu_VGPUTypeName (vgpu_Spec vgpu)) = Some dp /\
    is_Some (dp_iommuToPCIMap dp !! pd_address dev).
Proof.
  intros Hc Hrun. unfold enable_claimed_device in Hrun. rewrite (submitted_skips vgpu pd c Hc) in Hrun. cbn [negb] in Hrun.
  apply bind_Ok_inv in Hrun as ([] & s1 & _ & Hrun). apply bind_Ok_inv in Hrun as (c' & s2 & Hc' & Hrun).
  injection Hc' as <- <-. rewrite (submitted_resource vgpu pd c _ Hc) in Hrun.
  apply bind_Ok_inv in Hrun as ([] & s3 & Hadd & Hrun).
  apply add_to_plugin_post in Hadd as [_ (dp & Hdp & Hin & _)]; [|done]. exists dp. split; [|done].
  assert (mem s' = mem s3) as ->; [|rewrite Hdp; apply lookup_insert_eq].
  destruct (pdc_PassthroughEnabled (pdc_Status c)); cbn [negb] in Hrun; [by injection Hrun as _ <-|].
  apply bind_Ok_inv in Hrun as (o & s4 & Hup & Hrun). injection Hrun as <- <-. by apply eff_Ok_log in Hup as [_ ?].
Qed.

Lemma handled_plugin vgpu pd c s r s' :
  submitted vgpu pd c -> handle_loaded c s = (Ok r, s') ->
  exists dev dp, Ev (ApiGet KPCIDevice "" (pd_name pd)) (inr dev) ∈ log_of s' /\
    h_devicePlugins (mem s') !! GPUHelper.GenerateDeviceName (vgpu_VGPUTypeName (vgpu_Spec vgpu)) = Some dp /\
    is_Some (dp_iommuToPCIMap dp !! pd_address dev).
Proof.
  intros Hc. pose proof Hc as (_ & _ & Hspec). pose proof (submitted_skips vgpu pd c Hc) as Hskip.
  unfold handle_loaded. rewrite (submitted_device vgpu pd c Hc), Hspec. cbn [pdc_DisableResourcePooling VGPUController.vgpu_claim pdc_Spec].
  intros Hrun. apply bind_Ok_inv in Hrun as (dev & s1 & Hget & Hrun). apply eff_Ok_log in Hget as [Hl1 _].
  apply bind_Ok_inv in Hrun as ([] & s2 & Hg & Hrun). apply bind_Ok_inv in Hrun as (dev' & s3 & Hd & Hrun).
  injection Hd as <- <-.
  assert (Ev (ApiGet KPCIDevice "" (pd_name pd)) (inr dev) ∈ log_of s2) as Hev2.
  { refine (log_mono _ any_event _ _ _ _ _ Hg _); [|rewrite Hl1; apply elem_of_app; right; left].
    unfold checkGroupMap, GetGroupMap, GroupPaths, group_devices. steps_tac. }
  apply with_lock_Ok_inv in Hrun as (sa & sb & Hacq & Hen & Hrel). apply eff_Ok_log in Hacq as [Hla _].
  destruct (eff_log (LockRelease claim_lock) sb) as (rel & w & _ & Hb). rewrite Hb in Hrel. subst s'.
  destruct (enabled_plugin vgpu pd c dev sa r sb Hc Hen) as (dp & Hdp & Hin).
  exists dev, dp. cbn [snd mem]. split_and!; [|done..]. unfold log_of at 1. cbn [world snd].
  apply elem_of_app. left. refine (log_mono _ sysfs_untouched _ _ _ _ (skipping_untouched dev c Hskip) Hen _).
  rewrite Hla. apply elem_of_app. by left.
Qed.

End Claims.

Definition demo_vgpu : VGPUDevice :=
  {| vgpu_meta := new_meta "n1-000004004" ∅ ∅;
     vgpu_Spec := {| vgpu_VGPUTypeName := "NVIDIA A2-4Q"; vgpu_Address := "0000:04:00.4"; vgpu_Enabled := true;
       vgpu_NodeName := "n1"; vgpu_ParentGPUDeviceAddress := "0000:04:00.0" |};
     vgpu_Status := {| vgpu_VGPUStatus := ""; vgpu_UUID := ""; vgpu_ConfiguredVGPUTypeName := "";
       vgpu_AvailableTypes := Some {[ "NVIDIA A2-4Q" := "1150" ]} |} |}.
Definition demo_vf_device : PCIDevice :=
  {| pd_meta := new_meta "n1-000004004" ∅ ∅;
     pd_Status := {| pd_Address := "0000:04:00.4"; pd_VendorID := "10de"; pd_DeviceID := "25b6"; pd_ClassID := "0302";
       pd_IOMMUGroup := "7"; pd_NodeName := "n1"; pd_ResourceName := "nvidia.com/NVIDIA_A2-4Q";
       pd_Description := ""; pd_KernelDriverInUse := "nvidia" |} |}.

(** The claim as the API server has it, with an identity of its own; the modules are loaded. *)
Definition demo_submitted : PCIDeviceClaim :=
  VGPUController.vgpu_claim demo_vgpu demo_vf_device (GPUHelper.GenerateDeviceName "NVIDIA A2-4Q").
Definition demo_claim_node : sim :=
  put KPCIDeviceClaim demo_submitted (put KKubeVirt (kubevirt_with []) (put KPCIDevice demo_vf_device
    (set_fs {[ "/proc/modules" := "vfio_iommu_type1 49152 0 -" +:+ newline +:+ "vfio_pci 16384 0 -" ]} ∅
      (<["/sys/kernel/iommu_groups" := [("7", true)]]>
        {[ "/sys/kernel/iommu_groups/7/devices" := [("0000:04:00.4", false)] ]}) sim_empty))).

