(* ===== verification/MigController.v ===== *)
(** * MIG configurations (pkg/controller/gpudevice/mig_controller.go)

    The instances of a GPU follow its MIG configuration: none exist and it is
    enabled, they are created; it is disabled and some exist, those that its
    status names are deleted; otherwise its status says whether stored and found
    instances agree. *)

From S2P Require Import Prelude GoStrings GoStringLemmas GoMonad Types Effects Mig GPUController Sim SimGPU.

Definition defaultMIGRequeuePeriod : Z := 300.

Definition set_status_word (w : string) (st : MigConfigurationStatus) : MigConfigurationStatus :=
  {| mig_ProfileStatus := mig_ProfileStatus st; mig_status := w; mig_Message := mig_Message st |}.
Definition set_message (m : string) (st : MigConfigurationStatus) : MigConfigurationStatus :=
  {| mig_ProfileStatus := mig_ProfileStatus st; mig_status := mig_status st; mig_Message := m |}.

Section Handlers.
Context `{MapOrder} {W : Type} `{World W}.
#[local] Abbreviation M := (M Handler W).

Definition migStatus (ex : Executor) (mig : MigConfiguration) : M MigConfigurationStatus :=
  on_err (Wrapf "error generating MIG configuration status for device")
    (GenerateMIGConfigurationStatus ex (mig_GPUAddress (mig_Spec mig))).

(** No instance exists and some are wanted. *)
Definition enable_profiles (ex : Executor) (mig : MigConfiguration) : M MigConfiguration :=
  r <- try (EnableMIGProfiles ex mig) ;;
  match r with
  | inl err =>
      _ <- try (eff (ApiUpdateStatus KMigConfiguration
             (set_mig_Status (set_message (emsg err) (mig_Status mig)) mig))) ;;
      fail (Wrapf "error setting up MIG instances for device" err)
  | inr _ =>
      status <- migStatus ex mig ;;
      eff (ApiUpdateStatus KMigConfiguration (set_mig_Status (set_message "" status) mig))
  end.

Definition disable_profiles (ex : Executor) (mig : MigConfiguration) : M MigConfiguration :=
  DisableMIGProfiles ex mig ;;;
  status <- migStatus ex mig ;;
  eff (ApiUpdateStatus KMigConfiguration (set_mig_Status (set_status_word MIGConfigurationDisabled status) mig)).

(** Stored and found instances agree, or not. *)
Definition sync_word (mig : MigConfiguration) (status : MigConfigurationStatus) : string :=
  if bool_decide (mig_ProfileStatus (mig_Status mig) = mig_ProfileStatus status)
  then MIGConfigurationSynced else MIGConfigurationOutOfSync.

Definition OnMIGChange (name : string) (o : option MigConfiguration) : M (option MigConfiguration) :=
  match o with
  | None => ret None
  | Some mig =>
      h <- get_mem ;;
      if m_DeletionTimestamp (mig_meta mig) || (mig_NodeName (mig_Spec mig) !=s h_nodeName h) then ret o
      else
        status <- migStatus (h_executor h) mig ;;
        if mig_Enabled (mig_Spec mig) && (instanceCount status =? 0)%Z
        then m <- enable_profiles (h_executor h) mig ;; ret (Some m)
        else if mig_Enabled (mig_Spec mig) &&
                (mig_status (mig_Status mig) !=s sync_word mig status)
        then m <- eff (ApiUpdateStatus KMigConfiguration
               (set_mig_Status (set_status_word (sync_word mig status) (mig_Status mig)) mig)) ;;
             ret (Some m)
        else if negb (mig_Enabled (mig_Spec mig)) && negb (instanceCount status =? 0)%Z
        then m <- disable_profiles (h_executor h) mig ;; ret (Some m)
        else eff (EnqueueAfter KMigConfiguration name defaultMIGRequeuePeriod) ;;; ret o
  end.
End Handlers.

(** ** The GPU follows its configuration *)

(** What a configuration asks of a GPU without instances, request by request. *)
Definition wanted_instances (mig : MigConfiguration) : list Z :=
  concat ((fun v => replicate (Z.to_nat (mpr_Requested v)) (mpr_ID v)) <$> wanted mig).
(** The instances that its status names. *)
Definition named (mig : MigConfiguration) : list string :=
  concat (mps_VGPUID <$> default [] (mig_ProfileStatus (mig_Status mig))).

(** The abstract machine: the instances of a GPU under one configuration. *)
Inductive mig_step (mig : MigConfiguration) : list (Z * string) -> list (Z * string) -> Prop :=
| mig_create new :
    mig_Enabled (mig_Spec mig) = true -> new.*1 = wanted_instances mig -> mig_step mig [] new
| mig_keep insts :
    (if mig_Enabled (mig_Spec mig) then insts <> [] else insts = []) -> mig_step mig insts insts
| mig_remove insts :
    mig_Enabled (mig_Spec mig) = false -> insts <> [] -> mig_step mig insts (without_all (named mig) insts).

Section Refinement.
Context `{MapOrder} {W : Type} `{World W} (ex : Executor) (addr : string)
  (instances : W -> list (Z * string)) `{!Smi Handler ex addr instances}.
Implicit Types (s : state Handler W).

Lemma instanceCount_named st :
  (instanceCount st =? 0)%Z = bool_decide (concat (mps_VGPUID <$> default [] (mig_ProfileStatus st)) = []).
Proof.
  unfold instanceCount. generalize (default [] (mig_ProfileStatus st)) as l. intros l.
  assert (forall n, fold_left (fun n v => (n + Z.of_nat (length (mps_VGPUID v)))%Z) l n
    = (n + Z.of_nat (length (concat (mps_VGPUID <$> l))))%Z) as Hsum.
  { induction l as [|v l IH]; intros n; [cbn; lia|].
    rewrite fmap_cons. cbn [fold_left concat]. rewrite IH, length_app. lia. }
  rewrite Hsum. case_bool_decide as Hnil.
  - by rewrite Hnil.
  - apply Z.eqb_neq. destruct (concat _); [done|]. simpl. lia.
Qed.

Lemma elem_of_concat_fmap {A B} (f : A -> list B) l x : x ∈ concat (f <$> l) <-> exists y, y ∈ l /\ x ∈ f y.
Proof.
  induction l as [|y l IH]; simpl; [set_solver|]. rewrite elem_of_app, IH. set_solver.
Qed.

(** The status that is generated names exactly the instances of the GPU. *)
Lemma generated_status s st s' :
  GenerateMIGConfigurationStatus ex addr s = (Ok st, s') ->
  instances (world s') = instances (world s) /\
  forall id, id ∈ concat (mps_VGPUID <$> default [] (mig_ProfileStatus st)) <-> id ∈ (instances (world s)).*2.
Proof.
  unfold GenerateMIGConfigurationStatus. intros Hrun.
  apply bind_Ok_inv in Hrun as (io & s1 & Hio & Hrun).
  apply on_err_Ok_inv, smi_instances in Hio as (Hs1 & ti & Hwi & -> & Hri).
  apply bind_Ok_inv in Hrun as (po & s2 & Hpo & Hrun).
  apply on_err_Ok_inv, smi_profiles in Hpo as (Hs2 & tp & ps & Hwp & -> & Hrp & Hsub).
  apply bind_Ok_inv in Hrun as (pst & s3 & Hpst & Hrun). apply on_err_Ok_inv in Hpst. injection Hpst as Hpst <-.
  injection Hrun as <- <-. split; [congruence|]. rewrite Hs1 in Hsub.
  rewrite (profile_status_of tp ti ps (instances (world s)) Hwp Hwi Hrp Hri) in Hpst. injection Hpst as <-.
  intros id. cbn [mig_ProfileStatus from_option Datatypes.id]. rewrite <- list_fmap_compose. cbn [compose].
  rewrite elem_of_concat_fmap. split.
  - intros (p & Hp & Hid). cbn in Hid. apply elem_of_instances_of in Hid. apply list_elem_of_fmap. by exists (mps_ID p, id).
  - intros Hid. apply list_elem_of_fmap in Hid as ([z id'] & -> & Hin).
    assert (z ∈ mps_ID <$> ps) as Hz by (apply Hsub, list_elem_of_fmap; by exists (z, id')).
    apply list_elem_of_fmap in Hz as (p & -> & Hp). exists p. split; [done|]. by apply elem_of_instances_of.
Qed.

Lemma enable_profiles_creates mig s m s' :
  mig_GPUAddress (mig_Spec mig) = addr -> NoDup (mpr_ID <$> wanted mig) ->
  enable_profiles ex mig s = (Ok m, s') ->
  exists new, instances (world s') = instances (world s) ++ new /\ new.*1 = wanted_instances mig.
Proof.
  intros Haddr Hnd Hrun. unfold enable_profiles in Hrun. apply bind_Ok_inv in Hrun as (r & s1 & Hr & Hrun).
  apply try_Ok_inv in Hr. destruct r as [err|[]].
  - by apply bind_Ok_inv in Hrun as (u & s2 & _ & Hrun).
  - apply (EnableMIGProfiles_creates ex addr instances mig s s1 Haddr Hnd) in Hr as (new & Hs1 & Hnew).
    apply bind_Ok_inv in Hrun as (st & s2 & Hst & Hrun). unfold migStatus in Hst. rewrite Haddr in Hst.
    apply on_err_Ok_inv, generated_status in Hst as [Hs2 _]. apply smi_frame in Hrun; [|done].
    exists new. split; [|done]. by rewrite Hrun, Hs2.
Qed.

Lemma disable_profiles_removes mig s m s' :
  mig_GPUAddress (mig_Spec mig) = addr -> disable_profiles ex mig s = (Ok m, s') ->
  instances (world s') = without_all (named mig) (instances (world s)).
Proof.
  intros Haddr Hrun. unfold disable_profiles in Hrun. apply bind_Ok_inv in Hrun as ([] & s1 & Hd & Hrun).
  apply (DisableMIGProfiles_removes ex addr instances mig s s1 Haddr) in Hd as [Hs1 _].
  apply bind_Ok_inv in Hrun as (st & s2 & Hst & Hrun). unfold migStatus in Hst. rewrite Haddr in Hst.
  apply on_err_Ok_inv, generated_status in Hst as [Hs2 _]. apply smi_frame in Hrun; [|done]. by rewrite Hrun, Hs2.
Qed.

Lemma no_instances s st s' :
  GenerateMIGConfigurationStatus ex addr s = (Ok st, s') ->
  (instanceCount st =? 0)%Z = true <-> instances (world s) = [].
Proof.
  intros Hrun. destruct (generated_status s st s' Hrun) as [_ Hids].
  rewrite instanceCount_named, bool_decide_eq_true. split.
  - intros Hnil. destruct (instances (world s)) as [|i l]; [done|]. exfalso.
    assert (i.2 ∈ @nil string) as Hin; [|by apply not_elem_of_nil in Hin]. rewrite <- Hnil. apply Hids. left.
  - intros Hnil. destruct (concat _) as [|id l]; [done|]. exfalso.
    assert (id ∈ (instances (world s)).*2) as Hin by (apply Hids; left). rewrite Hnil in Hin. by apply not_elem_of_nil in Hin.
Qed.

Lemma migStatus_kept mig s st s' :
  mig_GPUAddress (mig_Spec mig) = addr -> migStatus ex mig s = (Ok st, s') ->
  instances (world s') = instances (world s) /\ ((instanceCount st =? 0)%Z = true <-> instances (world s) = []).
Proof.
  intros Haddr Hrun. unfold migStatus in Hrun. rewrite Haddr in Hrun. apply on_err_Ok_inv in Hrun.
  split; [by destruct (generated_status s st s' Hrun)|by eapply no_instances].
Qed.

(** C11: the MIG controller refines an abstract machine on the instances of its GPU:
    every handling of a live configuration of the node that succeeds is one step of
    it.  An enabled configuration gives a GPU without instances what it asks for,
    in its order, and leaves a GPU with instances as it is, whatever they are; a
    disabled one takes away the instances its status names. *)
Theorem OnMIGChange_refines (name : string) (mig : MigConfiguration) s s' r
    (Hex : h_executor (mem s) = ex) (Haddr : mig_GPUAddress (mig_Spec mig) = addr)
    (Hlive : m_DeletionTimestamp (mig_meta mig) = false)
    (Hnode : mig_NodeName (mig_Spec mig) = h_nodeName (mem s))
    (Hnd : NoDup (mpr_ID <$> wanted mig))
    (Hrun : OnMIGChange name (Some mig) s = (Ok r, s')) :
  mig_step mig (instances (world s)) (instances (world s')).
Proof.
  unfold OnMIGChange in Hrun. apply bind_Ok_inv in Hrun as (h & s0 & Hh & Hrun). injection Hh as <- <-.
  rewrite Hlive, Hnode, bool_decide_eq_true_2, Hex in Hrun by done. cbn [orb negb] in Hrun.
  apply bind_Ok_inv in Hrun as (st & s1 & Hst & Hrun). apply (migStatus_kept _ _ _ _ Haddr) in Hst as [Hs1 Hcount].
  destruct (mig_Enabled (mig_Spec mig)) eqn:Hen; cbn [andb negb] in Hrun.
  - destruct (instanceCount st =? 0)%Z eqn:Hc.
    + apply bind_Ok_inv in Hrun as (m & s2 & Hm & Hrun). injection Hrun as <- <-.
      destruct (enable_profiles_creates mig s1 m s2 Haddr Hnd Hm) as (new & Hs2 & Hnew).
      rewrite Hs2, Hs1, (proj1 Hcount eq_refl). by constructor.
    + assert (instances (world s') = instances (world s)) as ->.
      { rewrite <- Hs1. destruct (mig_status (mig_Status mig) !=s sync_word mig st).
        - apply bind_Ok_inv in Hrun as (m & s2 & Hm & Hrun). injection Hrun as <- <-. by apply smi_frame in Hm.
        - apply bind_Ok_inv in Hrun as ([] & s2 & Hq & Hrun). injection Hrun as <- <-. by apply smi_frame in Hq. }
      apply mig_keep. rewrite Hen. intros Hnil. apply Hcount in Hnil. discriminate Hnil.
  - destruct (instanceCount st =? 0)%Z eqn:Hc; cbn [negb] in Hrun.
    + apply bind_Ok_inv in Hrun as ([] & s2 & Hq & Hrun). injection Hrun as <- <-. apply smi_frame in Hq; [|done].
      rewrite Hq, Hs1. apply mig_keep. rewrite Hen. by apply Hcount.
    + apply bind_Ok_inv in Hrun as (m & s2 & Hm & Hrun). injection Hrun as <- <-.
      rewrite (disable_profiles_removes mig s1 m s2 Haddr Hm), Hs1. apply mig_remove; [done|].
      intros Hnil. apply Hcount in Hnil. discriminate Hnil.
Qed.
End Refinement.

(** ** The theorem at work *)
Definition demo_enabled : MigConfiguration := demo_migconfig true [(19, 2); (14, 1)]%Z [].
Definition demo_fresh : gsim :=
  {| g_sim := put KMigConfiguration demo_enabled sim_empty; g_instances := []; g_next := 4 |}.

Lemma OnMIGChange_refines_witness :
  exists s', OnMIGChange "n1-gpu" (Some demo_enabled) (State demo_handler demo_fresh) = (Ok (snd s'), fst s') /\
    mig_step demo_enabled [] (g_instances (world (fst s'))) /\
    (g_instances (world (fst s'))).*1 = [19; 19; 14]%Z.
Proof.
  set (s := State demo_handler demo_fresh).
  assert (is_Ok (fst (OnMIGChange "n1-gpu" (Some demo_enabled) s)) = true) as Hok by (vm_compute; reflexivity).
  assert ((g_instances (world (snd (OnMIGChange "n1-gpu" (Some demo_enabled) s)))).*1 = [19; 19; 14]%Z) as Hids
    by (vm_compute; reflexivity).
  destruct (OnMIGChange "n1-gpu" (Some demo_enabled) s) as [[r|e|p] s'] eqn:E; [|discriminate Hok..].
  exists (s', r). split_and!; [done| |exact Hids].
  refine (OnMIGChange_refines LocalExecutor demo_addr g_instances "n1-gpu" demo_enabled s s' r
    eq_refl eq_refl eq_refl eq_refl _ E).
  apply (bool_decide_unpack _). vm_compute. exact I.
Defined.
