(* ===== verification/NicHelper.v ===== *)
(** * Network cards of a node (pkg/util/nichelper/helper.go)

    Which cards belong to Harvester's own networks (and must not be offered),
    which can do SR-IOV, and the virtual functions of a card. *)

From S2P Require Import Prelude GoStrings GoStringLemmas GoMonad Types Effects Common Sim.

Definition defaultBRInterface : string := "mgmt-br".
Definition defaultBOInterface : string := "mgmt-bo".
Definition matchedNodesAnnotation : string := "network.harvesterhci.io/matched-nodes".
Definition defaultTotalVFFile : string := "sriov_totalvfs".
Definition interfaceAnnotation : string := "sriov.devices.harvesterhi.io/interface-name".
Definition defaultDevicePath : string := "/sys/bus/pci/devices".

(** The pure part of [IdentifyManagementNics]: the slaves of the management
    bridge and bond, once for each of the two they belong to. *)
Definition management_slaves (links : list Link) : list string :=
  let masterBondedIndexes :=
    link_Index <$> List.filter (fun l =>
      (link_Name l ==s defaultBRInterface) || (link_Name l ==s defaultBOInterface)) links in
  concat ((fun i =>
    link_Name <$> List.filter (fun l => link_Slave l && (link_MasterIndex l =? i)%Z) links)
    <$> masterBondedIndexes).

Definition generateSRIOVDev (nodeName : string) (nic : NIC) (address : string) : SRIOVNetworkDevice :=
  {| sn_meta := new_meta (ToLower (nodeName +:+ "-" +:+ nic_Name nic))
                  {[ NodeKeyName := nodeName ]} {[ interfaceAnnotation := nic_Name nic ]};
     sn_Spec := {| sn_Address := address; sn_NodeName := nodeName; sn_NumVFs := 0 |};
     sn_Status := {| sn_VFAddresses := None; sn_VFPCIDevices := None; sn_status := "" |} |}.

Section Handlers.
Context `{External} {Mem W : Type} `{World W}.

Definition IdentifyManagementNics : M Mem W (list string) :=
  links <- on_err (fun _ => Errorf "error fetching link by name") (eff NetlinkLinks) ;;
  ret (management_slaves links).

Definition currentNodeMatchesSelector (nodeName managedNodes : string) : outcome bool :=
  match unmarshal_strings managedNodes with
  | None => Err (Errorf "error unmarshalling matched-nodes")
  | Some nodeNames => Ok (slices_Contains nodeNames nodeName)
  end.

Fixpoint cluster_nics (nodeName : string) (vlanConfigs : list VlanConfig) : outcome (list string) :=
  match vlanConfigs with
  | [] => Ok []
  | v :: rest =>
      match m_Annotations (vc_meta v) !! matchedNodesAnnotation with
      | None => cluster_nics nodeName rest
      | Some managedNodes =>
          match currentNodeMatchesSelector nodeName managedNodes with
          | Ok ok => l <-o cluster_nics nodeName rest ;; Ok (if ok then vc_NICs v ++ l else l)
          | Err _ => Err (Errorf "error evaluating nodes from selector")
          | Panic m => Panic m
          end
      end
  end.

Definition identifyClusterNetworks (nodeName : string) : M Mem W (list string) :=
  vlanConfigList <- on_err (fun _ => Errorf "error fetching vlanconfigs") (eff (CacheList KVlanConfig ∅)) ;;
  lift_o (cluster_nics nodeName vlanConfigList).

Definition IsNICSRIOVCapable (deviceAddr : string) : M Mem W bool :=
  st <- try (eff (FsStat (PathJoin [defaultDevicePath; deviceAddr; defaultTotalVFFile]))) ;;
  match st with
  | inl e => if IsNotExist e then ret false else fail e
  | inr _ => ret true
  end.

Definition nic_CurrentVFConfigured (deviceAddr : string) : M Mem W Z :=
  CurrentVFConfigured (PathJoin [defaultDevicePath; deviceAddr]).

Definition ConfigureVF (deviceAddr : string) (numvfs : Z) : M Mem W unit :=
  let file := PathJoin [defaultDevicePath; deviceAddr; defaultConfiguredVFFile] in
  on_err (fun _ => Errorf "error opening sriov_numvfs for device") (eff (FsOpenWrite file)) ;;;
  on_err (fun _ => Errorf "error writing to sriov_numvfs for device") (eff (FsWrite file (Itoa numvfs))).

Definition ListNICSInUseBySRIOV (nics : list NIC) : M Mem W (list string) :=
  fold_m (fun inUseInterfaces nic =>
    match nic_IsVirtual nic, nic_PCIAddress nic with
    | false, Some address =>
        ok <- IsNICSRIOVCapable address ;;
        if negb ok then ret inUseInterfaces
        else
          numvfs <- nic_CurrentVFConfigured address ;;
          ret (if (0 <? numvfs)%Z then inUseInterfaces ++ [nic_Name nic] else inUseInterfaces)
    | _, _ => ret inUseInterfaces
    end) [] nics.

(** The addresses of the cards with a name in the list. *)
Definition addresses_of (skipInterfaces : list string) (nics : list NIC) : list string :=
  concat ((fun v =>
    omap (fun nic => if nic_Name nic ==s v then nic_PCIAddress nic else None) nics) <$> skipInterfaces).

Definition IdentifyHarvesterManagedNIC (nodeName : string) : M Mem W (list string) :=
  managementInterfaces <- IdentifyManagementNics ;;
  vlanConfigNICS <- identifyClusterNetworks nodeName ;;
  nics <- on_err (fun _ => Errorf "error listing network info") (eff GhwNetwork) ;;
  sriovInUse <- ListNICSInUseBySRIOV nics ;;
  ret (addresses_of (managementInterfaces ++ vlanConfigNICS ++ sriovInUse) nics).

Definition generateSRIOVDeviceObjects (nodeName : string) (nics : list NIC) (skipNics : list string)
    : M Mem W (list SRIOVNetworkDevice) :=
  fold_m (fun sriovNics nic =>
    match slices_Contains skipNics (nic_Name nic), nic_IsVirtual nic, nic_PCIAddress nic with
    | false, false, Some address =>
        ok <- on_err (fun _ => Errorf "error checking if device is sriov capable") (IsNICSRIOVCapable address) ;;
        ret (if (ok : bool) then sriovNics ++ [generateSRIOVDev nodeName nic address] else sriovNics)
    | _, _, _ => ret sriovNics
    end) [] nics.

Definition GenerateSRIOVNics (nodeName : string) (nics : list NIC) : M Mem W (list SRIOVNetworkDevice) :=
  clusterNics <- on_err (fun _ => Errorf "error listing nics in use for vlanconfig")
    (identifyClusterNetworks nodeName) ;;
  mgmtNics <- on_err (fun _ => Errorf "error identifying management nics") IdentifyManagementNics ;;
  generateSRIOVDeviceObjects nodeName nics (clusterNics ++ mgmtNics).

Definition nic_GetVFList (pf : string) : M Mem W (list string) := GetVFList (PathJoin [defaultDevicePath; pf]).
End Handlers.

(** ** Lemmas *)
Lemma elem_of_management_slaves links name :
  name ∈ management_slaves links <->
  exists l m, l ∈ links /\ m ∈ links /\ link_Name l = name /\ link_Slave l = true /\
    link_MasterIndex l = link_Index m /\
    (link_Name m = defaultBRInterface \/ link_Name m = defaultBOInterface).
Proof.
  unfold management_slaves. rewrite list_elem_of_In, in_concat. split.
  - intros (ns & Hns & Hn). apply list_elem_of_In, list_elem_of_fmap in Hns as (i & -> & Hi).
    apply list_elem_of_fmap in Hi as (m & -> & Hm).
    apply list_elem_of_In, filter_In in Hm as [Hm Hname].
    apply list_elem_of_In, list_elem_of_fmap in Hn as (l & -> & Hl).
    apply list_elem_of_In, filter_In in Hl as [Hl Hs].
    apply andb_true_iff in Hs as [Hs Hi%Z.eqb_eq].
    apply orb_true_iff in Hname. rewrite !bool_decide_eq_true in Hname.
    exists l, m. rewrite !list_elem_of_In. split_and!; done.
  - intros (l & m & Hl & Hm & <- & Hs & Hi & Hname).
    eexists. split.
    + apply list_elem_of_In, list_elem_of_fmap. exists (link_Index m). split; [done|].
      apply list_elem_of_fmap. exists m. split; [done|]. apply list_elem_of_In, filter_In.
      rewrite <- list_elem_of_In. split; [done|]. apply orb_true_iff. by rewrite !bool_decide_eq_true.
    + apply list_elem_of_In, list_elem_of_fmap. exists l. split; [done|].
      apply list_elem_of_In, filter_In. rewrite <- list_elem_of_In. split; [done|].
      apply andb_true_iff. by rewrite Z.eqb_eq.
Qed.

Lemma elem_of_addresses skip nics a :
  a ∈ addresses_of skip nics <->
  exists nic, nic ∈ nics /\ nic_Name nic ∈ skip /\ nic_PCIAddress nic = Some a.
Proof.
  unfold addresses_of. rewrite list_elem_of_In, in_concat. split.
  - intros (l & Hl & Ha). apply list_elem_of_In, list_elem_of_fmap in Hl as (v & -> & Hv).
    apply list_elem_of_In, list_elem_of_omap in Ha as (nic & Hnic & Ha).
    case_bool_decide as Hn; [|done]. exists nic. by rewrite Hn.
  - intros (nic & Hnic & Hv & Ha). eexists. split.
    + apply list_elem_of_In, list_elem_of_fmap. by exists (nic_Name nic).
    + apply list_elem_of_In, list_elem_of_omap. exists nic. split; [done|].
      by rewrite bool_decide_eq_true_2.
Qed.

Section Properties.
Context `{External} {Mem W : Type} `{World W}.

(** *** The scan for SR-IOV cards

    The physical cards with a PCI address whose interface is not to be skipped, each
    with its address, and the look that tells whether one of them is SR-IOV capable. *)
Definition physical_cards (skipNics : list string) (nics : list NIC) : list (NIC * string) :=
  omap (fun nic => match slices_Contains skipNics (nic_Name nic), nic_IsVirtual nic, nic_PCIAddress nic with
                   | false, false, Some address => Some (nic, address)
                   | _, _, _ => None
                   end) nics.
Definition capability (card : NIC * string) (r : error + unit) : event :=
  Ev (FsStat (PathJoin [defaultDevicePath; card.2; defaultTotalVFFile])) r.
(** The objects of those whose [sriov_totalvfs] was found. *)
Definition capable_cards (nodeName : string) (cards : list (NIC * string)) (found : list (error + unit))
    : list SRIOVNetworkDevice :=
  omap (fun p : (NIC * string) * (error + unit) =>
    match p.2 with inr _ => Some (generateSRIOVDev nodeName p.1.1 p.1.2) | inl _ => None end) (zip cards found).
Definition answered (r : error + unit) : Prop := match r with inl e => IsNotExist e = true | inr _ => True end.

Lemma capable_log address (s : state Mem (Logged W)) ok s' :
  IsNICSRIOVCapable address s = (Ok ok, s') ->
  exists r, log_of s' = log_of s ++ [Ev (FsStat (PathJoin [defaultDevicePath; address; defaultTotalVFFile])) r] /\
    mem s' = mem s /\ answered r /\ ok = match r with inr _ => true | inl _ => false end.
Proof.
  unfold IsNICSRIOVCapable. intros Hrun. apply bind_Ok_inv in Hrun as (r & s1 & Hst & Hrun).
  apply try_eff_log in Hst as [Hl Hm]. exists r. destruct r as [e|[]].
  - cbn. destruct (IsNotExist e) eqn:E; [|discriminate Hrun]. injection Hrun as <- <-. by rewrite Hl.
  - injection Hrun as <- <-. by rewrite Hl.
Qed.

Lemma generate_objects_log node nics skip (s : state Mem (Logged W)) generated s' :
  generateSRIOVDeviceObjects node nics skip s = (Ok generated, s') ->
  let cards := physical_cards skip nics in
  exists found, log_of s' = log_of s ++ zip_with capability cards found /\ mem s' = mem s /\
    length found = length cards /\ Forall answered found /\ generated = capable_cards node cards found.
Proof.
  intros Hrun cards.
  enough (forall acc (s : state Mem (Logged W)) generated s',
    fold_m (fun sriovNics nic =>
      match slices_Contains skip (nic_Name nic), nic_IsVirtual nic, nic_PCIAddress nic with
      | false, false, Some address =>
          ok <- on_err (fun _ => Errorf "error checking if device is sriov capable") (IsNICSRIOVCapable address) ;;
          ret (if (ok : bool) then sriovNics ++ [generateSRIOVDev node nic address] else sriovNics)
      | _, _, _ => ret sriovNics
      end) acc nics s = (Ok generated, s') ->
    exists found, log_of s' = log_of s ++ zip_with capability (physical_cards skip nics) found /\ mem s' = mem s /\
      length found = length (physical_cards skip nics) /\ Forall answered found /\
      generated = acc ++ capable_cards node (physical_cards skip nics) found) as Hgen.
  { apply Hgen in Hrun as (found & ?). by exists found. }
  clear. induction nics as [|nic nics IH]; intros acc s generated s' Hrun; cbn [fold_m] in Hrun.
  { injection Hrun as <- <-. exists []. cbn. rewrite !app_nil_r. by split_and!. }
  apply bind_Ok_inv in Hrun as (acc' & s1 & Hnic & Hrun). apply IH in Hrun as (found & Hl & Hm & Hlen & Hok & ->).
  unfold physical_cards in *. cbn [omap list_omap]. cbn in Hl, Hlen |- *.
  destruct (slices_Contains _ _), (nic_IsVirtual nic), (nic_PCIAddress nic) as [address|];
    try (injection Hnic as <- <-; exists found; by split_and!).
  apply bind_Ok_inv in Hnic as (ok & s2 & Hcap & Hret). injection Hret as <- <-.
  apply on_err_Ok_inv, capable_log in Hcap as (r & Hl1 & Hm1 & Hr & ->). exists (r :: found). split_and!.
  - rewrite Hl, Hl1, <- app_assoc. done.
  - congruence.
  - cbn. by rewrite Hlen.
  - by constructor.
  - destruct r; cbn; [done|]. by rewrite <- app_assoc.
Qed.

Lemma GenerateSRIOVNics_log node nics (s : state Mem (Logged W)) generated s' :
  GenerateSRIOVNics node nics s = (Ok generated, s') ->
  exists vlans clusterNics links found,
    let cards := physical_cards (clusterNics ++ management_slaves links) nics in
    cluster_nics node vlans = Ok clusterNics /\
    log_of s' = log_of s ++ [Ev (CacheList KVlanConfig ∅) (inr vlans); Ev NetlinkLinks (inr links)] ++
      zip_with capability cards found /\
    mem s' = mem s /\ length found = length cards /\ Forall answered found /\
    generated = capable_cards node cards found.
Proof.
  unfold GenerateSRIOVNics, identifyClusterNetworks, IdentifyManagementNics. intros Hrun.
  apply bind_Ok_inv in Hrun as (clusterNics & s1 & Hc & Hrun). apply on_err_Ok_inv in Hc.
  apply bind_Ok_inv in Hc as (vlans & s1' & Hv & Hc). apply on_err_Ok_inv, eff_Ok_log in Hv as [Hl1 Hm1].
  unfold lift_o in Hc. injection Hc as Hc <-.
  apply bind_Ok_inv in Hrun as (mgmt & s2 & Hm & Hrun). apply on_err_Ok_inv in Hm.
  apply bind_Ok_inv in Hm as (links & s2' & Hk & Hm). injection Hm as <- <-.
  apply on_err_Ok_inv, eff_Ok_log in Hk as [Hl2 Hm2].
  apply generate_objects_log in Hrun as (found & Hl & Hmem & Hlen & Hok & ->).
  exists vlans, clusterNics, links, found. cbn zeta. split_and!; [done| |congruence|done..].
  rewrite Hl, Hl2, Hl1, <- !app_assoc. done.
Qed.

(** A card that carries Harvester's own networks is never offered: every
    address of a card that is a slave of the management bridge or bond, as the
    kernel lists the links, is among the addresses to skip. *)
Theorem management_nics_skipped (nodeName : string) (s s' : state Mem (Logged W)) (skip : list string)
    (Hrun : IdentifyHarvesterManagedNIC nodeName s = (Ok skip, s')) :
  exists links nics,
    Ev NetlinkLinks (inr links) ∈ log_of s' /\ Ev GhwNetwork (inr nics) ∈ log_of s' /\
    forall nic l m a, nic ∈ nics -> nic_PCIAddress nic = Some a ->
      l ∈ links -> m ∈ links -> link_Name l = nic_Name nic -> link_Slave l = true ->
      link_MasterIndex l = link_Index m ->
      (link_Name m = defaultBRInterface \/ link_Name m = defaultBOInterface) -> a ∈ skip.
Proof.
  unfold IdentifyHarvesterManagedNIC, IdentifyManagementNics in Hrun.
  apply bind_Ok_inv in Hrun as (mgmt & s1 & Hm & Hrun).
  apply bind_Ok_inv in Hm as (links & s1' & Hlinks & Hm). injection Hm as <- <-.
  apply on_err_Ok_inv, eff_Ok_log in Hlinks as [Hl1 _].
  apply bind_Ok_inv in Hrun as (vlan & s2 & Hvlan & Hrun).
  apply bind_Ok_inv in Hrun as (nics & s3 & Hnics & Hrun).
  apply on_err_Ok_inv, eff_Ok_log in Hnics as [Hl3 _].
  apply bind_Ok_inv in Hrun as (inuse & s4 & Huse & Hrun). injection Hrun as <- <-.
  exists links, nics. assert (forall ev, ev ∈ log_of s3 -> ev ∈ log_of s4) as Hmono.
  { intros ev. refine (log_mono _ any_event _ _ _ _ _ Huse).
    unfold ListNICSInUseBySRIOV, IsNICSRIOVCapable, nic_CurrentVFConfigured, CurrentVFConfigured. steps_tac. }
  split_and!.
  - apply Hmono. rewrite Hl3. apply elem_of_app. left.
    refine (log_mono _ any_event _ _ _ _ _ Hvlan _).
    + unfold identifyClusterNetworks. steps_tac.
    + rewrite Hl1. apply elem_of_app. right. left.
  - apply Hmono. rewrite Hl3. apply elem_of_app. right. left.
  - intros nic l m a Hnic Ha Hl Hm Hname Hs Hi Hmaster. apply elem_of_addresses.
    exists nic. split_and!; [done| |done]. apply elem_of_app. left.
    apply elem_of_management_slaves. exists l, m. done.
Qed.
End Properties.

(** ** A node with a bonded management card *)
Definition bonded_links : list Link :=
  [{| link_Name := "lo"; link_Index := 1; link_Slave := false; link_MasterIndex := 0 |};
   {| link_Name := "mgmt-bo"; link_Index := 5; link_Slave := true; link_MasterIndex := 6 |};
   {| link_Name := "ens1f0"; link_Index := 2; link_Slave := true; link_MasterIndex := 5 |}].
Definition bonded_nics : list NIC :=
  [{| nic_Name := "ens1f0"; nic_IsVirtual := false; nic_PCIAddress := Some "0000:02:00.0" |};
   {| nic_Name := "ens1f1"; nic_IsVirtual := false; nic_PCIAddress := Some "0000:02:00.1" |}].
Definition set_nics (nics : list NIC) (links : list Link) (w : sim) : sim :=
  {| sim_store := sim_store w; sim_index := sim_index w; sim_files := sim_files w;
     sim_links := sim_links w; sim_dirs := sim_dirs w; sim_globs := sim_globs w;
     sim_exec := sim_exec w; sim_pci := sim_pci w; sim_nics := nics; sim_netlinks := links;
     sim_nv := sim_nv w; sim_locks := sim_locks w; sim_queue := sim_queue w |}.

Lemma management_nics_skipped_witness :
  let s := State tt (set_nics bonded_nics bonded_links sim_empty, []) in
  exists skip s', IdentifyHarvesterManagedNIC "node1" s = (Ok skip, s') /\ skip = ["0000:02:00.0"] /\
  exists links nics,
    Ev NetlinkLinks (inr links) ∈ log_of s' /\ Ev GhwNetwork (inr nics) ∈ log_of s' /\
    forall nic l m a, nic ∈ nics -> nic_PCIAddress nic = Some a ->
      l ∈ links -> m ∈ links -> link_Name l = nic_Name nic -> link_Slave l = true ->
      link_MasterIndex l = link_Index m ->
      (link_Name m = defaultBRInterface \/ link_Name m = defaultBOInterface) -> a ∈ skip.
Proof.
  intros s.
  assert (fst (IdentifyHarvesterManagedNIC "node1" s) = Ok ["0000:02:00.0"]) as Hok
    by (vm_compute; reflexivity).
  destruct (IdentifyHarvesterManagedNIC "node1" s) as [o s'] eqn:E. simpl in Hok. subst o.
  exists ["0000:02:00.0"], s'. split; [reflexivity|]. split; [reflexivity|].
  exact (management_nics_skipped "node1" s s' ["0000:02:00.0"] E).
Defined.
