(* ===== verification/PCIDeviceController.v ===== *)
(** * The PCI device controller (pkg/controller/pcidevice/pcidevice_controller.go)

    One pass over the PCI devices that ghw reports: every device that is not to
    be skipped has an object with its current status, and the objects of this
    node whose address is gone are deleted. *)

From S2P Require Import Prelude GoStrings GoStringLemmas GoMonad Types Effects PCIDeviceApi Iommu Sim.

Definition pciBridgeClassID : string := "0604".

Definition IdentifyPCIBridgeDevices (devices : list pci_Device) : list string :=
  pci_Address <$> List.filter (fun v => (pci_ClassID v +:+ pci_SubclassID v) ==s pciBridgeClassID) devices.

Definition with_labels (l : gmap string string) (pd : PCIDevice) : PCIDevice :=
  {| pd_meta := set_Labels l (pd_meta pd); pd_Status := pd_Status pd |}.
Definition with_status (st : PCIDeviceStatus) (pd : PCIDevice) : PCIDevice :=
  {| pd_meta := pd_meta pd; pd_Status := st |}.

Section Handlers.
Context `{External} {Mem W : Type} `{World W}.

(** The map of labels is shared: an entry added for one device stays. *)
Definition QuerySRIOVNetworkDeviceOwnership (device : PCIDevice) (labels : gmap string string)
    : M Mem W (gmap string string) :=
  sriovDev <- on_err (fun _ => Errorf "error querying sriov network device")
    (eff (CacheByIndex KSRIOVNetworkDevice SRIOVFromVF (m_Name (pd_meta device)))) ;;
  match sriovDev with
  | [d] => ret (<[ParentSRIOVNetworkDevice := m_Name (sn_meta d)]> labels)
  | _ => ret labels
  end.

(** The object of a device, created if it is not stored; the labels afterwards. *)
Definition get_or_create (nodename : string) (dev : pci_Device) (commonLabels : gmap string string)
    : M Mem W (PCIDevice * gmap string string) :=
  let name := PCIDeviceNameForHostname (pci_Address dev) nodename in
  r <- try (eff (ApiGet KPCIDevice "" name)) ;;
  match r with
  | inr devCR => ret (devCR, commonLabels)
  | inl e =>
      if IsNotFound e then
        pdToCreate <- lift_o (NewPCIDeviceForHostname dev nodename) ;;
        commonLabels' <- QuerySRIOVNetworkDeviceOwnership pdToCreate commonLabels ;;
        devCR <- eff (ApiCreate KPCIDevice (with_labels commonLabels' pdToCreate)) ;;
        ret (devCR, commonLabels')
      else fail e
  end.

Definition reconcile_device (nodename : string) (skipAddresses : list string)
    (iommuGroupMap : gmap string Z) (commonLabels : gmap string string) (dev : pci_Device)
    : M Mem W (gmap string string) :=
  if slices_Contains skipAddresses (pci_Address dev) then ret commonLabels
  else
    r <- get_or_create nodename dev commonLabels ;;
    let devCopy := r.1 in
    let overrideResourceName :=
      default "" (m_Annotations (pd_meta devCopy) !! PCIDeviceOverrideResourceName) in
    st <- lift_o (Update (set_KernelDriverInUse (pci_Driver dev) (pd_Status devCopy))
                    dev nodename iommuGroupMap overrideResourceName) ;;
    eff (ApiUpdateStatus KPCIDevice (with_status st devCopy)) ;;;
    ret r.2.

(** The devices of the pass, and the list of objects to delete. *)
Definition real_addresses (devices : list pci_Device) (skipAddresses : list string) : list string :=
  pci_Address <$> List.filter (fun d => negb (slices_Contains skipAddresses (pci_Address d))) devices.

Definition deleteList (real : list string) (pds : list PCIDevice) : list PCIDevice :=
  List.filter (fun v => negb (slices_Contains real (pd_Address (pd_Status v)))) pds.

(** The pass before the clean-up: the labels it ends with. *)
Definition reconcile_devices (devices : list pci_Device) (skipAddresses : list string)
    (nodename : string) : M Mem W (gmap string string) :=
  iommuGroupPaths <- GroupPaths ;;
  iommuGroupMap <- lift_o (GroupMapForPCIDevices iommuGroupPaths) ;;
  fold_m (reconcile_device nodename skipAddresses iommuGroupMap) {[ NodeKeyName := nodename ]} devices.

Definition ReconcilePCIDevices (devices : list pci_Device) (skipAddresses : list string)
    (nodename : string) : M Mem W unit :=
  commonLabels <- reconcile_devices devices skipAddresses nodename ;;
  pds <- eff (ApiList KPCIDevice "" commonLabels) ;;
  for_each (fun v => eff (ApiDelete KPCIDevice (m_Name (pd_meta v))))
    (deleteList (real_addresses devices skipAddresses) pds).
End Handlers.

(** ** What a pass may change *)

(** Objects are created and updated for devices that ghw reports and that are not
    to be skipped: created under the device's name, with its address and node, and their
    status updated with the address and node; nothing else is created, updated or written. *)
Definition device_events (devices : list pci_Device) (skip : list string) (node : string) (ev : event) : Prop :=
  match ev with
  | Ev e _ =>
      match e with
      | ApiCreate k o =>
          match k return Obj k -> Prop with
          | KPCIDevice => fun o => exists dev, dev ∈ devices /\ (pci_Address dev ∉ skip) /\
              m_Name (pd_meta o) = PCIDeviceNameForHostname (pci_Address dev) node /\
              pd_Address (pd_Status o) = pci_Address dev /\ pd_NodeName (pd_Status o) = node
          | _ => fun _ => False
          end o
      | ApiUpdateStatus k o =>
          match k return Obj k -> Prop with
          | KPCIDevice => fun o => exists dev, dev ∈ devices /\ (pci_Address dev ∉ skip) /\
              pd_Address (pd_Status o) = pci_Address dev /\ pd_NodeName (pd_Status o) = node
          | _ => fun _ => False
          end o
      | ApiUpdate _ _ | FsWrite _ _ | FsWriteFile _ _ | FsRemove _ | ModProbe _ => False
      | ApiDelete _ _ => False
      | _ => True
      end
  end.

Section Properties.
Context `{External} {Mem W : Type} `{World W}.

Lemma New_fields dev node pd :
  NewPCIDeviceForHostname dev node = Ok pd ->
  pd_Address (pd_Status pd) = pci_Address dev /\ pd_NodeName (pd_Status pd) = node /\
  m_Name (pd_meta pd) = PCIDeviceNameForHostname (pci_Address dev) node.
Proof.
  unfold NewPCIDeviceForHostname. destruct (resourceName dev); simpl; [|done..]. by intros [= <-].
Qed.

Lemma Update_fields st dev node groups o st' :
  Update st dev node groups o = Ok st' ->
  pd_Address st' = pci_Address dev /\ pd_NodeName st' = node /\ pd_KernelDriverInUse st' = pci_Driver dev /\
  (o <> "" -> pd_ResourceName st' = o) /\
  (o = "" -> resourceName dev = Ok (pd_ResourceName st')).
Proof.
  unfold Update. destruct (resourceName dev) as [rn|e|m]; simpl; [|done..]. intros [= <-]. simpl.
  split_and!; [done..| |].
  - intros Ho. by rewrite bool_decide_eq_false_2.
  - intros ->. done.
Qed.

Lemma Steps_get_or_create devices skip node dev labels :
  dev ∈ devices -> pci_Address dev ∉ skip ->
  Steps (@emits Mem W (device_events devices skip node)) (get_or_create node dev labels).
Proof.
  intros Hdev Hskip. unfold get_or_create, QuerySRIOVNetworkDeviceOwnership.
  apply Steps_bind; [typeclasses eauto|apply Steps_try, Steps_emits_eff; done|]. intros [e|cr]; [|apply Steps_ret; typeclasses eauto].
  destruct (IsNotFound e); [|apply Steps_fail; typeclasses eauto].
  intros s. unfold bind at 1, lift_o. destruct (NewPCIDeviceForHostname dev node) as [pd|e'|m] eqn:Hnew;
    [|reflexivity..].
  apply New_fields in Hnew as (Ha & Hn & Hname). revert s.
  apply Steps_bind; [typeclasses eauto| |].
  - apply Steps_bind; [typeclasses eauto|apply Steps_on_err, Steps_emits_eff; done|].
    intros [|? [|]]; apply Steps_ret; typeclasses eauto.
  - intros labels'. apply Steps_bind; [typeclasses eauto| |intros; apply Steps_ret; typeclasses eauto].
    apply Steps_emits_eff. intros r. exists dev. done.
Qed.

Lemma Steps_reconcile_device devices skip node groups labels dev :
  dev ∈ devices ->
  Steps (@emits Mem W (device_events devices skip node)) (reconcile_device node skip groups labels dev).
Proof.
  intros Hdev. unfold reconcile_device. destruct (slices_Contains skip (pci_Address dev)) eqn:Hs;
    [apply Steps_ret; typeclasses eauto|]. apply slices_Contains_false in Hs.
  apply Steps_bind; [typeclasses eauto|by apply Steps_get_or_create|]. intros [cr labels']. simpl.
  intros s. unfold bind at 1, lift_o. destruct (Update _ _ _ _ _) as [st|e|m] eqn:Hu; [|reflexivity..].
  apply Update_fields in Hu as (Ha & Hn & _). revert s.
  apply Steps_bind; [typeclasses eauto| |intros; apply Steps_ret; typeclasses eauto].
  apply Steps_emits_eff. intros r. exists dev. done.
Qed.

Lemma Steps_GroupPaths_emits P :
  (forall p r, P (Ev (FsReadDir p) r)) -> Steps (@emits Mem W P) GroupPaths.
Proof.
  intros HP. unfold GroupPaths, group_devices. apply Steps_bind; [typeclasses eauto|by apply Steps_emits_eff|].
  intros gs. apply Steps_fold_m; [typeclasses eauto|]. intros b g _.
  apply Steps_bind; [typeclasses eauto|by apply Steps_emits_eff|]. intros. apply Steps_ret. typeclasses eauto.
Qed.

(** What a pass does to one object of the API server. *)
Definition pass_events (devices : list pci_Device) (skip : list string) (node : string) (ev : event) : Prop :=
  match ev with
  | Ev e _ =>
      match e with
      | ApiDelete k n => k = KPCIDevice
      | _ => device_events devices skip node ev
      end
  end.

Lemma device_pass devices skip node ev :
  device_events devices skip node ev -> pass_events devices skip node ev.
Proof. destruct ev as [X e r]. simpl. by destruct e. Qed.

Definition is_delete (name : string) (ev : event) : Prop :=
  match ev with Ev e _ => match e with ApiDelete k n => k = KPCIDevice /\ n = name | _ => False end end.

Definition no_delete (ev : event) : Prop :=
  match ev with Ev e _ => match e with ApiDelete _ _ => False | _ => True end end.

Lemma device_no_delete devices skip node ev : device_events devices skip node ev -> no_delete ev.
Proof. destruct ev as [X e r]. simpl. by destruct e. Qed.

(** Deletions of the objects of a list. *)
Definition deletes_of (pds : list PCIDevice) (ev : event) : Prop :=
  match ev with
  | Ev e _ =>
      match e with
      | ApiDelete k n => k = KPCIDevice /\ exists pd, pd ∈ pds /\ m_Name (pd_meta pd) = n
      | _ => False
      end
  end.

Lemma elem_of_deleteList devices skip pds pd :
  pd ∈ deleteList (real_addresses devices skip) pds <->
  pd ∈ pds /\ forall dev, dev ∈ devices -> pci_Address dev ∉ skip ->
    pci_Address dev <> pd_Address (pd_Status pd).
Proof.
  unfold deleteList. rewrite list_elem_of_In, filter_In, <- list_elem_of_In, negb_true_iff,
    slices_Contains_false. unfold real_addresses. rewrite list_elem_of_fmap.
  split; intros [Hpd Hno]; (split; [done|]).
  - intros dev Hdev Hs Heq. apply Hno. exists dev. split; [done|].
    apply list_elem_of_In, filter_In. rewrite <- list_elem_of_In, negb_true_iff.
    split; [done|]. by apply slices_Contains_false.
  - intros (dev & Heq & Hdev). apply list_elem_of_In, filter_In in Hdev as [Hdev Hs].
    apply negb_true_iff, slices_Contains_false in Hs.
    by apply (Hno dev); [apply list_elem_of_In|..].
Qed.

Lemma deletes_pass pds devices skip node ev :
  deletes_of pds ev -> pass_events devices skip node ev.
Proof. destruct ev as [X e r]. revert r. destruct e; intros r; simpl; try done. by intros [? _]. Qed.

Definition quiet devices skip node (ev : event) : Prop :=
  pass_events devices skip node ev /\ no_delete ev.

Lemma Steps_reconcile_devices devices skip node :
  Steps (@emits Mem W (quiet devices skip node)) (reconcile_devices devices skip node).
Proof.
  unfold reconcile_devices.
  apply Steps_bind; [typeclasses eauto|by apply Steps_GroupPaths_emits|]. intros paths.
  apply Steps_bind; [typeclasses eauto|apply Steps_lift_o; typeclasses eauto|]. intros groups s0.
  eapply (emits_weaken (device_events devices skip node)); [|apply Steps_fold_m; [typeclasses eauto|]; intros b d Hd;
    by apply Steps_reconcile_device]. intros ev Hev. split; [by apply device_pass|by eapply device_no_delete].
Qed.

Lemma quiet_no_delete devices skip node evs name :
  Forall (quiet devices skip node) evs -> ~ exists ev, ev ∈ evs /\ is_delete name ev.
Proof.
  intros Hevs ([X e r] & Hev & Hd). rewrite Forall_forall in Hevs. apply Hevs in Hev as [_ Hn].
  simpl in *. by destruct e.
Qed.

(** C32: a pass over the node's devices writes only objects of devices that ghw
    reports and that are not to be skipped, each under its own address and this
    node's name; and it deletes only objects that it was given by the API server
    in answer to its own listing and whose address no such device has. *)
Theorem ReconcilePCIDevices_changes (devices : list pci_Device) (skip : list string) (node : string)
    (s s' : state Mem (Logged W)) (r : outcome unit)
    (Hrun : ReconcilePCIDevices devices skip node s = (r, s')) :
  exists evs, log_of s' = log_of s ++ evs /\ Forall (pass_events devices skip node) evs /\
    forall name, (exists ev, ev ∈ evs /\ is_delete name ev) ->
      exists sel pds pd, Ev (ApiList KPCIDevice "" sel) (inr pds) ∈ evs /\ pd ∈ pds /\
        m_Name (pd_meta pd) = name /\
        forall dev, dev ∈ devices -> pci_Address dev ∉ skip -> pci_Address dev <> pd_Address (pd_Status pd).
Proof.
  unfold ReconcilePCIDevices, bind in Hrun. pose proof (Steps_reconcile_devices devices skip node s) as Hpre.
  destruct (reconcile_devices devices skip node s) as [[labels|e|m] s1]; destruct Hpre as (e1 & Hl1 & Hq);
    simpl in Hl1.
  2,3: injection Hrun as <- <-; exists e1; split_and!; [done|eapply Forall_impl; [exact Hq|by intros ? []]|];
       intros name Hd; by apply quiet_no_delete with (1 := Hq) in Hd.
  destruct (eff_log (ApiList KPCIDevice "" labels) s1) as (res & w' & _ & Heff). rewrite Heff in Hrun.
  assert (Forall (pass_events devices skip node) e1) as Hp1 by (eapply Forall_impl; [exact Hq|by intros ? []]).
  destruct res as [er|pds].
  - injection Hrun as <- <-. exists (e1 ++ [Ev (ApiList KPCIDevice "" labels) (inl er)]). cbn.
    rewrite Hl1, <- app_assoc. split_and!; [done|apply Forall_app; split; [done|by repeat constructor]|].
    intros name (ev & [Hev|Hev]%elem_of_app & Hd).
    + exfalso. eapply quiet_no_delete; [exact Hq|eauto].
    + apply list_elem_of_singleton in Hev as ->. done.
  - set (dl := deleteList _ pds) in Hrun. set (s2 := State _ _) in Hrun.
    assert (Steps (@emits Mem W (deletes_of dl))
      (for_each (fun v => eff (ApiDelete KPCIDevice (m_Name (pd_meta v)))) dl)) as Hdel.
    { apply Steps_for_each; [typeclasses eauto|]. intros pd Hpd. apply Steps_emits_eff. intros r0. simpl. eauto. }
    specialize (Hdel s2). rewrite Hrun in Hdel. destruct Hdel as (e3 & Hl3 & Hd3). simpl in Hl3.
    exists (e1 ++ [Ev (ApiList KPCIDevice "" labels) (inr pds)] ++ e3). split_and!.
    + rewrite Hl3. unfold s2. cbn. rewrite Hl1. by rewrite <- !app_assoc.
    + rewrite !Forall_app. split_and!; [done|by repeat constructor|].
      eapply Forall_impl; [exact Hd3|]. by apply deletes_pass.
    + intros name (ev & [Hev|[Hev|Hev]%elem_of_app]%elem_of_app & Hd).
      * exfalso. eapply quiet_no_delete; [exact Hq|eauto].
      * apply list_elem_of_singleton in Hev as ->. done.
      * rewrite Forall_forall in Hd3. apply Hd3 in Hev. destruct ev as [X e0 r0]. simpl in *.
        destruct e0; try done. destruct Hd as [-> ->]. destruct Hev as (_ & pd & Hpd & Hname).
        apply elem_of_deleteList in Hpd as [Hpd Hno].
        exists labels, pds, pd. split_and!; [|done..]. apply elem_of_app. right. left.
Qed.
End Properties.

(** ** The labels *)


(** Every object created carries a parent label. *)
Definition creates_labelled (ev : event) : Prop :=
  match ev with
  | Ev e _ =>
      match e with
      | ApiCreate k o =>
          match k return Obj k -> Prop with
          | KPCIDevice => fun o => is_Some (m_Labels (pd_meta o) !! ParentSRIOVNetworkDevice)
          | _ => fun _ => True
          end o
      | _ => True
      end
  end.

Lemma ownership_keeps `{External} {Mem W} `{World W} (pd : PCIDevice) labels l (s s' : state Mem W) :
  is_Some (labels !! ParentSRIOVNetworkDevice) ->
  QuerySRIOVNetworkDeviceOwnership pd labels s = (Ok l, s') ->
  is_Some (l !! ParentSRIOVNetworkDevice).
Proof.
  intros Hset Hq. unfold QuerySRIOVNetworkDeviceOwnership in Hq. inv_ok.
  destruct a as [|d [|]]; injection Hq as <- _; [done| |done]. rewrite lookup_insert_eq. eauto.
Qed.

Section Labels.
Context `{External} {Mem W : Type} `{World W}.
Implicit Types (s : state Mem (Logged W)).

Lemma create_labelled node dev labels s :
  is_Some (labels !! ParentSRIOVNetworkDevice) ->
  emits creates_labelled s (snd (get_or_create node dev labels s)) /\
  forall r s', get_or_create node dev labels s = (Ok r, s') -> is_Some (r.2 !! ParentSRIOVNetworkDevice).
Proof.
  intros Hset. split.
  - revert s. unfold get_or_create. apply Steps_bind; [typeclasses eauto|by apply Steps_try, Steps_emits_eff|].
    intros [e|cr]; [|apply Steps_ret; typeclasses eauto].
    destruct (IsNotFound e); [|apply Steps_fail; typeclasses eauto].
    apply Steps_bind; [typeclasses eauto|apply Steps_lift_o; typeclasses eauto|]. intros pd s.
    assert (Steps (@emits Mem W creates_labelled) (QuerySRIOVNetworkDeviceOwnership pd labels)) as Hq.
    { unfold QuerySRIOVNetworkDeviceOwnership. apply Steps_bind; [typeclasses eauto| |].
      - by apply Steps_on_err, Steps_emits_eff.
      - intros [|d [|]]; apply Steps_ret; typeclasses eauto. }
    specialize (Hq s). unfold bind at 1.
    destruct (QuerySRIOVNetworkDeviceOwnership pd labels s) as [[l|e'|m] s2] eqn:El; [|done..].
    apply ownership_keeps in El; [|done]. etransitivity; [exact Hq|]. clear Hq. revert s2.
    apply Steps_bind; [typeclasses eauto|apply Steps_emits_eff; intros r; exact El|].
    intros. apply Steps_ret. typeclasses eauto.
  - intros r s' Hr. unfold get_or_create in Hr.
    apply bind_Ok_inv in Hr as ([e|cr] & s1 & _ & Hr); [|by injection Hr as <- _].
    destruct (IsNotFound e); [|done].
    apply bind_Ok_inv in Hr as (pd & s2 & _ & Hr). apply bind_Ok_inv in Hr as (l & s3 & Hq & Hr).
    apply bind_Ok_inv in Hr as (cr & s4 & _ & Hr). injection Hr as <- _.
    exact (ownership_keeps _ _ _ _ _ Hset Hq).
Qed.

(** The labels of a pass are one map: once a device has turned out to be the
    virtual function of a card, every object created after it in the same pass is
    labelled as a virtual function too, and the listing that finds the objects to
    delete asks for that label, so that it finds only some objects of the node. *)
Theorem parent_label_stays (devices : list pci_Device) (skip : list string) (node : string)
    (groups : gmap string Z) (labels : gmap string string) s
    (Hset : is_Some (labels !! ParentSRIOVNetworkDevice)) :
  let run := fold_m (reconcile_device node skip groups) labels devices s in
  emits creates_labelled s (snd run) /\
  forall labels', fst run = Ok labels' -> is_Some (labels' !! ParentSRIOVNetworkDevice).
Proof.
  intros run. destruct (Steps_fold_m_inv (@emits Mem W creates_labelled)
    (fun l : gmap string string => is_Some (l !! ParentSRIOVNetworkDevice))
    (reconcile_device node skip groups) devices labels s Hset) as [Hem Hinv].
  - clear. intros lb dev s _ Hlb. unfold reconcile_device.
    destruct (slices_Contains skip _); [split; [reflexivity|by intros r s' Hr; injection Hr as <- _]|].
    destruct (create_labelled node dev lb s Hlb) as [Hem Hinv]. split.
    + unfold bind at 1. destruct (get_or_create node dev lb s) as [[cr|e|m] s1]; [|done..].
      etransitivity; [exact Hem|]. simpl. clear. revert s1.
      apply Steps_bind; [typeclasses eauto|apply Steps_lift_o; typeclasses eauto|]. intros st.
      apply Steps_bind; [typeclasses eauto|by apply Steps_emits_eff|]. intros. apply Steps_ret. typeclasses eauto.
    + intros r s' Hr. apply bind_Ok_inv in Hr as (cr & s1 & Hg & Hr). specialize (Hinv _ _ Hg).
      apply bind_Ok_inv in Hr as (st & s2 & _ & Hr). apply bind_Ok_inv in Hr as (u & s3 & _ & Hr).
      by injection Hr as <- _.
  - split; [done|]. intros labels' Hr. unfold run in *.
    destruct (fold_m _ labels devices s) as [o s'] eqn:E. simpl in Hr. subst o. by eapply Hinv.
Qed.
End Labels.

(** ** A node with a virtual function and a graphics card *)
Definition ghw_dev (address class subclass : string) : pci_Device :=
  {| pci_Address := address; pci_VendorID := "8086"; pci_VendorName := "Intel Corporation";
     pci_ProductID := "1521"; pci_ProductName := "I350 Gigabit Network Connection";
     pci_ClassID := class; pci_ClassName := "unknown"; pci_SubclassID := subclass;
     pci_SubclassName := "unknown"; pci_Driver := "igbvf" |}.
Definition sn_card : SRIOVNetworkDevice :=
  {| sn_meta := new_meta "node1-ens1f0" ∅ ∅;
     sn_Spec := {| sn_Address := "0000:02:00.0"; sn_NodeName := "node1"; sn_NumVFs := 1 |};
     sn_Status := {| sn_VFAddresses := None; sn_VFPCIDevices := Some ["node1-000002100"]; sn_status := "" |} |}.
Definition vf_node : sim :=
  let w := put KSRIOVNetworkDevice sn_card
    (put KPCIDevice {| pd_meta := new_meta "node1-gone" {[ NodeKeyName := "node1" ]} ∅;
                       pd_Status := {| pd_Address := "0000:09:00.0"; pd_VendorID := ""; pd_DeviceID := "";
                         pd_ClassID := ""; pd_IOMMUGroup := ""; pd_NodeName := "node1"; pd_ResourceName := "";
                         pd_Description := ""; pd_KernelDriverInUse := "" |} |}
    (set_fs ∅ ∅ {[ "/sys/kernel/iommu_groups" := [] ]} sim_empty)) in
  {| sim_store := sim_store w;
     sim_index := {[ (SRIOVFromVF, "node1-000002100") := ["node1-ens1f0"] ]};
     sim_files := sim_files w; sim_links := sim_links w; sim_dirs := sim_dirs w;
     sim_globs := sim_globs w; sim_exec := sim_exec w; sim_pci := sim_pci w; sim_nics := sim_nics w;
     sim_netlinks := sim_netlinks w; sim_nv := sim_nv w; sim_locks := sim_locks w; sim_queue := sim_queue w |}.
Definition vf_devices : list pci_Device :=
  [ghw_dev "0000:02:10.0" "02" "00"; ghw_dev "0000:03:00.0" "03" "00"; ghw_dev "0000:00:01.0" "06" "04"].

(** The graphics card is labelled as a virtual function of the network card, and
    the object of the device that is gone stays. *)
Example label_leak :
  let '(r, s) := ReconcilePCIDevices vf_devices (IdentifyPCIBridgeDevices vf_devices) "node1"
                   (State tt vf_node) in
  is_Ok r = true /\
  (fun pd => m_Labels (pd_meta pd) !! ParentSRIOVNetworkDevice) <$>
    (sim_store (world s) KPCIDevice !! "node1-000003000") = Some (Some "node1-ens1f0") /\
  is_Some (sim_store (world s) KPCIDevice !! "node1-gone") /\
  sim_store (world s) KPCIDevice !! "node1-000000010" = None.
Proof. vm_compute. split_and!; eauto. Qed.

Lemma parent_label_stays_witness :
  let labels := {[ ParentSRIOVNetworkDevice := "node1-ens1f0" ]} in
  let run := fold_m (reconcile_device "node1" [] ∅) labels vf_devices (State tt (vf_node, [])) in
  emits creates_labelled (State tt (vf_node, [])) (snd run) /\
  forall labels', fst run = Ok labels' -> is_Some (labels' !! ParentSRIOVNetworkDevice).
Proof. intros labels. apply (parent_label_stays vf_devices [] "node1" ∅ labels). eexists. reflexivity. Defined.

Lemma ReconcilePCIDevices_changes_witness :
  let s := State tt (vf_node, []) in
  let skip := IdentifyPCIBridgeDevices vf_devices in
  exists r s', ReconcilePCIDevices vf_devices skip "node1" s = (r, s') /\ is_Ok r = true /\
  exists evs, log_of s' = log_of s ++ evs /\ Forall (pass_events vf_devices skip "node1") evs /\
    forall name, (exists ev, ev ∈ evs /\ is_delete name ev) ->
      exists sel pds pd, Ev (ApiList KPCIDevice "" sel) (inr pds) ∈ evs /\ pd ∈ pds /\
        m_Name (pd_meta pd) = name /\
        forall dev, dev ∈ vf_devices -> pci_Address dev ∉ skip -> pci_Address dev <> pd_Address (pd_Status pd).
Proof.
  intros s skip.
  assert (is_Ok (fst (ReconcilePCIDevices vf_devices skip "node1" s)) = true) as Hok by (vm_compute; reflexivity).
  destruct (ReconcilePCIDevices vf_devices skip "node1" s) as [r s'] eqn:E.
  exists r, s'. split; [reflexivity|]. split; [exact Hok|].
  exact (ReconcilePCIDevices_changes vf_devices skip "node1" s s' r E).
Defined.
