(* ===== verification/SRIOV.v ===== *)
(** * The SR-IOV network device controller (pkg/controller/sriovdevice)

    One object per SR-IOV capable card of the node; its [NumVFs] is written to
    the card's [sriov_numvfs], and the status lists the virtual functions. *)

From S2P Require Import Prelude GoStrings GoStringLemmas GoMonad Types Effects PCIDeviceApi Common NicHelper Sim.

(** The handler's memory is the name of its node. *)
Abbreviation NodeName := string.

Definition containsSRIOVDevice (key : SRIOVNetworkDevice) (values : list SRIOVNetworkDevice) : bool :=
  existsb (fun v => m_Name (sn_meta v) ==s m_Name (sn_meta key)) values.

Definition set_sn_status (st : SRIOVNetworkDeviceStatus) (d : SRIOVNetworkDevice) : SRIOVNetworkDevice :=
  {| sn_meta := sn_meta d; sn_Spec := sn_Spec d; sn_Status := st |}.

(** The index functions of pkg/controller/indexer.go. *)
Definition getSriovDeviceFromVF (obj : SRIOVNetworkDevice) : outcome (list string) :=
  Ok (default [] (sn_VFPCIDevices (sn_Status obj))).
Definition getUSBDeviceClaimFromPCIAddress (obj : USBDeviceClaim) : outcome (list string) :=
  Ok [uc_PCIAddress (uc_Status obj)].

Section Handlers.
Context `{External} {W : Type} `{World W}.
#[local] Abbreviation M := (M NodeName W).

(** The bodies of its two loops. *)
Definition create_new (listed : list SRIOVNetworkDevice) (dev : SRIOVNetworkDevice) : M unit :=
  if negb (containsSRIOVDevice dev listed)
  then on_err (fun _ => Errorf "error creating device") (eff (ApiCreate KSRIOVNetworkDevice dev)) ;;; ret tt
  else ret tt.
Definition delete_old (generated : list SRIOVNetworkDevice) (dev : SRIOVNetworkDevice) : M unit :=
  if negb (containsSRIOVDevice dev generated)
  then on_err (fun _ => Errorf "error deleting sriov device")
         (eff (ApiDelete KSRIOVNetworkDevice (m_Name (sn_meta dev))))
  else ret tt.

Definition SetupSriovDevices : M unit :=
  nodeName <- get_mem ;;
  sriovDeviceList <- on_err (fun _ => Errorf "error listing sriovdevices for node")
    (eff (CacheList KSRIOVNetworkDevice {[ NodeKeyName := nodeName ]})) ;;
  nics <- on_err (fun _ => Errorf "error listing nics for node") (eff GhwNetwork) ;;
  generated <- on_err (fun _ => Errorf "error generating sriovdevice list for node")
    (GenerateSRIOVNics nodeName nics) ;;
  for_each (create_new sriovDeviceList) generated ;;;
  for_each (delete_old generated) sriovDeviceList.

(** [UpdateStatus] if the status changed. *)
Definition store_status (st : SRIOVNetworkDeviceStatus) (d : SRIOVNetworkDevice) : M SRIOVNetworkDevice :=
  if negb (bool_decide (st = sn_Status d))
  then eff (ApiUpdateStatus KSRIOVNetworkDevice (set_sn_status st d))
  else ret d.

Definition ensureDeviceIsDisabled (d : SRIOVNetworkDevice) : M SRIOVNetworkDevice :=
  let address := sn_Address (sn_Spec d) in
  vfs <- on_err (fun _ => Errorf "error querying number of vf's on device") (nic_CurrentVFConfigured address) ;;
  st <- (if negb (vfs =? 0)%Z
         then on_err (fun _ => Errorf "error setting vf count to 0 on device") (ConfigureVF address 0) ;;;
              ret {| sn_VFAddresses := None; sn_VFPCIDevices := sn_VFPCIDevices (sn_Status d);
                     sn_status := DeviceDisabled |}
         else ret (sn_Status d)) ;;
  store_status st d.

Definition ensureDeviceIsConfigured (d : SRIOVNetworkDevice) : M SRIOVNetworkDevice :=
  let address := sn_Address (sn_Spec d) in
  let NumVFs := sn_NumVFs (sn_Spec d) in
  vfs <- on_err (fun _ => Errorf "error querying number of vf's on device") (nic_CurrentVFConfigured address) ;;
  (if negb (vfs =? NumVFs)%Z
   then on_err (fun _ => Errorf "error setting vf count on device") (ConfigureVF address NumVFs)
   else ret tt) ;;;
  vfAddresses <- on_err (fun _ => Errorf "error looking up vf addresses for device") (nic_GetVFList address) ;;
  nodeName <- get_mem ;;
  store_status
    {| sn_VFAddresses := Some vfAddresses;
       sn_VFPCIDevices := Some ((fun vf => PCIDeviceNameForHostname vf nodeName) <$> vfAddresses);
       sn_status := DeviceEnabled |} d.

Definition reconcileSriovDevice (sriovDevice : option SRIOVNetworkDevice) : M (option SRIOVNetworkDevice) :=
  match sriovDevice with
  | None => ret None
  | Some d =>
      nodeName <- get_mem ;;
      if m_DeletionTimestamp (sn_meta d) || (sn_NodeName (sn_Spec d) !=s nodeName) then ret sriovDevice
      else
        d' <- (if (sn_NumVFs (sn_Spec d) =? 0)%Z then ensureDeviceIsDisabled d
               else ensureDeviceIsConfigured d) ;;
        ret (Some d')
  end.
End Handlers.

(** ** Properties *)
Lemma containsSRIOVDevice_spec key values :
  containsSRIOVDevice key values = true <-> m_Name (sn_meta key) ∈ (fun v => m_Name (sn_meta v)) <$> values.
Proof.
  unfold containsSRIOVDevice. rewrite existsb_exists, list_elem_of_fmap. split.
  - intros (v & Hv & E%bool_decide_eq_true). exists v. split; [done|]. by apply list_elem_of_In.
  - intros (v & E & Hv). exists v. split; [by apply list_elem_of_In|]. by apply bool_decide_eq_true.
Qed.

(** The cards' objects: created with a name that was not listed, deleted with a
    listed name that was not generated. *)
Definition setup_event (listed generated : list SRIOVNetworkDevice) (ev : event) : Prop :=
  match ev with
  | Ev e _ =>
      match e with
      | ApiCreate k o =>
          match k return Obj k -> Prop with
          | KSRIOVNetworkDevice => fun o => o ∈ generated /\ containsSRIOVDevice o listed = false
          | _ => fun _ => False
          end o
      | ApiDelete k n =>
          k = KSRIOVNetworkDevice /\
          exists d, d ∈ listed /\ m_Name (sn_meta d) = n /\ containsSRIOVDevice d generated = false
      | _ => False
      end
  end.

Section Properties.
Context `{External} {W : Type} `{World W}.
Implicit Types (s : state NodeName (Logged W)).

Lemma create_new_steps listed generated d :
  d ∈ generated -> Steps (@emits NodeName W (setup_event listed generated)) (create_new listed d).
Proof.
  intros Hd. unfold create_new. destruct (containsSRIOVDevice d listed) eqn:E; [steps_tac|].
  apply Steps_bind; [typeclasses eauto|by apply Steps_on_err, Steps_emits_eff|steps_tac].
Qed.
Lemma delete_old_steps listed generated d :
  d ∈ listed -> Steps (@emits NodeName W (setup_event listed generated)) (delete_old generated d).
Proof.
  intros Hd. unfold delete_old. destruct (containsSRIOVDevice d generated) eqn:E; [steps_tac|].
  apply Steps_on_err, Steps_emits_eff. intros r. simpl. eauto.
Qed.

Definition created_now (d : SRIOVNetworkDevice) (log : list event) : Prop :=
  exists o, Ev (ApiCreate KSRIOVNetworkDevice d) (inr o) ∈ log.
Definition deleted_now (d : SRIOVNetworkDevice) (log : list event) : Prop :=
  Ev (ApiDelete KSRIOVNetworkDevice (m_Name (sn_meta d))) (inr tt) ∈ log.

(** The two loops, from a success: the events, and what is among them. *)
Lemma loop_events {A} (f : A -> M NodeName (Logged W) unit) (P : event -> Prop) (skip : A -> bool) (done : A -> event -> Prop)
    l s s' :
  for_each f l s = (Ok tt, s') ->
  (forall x, x ∈ l -> Steps (emits P) (f x)) ->
  (forall x sa sb, skip x = false -> f x sa = (Ok tt, sb) -> exists ev, log_of sb = log_of sa ++ [ev] /\ done x ev) ->
  exists evs, log_of s' = log_of s ++ evs /\ Forall P evs /\
    Forall (fun x => skip x = false -> exists ev, ev ∈ evs /\ done x ev) l.
Proof.
  revert s. induction l as [|x l IH]; intros s Hrun HP Hf.
  { injection Hrun as <-. exists []. by rewrite app_nil_r. }
  cbn [for_each] in Hrun. apply bind_Ok_inv in Hrun as ([] & s1 & Hx & Hrun).
  destruct (HP x ltac:(left) s) as (e1 & Hl1 & Hq1). rewrite Hx in Hl1. cbn [snd] in Hl1.
  destruct (IH s1 Hrun) as (e2 & Hl2 & Hq2 & Hdone); [by intros y Hy; apply HP; right|done|].
  exists (e1 ++ e2). rewrite Hl2, Hl1, app_assoc. split; [done|]. split; [by apply Forall_app|]. constructor.
  - intros E. destruct (Hf x s s1 E Hx) as (ev & Hl & Hev). rewrite Hl1 in Hl. apply app_inv_head in Hl as ->.
    exists ev. split; [left|done].
  - eapply Forall_impl; [exact Hdone|]. intros y Hy E. destruct (Hy E) as (ev & Hin & Hev). exists ev.
    rewrite elem_of_app. auto.
Qed.

Lemma create_loop listed generated s s' :
  for_each (create_new listed) generated s = (Ok tt, s') ->
  exists evs, log_of s' = log_of s ++ evs /\ Forall (setup_event listed generated) evs /\
    Forall (fun d => containsSRIOVDevice d listed = false -> created_now d evs) generated.
Proof.
  intros Hrun. apply (loop_events _ (setup_event listed generated) (fun d => containsSRIOVDevice d listed)
    (fun d ev => exists o, ev = Ev (ApiCreate KSRIOVNetworkDevice d) (inr o))) in Hrun as (evs & Hl & HP & Hd).
  - exists evs. split_and!; [done..|]. eapply Forall_impl; [exact Hd|]. intros d Hx E.
    destruct (Hx E) as (ev & Hin & o & ->). by exists o.
  - auto using create_new_steps.
  - intros d sa sb E Hx. unfold create_new in Hx. rewrite E in Hx.
    apply bind_Ok_inv in Hx as (o & sc & Hx & Hret). injection Hret as <-. apply on_err_Ok_inv, eff_Ok_log in Hx as [Hl _].
    eexists. split; [exact Hl|]. by exists o.
Qed.
Lemma delete_old_loop listed generated s s' :
  for_each (delete_old generated) listed s = (Ok tt, s') ->
  exists evs, log_of s' = log_of s ++ evs /\ Forall (setup_event listed generated) evs /\
    Forall (fun d => containsSRIOVDevice d generated = false -> deleted_now d evs) listed.
Proof.
  intros Hrun. apply (loop_events _ (setup_event listed generated) (fun d => containsSRIOVDevice d generated)
    (fun d ev => ev = Ev (ApiDelete KSRIOVNetworkDevice (m_Name (sn_meta d))) (inr tt))) in Hrun as (evs & Hl & HP & Hd).
  - exists evs. split_and!; [done..|]. eapply Forall_impl; [exact Hd|]. intros d Hx E.
    destruct (Hx E) as (ev & Hin & ->). done.
  - auto using delete_old_steps.
  - intros d sa sb E Hx. unfold delete_old in Hx. rewrite E in Hx. apply on_err_Ok_inv, eff_Ok_log in Hx as [Hl _].
    by eexists.
Qed.

(** C38: the SR-IOV objects of a node follow its cards: on success, with the objects
    listed, the network cards that ghw reported, the links of the kernel and the
    cluster's VLAN configurations, each physical card with an address that no network
    of Harvester uses was looked at for its [sriov_totalvfs]; those that have the
    file, each under the name made of the node and the interface, are the objects
    there should be, with no virtual functions asked for.  Then exactly those of them
    whose name was not listed were created, and exactly the listed objects whose name
    is not among them were deleted; no name is both created and deleted. *)
Theorem SetupSriovDevices_sync s s' (Hrun : SetupSriovDevices s = (Ok tt, s')) :
  exists listed nics vlans clusterNics links found evs,
    let cards := physical_cards (clusterNics ++ management_slaves links) nics in
    let generated := capable_cards (mem s) cards found in
    cluster_nics (mem s) vlans = Ok clusterNics /\ length found = length cards /\ Forall answered found /\
    log_of s' = log_of s ++
      [Ev (CacheList KSRIOVNetworkDevice {[ NodeKeyName := mem s ]}) (inr listed); Ev GhwNetwork (inr nics);
       Ev (CacheList KVlanConfig ∅) (inr vlans); Ev NetlinkLinks (inr links)] ++
      zip_with capability cards found ++ evs /\
    Forall (setup_event listed generated) evs /\
    Forall (fun d => containsSRIOVDevice d listed = false -> created_now d evs) generated /\
    Forall (fun d => containsSRIOVDevice d generated = false -> deleted_now d evs) listed /\
    forall d d', d ∈ generated -> d' ∈ listed -> containsSRIOVDevice d' generated = false ->
      m_Name (sn_meta d') <> m_Name (sn_meta d).
Proof.
  unfold SetupSriovDevices in Hrun.
  apply bind_Ok_inv in Hrun as (node & s0 & Hn & Hrun). injection Hn as <- <-.
  apply bind_Ok_inv in Hrun as (listed & s1 & Hl & Hrun). apply on_err_Ok_inv, eff_Ok_log in Hl as [Hl1 Hm1].
  apply bind_Ok_inv in Hrun as (nics & s2 & Hnics & Hrun). apply on_err_Ok_inv, eff_Ok_log in Hnics as [Hl2 Hm2].
  apply bind_Ok_inv in Hrun as (generated & s3 & Hg & Hrun). apply on_err_Ok_inv in Hg.
  apply GenerateSRIOVNics_log in Hg as (vlans & clusterNics & links & found & Hvl & Hl3 & Hm3 & Hlen & Hok & Hgen).
  apply bind_Ok_inv in Hrun as ([] & s4 & Hcreate & Hdelete).
  apply create_loop in Hcreate as (e4 & Hl4 & Hev4 & Hcreated).
  apply delete_old_loop in Hdelete as (e5 & Hl5 & Hev5 & Hdeleted).
  exists listed, nics, vlans, clusterNics, links, found, (e4 ++ e5). cbn zeta. rewrite <- Hgen. split_and!; try done.
  - rewrite Hl5, Hl4, Hl3, Hl2, Hl1, <- !app_assoc. done.
  - by apply Forall_app.
  - eapply Forall_impl; [exact Hcreated|]. intros d Hd E. destruct (Hd E) as [o Ho]. exists o. rewrite elem_of_app. by left.
  - eapply Forall_impl; [exact Hdeleted|]. intros d Hd E. unfold deleted_now. rewrite elem_of_app. right. by apply Hd.
  - intros d d' Hin Hin' Hdg Heq.
    assert (containsSRIOVDevice d' generated = true); [|congruence].
    apply containsSRIOVDevice_spec. rewrite Heq. apply list_elem_of_fmap. by exists d.
Qed.

(** An enabled card is configured exactly as its object says: on success the
    card either had the requested number of virtual functions or the number was
    written to its [sriov_numvfs], and the object's status is enabled, with one
    object name for each virtual function found, in the same order. *)
Theorem ensureDeviceIsConfigured_post (d : SRIOVNetworkDevice) s s' (r : SRIOVNetworkDevice)
    (Hrun : ensureDeviceIsConfigured d s = (Ok r, s')) :
  exists vfAddresses,
    let st := {| sn_VFAddresses := Some vfAddresses;
                 sn_VFPCIDevices := Some ((fun vf => PCIDeviceNameForHostname vf (mem s)) <$> vfAddresses);
                 sn_status := DeviceEnabled |} in
    (sn_Status d = st \/
     Ev (ApiUpdateStatus KSRIOVNetworkDevice (set_sn_status st d)) (inr r) ∈ log_of s') /\
    (exists n s1, nic_CurrentVFConfigured (sn_Address (sn_Spec d)) s = (Ok n, s1) /\
      (n = sn_NumVFs (sn_Spec d) \/
       Ev (FsWrite (PathJoin [defaultDevicePath; sn_Address (sn_Spec d); defaultConfiguredVFFile])
             (Itoa (sn_NumVFs (sn_Spec d)))) (inr tt) ∈ log_of s')).
Proof.
  unfold ensureDeviceIsConfigured in Hrun.
  apply bind_Ok_inv in Hrun as (n & s1 & Hn & Hrun). apply on_err_Ok_inv in Hn.
  apply bind_Ok_inv in Hrun as ([] & s2 & Hconf & Hrun).
  apply bind_Ok_inv in Hrun as (vfs & s3 & Hvfs & Hrun). apply on_err_Ok_inv in Hvfs.
  apply bind_Ok_inv in Hrun as (node & s4 & Hnode & Hrun). injection Hnode as <- <-.
  exists vfs. intros st.
  assert (mem s3 = mem s) as Hm.
  { assert (Steps (@same_mem NodeName (Logged W)) (nic_CurrentVFConfigured (sn_Address (sn_Spec d)))) as H1.
    { unfold nic_CurrentVFConfigured, CurrentVFConfigured. steps_tac. }
    assert (Steps (@same_mem NodeName (Logged W)) (nic_GetVFList (sn_Address (sn_Spec d)))) as H3.
    { unfold nic_GetVFList. steps_tac. }
    specialize (H1 s). rewrite Hn in H1. specialize (H3 s2). rewrite Hvfs in H3.
    assert (mem s2 = mem s1) as H2.
    { destruct (n =? _)%Z; simpl in Hconf; [by injection Hconf as <-|].
      unfold ConfigureVF in Hconf. inv_ok. apply eff_Ok_inv in Hconf as [_ ->].
      by apply eff_Ok_inv in Hrun0 as [_ ->]. }
    unfold same_mem in *. simpl in *. congruence. }
  rewrite Hm in Hrun. fold st in Hrun.
  assert (log_of s' = log_of s3 \/ exists ev, log_of s' = log_of s3 ++ [ev]) as Hgrow.
  { unfold store_status in Hrun. case_bool_decide; simpl in Hrun; [injection Hrun as _ <-; by left|].
    apply eff_Ok_log in Hrun as [-> _]. right. eauto. }
  split.
  - unfold store_status in Hrun. case_bool_decide as Hst; simpl in Hrun; [by left|right].
    apply eff_Ok_log in Hrun as [-> _]. apply elem_of_app. right. left.
  - exists n, s1. split; [done|]. destruct (n =? _)%Z eqn:E; simpl in Hconf; [left; by apply Z.eqb_eq|right].
    unfold ConfigureVF in Hconf. apply on_err_Ok_inv, bind_Ok_inv in Hconf as (? & s5 & _ & Hconf).
    apply on_err_Ok_inv, eff_Ok_log in Hconf as [Hl2 _].
    assert (Steps (@emits NodeName W any_event) (nic_GetVFList (sn_Address (sn_Spec d)))) as H3.
    { unfold nic_GetVFList, GetVFList, vf_of_dir. steps_tac. }
    assert (Ev (FsWrite (PathJoin [defaultDevicePath; sn_Address (sn_Spec d); defaultConfiguredVFFile])
             (Itoa (sn_NumVFs (sn_Spec d)))) (inr tt) ∈ log_of s3) as Hin3.
    { eapply log_mono; [exact H3|exact Hvfs|]. rewrite Hl2. apply elem_of_app. right. left. }
    destruct Hgrow as [->|[ev ->]]; [done|]. apply elem_of_app. by left.
Qed.

(** Disabling a card clears its virtual functions' addresses but not the names
    of their objects, so that the index from a virtual function to its card
    ([getSriovDeviceFromVF]) keeps answering for functions that are gone. *)
Theorem disabled_device_keeps_vf_index (d : SRIOVNetworkDevice) s s' (r : SRIOVNetworkDevice)
    (Hecho : forall w o r w', perform (ApiUpdateStatus KSRIOVNetworkDevice o) w = (inr r, w') -> r = o)
    (Hrun : ensureDeviceIsDisabled d s = (Ok r, s')) :
  getSriovDeviceFromVF r = getSriovDeviceFromVF d /\
  (sn_status (sn_Status r) = DeviceDisabled /\ sn_VFAddresses (sn_Status r) = None \/ r = d).
Proof.
  unfold ensureDeviceIsDisabled in Hrun. apply bind_Ok_inv in Hrun as (n & s1 & _ & Hrun).
  apply bind_Ok_inv in Hrun as (st & s2 & Hst & Hrun).
  assert (sn_VFPCIDevices st = sn_VFPCIDevices (sn_Status d) /\
    (sn_status st = DeviceDisabled /\ sn_VFAddresses st = None \/ st = sn_Status d)) as [Hvf Hcases].
  { destruct (n =? 0)%Z; simpl in Hst; [injection Hst as <- _; tauto|].
    apply bind_Ok_inv in Hst as ([] & s3 & _ & Hst). injection Hst as <- _. simpl. tauto. }
  unfold store_status in Hrun. case_bool_decide as Heq; simpl in Hrun.
  - injection Hrun as <- _. split; [done|by right].
  - destruct (eff_log (ApiUpdateStatus KSRIOVNetworkDevice (set_sn_status st d)) s2)
      as (res & w' & E & Heff). pose proof (eq_trans (eq_sym Heff) Hrun) as Hr. clear Hrun.
    destruct res as [e|o]; [done|]. injection Hr as <- _.
    apply Hecho in E as ->. unfold getSriovDeviceFromVF. simpl. rewrite Hvf. split; [done|].
    destruct Hcases as [?| ->]; [by left|done].
Qed.
End Properties.

(** ** Witnesses *)
Definition sr_card : SRIOVNetworkDevice :=
  {| sn_meta := new_meta "node1-ens1f1" {[ NodeKeyName := "node1" ]} ∅;
     sn_Spec := {| sn_Address := "0000:02:00.1"; sn_NodeName := "node1"; sn_NumVFs := 2 |};
     sn_Status := {| sn_VFAddresses := None; sn_VFPCIDevices := Some ["node1-000002100"]; sn_status := "" |} |}.
Definition sr_node : sim :=
  set_nics bonded_nics bonded_links (put KSRIOVNetworkDevice sr_card
    (set_fs {[ "/sys/bus/pci/devices/0000:02:00.1/sriov_numvfs" := "0" +:+ newline;
               "/sys/bus/pci/devices/0000:02:00.1/sriov_totalvfs" := "8" +:+ newline ]}
      {[ "/sys/bus/pci/devices/0000:02:00.1" := "../../devices/0000:02:00.1" ]} ∅ sim_empty)).

Lemma SetupSriovDevices_sync_witness :
  let s := State "node1" (sr_node, []) in
  exists s' listed nics clusterNics links found evs, SetupSriovDevices s = (Ok tt, s') /\
    let cards := physical_cards (clusterNics ++ management_slaves links) nics in
    let generated := capable_cards "node1" cards found in
    length found = length cards /\
    Forall (fun d => containsSRIOVDevice d listed = false -> created_now d evs) generated /\
    Forall (fun d => containsSRIOVDevice d generated = false -> deleted_now d evs) listed.
Proof.
  intros s. assert (fst (SetupSriovDevices s) = Ok tt) as Hok by (vm_compute; reflexivity).
  destruct (SetupSriovDevices s) as [o s'] eqn:E. simpl in Hok. subst o.
  destruct (SetupSriovDevices_sync s s' E) as
    (listed & nics & vlans & clusterNics & links & found & evs & _ & Hlen & _ & _ & _ & Hc & Hd & _).
  exists s', listed, nics, clusterNics, links, found, evs. exact (conj eq_refl (conj Hlen (conj Hc Hd))).
Defined.

(** The bonded card is in use; the other one is capable. *)
Example bonded_cards :
  capable_cards "node1" (physical_cards (management_slaves bonded_links) bonded_nics) [inr tt]
    = [generateSRIOVDev "node1" {| nic_Name := "ens1f1"; nic_IsVirtual := false; nic_PCIAddress := Some "0000:02:00.1" |}
         "0000:02:00.1"].
Proof. reflexivity. Qed.

Lemma ensureDeviceIsConfigured_post_witness :
  let s := State "node1" (sr_node, []) in
  exists r s', ensureDeviceIsConfigured sr_card s = (Ok r, s') /\
  exists vfAddresses,
    let st := {| sn_VFAddresses := Some vfAddresses;
                 sn_VFPCIDevices := Some ((fun vf => PCIDeviceNameForHostname vf (mem s)) <$> vfAddresses);
                 sn_status := DeviceEnabled |} in
    (sn_Status sr_card = st \/
     Ev (ApiUpdateStatus KSRIOVNetworkDevice (set_sn_status st sr_card)) (inr r) ∈ log_of s') /\
    (exists n s1, nic_CurrentVFConfigured (sn_Address (sn_Spec sr_card)) s = (Ok n, s1) /\
      (n = sn_NumVFs (sn_Spec sr_card) \/
       Ev (FsWrite (PathJoin [defaultDevicePath; sn_Address (sn_Spec sr_card); defaultConfiguredVFFile])
             (Itoa (sn_NumVFs (sn_Spec sr_card)))) (inr tt) ∈ log_of s')).
Proof.
  intros s. assert (is_Ok (fst (ensureDeviceIsConfigured sr_card s)) = true) as Hok by (vm_compute; reflexivity).
  destruct (ensureDeviceIsConfigured sr_card s) as [[r|e|m] s'] eqn:E; [|discriminate Hok..].
  exists r, s'. split; [reflexivity|]. exact (ensureDeviceIsConfigured_post sr_card s s' r E).
Defined.

Lemma disabled_device_keeps_vf_index_witness :
  let s := State "node1" (set_fs {[ "/sys/bus/pci/devices/0000:02:00.1/sriov_numvfs" := "2" ]} ∅ ∅ sr_node, []) in
  exists r s', ensureDeviceIsDisabled sr_card s = (Ok r, s') /\
    getSriovDeviceFromVF r = getSriovDeviceFromVF sr_card /\
    (sn_status (sn_Status r) = DeviceDisabled /\ sn_VFAddresses (sn_Status r) = None \/ r = sr_card).
Proof.
  intros s. assert (is_Ok (fst (ensureDeviceIsDisabled sr_card s)) = true) as Hok by (vm_compute; reflexivity).
  destruct (ensureDeviceIsDisabled sr_card s) as [[r|e|m] s'] eqn:E; [|discriminate Hok..].
  exists r, s'. split; [reflexivity|].
  refine (disabled_device_keeps_vf_index sr_card s s' r _ E).
  intros w o r0 w'. unfold perform, sim_world.
  destruct (sim_store w KSRIOVNetworkDevice !! name_of o); intros Heq;
    [injection Heq as <- _; reflexivity|discriminate Heq].
Defined.
