(* ===== verification/UsbIds.v ===== *)
(** * The table of USB identifiers (pkg/util/gousb/usbid)

    The package reads a list of vendors, products and interfaces, and of classes,
    subclasses and protocols, from the text embedded in it, and names devices from
    it.  The parser keeps pointers to the entries that it read last and extends
    them in place, so the entries live in a store and the tables point to them.
    [Pure] is the parser without a store: its current entries are paths of
    identifiers; the two agree ([ParseIDs_refines]). *)

From S2P Require Import Prelude GoStrings GoStringLemmas GoMonad.
From Stdlib Require Import Ascii.

(** What a reader of the tables sees: a vendor with its products, a product with its
    interfaces; a class with its subclasses and their protocols has the same shape. *)
Record Product := { prod_Name : string; prod_Interface : gmap Z string }.
Record Vendor := { vend_Name : string; vend_Product : gmap Z Product }.
#[export] Instance Product_eq_dec : EqDecision Product.
Proof. solve_decision. Defined.
#[export] Instance Vendor_eq_dec : EqDecision Vendor.
Proof. solve_decision. Defined.
Definition SubClass : Type := Product.
Definition USBClass : Type := Vendor.

(** [gousb.ID(x)], 16 bits, and [gousb.Class(x)] and [gousb.Protocol(x)], 8 bits. *)
Definition gousb_ID (x : Z) : Z := (x mod 2 ^ 16)%Z.
Definition gousb_Class (x : Z) : Z := (x mod 2 ^ 8)%Z.

(** ** The store *)

(** An entry of the first level, with pointers to those of the second. *)
Record Top := { top_Name : string; top_Sub : gmap Z nat }.

(** One table: from identifiers to entries, with the two current pointers
    ([p.vendor] and [p.device], or [p.class] and [p.subclass]). *)
Record Table := {
  t_map : gmap Z nat;
  t_top : option nat;
  t_sub : option nat;
  t_tops : list Top;
  t_subs : list Product
}.
Definition new_table : Table := {| t_map := ∅; t_top := None; t_sub := None; t_tops := []; t_subs := [] |}.

Definition add_sub (id : Z) (p : nat) (o : Top) : Top :=
  {| top_Name := top_Name o; top_Sub := <[id := p]> (top_Sub o) |}.
Definition add_leaf (id : Z) (name : string) (o : Product) : Product :=
  {| prod_Name := prod_Name o; prod_Interface := <[id := name]> (prod_Interface o) |}.

Definition new_top (id : Z) (name : string) (t : Table) : Table :=
  let p := length (t_tops t) in
  {| t_map := <[id := p]> (t_map t); t_top := Some p; t_sub := t_sub t;
     t_tops := t_tops t ++ [{| top_Name := name; top_Sub := ∅ |}]; t_subs := t_subs t |}.
Definition new_sub (v : nat) (id : Z) (name : string) (t : Table) : Table :=
  let p := length (t_subs t) in
  {| t_map := t_map t; t_top := Some v; t_sub := Some p;
     t_tops := alter (add_sub id p) v (t_tops t);
     t_subs := t_subs t ++ [{| prod_Name := name; prod_Interface := ∅ |}] |}.
Definition new_leaf (d : nat) (id : Z) (name : string) (t : Table) : Table :=
  {| t_map := t_map t; t_top := t_top t; t_sub := Some d; t_tops := t_tops t;
     t_subs := alter (add_leaf id name) d (t_subs t) |}.

(** The two-level entry of a line.  [conv] and [conv'] narrow the identifiers of the first
    two levels and of the third; [no_top], [no_sub] and [deep] are the errors. *)
Section Entry.
Context (conv conv' : Z -> Z) (no_top no_sub deep : string).

Definition parse_entry (level : nat) (raw : Z) (name : string) (t : Table) : outcome Table :=
  match level with
  | 0 => Ok (new_top (conv raw) name t)
  | 1 => match t_top t with None => Err (Errorf no_top) | Some v => Ok (new_sub v (conv raw) name t) end
  | 2 => match t_sub t with None => Err (Errorf no_sub) | Some d => Ok (new_leaf d (conv' raw) name t) end
  | _ => Err (Errorf deep)
  end.

(** The same without a store.  The current entry of the second level is [Some None]
    when another vendor has taken the place of the one it belongs to: what is added
    to it is then lost. *)
Record Pure := {
  pu_map : gmap Z Vendor;
  pu_top : option Z;
  pu_sub : option (option (Z * Z))
}.
Definition new_pure : Pure := {| pu_map := ∅; pu_top := None; pu_sub := None |}.

Definition put_sub (id : Z) (name : string) (v : Vendor) : Vendor :=
  {| vend_Name := vend_Name v;
     vend_Product := <[id := {| prod_Name := name; prod_Interface := ∅ |}]> (vend_Product v) |}.
Definition put_leaf (d id : Z) (name : string) (v : Vendor) : Vendor :=
  {| vend_Name := vend_Name v; vend_Product := alter (add_leaf id name) d (vend_Product v) |}.

Definition replaced (id : Z) (sub : option (option (Z * Z))) : option (option (Z * Z)) :=
  match sub with
  | Some (Some (v, d)) => if bool_decide (v = id) then Some None else sub
  | _ => sub
  end.

Definition pure_entry (level : nat) (raw : Z) (name : string) (u : Pure) : outcome Pure :=
  match level with
  | 0 => Ok {| pu_map := <[conv raw := {| vend_Name := name; vend_Product := ∅ |}]> (pu_map u);
               pu_top := Some (conv raw); pu_sub := replaced (conv raw) (pu_sub u) |}
  | 1 =>
      match pu_top u with
      | None => Err (Errorf no_top)
      | Some v => Ok {| pu_map := alter (put_sub (conv raw) name) v (pu_map u); pu_top := Some v;
                        pu_sub := Some (Some (v, conv raw)) |}
      end
  | 2 =>
      match pu_sub u with
      | None => Err (Errorf no_sub)
      | Some None => Ok u
      | Some (Some (v, d)) => Ok {| pu_map := alter (put_leaf d (conv' raw) name) v (pu_map u);
                                    pu_top := pu_top u; pu_sub := pu_sub u |}
      end
  | _ => Err (Errorf deep)
  end.
End Entry.

Definition parseVendor (level : nat) (raw : Z) (name : string) (t : Table) : outcome Table :=
  parse_entry gousb_ID gousb_ID "product line without vendor line" "interface line without device line"
    "too many levels of nesting for vendor block" level raw name t.
Definition parseClass (level : nat) (raw : Z) (name : string) (t : Table) : outcome Table :=
  parse_entry gousb_Class gousb_Class "subclass line without class line" "protocol line without subclass line"
    "too many levels of nesting for class" level raw name t.

(** ** Lines *)
Fixpoint strip_tabs (level : nat) (s : string) : nat * string :=
  match s with
  | String c s' => if bool_decide (c = "009"%char) then strip_tabs (S level) s' else (level, s)
  | EmptyString => (level, s)
  end.

Record Line := { l_kind : string; l_level : nat; l_id : Z; l_name : string }.

Definition split (s : string) : outcome Line :=
  match SplitN2 s "  " with
  | [head; name] =>
      let '(level, piece) := strip_tabs 0 head in
      let '(kind, piece) :=
        match SplitN2 piece " " with [k; rest] => (k, rest) | _ => ("", piece) end in
      match ParseUint piece 16 16 with
      | Some id => Ok {| l_kind := kind; l_level := level; l_id := id; l_name := name |}
      | None => Err (Errorf "malformatted id")
      end
  | _ => Err (Errorf "malformatted line")
  end.

(** The parser, generic in the tables and the operations on them. *)
Section Parse.
Context {T : Type} (vendor_entry class_entry : nat -> Z -> string -> T -> outcome T).

(** The kind of the last line that had one, the vendors, and the classes. *)
Definition pstate : Type := string * (T * T).

Definition parse_line (line : string) (st : pstate) : outcome pstate :=
  let '(kind, (vendors, classes)) := st in
  if (line ==s "") || HasPrefix line "#" then Ok st
  else
    l <-o split line ;;
    let kind := if l_kind l !=s "" then l_kind l else kind in
    if kind ==s "" then t <-o vendor_entry (l_level l) (l_id l) (l_name l) vendors ;; Ok (kind, (t, classes))
    else if kind ==s "C" then t <-o class_entry (l_level l) (l_id l) (l_name l) classes ;; Ok (kind, (vendors, t))
    else Ok (kind, (vendors, classes)).

(** [bufio.Reader.ReadLine] with a buffer of 512 bytes, on the pieces between newlines:
    a line that does not fit is an error, a carriage return before a newline is
    dropped, and an empty last piece is the end of the file. *)
Fixpoint parse_lines (pieces : list string) (st : pstate) : outcome pstate :=
  match pieces with
  | [] => Ok st
  | line :: rest =>
      match rest with
      | [] =>
          if line ==s "" then Ok st
          else if 512 <=? String.length line then Err (Errorf "line too long")
          else parse_line line st
      | _ =>
          if 512 <=? String.length line then Err (Errorf "line too long")
          else st' <-o parse_line (drop_cr line) st ;; parse_lines rest st'
      end
  end.
End Parse.

(** What the pointers stand for. *)
Definition view_top (subs : list Product) (o : Top) : Vendor :=
  {| vend_Name := top_Name o; vend_Product := omap (fun p => subs !! p) (top_Sub o) |}.
Definition view (t : Table) : gmap Z Vendor :=
  omap (fun p => view_top (t_subs t) <$> t_tops t !! p) (t_map t).
#[global] Arguments view : simpl never.
#[global] Arguments view_top : simpl never.

Definition ParseIDs (text : string) : outcome (gmap Z Vendor * gmap Z USBClass) :=
  r <-o parse_lines parseVendor parseClass (Split text newline) ("", (new_table, new_table)) ;;
  Ok (view r.2.1, view r.2.2).

(** [init]: the tables stay nil when the text cannot be parsed. *)
Definition load (usbIDListData : string) : gmap Z Vendor * gmap Z USBClass :=
  match ParseIDs usbIDListData with Ok r => r | _ => (∅, ∅) end.

(** ** Descriptions *)
Definition Describe (Vendors : gmap Z Vendor) (vendor product : Z) : string :=
  match Vendors !! vendor with
  | Some v =>
      match vend_Product v !! product with
      | Some d => prod_Name d +:+ " (" +:+ vend_Name v +:+ ")"
      | None => "Unknown (" +:+ vend_Name v +:+ ")"
      end
  | None => "Unknown " +:+ fmt_04x vendor +:+ ":" +:+ fmt_04x product
  end.
Definition DescribeWithVendorAndProduct (Vendors : gmap Z Vendor) (vendor product : Z) : string :=
  Describe Vendors vendor product.

(** [Classify] on the class, subclass and protocol of a device or an interface. *)
Definition Classify (Classes : gmap Z USBClass) (class sub proto : Z) : string :=
  match Classes !! class with
  | Some c =>
      match vend_Product c !! sub with
      | Some s =>
          match prod_Interface s !! proto with
          | Some p => vend_Name c +:+ " (" +:+ prod_Name s +:+ ") " +:+ p
          | None => vend_Name c +:+ " (" +:+ prod_Name s +:+ ")"
          end
      | None => vend_Name c
      end
  | None => "Unknown " +:+ Itoa class +:+ "." +:+ Itoa sub +:+ "." +:+ Itoa proto
  end.

(** ** The store against the paths *)

(** The entry at path [v], [d] is the one at [m]. *)
Definition reach (t : Table) (v d : Z) (m : nat) : Prop :=
  exists n o, t_map t !! v = Some n /\ t_tops t !! n = Some o /\ top_Sub o !! d = Some m.

(** Every pointer points into the store, and every entry has one path at most. *)
Record unshared (t : Table) : Prop := {
  us_range : forall v n, t_map t !! v = Some n -> n < length (t_tops t);
  us_inj : forall v v' n, t_map t !! v = Some n -> t_map t !! v' = Some n -> v = v';
  us_sub_range : forall v d m, reach t v d m -> m < length (t_subs t);
  us_unique : forall v d m v' d', reach t v d m -> reach t v' d' m -> v = v' /\ d = d'
}.

(** The current pointers are those of the current paths. *)
Record represents (t : Table) (u : Pure) : Prop := {
  rp_unshared : unshared t;
  rp_view : view t = pu_map u;
  rp_top : match t_top t, pu_top u with
           | Some n, Some v => t_map t !! v = Some n
           | None, None => True
           | _, _ => False
           end;
  rp_sub : match t_sub t, pu_sub u with
           | Some m, Some (Some (v, d)) => reach t v d m
           | Some m, Some None => m < length (t_subs t) /\ forall v d, ~ reach t v d m
           | None, None => True
           | _, _ => False
           end
}.

Lemma lookup_view t v :
  view t !! v = (n ← t_map t !! v; view_top (t_subs t) <$> t_tops t !! n).
Proof. unfold view. rewrite lookup_omap. by destruct (t_map t !! v). Qed.

Lemma view_top_agree subs subs' o :
  (forall d m, top_Sub o !! d = Some m -> subs' !! m = subs !! m) -> view_top subs' o = view_top subs o.
Proof.
  intros Hag. unfold view_top. f_equal. apply map_eq. intros d. rewrite !lookup_omap.
  destruct (top_Sub o !! d) as [m|] eqn:E; [|done]. simpl. by apply (Hag d).
Qed.

Lemma represents_new : represents new_table new_pure.
Proof.
  assert (forall v d m, ~ reach new_table v d m) as Hno by by intros v d m (n & o & Hn & _).
  split; [split|..]; try done.
  - intros v d m Hr. by apply Hno in Hr.
  - intros v d m v' d' Hr. by apply Hno in Hr.
Qed.

(** A table after the pointers of one entry, or its leaves, changed. *)
Section Steps.
Context (t : Table) (u : Pure) (Hrep : represents t u).
Let Hus : unshared t := rp_unshared t u Hrep.

Lemma top_of v n : t_map t !! v = Some n -> exists o, t_tops t !! n = Some o.
Proof. intros Hn. apply lookup_lt_is_Some. by eapply us_range. Qed.

Lemma reach_new_top id name v d m : reach (new_top id name t) v d m <-> v <> id /\ reach t v d m.
Proof.
  unfold reach, new_top. cbn. split.
  - intros (n & o & Hn & Ho & Hm). destruct (decide (v = id)) as [->|Hv].
    + rewrite lookup_insert_eq in Hn. injection Hn as <-. rewrite lookup_app_r, Nat.sub_diag in Ho by done.
      injection Ho as <-. cbn in Hm. by rewrite lookup_empty in Hm.
    + rewrite lookup_insert_ne in Hn by done. split; [done|].
      rewrite lookup_app_l in Ho by (by eapply (us_range t Hus)). by exists n, o.
  - intros (Hv & n & o & Hn & Ho & Hm). exists n, o. rewrite lookup_insert_ne by done.
    split_and!; [done| |done]. by apply lookup_app_l_Some.
Qed.

Lemma represents_new_top id name :
  represents (new_top id name t) {| pu_map := <[id := {| vend_Name := name; vend_Product := ∅ |}]> (pu_map u);
                   pu_top := Some id; pu_sub := replaced id (pu_sub u) |}.
Proof.
  split.
  - split.
    + intros v n. cbn. rewrite length_app. simpl. destruct (decide (v = id)) as [->|Hv].
      * rewrite lookup_insert_eq. intros [= <-]. lia.
      * rewrite lookup_insert_ne by done. intros Hn%(us_range t Hus). lia.
    + intros v v' n. cbn. rewrite !lookup_insert. intros Hv Hv'.
      destruct (decide (id = v)), (decide (id = v')); simplify_eq; try done.
      * apply (us_range t Hus) in Hv'. lia.
      * apply (us_range t Hus) in Hv. lia.
      * by eapply us_inj.
    + intros v d m Hr%reach_new_top. exact (us_sub_range t Hus _ _ _ (proj2 Hr)).
    + intros v d m v' d' Hr%reach_new_top Hr'%reach_new_top. exact (us_unique t Hus _ _ _ _ _ (proj2 Hr) (proj2 Hr')).
  - cbn. rewrite <- (rp_view t u Hrep). apply map_eq. intros v. rewrite lookup_view. cbn.
    destruct (decide (v = id)) as [->|Hv].
    + rewrite !lookup_insert_eq. cbn. rewrite lookup_app_r, Nat.sub_diag by done. cbn.
      unfold view_top. cbn. by rewrite omap_empty.
    + rewrite !lookup_insert_ne, lookup_view by done. destruct (t_map t !! v) as [n|] eqn:E; [|done]. cbn.
      rewrite lookup_app_l by (by eapply (us_range t Hus)). done.
  - cbn. apply lookup_insert_eq.
  - cbn. pose proof (rp_sub t u Hrep) as Hs. destruct (t_sub t) as [m|], (pu_sub u) as [[[v d]|]|]; cbn; try done.
    + case_bool_decide as Hv; [|by apply reach_new_top].
      split; [by eapply us_sub_range|]. intros v' d' [Hne Hr]%reach_new_top.
      destruct (us_unique t Hus _ _ _ _ _ Hs Hr) as [-> _]. done.
    + destruct Hs as [Hm Hno]. split; [done|]. intros v d [_ Hr]%reach_new_top. by apply (Hno v d).
Qed.

(** [n] is the current entry, of the path [c]. *)
Lemma alter_top n id p k :
  alter (add_sub id p) n (t_tops t) !! k = (if decide (n = k) then add_sub id p else fun o => o) <$> t_tops t !! k.
Proof.
  destruct (decide (n = k)) as [->|Hn]; [apply list_lookup_alter_eq|].
  rewrite list_lookup_alter_ne by done. by destruct (t_tops t !! k).
Qed.

Lemma reach_new_sub c n id name v d m :
  t_map t !! c = Some n ->
  reach (new_sub n id name t) v d m <->
    (v = c /\ d = id /\ m = length (t_subs t)) \/ (~ (v = c /\ d = id) /\ reach t v d m).
Proof.
  intros Hc. unfold reach, new_sub. cbn. split.
  - intros (k & o & Hk & Ho & Hm). rewrite alter_top in Ho. apply fmap_Some in Ho as (o' & Ho' & ->).
    destruct (decide (n = k)) as [->|Hn].
    + assert (v = c) as -> by by eapply us_inj. cbn in Hm. apply lookup_insert_Some in Hm as [[<- <-]|[Hd Hm]].
      * by left.
      * right. split; [intros [_ Hx]; by apply Hd|]. by exists k, o'.
    + right. split; [|by exists k, o']. intros [-> _]. congruence.
  - intros [(-> & -> & ->)|(Hne & k & o & Hk & Ho & Hm)].
    + destruct (top_of c n Hc) as [o Ho]. exists n, (add_sub id (length (t_subs t)) o). split; [done|].
      rewrite alter_top, decide_True, Ho by done. split; [done|]. cbn. apply lookup_insert_eq.
    + exists k. rewrite alter_top, Ho. destruct (decide (n = k)) as [->|Hn]; cbn; eexists; (split_and!; [done..|]); [|done].
      cbn. rewrite lookup_insert_ne; [done|]. intros <-. apply Hne. split; [by eapply us_inj|done].
Qed.

Lemma view_top_new_sub v k o name :
  t_map t !! v = Some k -> t_tops t !! k = Some o ->
  view_top (t_subs t ++ [{| prod_Name := name; prod_Interface := ∅ |}]) o = view_top (t_subs t) o.
Proof.
  intros Hv Ho. apply view_top_agree. intros d m Hd. apply lookup_app_l, (us_sub_range t Hus v d m).
  by exists k, o.
Qed.

Lemma view_new_sub c n id name :
  t_map t !! c = Some n -> view (new_sub n id name t) = alter (put_sub id name) c (view t).
Proof.
  intros Hc. apply map_eq. intros v. destruct (decide (c = v)) as [<-|Hcv].
  - destruct (top_of c n Hc) as [o Ho]. rewrite lookup_alter_eq, !lookup_view. cbn. rewrite Hc. cbn.
    rewrite alter_top, decide_True, Ho by done. cbn. f_equal. rewrite <- (view_top_new_sub c n o name Hc Ho).
    unfold view_top, put_sub. cbn. f_equal. apply map_eq. intros d.
    rewrite lookup_omap, !lookup_insert, lookup_omap. destruct (decide (id = d)); [|done]. cbn.
    by rewrite lookup_app_r, Nat.sub_diag.
  - rewrite lookup_alter_ne, !lookup_view by done. cbn. destruct (t_map t !! v) as [k|] eqn:Hv; [|done]. cbn.
    destruct (top_of v k Hv) as [o Ho]. rewrite alter_top, decide_False, Ho by (intros ->; by eapply Hcv, us_inj).
    cbn. f_equal. by apply (view_top_new_sub v k o name).
Qed.

Lemma represents_new_sub c n id name :
  t_top t = Some n -> pu_top u = Some c ->
  represents (new_sub n id name t)
    {| pu_map := alter (put_sub id name) c (pu_map u); pu_top := Some c; pu_sub := Some (Some (c, id)) |}.
Proof.
  intros Ht Hu. pose proof (rp_top t u Hrep) as Hc. rewrite Ht, Hu in Hc.
  assert (forall v d m, reach t v d m -> m < length (t_subs t)) as Hrange by apply us_sub_range, Hus.
  split.
  - split.
    + intros v k Hv%(us_range t Hus). cbn. by rewrite length_alter.
    + apply (us_inj t Hus).
    + intros v d m [(_ & _ & ->)|[_ Hr%Hrange]]%(reach_new_sub c _ _ _ _ _ _ Hc); cbn; rewrite length_app; simpl; lia.
    + intros v d m v' d' Hr Hr'. apply (reach_new_sub c _ _ _ _ _ _ Hc) in Hr, Hr'.
      destruct Hr as [(-> & -> & ->)|[_ Hr]], Hr' as [(-> & -> & Heq)|[_ Hr']]; [done|..].
      * apply Hrange in Hr'. lia.
      * apply Hrange in Hr. lia.
      * exact (us_unique t Hus _ _ _ _ _ Hr Hr').
  - cbn. rewrite <- (rp_view t u Hrep). by apply view_new_sub.
  - exact Hc.
  - cbn. apply (reach_new_sub c n id name c id _ Hc). by left.
Qed.

(** A leaf is added to the entry that [m] points to, and to no other. *)
Lemma leaf_elsewhere m id name v k o :
  t_map t !! v = Some k -> t_tops t !! k = Some o -> (forall d, ~ reach t v d m) ->
  view_top (alter (add_leaf id name) m (t_subs t)) o = view_top (t_subs t) o.
Proof.
  intros Hv Ho Hno. apply view_top_agree. intros d p Hd. apply list_lookup_alter_ne. intros <-.
  apply (Hno d). by exists k, o.
Qed.

Lemma leaf_here m id name c d k o :
  t_map t !! c = Some k -> t_tops t !! k = Some o -> reach t c d m ->
  view_top (alter (add_leaf id name) m (t_subs t)) o = put_leaf d id name (view_top (t_subs t) o).
Proof.
  intros Hc Ho Hr. unfold view_top, put_leaf. cbn. f_equal. apply map_eq. intros d'.
  assert (top_Sub o !! d = Some m) as Hm by (destruct Hr as (k' & o' & Hk' & Ho' & Hm'); congruence).
  destruct (decide (d = d')) as [<-|Hd].
  - rewrite lookup_alter_eq, !lookup_omap, Hm. apply list_lookup_alter_eq.
  - rewrite lookup_alter_ne, !lookup_omap by done. destruct (top_Sub o !! d') as [p|] eqn:Hp; [|done]. cbn.
    apply list_lookup_alter_ne. intros <-. apply Hd.
    by eapply (us_unique t Hus c d m c d'); [|exists k, o].
Qed.

Lemma view_leaf_attached m c d id name :
  reach t c d m -> view (new_leaf m id name t) = alter (put_leaf d id name) c (view t).
Proof.
  intros Hr. apply map_eq. intros v. destruct (decide (c = v)) as [<-|Hcv].
  - pose proof Hr as (k & o & Hk & Ho & _). rewrite lookup_alter_eq, !lookup_view. cbn. rewrite Hk. cbn.
    rewrite Ho. cbn. f_equal. by eapply leaf_here.
  - rewrite lookup_alter_ne, !lookup_view by done. cbn. destruct (t_map t !! v) as [k|] eqn:Hv; [|done]. cbn.
    destruct (top_of v k Hv) as [o Ho]. rewrite Ho. cbn. f_equal. eapply leaf_elsewhere; [done..|].
    intros d' Hr'. apply Hcv. by destruct (us_unique t Hus _ _ _ _ _ Hr Hr').
Qed.

Lemma view_leaf_detached m id name :
  (forall v d, ~ reach t v d m) -> view (new_leaf m id name t) = view t.
Proof.
  intros Hno. apply map_eq. intros v. rewrite !lookup_view. cbn. destruct (t_map t !! v) as [k|] eqn:Hv; [|done]. cbn.
  destruct (top_of v k Hv) as [o Ho]. rewrite Ho. cbn. f_equal. by eapply leaf_elsewhere.
Qed.

Lemma unshared_new_leaf m id name : unshared (new_leaf m id name t).
Proof.
  split; [apply (us_range t Hus)|apply (us_inj t Hus)| |apply (us_unique t Hus)].
  intros v d p Hr%(us_sub_range t Hus). cbn. by rewrite length_alter.
Qed.

Lemma represents_new_leaf m sub id name :
  t_sub t = Some m -> pu_sub u = Some sub ->
  represents (new_leaf m id name t)
    (match sub with
     | None => u
     | Some (v, d) => {| pu_map := alter (put_leaf d id name) v (pu_map u); pu_top := pu_top u; pu_sub := pu_sub u |}
     end).
Proof.
  intros Ht Hu. pose proof (rp_sub t u Hrep) as Hs. rewrite Ht, Hu in Hs. destruct sub as [[c d]|].
  - split; [apply unshared_new_leaf| |apply (rp_top t u Hrep)|cbn; rewrite Hu; exact Hs].
    cbn. rewrite <- (rp_view t u Hrep). by apply view_leaf_attached.
  - split; [apply unshared_new_leaf| |apply (rp_top t u Hrep)|by cbn; rewrite Hu, length_alter].
    rewrite <- (rp_view t u Hrep). by apply view_leaf_detached, Hs.
Qed.
End Steps.

(** *** Lines and texts *)

(** The two answers agree: the same error, or related results. *)
Definition matched {A B} (R : A -> B -> Prop) (a : outcome A) (b : outcome B) : Prop :=
  match a, b with
  | Ok x, Ok y => R x y
  | Err e, Err e' => e = e'
  | Panic m, Panic m' => m = m'
  | _, _ => False
  end.

Lemma matched_obind {A B A' B'} (R : A -> B -> Prop) (R' : A' -> B' -> Prop) a b f g :
  matched R a b -> (forall x y, R x y -> matched R' (f x) (g y)) -> matched R' (obind a f) (obind b g).
Proof. intros Hab Hfg. destruct a, b; simpl in *; try done. by apply Hfg. Qed.

Lemma entry_refines conv conv' no_top no_sub deep level raw name t u :
  represents t u ->
  matched represents (parse_entry conv conv' no_top no_sub deep level raw name t)
                     (pure_entry conv conv' no_top no_sub deep level raw name u).
Proof.
  intros Hrep. pose proof (rp_top t u Hrep) as Ht. pose proof (rp_sub t u Hrep) as Hs.
  destruct level as [|[|[|level]]]; cbn [parse_entry pure_entry].
  - by apply represents_new_top.
  - destruct (t_top t) as [n|] eqn:Et, (pu_top u) as [c|] eqn:Eu; try done. by apply represents_new_sub.
  - destruct (t_sub t) as [m|] eqn:Et, (pu_sub u) as [sub|] eqn:Eu; [| |by destruct Hs|done].
    + pose proof (represents_new_leaf t u Hrep m sub (conv' raw) name Et Eu) as Hleaf.
      rewrite Eu in Hleaf. by destruct sub as [[c d]|].
    + done.
  - done.
Qed.

Definition pure_vendor : nat -> Z -> string -> Pure -> outcome Pure :=
  pure_entry gousb_ID gousb_ID "product line without vendor line" "interface line without device line"
    "too many levels of nesting for vendor block".
Definition pure_class : nat -> Z -> string -> Pure -> outcome Pure :=
  pure_entry gousb_Class gousb_Class "subclass line without class line" "protocol line without subclass line"
    "too many levels of nesting for class".

Definition pure_ParseIDs (text : string) : outcome (gmap Z Vendor * gmap Z USBClass) :=
  r <-o parse_lines pure_vendor pure_class (Split text newline) ("", (new_pure, new_pure)) ;;
  Ok (pu_map r.2.1, pu_map r.2.2).

Section Refinement.
Context {T T' : Type} (R : T -> T' -> Prop) (v c : nat -> Z -> string -> T -> outcome T)
  (v' c' : nat -> Z -> string -> T' -> outcome T').
Context (Hv : forall level raw name t u, R t u -> matched R (v level raw name t) (v' level raw name u)).
Context (Hc : forall level raw name t u, R t u -> matched R (c level raw name t) (c' level raw name u)).

Definition related (a : pstate (T := T)) (b : pstate (T := T')) : Prop :=
  a.1 = b.1 /\ R a.2.1 b.2.1 /\ R a.2.2 b.2.2.

Lemma related_intro k t u t' u' : R t u -> R t' u' -> related (k, (t, t')) (k, (u, u')).
Proof. intros Htu Htu'. unfold related. cbn. auto. Qed.

Lemma line_refines line a b : related a b -> matched related (parse_line v c line a) (parse_line v' c' line b).
Proof.
  destruct a as [kind [tv tc]], b as [kind' [uv uc]]. intros (Hk & HRv & HRc). cbn in Hk, HRv, HRc. subst kind'.
  unfold parse_line. destruct (_ || _); [by apply related_intro|].
  destruct (split line) as [l|e|m]; cbn [obind]; [|done..].
  generalize (if l_kind l !=s "" then l_kind l else kind) as k. intros k. destruct (k ==s ""); [|destruct (k ==s "C"); [|by apply related_intro]].
  - eapply matched_obind; [by apply Hv|]. intros t u Htu. by apply related_intro.
  - eapply matched_obind; [by apply Hc|]. intros t u Htu. by apply related_intro.
Qed.

Lemma lines_refine pieces a b : related a b -> matched related (parse_lines v c pieces a) (parse_lines v' c' pieces b).
Proof.
  revert a b. induction pieces as [|line pieces IH]; intros a b Hab; [done|]. cbn [parse_lines].
  destruct pieces as [|line' pieces].
  - destruct (line ==s ""); [done|]. destruct (512 <=? _); [done|]. by apply line_refines.
  - destruct (512 <=? _); [done|]. eapply matched_obind; [by apply line_refines|]. intros x y. apply IH.
Qed.
End Refinement.

Lemma parse_pure text : ParseIDs text = pure_ParseIDs text.
Proof.
  unfold ParseIDs, pure_ParseIDs.
  pose proof (lines_refine represents parseVendor parseClass pure_vendor pure_class
    (entry_refines _ _ _ _ _) (entry_refines _ _ _ _ _) (Split text newline) ("", (new_table, new_table))
    ("", (new_pure, new_pure)) (conj eq_refl (conj represents_new represents_new))) as Hm.
  destruct (parse_lines parseVendor _ _ _) as [[k [tv tc]]|e|m], (parse_lines pure_vendor _ _ _) as [[k' [uv uc]]|e'|m'];
    simpl in Hm |- *; try done.
  - destruct Hm as (_ & Hv & Hc). cbn in Hv, Hc. by rewrite (rp_view _ _ Hv), (rp_view _ _ Hc).
  - by rewrite Hm.
  - by rewrite Hm.
Qed.

(** C14: the parser of the embedded list, which extends its entries through pointers to
    those it read last, computes what the parser on paths does, on every text, its
    errors included.  In particular a line never changes an entry at another path
    than its own; and the interface lines that follow a vendor line belong to the
    product before it, of another vendor, or are lost when that vendor was replaced. *)
Theorem ParseIDs_refines (text : string) : ParseIDs text = pure_ParseIDs text.
Proof. apply parse_pure. Qed.

(** ** A printed list is read back *)

(** A vendor with its products and their interfaces, or a class with its subclasses and
    their protocols: identifiers in hexadecimal, and names. *)
Definition leaf : Type := string * string.
Record branch := { br_hex : string; br_name : string; br_leaves : list leaf }.
Record block := { bl_notes : list string; bl_hex : string; bl_name : string; bl_branches : list branch }.

Definition hex_id (hex : string) : Z := default 0%Z (ParseUint hex 16 16).

(** The tables that a list of blocks describes: a later entry with the same identifier
    takes the place of an earlier one. *)
Section Described.
Context (conv conv' : Z -> Z).
Definition leaves_of (ls : list leaf) : gmap Z string :=
  foldl (fun m l => <[conv' (hex_id l.1) := l.2]> m) ∅ ls.
Definition product_of (b : branch) : Product :=
  {| prod_Name := br_name b; prod_Interface := leaves_of (br_leaves b) |}.
Definition products_of (bs : list branch) : gmap Z Product :=
  foldl (fun m b => <[conv (hex_id (br_hex b)) := product_of b]> m) ∅ bs.
Definition vendor_of (b : block) : Vendor :=
  {| vend_Name := bl_name b; vend_Product := products_of (bl_branches b) |}.
Definition table_of (bs : list block) : gmap Z Vendor :=
  foldl (fun m b => <[conv (hex_id (bl_hex b)) := vendor_of b]> m) ∅ bs.
End Described.

(** The lines. *)
Record entry := { e_level : nat; e_hex : string; e_name : string }.
Definition tab : string := str1 "009".
Fixpoint tabs (n : nat) : string := match n with O => "" | S k => tab +:+ tabs k end.
(** The letters of the kind and a blank, before an entry of the first level. *)
Definition kind_prefix (kind : string) (level : nat) : string :=
  if (kind ==s "") || negb (level =? 0) then "" else kind +:+ " ".
Definition entry_line (kind : string) (e : entry) : string :=
  tabs (e_level e) +:+ kind_prefix kind (e_level e) +:+ e_hex e +:+ "  " +:+ e_name e.

Definition branch_entries (b : branch) : list entry :=
  {| e_level := 1; e_hex := br_hex b; e_name := br_name b |}
  :: ((fun l : leaf => {| e_level := 2; e_hex := l.1; e_name := l.2 |}) <$> br_leaves b).
Definition block_entries (b : block) : list entry :=
  {| e_level := 0; e_hex := bl_hex b; e_name := bl_name b |} :: concat (branch_entries <$> bl_branches b).
Definition block_lines (kind : string) (b : block) : list string :=
  bl_notes b ++ (entry_line kind <$> block_entries b).

(** What must hold of a block for its text to stand for it. *)
Definition wf_note (s : string) : bool := (s ==s "") || HasPrefix s "#".
Definition wf_hex (s : string) : bool := bool_decide (is_Some (ParseUint s 16 16)).
Definition wf_line (s : string) : bool :=
  negb (str_mem "010"%char s) && bool_decide (drop_cr s = s) && (String.length s <? 512).
Definition wf_block (kind : string) (b : block) : bool :=
  forallb wf_note (bl_notes b) && forallb (fun e => wf_hex (e_hex e)) (block_entries b) &&
  forallb wf_line (block_lines kind b).

(** *** One line *)
Lemma parse_digits_alnum base acc s z : parse_digits base acc s = Some z -> str_forallb is_alnum s = true.
Proof.
  revert acc. induction s as [|c s IH]; intros acc; [done|]. simpl. unfold digit_val, is_alnum.
  destruct (is_digit c), (is_lower c), (is_upper c); simpl; try done; (destruct (_ <? _)%Z; [|done]); apply IH.
Qed.

Lemma wf_hex_spec s : wf_hex s = true -> s <> "" /\ str_forallb is_alnum s = true /\ ParseUint s 16 16 = Some (hex_id s).
Proof.
  unfold wf_hex, hex_id. rewrite bool_decide_eq_true. intros [z Hz]. rewrite Hz. unfold ParseUint, parse_mag in Hz.
  split; [by intros ->|]. split; [|done]. destruct s as [|c s]; [done|].
  destruct (parse_digits 16 0 (String c s)) eqn:E; [|done]. by eapply parse_digits_alnum.
Qed.

Lemma strip_tabs_tabs n k s :
  strip_tabs k (tabs n +:+ s) = strip_tabs (n + k) s.
Proof.
  revert k. induction n as [|n IH]; intros k; [done|]. cbn [tabs]. unfold tab.
  rewrite app_assoc_str, str1_app. cbn [strip_tabs]. rewrite bool_decide_eq_true_2 by done.
  rewrite IH. f_equal. lia.
Qed.

Lemma Cut_blanks s t : str_mem " "%char s = false -> Cut (s +:+ "  " +:+ t) "  " = Some (s, t).
Proof.
  induction s as [|c s IH]; intros Hs.
  - rewrite app_empty_l. change ("  " +:+ t) with (String " " (String " " t)). simpl.
    unfold HasPrefix. simpl. by destruct t.
  - simpl in Hs. apply orb_false_iff in Hs as [Hc Hs]. apply bool_decide_eq_false in Hc.
    rewrite app_cons. cbn [Cut]. unfold HasPrefix. cbn [String.prefix].
    destruct (ascii_dec " " c) as [<-|_]; [done|]. by rewrite (IH Hs).
Qed.

Lemma Cut_blank_blanks a b t :
  str_mem " "%char a = false -> str_mem " "%char b = false -> b <> "" ->
  Cut (a +:+ " " +:+ b +:+ "  " +:+ t) "  " = Some (a +:+ " " +:+ b, t).
Proof.
  intros Ha Hb Hne. induction a as [|c a IH].
  - rewrite !app_empty_l. change (" " +:+ ?x) with (String " " x). cbn [Cut].
    destruct b as [|d b]; [done|]. pose proof (Cut_blanks (String d b) t Hb) as Hcut.
    rewrite app_cons in Hcut |- *. unfold HasPrefix. cbn [String.prefix].
    destruct (ascii_dec " " " ") as [_|]; [|done]. simpl in Hb. apply orb_false_iff in Hb as [Hd _].
    apply bool_decide_eq_false in Hd. destruct (ascii_dec " " d) as [<-|_]; [done|]. by rewrite Hcut.
  - simpl in Ha. apply orb_false_iff in Ha as [Hc Ha]. apply bool_decide_eq_false in Hc.
    rewrite !(app_cons c a). cbn [Cut]. unfold HasPrefix. cbn [String.prefix].
    destruct (ascii_dec " " c) as [<-|_]; [done|]. by rewrite (IH Ha).
Qed.

Lemma SplitN2_char_none c s : str_mem c s = false -> SplitN2 s (str1 c) = [s].
Proof.
  intros Hs. unfold SplitN2. assert (Cut s (str1 c) = None) as ->; [|done].
  induction s as [|d s IH]; [done|]. simpl in Hs. apply orb_false_iff in Hs as [Hd Hs].
  apply bool_decide_eq_false in Hd. cbn [Cut]. rewrite HasPrefix_str1, bool_decide_eq_false_2 by congruence.
  by rewrite (IH Hs).
Qed.

Lemma tabs_no_blank n : str_mem " "%char (tabs n) = false.
Proof. induction n as [|n IH]; [done|]. cbn [tabs]. by rewrite str_mem_app, IH. Qed.

Lemma alnum_no_blank s : str_forallb is_alnum s = true -> str_mem " "%char s = false.
Proof. intros Hs. by apply (str_mem_forallb _ is_alnum). Qed.

Lemma strip_tabs_alnum k s : s <> "" -> str_forallb is_alnum s = true -> strip_tabs k s = (k, s).
Proof.
  intros Hne Hs. destruct s as [|c s]; [done|]. simpl in Hs. apply andb_true_iff in Hs as [Hc _].
  simpl. rewrite bool_decide_eq_false_2; [done|]. by intros ->.
Qed.

Definition line_kind (kind : string) (level : nat) : string := if level =? 0 then kind else "".

(** A line is split into what it was made of. *)
Lemma split_entry kind e :
  str_forallb is_alnum kind = true -> wf_hex (e_hex e) = true ->
  split (entry_line kind e) =
    Ok {| l_kind := line_kind kind (e_level e); l_level := e_level e; l_id := hex_id (e_hex e); l_name := e_name e |}.
Proof.
  intros Hk (Hne & Hhex & Hparse)%wf_hex_spec. unfold split, entry_line, kind_prefix, line_kind.
  pose proof (alnum_no_blank _ Hhex) as Hnb. pose proof (tabs_no_blank (e_level e)) as Ht.
  destruct (_ || _) eqn:Hplain.
  - rewrite app_empty_l. rewrite <- app_assoc_str. unfold SplitN2 at 1. rewrite Cut_blanks
      by by rewrite str_mem_app, Ht, Hnb.
    rewrite strip_tabs_tabs, Nat.add_0_r, strip_tabs_alnum by done.
    change " " with (str1 " "%char). rewrite SplitN2_char_none, Hparse by done. repeat f_equal.
    case_bool_decide as Hkind; [by rewrite Hkind; destruct (_ =? _)|]. simpl in Hplain. by destruct (_ =? _).
  - apply orb_false_iff in Hplain as [Hkind Hlevel]. apply negb_false_iff, Nat.eqb_eq in Hlevel. rewrite Hlevel in *.
    cbn [tabs]. rewrite app_empty_l, app_assoc_str. unfold SplitN2 at 1.
    rewrite Cut_blank_blanks by (done || by apply alnum_no_blank).
    assert (strip_tabs 0 (kind +:+ " " +:+ e_hex e) = (0, kind +:+ " " +:+ e_hex e)) as ->.
    { destruct kind as [|c k]; [done|]. simpl in Hk. apply andb_true_iff in Hk as [Hc _]. rewrite app_cons. simpl.
      rewrite bool_decide_eq_false_2; [done|]. by intros ->. }
    assert (SplitN2 (kind +:+ " " +:+ e_hex e) " " = [kind; e_hex e]) as ->
      by (apply (SplitN2_char_app " "%char); by apply alnum_no_blank).
    by rewrite Hparse.
Qed.

(** *** Entries *)
Fixpoint run_entries {T} (f : nat -> Z -> string -> T -> outcome T) (es : list entry) (t : T) : outcome T :=
  match es with
  | [] => Ok t
  | e :: es' => t' <-o f (e_level e) (hex_id (e_hex e)) (e_name e) t ;; run_entries f es' t'
  end.

Lemma run_entries_app {T} (f : nat -> Z -> string -> T -> outcome T) es1 es2 t :
  run_entries f (es1 ++ es2) t = (t' <-o run_entries f es1 t ;; run_entries f es2 t').
Proof.
  revert t. induction es1 as [|e es1 IH]; intros t; [done|]. simpl.
  destruct (f _ _ _ _) as [t'|err|m]; simpl; [apply IH|done..].
Qed.

Section Blocks.
Context (conv conv' : Z -> Z) (no_top no_sub deep : string).
#[local] Abbreviation entry_of := (pure_entry conv conv' no_top no_sub deep).

(** A vendor with one more product. *)
Definition with_product (d : Z) (p : Product) (V : Vendor) : Vendor :=
  {| vend_Name := vend_Name V; vend_Product := <[d := p]> (vend_Product V) |}.

Lemma run_leaves ls m top v d V p :
  run_entries entry_of ((fun l : leaf => {| e_level := 2; e_hex := l.1; e_name := l.2 |}) <$> ls)
    {| pu_map := <[v := with_product d p V]> m; pu_top := top; pu_sub := Some (Some (v, d)) |}
  = Ok {| pu_map := <[v := with_product d {| prod_Name := prod_Name p;
            prod_Interface := foldl (fun m l => <[conv' (hex_id l.1) := l.2]> m) (prod_Interface p) ls |} V]> m;
          pu_top := top; pu_sub := Some (Some (v, d)) |}.
Proof.
  revert p. induction ls as [|l ls IH]; intros p; [by destruct p|]. cbn [fmap list_fmap run_entries].
  cbn [pure_entry e_level e_hex e_name pu_sub pu_map pu_top obind].
  rewrite alter_insert_eq.
  assert (forall id n, put_leaf d id n (with_product d p V) = with_product d (add_leaf id n p) V) as ->
    by (intros id n; unfold put_leaf, with_product; cbn; by rewrite alter_insert_eq).
  apply (IH (add_leaf (conv' (hex_id l.1)) l.2 p)).
Qed.

Lemma run_branch b m v V sub :
  exists sub', run_entries entry_of (branch_entries b) {| pu_map := <[v := V]> m; pu_top := Some v; pu_sub := sub |}
    = Ok {| pu_map := <[v := with_product (conv (hex_id (br_hex b))) (product_of conv' b) V]> m;
            pu_top := Some v; pu_sub := sub' |}.
Proof.
  unfold branch_entries. cbn [run_entries pure_entry e_level e_hex e_name pu_top pu_map obind].
  rewrite alter_insert_eq. eexists. apply (run_leaves _ m _ _ _ V {| prod_Name := br_name b; prod_Interface := ∅ |}).
Qed.

Lemma run_branches bs m v V sub :
  exists sub', run_entries entry_of (concat (branch_entries <$> bs)) {| pu_map := <[v := V]> m; pu_top := Some v; pu_sub := sub |}
    = Ok {| pu_map := <[v := {| vend_Name := vend_Name V;
              vend_Product := foldl (fun m b => <[conv (hex_id (br_hex b)) := product_of conv' b]> m) (vend_Product V) bs |}]> m;
            pu_top := Some v; pu_sub := sub' |}.
Proof.
  revert V sub. induction bs as [|b bs IH]; intros V sub; [exists sub; by destruct V|].
  rewrite fmap_cons. cbn [concat]. rewrite run_entries_app. destruct (run_branch b m v V sub) as [sub1 ->]. cbn [obind].
  destruct (IH (with_product (conv (hex_id (br_hex b))) (product_of conv' b) V) sub1) as [sub2 ->]. by exists sub2.
Qed.

Lemma run_block b u :
  exists top sub, run_entries entry_of (block_entries b) u
    = Ok {| pu_map := <[conv (hex_id (bl_hex b)) := vendor_of conv conv' b]> (pu_map u); pu_top := top; pu_sub := sub |}.
Proof.
  unfold block_entries. cbn [run_entries pure_entry e_level e_hex e_name obind].
  destruct (run_branches (bl_branches b) (pu_map u) (conv (hex_id (bl_hex b))) {| vend_Name := bl_name b; vend_Product := ∅ |}
    (replaced (conv (hex_id (bl_hex b))) (pu_sub u))) as [sub ->]. by eexists _, sub.
Qed.
End Blocks.

(** *** Texts *)
Fixpoint run_lines {T} (v c : nat -> Z -> string -> T -> outcome T) (ls : list string) (st : pstate (T := T)) :=
  match ls with
  | [] => Ok st
  | l :: ls' => st' <-o parse_line v c l st ;; run_lines v c ls' st'
  end.

Section Texts.
Context {T : Type} (v c : nat -> Z -> string -> T -> outcome T).

Lemma run_lines_app ls1 ls2 st :
  run_lines v c (ls1 ++ ls2) st = (st' <-o run_lines v c ls1 st ;; run_lines v c ls2 st').
Proof.
  revert st. induction ls1 as [|l ls1 IH]; intros st; [done|]. simpl.
  destruct (parse_line v c l st) as [st'|err|m]; simpl; [apply IH|done..].
Qed.

Lemma parse_lines_text ls st :
  forallb wf_line ls = true -> parse_lines v c (Split (lines_text ls) newline) st = run_lines v c ls st.
Proof.
  intros Hls. rewrite Split_lines_text.
  - revert st. induction ls as [|l ls IH]; intros st; [done|]. simpl in Hls. apply andb_true_iff in Hls as [Hl Hls].
    unfold wf_line in Hl. rewrite !andb_true_iff in Hl. destruct Hl as [[_ Hcr%bool_decide_eq_true] Hlen].
    cbn [app parse_lines run_lines]. destruct (ls ++ [""]) eqn:E; [by destruct ls|].
    assert ((512 <=? String.length l) = false) as -> by (apply Nat.leb_gt; by apply Nat.ltb_lt).
    rewrite Hcr. destruct (parse_line v c l st) as [st'|err|m]; simpl; [by apply IH|done..].
  - apply Forall_forall. intros l Hl. rewrite forallb_forall in Hls.
    specialize (Hls l ltac:(by apply list_elem_of_In)). unfold wf_line in Hls.
    rewrite !andb_true_iff, negb_true_iff in Hls. tauto.
Qed.

Lemma entry_line_plain kind e :
  str_forallb is_alnum kind = true -> wf_hex (e_hex e) = true ->
  (entry_line kind e ==s "") || HasPrefix (entry_line kind e) "#" = false.
Proof.
  intros Hk (Hne & Hhex & _)%wf_hex_spec. unfold entry_line.
  assert (forall s t, s <> "" -> str_forallb is_alnum s = true ->
    (s +:+ t ==s "") || HasPrefix (s +:+ t) "#" = false) as Halnum.
  { intros s t Hs Hall. destruct s as [|d s]; [done|]. simpl in Hall. apply andb_true_iff in Hall as [Hd _].
    change "#" with (str1 "#"%char). rewrite app_cons, HasPrefix_str1, !bool_decide_eq_false_2; [done| |done]. by intros <-. }
  destruct (e_level e) as [|n].
  - cbn [tabs]. rewrite app_empty_l. unfold kind_prefix. destruct ((kind ==s "") || negb (0 =? 0)) eqn:E.
    + rewrite app_empty_l. by apply Halnum.
    + rewrite app_assoc_str. apply Halnum; [|done]. intros ->. discriminate E.
  - cbn [tabs]. unfold tab. rewrite app_assoc_str, str1_app. done.
Qed.

(** The lines of entries without a kind go to the first table, those of the kind C to the
    second; a line without a kind has that of the line before it. *)
Lemma run_vendor_lines es tv tc :
  forallb (fun e => wf_hex (e_hex e)) es = true ->
  run_lines v c (entry_line "" <$> es) ("", (tv, tc)) = (t <-o run_entries v es tv ;; Ok ("", (t, tc))).
Proof.
  revert tv. induction es as [|e es IH]; intros tv; [done|]. cbn [forallb]. rewrite andb_true_iff. intros [He Hes].
  cbn [fmap list_fmap run_lines run_entries]. unfold parse_line.
  rewrite entry_line_plain, (split_entry "") by done. unfold line_kind. cbn [obind l_kind l_level l_id l_name].
  assert ((if e_level e =? 0 then "" else "") = "") as -> by by destruct (_ =? _). rewrite bool_decide_eq_true_2 by done.
  cbn [negb]. rewrite bool_decide_eq_true_2 by done.
  destruct (v _ _ _ tv) as [t|err|m]; simpl; [by apply IH|done..].
Qed.

Lemma run_class_lines es kind tv tc :
  forallb (fun e => wf_hex (e_hex e)) es = true -> kind = "C" \/ e_level <$> head es = Some 0 ->
  run_lines v c (entry_line "C" <$> es) (kind, (tv, tc))
    = (t <-o run_entries c es tc ;; Ok (if bool_decide (es = []) then kind else "C", (tv, t))).
Proof.
  revert kind tc. induction es as [|e es IH]; intros kind tc; [done|]. cbn [forallb]. rewrite andb_true_iff.
  intros [He Hes] Hkind. cbn [fmap list_fmap run_lines run_entries]. unfold parse_line.
  rewrite entry_line_plain, (split_entry "C") by done. unfold line_kind. cbn [obind l_kind l_level l_id l_name].
  assert ((if (if e_level e =? 0 then "C" else "") !=s "" then (if e_level e =? 0 then "C" else "") else kind) = "C") as ->.
  { destruct (e_level e =? 0) eqn:E; [done|]. destruct Hkind as [->|Hl]; [done|]. injection Hl as Hl. by rewrite Hl in E. }
  change ("C" ==s "") with false. change ("C" ==s "C") with true. cbv iota.
  destruct (c _ _ _ tc) as [t|err|m]; cbn [obind]; [|done..].
  rewrite IH by auto. destruct (run_entries c es t); cbn [obind]; [|done..]. rewrite (bool_decide_eq_false_2 (e :: es = [])) by done.
  by destruct (bool_decide (es = [])).
Qed.

Lemma run_notes ls st : forallb wf_note ls = true -> run_lines v c ls st = Ok st.
Proof.
  induction ls as [|l ls IH]; [done|]. simpl. rewrite andb_true_iff. intros [Hl Hls].
  destruct st as [kind [tv tc]]. unfold parse_line. unfold wf_note in Hl. rewrite Hl. simpl. by apply IH.
Qed.
End Texts.

Section Reads.
Context (conv conv' : Z -> Z) (no_top no_sub deep : string).
#[local] Abbreviation entry_of := (pure_entry conv conv' no_top no_sub deep).
Implicit Types (other : nat -> Z -> string -> Pure -> outcome Pure).

(** The table of the blocks [bs], added to those of [m]. *)
Definition add_blocks (m : gmap Z Vendor) (bs : list block) : gmap Z Vendor :=
  foldl (fun m b => <[conv (hex_id (bl_hex b)) := vendor_of conv conv' b]> m) m bs.

Lemma run_vendor_blocks other bs u w :
  forallb (wf_block "") bs = true ->
  exists top sub, run_lines entry_of other (concat (block_lines "" <$> bs)) ("", (u, w))
    = Ok ("", ({| pu_map := add_blocks (pu_map u) bs; pu_top := top; pu_sub := sub |}, w)).
Proof.
  revert u. induction bs as [|b bs IH]; intros u Hwf; [exists (pu_top u), (pu_sub u); by destruct u|].
  cbn [forallb] in Hwf. apply andb_true_iff in Hwf as [Hb Hwf]. unfold wf_block in Hb.
  rewrite !andb_true_iff in Hb. destruct Hb as [[Hnotes Hhex] _].
  rewrite fmap_cons. cbn [concat]. unfold block_lines at 1.
  rewrite !run_lines_app, run_notes by done. cbn [obind]. rewrite run_vendor_lines by done.
  destruct (run_block conv conv' no_top no_sub deep b u) as (top & sub & ->). cbn [obind]. by apply IH.
Qed.

Lemma run_class_blocks other bs kind u w :
  forallb (wf_block "C") bs = true ->
  exists kind' top sub, run_lines other entry_of (concat (block_lines "C" <$> bs)) (kind, (w, u))
    = Ok (kind', (w, {| pu_map := add_blocks (pu_map u) bs; pu_top := top; pu_sub := sub |})).
Proof.
  revert kind u. induction bs as [|b bs IH]; intros kind u Hwf; [exists kind, (pu_top u), (pu_sub u); by destruct u|].
  cbn [forallb] in Hwf. apply andb_true_iff in Hwf as [Hb Hwf]. unfold wf_block in Hb.
  rewrite !andb_true_iff in Hb. destruct Hb as [[Hnotes Hhex] _].
  rewrite fmap_cons. cbn [concat]. unfold block_lines at 1.
  rewrite !run_lines_app, run_notes by done. cbn [obind]. rewrite run_class_lines by (done || by right).
  destruct (run_block conv conv' no_top no_sub deep b u) as (top & sub & ->). cbn [obind]. by apply IH.
Qed.
End Reads.

(** C28: a list of vendors and classes that is printed in the format of the file is read
    back: with notes between the blocks, with identifiers in any hexadecimal
    spelling, with names that may hold blanks, a later block taking the place of an
    earlier one with its identifier; the identifiers of classes keep their low
    eight bits only. *)
Theorem ParseIDs_reads (vendors classes : list block)
    (Hv : forallb (wf_block "") vendors = true) (Hc : forallb (wf_block "C") classes = true) :
  ParseIDs (lines_text (concat (block_lines "" <$> vendors) ++ concat (block_lines "C" <$> classes)))
    = Ok (table_of gousb_ID gousb_ID vendors, table_of gousb_Class gousb_Class classes).
Proof.
  rewrite parse_pure. unfold pure_ParseIDs. rewrite parse_lines_text.
  - rewrite run_lines_app.
    destruct (run_vendor_blocks gousb_ID gousb_ID "product line without vendor line" "interface line without device line"
      "too many levels of nesting for vendor block" pure_class vendors new_pure new_pure Hv) as (t1 & s1 & Hrun1).
    fold pure_vendor in Hrun1. rewrite Hrun1. cbn [obind].
    destruct (run_class_blocks gousb_Class gousb_Class "subclass line without class line"
      "protocol line without subclass line" "too many levels of nesting for class" pure_vendor classes "" new_pure
      {| pu_map := add_blocks gousb_ID gousb_ID (pu_map new_pure) vendors; pu_top := t1; pu_sub := s1 |} Hc)
      as (kind & t2 & s2 & Hrun2).
    fold pure_class in Hrun2. rewrite Hrun2. done.
  - rewrite forallb_app. apply andb_true_iff. split; apply forallb_forall; intros l Hl;
      apply in_concat in Hl as (ls & Hls & Hl); apply list_elem_of_In, list_elem_of_fmap in Hls as (b & -> & Hb%list_elem_of_In).
    + rewrite forallb_forall in Hv. specialize (Hv b Hb). unfold wf_block in Hv.
      rewrite !andb_true_iff, !forallb_forall in Hv. by apply Hv.
    + rewrite forallb_forall in Hc. specialize (Hc b Hb). unfold wf_block in Hc.
      rewrite !andb_true_iff, !forallb_forall in Hc. by apply Hc.
Qed.

(** ** The theorems at work *)
Definition demo_vendor_blocks : list block :=
  [{| bl_notes := ["# Vendors"; ""]; bl_hex := "0951"; bl_name := "Kingston Technology";
      bl_branches := [{| br_hex := "1666"; br_name := "DataTraveler 100 G3"; br_leaves := [("00", "Bulk")] |}] |};
   {| bl_notes := []; bl_hex := "1D6B"; bl_name := "Linux  Foundation"; bl_branches := [] |}].
Definition demo_class_blocks : list block :=
  [{| bl_notes := []; bl_hex := "08"; bl_name := "Mass Storage";
      bl_branches := [{| br_hex := "06"; br_name := "SCSI"; br_leaves := [("50", "Bulk-Only")] |}] |}].
Definition demo_list : string :=
  lines_text (concat (block_lines "" <$> demo_vendor_blocks) ++ concat (block_lines "C" <$> demo_class_blocks)).

Lemma ParseIDs_reads_witness :
  ParseIDs demo_list = Ok (table_of gousb_ID gousb_ID demo_vendor_blocks, table_of gousb_Class gousb_Class demo_class_blocks) /\
  Describe (load demo_list).1 2385 5734 = "DataTraveler 100 G3 (Kingston Technology)" /\
  Classify (load demo_list).2 8 6 80 = "Mass Storage (SCSI) Bulk-Only".
Proof.
  assert (ParseIDs demo_list = Ok (table_of gousb_ID gousb_ID demo_vendor_blocks, table_of gousb_Class gousb_Class demo_class_blocks))
    as Hread by (apply ParseIDs_reads; vm_compute; reflexivity).
  split; [exact Hread|]. unfold load. rewrite Hread. split; vm_compute; reflexivity.
Defined.

(** An interface line after a vendor line goes to the product of another vendor. *)
Example interface_of_other_vendor :
  let text := lines_text ["0951  Kingston Technology"; tab +:+ "1666  DataTraveler"; "1d6b  Linux Foundation";
                          tab +:+ tab +:+ "01  Hub"] in
  (fun p => prod_Interface p !! 1%Z) <$> ((load text).1 !! 2385%Z ≫= fun v => vend_Product v !! 5734%Z) = Some (Some "Hub").
Proof. vm_compute. reflexivity. Qed.
