(* ===== verification/USBController.v ===== *)
(** * USB devices and their claims (pkg/controller/usbdevice, pkg/util/gousb/usbid)

    The node's scan of USB devices is compared with the stored objects; a claim
    permits a device in KubeVirt, starts a device plugin for it and enables it. *)

From S2P Require Import Prelude GoStrings GoStringLemmas GoMonad Types Effects UsbIds USBHelper USBPlugin ClaimController Sim.

Definition KubeVirtNamespace : string := "harvester-system".
Definition KubeVirtResource : string := "kubevirt".
Definition KubeVirtResourcePrefix : string := "kubevirt.io/".

(** ** Descriptions

    [Vendors] is the table that the package usbid parses from its embedded data
    ([UsbIds.load]). *)
Definition usbDescription (Vendors : gmap Z Vendor) (d : hostUSBDevice) : string :=
  let desc := DescribeWithVendorAndProduct Vendors (gousb_ID (hu_Vendor d)) (gousb_ID (hu_Product d)) in
  if hu_ProductName d !=s "" then desc +:+ " [" +:+ hu_ProductName d +:+ "]" else desc.

Definition usbDeviceName (nodeName : string) (d : hostUSBDevice) : string :=
  let devicePath := ReplaceAll (hu_DevicePath d) "/dev/bus/usb/" "" in
  let devicePath := Join (Split devicePath "/") "" in
  nodeName +:+ "-" +:+ fmt_04x (hu_Vendor d) +:+ "-" +:+ fmt_04x (hu_Product d) +:+ "-" +:+ devicePath.

Definition usb_resourceName (name : string) : string := KubeVirtResourcePrefix +:+ name.

(** ** The comparison of the scan with the stored objects (usbdevice_controller.go) *)
Definition set_usb_Status (st : USBDeviceStatus) (d : USBDevice) : USBDevice :=
  {| usb_meta := usb_meta d; usb_Status := st |}.
Definition set_orphaned (status message : string) (st : USBDeviceStatus) : USBDeviceStatus :=
  {| usb_VendorID := usb_VendorID st; usb_ProductID := usb_ProductID st;
     usb_NodeName := usb_NodeName st; usb_ResourceName := usb_ResourceName st;
     usb_DevicePath := usb_DevicePath st; usb_Description := usb_Description st;
     usb_PCIAddress := usb_PCIAddress st; usb_ClassType := usb_ClassType st;
     usb_Enabled := usb_Enabled st; usb_status := status; usb_Message := message |}.
Definition set_Enabled (b : bool) (st : USBDeviceStatus) : USBDeviceStatus :=
  {| usb_VendorID := usb_VendorID st; usb_ProductID := usb_ProductID st;
     usb_NodeName := usb_NodeName st; usb_ResourceName := usb_ResourceName st;
     usb_DevicePath := usb_DevicePath st; usb_Description := usb_Description st;
     usb_PCIAddress := usb_PCIAddress st; usb_ClassType := usb_ClassType st;
     usb_Enabled := b; usb_status := usb_status st; usb_Message := usb_Message st |}.

Record UsageList := {
  createList : list USBDevice;
  updateList : list USBDevice;
  deleteList : list USBDevice;
  orphanedList : list USBDevice
}.

Section Usage.
Context `{MapOrder} (Vendors : gmap Z Vendor).

(** The status that the scan gives a device: not enabled, and without message. *)
Definition scanned_status (nodeName : string) (d : hostUSBDevice) : USBDeviceStatus :=
  {| usb_VendorID := fmt_04x (hu_Vendor d); usb_ProductID := fmt_04x (hu_Product d);
     usb_NodeName := nodeName; usb_ResourceName := usb_resourceName (usbDeviceName nodeName d);
     usb_DevicePath := hu_DevicePath d; usb_Description := usbDescription Vendors d;
     usb_PCIAddress := hu_PCIAddress d; usb_ClassType := hu_ClassType d;
     usb_Enabled := false; usb_status := ""; usb_Message := "" |}.

Definition usb_labels (nodeName : string) : gmap string string := {[ "nodename" := nodeName ]}.

Definition scanned_device (nodeName : string) (d : hostUSBDevice) : USBDevice :=
  {| usb_meta := new_meta (usbDeviceName nodeName d) (usb_labels nodeName) ∅;
     usb_Status := scanned_status nodeName d |}.

Definition isStatusChanged (existed : USBDevice) (d : hostUSBDevice) : bool :=
  (usb_VendorID (usb_Status existed) !=s fmt_04x (hu_Vendor d))
  || (usb_ProductID (usb_Status existed) !=s fmt_04x (hu_Product d))
  || (usb_Description (usb_Status existed) !=s usbDescription Vendors d)
  || (usb_ClassType (usb_Status existed) !=s hu_ClassType d).

(** One device of the scan: the lists so far and the stored devices not met yet. *)
Definition getList_step (nodeName : string)
    (acc : list USBDevice * list USBDevice * gmap string USBDevice) (d : hostUSBDevice)
    : list USBDevice * list USBDevice * gmap string USBDevice :=
  let '(creates, updates, stored) := acc in
  match stored !! hu_DevicePath d with
  | None => (creates ++ [scanned_device nodeName d], updates, stored)
  | Some existed =>
      (creates,
       if isStatusChanged existed d
       then updates ++ [set_usb_Status (scanned_status nodeName d) existed] else updates,
       delete (hu_DevicePath d) stored)
  end.

Definition scanned (localUSBDevices : gmap Z (list hostUSBDevice)) : list hostUSBDevice :=
  concat (range localUSBDevices).*2.

Definition getList (localUSBDevices : gmap Z (list hostUSBDevice))
    (mapStoredUSBDevices : gmap string USBDevice) (nodeName : string) : UsageList :=
  let '(creates, updates, rest) :=
    fold_left (getList_step nodeName) (scanned localUSBDevices) ([], [], mapStoredUSBDevices) in
  let gone := (range rest).*2 in
  {| createList := creates; updateList := updates; deleteList := gone;
     orphanedList := List.filter (fun d => usb_Enabled (usb_Status d)) gone |}.
End Usage.

Section Handlers.
Context `{External} `{MapOrder} {Mem W : Type} `{World W} (Vendors : gmap Z Vendor).
#[local] Abbreviation M := (M Mem W).

Definition handle_create (usbDevice : USBDevice) : M unit :=
  newOne <- eff (ApiCreate KUSBDevice
    {| usb_meta := new_meta (m_Name (usb_meta usbDevice)) (m_Labels (usb_meta usbDevice)) ∅;
       usb_Status := {| usb_VendorID := ""; usb_ProductID := ""; usb_NodeName := "";
         usb_ResourceName := ""; usb_DevicePath := ""; usb_Description := ""; usb_PCIAddress := "";
         usb_ClassType := ""; usb_Enabled := false; usb_status := ""; usb_Message := "" |} |}) ;;
  _ <- eff (ApiUpdateStatus KUSBDevice (set_usb_Status (usb_Status usbDevice) newOne)) ;;
  ret tt.

(** Neither failure ends the loop. *)
Definition handle_orphan (usbDevice : USBDevice) : M unit :=
  r <- try (eff (ApiDelete KUSBDeviceClaim (m_Name (usb_meta usbDevice)))) ;;
  match r with
  | inr _ => ret tt
  | inl _ =>
      _ <- try (eff (ApiUpdateStatus KUSBDevice (set_usb_Status
             (set_orphaned USBDeviceStatusOrphaned
               "The USB device is orphaned, please remove it from virtual machine and disable it."
               (usb_Status usbDevice)) usbDevice))) ;;
      ret tt
  end.

Definition handleList (usageList : UsageList) : M unit :=
  for_each handle_create (createList usageList) ;;;
  for_each (fun d => _ <- eff (ApiUpdateStatus KUSBDevice d) ;; ret tt) (updateList usageList) ;;;
  for_each handle_orphan (orphanedList usageList) ;;;
  for_each (fun d => eff (ApiDelete KUSBDevice (m_Name (usb_meta d)))) (deleteList usageList).

Definition Reconcile (nodeName : string) : M unit :=
  localUSBDevices <- WalkUSBDevices ;;
  list_ <- eff (ApiList KUSBDevice "" (usb_labels nodeName)) ;;
  let mapStoredUSBDevices :=
    index_by (fun d => usb_DevicePath (usb_Status d)) (fun d => d) (list_ : list USBDevice) in
  handleList (getList Vendors localUSBDevices mapStoredUSBDevices nodeName).

(** The claims to reconcile when a device changes. *)
Definition usb_OnDeviceChange (nodeName : string) (ud : option USBDevice) : M (list (string * string)) :=
  match ud with
  | None => ret []
  | Some d =>
      if usb_NodeName (usb_Status d) ==s nodeName then
        udcList <- eff (CacheByIndex KUSBDeviceClaim USBDevicePCIAddress (usb_PCIAddress (usb_Status d))) ;;
        ret ((fun v => (m_Namespace (uc_meta v), m_Name (uc_meta v))) <$> (udcList : list USBDeviceClaim))
      else ret []
  end.
End Handlers.

(** ** The claim controller (usbdevice_claim_controller.go) *)

(** [ch_waiting] counts the goroutines started to send on [reconcileUSBDevice];
    [ch_retired] keeps the plugins taken out of the map, as they were left (their
    own goroutines still refer to them). *)
Record DevClaimHandler := {
  ch_nodeName : string;
  ch_managedDevicePlugins : gmap string USBDevicePlugin;
  ch_retired : list USBDevicePlugin;
  ch_waiting : nat
}.
Definition set_managed (m : gmap string USBDevicePlugin) (h : DevClaimHandler) : DevClaimHandler :=
  {| ch_nodeName := ch_nodeName h; ch_managedDevicePlugins := m; ch_retired := ch_retired h;
     ch_waiting := ch_waiting h |}.
(** [plugin.StopDevicePlugin(); delete(h.managedDevicePlugins, name)]. *)
Definition retire (name : string) (p : USBDevicePlugin) (h : DevClaimHandler) : DevClaimHandler :=
  {| ch_nodeName := ch_nodeName h; ch_managedDevicePlugins := delete name (ch_managedDevicePlugins h);
     ch_retired := StopDevicePlugin p :: ch_retired h; ch_waiting := ch_waiting h |}.
Definition signal_reconcile (h : DevClaimHandler) : DevClaimHandler :=
  {| ch_nodeName := ch_nodeName h; ch_managedDevicePlugins := ch_managedDevicePlugins h;
     ch_retired := ch_retired h; ch_waiting := S (ch_waiting h) |}.

Definition usb_claim_lock : string := "usbdevice.DevClaimHandler.lock".

Definition usb_to_permit (usbDevice : USBDevice) : USBHostDevice :=
  {| uhd_Selectors := [{| us_Vendor := usb_VendorID (usb_Status usbDevice);
                          us_Product := usb_ProductID (usb_Status usbDevice) |}];
     uhd_ResourceName := usb_ResourceName (usb_Status usbDevice);
     uhd_ExternalResourceProvider := true |}.

Definition set_permitted (p : option PermittedHostDevices) (kv : KubeVirt) : KubeVirt :=
  {| kv_meta := kv_meta kv; kv_PermittedHostDevices := p |}.

Definition set_claim_Status (st : USBDeviceClaimStatus) (c : USBDeviceClaim) : USBDeviceClaim :=
  {| uc_meta := uc_meta c; uc_UserName := uc_UserName c; uc_Status := st |}.

Section ClaimHandlers.
Context `{External} {W : Type} `{World W}.
#[local] Abbreviation M := (M DevClaimHandler W).

Definition updateKubeVirt (virt : KubeVirt) (usbDevice : USBDevice) : M KubeVirt :=
  let permitted := default {| php_PciHostDevices := []; php_USB := [] |} (kv_PermittedHostDevices virt) in
  let usbs := php_USB permitted in
  if existsb (fun u => uhd_ResourceName u ==s usb_ResourceName (usb_Status usbDevice)) usbs
  then ret virt
  else eff (ApiUpdate KKubeVirt (set_permitted
         (Some {| php_PciHostDevices := php_PciHostDevices permitted;
                  php_USB := usbs ++ [usb_to_permit usbDevice] |}) virt)).

(** The plugin of the claim, made when the map has none. *)
Definition plugin_for (name : string) (usbDevice : USBDevice) : M USBDevicePlugin :=
  h <- get_mem ;;
  match ch_managedDevicePlugins h !! name with
  | Some p => ret p
  | None =>
      p <- lift_o (NewUSBDevicePlugin usbDevice) ;;
      modify_mem (fun h => set_managed (<[name := p]> (ch_managedDevicePlugins h)) h) ;;;
      ret p
  end.

Definition ensure_started (name : string) (plugin : USBDevicePlugin) : M unit :=
  if up_started plugin then ret tt
  else modify_mem (fun h => set_managed (<[name := StartDevicePlugin plugin]> (ch_managedDevicePlugins h)) h).

(** The status of an enabled device: its message is reset when the plugin starts. *)
Definition enabled_status (started : bool) (st : USBDeviceStatus) : USBDeviceStatus :=
  let st' := if started then st else set_orphaned "" "" st in
  if usb_Enabled st then st' else set_Enabled true st'.

(** The body under the lock. *)
Definition enable_usb (claim : USBDeviceClaim) (usbDevice : USBDevice) : M (option USBDeviceClaim) :=
  virt <- eff (ApiGet KKubeVirt KubeVirtNamespace KubeVirtResource) ;;
  _ <- updateKubeVirt virt usbDevice ;;
  plugin <- plugin_for (m_Name (uc_meta claim)) usbDevice ;;
  ensure_started (m_Name (uc_meta claim)) plugin ;;;
  let st := enabled_status (up_started plugin) (usb_Status usbDevice) in
  usbDevice' <- (if bool_decide (usb_Status usbDevice = st) then ret usbDevice
                 else eff (ApiUpdateStatus KUSBDevice (set_usb_Status st usbDevice))) ;;
  modify_mem signal_reconcile ;;;
  updated <- eff (ApiUpdateStatus KUSBDeviceClaim
    (set_claim_Status {| uc_NodeName := usb_NodeName (usb_Status usbDevice');
                         uc_PCIAddress := usb_PCIAddress (usb_Status usbDevice') |} claim)) ;;
  ret (Some updated).

(** The steps both handlers share: the device of the claim, when it is one of this
    node. *)
Definition device_of_claim (claim : USBDeviceClaim) (k : USBDevice -> M (option USBDeviceClaim))
    : M (option USBDeviceClaim) :=
  r <- try (eff (CacheGet KUSBDevice "" (m_Name (uc_meta claim)))) ;;
  match r with
  | inl err => if IsNotFound err then ret (Some claim) else fail err
  | inr usbDevice =>
      h <- get_mem ;;
      if usb_NodeName (usb_Status (usbDevice : USBDevice)) !=s ch_nodeName h then ret (Some claim)
      else k usbDevice
  end.

Definition OnUSBDeviceClaimChanged (claim : option USBDeviceClaim) : M (option USBDeviceClaim) :=
  match claim with
  | None => ret None
  | Some c =>
      if m_DeletionTimestamp (uc_meta c) then ret claim
      else match m_OwnerReferences (uc_meta c) with
           | None => fail (Errorf "usb device claim has no owner reference")
           | Some _ => device_of_claim c (fun d => with_lock usb_claim_lock (enable_usb c d))
           end
  end.

(** With the permitted devices at hand: an early return when no USB device is
    permitted, and when the update of KubeVirt fails. *)
Definition release_permitted (claim : USBDeviceClaim) (usbDevice : USBDevice) (virt : KubeVirt)
    (permitted : PermittedHostDevices) : M (option USBDeviceClaim) :=
  match php_USB permitted with
  | [] => ret (Some claim)
  | usbs =>
      let usbs' := remove_first (fun u => uhd_ResourceName u ==s usb_ResourceName (usb_Status usbDevice)) usbs in
      r <- try (if bool_decide (usbs = usbs') then ret virt
                else eff (ApiUpdate KKubeVirt (set_permitted
                       (Some {| php_PciHostDevices := php_PciHostDevices permitted; php_USB := usbs' |}) virt))) ;;
      match r with
      | inl _ => ret (Some claim)
      | inr _ =>
          h <- get_mem ;;
          match ch_managedDevicePlugins h !! m_Name (uc_meta claim) with
          | Some p => modify_mem (fun h => signal_reconcile (retire (m_Name (uc_meta claim)) p h))
          | None => ret tt
          end ;;;
          _ <- eff (ApiUpdateStatus KUSBDevice
                 (set_usb_Status (set_Enabled false (usb_Status usbDevice)) usbDevice)) ;;
          ret (Some claim)
      end
  end.

(** The body under the lock; [PermittedHostDevices] is read through a pointer that
    can be nil. *)
Definition disable_usb (claim : USBDeviceClaim) (usbDevice : USBDevice) : M (option USBDeviceClaim) :=
  virt <- eff (ApiGet KKubeVirt KubeVirtNamespace KubeVirtResource) ;;
  match kv_PermittedHostDevices (virt : KubeVirt) with
  | None => panic "nil pointer dereference"
  | Some permitted => release_permitted claim usbDevice virt permitted
  end.

Definition usb_OnRemove (claim : option USBDeviceClaim) : M (option USBDeviceClaim) :=
  match claim with
  | None => ret None
  | Some c =>
      if negb (m_DeletionTimestamp (uc_meta c)) then ret claim
      else device_of_claim c (fun d => with_lock usb_claim_lock (disable_usb c d))
  end.
End ClaimHandlers.

(** ** The lists of a pass *)
Section Lists.
Context `{MapOrder} (Vendors : gmap Z Vendor).

Definition path_of (d : USBDevice) : string := usb_DevicePath (usb_Status d).

(** What the pass does to the stored object of a scanned device: nothing, when its
    identity, description and class are still those of the scan. *)
Definition refreshed (nodeName : string) (stored : gmap string USBDevice) (d : hostUSBDevice) : option USBDevice :=
  existed ← stored !! hu_DevicePath d;
  if isStatusChanged Vendors existed d
  then Some (set_usb_Status (scanned_status Vendors nodeName d) existed) else None.

Lemma getList_fold nodeName l creates updates stored :
  NoDup (hu_DevicePath <$> l) ->
  fold_left (getList_step Vendors nodeName) l (creates, updates, stored) =
  (creates ++ (scanned_device Vendors nodeName <$>
     List.filter (fun d => bool_decide (stored !! hu_DevicePath d = None)) l),
   updates ++ omap (refreshed nodeName stored) l,
   filter (fun p => p.1 ∉ hu_DevicePath <$> l) stored).
Proof.
  revert creates updates stored. induction l as [|d l IH]; intros creates updates stored Hnd.
  { simpl. rewrite !app_nil_r. f_equal. symmetry. apply map_filter_id. intros; simpl. by apply not_elem_of_nil. }
  rewrite fmap_cons in Hnd. apply NoDup_cons in Hnd as [Hd Hnd]. cbn [fold_left]. unfold getList_step at 2.
  assert (forall x, x ∈ l -> hu_DevicePath d <> hu_DevicePath x) as Hne.
  { intros x Hx Heq. apply Hd. rewrite Heq. by apply list_elem_of_fmap_2. }
  destruct (stored !! hu_DevicePath d) as [existed|] eqn:Hs; rewrite IH by done.
  - simpl. unfold refreshed at 2. rewrite Hs. rewrite bool_decide_eq_false_2 by done. simpl.
    assert (omap (refreshed nodeName (delete (hu_DevicePath d) stored)) l = omap (refreshed nodeName stored) l) as ->.
    { clear IH Hd Hnd. induction l as [|x l IHl]; [done|]. cbn [omap list_omap].
      rewrite IHl by (intros; apply Hne; by right). unfold refreshed.
      by rewrite lookup_delete_ne by (apply Hne; left). }
    assert (List.filter (fun x => bool_decide (delete (hu_DevicePath d) stored !! hu_DevicePath x = None)) l =
      List.filter (fun x => bool_decide (stored !! hu_DevicePath x = None)) l) as ->.
    { apply List.filter_ext_in. intros x Hx%list_elem_of_In. by rewrite lookup_delete_ne by by apply Hne. }
    f_equal; [f_equal|].
    + destruct (isStatusChanged Vendors existed d); [|done]. by rewrite <- (assoc_L (++)).
    + apply map_eq. intros k. apply option_eq. intros x. rewrite !map_lookup_filter_Some, lookup_delete_Some.
      simpl. rewrite not_elem_of_cons. naive_solver.
  - simpl. unfold refreshed at 2. rewrite Hs, bool_decide_eq_true_2 by done. simpl.
    f_equal; [f_equal|].
    + by rewrite <- (assoc_L (++)).
    + apply map_eq. intros k. apply option_eq. intros x. rewrite !map_lookup_filter_Some.
      simpl. rewrite not_elem_of_cons. naive_solver.
Qed.

(** C33: a pass over the USB devices of a node, for a scan that meets no device file
    twice: exactly the scanned devices without an object are to be created, and
    exactly the objects whose device file is gone are to be deleted; the objects
    whose identity, description or class changed get the status of the scan, in
    which the device is not enabled. *)
Theorem getList_spec localUSBDevices stored nodeName :
  NoDup (hu_DevicePath <$> scanned localUSBDevices) ->
  let u := getList Vendors localUSBDevices stored nodeName in
  createList u = scanned_device Vendors nodeName <$>
    List.filter (fun d => bool_decide (stored !! hu_DevicePath d = None)) (scanned localUSBDevices) /\
  updateList u = omap (refreshed nodeName stored) (scanned localUSBDevices) /\
  (forall d, d ∈ deleteList u <->
     exists path, stored !! path = Some d /\ path ∉ hu_DevicePath <$> scanned localUSBDevices) /\
  (forall d, d ∈ orphanedList u <-> d ∈ deleteList u /\ usb_Enabled (usb_Status d) = true) /\
  Forall (fun d => usb_Enabled (usb_Status d) = false) (updateList u).
Proof.
  intros Hnd. unfold getList. rewrite getList_fold by done. cbn [app]. split_and!; [done|done|..].
  - intros d. cbn [deleteList]. rewrite list_elem_of_fmap. split.
    + intros ([path d'] & -> & Hin%elem_of_range). apply map_lookup_filter_Some in Hin as [Hin Hp].
      by exists path.
    + intros (path & Hin & Hp). exists (path, d). split; [done|]. apply elem_of_range.
      by apply map_lookup_filter_Some.
  - intros d. cbn [orphanedList deleteList]. rewrite !list_elem_of_In, List.filter_In. tauto.
  - cbn [updateList]. apply Forall_forall. intros x Hx. apply list_elem_of_omap in Hx as (d & _ & Hd).
    unfold refreshed in Hd. destruct (stored !! _) as [e|]; simpl in Hd; [|done].
    destruct (isStatusChanged Vendors e d); [|done]. by injection Hd as <-.
Qed.

(** Another device with the device file of a stored one: the object keeps its name, and so
    its claim, but gets the identity, the description and the resource name of the
    other device, which is not the resource of the object's own name; it is neither
    deleted nor orphaned, so a claim of that name now stands for the other device. *)
Theorem usb_replaced_in_place localUSBDevices stored nodeName (d : hostUSBDevice) (existed : USBDevice)
    (Hnd : NoDup (hu_DevicePath <$> scanned localUSBDevices))
    (Hpaths : forall path e, stored !! path = Some e -> path_of e = path)
    (Hd : d ∈ scanned localUSBDevices) (Hstored : stored !! hu_DevicePath d = Some existed)
    (Hother : usb_VendorID (usb_Status existed) <> fmt_04x (hu_Vendor d))
    (Hname : m_Name (usb_meta existed) <> usbDeviceName nodeName d) :
  let u := getList Vendors localUSBDevices stored nodeName in
  let changed := set_usb_Status (scanned_status Vendors nodeName d) existed in
  changed ∈ updateList u /\ existed ∉ deleteList u /\ existed ∉ orphanedList u /\
  usb_VendorID (usb_Status changed) = fmt_04x (hu_Vendor d) /\
  usb_ResourceName (usb_Status changed) <> usb_resourceName (m_Name (usb_meta changed)).
Proof.
  intros u changed.
  assert (existed ∉ (range (filter (fun p => p.1 ∉ hu_DevicePath <$> scanned localUSBDevices) stored)).*2) as Hkept.
  { intros ([path e] & -> & Hin%elem_of_range)%list_elem_of_fmap. apply map_lookup_filter_Some in Hin as [Hin Hp].
    cbn in *. apply Hp. rewrite <- (Hpaths _ _ Hin), (Hpaths _ _ Hstored). by apply list_elem_of_fmap_2. }
  unfold u, getList. rewrite getList_fold by done. cbn [app updateList deleteList orphanedList]. split_and!.
  - apply list_elem_of_omap. exists d. split; [done|]. unfold refreshed. rewrite Hstored. cbn. unfold isStatusChanged.
    by rewrite bool_decide_eq_false_2.
  - done.
  - by intros Hin%list_elem_of_In%filter_In%proj1%list_elem_of_In.
  - done.
  - cbn. unfold usb_resourceName, KubeVirtResourcePrefix. intros Heq. injection Heq as Heq. by apply Hname.
Qed.
End Lists.

(** ** What a successful pass did *)
Section Passes.
Context `{External} `{MapOrder} {Mem W : Type} `{World W} (Vendors : gmap Z Vendor).
Implicit Types (s : state Mem (Logged W)).

Lemma Steps_handle_create d : Steps (@emits Mem W any_event) (handle_create d).
Proof. unfold handle_create. steps_tac. Qed.
Lemma Steps_handle_orphan d : Steps (@emits Mem W any_event) (handle_orphan d).
Proof. unfold handle_orphan. steps_tac. Qed.

(** The device was created, and its status stored. *)
Definition created (d : USBDevice) (log : list event) : Prop :=
  exists o n : USBDevice, m_Name (usb_meta o) = m_Name (usb_meta d) /\ m_Labels (usb_meta o) = m_Labels (usb_meta d) /\
    (exists r, Ev (ApiCreate KUSBDevice o) r ∈ log) /\
    (exists r, Ev (ApiUpdateStatus KUSBDevice (set_usb_Status (usb_Status d) n)) (inr r) ∈ log).
Definition updated (d : USBDevice) (log : list event) : Prop :=
  exists r, Ev (ApiUpdateStatus KUSBDevice d) (inr r) ∈ log.
Definition deleted (k : Kind) (name : string) (log : list event) : Prop :=
  Ev (ApiDelete k name) (inr tt) ∈ log.
(** The claim of the device is gone, or its deletion was refused. *)
Definition claim_treated (d : USBDevice) (log : list event) : Prop :=
  exists r, Ev (ApiDelete KUSBDeviceClaim (m_Name (usb_meta d))) r ∈ log.

Lemma last_event (log : list event) ev : ev ∈ log ++ [ev].
Proof. apply elem_of_app. right. by left. Qed.
Lemma log_app_l (log l : list event) ev : ev ∈ log -> ev ∈ log ++ l.
Proof. intros Hev. apply elem_of_app. by left. Qed.

Lemma handle_create_created d s s' : handle_create d s = (Ok tt, s') -> created d (log_of s').
Proof.
  unfold handle_create. intros Hrun. apply bind_Ok_inv in Hrun as (n & s1 & Hc & Hrun).
  apply bind_Ok_inv in Hrun as (r & s2 & Hu & Hrun). injection Hrun as <-.
  apply eff_Ok_log in Hc as [Hc _]. apply eff_Ok_log in Hu as [Hu _].
  eexists _, n. split_and!; [| |eexists; rewrite Hu, Hc; apply log_app_l, last_event|exists r; rewrite Hu; apply last_event];
  reflexivity.
Qed.

Lemma handle_orphan_treated d s s' : handle_orphan d s = (Ok tt, s') -> claim_treated d (log_of s').
Proof.
  unfold handle_orphan. intros Hrun. apply bind_Ok_inv in Hrun as (r & s1 & Hdel & Hrun).
  apply try_eff_log in Hdel as [Hdel _]. exists r. destruct r as [e|[]].
  - apply bind_Ok_inv in Hrun as (r' & s2 & Hupd & Hrun). injection Hrun as <-.
    apply try_eff_log in Hupd as [-> _]. rewrite Hdel. apply log_app_l, last_event.
  - injection Hrun as <-. rewrite Hdel. apply last_event.
Qed.

(** When a pass succeeds, every device of its lists was treated: created with its
    status, updated, or deleted, and the claim of every enabled device that is
    gone was deleted or its deletion refused. *)
Theorem handleList_done (u : UsageList) s s' :
  handleList u s = (Ok tt, s') ->
  Forall (fun d => created d (log_of s')) (createList u) /\
  Forall (fun d => updated d (log_of s')) (updateList u) /\
  Forall (fun d => claim_treated d (log_of s')) (orphanedList u) /\
  Forall (fun d => deleted KUSBDevice (m_Name (usb_meta d)) (log_of s')) (deleteList u).
Proof.
  unfold handleList. intros Hrun.
  apply bind_Ok_inv in Hrun as ([] & s1 & R1 & Hrun).
  apply bind_Ok_inv in Hrun as ([] & s2 & R2 & Hrun).
  apply bind_Ok_inv in Hrun as ([] & s3 & R3 & R4).
  assert (forall (f : USBDevice -> M Mem (Logged W) unit) l sa sb, for_each f l sa = (Ok tt, sb) ->
    (forall x, Steps (emits any_event) (f x)) -> log_of sa ⊆ log_of sb) as Hgrow.
  { intros f l sa sb Hfor Hf ev Hev. refine (log_mono _ any_event _ _ _ _ _ Hfor Hev).
    apply Steps_for_each; [typeclasses eauto|auto]. }
  assert (forall d, Steps (@emits Mem W any_event) (_ <- eff (ApiUpdateStatus KUSBDevice d) ;; ret tt)) as S2
    by (intros; steps_tac).
  assert (forall d : USBDevice, Steps (@emits Mem W any_event) (eff (ApiDelete KUSBDevice (m_Name (usb_meta d))))) as S4
    by (intros; steps_tac).
  pose proof (Hgrow _ _ _ _ R2 S2) as G2.
  pose proof (Hgrow _ _ _ _ R3 Steps_handle_orphan) as G3. pose proof (Hgrow _ _ _ _ R4 S4) as G4.
  pose proof (for_each_done handle_create created _ _ _ R1 Steps_handle_create
    ltac:(unfold created; set_solver) ltac:(intros; by eapply handle_create_created)) as D1.
  pose proof (for_each_done _ updated _ _ _ R2 S2 ltac:(unfold updated; set_solver)) as D2.
  pose proof (for_each_done handle_orphan claim_treated _ _ _ R3 Steps_handle_orphan
    ltac:(unfold claim_treated; set_solver) ltac:(intros; by eapply handle_orphan_treated)) as D3.
  pose proof (for_each_done _ (fun d : USBDevice => deleted KUSBDevice (m_Name (usb_meta d))) _ _ _ R4 S4
    ltac:(unfold deleted; set_solver)) as D4.
  split_and!.
  - eapply Forall_impl; [exact D1|]. unfold created. set_solver.
  - eapply Forall_impl; [apply D2|unfold updated; set_solver].
    intros x sa sb _ Hx. apply bind_Ok_inv in Hx as (r & sc & Hx & Hret). injection Hret as <-.
    apply eff_Ok_log in Hx as [-> _]. exists r. apply last_event.
  - eapply Forall_impl; [exact D3|]. unfold claim_treated. set_solver.
  - apply D4. intros x sa sb _ Hx. apply eff_Ok_log in Hx as [-> _]. apply last_event.
Qed.
End Passes.

(** ** Claims *)
Section Claims.
Context `{External} {W : Type} `{World W}.

Definition permitted_usbs (kv : KubeVirt) : list USBHostDevice :=
  match kv_PermittedHostDevices kv with Some p => php_USB p | None => [] end.
Definition permits (kv : KubeVirt) (resource : string) : Prop :=
  resource ∈ uhd_ResourceName <$> permitted_usbs kv.

Lemma existsb_permits l resource :
  existsb (fun u => uhd_ResourceName u ==s resource) l = bool_decide (resource ∈ uhd_ResourceName <$> l).
Proof.
  induction l as [|u l IH]; [done|]. simpl. rewrite IH.
  repeat case_bool_decide; try done; exfalso; rewrite elem_of_cons in *; naive_solver.
Qed.

Lemma permitted_default kv :
  php_USB (default {| php_PciHostDevices := []; php_USB := [] |} (kv_PermittedHostDevices kv)) = permitted_usbs kv.
Proof. unfold permitted_usbs. by destruct (kv_PermittedHostDevices kv). Qed.

Lemma updateKubeVirt_Ok kv d (s s' : state DevClaimHandler (Logged W)) r :
  updateKubeVirt kv d s = (Ok r, s') ->
  mem s' = mem s /\ log_of s ⊆ log_of s' /\
  (permits kv (usb_ResourceName (usb_Status d)) \/
   exists kv' o : KubeVirt, permits kv' (usb_ResourceName (usb_Status d)) /\
     (forall res, permits kv res -> permits kv' res) /\ Ev (ApiUpdate KKubeVirt kv') (inr o) ∈ log_of s').
Proof.
  unfold updateKubeVirt. rewrite permitted_default, existsb_permits. case_bool_decide as Hin.
  - intros [= _ <-]. split_and!; [done..|by left].
  - intros Hrun. apply eff_Ok_log in Hrun as [Hl Hm]. rewrite Hl. split_and!; [done|intros ev; apply log_app_l|].
    right. eexists _, r. split_and!; [| |apply last_event]; unfold permits, permitted_usbs; simpl.
    + rewrite fmap_app. apply elem_of_app. right. by left.
    + intros res Hres. rewrite fmap_app. apply elem_of_app. by left.
Qed.

Lemma plugin_for_Ok n d (s s' : state DevClaimHandler (Logged W)) p :
  plugin_for n d s = (Ok p, s') ->
  log_of s' = log_of s /\ ch_managedDevicePlugins (mem s') !! n = Some p /\
  forall k, k <> n -> ch_managedDevicePlugins (mem s') !! k = ch_managedDevicePlugins (mem s) !! k.
Proof.
  unfold plugin_for. intros Hrun. apply bind_Ok_inv in Hrun as (h & s1 & Hh & Hrun). injection Hh as <- <-.
  destruct (ch_managedDevicePlugins (mem s) !! n) as [q|] eqn:E.
  - by injection Hrun as <- <-.
  - apply bind_Ok_inv in Hrun as (q & s1 & Hq & Hrun). injection Hq as _ <-.
    injection Hrun as <- <-. cbn. split_and!; [done|apply lookup_insert_eq|].
    intros k Hk. by rewrite lookup_insert_ne.
Qed.

Lemma ensure_started_Ok n p (s s' : state DevClaimHandler (Logged W)) :
  ensure_started n p s = (Ok tt, s') -> ch_managedDevicePlugins (mem s) !! n = Some p ->
  log_of s' = log_of s /\
  (exists p', up_started p' = true /\ ch_managedDevicePlugins (mem s') !! n = Some p') /\
  forall k, k <> n -> ch_managedDevicePlugins (mem s') !! k = ch_managedDevicePlugins (mem s) !! k.
Proof.
  unfold ensure_started. intros Hrun Hp. destruct (up_started p) eqn:E.
  - injection Hrun as <-. split_and!; [done|by exists p|done].
  - injection Hrun as <-. cbn. split_and!; [done| |].
    + eexists. split; [|apply lookup_insert_eq]. unfold StartDevicePlugin. by rewrite E.
    + intros k Hk. by rewrite lookup_insert_ne.
Qed.

(** C34: when the claim of a USB device is reconciled, the device's resource is
    permitted in KubeVirt (it was, or an update that adds it was accepted), the
    claim's plugin is started, the other plugins are left alone, and the device is
    marked as enabled. *)
Theorem enable_usb_post (claim : USBDeviceClaim) (d : USBDevice)
    (s s' : state DevClaimHandler (Logged W)) r :
  enable_usb claim d s = (Ok r, s') ->
  (exists kv : KubeVirt, Ev (ApiGet KKubeVirt KubeVirtNamespace KubeVirtResource) (inr kv) ∈ log_of s' /\
     (permits kv (usb_ResourceName (usb_Status d)) \/
      exists kv' o : KubeVirt, permits kv' (usb_ResourceName (usb_Status d)) /\
        (forall res, permits kv res -> permits kv' res) /\
        Ev (ApiUpdate KKubeVirt kv') (inr o) ∈ log_of s')) /\
  (exists p, up_started p = true /\ ch_managedDevicePlugins (mem s') !! m_Name (uc_meta claim) = Some p /\
     forall n, n <> m_Name (uc_meta claim) ->
       ch_managedDevicePlugins (mem s') !! n = ch_managedDevicePlugins (mem s) !! n) /\
  (usb_Enabled (usb_Status d) = true \/
   exists (d' : USBDevice) o, usb_Enabled (usb_Status d') = true /\
     Ev (ApiUpdateStatus KUSBDevice d') (inr o) ∈ log_of s').
Proof.
  unfold enable_usb. intros Hrun.
  apply bind_Ok_inv in Hrun as (kv & s1 & Hget & Hrun).
  apply bind_Ok_inv in Hrun as (kv' & s2 & Hkv & Hrun).
  apply bind_Ok_inv in Hrun as (p & s3 & Hp & Hrun).
  apply bind_Ok_inv in Hrun as ([] & s4 & Hstart & Hrun).
  apply bind_Ok_inv in Hrun as (d' & s5 & Hst & Hrun).
  apply bind_Ok_inv in Hrun as ([] & s6 & Hsig & Hrun). injection Hsig as Hsig.
  apply bind_Ok_inv in Hrun as (c' & s7 & Hc & Hrun). injection Hrun as <- <-.
  apply eff_Ok_log in Hget as [Lget Mget]. apply updateKubeVirt_Ok in Hkv as (Mkv & Gkv & Hperm).
  apply plugin_for_Ok in Hp as (Lp & Hp & Op). apply ensure_started_Ok in Hstart as (Ls & Hs & Os); [|done].
  apply eff_Ok_log in Hc as [Lc Mc].
  assert (mem s5 = mem s4 /\ log_of s4 ⊆ log_of s5 /\
    (usb_Enabled (usb_Status d) = true \/ exists (d' : USBDevice) o, usb_Enabled (usb_Status d') = true /\
       Ev (ApiUpdateStatus KUSBDevice d') (inr o) ∈ log_of s5)) as (M5 & G5 & Hen).
  { case_bool_decide as Heq.
    - injection Hst as _ <-. split_and!; [done..|]. left. rewrite Heq. unfold enabled_status.
      by destruct (usb_Enabled (usb_Status d)) eqn:E, (up_started p).
    - apply eff_Ok_log in Hst as [Lst ->]. rewrite Lst. split_and!; [done|intros ev; apply log_app_l|].
      right. eexists _, _. split; [|apply last_event]. simpl. unfold enabled_status.
      by destruct (usb_Enabled (usb_Status d)) eqn:E, (up_started p). }
  assert (log_of s2 ⊆ log_of s7) as G27.
  { intros ev Hev. rewrite Lc. apply log_app_l. rewrite <- Hsig. apply G5. by rewrite Ls, Lp. }
  assert (mem s7 = signal_reconcile (mem s4)) as M7 by (rewrite Mc, <- Hsig; cbn; by rewrite M5).
  split_and!.
  - exists kv. split; [apply G27, Gkv; rewrite Lget; apply last_event|].
    destruct Hperm as [?|(k & o & ? & ? & ?)]; [by left|]. right. exists k, o. auto.
  - destruct Hs as (p' & Hp' & Hm). exists p'. rewrite M7. cbn. split_and!; [done..|].
    intros n Hn. by rewrite Os, Op, Mkv, Mget.
  - destruct Hen as [?|(x & o & ? & Hx)]; [by left|]. right. exists x, o. split; [done|].
    rewrite Lc. apply log_app_l. by rewrite <- Hsig.
Qed.
End Claims.

Section Release.
Context `{External} {W : Type} `{World W}.

Lemma remove_first_shorter (l : list USBHostDevice) resource :
  resource ∈ uhd_ResourceName <$> l ->
  l <> remove_first (fun u => uhd_ResourceName u ==s resource) l.
Proof.
  intros Hin Heq. apply list_elem_of_fmap in Hin as (u & -> & Hu).
  assert (length (remove_first (fun v => uhd_ResourceName v ==s uhd_ResourceName u) l) < length l) as Hlt.
  { clear Heq. induction l as [|v l IH]; [by apply elem_of_nil in Hu|]. cbn [remove_first].
    case_bool_decide as Hv; cbn [length]; [lia|].
    apply elem_of_cons in Hu as [->|Hu]; [done|]. specialize (IH Hu). lia. }
  rewrite <- Heq in Hlt. lia.
Qed.

(** Releasing a USB device gives up silently: when KubeVirt refuses the update that
    withdraws the permission, or has no USB device permitted, the handler reports
    success although the claim's plugin still runs and the device stays enabled;
    and when KubeVirt permits no host devices at all, it panics. *)
Theorem usb_release_gives_up (claim : USBDeviceClaim) (d : USBDevice) (s s1 : state DevClaimHandler W) kv :
  eff (ApiGet KKubeVirt KubeVirtNamespace KubeVirtResource) s = (Ok kv, s1) ->
  (kv_PermittedHostDevices kv = None -> exists msg, disable_usb claim d s = (Panic msg, s1)) /\
  (forall p, kv_PermittedHostDevices kv = Some p -> php_USB p = [] ->
     disable_usb claim d s = (Ok (Some claim), s1)) /\
  (forall p, kv_PermittedHostDevices kv = Some p -> permits kv (usb_ResourceName (usb_Status d)) ->
     (forall kv', exists e s2, mem s2 = mem s1 /\ eff (ApiUpdate KKubeVirt kv') s1 = (Err e, s2)) ->
     exists s2, mem s2 = mem s1 /\ disable_usb claim d s = (Ok (Some claim), s2)).
Proof.
  intros Hget.
  assert (forall o, disable_usb claim d s = o <-> (match kv_PermittedHostDevices kv with
    | None => panic "nil pointer dereference"
    | Some permitted => release_permitted claim d kv permitted
    end s1) = o) as Hrun by (intros o; unfold disable_usb, bind; by rewrite Hget).
  split_and!.
  - intros Hnone. eexists. apply Hrun. by rewrite Hnone.
  - intros p Hp Hnil. apply Hrun. rewrite Hp. unfold release_permitted. by rewrite Hnil.
  - intros p Hp Hperm Hfail. unfold permits, permitted_usbs in Hperm. rewrite Hp in Hperm.
    setoid_rewrite Hrun. rewrite Hp. unfold release_permitted.
    destruct (php_USB p) as [|u us] eqn:Husb; [by apply elem_of_nil in Hperm|].
    rewrite bool_decide_eq_false_2; [|by apply remove_first_shorter].
    edestruct Hfail as (e & s2 & Hm & Hupd). exists s2. split; [exact Hm|].
    unfold bind, try. unfold set_permitted in *. by rewrite Hupd.
Qed.
End Release.

(** ** Runs in a concrete cluster *)
Definition demo_host_usb (vendor : Z) (path product : string) : hostUSBDevice :=
  {| hu_Vendor := vendor; hu_Product := 4660; hu_BCD := 0; hu_Bus := 1; hu_DeviceNumber := 2;
     hu_DevicePath := path; hu_PCIAddress := "0000:00:14.0"; hu_ClassType := "HID"; hu_ProductName := product |}.
Definition demo_scan : gmap Z (list hostUSBDevice) :=
  {[ 2385%Z := [demo_host_usb 2385 "/dev/bus/usb/001/002" "Keyboard"];
     1118%Z := [demo_host_usb 1118 "/dev/bus/usb/001/003" ""] ]}.
Definition demo_vendors : gmap Z Vendor := {[ 2385%Z := {| vend_Name := "Kingston Technology"; vend_Product := ∅ |} ]}.
Definition demo_stored_usb (name path : string) (enabled : bool) : USBDevice :=
  {| usb_meta := new_meta name (usb_labels "n1") ∅;
     usb_Status := set_Enabled enabled (scanned_status demo_vendors "n1" (demo_host_usb 2385 path "Old")) |}.
Definition demo_usbs : gmap string USBDevice :=
  {[ "/dev/bus/usb/001/002" := demo_stored_usb "n1-0951-1234-001002" "/dev/bus/usb/001/002" true;
     "/dev/bus/usb/001/009" := demo_stored_usb "n1-0951-1234-001009" "/dev/bus/usb/001/009" true ]}.

Example demo_description :
  usbDescription demo_vendors (demo_host_usb 2385 "/dev/bus/usb/001/002" "Keyboard")
  = "Unknown (Kingston Technology) [Keyboard]" /\
  usbDeviceName "n1" (demo_host_usb 2385 "/dev/bus/usb/001/002" "") = "n1-0951-1234-001002".
Proof. split; vm_compute; reflexivity. Qed.

Lemma getList_spec_witness :
  let u := getList demo_vendors demo_scan demo_usbs "n1" in
  createList u = scanned_device demo_vendors "n1" <$>
    List.filter (fun d => bool_decide (demo_usbs !! hu_DevicePath d = None)) (scanned demo_scan) /\
  (m_Name ∘ usb_meta <$> createList u) = ["n1-045e-1234-001003"] /\
  (m_Name ∘ usb_meta <$> updateList u) = ["n1-0951-1234-001002"] /\
  (m_Name ∘ usb_meta <$> deleteList u) = ["n1-0951-1234-001009"].
Proof.
  split.
  - apply (getList_spec demo_vendors demo_scan demo_usbs "n1").
    apply (bool_decide_unpack _). vm_compute. exact I.
  - split; [vm_compute; reflexivity|]. split; vm_compute; reflexivity.
Defined.

(** A mouse with the device file that the claimed keyboard had. *)
Lemma usb_replaced_in_place_witness :
  let scan := {[ 1118%Z := [demo_host_usb 1118 "/dev/bus/usb/001/002" "Mouse"] ]} in
  let u := getList demo_vendors scan demo_usbs "n1" in
  (fun d => (m_Name (usb_meta d), usb_VendorID (usb_Status d))) <$> updateList u = [("n1-0951-1234-001002", "045e")] /\
  demo_stored_usb "n1-0951-1234-001002" "/dev/bus/usb/001/002" true ∉ orphanedList u.
Proof.
  intros scan u. split; [vm_compute; reflexivity|].
  refine (proj1 (proj2 (proj2 (usb_replaced_in_place demo_vendors scan demo_usbs "n1"
    (demo_host_usb 1118 "/dev/bus/usb/001/002" "Mouse") _ _ _ _ _ _ _)))).
  - apply (bool_decide_unpack _). vm_compute. exact I.
  - unfold demo_usbs. intros path e. rewrite lookup_insert_Some, lookup_singleton_Some. by intros [[<- <-]|(_ & <- & <-)].
  - vm_compute. left.
  - reflexivity.
  - vm_compute. discriminate.
  - vm_compute. discriminate.
Defined.

Definition usb_cluster : sim :=
  put KUSBDevice (demo_stored_usb "n1-0951-1234-001009" "/dev/bus/usb/001/009" true)
    (put KUSBDevice (demo_stored_usb "n1-0951-1234-001002" "/dev/bus/usb/001/002" true) sim_empty).

Lemma handleList_done_witness :
  exists s', handleList (getList demo_vendors demo_scan demo_usbs "n1") (State tt (usb_cluster, [])) = (Ok tt, s') /\
    let u := getList demo_vendors demo_scan demo_usbs "n1" in
    Forall (fun d => created d (log_of s')) (createList u) /\
    Forall (fun d => updated d (log_of s')) (updateList u) /\
    Forall (fun d => claim_treated d (log_of s')) (orphanedList u) /\
    Forall (fun d => deleted KUSBDevice (m_Name (usb_meta d)) (log_of s')) (deleteList u).
Proof.
  set (u := getList demo_vendors demo_scan demo_usbs "n1").
  assert (is_Ok (fst (handleList u (State tt (usb_cluster, [])))) = true) as Hok by (vm_compute; reflexivity).
  destruct (handleList u _) as [[[]|e|p] s'] eqn:E; [|discriminate Hok..].
  exists s'. split; [reflexivity|]. exact (handleList_done u _ s' E).
Defined.

Definition demo_usb_claim : USBDeviceClaim :=
  {| uc_meta := new_meta "n1-0951-1234-001002" ∅ ∅; uc_UserName := "admin";
     uc_Status := {| uc_NodeName := ""; uc_PCIAddress := "" |} |}.
Definition demo_unclaimed : USBDevice := demo_stored_usb "n1-0951-1234-001002" "/dev/bus/usb/001/002" false.
Definition demo_kubevirt (usbs : list USBHostDevice) : KubeVirt :=
  {| kv_meta := new_meta "kubevirt" ∅ ∅;
     kv_PermittedHostDevices := Some {| php_PciHostDevices := []; php_USB := usbs |} |}.
Definition demo_handler : DevClaimHandler :=
  {| ch_nodeName := "n1"; ch_managedDevicePlugins := ∅; ch_retired := []; ch_waiting := 0 |}.
Definition claim_cluster : sim :=
  put KUSBDevice demo_unclaimed (put KUSBDeviceClaim demo_usb_claim (put KKubeVirt (demo_kubevirt []) sim_empty)).

Lemma enable_usb_post_witness :
  exists r s', enable_usb demo_usb_claim demo_unclaimed (State demo_handler (claim_cluster, [])) = (Ok r, s') /\
    (exists p, up_started p = true /\ ch_managedDevicePlugins (mem s') !! "n1-0951-1234-001002" = Some p).
Proof.
  assert (is_Ok (fst (enable_usb demo_usb_claim demo_unclaimed (State demo_handler (claim_cluster, [])))) = true)
    as Hok by (vm_compute; reflexivity).
  destruct (enable_usb _ _ _) as [[r|e|p] s'] eqn:E; [|discriminate Hok..].
  exists r, s'. split; [reflexivity|].
  destruct (enable_usb_post demo_usb_claim demo_unclaimed _ s' r E) as (_ & (p & Hp & Hm & _) & _).
  by exists p.
Defined.

(** Surroundings that answer the read of KubeVirt and refuse everything else. *)
#[local] Instance refusing_world : World unit := fun X e w =>
  match e in Eff X return (error + X) * unit with
  | ApiGet KKubeVirt _ _ => (inr (demo_kubevirt [usb_to_permit demo_unclaimed]), tt)
  | _ => (inl (Errorf "refused"), tt)
  end.

Lemma usb_release_gives_up_witness :
  exists s2, mem s2 = demo_handler /\
    disable_usb demo_usb_claim demo_unclaimed (State demo_handler tt) = (Ok (Some demo_usb_claim), s2).
Proof.
  refine (proj2 (proj2 (usb_release_gives_up demo_usb_claim demo_unclaimed (State demo_handler tt)
    (State demo_handler tt) (demo_kubevirt [usb_to_permit demo_unclaimed]) eq_refl))
    {| php_PciHostDevices := []; php_USB := [usb_to_permit demo_unclaimed] |} eq_refl _ _).
  - unfold permits. apply (bool_decide_unpack _). vm_compute. exact I.
  - intros kv'. exists (Errorf "refused"), (State demo_handler tt). split; reflexivity.
Defined.
