(* ===== verification/USBWatch.v ===== *)
(** * The goroutines that ask for USB passes (pkg/controller/usbdevice/usbdevice_controller.go)

    A goroutine of [WatchUSBDevices] reads the file events under /dev/bus/usb and puts
    a signal into a channel that holds one; the goroutine of [WatchReconcile] takes a
    signal and makes a pass; a pass whose walk over the devices fails ends there, and its
    error is only logged.  Enabling or releasing a device sends one too.  A file event is
    queued for a change in a directory that is watched; the root is watched always,
    a new directory once its creation is handled, a directory that goes is no longer
    watched.  The end of the program's context, errors of the watcher and a directory
    that exists but cannot be watched are not modelled. *)

From S2P Require Import Prelude.

(** A pass that has not yet walked the devices, and one that has. *)
Inductive pass := NoPass | Walking | Handling.

(** The directories under the root, and those watched; how many changes there were; the
    events not yet read, of which [Some d] is the creation of the directory [d];
    whether the watcher waits to send; how many releases do; the channel
    [reconcileSignal]; the pass; the changes there were when a pass last set out to walk,
    whether that walk failed, and the changes there were when a walk last succeeded. *)
Record watch := {
  w_dirs : gset string;
  w_watched : gset string;
  w_changes : nat;
  w_events : list (option string);
  w_sending : bool;
  w_releases : nat;
  w_reconcileSignal : bool;
  w_pass : pass;
  w_tried : nat;
  w_failed : bool;
  w_seen : nat
}.

(** After [WatchUSBDevices]: the first pass has walked before, when there were [seen]
    changes; had it failed, the process would not have started. *)
Definition WatchUSBDevices (dirs : gset string) (changes seen : nat) : watch :=
  {| w_dirs := dirs; w_watched := dirs; w_changes := changes; w_events := []; w_sending := false;
     w_releases := 0; w_reconcileSignal := false; w_pass := NoPass; w_tried := seen; w_failed := false; w_seen := seen |}.

(** The event of a created directory that is still there makes it watched. *)
Definition handleNewDirectory (event : option string) (w : watch) : gset string :=
  match event with
  | Some d => if bool_decide (d ∈ w_dirs w) then {[ d ]} ∪ w_watched w else w_watched w
  | None => w_watched w
  end.

(** What the goroutines do. *)
Definition read_event (event : option string) (rest : list (option string)) (w : watch) : watch :=
  {| w_dirs := w_dirs w; w_watched := handleNewDirectory event w; w_changes := w_changes w; w_events := rest;
     w_sending := true; w_releases := w_releases w; w_reconcileSignal := w_reconcileSignal w;
     w_pass := w_pass w; w_tried := w_tried w; w_failed := w_failed w; w_seen := w_seen w |}.
Definition send_event (w : watch) : watch :=
  {| w_dirs := w_dirs w; w_watched := w_watched w; w_changes := w_changes w; w_events := w_events w;
     w_sending := false; w_releases := w_releases w; w_reconcileSignal := true; w_pass := w_pass w; w_tried := w_tried w; w_failed := w_failed w; w_seen := w_seen w |}.
Definition send_release (n : nat) (w : watch) : watch :=
  {| w_dirs := w_dirs w; w_watched := w_watched w; w_changes := w_changes w; w_events := w_events w;
     w_sending := w_sending w; w_releases := n; w_reconcileSignal := true; w_pass := w_pass w; w_tried := w_tried w; w_failed := w_failed w; w_seen := w_seen w |}.
Definition receive_signal (w : watch) : watch :=
  {| w_dirs := w_dirs w; w_watched := w_watched w; w_changes := w_changes w; w_events := w_events w;
     w_sending := w_sending w; w_releases := w_releases w; w_reconcileSignal := false; w_pass := Walking; w_tried := w_tried w; w_failed := w_failed w; w_seen := w_seen w |}.
Definition set_pass (q : pass) (tried : nat) (failed : bool) (seen : nat) (w : watch) : watch :=
  {| w_dirs := w_dirs w; w_watched := w_watched w; w_changes := w_changes w; w_events := w_events w;
     w_sending := w_sending w; w_releases := w_releases w; w_reconcileSignal := w_reconcileSignal w; w_pass := q;
     w_tried := tried; w_failed := failed; w_seen := seen |}.

Inductive own_step : relation watch :=
| own_read w event rest : w_sending w = false -> w_events w = event :: rest -> own_step w (read_event event rest w)
| own_send w : w_sending w = true -> w_reconcileSignal w = false -> own_step w (send_event w)
| own_release w n : w_releases w = S n -> w_reconcileSignal w = false -> own_step w (send_release n w)
| own_receive w : w_pass w = NoPass -> w_reconcileSignal w = true -> own_step w (receive_signal w)
| own_walk w : w_pass w = Walking -> own_step w (set_pass Handling (w_changes w) false (w_changes w) w)
| own_walk_fails w : w_pass w = Walking -> own_step w (set_pass NoPass (w_changes w) true (w_seen w) w)
| own_finish w : w_pass w = Handling -> own_step w (set_pass NoPass (w_tried w) (w_failed w) (w_seen w) w).

(** What happens to the files, and the enabling or the release of a device, each of which
    spawns a goroutine that sends. *)
Definition changed (dirs watched : gset string) (events : list (option string)) (w : watch) : watch :=
  {| w_dirs := dirs; w_watched := watched; w_changes := S (w_changes w); w_events := w_events w ++ events;
     w_sending := w_sending w; w_releases := w_releases w; w_reconcileSignal := w_reconcileSignal w;
     w_pass := w_pass w; w_tried := w_tried w; w_failed := w_failed w; w_seen := w_seen w |}.
Definition released (w : watch) : watch :=
  {| w_dirs := w_dirs w; w_watched := w_watched w; w_changes := w_changes w; w_events := w_events w;
     w_sending := w_sending w; w_releases := S (w_releases w); w_reconcileSignal := w_reconcileSignal w;
     w_pass := w_pass w; w_tried := w_tried w; w_failed := w_failed w; w_seen := w_seen w |}.

Inductive step : relation watch :=
| step_own w w' : own_step w w' -> step w w'
| step_mkdir w d : d ∉ w_dirs w -> step w (changed ({[ d ]} ∪ w_dirs w) (w_watched w) [Some d] w)
| step_rmdir w d : d ∈ w_dirs w -> step w (changed (w_dirs w ∖ {[ d ]}) (w_watched w ∖ {[ d ]}) [None] w)
| step_file w d :
    d ∈ w_dirs w ->
    step w (changed (w_dirs w) (w_watched w) (if bool_decide (d ∈ w_watched w) then [None] else []) w)
| step_release w : step w (released w).

(** ** No change is missed *)

(** Something is on its way to a walk. *)
Definition due (w : watch) : Prop :=
  w_events w <> [] \/ w_sending w = true \/ w_reconcileSignal w = true \/ w_pass w = Walking.

Record watch_ok (first : nat) (w : watch) : Prop := {
  ok_watched : w_watched w ⊆ w_dirs w;
  ok_dirs : forall d, d ∈ w_dirs w -> d ∈ w_watched w \/ Some d ∈ w_events w;
  ok_tried : w_changes w = first \/ w_tried w = w_changes w \/ due w;
  ok_seen : w_failed w = false -> w_seen w = w_tried w
}.

Lemma handleNewDirectory_sub event w : w_watched w ⊆ w_dirs w -> handleNewDirectory event w ⊆ w_dirs w.
Proof. unfold handleNewDirectory. destruct event as [d|]; [|done]. case_bool_decide; set_solver. Qed.

Lemma watch_ok_own first w w' : own_step w w' -> watch_ok first w -> watch_ok first w'.
Proof.
  intros Hstep [Hw Hd Hs Hok]. destruct Hstep as [w event rest Hsend He|w|w n Hn|w|w|w|w Hp]; split; cbn; try done;
    try (unfold due in *; cbn in *; intuition congruence).
  - by apply handleNewDirectory_sub.
  - intros d Hin. rewrite He in Hd. destruct (Hd d Hin) as [Hd'|Hd']; [left|].
    + unfold handleNewDirectory. destruct event as [d0|]; [case_bool_decide; set_solver|done].
    + apply elem_of_cons in Hd' as [<-|?]; [left|by right].
      unfold handleNewDirectory. rewrite bool_decide_eq_true_2 by done. set_solver.
Qed.

Lemma app_not_nil {A} (l : list A) x : l ++ [x] <> [].
Proof. by destruct l. Qed.

(** A change of a file in a directory whose creation is still to be handled has no event of
    its own: the event of the creation is there. *)
Lemma watch_ok_step first w w' : first <= w_changes w -> step w w' -> watch_ok first w -> watch_ok first w'.
Proof.
  intros Hle Hstep Hok. destruct Hstep as [w w' Hown|w d Hnew|w d Hold|w d Hin|w]; [by eapply watch_ok_own| | | |].
  1-4: destruct Hok as [Hw Hd Hs Hok]; split; cbn; [set_solver| | |exact Hok].
  - intros d' Hd'. rewrite elem_of_app. apply elem_of_union in Hd' as [->%elem_of_singleton|Hd']; [right; right; left|].
    destruct (Hd d' Hd'); auto.
  - right; right; left. apply app_not_nil.
  - intros d' [Hd' Hne]%elem_of_difference. rewrite elem_of_app. destruct (Hd d' Hd'); [left; set_solver|auto].
  - right; right; left. apply app_not_nil.
  - intros d' Hd'. rewrite elem_of_app. destruct (Hd d' Hd'); auto.
  - right; right; left. cbn. case_bool_decide as Hwd; [apply app_not_nil|]. rewrite app_nil_r.
    destruct (Hd d Hin) as [?|He]; [done|]. intros E. rewrite E in He. by apply not_elem_of_nil in He.
  - done.
  - unfold due in *. cbn. tauto.
Qed.

Lemma changes_step w w' : step w w' -> w_changes w <= w_changes w'.
Proof. intros [? ? []| | | |]; cbn; lia. Qed.

Lemma watch_ok_reachable dirs changes seen w :
  rtc step (WatchUSBDevices dirs changes seen) w -> watch_ok changes w /\ changes <= w_changes w.
Proof.
  intros Hr. assert (watch_ok changes (WatchUSBDevices dirs changes seen) /\ changes <= w_changes (WatchUSBDevices dirs changes seen)) as Hinit.
  { split; [split; cbn; auto; set_solver|done]. }
  revert Hinit. induction Hr as [w|w w1 w' Hstep _ IH]; [done|]. intros [Hok Hle]. apply IH.
  split; [by eapply watch_ok_step|]. apply changes_step in Hstep. lia.
Qed.

(** ** The goroutines come to rest *)
Definition total (w : watch) : nat :=
  5 * length (w_events w) + (if w_sending w then 4 else 0) + 4 * w_releases w + (if w_reconcileSignal w then 3 else 0) +
  match w_pass w with NoPass => 0 | Walking => 2 | Handling => 1 end.

Lemma own_step_total w w' : own_step w w' -> total w' < total w.
Proof.
  intros [w0 event rest Hs He|w0 Hs Hr|w0 n Hn Hr|w0 Hp Hr|w0 Hp|w0 Hp|w0 Hp]; unfold total; cbn;
    rewrite ?Hs, ?He, ?Hr, ?Hn, ?Hp; cbn; repeat case_match; simplify_eq; lia.
Qed.

Definition at_rest (w : watch) : Prop :=
  w_events w = [] /\ w_sending w = false /\ w_releases w = 0 /\ w_reconcileSignal w = false /\ w_pass w = NoPass.

Lemma watch_progress w : (forall w', ~ own_step w w') -> at_rest w.
Proof.
  intros Hend. assert (w_pass w = NoPass) as Hp.
  { destruct (w_pass w) eqn:E; [done|exfalso; by eapply Hend, own_walk|exfalso; by eapply Hend, own_finish]. }
  assert (w_reconcileSignal w = false) as Hr.
  { destruct (w_reconcileSignal w) eqn:E; [|done]. exfalso. by eapply Hend, own_receive. }
  assert (w_sending w = false) as Hs.
  { destruct (w_sending w) eqn:E; [|done]. exfalso. by eapply Hend, own_send. }
  split_and!; [|done| |done..].
  - destruct (w_events w) as [|event rest] eqn:E; [done|]. exfalso. by eapply Hend, own_read.
  - destruct (w_releases w) as [|n] eqn:E; [done|]. exfalso. by eapply Hend, own_release.
Qed.

(** C19: every change of a USB device leads to a walk over the devices: whatever happened
    to the files while they were watched, in which order ever, once nothing happens any
    more the goroutines make at most a bounded number of moves, and when none is left
    every directory is watched and a pass has set out to walk the devices after the last
    change, so that it is seen if that walk succeeded.  A walk that fails is not
    repeated by these goroutines: the change is then seen by the next signal's pass, or
    by the pass that the node's controller makes every thirty seconds.  Also, changes
    between the first pass and the start of the watching, with none after them, lead to
    no walk of theirs. *)
Theorem usb_changes_seen (dirs : gset string) (changes seen : nat) (w : watch)
    (Hreach : rtc step (WatchUSBDevices dirs changes seen) w) :
  (forall n w', nsteps own_step n w w' -> n <= total w) /\
  (forall w', rtc own_step w w' -> (forall w'', ~ own_step w' w'') ->
     at_rest w' /\ w_watched w' = w_dirs w' /\
     (w_tried w' = w_changes w' \/ w_changes w' = changes) /\
     (w_failed w' = false -> w_seen w' = w_tried w')).
Proof.
  split.
  - intros n w' Hn. clear Hreach. induction Hn as [w|n w w1 w' Hstep _ IH]; [lia|]. apply own_step_total in Hstep. lia.
  - intros w' Hrun Hend. assert (rtc step (WatchUSBDevices dirs changes seen) w') as Hreach'.
    { etransitivity; [exact Hreach|]. clear -Hrun. induction Hrun as [|w w1 w' Hstep _ IH]; [done|].
      eapply rtc_l; [by apply step_own|done]. }
    apply watch_ok_reachable in Hreach' as [[Hw Hd Hs Hok] _]. apply watch_progress in Hend as Hrest.
    pose proof Hrest as (He & Hsend & _ & Hsig & Hp). split_and!; [done| | |exact Hok].
    + apply set_eq. intros d. split; [apply Hw|]. intros Hin. destruct (Hd d Hin) as [?|Hev]; [done|].
      rewrite He in Hev. by apply not_elem_of_nil in Hev.
    + destruct Hs as [?|[?|[?|[?|[?|?]]]]]; [by right|by left|congruence..].
Qed.

(** A device is plugged into a new directory before the watcher knows it. *)
Definition plugged : watch :=
  changed {[ "003"; "001" ]} {[ "001" ]} [] (changed {[ "003"; "001" ]} {[ "001" ]} [Some "003"] (WatchUSBDevices {[ "001" ]} 0 0)).

Lemma usb_changes_seen_witness :
  (forall n w', nsteps own_step n plugged w' -> n <= 5) /\
  (forall w', rtc own_step plugged w' -> (forall w'', ~ own_step w' w'') ->
     at_rest w' /\ w_watched w' = w_dirs w' /\
     (w_tried w' = w_changes w' \/ w_changes w' = 0) /\ (w_failed w' = false -> w_seen w' = w_tried w')).
Proof.
  apply (usb_changes_seen {[ "001" ]} 0 0 plugged).
  eapply rtc_l; [apply (step_mkdir _ "003"); by vm_compute|].
  eapply rtc_l; [apply (step_file _ "003"); by vm_compute|]. reflexivity.
Defined.

(** The walk of the only pass fails, and the goroutines come to rest with the changes
    unseen. *)
Lemma failed_walk_is_not_repeated : exists w, rtc own_step plugged w /\ at_rest w /\ w_seen w = 0 /\ w_changes w = 2.
Proof.
  eexists. split.
  - eapply rtc_l; [by apply (own_read _ (Some "003") [])|]. eapply rtc_l; [by apply own_send|].
    eapply rtc_l; [by apply own_receive|]. eapply rtc_l; [by apply own_walk_fails|]. reflexivity.
  - by unfold at_rest.
Qed.
