(* ===== verification/NodeCleanup.v ===== *)
(** * Cleaning up after a removed node (pkg/controller/nodecleanup)

    When a cluster node is deleted, the objects that describe its devices are
    deleted with it, the claims after their finalizers. *)

From S2P Require Import Prelude GoStrings GoMonad Types Effects USBController Sim.

Definition wranglerFinalizer : string := "wrangler.cattle.io/PCIDeviceClaimOnRemove".

Fixpoint containsFinalizer (finalizers : list string) (finalizer : string) : bool :=
  match finalizers with
  | [] => false
  | v :: rest => if v ==s finalizer then true else containsFinalizer rest finalizer
  end.

Definition removeFinalizer (finalizers : list string) (finalizer : string) : list string :=
  remove_first (fun v => v ==s finalizer) finalizers.

Definition set_pdc_meta (m : ObjectMeta) (c : PCIDeviceClaim) : PCIDeviceClaim :=
  {| pdc_meta := m; pdc_Spec := pdc_Spec c; pdc_Status := pdc_Status c |}.
Definition set_uc_meta (m : ObjectMeta) (c : USBDeviceClaim) : USBDeviceClaim :=
  {| uc_meta := m; uc_UserName := uc_UserName c; uc_Status := uc_Status c |}.

Section Handlers.
Context {Mem W : Type} `{World W}.
#[local] Abbreviation M := (M Mem W).

(** List the objects of a kind with the node's label and delete each: the bodies of
    [removePCIDevicesOnNode], [removeSRIOVNetworkDevicesOnNode],
    [removeUSBDevicesOnNode], [removeSRIOVGPUDevicesOnNode] and
    [removeVGPUDevicesOnNode], which differ in the client they use. *)
Definition remove_labelled (k : Kind) (nodeName : string) : M unit :=
  items <- eff (ApiList k "" {[ "nodename" := nodeName ]}) ;;
  for_each (fun o => eff (ApiDelete k (name_of o))) items.

Definition removePCIDevicesOnNode : string -> M unit := remove_labelled KPCIDevice.
Definition removeSRIOVNetworkDevicesOnNode : string -> M unit := remove_labelled KSRIOVNetworkDevice.
Definition removeUSBDevicesOnNode : string -> M unit := remove_labelled KUSBDevice.
Definition removeSRIOVGPUDevicesOnNode : string -> M unit := remove_labelled KSRIOVGPUDevice.
Definition removeVGPUDevicesOnNode : string -> M unit := remove_labelled KVGPUDevice.

Definition remove_claim (nodeName : string) (pdc : PCIDeviceClaim) : M unit :=
  if pdc_NodeName (pdc_Spec pdc) !=s nodeName then ret tt
  else
    (if containsFinalizer (m_Finalizers (pdc_meta pdc)) wranglerFinalizer
     then _ <- on_err (fun _ => Errorf "error removing finalizer")
            (eff (ApiUpdate KPCIDeviceClaim (set_pdc_meta (set_Finalizers
               (removeFinalizer (m_Finalizers (pdc_meta pdc)) wranglerFinalizer) (pdc_meta pdc)) pdc))) ;;
          ret tt
     else ret tt) ;;;
    eff (ApiDelete KPCIDeviceClaim (m_Name (pdc_meta pdc))).

Definition removePCIDeviceClaimsOnNode (nodeName : string) : M unit :=
  pdcs <- eff (ApiList KPCIDeviceClaim "" ∅) ;;
  for_each (remove_claim nodeName) pdcs.

Definition remove_usb_claim (nodeName : string) (c : USBDeviceClaim) : M unit :=
  if uc_NodeName (uc_Status c) !=s nodeName then ret tt
  else
    match m_Finalizers (uc_meta c) with
    | [] => ret tt
    | _ => _ <- eff (ApiUpdate KUSBDeviceClaim (set_uc_meta (set_Finalizers [] (uc_meta c)) c)) ;; ret tt
    end ;;;
    eff (ApiDelete KUSBDeviceClaim (m_Name (uc_meta c))).

Definition removeUSBDeviceClaimsOnNode (nodeName : string) : M unit :=
  claims <- eff (ApiList KUSBDeviceClaim "" ∅) ;;
  for_each (remove_usb_claim nodeName) claims.

Definition removeNodeObject (nodeName : string) : M unit :=
  r <- try (eff (ApiDelete KNode nodeName)) ;;
  match r with
  | inr _ => ret tt
  | inl err => if IsNotFound err then ret tt else fail err
  end.

Definition cleanupFuncs : list (string -> M unit) :=
  [removeNodeObject; removePCIDeviceClaimsOnNode; removePCIDevicesOnNode;
   removeSRIOVNetworkDevicesOnNode; removeUSBDeviceClaimsOnNode; removeUSBDevicesOnNode;
   removeSRIOVGPUDevicesOnNode; removeVGPUDevicesOnNode].

Definition node_OnRemove (node : option CoreNode) : M (option CoreNode) :=
  match node with
  | None => ret None
  | Some n =>
      if negb (m_DeletionTimestamp (cn_meta n)) then ret node
      else for_each (fun fn => fn (m_Name (cn_meta n))) cleanupFuncs ;;; ret node
  end.
End Handlers.

(** ** Which objects the clean-up deletes *)
Section Cleanup.
Context {Mem W : Type} `{World W} (node : string).
Implicit Types (s : state Mem (Logged W)).

(** The claim is one of a device of the node. *)
Definition claim_on_node (k : Kind) : Obj k -> Prop :=
  match k with
  | KPCIDeviceClaim => fun c => pdc_NodeName (pdc_Spec c) = node
  | KUSBDeviceClaim => fun c => uc_NodeName (uc_Status c) = node
  | _ => fun _ => False
  end.

(** The list [l] was asked for with the node's label, or [o] is a claim of the node. *)
Definition of_node {k} (sel : gmap string string) (o : Obj k) : Prop :=
  sel = {[ "nodename" := node ]} \/ claim_on_node k o.

(** The node's own object, or an object that a list contained. *)
Definition justified (k : Kind) (n : string) (evs : list event) : Prop :=
  (k = KNode /\ n = node) \/
  exists sel (l : list (Obj k)) o, Ev (ApiList k "" sel) (inr l) ∈ evs /\ o ∈ l /\ name_of o = n /\ of_node sel o.

(** Every object deleted or updated meanwhile is justified by a list read meanwhile. *)
Definition justifies : relation (state Mem (Logged W)) := fun s s' =>
  exists evs, log_of s' = log_of s ++ evs /\
    (forall k n r, Ev (ApiDelete k n) r ∈ evs -> justified k n evs) /\
    (forall k o r, Ev (ApiUpdate k o) r ∈ evs -> claim_on_node k o).

Lemma justified_mono k n l1 l2 : l1 ⊆ l2 -> justified k n l1 -> justified k n l2.
Proof. unfold justified. intros Hsub [?|(sel & l & o & ? & ?)]; [by left|]. right. exists sel, l, o. auto. Qed.

#[local] Instance justifies_preorder : PreOrder justifies.
Proof.
  split.
  - intros s. exists []. rewrite app_nil_r. split_and!; [done|..]; intros * Hin; by apply elem_of_nil in Hin.
  - intros a b c (e1 & L1 & D1 & U1) (e2 & L2 & D2 & U2). exists (e1 ++ e2).
    rewrite L2, L1, <- app_assoc. split_and!; [done|..]; intros * Hin; apply elem_of_app in Hin as [Hin|Hin].
    + eapply justified_mono; [|by eapply D1]. intros ev. rewrite elem_of_app. tauto.
    + eapply justified_mono; [|by eapply D2]. intros ev. rewrite elem_of_app. tauto.
    + by eapply U1.
    + by eapply U2.
Qed.

(** What a loop over a list that was just read may do. *)
Definition allowed (k : Kind) (sel : gmap string string) (l : list (Obj k)) (ev : event) : Prop :=
  match ev with
  | Ev e _ =>
      match e with
      | ApiDelete k' n => exists e : k = k', exists o, o ∈ l /\ name_of o = n /\ of_node sel o
      | ApiUpdate k' o => claim_on_node k' o
      | _ => False
      end
  end.

Lemma Steps_over_list (k : Kind) sel (f : Obj k -> M Mem (Logged W) unit) :
  (forall l o, o ∈ l -> Steps (emits (allowed k sel l)) (f o)) ->
  Steps justifies (l <- eff (ApiList k "" sel) ;; for_each f l).
Proof.
  intros Hf s. unfold bind. destruct (eff_log (ApiList k "" sel) s) as (r & w & _ & ->).
  destruct r as [e|l].
  - exists [Ev (ApiList k "" sel) (inl e)]. split_and!; [done|..]; intros * Hin;
      apply list_elem_of_singleton in Hin; discriminate Hin.
  - set (s1 := State _ _).
    destruct (Steps_for_each (emits (allowed k sel l)) f l (fun x Hx => Hf l x Hx) s1) as (evs & Hl & Hall).
    exists (Ev (ApiList k "" sel) (inr l) :: evs). split_and!.
    + rewrite Hl. unfold s1, log_of. cbn. by rewrite <- app_assoc.
    + intros k' n r Hin. apply elem_of_cons in Hin as [Hin|Hin]; [discriminate Hin|].
      rewrite Forall_forall in Hall. destruct (Hall _ Hin) as (-> & o & Ho & Hn & Hof).
      right. exists sel, l, o. split_and!; [left|done..].
    + intros k' o r Hin. apply elem_of_cons in Hin as [Hin|Hin]; [discriminate Hin|].
      rewrite Forall_forall in Hall. exact (Hall _ Hin).
Qed.

Lemma allowed_delete k sel (l : list (Obj k)) o n r :
  o ∈ l -> name_of o = n -> of_node sel o -> allowed k sel l (Ev (ApiDelete k n) r).
Proof. intros Ho Hn Hof. simpl. exists eq_refl, o. auto. Qed.

Lemma Steps_remove_labelled k : Steps justifies (remove_labelled k node).
Proof.
  apply Steps_over_list. intros l o Ho. apply Steps_emits_eff. intros r.
  apply (allowed_delete k _ l o); [done..|by left].
Qed.

Lemma Steps_removePCIDeviceClaims : Steps justifies (removePCIDeviceClaimsOnNode node).
Proof.
  apply Steps_over_list. intros l o Ho. unfold remove_claim. case_bool_decide as Hn; simpl; [|steps_tac].
  steps_tac; apply Steps_emits_eff; intros; [exact Hn|].
  apply (allowed_delete KPCIDeviceClaim _ l o); [done..|]. right. exact Hn.
Qed.

Lemma Steps_removeUSBDeviceClaims : Steps justifies (removeUSBDeviceClaimsOnNode node).
Proof.
  apply Steps_over_list. intros l o Ho. unfold remove_usb_claim. case_bool_decide as Hn; simpl; [|steps_tac].
  steps_tac; apply Steps_emits_eff; intros; try exact Hn;
    (apply (allowed_delete KUSBDeviceClaim _ l o); [done..|right; exact Hn]).
Qed.

Definition delete_of (ev : event) : option (Kind * string) :=
  match ev with Ev e _ => match e with ApiDelete k n => Some (k, n) | _ => None end end.

Lemma Steps_removeNodeObject : Steps justifies (removeNodeObject node).
Proof.
  intros s.
  assert (Steps (@emits Mem W (fun ev => exists r, ev = Ev (ApiDelete KNode node) r)) (removeNodeObject node)) as Hs.
  { unfold removeNodeObject. steps_tac. apply Steps_emits_eff. intros r. by exists r. }
  destruct (Hs s) as (evs & Hl & Hall). exists evs. rewrite Forall_forall in Hall.
  split_and!; [done|..]; intros * Hin; destruct (Hall _ Hin) as (r' & Heq).
  - left. apply (f_equal delete_of) in Heq. by injection Heq.
  - discriminate Heq.
Qed.

Lemma Steps_cleanup fn : fn ∈ cleanupFuncs -> Steps justifies (fn node).
Proof.
  unfold cleanupFuncs. rewrite !elem_of_cons, elem_of_nil.
  intros [->|[->|[->|[->|[->|[->|[->|[->|[]]]]]]]]]; try apply Steps_remove_labelled.
  - apply Steps_removeNodeObject.
  - apply Steps_removePCIDeviceClaims.
  - apply Steps_removeUSBDeviceClaims.
Qed.
End Cleanup.
#[export] Existing Instance justifies_preorder.

(** C39: what the clean-up after a node deletes belongs to the node: its own object, an
    object listed with the node's label, or a listed claim of one of its devices;
    and it updates claims of the node only. *)
Theorem node_cleanup_safe {Mem W} `{World W} (n : CoreNode) :
  Steps (justifies (Mem := Mem) (W := W) (m_Name (cn_meta n))) (node_OnRemove (Some n)).
Proof.
  unfold node_OnRemove. destruct (negb _); [steps_tac|].
  apply Steps_bind; [typeclasses eauto| |intros; steps_tac].
  apply Steps_for_each; [typeclasses eauto|]. intros fn. apply Steps_cleanup.
Qed.

(** ** What a successful clean-up deleted *)
Section Complete.
Context {Mem W : Type} `{World W} (node : string).
Implicit Types (s : state Mem (Logged W)).

(** Every listed object that concerns the node was deleted. *)
Definition cleared (k : Kind) (sel : gmap string string) (P : Obj k -> Prop) (log : list event) : Prop :=
  exists l : list (Obj k), Ev (ApiList k "" sel) (inr l) ∈ log /\
    Forall (fun o => P o -> deleted k (name_of o) log) l.

Lemma cleared_mono k sel P l1 l2 : l1 ⊆ l2 -> cleared k sel P l1 -> cleared k sel P l2.
Proof.
  intros Hsub (l & Hl & Hall). exists l. split; [by apply Hsub|].
  eapply Forall_impl; [exact Hall|]. intros o Ho HP. by apply Hsub, Ho.
Qed.

Lemma cleared_list (k : Kind) sel P (f : Obj k -> M Mem (Logged W) unit) s s' :
  (l <- eff (ApiList k "" sel) ;; for_each f l) s = (Ok tt, s') ->
  (forall x, Steps (emits any_event) (f x)) ->
  (forall o s1 s2, P o -> f o s1 = (Ok tt, s2) -> deleted k (name_of o) (log_of s2)) ->
  cleared k sel P (log_of s').
Proof.
  intros Hrun Hf Hdel. apply bind_Ok_inv in Hrun as (l & s1 & Hl & Hrun).
  apply eff_Ok_log in Hl as [Hl _]. exists l. split.
  - refine (log_mono _ any_event _ _ _ _ _ Hrun _); [apply Steps_for_each; [typeclasses eauto|auto]|].
    rewrite Hl. apply last_event.
  - apply (for_each_done f (fun o log => P o -> deleted k (name_of o) log) l s1 s' Hrun Hf).
    + intros o l1 l2 Hsub Ho HP. by apply Hsub, Ho.
    + intros o sa sb _ Ho HP. by eapply Hdel.
Qed.

Lemma remove_labelled_clears k s s' :
  remove_labelled k node s = (Ok tt, s') ->
  cleared k {[ "nodename" := node ]} (fun _ => True) (log_of s').
Proof.
  intros Hrun. eapply cleared_list; [exact Hrun|intros; steps_tac|].
  intros o s1 s2 _ Ho. apply eff_Ok_log in Ho as [-> _]. apply last_event.
Qed.

Lemma remove_claims_clears s s' :
  removePCIDeviceClaimsOnNode node s = (Ok tt, s') ->
  cleared KPCIDeviceClaim ∅ (fun c : PCIDeviceClaim => pdc_NodeName (pdc_Spec c) = node) (log_of s').
Proof.
  intros Hrun. eapply cleared_list; [exact Hrun|intros; unfold remove_claim; steps_tac|].
  intros o s1 s2 Hn Ho. unfold remove_claim in Ho. rewrite bool_decide_eq_true_2 in Ho by exact Hn.
  apply bind_Ok_inv in Ho as ([] & s3 & _ & Ho). apply eff_Ok_log in Ho as [-> _]. apply last_event.
Qed.

Lemma remove_usb_claims_clears s s' :
  removeUSBDeviceClaimsOnNode node s = (Ok tt, s') ->
  cleared KUSBDeviceClaim ∅ (fun c : USBDeviceClaim => uc_NodeName (uc_Status c) = node) (log_of s').
Proof.
  intros Hrun. eapply cleared_list; [exact Hrun|intros; unfold remove_usb_claim; steps_tac|].
  intros o s1 s2 Hn Ho. unfold remove_usb_claim in Ho. rewrite bool_decide_eq_true_2 in Ho by exact Hn.
  apply bind_Ok_inv in Ho as ([] & s3 & _ & Ho). apply eff_Ok_log in Ho as [-> _]. apply last_event.
Qed.

(** Everything that a successful clean-up clears. *)
Definition cleared_of (fn : string -> M Mem (Logged W) unit) (P : list event -> Prop) : Prop :=
  forall s s', fn node s = (Ok tt, s') -> P (log_of s').

(** When the clean-up succeeds, the lists it read of the node's PCI devices, SR-IOV
    network devices, USB devices, SR-IOV GPUs and vGPUs, and of all PCI and USB
    claims, hold nothing of the node that was not deleted. *)
Theorem node_cleanup_complete (n : CoreNode) s r s' :
  m_Name (cn_meta n) = node -> m_DeletionTimestamp (cn_meta n) = true ->
  node_OnRemove (Some n) s = (Ok r, s') ->
  (forall k, k ∈ [KPCIDevice; KSRIOVNetworkDevice; KUSBDevice; KSRIOVGPUDevice; KVGPUDevice] ->
     cleared k {[ "nodename" := node ]} (fun _ => True) (log_of s')) /\
  cleared KPCIDeviceClaim ∅ (fun c : PCIDeviceClaim => pdc_NodeName (pdc_Spec c) = node) (log_of s') /\
  cleared KUSBDeviceClaim ∅ (fun c : USBDeviceClaim => uc_NodeName (uc_Status c) = node) (log_of s').
Proof.
  intros Hnode Hdel. unfold node_OnRemove. rewrite Hdel, Hnode. cbn [negb]. intros Hrun.
  apply bind_Ok_inv in Hrun as ([] & s1 & Hrun & Hret). injection Hret as _ <-.
  assert (forall fn, fn ∈ cleanupFuncs (Mem := Mem) (W := Logged W) -> Steps (emits any_event) (fn node)) as Hany.
  { intros fn. unfold cleanupFuncs. rewrite !elem_of_cons, elem_of_nil.
    intros [->|[->|[->|[->|[->|[->|[->|[->|[]]]]]]]]];
      unfold removePCIDevicesOnNode, removeSRIOVNetworkDevicesOnNode, removeUSBDevicesOnNode,
        removeSRIOVGPUDevicesOnNode, removeVGPUDevicesOnNode, remove_labelled, removeNodeObject,
        removePCIDeviceClaimsOnNode, removeUSBDeviceClaimsOnNode, remove_claim, remove_usb_claim; steps_tac. }
  assert (forall fn (P : list event -> Prop), fn ∈ cleanupFuncs -> cleared_of fn P ->
    (forall l1 l2, l1 ⊆ l2 -> P l1 -> P l2) -> P (log_of s1)) as Hdone.
  { intros fn P. revert Hrun Hany. generalize (cleanupFuncs (Mem := Mem) (W := Logged W)) as fns. clear Hdel.
    intros fns. revert s. induction fns as [|g fns IH]; intros s0 Hrun Hany Hin HP Hmono.
    { by apply elem_of_nil in Hin. }
    cbn [for_each] in Hrun. apply bind_Ok_inv in Hrun as ([] & s2 & Hg & Hrun).
    apply elem_of_cons in Hin as [->|Hin].
    - eapply Hmono; [|by eapply HP]. intros ev Hev. refine (log_mono _ any_event _ _ _ _ _ Hrun Hev).
      apply Steps_for_each; [typeclasses eauto|]. intros f Hf. apply Hany. by right.
    - eapply IH; [exact Hrun|intros; apply Hany; by right|done..]. }
  split_and!.
  - intros k. rewrite !elem_of_cons, elem_of_nil. intros Hk.
    apply (Hdone (remove_labelled k)); [|intros ? ? Hx; by eapply remove_labelled_clears|apply cleared_mono].
    unfold cleanupFuncs. rewrite !elem_of_cons. destruct Hk as [->|[->|[->|[->|[->|[]]]]]]; tauto.
  - apply (Hdone removePCIDeviceClaimsOnNode);
      [|intros ? ? Hx; by eapply remove_claims_clears|apply cleared_mono].
    unfold cleanupFuncs. rewrite !elem_of_cons. tauto.
  - apply (Hdone removeUSBDeviceClaimsOnNode);
      [|intros ? ? Hx; by eapply remove_usb_claims_clears|apply cleared_mono].
    unfold cleanupFuncs. rewrite !elem_of_cons. tauto.
Qed.
End Complete.

Definition removed_node : CoreNode :=
  {| cn_meta := {| m_Kind := ""; m_APIVersion := ""; m_Name := "n1"; m_Namespace := ""; m_UID := "";
       m_Labels := ∅; m_Annotations := ∅; m_OwnerReferences := None; m_Finalizers := [];
       m_DeletionTimestamp := true |} |}.
Definition claim_of_node (name node : string) (finalizers : list string) : PCIDeviceClaim :=
  {| pdc_meta := set_Finalizers finalizers (new_meta name ∅ ∅);
     pdc_Spec := {| pdc_Address := ""; pdc_NodeName := node; pdc_UserName := "admin";
                    pdc_DisableResourcePooling := false |};
     pdc_Status := {| pdc_KernelDriverToUnbind := ""; pdc_PassthroughEnabled := true |} |}.
Definition two_nodes : sim :=
  put KPCIDeviceClaim (claim_of_node "n1-a" "n1" [wranglerFinalizer])
    (put KPCIDeviceClaim (claim_of_node "n2-a" "n2" [wranglerFinalizer])
      (put KUSBDevice (demo_stored_usb "n1-usb" "/dev/bus/usb/001/002" true) sim_empty)).

Lemma node_cleanup_complete_witness :
  exists r s', node_OnRemove (Some removed_node) (State tt (two_nodes, [])) = (Ok r, s') /\
    cleared KPCIDeviceClaim ∅ (fun c : PCIDeviceClaim => pdc_NodeName (pdc_Spec c) = "n1") (log_of s') /\
    cleared KUSBDevice {[ "nodename" := "n1" ]} (fun _ => True) (log_of s') /\
    elements (dom (sim_store (fst (world s')) KPCIDeviceClaim)) = ["n2-a"].
Proof.
  assert (is_Ok (fst (node_OnRemove (Some removed_node) (State tt (two_nodes, [])))) = true) as Hok
    by (vm_compute; reflexivity).
  assert (elements (dom (sim_store (fst (world (snd (node_OnRemove (Some removed_node)
    (State tt (two_nodes, [])))))) KPCIDeviceClaim)) = ["n2-a"]) as Hleft by (vm_compute; reflexivity).
  destruct (node_OnRemove _ _) as [[r|e|p] s'] eqn:E; [|discriminate Hok..].
  exists r, s'. split; [reflexivity|].
  destruct (node_cleanup_complete "n1" removed_node _ r s' eq_refl eq_refl E) as (Hall & Hpdc & _).
  split; [exact Hpdc|]. split; [|exact Hleft].
  apply Hall. apply (bool_decide_unpack _). vm_compute. exact I.
Defined.
