(* ===== verification/VirtualMachine.v ===== *)
(** * Devices of running virtual machines (pkg/controller/virtualmachine)

    The controller reads from the launcher pod which devices the kubelet gave to
    a VM, keeps them in an annotation of the VM, and on shutdown writes the
    devices' names into the VM's specification.

    The informer's cache of VMs hands out pointers to its own objects and the
    handlers write to them, so the cache is the memory of this component: a
    write that the API server then refuses stays in the cache. *)

From S2P Require Import Prelude GoStrings GoStringLemmas GoMonad Types Effects Common DevicePlugins Sim.
From Stdlib Require Import Ascii.

Definition kubevirtVMLabelKey : string := "vm.kubevirt.io/name".

(** The cached VMs, by namespace and name. *)
Definition VMCache : Type := gmap (string * string) VirtualMachine.

(** ** The environment of a pod *)
Definition env_entry (line : string) : string * string :=
  let lineArr := Split line "=" in
  (List.hd "" lineArr, Join (List.tl lineArr) "=").

(** Lines are read up to their newline; a last piece without one counts when it
    is not empty, which is what [raw_lines] keeps.  Reading from memory cannot
    fail otherwise. *)
Definition convertEnvToMap (podEnv : string) : gmap string string :=
  index_by (fun line => (env_entry line).1) (fun line => (env_entry line).2) (raw_lines podEnv).

(** ** Which device has an address, or a UUID *)
Definition buildVGPUMap (vgpuDevices : list VGPUDevice) : gmap string string :=
  index_by (fun v => vgpu_UUID (vgpu_Status v)) (fun v => m_Name (vgpu_meta v))
    (List.filter (fun v => vgpu_UUID (vgpu_Status v) !=s "") vgpuDevices).

Definition buildPCIDeviceMap (pciDevices : list PCIDevice) : gmap string string :=
  index_by (fun d => pd_Address (pd_Status d)) (fun d => m_Name (pd_meta d)) pciDevices.

(** A map read without the [ok] flag: the zero value where the key is missing. *)
Definition go_index (m : gmap string string) (k : string) : string := default "" (m !! k).

Section Details.
Context `{External}.

(** One pass over the requested devices: the first request of a resource that the
    environment names adds all its devices. *)
Definition add_details (names_of : string -> option (list string))
    (m : gmap string (list string)) (device : DeviceRef) : gmap string (list string) :=
  match names_of (dr_DeviceName device) with
  | None => m
  | Some deviceInfo =>
      match m !! dr_DeviceName device with
      | Some _ => m
      | None => <[dr_DeviceName device := deviceInfo]> m
      end
  end.

Definition gpu_names (envMap vGPUMap : gmap string string) (resource : string) : option (list string) :=
  val ← envMap !! ResourceNameToEnvVar VGPUPrefix resource;
  Some (go_index vGPUMap <$> Split val ",").

Definition pci_names (envMap pciDeviceMap : gmap string string) (resource : string) : option (list string) :=
  val ← envMap !! ResourceNameToEnvVar PCIResourcePrefix resource;
  Some (go_index pciDeviceMap <$> slices_Compact (Split val ",")).

Definition reconcileGPUDetails (vmi : VirtualMachineInstance) (envMap vGPUMap : gmap string string)
    : gmap string (list string) :=
  fold_left (add_details (gpu_names envMap vGPUMap)) (vmi_GPUs vmi) ∅.

Definition reconcilePCIDeviceDetails (vmi : VirtualMachineInstance)
    (envMap pciDeviceMap : gmap string string) : gmap string (list string) :=
  fold_left (add_details (pci_names envMap pciDeviceMap)) (vmi_HostDevices vmi) ∅.
End Details.

Definition dedupDevices (deviceMap : gmap string (list string)) : gmap string (list string) :=
  slices_Compact <$> deviceMap.

(** An absent map is an empty one. *)
Definition generateAllocationDetails (hostDeviceMap gpuMap : gmap string (list string)) : AllocationDetails :=
  {| ad_GPUs := dedupDevices gpuMap; ad_HostDevices := dedupDevices hostDeviceMap |}.

(** ** Naming a VM's devices after those it was given *)
Definition set_Name (n : string) (d : DeviceRef) : DeviceRef :=
  {| dr_Name := n; dr_DeviceName := dr_DeviceName d |}.

(** The loop of [patchHostDevices] and [patchGPUDevices]: the devices as it leaves
    them, and whether it stopped with an index out of range, [actualDevices[0]]
    of a list whose names are used up. *)
Fixpoint patch_devices (devices : list DeviceRef) (deviceInfo : gmap string (list string))
    : list DeviceRef * bool :=
  match devices with
  | [] => ([], false)
  | device :: rest =>
      match deviceInfo !! dr_DeviceName device with
      | None => let '(r, p) := patch_devices rest deviceInfo in (device :: r, p)
      | Some [] => (device :: rest, true)
      | Some (name :: names) =>
          let '(r, p) := patch_devices rest (<[dr_DeviceName device := names]> deviceInfo) in
          (set_Name name device :: r, p)
      end
  end.

Definition set_HostDevices (l : list DeviceRef) (vm : VirtualMachine) : VirtualMachine :=
  {| vm_meta := vm_meta vm; vm_Template := vm_Template vm; vm_HostDevices := l; vm_GPUs := vm_GPUs vm |}.
Definition set_GPUs (l : list DeviceRef) (vm : VirtualMachine) : VirtualMachine :=
  {| vm_meta := vm_meta vm; vm_Template := vm_Template vm; vm_HostDevices := vm_HostDevices vm; vm_GPUs := l |}.
Definition set_vm_Annotations (a : gmap string string) (vm : VirtualMachine) : VirtualMachine :=
  {| vm_meta := set_Annotations a (vm_meta vm); vm_Template := vm_Template vm; vm_HostDevices := vm_HostDevices vm;
     vm_GPUs := vm_GPUs vm |}.

(** The VM as the call leaves it, and whether it panicked. *)
Definition patchHostDevices (vm : VirtualMachine) (deviceInfo : gmap string (list string))
    : VirtualMachine * bool :=
  let '(l, p) := patch_devices (vm_HostDevices vm) deviceInfo in (set_HostDevices l vm, p).
Definition patchGPUDevices (vm : VirtualMachine) (deviceInfo : gmap string (list string))
    : VirtualMachine * bool :=
  let '(l, p) := patch_devices (vm_GPUs vm) deviceInfo in (set_GPUs l vm, p).

(** ** The handlers *)
Section Handlers.
Context `{External} {W : Type} `{World W}.
Implicit Types (vmi : VirtualMachineInstance) (vm : VirtualMachine).
#[local] Abbreviation M := (M VMCache W).

(** The key of the VM that a VMI runs: they share namespace and name. *)
Definition vm_key vmi : string * string := (m_Namespace (vmi_meta vmi), m_Name (vmi_meta vmi)).

Definition vmCache_Get (key : string * string) : M VirtualMachine :=
  cache <- get_mem ;;
  match cache !! key with
  | Some vm => ret vm
  | None => fail (Error KNotFound "virtualmachine not found")
  end.
(** A write through the pointer that [vmCache_Get] returned. *)
Definition write_cached (key : string * string) vm : M unit := modify_mem (<[key := vm]>).

Definition findPodForVMI vmi : M Pod :=
  podList <- on_err (fun _ => Errorf "error listing pods")
    (eff (ApiList KPod (m_Namespace (vmi_meta vmi)) {[ kubevirtVMLabelKey := m_Name (vmi_meta vmi) ]})) ;;
  match List.filter (fun p => pod_Phase p ==s Pod_Running) podList with
  | [runningPod] => ret runningPod
  | _ => fail (Errorf "expected to find 1 pod associated with vmi")
  end.

Definition getPodEnv (pod : Pod) : M string :=
  on_err (fun _ => Errorf "error setting up remote executor for pod") (eff KubeClient) ;;;
  eff (ExecRun (RemoteExecutor (m_Name (pod_meta pod))) "env" []).

Definition generatePodEnvMap vmi : M (gmap string string) :=
  pod <- findPodForVMI vmi ;;
  podEnv <- getPodEnv pod ;;
  ret (convertEnvToMap podEnv).

Definition reconcileVMResourceAllocationAnnotation vmi (deviceDetails : string) : M unit :=
  vmObj <- on_err (fun _ => Errorf "error fetching vm from cache") (vmCache_Get (vm_key vmi)) ;;
  let annotations := m_Annotations (vm_meta vmObj) in
  if go_index annotations DeviceAllocationKey !=s deviceDetails then
    let vmObj' := set_vm_Annotations (<[DeviceAllocationKey := deviceDetails]> annotations) vmObj in
    write_cached (vm_key vmi) vmObj' ;;;
    _ <- eff (ApiUpdate KVirtualMachine vmObj') ;;
    ret tt
  else ret tt.

Definition checkAndClearDeviceAllocation vmi : M unit :=
  vmObj <- on_err (fun _ => Errorf "error fetching vm from cache") (vmCache_Get (vm_key vmi)) ;;
  let annotations := m_Annotations (vm_meta vmObj) in
  match annotations !! DeviceAllocationKey with
  | None => ret tt
  | Some _ =>
      let vmObj' := set_vm_Annotations (delete DeviceAllocationKey annotations) vmObj in
      write_cached (vm_key vmi) vmObj' ;;;
      _ <- eff (ApiUpdate KVirtualMachine vmObj') ;;
      ret tt
  end.

(** A cache of this node's devices, read only when the VMI asks for such devices. *)
Definition devices_when {k} (requested : list DeviceRef) vmi (what : string) : M (list (Obj k)) :=
  match requested with
  | [] => ret []
  | _ => on_err (fun _ => Errorf what) (eff (CacheList k {[ "nodename" := vmi_NodeName vmi ]}))
  end.

Definition reconcileDeviceAllocationDetails vmi (envMap : gmap string string) : M unit :=
  pciDevices <- devices_when (k := KPCIDevice) (vmi_HostDevices vmi) vmi "error listing pcidevices from cache" ;;
  vgpuDevices <- devices_when (k := KVGPUDevice) (vmi_GPUs vmi) vmi "error listing vgpudevices from cache" ;;
  let hostDeviceMap := reconcilePCIDeviceDetails vmi envMap (buildPCIDeviceMap pciDevices) in
  let gpuMap := reconcileGPUDetails vmi envMap (buildVGPUMap vgpuDevices) in
  reconcileVMResourceAllocationAnnotation vmi
    (marshal_AllocationDetails (generateAllocationDetails hostDeviceMap gpuMap)).

Definition trackDevices vmi : M unit :=
  envMap <- generatePodEnvMap vmi ;;
  reconcileDeviceAllocationDetails vmi envMap.

(** [len(HostDevices) == 0 && len(GPUs) == 0]. *)
Definition asks_for_nothing vmi : bool :=
  match vmi_HostDevices vmi, vmi_GPUs vmi with [], [] => true | _, _ => false end.

(** Both handlers answer with the object they were given. *)
Definition OnVMIChange (nodeName : string) (o : option VirtualMachineInstance)
    : M (option VirtualMachineInstance) :=
  match o with
  | None => ret None
  | Some vmi =>
      if m_DeletionTimestamp (vmi_meta vmi) then ret (Some vmi)
      else if vmi_Phase vmi !=s VMI_Running then ret (Some vmi)
      else if asks_for_nothing vmi then checkAndClearDeviceAllocation vmi ;;; ret (Some vmi)
      else if vmi_NodeName vmi !=s nodeName then ret (Some vmi)
      else trackDevices vmi ;;; ret (Some vmi)
  end.

(** The VM that the deletion handler finds in the cache, when it has one to treat. *)
Definition patch_vm vmi (details : AllocationDetails) vm : VirtualMachine * bool :=
  let '(vm1, p1) :=
    match vmi_HostDevices vmi with
    | [] => (vm, false)
    | _ => patchHostDevices vm (ad_HostDevices details)
    end in
  if p1 : bool then (vm1, true) else
  match vmi_GPUs vmi with
  | [] => (vm1, false)
  | _ => patchGPUDevices vm1 (ad_GPUs details)
  end.

(** [reflect.DeepEqual] of the VM's devices before and after. *)
Definition same_devices vm1 vm2 : bool :=
  bool_decide (vm_HostDevices vm1 = vm_HostDevices vm2) && bool_decide (vm_GPUs vm1 = vm_GPUs vm2).

Definition OnVMIDeletion (nodeName : string) (o : option VirtualMachineInstance)
    : M (option VirtualMachineInstance) :=
  match o with
  | None => ret None
  | Some vmi =>
      if negb (m_DeletionTimestamp (vmi_meta vmi)) then ret (Some vmi)
      else if asks_for_nothing vmi then ret (Some vmi)
      else
        r <- try (vmCache_Get (vm_key vmi)) ;;
        match r with
        | inl e => if IsNotFound e then ret (Some vmi)
                   else fail (Errorf "error fetching vm object for vmi")
        | inr vmObj =>
            if m_DeletionTimestamp (vm_meta vmObj) then ret (Some vmi)
            else if vmi_NodeName vmi !=s nodeName then ret (Some vmi)
            else
              match m_Annotations (vm_meta vmObj) !! DeviceAllocationKey with
              | None => ret (Some vmi)
              | Some val =>
                  match unmarshal_AllocationDetails val with
                  | None => fail (Errorf "error unmarshalling allocation details annotation")
                  | Some allocationDetails =>
                      with_template vmObj
                        (let '(vmObj', panicked) := patch_vm vmi allocationDetails vmObj in
                         write_cached (vm_key vmi) vmObj' ;;;
                         if panicked : bool then panic "index out of range [0] with length 0"
                         else if same_devices vmObj' vmObj then ret (Some vmi)
                         else _ <- eff (ApiUpdate KVirtualMachine vmObj') ;; ret (Some vmi))
                  end
              end
        end
  end.
End Handlers.

(** ** The environment *)

(** What [env] prints: a line for every variable. *)
Definition env_line (p : string * string) : string := p.1 +:+ String "="%char p.2.
Definition env_text (l : list (string * string)) : string :=
  foldr (fun p t => env_line p +:+ String "010"%char t) ""%string l.

(** A name without "=", and name and value on one line. *)
Definition plain_entry (p : string * string) : Prop :=
  str_mem "="%char p.1 = false /\ str_mem "010"%char p.1 = false /\ str_mem "010"%char p.2 = false.

Lemma env_entry_line p : str_mem "="%char p.1 = false -> env_entry (env_line p) = p.
Proof.
  destruct p as [k v]. simpl. intros Hk. unfold env_entry, env_line. simpl.
  change "="%string with (str1 "="%char). rewrite (Split_char_app "="%char k v Hk). simpl. f_equal.
  apply (Join_Split_char "="%char).
Qed.

Lemma Split_env_text l :
  Forall plain_entry l -> Split (env_text l) newline = (env_line <$> l) ++ [""%string].
Proof.
  induction 1 as [|p l (Hk & Hn & Hv) _ IH]; [done|]. simpl. unfold newline in *.
  rewrite (Split_char_app "010"%char).
  - by rewrite IH.
  - unfold env_line. rewrite str_mem_app, Hn. simpl. by rewrite Hv.
Qed.

Lemma raw_lines_env_text l : Forall plain_entry l -> raw_lines (env_text l) = env_line <$> l.
Proof.
  intros Hl. unfold raw_lines. rewrite (Split_env_text l Hl), last_last.
  rewrite bool_decide_eq_true_2 by done. apply removelast_last.
Qed.

(** The pod's environment is read back as it was: for variables of one line whose
    names hold no "=" (their values may), the map that [convertEnvToMap] makes
    of the printed environment holds, under every name, the value that the last
    variable of that name has. *)
Theorem convertEnvToMap_reads (l : list (string * string)) :
  Forall plain_entry l ->
  convertEnvToMap (env_text l) = fold_left (fun m p => <[p.1 := p.2]> m) l ∅.
Proof.
  intros Hl. unfold convertEnvToMap. rewrite (raw_lines_env_text l Hl). unfold index_by.
  generalize (∅ : gmap string string) as m.
  induction Hl as [|p l (Hk & _ & _) _ IH]; intros m; [done|].
  rewrite fmap_cons. cbn [fold_left]. rewrite (env_entry_line p Hk). apply IH.
Qed.

Definition demo_env : list (string * string) :=
  [("PATH", "/bin"); ("OPTS", "a=b=c"); ("PCI_RESOURCE_X", "0000:04:10.0,0000:04:10.1")]%string.

Lemma convertEnvToMap_reads_witness :
  convertEnvToMap (env_text demo_env) = fold_left (fun m p => <[p.1 := p.2]> m) demo_env ∅ /\
  convertEnvToMap (env_text demo_env) !! "OPTS"%string = Some "a=b=c"%string.
Proof.
  split.
  - apply (convertEnvToMap_reads demo_env). by repeat constructor.
  - vm_compute. reflexivity.
Defined.

(** ** Which names the annotation records *)
Lemma fold_add_details_lookup (names_of : string -> option (list string)) devices m r :
  fold_left (add_details names_of) devices m !! r =
  match m !! r with
  | Some names => Some names
  | None => if bool_decide (r ∈ dr_DeviceName <$> devices) then names_of r else None
  end.
Proof.
  revert m. induction devices as [|d l IH]; intros m.
  { simpl. by destruct (m !! r). }
  cbn [fold_left]. rewrite IH, fmap_cons. unfold add_details.
  destruct (decide (r = dr_DeviceName d)) as [->|Hne].
  - rewrite (bool_decide_eq_true_2 (_ ∈ _ :: _)) by left.
    destruct (names_of (dr_DeviceName d)) as [ns|] eqn:Hn, (m !! dr_DeviceName d) as [x|] eqn:Hm;
      simplify_map_eq; try done. by case_bool_decide.
  - rewrite (bool_decide_ext (r ∈ dr_DeviceName d :: _) (r ∈ dr_DeviceName <$> l))
      by (rewrite elem_of_cons; tauto).
    by destruct (names_of (dr_DeviceName d)), (m !! dr_DeviceName d); simplify_map_eq.
Qed.


Lemma Forall2_lookup_names (m : gmap string string) {D} (addr name : D -> string) (addrs : list string) (ds : list D) :
  (forall d, d ∈ ds -> m !! addr d = Some (name d)) ->
  addrs = addr <$> ds -> go_index m <$> addrs = name <$> ds.
Proof.
  intros Hm ->. rewrite <- list_fmap_compose. apply list_fmap_ext. intros i d Hi. simpl.
  unfold go_index. rewrite Hm; [done|]. by eapply list_elem_of_lookup_2.
Qed.

(** The annotation of a VM names, for every resource it asks for and in the order
    of the pod's environment, the PCI devices whose addresses the environment
    lists, each once when repetitions of an address are adjacent. *)
Theorem annotation_names_devices `{External} vmi envMap gpuMap r
    (listed : list string) (pciDevices ds : list PCIDevice) :
  r ∈ dr_DeviceName <$> vmi_HostDevices vmi ->
  envMap !! ResourceNameToEnvVar PCIResourcePrefix r = Some (Join listed ",") ->
  listed <> [] -> Forall (fun a => str_mem ","%char a = false) listed ->
  slices_Compact listed = (fun d => pd_Address (pd_Status d)) <$> ds ->
  (forall d, d ∈ ds -> d ∈ pciDevices) ->
  NoDup ((fun d => pd_Address (pd_Status d)) <$> pciDevices) ->
  NoDup ((fun d => m_Name (pd_meta d)) <$> ds) ->
  ad_HostDevices (generateAllocationDetails
    (reconcilePCIDeviceDetails vmi envMap (buildPCIDeviceMap pciDevices)) gpuMap) !! r
  = Some ((fun d => m_Name (pd_meta d)) <$> ds).
Proof.
  intros Hr Henv Hne Hcomma Hcompact Hsub Hnd Hnames. simpl. unfold dedupDevices.
  rewrite lookup_fmap. unfold reconcilePCIDeviceDetails.
  rewrite fold_add_details_lookup, lookup_empty, bool_decide_eq_true_2 by done.
  unfold pci_names. rewrite Henv. simpl. f_equal.
  change ","%string with (str1 ","%char). rewrite (Split_Join_char ","%char listed Hne Hcomma).
  rewrite Hcompact.
  rewrite (Forall2_lookup_names _ (fun d => pd_Address (pd_Status d)) (fun d => m_Name (pd_meta d)) _ ds); [|intros d Hd|done].
  - by apply slices_Compact_NoDup.
  - exact (index_by_NoDup (fun d => pd_Address (pd_Status d)) (fun d => m_Name (pd_meta d))
      pciDevices d Hnd (Hsub d Hd)).
Qed.

Definition demo_pci (name address : string) : PCIDevice :=
  {| pd_meta := new_meta name ∅ ∅;
     pd_Status := {| pd_Address := address; pd_VendorID := ""; pd_DeviceID := ""; pd_ClassID := "";
       pd_IOMMUGroup := ""; pd_NodeName := "n1"; pd_ResourceName := ""; pd_Description := "";
       pd_KernelDriverInUse := "" |} |}.
Definition demo_devices : list PCIDevice :=
  [demo_pci "n1-a" "0000:04:10.0"; demo_pci "n1-b" "0000:04:10.1"; demo_pci "n1-c" "0000:05:00.0"].
Definition demo_vmi (devices : list DeviceRef) : VirtualMachineInstance :=
  {| vmi_meta := new_meta "vm1" ∅ ∅; vmi_HostDevices := devices; vmi_GPUs := [];
     vmi_Phase := VMI_Running; vmi_NodeName := "n1" |}.
Definition demo_requests : list DeviceRef :=
  [{| dr_Name := "x"; dr_DeviceName := "intel.com/X" |}; {| dr_Name := "y"; dr_DeviceName := "intel.com/X" |}].
Definition demo_listed : list string := ["0000:04:10.1"; "0000:04:10.1"; "0000:04:10.0"].
Definition demo_envMap : gmap string string :=
  {[ ResourceNameToEnvVar PCIResourcePrefix "intel.com/X" := Join demo_listed "," ]}.

Lemma annotation_names_devices_witness :
  ad_HostDevices (generateAllocationDetails
    (reconcilePCIDeviceDetails (demo_vmi demo_requests) demo_envMap (buildPCIDeviceMap demo_devices)) ∅)
    !! "intel.com/X" = Some ["n1-b"; "n1-a"].
Proof.
  apply (annotation_names_devices (demo_vmi demo_requests) demo_envMap ∅ "intel.com/X"
    demo_listed demo_devices
    [demo_pci "n1-b" "0000:04:10.1"; demo_pci "n1-a" "0000:04:10.0"]).
  - left.
  - vm_compute. reflexivity.
  - discriminate.
  - by repeat constructor.
  - vm_compute. reflexivity.
  - intros d. rewrite !elem_of_cons. unfold demo_devices. rewrite !elem_of_cons. tauto.
  - apply (bool_decide_unpack _). vm_compute. exact I.
  - apply (bool_decide_unpack _). vm_compute. exact I.
Defined.

(** Repetitions that are not adjacent survive both deduplications. *)
Example repeated_apart :
  ad_HostDevices (generateAllocationDetails
    (reconcilePCIDeviceDetails (demo_vmi demo_requests)
      {[ ResourceNameToEnvVar PCIResourcePrefix "intel.com/X" := "0000:04:10.0,0000:04:10.1,0000:04:10.0" ]}
      (buildPCIDeviceMap demo_devices)) ∅)
    !! "intel.com/X" = Some ["n1-a"; "n1-b"; "n1-a"].
Proof. vm_compute. reflexivity. Qed.

(** ** Naming the devices at shutdown *)

(** How many of the devices ask for the resource. *)
Definition requests (r : string) (l : list DeviceRef) : nat :=
  length (List.filter (fun d => dr_DeviceName d ==s r) l).

(** The device with the name that its turn among the requests of its resource
    selects. *)
Definition named (deviceInfo : gmap string (list string)) (before : list DeviceRef) (d : DeviceRef) : DeviceRef :=
  match deviceInfo !! dr_DeviceName d with
  | None => d
  | Some names =>
      match names !! requests (dr_DeviceName d) before with
      | Some n => set_Name n d
      | None => d
      end
  end.

Lemma named_pop info d names n before d' :
  info !! dr_DeviceName d = Some (n :: names) ->
  named (<[dr_DeviceName d := names]> info) before d' = named info (d :: before) d'.
Proof.
  intros Hd. unfold named, requests. simpl.
  destruct (decide (dr_DeviceName d = dr_DeviceName d')) as [E|E].
  - rewrite <- E, lookup_insert_eq, Hd, !(bool_decide_eq_true_2 (dr_DeviceName d = _)) by done. done.
  - rewrite lookup_insert_ne by done. by rewrite (bool_decide_eq_false_2 (dr_DeviceName d = _)).
Qed.

Lemma named_skip info d before d' :
  info !! dr_DeviceName d = None -> named info before d' = named info (d :: before) d'.
Proof.
  intros Hd. unfold named, requests. simpl.
  destruct (decide (dr_DeviceName d = dr_DeviceName d')) as [E|E].
  - by rewrite <- E, Hd.
  - by rewrite (bool_decide_eq_false_2 (dr_DeviceName d = _)).
Qed.

(** There is a name for every request. *)
Definition enough (deviceInfo : gmap string (list string)) (l : list DeviceRef) : Prop :=
  forall r names, deviceInfo !! r = Some names -> requests r l <= length names.

Lemma requests_cons r d l :
  requests r (d :: l) = (if bool_decide (dr_DeviceName d = r) then 1 else 0) + requests r l.
Proof. unfold requests. simpl. by case_bool_decide. Qed.

Lemma enough_pop info d names n l :
  info !! dr_DeviceName d = Some (n :: names) ->
  enough (<[dr_DeviceName d := names]> info) l <-> enough info (d :: l).
Proof.
  intros Hd. unfold enough. split; intros Hen r ns Hr.
  - rewrite requests_cons. destruct (decide (dr_DeviceName d = r)) as [<-|E].
    + rewrite bool_decide_eq_true_2 by done. rewrite Hd in Hr. injection Hr as <-. simpl.
      specialize (Hen (dr_DeviceName d) names (lookup_insert_eq _ _ _)). lia.
    + rewrite bool_decide_eq_false_2 by done. apply Hen. by rewrite lookup_insert_ne.
  - destruct (decide (dr_DeviceName d = r)) as [<-|E].
    + rewrite lookup_insert_eq in Hr. injection Hr as <-. specialize (Hen _ _ Hd).
      rewrite requests_cons, bool_decide_eq_true_2 in Hen by done. simpl in Hen. lia.
    + rewrite lookup_insert_ne in Hr by done. specialize (Hen _ _ Hr).
      by rewrite requests_cons, bool_decide_eq_false_2 in Hen.
Qed.

Lemma enough_skip info d l :
  info !! dr_DeviceName d = None -> enough info l <-> enough info (d :: l).
Proof.
  intros Hd. unfold enough. split; intros Hen r ns Hr; specialize (Hen r ns Hr);
    rewrite requests_cons, bool_decide_eq_false_2 in *; try done; intros <-; congruence.
Qed.

Lemma patch_devices_lookup l info l' p :
  patch_devices l info = (l', p) ->
  (p = false <-> enough info l) /\
  (p = false -> forall i d, l !! i = Some d -> l' !! i = Some (named info (take i l) d)).
Proof.
  revert info l' p. induction l as [|d l IH]; intros info l' p; simpl.
  - intros [= <- <-]. split; [|done]. split; [intros _ r ns _; simpl; unfold requests; simpl; lia|done].
  - destruct (info !! dr_DeviceName d) as [[|n names]|] eqn:Hd.
    + intros [= <- <-]. split; [|done]. split; [done|]. intros Hen. specialize (Hen _ _ Hd).
      rewrite requests_cons, bool_decide_eq_true_2 in Hen by done. simpl in Hen. lia.
    + destruct (patch_devices l _) as [r q] eqn:E. intros [= <- <-].
      apply IH in E as [Hq Hl]. split; [rewrite Hq; by apply (enough_pop info d names n)|].
      intros Hp [|i] d' Hi; simpl in *.
      * injection Hi as <-. unfold named. by rewrite Hd.
      * rewrite (Hl Hp i d' Hi). f_equal. by eapply named_pop.
    + destruct (patch_devices l info) as [r q] eqn:E. intros [= <- <-].
      apply IH in E as [Hq Hl]. split; [by rewrite Hq; apply enough_skip|].
      intros Hp [|i] d' Hi; simpl in *.
      * injection Hi as <-. unfold named. by rewrite Hd.
      * rewrite (Hl Hp i d' Hi). f_equal. by apply named_skip.
Qed.

Lemma patch_devices_length l info : length (fst (patch_devices l info)) = length l.
Proof.
  revert info. induction l as [|d l IH]; intros info; simpl; [done|].
  destruct (info !! dr_DeviceName d) as [[|n names]|]; [done|..].
  - specialize (IH (<[dr_DeviceName d := names]> info)).
    destruct (patch_devices l _). simpl in *. by rewrite IH.
  - specialize (IH info). destruct (patch_devices l info). simpl in *. by rewrite IH.
Qed.

(** C26: at shutdown the host devices of a VM get the names they were given while it
    ran: the k-th request of a resource gets the k-th name recorded for it, the
    devices of other resources keep theirs, and nothing else of the VM changes;
    when fewer names than requests are recorded, the handler's process
    panics. *)
Theorem patchHostDevices_spec (vm : VirtualMachine) (deviceInfo : gmap string (list string)) :
  let '(vm', panicked) := patchHostDevices vm deviceInfo in
  vm_meta vm' = vm_meta vm /\ vm_GPUs vm' = vm_GPUs vm /\
  length (vm_HostDevices vm') = length (vm_HostDevices vm) /\
  (panicked = true <-> ~ enough deviceInfo (vm_HostDevices vm)) /\
  (panicked = false -> forall i d, vm_HostDevices vm !! i = Some d ->
     vm_HostDevices vm' !! i = Some (named deviceInfo (take i (vm_HostDevices vm)) d)).
Proof.
  unfold patchHostDevices. destruct (patch_devices (vm_HostDevices vm) deviceInfo) as [l p] eqn:E.
  pose proof (patch_devices_length (vm_HostDevices vm) deviceInfo) as Hlen. rewrite E in Hlen.
  apply patch_devices_lookup in E as [Hp Hl]. split_and!; [done..| |exact Hl].
  rewrite <- Hp. by destruct p.
Qed.

(** Two requests, one recorded name: the second request finds the list used up. *)
Example patch_runs_out :
  patchHostDevices {| vm_meta := new_meta "vm1" ∅ ∅; vm_Template := true; vm_HostDevices := demo_requests; vm_GPUs := [] |}
    {[ "intel.com/X" := ["n1-a"] ]} =
  ({| vm_meta := new_meta "vm1" ∅ ∅;
      vm_Template := true; vm_HostDevices := [set_Name "n1-a" {| dr_Name := "x"; dr_DeviceName := "intel.com/X" |};
                         {| dr_Name := "y"; dr_DeviceName := "intel.com/X" |}];
      vm_GPUs := [] |}, true).
Proof. vm_compute. reflexivity. Qed.

(** ** A refused update is forgotten *)
Lemma patch_devices_again l info :
  patch_devices (fst (patch_devices l info)) info = patch_devices l info.
Proof.
  revert info. induction l as [|d l IH]; intros info; simpl; [done|].
  destruct (info !! dr_DeviceName d) as [[|n names]|] eqn:Hd; simpl; [by rewrite Hd|..].
  - specialize (IH (<[dr_DeviceName d := names]> info)).
    destruct (patch_devices l _) as [r q] eqn:E. simpl in *. by rewrite Hd, IH.
  - specialize (IH info). destruct (patch_devices l info) as [r q] eqn:E. simpl in *.
    by rewrite Hd, IH.
Qed.

Lemma patch_vm_again vmi details vm vm' :
  patch_vm vmi details vm = (vm', false) -> patch_vm vmi details vm' = (vm', false).
Proof.
  unfold patch_vm, patchHostDevices, patchGPUDevices.
  pose proof (patch_devices_again (vm_HostDevices vm) (ad_HostDevices details)) as HH.
  pose proof (patch_devices_again (vm_GPUs vm) (ad_GPUs details)) as HG.
  destruct (patch_devices (vm_HostDevices vm) _) as [lh ph] eqn:Eh.
  destruct (patch_devices (vm_GPUs vm) _) as [lg pg] eqn:Eg.
  destruct (vmi_HostDevices vmi), (vmi_GPUs vmi); simpl.
  - by intros [= <-].
  - rewrite Eg. intros [= <- ->]. simpl in *. by rewrite HG.
  - destruct ph; [done|]. intros [= <-]. simpl in *. by rewrite HH.
  - destruct ph; [done|]. simpl. rewrite Eg. intros [= <- ->]. simpl in *. by rewrite HH; simpl; rewrite HG.
Qed.

Lemma patch_vm_meta vmi details vm vm' p :
  patch_vm vmi details vm = (vm', p) -> vm_meta vm' = vm_meta vm /\ vm_Template vm' = vm_Template vm.
Proof.
  unfold patch_vm, patchHostDevices, patchGPUDevices. intros Hp.
  repeat case_match; simplify_eq; done.
Qed.

Section Forgotten.
Context `{External} {W : Type} `{World W}.
Implicit Types (s : state VMCache W).

Lemma vmCache_Get_Some key s vm : mem s !! key = Some vm -> vmCache_Get key s = (Ok vm, s).
Proof. intros Hvm. unfold vmCache_Get, bind, get_mem. by rewrite Hvm. Qed.

Lemma same_devices_refl vm : same_devices vm vm = true.
Proof. unfold same_devices. by rewrite !bool_decide_eq_true_2. Qed.

(** The run that writes the cache and then calls the API server. *)
Lemma write_then_eff {A} key vm s (k : VirtualMachine -> M VMCache W A) :
  (write_cached key vm ;;; bind (eff (ApiUpdate KVirtualMachine vm)) k) s
  = bind (eff (ApiUpdate KVirtualMachine vm)) k (State (<[key := vm]> (mem s)) (world s)).
Proof. done. Qed.

Lemma failed_update {A} vm s (a : A) e s1 :
  bind (eff (ApiUpdate KVirtualMachine vm)) (fun _ => ret a) s = (Err e, s1) -> mem s1 = mem s.
Proof.
  intros Hrun. apply bind_Err_inv in Hrun as [Hrun|(x & s2 & _ & Hrun)]; [|discriminate Hrun].
  by apply eff_Err_inv in Hrun as [_ Hrun].
Qed.

(** A refused update of the allocation annotation is forgotten: the handler wrote
    the annotation into the cached VM first, so after the error the retry finds
    it there, reports success and calls nothing.  The same holds when the
    annotation is cleared. *)
Theorem refused_annotation_forgotten vmi (details : string) vm s :
  mem s !! vm_key vmi = Some vm ->
  (forall e s1, reconcileVMResourceAllocationAnnotation vmi details s = (Err e, s1) ->
     reconcileVMResourceAllocationAnnotation vmi details s1 = (Ok tt, s1)) /\
  (forall e s1, checkAndClearDeviceAllocation vmi s = (Err e, s1) ->
     checkAndClearDeviceAllocation vmi s1 = (Ok tt, s1)).
Proof.
  intros Hvm. unfold reconcileVMResourceAllocationAnnotation, checkAndClearDeviceAllocation.
  split; intros e s1; unfold bind at 1, on_err at 1; rewrite (vmCache_Get_Some _ _ _ Hvm).
  - destruct (go_index _ _ !=s details) eqn:Hne; [|discriminate].
    rewrite write_then_eff. intros Hrun%failed_update. unfold bind at 1, on_err at 1.
    erewrite vmCache_Get_Some by (rewrite Hrun; apply lookup_insert_eq). simpl. unfold go_index.
    by rewrite lookup_insert_eq, bool_decide_eq_true_2.
  - destruct (_ !! DeviceAllocationKey) eqn:Hann; [|discriminate].
    rewrite write_then_eff. intros Hrun%failed_update. unfold bind at 1, on_err at 1.
    erewrite vmCache_Get_Some by (rewrite Hrun; apply lookup_insert_eq). simpl.
    by rewrite lookup_delete_eq.
Qed.

(** When the API server refuses the names written at shutdown, the retry of the
    deletion handler finds them already in the cached VM, takes the VM as up to
    date and reports success, so the VMI is let go and the VM keeps the names it
    had. *)
Theorem refused_names_forgotten nodeName vmi vm val details s e s1 :
  mem s !! vm_key vmi = Some vm ->
  m_Annotations (vm_meta vm) !! DeviceAllocationKey = Some val ->
  unmarshal_AllocationDetails val = Some details ->
  OnVMIDeletion nodeName (Some vmi) s = (Err e, s1) ->
  OnVMIDeletion nodeName (Some vmi) s1 = (Ok (Some vmi), s1).
Proof.
  intros Hvm Hann Hjson. unfold OnVMIDeletion.
  destruct (negb _); [discriminate|]. destruct (asks_for_nothing vmi); [discriminate|].
  unfold bind at 1, try at 1. rewrite (vmCache_Get_Some _ _ _ Hvm).
  destruct (m_DeletionTimestamp (vm_meta vm)) eqn:Hdel; [discriminate|].
  destruct (vmi_NodeName vmi !=s nodeName) eqn:Hnode; [discriminate|].
  rewrite Hann, Hjson. unfold with_template. destruct (vm_Template vm) eqn:Htmpl; [|discriminate].
  destruct (patch_vm vmi details vm) as [vm' panicked] eqn:Hpatch.
  pose proof (patch_vm_meta _ _ _ _ _ Hpatch) as [Hmeta Htmpl'].
  destruct panicked; [discriminate|]. destruct (same_devices vm' vm); [discriminate|].
  rewrite write_then_eff. intros Hrun%failed_update. simpl in Hrun.
  unfold bind at 1, try at 1.
  rewrite (vmCache_Get_Some _ _ vm') by (rewrite Hrun; apply lookup_insert_eq).
  rewrite Hmeta, Hdel, Hann, Hjson, Htmpl', Htmpl, (patch_vm_again _ _ _ _ Hpatch), same_devices_refl.
  unfold bind, write_cached, modify_mem, ret. destruct s1 as [m1 w1]. simpl in *. subst m1.
  do 2 f_equal. apply insert_insert_eq.
Qed.
End Forgotten.

(** ** What a successful pass leaves *)
Section Recorded.
Context `{External} {W : Type} `{World W}.
Implicit Types (s : state VMCache (Logged W)).

(** The cached VM has the annotation, and when it had another one the API server
    was told. *)
Lemma annotation_stored vmi details s s' :
  reconcileVMResourceAllocationAnnotation vmi details s = (Ok tt, s') ->
  exists vm vm', mem s !! vm_key vmi = Some vm /\ mem s' !! vm_key vmi = Some vm' /\
    go_index (m_Annotations (vm_meta vm')) DeviceAllocationKey = details /\
    (vm' = vm \/ exists o, Ev (ApiUpdate KVirtualMachine vm') (inr o) ∈ log_of s').
Proof.
  unfold reconcileVMResourceAllocationAnnotation. unfold bind at 1, on_err at 1, vmCache_Get, bind at 1, get_mem.
  destruct (mem s !! vm_key vmi) as [vm|] eqn:Hvm; simpl; [|discriminate].
  case_bool_decide as Hann; simpl.
  - intros [= <-]. exists vm, vm. split_and!; [done..|by left].
  - rewrite write_then_eff. intros Hrun. apply bind_Ok_inv in Hrun as (o & s1 & Heff & Hret).
    injection Hret as <-. apply eff_Ok_log in Heff as [Hlog Hmem]. simpl in *.
    eexists vm, _. split_and!; [done| | |].
    + rewrite Hmem. apply lookup_insert_eq.
    + simpl. unfold go_index. by rewrite lookup_insert_eq.
    + right. exists o. rewrite Hlog. apply elem_of_app. right. by left.
Qed.

Lemma Steps_devices_when {k} requested vmi what :
  Steps (emits any_event) (devices_when (k := k) (W := Logged W) requested vmi what).
Proof. unfold devices_when. steps_tac. Qed.

Lemma devices_when_Ok {k} requested vmi what s l s' :
  devices_when (k := k) requested vmi what s = (Ok l, s') ->
  mem s' = mem s /\
  (requested <> [] -> Ev (CacheList k {[ "nodename" := vmi_NodeName vmi ]}) (inr l) ∈ log_of s').
Proof.
  unfold devices_when. destruct requested; [by intros [= <- <-]|].
  intros Hrun%on_err_Ok_inv. apply eff_Ok_log in Hrun as [Hlog Hmem]. split; [done|].
  intros _. rewrite Hlog. apply elem_of_app. right. by left.
Qed.

Lemma Steps_annotation vmi details :
  Steps (emits any_event) (reconcileVMResourceAllocationAnnotation (W := Logged W) vmi details).
Proof. unfold reconcileVMResourceAllocationAnnotation, vmCache_Get, write_cached. steps_tac. Qed.

Lemma findPodForVMI_Ok vmi s pod s' :
  findPodForVMI vmi s = (Ok pod, s') ->
  mem s' = mem s /\ exists pods,
    Ev (ApiList KPod (m_Namespace (vmi_meta vmi)) {[ kubevirtVMLabelKey := m_Name (vmi_meta vmi) ]}) (inr pods)
      ∈ log_of s' /\ List.filter (fun p => pod_Phase p ==s Pod_Running) pods = [pod].
Proof.
  unfold findPodForVMI. intros Hrun. apply bind_Ok_inv in Hrun as (pods & s1 & Heff & Hrun).
  apply on_err_Ok_inv, eff_Ok_log in Heff as [Hlog Hmem].
  destruct (List.filter (fun p : Pod => pod_Phase p ==s Pod_Running) pods) as [|p [|]] eqn:Hf;
    try discriminate Hrun.
  injection Hrun as <- <-. split; [done|]. exists pods. split; [|done].
  rewrite Hlog. apply elem_of_app. right. by left.
Qed.

Lemma Steps_reconcileDetails vmi envMap :
  Steps (emits any_event) (reconcileDeviceAllocationDetails (W := Logged W) vmi envMap).
Proof.
  unfold reconcileDeviceAllocationDetails, reconcileVMResourceAllocationAnnotation,
    vmCache_Get, write_cached, devices_when. steps_tac.
Qed.

(** C25: when a pass over a running VMI of this node that asks for devices succeeds,
    exactly one pod of the VMI was running, and the cached VM carries the
    encoding of the devices that the pod's environment names; when the VM did not
    carry it before, the API server accepted the VM with it. *)
Theorem OnVMIChange_records nodeName vmi s r s' :
  m_DeletionTimestamp (vmi_meta vmi) = false -> vmi_Phase vmi = VMI_Running ->
  asks_for_nothing vmi = false -> vmi_NodeName vmi = nodeName ->
  OnVMIChange nodeName (Some vmi) s = (Ok r, s') ->
  exists pods pod podEnv pcis vgpus vm vm',
    Ev (ApiList KPod (m_Namespace (vmi_meta vmi)) {[ kubevirtVMLabelKey := m_Name (vmi_meta vmi) ]}) (inr pods)
      ∈ log_of s' /\
    List.filter (fun p => pod_Phase p ==s Pod_Running) pods = [pod] /\
    Ev (ExecRun (RemoteExecutor (m_Name (pod_meta pod))) "env" []) (inr podEnv) ∈ log_of s' /\
    mem s !! vm_key vmi = Some vm /\ mem s' !! vm_key vmi = Some vm' /\
    go_index (m_Annotations (vm_meta vm')) DeviceAllocationKey =
      marshal_AllocationDetails (generateAllocationDetails
        (reconcilePCIDeviceDetails vmi (convertEnvToMap podEnv) (buildPCIDeviceMap pcis))
        (reconcileGPUDetails vmi (convertEnvToMap podEnv) (buildVGPUMap vgpus))) /\
    (vmi_HostDevices vmi <> [] ->
       Ev (CacheList KPCIDevice {[ "nodename" := nodeName ]}) (inr pcis) ∈ log_of s') /\
    (vmi_GPUs vmi <> [] ->
       Ev (CacheList KVGPUDevice {[ "nodename" := nodeName ]}) (inr vgpus) ∈ log_of s') /\
    (vm' = vm \/ exists o, Ev (ApiUpdate KVirtualMachine vm') (inr o) ∈ log_of s').
Proof.
  intros Hdel Hphase Hasks Hnode. unfold OnVMIChange.
  rewrite Hdel, Hphase, Hasks, Hnode, !bool_decide_eq_true_2 by done. simpl.
  intros Hrun. apply bind_Ok_inv in Hrun as ([] & s4 & Htrack & Hret). injection Hret as <- <-.
  unfold trackDevices, generatePodEnvMap in Htrack. inv_ok.
  match goal with H : findPodForVMI _ _ = _ |- _ => apply findPodForVMI_Ok in H as (Hm1 & pods & Hpods & Hone) end.
  match goal with H : getPodEnv _ _ = _ |- _ => unfold getPodEnv in H; apply bind_Ok_inv in H as ([] & s5 & Hclient & H);
    apply eff_Ok_log in H as [Hlog2 Hm2] end.
  apply on_err_Ok_inv, eff_Ok_log in Hclient as [Hlog5 Hm5]. rewrite Hlog5, <- app_assoc in Hlog2. rewrite Hm5 in Hm2.
  pose proof (fun ev => log_mono _ any_event _ _ _ ev (Steps_reconcileDetails _ _) Htrack) as Hmono.
  unfold reconcileDeviceAllocationDetails in Htrack. inv_ok.
  match goal with H : devices_when (k := KVGPUDevice) _ _ _ _ = _ |- _ =>
    pose proof (fun ev => log_mono _ any_event _ _ _ ev (Steps_annotation _ _) Htrack) as Hmono1;
    pose proof (fun ev => log_mono _ any_event _ _ _ ev (Steps_devices_when _ _ _) H) as Hmono2;
    apply devices_when_Ok in H as [Hm4 Hvgpus] end.
  match goal with H : devices_when (k := KPCIDevice) _ _ _ _ = _ |- _ =>
    apply devices_when_Ok in H as [Hm3 Hpcis] end.
  apply annotation_stored in Htrack as (vm & vm' & Hvm & Hvm' & Hann & Hupd). rewrite Hnode in *.
  do 7 eexists. split_and!; [|exact Hone| | |exact Hvm'|exact Hann| | |exact Hupd].
  - apply Hmono. rewrite Hlog2. apply elem_of_app. by left.
  - apply Hmono. rewrite Hlog2. apply elem_of_app. right. by right; left.
  - congruence.
  - intros Hne. by apply Hmono1, Hmono2, Hpcis.
  - intros Hne. by apply Hmono1, Hvgpus.
Qed.
End Recorded.

(** ** Runs in a concrete cluster *)
Definition demo_pod : Pod :=
  {| pod_meta := new_meta "virt-launcher-vm1" {[ kubevirtVMLabelKey := "vm1" ]} ∅;
     pod_Phase := "Running"; pod_NodeName := "n1" |}.
Definition demo_vm (annotations : gmap string string) : VirtualMachine :=
  {| vm_meta := new_meta "vm1" ∅ annotations; vm_Template := true; vm_HostDevices := demo_requests; vm_GPUs := [] |}.
Definition demo_pcidevice (d : PCIDevice) : PCIDevice :=
  {| pd_meta := set_Labels {[ "nodename" := "n1" ]} (pd_meta d); pd_Status := pd_Status d |}.
Definition demo_cluster : sim :=
  let w := foldr (fun d => put KPCIDevice (demo_pcidevice d)) (put KPod demo_pod sim_empty) demo_devices in
  {| sim_store := sim_store w; sim_index := sim_index w; sim_files := sim_files w;
     sim_links := sim_links w; sim_dirs := sim_dirs w; sim_globs := sim_globs w;
     sim_exec := {[ "env" := env_text [(ResourceNameToEnvVar PCIResourcePrefix "intel.com/X",
                                        Join demo_listed ",")] ]};
     sim_pci := sim_pci w; sim_nics := sim_nics w; sim_netlinks := sim_netlinks w; sim_nv := sim_nv w;
     sim_locks := sim_locks w; sim_queue := sim_queue w |}.
Definition demo_start (annotations : gmap string string) (w : sim) : state VMCache (Logged sim) :=
  State {[ ("", "vm1") := demo_vm annotations ]} (w, []).

Lemma OnVMIChange_records_witness :
  exists r s', OnVMIChange "n1" (Some (demo_vmi demo_requests))
    (demo_start ∅ (put KVirtualMachine (demo_vm ∅) demo_cluster)) = (Ok r, s') /\
  exists pods pod podEnv pcis vgpus vm vm',
    Ev (ApiList KPod "" {[ kubevirtVMLabelKey := "vm1" ]}) (inr pods) ∈ log_of s' /\
    List.filter (fun p => pod_Phase p ==s Pod_Running) pods = [pod] /\
    Ev (ExecRun (RemoteExecutor (m_Name (pod_meta pod))) "env" []) (inr podEnv) ∈ log_of s' /\
    Some (demo_vm ∅) = Some vm /\ mem s' !! ("", "vm1") = Some vm' /\
    go_index (m_Annotations (vm_meta vm')) DeviceAllocationKey =
      marshal_AllocationDetails (generateAllocationDetails
        (reconcilePCIDeviceDetails (demo_vmi demo_requests) (convertEnvToMap podEnv) (buildPCIDeviceMap pcis))
        (reconcileGPUDetails (demo_vmi demo_requests) (convertEnvToMap podEnv) (buildVGPUMap vgpus))) /\
    (vmi_HostDevices (demo_vmi demo_requests) <> [] ->
       Ev (CacheList KPCIDevice {[ "nodename" := "n1" ]}) (inr pcis) ∈ log_of s') /\
    (vmi_GPUs (demo_vmi demo_requests) <> [] ->
       Ev (CacheList KVGPUDevice {[ "nodename" := "n1" ]}) (inr vgpus) ∈ log_of s') /\
    (vm' = vm \/ exists o, Ev (ApiUpdate KVirtualMachine vm') (inr o) ∈ log_of s').
Proof.
  set (s0 := demo_start ∅ (put KVirtualMachine (demo_vm ∅) demo_cluster)).
  assert (is_Ok (fst (OnVMIChange "n1" (Some (demo_vmi demo_requests)) s0)) = true) as Hok
    by (vm_compute; reflexivity).
  destruct (OnVMIChange _ _ s0) as [[r|e|p] s'] eqn:E; [|discriminate Hok..].
  exists r, s'. split; [reflexivity|].
  exact (OnVMIChange_records "n1" (demo_vmi demo_requests) s0 r s' eq_refl eq_refl eq_refl eq_refl E).
Defined.

(** The VM is cached but the API server does not know it any more. *)
Lemma refused_annotation_forgotten_witness :
  exists e s1, reconcileVMResourceAllocationAnnotation (demo_vmi demo_requests) "{}" (demo_start ∅ demo_cluster)
    = (Err e, s1) /\
  reconcileVMResourceAllocationAnnotation (demo_vmi demo_requests) "{}" s1 = (Ok tt, s1).
Proof.
  set (s0 := demo_start ∅ demo_cluster).
  assert (is_Err (fst (reconcileVMResourceAllocationAnnotation (demo_vmi demo_requests) "{}" s0)) = true)
    as Herr by (vm_compute; reflexivity).
  destruct (reconcileVMResourceAllocationAnnotation _ _ s0) as [[r|e|p] s1] eqn:E; [discriminate Herr| |discriminate Herr].
  exists e, s1. split; [reflexivity|].
  exact (proj1 (refused_annotation_forgotten (demo_vmi demo_requests) "{}" (demo_vm ∅) s0 eq_refl) e s1 E).
Defined.

Definition demo_decoding : External :=
  {| ghw_UNKNOWN := "unknown"; ResourceNameToEnvVar := @ResourceNameToEnvVar sim_external;
     DevicePluginPath := ""; HostRootMount := ""; Pod_Running := "Running"; VMI_Running := "Running";
     marshal_AllocationDetails := fun _ => "";
     unmarshal_AllocationDetails := fun _ =>
       Some {| ad_GPUs := ∅; ad_HostDevices := {[ "intel.com/X" := ["n1-b"; "n1-a"] ]} |};
     marshal_HostDevice := fun _ => ""; unmarshal_strings := fun _ => None |}.
Definition demo_deleted : VirtualMachineInstance :=
  {| vmi_meta := {| m_Kind := ""; m_APIVersion := ""; m_Name := "vm1"; m_Namespace := ""; m_UID := "";
       m_Labels := ∅; m_Annotations := ∅; m_OwnerReferences := None; m_Finalizers := [];
       m_DeletionTimestamp := true |};
     vmi_HostDevices := demo_requests; vmi_GPUs := []; vmi_Phase := "Running"; vmi_NodeName := "n1" |}.

Lemma refused_names_forgotten_witness :
  exists e s1,
    @OnVMIDeletion demo_decoding _ _ "n1" (Some demo_deleted)
      (demo_start {[ DeviceAllocationKey := "details" ]} demo_cluster) = (Err e, s1) /\
    @OnVMIDeletion demo_decoding _ _ "n1" (Some demo_deleted) s1 = (Ok (Some demo_deleted), s1).
Proof.
  set (s0 := demo_start {[ DeviceAllocationKey := "details" ]} demo_cluster).
  assert (is_Err (fst (@OnVMIDeletion demo_decoding _ _ "n1" (Some demo_deleted) s0)) = true) as Herr
    by (vm_compute; reflexivity).
  destruct (@OnVMIDeletion demo_decoding _ _ "n1" _ s0) as [[r|e|p] s1] eqn:E; [discriminate Herr| |discriminate Herr].
  exists e, s1. split; [reflexivity|].
  exact (@refused_names_forgotten demo_decoding _ _ "n1" demo_deleted
    (demo_vm {[ DeviceAllocationKey := "details" ]}) "details" _ s0 e s1 eq_refl eq_refl eq_refl E).
Defined.
