(* ===== verification/Allocation.v ===== *)
(** * The devices of a VM, from the kubelet to its specification

    A plugin answers an allocation with an environment, KubeVirt's launcher pod
    runs in it, the controller of VMs reads it back from the pod, looks the addresses
    up among the node's devices, records their names, and at shutdown names the VM's
    devices after them.  Here the plugins ([PCIPlugin], [VGPUPlugin]) and the controller
    ([VirtualMachine]) are put together: what the kubelet asked for is compared with
    what the VM ends up with. *)

From S2P Require Import Prelude GoStrings GoStringLemmas GoMonad Types Effects DevicePlugins PCIPlugin VGPUPlugin VirtualMachine Sim.
From Stdlib Require Import Ascii.

(** ** What the environment says *)
Section Environment.
Context `{External} `{MapOrder}.
Implicit Types (dp : PCIDevicePlugin).

(** The addresses that one requested ID adds: itself, and its group, itself included. *)
Definition added dp (id : string) : list string :=
  match dp_iommuToPCIMap dp !! id with
  | Some g => id :: (List.filter (fun p : string * string => p.2 ==s g) (range (dp_iommuToPCIMap dp))).*1
  | None => []
  end.
Definition allocated dp (ids : list string) : list string := concat (added dp <$> ids).

Lemma allocate_devices_added dp ids acc :
  (fold_left (allocate_device dp) ids acc).1 = acc.1 ++ allocated dp ids.
Proof.
  revert acc. induction ids as [|id ids IH]; intros [al ds]; [by rewrite app_nil_r|].
  unfold allocated in *. rewrite fmap_cons. cbn [fold_left concat]. rewrite IH. unfold added at 2, allocate_device.
  destruct (dp_iommuToPCIMap dp !! id); cbn; [|done]. by rewrite <- app_assoc.
Qed.

Lemma allocate_containers_added dp reqs acc r :
  fold_left (allocate_container dp) reqs acc = r ->
  r.1 = acc.1 ++ allocated dp (concat reqs) /\
  (reqs <> [] -> car_Envs r.2 = {[ ResourceNameToEnvVar PCIResourcePrefix (dp_resourceName dp) := Join r.1 "," ]}).
Proof.
  revert acc r. induction reqs as [|ids reqs IH]; intros acc r Hr.
  { cbn in Hr. subst r. split; [by rewrite app_nil_r|done]. }
  cbn [fold_left] in Hr. unfold allocate_container at 2 in Hr.
  pose proof (allocate_devices_added dp ids (acc.1, [])) as Hal.
  destruct (fold_left (allocate_device dp) ids (acc.1, [])) as [al ds]. cbn in Hal. subst al.
  pose proof (IH _ _ Hr) as [Hfst Henv]. cbn in Hfst. split.
  - rewrite Hfst. unfold allocated. cbn [concat]. by rewrite fmap_app, concat_app, app_assoc.
  - intros _. destruct reqs; [by subst r|by apply Henv].
Qed.

Lemma Allocate_env dp reqs response :
  response ∈ Allocate dp reqs ->
  car_Envs response =
    {[ ResourceNameToEnvVar PCIResourcePrefix (dp_resourceName dp) := Join (allocated dp (concat reqs)) "," ]}.
Proof.
  unfold Allocate. destruct (fold_left (allocate_container dp) reqs _) as [al final] eqn:E.
  intros [-> Hne]%elem_of_replicate. apply allocate_containers_added in E as [Hal Henv]. cbn in Hal, Henv. subst al.
  apply Henv. by destruct reqs.
Qed.

Lemma elem_of_allocated dp ids a : a ∈ allocated dp ids <-> exists id, id ∈ ids /\ same_group dp id a.
Proof.
  unfold allocated. rewrite list_elem_of_In, in_concat. split.
  - intros (l & Hl & Ha). apply list_elem_of_In, list_elem_of_fmap in Hl as (id & -> & Hid).
    exists id. split; [done|]. unfold added in Ha. destruct (dp_iommuToPCIMap dp !! id) as [g|] eqn:Eg; [|done].
    exists g. split; [done|]. apply list_elem_of_In, elem_of_cons in Ha as [->|Ha]; [done|by apply elem_of_group_range].
  - intros (id & Hid & g & Hg & Ha). exists (added dp id). split; [by apply list_elem_of_In, list_elem_of_fmap_2|].
    unfold added. rewrite Hg. apply list_elem_of_In. right. by apply elem_of_group_range.
Qed.

(** A variable of the pod is read back from what [env] prints. *)
Lemma convertEnvToMap_lookup env k v :
  Forall plain_entry env -> NoDup env.*1 -> (k, v) ∈ env -> convertEnvToMap (env_text env) !! k = Some v.
Proof.
  intros Hplain Hnd Hin. unfold convertEnvToMap. rewrite (raw_lines_env_text env Hplain).
  rewrite Forall_forall in Hplain.
  assert (forall p, p ∈ env -> env_entry (env_line p) = p) as Hread.
  { intros p Hp. apply env_entry_line. by destruct (Hplain p Hp). }
  pose proof (index_by_NoDup (fun line => (env_entry line).1) (fun line => (env_entry line).2) (env_line <$> env)
    (env_line (k, v))) as Hix.
  cbv beta in Hix. rewrite (Hread (k, v) Hin) in Hix. apply Hix; [|by apply list_elem_of_fmap_2].
  rewrite <- list_fmap_compose.
  rewrite (list_fmap_ext _ fst env); [done|]. intros i p Hp. unfold compose. by rewrite Hread; [|eapply list_elem_of_lookup_2].
Qed.
End Environment.

(** ** A device that is alone in its group *)
Lemma filter_fmap_NoDup {A B} (f : A -> B) (P : A -> bool) (l : list A) :
  NoDup (f <$> l) -> NoDup (f <$> List.filter P l).
Proof.
  induction l as [|x l IH]; [done|]. cbn. intros [Hx Hnd]%NoDup_cons. specialize (IH Hnd).
  destruct (P x); [|done]. apply NoDup_cons. split; [|done]. intros (y & Hy & Hin)%list_elem_of_fmap. apply Hx.
  apply list_elem_of_fmap. exists y. split; [done|]. apply list_elem_of_In in Hin. apply filter_In in Hin as [Hin _].
  by apply list_elem_of_In.
Qed.

Lemma singleton_of {A} (l : list A) (x : A) : NoDup l -> (forall y, y ∈ l <-> y = x) -> l = [x].
Proof.
  intros Hnd Hl. destruct l as [|a [|b l]].
  - pose proof (proj2 (Hl x) eq_refl) as Hx. by apply not_elem_of_nil in Hx.
  - f_equal. apply Hl. left.
  - exfalso. apply NoDup_cons in Hnd as [Ha _]. apply Ha.
    rewrite (proj1 (Hl a)) by left. rewrite <- (proj1 (Hl b)) by (right; left). left.
Qed.

Lemma added_alone `{MapOrder} (dp : PCIDevicePlugin) id :
  (forall a, same_group dp id a <-> a = id) -> added dp id = [id; id].
Proof.
  intros Halone. destruct (proj2 (Halone id) eq_refl) as (g & Hg & _). unfold added. rewrite Hg. f_equal.
  apply singleton_of.
  - apply filter_fmap_NoDup. rewrite range_perm. apply NoDup_fst_map_to_list.
  - intros a. rewrite elem_of_group_range, <- (Halone a). unfold same_group. split; [by eauto|].
    intros (g' & Hg' & Ha). congruence.
Qed.

Lemma Compact_doubled (ids : list string) :
  NoDup ids -> slices_Compact (concat ((fun id => [id; id]) <$> ids)) = ids.
Proof.
  induction ids as [|a [|b ids] IH]; intros Hnd; [done|cbn; by rewrite bool_decide_eq_true_2|].
  apply NoDup_cons in Hnd as [Ha Hnd]. specialize (IH Hnd). revert IH. rewrite !fmap_cons. cbn [concat app].
  cbn [slices_Compact]. rewrite !(bool_decide_eq_true_2 (_ = _)) by done.
  rewrite (bool_decide_eq_false_2 (a = b)) by set_solver. intros IH. f_equal. exact IH.
Qed.

(** ** Names by address: what the controller's index of its devices answers *)
Section Index.
Context {D : Type} (address name : D -> string) (devices : list D).
#[local] Abbreviation index := (go_index (index_by address name devices)).

Lemma name_at dev : NoDup (address <$> devices) -> dev ∈ devices -> index (address dev) = name dev.
Proof. intros Hnd Hin. unfold go_index. by rewrite (index_by_NoDup address name devices dev Hnd Hin). Qed.

(** Distinct addresses have distinct names. *)
Lemma names_distinct (addrs : list string) :
  NoDup (address <$> devices) -> NoDup (name <$> devices) -> NoDup addrs ->
  (forall a, a ∈ addrs -> exists dev, dev ∈ devices /\ address dev = a) -> NoDup (index <$> addrs).
Proof.
  intros Haddr Hname Hnd Hdev. apply NoDup_fmap_2_strong; [|done]. intros a b Ha Hb Hab.
  destruct (Hdev a Ha) as (d1 & H1 & <-), (Hdev b Hb) as (d2 & H2 & <-).
  rewrite !name_at in Hab by done. f_equal.
  apply list_elem_of_lookup in H1 as [i Hi], H2 as [j Hj].
  assert (i = j) as ->; [|congruence].
  eapply NoDup_lookup; [exact Hname|..]; rewrite list_lookup_fmap, ?Hi, ?Hj; [done|]. cbn. by rewrite Hab.
Qed.

(** The shutdown of a VM whose recorded names are those of the devices at [addrs]. *)
Lemma shutdown_names info r (addrs : list string) l l' i d a :
  NoDup (address <$> devices) -> (forall a, a ∈ addrs -> exists dev, dev ∈ devices /\ address dev = a) ->
  info !! r = Some (index <$> addrs) -> patch_devices l info = (l', false) ->
  l !! i = Some d -> dr_DeviceName d = r -> addrs !! requests r (take i l) = Some a ->
  exists dev, dev ∈ devices /\ address dev = a /\ l' !! i = Some (set_Name (name dev) d).
Proof.
  intros Haddr Hdev Hinfo Hpatch Hi Hr Ha.
  apply patch_devices_lookup in Hpatch as [_ Hl]. specialize (Hl eq_refl i d Hi). unfold named in Hl.
  rewrite Hr, Hinfo, list_lookup_fmap, Ha in Hl. cbn in Hl.
  destruct (Hdev a) as (dev & Hin & <-); [by eapply list_elem_of_lookup_2|].
  exists dev. split_and!; [done..|]. by rewrite <- (name_at dev Haddr Hin).
Qed.
End Index.

(** ** What the VM ends up with *)
Section Naming.
Context `{External} `{MapOrder}.
Implicit Types (dp : PCIDevicePlugin) (dev : PCIDevice).

Definition address dev : string := pd_Address (pd_Status dev).
Definition name dev : string := m_Name (pd_meta dev).

(** The names that the controller records for a VM whose pod has the environment. *)
Definition recorded (vmi : VirtualMachineInstance) (env : list (string * string)) (pciDevices : list PCIDevice)
    (gpuMap : gmap string (list string)) : gmap string (list string) :=
  ad_HostDevices (generateAllocationDetails
    (reconcilePCIDeviceDetails vmi (convertEnvToMap (env_text env)) (buildPCIDeviceMap pciDevices)) gpuMap).

Lemma recorded_lookup vmi env pciDevices gpuMap r (addrs : list string) :
  r ∈ dr_DeviceName <$> vmi_HostDevices vmi -> Forall plain_entry env -> NoDup env.*1 ->
  (ResourceNameToEnvVar PCIResourcePrefix r, Join addrs ",") ∈ env ->
  addrs <> [] -> Forall (fun a => str_mem ","%char a = false) addrs ->
  recorded vmi env pciDevices gpuMap !! r =
    Some (slices_Compact (go_index (buildPCIDeviceMap pciDevices) <$> slices_Compact addrs)).
Proof.
  intros Hr Hplain Hnd Hin Hne Hcomma. unfold recorded, generateAllocationDetails, dedupDevices. cbn [ad_HostDevices].
  rewrite lookup_fmap. unfold reconcilePCIDeviceDetails.
  rewrite fold_add_details_lookup, lookup_empty, bool_decide_eq_true_2 by done.
  unfold pci_names. rewrite (convertEnvToMap_lookup env _ _ Hplain Hnd Hin). cbn.
  change ","%string with (str1 ","%char). by rewrite (Split_Join_char ","%char addrs Hne Hcomma).
Qed.

(** The plugin's devices are objects of the node, with addresses and names of their own. *)
Definition known_devices dp (pciDevices : list PCIDevice) : Prop :=
  NoDup (address <$> pciDevices) /\ NoDup (name <$> pciDevices) /\
  forall a, is_Some (dp_iommuToPCIMap dp !! a) ->
    str_mem ","%char a = false /\ exists dev, dev ∈ pciDevices /\ address dev = a.

Lemma allocated_known dp pciDevices ids a :
  known_devices dp pciDevices -> a ∈ allocated dp ids ->
  str_mem ","%char a = false /\ exists dev, dev ∈ pciDevices /\ address dev = a.
Proof. intros (_ & _ & Hk) (id & _ & g & _ & Ha)%elem_of_allocated. apply Hk. by exists g. Qed.

(** C27: from the kubelet's allocation to the VM's specification: when a pod of the VM runs
    in the environment that the plugin answered, the controller records for the
    resource the names of exactly the devices that share a group with a requested one.
    When each requested device is alone in its group, it records one name per request,
    and at shutdown the VM's k-th host device of the resource is named after the k-th
    device that the kubelet asked for. *)
Theorem allocation_named dp (reqs : list (list string)) response vmi env pciDevices gpuMap
    (Hanswer : response ∈ Allocate dp reqs)
    (Hasks : dp_resourceName dp ∈ dr_DeviceName <$> vmi_HostDevices vmi)
    (Hplain : Forall plain_entry env) (Hnames : NoDup env.*1)
    (Henv : forall k v, car_Envs response !! k = Some v -> (k, v) ∈ env)
    (Hobjects : known_devices dp pciDevices)
    (Hsome : exists id, id ∈ concat reqs /\ is_Some (dp_iommuToPCIMap dp !! id)) :
  let info := recorded vmi env pciDevices gpuMap in
  exists names, info !! dp_resourceName dp = Some names /\
    (forall n, n ∈ names <-> exists dev id, dev ∈ pciDevices /\ name dev = n /\ id ∈ concat reqs /\ same_group dp id (address dev)) /\
    ((forall id a, id ∈ concat reqs -> same_group dp id a <-> a = id) -> NoDup (concat reqs) ->
     length names = length (concat reqs) /\
     forall vm vm' i d id, patchHostDevices vm info = (vm', false) ->
       vm_HostDevices vm !! i = Some d -> dr_DeviceName d = dp_resourceName dp ->
       concat reqs !! requests (dp_resourceName dp) (take i (vm_HostDevices vm)) = Some id ->
       exists dev, dev ∈ pciDevices /\ address dev = id /\ vm_HostDevices vm' !! i = Some (set_Name (name dev) d)).
Proof.
  intros info. set (addrs := allocated dp (concat reqs)). set (m := buildPCIDeviceMap pciDevices).
  pose proof Hobjects as (Haddr & Hname & Hk).
  assert (forall a, a ∈ addrs -> exists dev, dev ∈ pciDevices /\ address dev = a /\ go_index m a = name dev) as Hdev.
  { intros a Ha. destruct (allocated_known dp pciDevices _ a Hobjects Ha) as [_ (dev & Hin & <-)].
    exists dev. split_and!; [done..|by apply (name_at address name)]. }
  assert (info !! dp_resourceName dp = Some (slices_Compact (go_index m <$> slices_Compact addrs))) as Hrec.
  { apply recorded_lookup; [done..| | |].
    - apply Henv. rewrite (Allocate_env dp reqs response Hanswer). by apply lookup_singleton_eq.
    - destruct Hsome as (id & Hid & g & Hg). intros Hnil.
      assert (id ∈ addrs) as Hin by (apply elem_of_allocated; exists id; split; [done|by exists g]).
      rewrite Hnil in Hin. by apply not_elem_of_nil in Hin.
    - apply Forall_forall. intros a Ha. by destruct (allocated_known dp pciDevices _ a Hobjects Ha). }
  eexists. split; [exact Hrec|]. split.
  - intros n. rewrite elem_of_slices_Compact, list_elem_of_fmap. setoid_rewrite elem_of_slices_Compact. split.
    + intros (a & -> & Ha). destruct (Hdev a Ha) as (dev & Hin & <- & ->).
      apply elem_of_allocated in Ha as (id & Hid & Hg). eauto 6.
    + intros (dev & id & Hin & <- & Hid & Hg). exists (address dev). split; [symmetry; by apply (name_at address name)|].
      apply elem_of_allocated. eauto.
  - intros Halone Hnd.
    assert (slices_Compact addrs = concat reqs) as Hids.
    { unfold addrs, allocated. rewrite (list_fmap_ext _ (fun id => [id; id]) (concat reqs)); [by apply Compact_doubled|].
      intros i id Hi. apply added_alone. intros a. by eapply Halone, list_elem_of_lookup_2. }
    assert (forall id, id ∈ concat reqs -> exists dev, dev ∈ pciDevices /\ address dev = id) as Hdevs.
    { intros id Hid. rewrite <- Hids, elem_of_slices_Compact in Hid. destruct (Hdev id Hid) as (dev & ? & ? & _). by exists dev. }
    rewrite Hids in Hrec |- *. rewrite slices_Compact_NoDup in Hrec |- * by (by apply (names_distinct address name)).
    split; [by rewrite length_fmap|]. intros vm vm' i d id Hpatch Hi Hr Hid.
    unfold patchHostDevices in Hpatch. destruct (patch_devices (vm_HostDevices vm) info) as [l p] eqn:E.
    injection Hpatch as <- ->. by eapply (shutdown_names address name).
Qed.
End Naming.

(** ** The same for vGPUs *)
Section VGPUs.
Context `{External} {Mem W : Type} `{World W}.
Variable present : string -> bool.
Variable absent : error.
(** [os.Stat] reads the file system and nothing else. *)
Hypothesis stat_reads : forall p (w : W),
  perform (FsStat p) w = (if present p then inr tt else inl absent, w).

Definition uuid (v : VGPUDevice) : string := vgpu_UUID (vgpu_Status v).
Definition vgpu_name (v : VGPUDevice) : string := m_Name (vgpu_meta v).
(** The vGPUs that [buildVGPUMap] indexes. *)
Definition created (vgpuDevices : list VGPUDevice) : list VGPUDevice :=
  List.filter (fun v => vgpu_UUID (vgpu_Status v) !=s "") vgpuDevices.

Definition recorded_gpus (vmi : VirtualMachineInstance) (env : list (string * string)) (vgpuDevices : list VGPUDevice)
    (hostDeviceMap : gmap string (list string)) : gmap string (list string) :=
  ad_GPUs (generateAllocationDetails hostDeviceMap
    (reconcileGPUDetails vmi (convertEnvToMap (env_text env)) (buildVGPUMap vgpuDevices))).

Lemma recorded_gpus_lookup vmi env vgpuDevices hostDeviceMap r (ids : list string) :
  r ∈ dr_DeviceName <$> vmi_GPUs vmi -> Forall plain_entry env -> NoDup env.*1 ->
  (ResourceNameToEnvVar VGPUPrefix r, Join ids ",") ∈ env ->
  ids <> [] -> Forall (fun a => str_mem ","%char a = false) ids ->
  recorded_gpus vmi env vgpuDevices hostDeviceMap !! r =
    Some (slices_Compact (go_index (buildVGPUMap vgpuDevices) <$> ids)).
Proof.
  intros Hr Hplain Hnd Hin Hne Hcomma. unfold recorded_gpus, generateAllocationDetails, dedupDevices. cbn [ad_GPUs].
  rewrite lookup_fmap. unfold reconcileGPUDetails.
  rewrite fold_add_details_lookup, lookup_empty, bool_decide_eq_true_2 by done.
  unfold gpu_names. rewrite (convertEnvToMap_lookup env _ _ Hplain Hnd Hin). cbn.
  change ","%string with (str1 ","%char). by rewrite (Split_Join_char ","%char ids Hne Hcomma).
Qed.

(** The vGPU plugin answers each requested device once, so the VM's k-th GPU of the
    resource is named after the k-th requested vGPU that exists, whatever the groups. *)
Theorem vgpu_allocation_named (dp : VGPUDevicePlugin) (reqs : list (list string)) answers response
    (s s' : state Mem W) vmi env vgpuDevices hostDeviceMap (ids : list string)
    (Hrun : vgpu_Allocate dp reqs s = (Ok answers, s')) (Hanswer : response ∈ answers)
    (Hasks : vp_resourceName dp ∈ dr_DeviceName <$> vmi_GPUs vmi)
    (Hplain : Forall plain_entry env) (Hvars : NoDup env.*1)
    (Henv : forall k v, car_Envs response !! k = Some v -> (k, v) ∈ env)
    (Huuid : NoDup (uuid <$> created vgpuDevices)) (Hname : NoDup (vgpu_name <$> created vgpuDevices))
    (Hids : ids = List.filter (fun devID => present (PathJoin [MdevRoot; devID])) (concat reqs))
    (Hsome : ids <> []) (Honce : NoDup ids)
    (Hobjects : forall id, id ∈ ids -> str_mem ","%char id = false /\ exists v, v ∈ created vgpuDevices /\ uuid v = id) :
  let info := recorded_gpus vmi env vgpuDevices hostDeviceMap in
  exists names, info !! vp_resourceName dp = Some names /\ length names = length ids /\
    forall vm vm' i d id, patchGPUDevices vm info = (vm', false) ->
      vm_GPUs vm !! i = Some d -> dr_DeviceName d = vp_resourceName dp ->
      ids !! requests (vp_resourceName dp) (take i (vm_GPUs vm)) = Some id ->
      exists v, v ∈ created vgpuDevices /\ uuid v = id /\ vm_GPUs vm' !! i = Some (set_Name (vgpu_name v) d).
Proof.
  intros info.
  assert (reqs <> []) as Hreqs by (intros ->; by rewrite Hids in Hsome).
  rewrite (vgpu_Allocate_spec present absent stat_reads dp reqs s Hreqs), <- Hids in Hrun. injection Hrun as <- <-.
  apply elem_of_replicate in Hanswer as [-> _].
  assert (forall id, id ∈ ids -> exists v, v ∈ created vgpuDevices /\ uuid v = id) as Hdevs by (intros id Hid; by apply Hobjects).
  assert (info !! vp_resourceName dp = Some (go_index (buildVGPUMap vgpuDevices) <$> ids)) as Hrec.
  { unfold info. rewrite (recorded_gpus_lookup vmi env vgpuDevices hostDeviceMap _ ids); [|done..| |done|].
    - f_equal. apply slices_Compact_NoDup. by apply (names_distinct uuid vgpu_name).
    - apply Henv. by apply lookup_singleton_eq.
    - apply Forall_forall. intros id Hid. by apply Hobjects. }
  eexists. split; [exact Hrec|]. split; [by rewrite length_fmap|]. intros vm vm' i d id Hpatch Hi Hr Hid.
  unfold patchGPUDevices in Hpatch. destruct (patch_devices (vm_GPUs vm) info) as [l p] eqn:E.
  injection Hpatch as <- ->. by eapply (shutdown_names uuid vgpu_name).
Qed.
End VGPUs.

(** ** The theorems at work *)
Definition plugin_of (groups : gmap string string) : PCIDevicePlugin :=
  {| dp_pcidevs := []; dp_devs := []; dp_socketPath := ""; dp_devicePath := ""; dp_resourceName := "intel.com/X";
     dp_deviceRoot := ""; dp_iommuToPCIMap := groups; dp_initialized := true; dp_started := true; dp_pending := [] |}.
Definition pod_env (dp : PCIDevicePlugin) (ids : list string) : list (string * string) :=
  [("PATH", "/bin"); (ResourceNameToEnvVar PCIResourcePrefix (dp_resourceName dp), Join (allocated dp ids) ",")].
Definition demo_vm (l : list DeviceRef) : VirtualMachine :=
  {| vm_meta := new_meta "vm1" ∅ ∅; vm_Template := true; vm_HostDevices := l; vm_GPUs := [] |}.

(** Two devices, each alone in its group: the VM's two requests are named after them in
    the order in which the kubelet asked. *)
Definition apart : PCIDevicePlugin := plugin_of {[ "0000:04:10.0" := "8"; "0000:05:00.0" := "9" ]}.
Definition apart_ids : list string := ["0000:05:00.0"; "0000:04:10.0"].

Lemma allocation_named_witness :
  exists dev, dev ∈ demo_devices /\ address dev = "0000:05:00.0" /\
    vm_HostDevices (patchHostDevices (demo_vm demo_requests)
      (recorded (demo_vmi demo_requests) (pod_env apart apart_ids) demo_devices ∅)).1 !! 0 =
    Some (set_Name (name dev) {| dr_Name := "x"; dr_DeviceName := "intel.com/X" |}).
Proof.
  assert (exists response, response ∈ Allocate apart [apart_ids]) as [response Hanswer] by (eexists; left).
  destruct (allocation_named apart [apart_ids] response (demo_vmi demo_requests) (pod_env apart apart_ids) demo_devices ∅)
    as (names & _ & _ & Hshut).
  - exact Hanswer.
  - left.
  - apply (bool_decide_unpack _). vm_compute. exact I.
  - apply (bool_decide_unpack _). vm_compute. exact I.
  - intros k v. rewrite (Allocate_env apart [apart_ids] response Hanswer). intros [<- <-]%lookup_singleton_Some.
    right. left.
  - split_and!; [apply (bool_decide_unpack _); vm_compute; exact I..|]. intros a [g Ha].
    unfold apart, plugin_of, dp_iommuToPCIMap in Ha.
    apply lookup_insert_Some in Ha as [[<- _]|[_ [<- _]%lookup_singleton_Some]]; (split; [reflexivity|]); eexists.
    + split; [left|reflexivity].
    + split; [right; right; left|reflexivity].
  - exists "0000:05:00.0". split; [left|vm_compute; by eexists].
  - destruct Hshut as [_ Hshut].
    + intros id a Hid. assert (id = "0000:05:00.0" \/ id = "0000:04:10.0") as Hcase 
        by (cbn in Hid; rewrite !elem_of_cons, elem_of_nil in Hid; tauto).
      split.
      * intros (g & Hg & Ha). unfold apart, plugin_of, dp_iommuToPCIMap in Hg, Ha.
        apply lookup_insert_Some in Ha as [[<- <-]|[_ [<- <-]%lookup_singleton_Some]];
          destruct Hcase as [-> | ->]; (reflexivity || (vm_compute in Hg; discriminate)).
      * intros ->. destruct Hcase as [-> | ->]; eexists; split; vm_compute; reflexivity.
    + apply (bool_decide_unpack _). vm_compute. exact I.
    + refine (Hshut (demo_vm demo_requests) _ 0 _ _ _ eq_refl eq_refl eq_refl). vm_compute. reflexivity.
Defined.

(** Three devices in one group: the first address of the environment comes again after
    another one, and the VM's third request gets the name of its first. *)
Definition together : PCIDevicePlugin :=
  plugin_of {[ "0000:04:10.0" := "8"; "0000:04:10.1" := "8"; "0000:05:00.0" := "8" ]}.
Definition three_requests : list DeviceRef :=
  (fun n => {| dr_Name := n; dr_DeviceName := "intel.com/X" |}) <$> ["x"; "y"; "z"].
Example together_repeats :
  let ids := ["0000:04:10.1"; "0000:04:10.0"; "0000:05:00.0"] in
  let '(vm, panicked) := patchHostDevices (demo_vm three_requests)
    (recorded (demo_vmi three_requests) (pod_env together ids) demo_devices ∅) in
  panicked = false /\ dr_Name <$> vm_HostDevices vm = ["n1-b"; "n1-c"; "n1-b"].
Proof. vm_compute. split; reflexivity. Qed.

(** Two vGPUs of one type, and a third that is not created any more. *)
Definition demo_vgpu_object (name id : string) : VGPUDevice :=
  {| vgpu_meta := new_meta name ∅ ∅;
     vgpu_Spec := {| vgpu_VGPUTypeName := "NVIDIA A2-4Q"; vgpu_Address := ""; vgpu_Enabled := true;
                     vgpu_NodeName := "n1"; vgpu_ParentGPUDeviceAddress := "" |};
     vgpu_Status := {| vgpu_VGPUStatus := VGPUEnabled; vgpu_UUID := id; vgpu_ConfiguredVGPUTypeName := "NVIDIA A2-4Q";
                       vgpu_AvailableTypes := None |} |}.
Definition demo_vgpus : list VGPUDevice :=
  [demo_vgpu_object "n1-gpu-1" "u-1"; demo_vgpu_object "n1-gpu-2" "u-2"; demo_vgpu_object "n1-gpu-3" ""].
Definition demo_gpu_requests : list DeviceRef :=
  (fun n => {| dr_Name := n; dr_DeviceName := "nvidia.com/NVIDIA_A2-4Q" |}) <$> ["g"; "h"].
Definition demo_gpu_vmi : VirtualMachineInstance :=
  {| vmi_meta := new_meta "vm1" ∅ ∅; vmi_HostDevices := []; vmi_GPUs := demo_gpu_requests;
     vmi_Phase := VMI_Running; vmi_NodeName := "n1" |}.
Definition mdevs (p : string) : bool := slices_Contains ["/sys/bus/mdev/devices/u-1"; "/sys/bus/mdev/devices/u-2"] p.
Definition mdev_world : World sim := fun X e w =>
  match e in Eff X return (error + X) * sim with
  | FsStat p => (if mdevs p then inr tt else inl (Errorf "absent"), w)
  | _ => (inl (Errorf "unavailable"), w)
  end.
Definition gpu_env : list (string * string) := [("MDEV_PCI_RESOURCE_NVIDIA_COM_NVIDIA_A2-4Q", "u-2,u-1"); ("HOME", "/")].

Lemma vgpu_allocation_named_witness :
  exists v, v ∈ created demo_vgpus /\ uuid v = "u-1" /\
    vm_GPUs (patchGPUDevices {| vm_meta := new_meta "vm1" ∅ ∅; vm_Template := true; vm_HostDevices := []; vm_GPUs := demo_gpu_requests |}
      (recorded_gpus demo_gpu_vmi gpu_env demo_vgpus ∅)).1 !! 1 =
    Some (set_Name (vgpu_name v) {| dr_Name := "h"; dr_DeviceName := "nvidia.com/NVIDIA_A2-4Q" |}).
Proof.
  set (reqs := [["u-2"; "u-9"; "u-1"]]).
  destruct (@vgpu_Allocate _ unit sim mdev_world demo_vgpu reqs (State tt sim_empty)) as [[[|response l]|e|m] s'] eqn:E;
    try (exfalso; vm_compute in E; discriminate).
  assert (car_Envs response = {[ "MDEV_PCI_RESOURCE_NVIDIA_COM_NVIDIA_A2-4Q" := "u-2,u-1" ]}) as Hresp
    by (vm_compute in E; injection E as <- _; reflexivity).
  destruct (@vgpu_allocation_named _ unit sim mdev_world mdevs (Errorf "absent") (fun p w => eq_refl) demo_vgpu reqs
    (response :: l) response _ s' demo_gpu_vmi gpu_env demo_vgpus ∅ ["u-2"; "u-1"] E) as (names & _ & _ & Hshut).
  - left.
  - left.
  - apply (bool_decide_unpack _). vm_compute. exact I.
  - apply (bool_decide_unpack _). vm_compute. exact I.
  - intros k v. rewrite Hresp. intros [<- <-]%lookup_singleton_Some. left.
  - apply (bool_decide_unpack _). vm_compute. exact I.
  - apply (bool_decide_unpack _). vm_compute. exact I.
  - vm_compute. reflexivity.
  - discriminate.
  - apply (bool_decide_unpack _). vm_compute. exact I.
  - intros id. rewrite !elem_of_cons, elem_of_nil. intros [->|[->|[]]]; (split; [reflexivity|]).
    + exists (demo_vgpu_object "n1-gpu-2" "u-2"). split; [right; left|reflexivity].
    + exists (demo_vgpu_object "n1-gpu-1" "u-1"). split; [left|reflexivity].
  - refine (Hshut {| vm_meta := new_meta "vm1" ∅ ∅; vm_Template := true; vm_HostDevices := []; vm_GPUs := demo_gpu_requests |} _ 1 _ _ _
      eq_refl eq_refl eq_refl). vm_compute. reflexivity.
Defined.
