(* ===== verification/WebhookVM.v ===== *)
(** * Admission of virtual machines (pkg/webhook/vm.go, vm_validatation.go, indexer.go)

    The mutator adds to a VM the devices that share an IOMMU group with those it
    asks for, turns its GPUs into host devices and keeps its allocation
    annotation in step; the validator checks that the devices exist and are on
    one node. *)

From S2P Require Import Prelude GoStrings GoStringLemmas GoMonad Types Effects Common VirtualMachine Sim.
From Stdlib Require Import Ascii.

(** ** Indexes of the caches (indexer.go) *)
Definition VMByName : string := "harvesterhci.io/vm-by-name".
Definition PCIDeviceByResourceName : string := "harvesterhcio.io/pcidevice-by-resource-name".
Definition IommuGroupByNode : string := "pcidevice.harvesterhci.io/iommu-by-node".
Definition USBDeviceByAddress : string := "pcidevice.harvesterhci.io/usb-device-by-address".
Definition VMByPCIDeviceClaim : string := "harvesterhci.io/vm-by-pcideviceclaim".
Definition VMByUSBDeviceClaim : string := "harvesterhci.io/vm-by-usbdeviceclaim".
Definition USBDeviceByResourceName_index : string := "harvesterhci.io/usbdevice-by-resource-name".

Definition vmByName (obj : VirtualMachine) : outcome (list string) :=
  Ok [m_Name (vm_meta obj) +:+ "-" +:+ m_Namespace (vm_meta obj)].
Definition pciDeviceByResourceName (obj : PCIDevice) : outcome (list string) :=
  Ok [pd_ResourceName (pd_Status obj)].
Definition iommu_key (d : PCIDevice) : string :=
  pd_NodeName (pd_Status d) +:+ "-" +:+ pd_IOMMUGroup (pd_Status d).
Definition iommuGroupByNodeName (obj : PCIDevice) : outcome (list string) := Ok [iommu_key obj].
Definition usbDeviceClaimByAddress (obj : USBDeviceClaim) : outcome (list string) :=
  Ok [uc_NodeName (uc_Status obj) +:+ "-" +:+ uc_PCIAddress (uc_Status obj)].

(** ** Patch operations

    The code prints each operation of a JSON patch as text; [render] is its
    format strings. *)
Definition quote : string := str1 "034".
Definition quoted (s : string) : string := quote +:+ s +:+ quote.

Inductive PatchOp :=
| OpAdd (path value : string)
| OpRemove (path : string)
| OpReplace (path value : string).

Definition render (op : PatchOp) : string :=
  match op with
  | OpAdd path value =>
      "{" +:+ quoted "op" +:+ ": " +:+ quoted "add" +:+ ", " +:+ quoted "path" +:+ ": " +:+ quoted path
      +:+ ", " +:+ quoted "value" +:+ ": " +:+ value +:+ "}"
  | OpRemove path =>
      "{" +:+ quoted "op" +:+ ": " +:+ quoted "remove" +:+ ", " +:+ quoted "path" +:+ ": " +:+ quoted path +:+ "}"
  | OpReplace path value =>
      "{" +:+ quoted "op" +:+ ": " +:+ quoted "replace" +:+ ", " +:+ quoted "path" +:+ ": " +:+ quoted path
      +:+ ", " +:+ quoted "value" +:+ ": " +:+ value +:+ "}"
  end.

(** The verb [%q] on printable ASCII, which JSON text is: quotes and backslashes
    are escaped. *)
Fixpoint escape_q (s : string) : string :=
  match s with
  | EmptyString => EmptyString
  | String c s' =>
      (if bool_decide (c = "034"%char) || bool_decide (c = "\"%char) then String "\" (str1 c) else str1 c)
      +:+ escape_q s'
  end.
Definition fmt_q (s : string) : string := quoted (escape_q s).

Definition defaultHostDevBase : string := "/spec/template/spec/domain/devices/hostDevices".
Definition defaultHostDevBasePath : string := "/spec/template/spec/domain/devices/hostDevices/-".
Definition defaultGPUDevBasePath : string := "/spec/template/spec/domain/devices/gpus".

(** A device together with the user that its claim names. *)
Record pciDeviceWithOwners := { wo_device : PCIDevice; wo_owner : string }.

Definition generatePCIDeviceClaim (dev : PCIDevice) (owner : string) : PCIDeviceClaim :=
  {| pdc_meta := set_OwnerReferences
       (Some [{| or_APIVersion := m_APIVersion (pd_meta dev); or_Kind := m_Kind (pd_meta dev);
                 or_Name := m_Name (pd_meta dev); or_UID := m_UID (pd_meta dev) |}])
       (new_meta (m_Name (pd_meta dev)) ∅ ∅);
     pdc_Spec := {| pdc_Address := pd_Address (pd_Status dev);
                    pdc_NodeName := pd_NodeName (pd_Status dev);
                    pdc_UserName := owner; pdc_DisableResourcePooling := false |};
     pdc_Status := {| pdc_KernelDriverToUnbind := ""; pdc_PassthroughEnabled := false |} |}.

Fixpoint additionalDeviceAlreadyExists (devList : list string) (dev : string) : bool :=
  match devList with
  | [] => false
  | v :: rest => if v ==s dev then true else additionalDeviceAlreadyExists rest dev
  end.

Definition identifyAdditionalPCIDevices (pciDevicesInVM : list string)
    (possible : list pciDeviceWithOwners) : list pciDeviceWithOwners :=
  List.filter (fun v => negb (additionalDeviceAlreadyExists pciDevicesInVM (m_Name (pd_meta (wo_device v)))))
    possible.

(** The names of the host devices, by the resource they ask for. *)
Definition group_names (devices : list DeviceRef) : gmap string (list string) :=
  fold_left (fun m d => <[dr_DeviceName d := default [] (m !! dr_DeviceName d) ++ [dr_Name d]]> m) devices ∅.

Section Mutator.
Context `{External} {Mem W : Type} `{World W}.
#[local] Abbreviation M := (M Mem W).

(** Encoding a host device cannot fail. *)
Definition generateDevicePatch (name resourceName : string) : list PatchOp :=
  [OpAdd defaultHostDevBasePath (marshal_HostDevice {| dr_Name := name; dr_DeviceName := resourceName |})].

Definition generatePatchFromDevices (devicesNeeded : list pciDeviceWithOwners) : list PatchOp :=
  concat ((fun dev => generateDevicePatch (m_Name (pd_meta (wo_device dev)))
                        (pd_ResourceName (pd_Status (wo_device dev)))) <$> devicesNeeded).

Definition findAndCreateClaim (dev : PCIDevice) (owner : string) : M unit :=
  r <- try (eff (CacheGet KPCIDeviceClaim "" (m_Name (pd_meta dev)))) ;;
  match r with
  | inr _ => ret tt
  | inl err =>
      if IsNotFound err then
        _ <- eff (ApiCreate KPCIDeviceClaim (generatePCIDeviceClaim dev owner)) ;; ret tt
      else fail err
  end.

(** The loop over the VM's host devices: [None] where it returns without a patch,
    because a device or its claim does not exist. *)
Fixpoint group_mates (devices : list DeviceRef) : M (option (list pciDeviceWithOwners)) :=
  match devices with
  | [] => ret (Some [])
  | v :: rest =>
      r <- try (eff (CacheGet KPCIDevice "" (dr_Name v))) ;;
      match r with
      | inl err => if IsNotFound err then ret None
                   else fail (Errorf "error looking up pcidevice from cache")
      | inr pciDeviceObj =>
          r <- try (eff (CacheGet KPCIDeviceClaim "" (dr_Name v))) ;;
          match r with
          | inl err => if IsNotFound err then ret None
                       else fail (Errorf "error looking up pcidevice from cache")
          | inr pciDeviceClaimObj =>
              pciDevices <- on_err (fun _ => Errorf "error lookup up pcidevices")
                (eff (CacheByIndex KPCIDevice IommuGroupByNode (iommu_key pciDeviceObj))) ;;
              let owners := (fun d => {| wo_device := d;
                                         wo_owner := pdc_UserName (pdc_Spec pciDeviceClaimObj) |})
                            <$> (pciDevices : list PCIDevice) in
              more <- group_mates rest ;;
              ret (app owners <$> more)
          end
      end
  end.

Definition generateHostDevicesPatch (vmObj : VirtualMachine) : M (list PatchOp) :=
  possible <- group_mates (vm_HostDevices vmObj) ;;
  match possible with
  | None => ret []
  | Some possible =>
      let devicesNeeded := identifyAdditionalPCIDevices (dr_Name <$> vm_HostDevices vmObj) possible in
      for_each (fun v => on_err (fun _ => Errorf "error during findAndCreateClaim")
                           (findAndCreateClaim (wo_device v) (wo_owner v))) devicesNeeded ;;;
      ret (generatePatchFromDevices devicesNeeded)
  end.

Definition reconcileDeviceAllocationAnnotation (vmObj : VirtualMachine) : M (list PatchOp) :=
  match m_Annotations (vm_meta vmObj) !! DeviceAllocationKey with
  | None => ret []
  | Some currentVal =>
      r <- try (eff (CacheGet KVirtualMachineInstance (m_Namespace (vm_meta vmObj)) (m_Name (vm_meta vmObj)))) ;;
      match r with
      | inr _ => ret []
      | inl err =>
          if negb (IsNotFound err) then fail (Errorf "error looking up VMI for vm")
          else
            let annotationPath := "/metadata/annotations/" +:+ EscapeJSONPointer DeviceAllocationKey in
            match vm_HostDevices vmObj with
            | [] => ret [OpRemove annotationPath]
            | _ =>
                let newVal := marshal_AllocationDetails
                  {| ad_GPUs := ∅; ad_HostDevices := group_names (vm_HostDevices vmObj) |} in
                if newVal ==s currentVal then ret []
                else ret [OpReplace annotationPath (fmt_q newVal)]
            end
      end
  end.

(** The GPU at each position is removed by that position's path and added to the
    host devices. *)
Fixpoint convert_gpus (i : nat) (gpus : list DeviceRef) : list PatchOp :=
  match gpus with
  | [] => []
  | vgpu :: rest =>
      OpRemove (defaultGPUDevBasePath +:+ "/" +:+ Itoa (Z.of_nat i))
      :: generateDevicePatch (dr_Name vgpu) (dr_DeviceName vgpu) ++ convert_gpus (S i) rest
  end.

Definition convertGPUsToHostDevices (vm : VirtualMachine) : list PatchOp :=
  (match vm_HostDevices vm with [] => [OpAdd defaultHostDevBase "[]"] | _ => [] end)
  ++ convert_gpus 0 (vm_GPUs vm).

Definition gpu_patches (vm : VirtualMachine) : list PatchOp :=
  match vm_GPUs vm with [] => [] | _ => convertGPUsToHostDevices vm end.

Definition VM_Create (newObj : VirtualMachine) : M (list string) :=
  with_template newObj
    (hostPatches <- on_err (Wrapf "error generating hostdevices patch for vm")
       (match vm_HostDevices newObj with [] => ret [] | _ => generateHostDevicesPatch newObj end) ;;
     ret (render <$> hostPatches ++ gpu_patches newObj)).

(** Both objects that [Update] compares are read from [newObj]; the third
    argument of the Go method, the old object, has no name there. *)
Definition VM_Update (_ newObj : VirtualMachine) : M (list string) :=
  let vmObj := newObj in
  let oldVMObj := newObj in
  with_template vmObj
    (hostPatches <- on_err (Wrapf "error generating hostdevices patch for vm")
       (if negb (bool_decide (vm_HostDevices oldVMObj = vm_HostDevices vmObj))
        then generateHostDevicesPatch vmObj else ret []) ;;
     annotationPatches <- on_err (Wrapf "error reconciling device allocation annotation for vm")
       (reconcileDeviceAllocationAnnotation vmObj) ;;
     ret (render <$> hostPatches ++ gpu_patches vmObj ++ annotationPatches)).

(** ** The validator (vm_validatation.go) *)

(** [cache.Get] where a missing object is no error. *)
Definition get_or_nil (k : Kind) (name : string) : M (option (Obj k)) :=
  r <- try (eff (CacheGet k "" name)) ;;
  match r with
  | inr o => ret (Some o)
  | inl err => if IsNotFound err then ret None else fail err
  end.

Fixpoint same_nodes (nodeName : string) (devices : list DeviceRef) : M unit :=
  match devices with
  | [] => ret tt
  | device :: rest =>
      usb <- get_or_nil KUSBDevice (dr_Name device) ;;
      match (if nodeName ==s "" then usb else None) with
      | Some u => same_nodes (usb_NodeName (usb_Status u)) rest
      | None =>
          pci <- get_or_nil KPCIDevice (dr_Name device) ;;
          match (if nodeName ==s "" then pci else None) with
          | Some p => same_nodes (pd_NodeName (pd_Status p)) rest
          | None =>
              match pci with
              | Some p =>
                  if pd_NodeName (pd_Status p) !=s nodeName
                  then fail (Errorf "pcidevice is not on the same node")
                  else match usb with
                       | Some u => if usb_NodeName (usb_Status u) !=s nodeName
                                   then fail (Errorf "usbdevice is not on the same node")
                                   else same_nodes nodeName rest
                       | None => same_nodes nodeName rest
                       end
              | None =>
                  match usb with
                  | Some u => if usb_NodeName (usb_Status u) !=s nodeName
                              then fail (Errorf "usbdevice is not on the same node")
                              else same_nodes nodeName rest
                  | None => same_nodes nodeName rest
                  end
              end
          end
      end
  end.

Definition validateDevicesFromSameNodes (vmObj : VirtualMachine) : M unit :=
  same_nodes "" (vm_HostDevices vmObj).

Definition validatePCIDevice (resourceName : string) : M bool :=
  objs <- on_err (fun _ => Errorf "error looking up pcidevice from cache")
    (eff (CacheByIndex KPCIDevice PCIDeviceByResourceName resourceName)) ;;
  ret (match objs with [] => false | _ => true end).
Definition validateUSBDevice (resourceName : string) : M bool :=
  objs <- on_err (fun _ => Errorf "error looking up usbdevice from cache")
    (eff (CacheByIndex KUSBDevice USBDeviceByResourceName_index resourceName)) ;;
  ret (match objs with [] => false | _ => true end).

Definition validateHostDevices (vmObj : VirtualMachine) : M unit :=
  for_each (fun hostDevice =>
    foundInPCI <- validatePCIDevice (dr_DeviceName hostDevice) ;;
    foundInUSB <- validateUSBDevice (dr_DeviceName hostDevice) ;;
    if negb foundInPCI && negb foundInUSB
    then fail (Errorf "resource name not found in pcidevice and usbdevice cache")
    else ret tt) (vm_HostDevices vmObj).

Definition validateDevices (vmObj : VirtualMachine) : M unit :=
  with_template vmObj
    match vm_HostDevices vmObj with
    | [] => ret tt
    | _ => validateHostDevices vmObj ;;; validateDevicesFromSameNodes vmObj
    end.
End Mutator.

(** ** Devices of one node *)
Section SameNodes.
Context `{External} {Mem W : Type} `{World W}.
Context (c : contents) (s : state Mem W) `{!Answers c s}.

(** The nodes on which the caches place devices of that name. *)
Definition nodes_of (name : string) : list string :=
  match c_get c KUSBDevice name with Some u => [usb_NodeName (usb_Status u)] | None => [] end ++
  match c_get c KPCIDevice name with Some p => [pd_NodeName (pd_Status p)] | None => [] end.

Lemma get_or_nil_usb n : get_or_nil KUSBDevice n s = (Ok (c_get c KUSBDevice n), s).
Proof. unfold get_or_nil, bind, try. rewrite answers_get. by destruct (c_get c KUSBDevice n). Qed.
Lemma get_or_nil_pci n : get_or_nil KPCIDevice n s = (Ok (c_get c KPCIDevice n), s).
Proof. unfold get_or_nil, bind, try. rewrite answers_get. by destruct (c_get c KPCIDevice n). Qed.

Lemma same_nodes_fixed node l :
  node <> "" ->
  snd (same_nodes node l s) = s /\
  (fst (same_nodes node l s) = Ok tt <-> forall d, d ∈ l -> Forall (eq node) (nodes_of (dr_Name d))).
Proof.
  intros Hnode. induction l as [|d l IH].
  { split; [done|]. split; [|done]. intros _ d Hd. by apply elem_of_nil in Hd. }
  cbn [same_nodes]. unfold bind. rewrite !get_or_nil_usb.
  rewrite (bool_decide_eq_false_2 (node = "")) by done. rewrite !get_or_nil_pci.
  setoid_rewrite elem_of_cons.
  assert (forall P : DeviceRef -> Prop, (forall x, x = d \/ x ∈ l -> P x) <-> P d /\ forall x, x ∈ l -> P x)
    as Hsplit.
  { intros P. split; [intros HP; split; intros; apply HP; tauto|]. intros [Hd HP] x [->|Hx]; auto. }
  rewrite Hsplit. unfold nodes_of at 1. destruct IH as [IHs IHo].
  destruct (c_get c KUSBDevice (dr_Name d)) as [u|], (c_get c KPCIDevice (dr_Name d)) as [p|]; simpl;
    rewrite ?Forall_cons, ?Forall_nil; repeat (case_bool_decide; simpl);
    first
      [ split; [exact IHs|]; rewrite IHo; split; [intros Hl; by split_and!|tauto]
      | split; [done|]; split; [discriminate|]; intros [HF _]; exfalso; naive_solver ].
Qed.

(** The node that the check takes from the name while it has none: the one of the USB
    device of that name, and of the PCI device when there is no USB device. *)
Definition decides (name : string) : option string :=
  match c_get c KUSBDevice name with
  | Some u => Some (usb_NodeName (usb_Status u))
  | None => (fun p : PCIDevice => pd_NodeName (pd_Status p)) <$> c_get c KPCIDevice name
  end.
Definition undecided (d : DeviceRef) : Prop := decides (dr_Name d) = None \/ decides (dr_Name d) = Some "".

(** After names that give no node, the first that gives one fixes it for the rest. *)
Inductive one_node : list DeviceRef -> Prop :=
| no_device : one_node []
| gives_none d l : undecided d -> one_node l -> one_node (d :: l)
| gives_node d l node :
    decides (dr_Name d) = Some node -> node <> "" ->
    (forall x, x ∈ l -> Forall (eq node) (nodes_of (dr_Name x))) -> one_node (d :: l).

Lemma same_nodes_cons d l :
  same_nodes "" (d :: l) s = same_nodes (default "" (decides (dr_Name d))) l s.
Proof.
  cbn [same_nodes]. unfold bind, decides. rewrite !get_or_nil_usb. simpl.
  destruct (c_get c KUSBDevice (dr_Name d)) as [u|]; [done|]. rewrite !get_or_nil_pci.
  by destruct (c_get c KPCIDevice (dr_Name d)).
Qed.

Lemma same_nodes_exact l :
  snd (same_nodes "" l s) = s /\ (fst (same_nodes "" l s) = Ok tt <-> one_node l).
Proof.
  induction l as [|d l [IHs IHo]]; [split; [done|]; split; [constructor|done]|].
  rewrite same_nodes_cons. destruct (decide (undecided d)) as [Hun|Hdec].
  - assert (default "" (decides (dr_Name d)) = "") as -> by by destruct Hun as [-> | ->].
    split; [done|]. rewrite IHo. split; [by apply gives_none|].
    inversion 1 as [|d' l' Hu Hl|d' l' n E Hne Hl]; subst; [done|].
    destruct Hun as [Hu|Hu]; rewrite Hu in E; [done|]. by injection E as <-.
  - destruct (decides (dr_Name d)) as [node|] eqn:Hd; [|by destruct Hdec; left].
    assert (node <> "") as Hne by (intros ->; by destruct Hdec; right). simpl.
    destruct (same_nodes_fixed node l Hne) as [Hs Ho]. split; [done|]. rewrite Ho.
    split; [by eapply gives_node|]. inversion 1 as [|d' l' Hu Hl|d' l' n E Hne' Hl]; subst.
    + by destruct Hdec.
    + rewrite Hd in E. by injection E as ->.
Qed.

(** When the devices know their nodes and no name is that of two devices, this says
    that one node holds them all. *)
Lemma one_node_placed l :
  (forall d, d ∈ l -> Forall (fun n => n <> "") (nodes_of (dr_Name d))) ->
  (forall d, d ∈ l -> c_get c KUSBDevice (dr_Name d) = None \/ c_get c KPCIDevice (dr_Name d) = None) ->
  one_node l <-> exists node, forall d, d ∈ l -> Forall (eq node) (nodes_of (dr_Name d)).
Proof.
  intros Hne Hone.
  assert (forall d, d ∈ l -> nodes_of (dr_Name d) = match decides (dr_Name d) with Some n => [n] | None => [] end) as Hn.
  { intros d Hd. unfold nodes_of, decides. destruct (Hone d Hd) as [-> | ->];
      [by destruct (c_get c KPCIDevice _)|by destruct (c_get c KUSBDevice _)]. }
  assert (forall d, d ∈ l -> decides (dr_Name d) <> Some "") as Hsome.
  { intros d Hd E. specialize (Hne d Hd). rewrite (Hn d Hd), E in Hne. by apply Forall_cons in Hne as [? _]. }
  clear Hne Hone. induction l as [|d l IH].
  { split; [|constructor]. intros _. exists "". intros d Hd. by apply elem_of_nil in Hd. }
  destruct IH as [IH1 IH2]; [intros; apply Hn; by right|intros; apply Hsome; by right|].
  pose proof (Hn d (list_elem_of_here _ _)) as Hd. specialize (Hsome d (list_elem_of_here _ _)). split.
  - inversion 1 as [|d' l' [E|E] Hl|d' l' n E Hne Hl]; subst.
    + rewrite E in Hd. destruct IH1 as [n Hall]; [done|]. exists n. intros x Hx.
      apply elem_of_cons in Hx as [->|Hx]; [by rewrite Hd|auto].
    + by destruct Hsome.
    + rewrite E in Hd. exists n. intros x Hx. apply elem_of_cons in Hx as [->|Hx]; [rewrite Hd; by repeat constructor|auto].
  - intros (n & Hall). destruct (decides (dr_Name d)) as [m|] eqn:E.
    + pose proof (Hall d (list_elem_of_here _ _)) as Hdn. rewrite Hd in Hdn. apply Forall_cons in Hdn as [-> _].
      eapply gives_node; [done|by intros ->|]. intros x Hx. apply Hall. by right.
    + apply gives_none; [by left|]. apply IH2. exists n. intros x Hx. apply Hall. by right.
Qed.

(** *** The whole validator *)
Definition known_resource (name : string) : Prop :=
  c_index c KPCIDevice PCIDeviceByResourceName name <> [] \/ c_index c KUSBDevice USBDeviceByResourceName_index name <> [].

Lemma validateHostDevices_exact vm :
  snd (validateHostDevices vm s) = s /\
  (fst (validateHostDevices vm s) = Ok tt <-> forall d, d ∈ vm_HostDevices vm -> known_resource (dr_DeviceName d)).
Proof.
  unfold validateHostDevices. induction (vm_HostDevices vm) as [|d l [IHs IHo]].
  { split; [done|]. split; [|done]. intros _ d Hd. by apply elem_of_nil in Hd. }
  cbn [for_each]. unfold bind at 1 3, validatePCIDevice, validateUSBDevice, on_err, bind, ret.
  rewrite !answers_index. setoid_rewrite elem_of_cons.
  assert (forall P : DeviceRef -> Prop, (forall x, x = d \/ x ∈ l -> P x) <-> P d /\ forall x, x ∈ l -> P x)
    as Hsplit.
  { intros P. split; [intros HP; split; intros; apply HP; tauto|]. intros [Hd HP] x [->|Hx]; auto. }
  rewrite Hsplit. unfold known_resource at 1.
  destruct (c_index c KPCIDevice _ _) as [|p ps], (c_index c KUSBDevice _ _) as [|u us]; cbn [negb andb].
  - split; [done|]. split; [discriminate|]. intros [[Hbad|Hbad] _]; by destruct Hbad.
  - split; [exact IHs|]. rewrite IHo. split; [|tauto]. split; [by right|done].
  - split; [exact IHs|]. rewrite IHo. split; [|tauto]. split; [by left|done].
  - split; [exact IHs|]. rewrite IHo. split; [|tauto]. split; [by left|done].
Qed.

Lemma validateDevices_exact vm :
  vm_Template vm = true ->
  snd (validateDevices vm s) = s /\
  (fst (validateDevices vm s) = Ok tt <->
   (forall d, d ∈ vm_HostDevices vm -> known_resource (dr_DeviceName d)) /\ one_node (vm_HostDevices vm)).
Proof.
  intros Ht. unfold validateDevices, with_template. rewrite Ht.
  destruct (validateHostDevices_exact vm) as [Hs Ho].
  destruct (same_nodes_exact (vm_HostDevices vm)) as [Hs' Ho'].
  destruct (vm_HostDevices vm) as [|d l] eqn:E.
  { split; [done|]. split; [|done]. intros _. split; [|constructor]. intros d Hd. by apply elem_of_nil in Hd. }
  unfold bind, validateDevicesFromSameNodes. rewrite E.
  destruct (validateHostDevices vm s) as [[[]|e|p] s1]; cbn [fst snd] in *; subst s1.
  - split; [done|]. rewrite Ho'. split; [intros ?; split; [by apply Ho|done]|tauto].
  - split; [done|]. split; [discriminate|]. intros [Hall _]. by apply Ho in Hall.
  - split; [done|]. split; [discriminate|]. intros [Hall _]. by apply Ho in Hall.
Qed.
End SameNodes.

(** ** The devices added to a VM *)
Lemma additionalDeviceAlreadyExists_spec l dev :
  additionalDeviceAlreadyExists l dev = bool_decide (dev ∈ l).
Proof.
  induction l as [|v l IH]; [done|]. simpl. rewrite IH.
  repeat case_bool_decide; try done; exfalso; rewrite elem_of_cons in *; naive_solver.
Qed.

Section Added.
Context `{External} {Mem W : Type} `{World W}.
Implicit Types (s : state Mem (Logged W)).

(** What the cache said of a requested device: it and its claim, and the devices of
    its node and IOMMU group, each with the user of the claim. *)
Definition mates_seen s (v : DeviceRef) (mates : list pciDeviceWithOwners) : Prop :=
  exists (dev : PCIDevice) (claim : PCIDeviceClaim) (devs : list PCIDevice),
    Ev (CacheGet KPCIDevice "" (dr_Name v)) (inr dev) ∈ log_of s /\
    Ev (CacheGet KPCIDeviceClaim "" (dr_Name v)) (inr claim) ∈ log_of s /\
    Ev (CacheByIndex KPCIDevice IommuGroupByNode (iommu_key dev)) (inr devs) ∈ log_of s /\
    mates = (fun d => {| wo_device := d; wo_owner := pdc_UserName (pdc_Spec claim) |}) <$> devs.

(** The device had a claim, or one was created for it. *)
Definition claimed s (v : pciDeviceWithOwners) : Prop :=
  (exists c, Ev (CacheGet KPCIDeviceClaim "" (m_Name (pd_meta (wo_device v)))) (inr c) ∈ log_of s) \/
  (exists c, Ev (ApiCreate KPCIDeviceClaim (generatePCIDeviceClaim (wo_device v) (wo_owner v))) (inr c)
     ∈ log_of s).

Lemma Steps_group_mates l : Steps (@emits Mem W any_event) (group_mates l).
Proof. induction l as [|v l IH]; cbn [group_mates]; steps_tac. Qed.
Lemma Steps_findAndCreateClaim d o : Steps (@emits Mem W any_event) (findAndCreateClaim d o).
Proof. unfold findAndCreateClaim. steps_tac. Qed.
Lemma Steps_claims l :
  Steps (@emits Mem W any_event) (for_each (fun v => on_err (fun _ => Errorf "error during findAndCreateClaim")
    (findAndCreateClaim (wo_device v) (wo_owner v))) l).
Proof. apply Steps_for_each; [typeclasses eauto|]. intros x _. apply Steps_on_err, Steps_findAndCreateClaim. Qed.

Lemma mates_seen_mono s s' v m :
  (forall ev, ev ∈ log_of s -> ev ∈ log_of s') -> mates_seen s v m -> mates_seen s' v m.
Proof. intros Hlog (d & c & ds & ?). exists d, c, ds. naive_solver. Qed.
Lemma claimed_mono s s' v :
  (forall ev, ev ∈ log_of s -> ev ∈ log_of s') -> claimed s v -> claimed s' v.
Proof. unfold claimed. naive_solver. Qed.

Lemma try_eff_Ok {X} (e : Eff X) s x s' :
  try (eff e) s = (Ok (inr x), s') -> log_of s' = log_of s ++ [Ev e (inr x)].
Proof. intros Hrun%try_Ok_inv. by apply eff_Ok_log in Hrun as [-> _]. Qed.

Lemma group_mates_Ok l s possible s' :
  group_mates l s = (Ok (Some possible), s') ->
  exists groups, Forall2 (mates_seen s') l groups /\ possible = concat groups.
Proof.
  revert s possible. induction l as [|v l IH]; intros s possible Hrun; cbn [group_mates] in Hrun.
  { injection Hrun as <- <-. by exists []. }
  apply bind_Ok_inv in Hrun as (r & s1 & Hdev & Hrun).
  destruct r as [er|dev]; [by destruct (IsNotFound er)|].
  apply bind_Ok_inv in Hrun as (r & s2 & Hclaim & Hrun).
  destruct r as [er|claim]; [by destruct (IsNotFound er)|].
  apply bind_Ok_inv in Hrun as (devs & s3 & Hdevs & Hrun). apply on_err_Ok_inv, eff_Ok_log in Hdevs as [Hdevs _].
  apply bind_Ok_inv in Hrun as (more & s4 & Hmore & Hrun).
  apply try_eff_Ok in Hdev, Hclaim.
  pose proof (fun ev => log_mono _ any_event _ _ _ ev (Steps_group_mates l) Hmore) as Hmono.
  destruct more as [more|]; [|discriminate Hrun]. injection Hrun as <- <-. destruct (IH _ _ Hmore) as (groups & Hgroups & ->).
  eexists (_ :: groups). split; [|reflexivity]. constructor; [|exact Hgroups].
  exists dev, claim, devs. split_and!; [..|reflexivity]; apply Hmono;
    rewrite Hdevs, ?Hclaim, ?Hdev, !elem_of_app, !list_elem_of_singleton; tauto.
Qed.

Lemma findAndCreateClaim_Ok v s s' :
  findAndCreateClaim (wo_device v) (wo_owner v) s = (Ok tt, s') -> claimed s' v.
Proof.
  unfold findAndCreateClaim. intros Hrun. apply bind_Ok_inv in Hrun as (r & s1 & Hget & Hrun).
  destruct r as [er|c].
  - destruct (IsNotFound er); [|discriminate Hrun].
    apply bind_Ok_inv in Hrun as (c & s2 & Hc & Hrun). injection Hrun as <-.
    apply eff_Ok_log in Hc as [Hc _]. right. exists c. rewrite Hc. apply elem_of_app. right. by left.
  - injection Hrun as <-. apply try_eff_Ok in Hget. left. exists c. rewrite Hget. apply elem_of_app. right. by left.
Qed.

Lemma claims_Ok l s s' :
  for_each (fun v => on_err (fun _ => Errorf "error during findAndCreateClaim")
    (findAndCreateClaim (wo_device v) (wo_owner v))) l s = (Ok tt, s') -> Forall (claimed s') l.
Proof.
  revert s. induction l as [|v l IH]; intros s Hrun; [constructor|]. cbn [for_each] in Hrun.
  apply bind_Ok_inv in Hrun as ([] & s1 & Hv & Hrun). constructor; [|by eapply IH].
  apply on_err_Ok_inv, findAndCreateClaim_Ok in Hv. revert Hv. apply claimed_mono.
  intros ev. by apply (log_mono _ any_event _ _ _ ev (Steps_claims l) Hrun).
Qed.

(** C16: the host devices added to a new VM: when the devices it asks for and their
    claims exist, every device of an IOMMU group of one of them that the VM does
    not name is added to it, once for each requested device of the group, and
    has or gets a claim in the name of that device's user. *)
Theorem generateHostDevicesPatch_spec (vm : VirtualMachine) s ops s' :
  generateHostDevicesPatch vm s = (Ok ops, s') -> ops <> [] ->
  exists groups, Forall2 (mates_seen s') (vm_HostDevices vm) groups /\
    let needed := List.filter
      (fun v => bool_decide (m_Name (pd_meta (wo_device v)) ∉ dr_Name <$> vm_HostDevices vm)) (concat groups) in
    Forall (claimed s') needed /\
    ops = (fun v => OpAdd defaultHostDevBasePath (marshal_HostDevice
             {| dr_Name := m_Name (pd_meta (wo_device v));
                dr_DeviceName := pd_ResourceName (pd_Status (wo_device v)) |})) <$> needed.
Proof.
  unfold generateHostDevicesPatch. intros Hrun Hne.
  apply bind_Ok_inv in Hrun as (possible & s1 & Hmates & Hrun).
  destruct possible as [possible|]; [|by injection Hrun as <- _].
  apply bind_Ok_inv in Hrun as ([] & s2 & Hclaims & Hrun). injection Hrun as <- <-.
  apply group_mates_Ok in Hmates as (groups & Hgroups & ->).
  assert (identifyAdditionalPCIDevices (dr_Name <$> vm_HostDevices vm) (concat groups) =
    List.filter (fun v => bool_decide (m_Name (pd_meta (wo_device v)) ∉ dr_Name <$> vm_HostDevices vm))
      (concat groups)) as Heq.
  { apply List.filter_ext. intros v. rewrite additionalDeviceAlreadyExists_spec. symmetry. apply bool_decide_not. }
  rewrite Heq in *. exists groups. split_and!.
  - eapply Forall2_impl; [exact Hgroups|]. intros v g. apply mates_seen_mono.
    intros ev. by apply (log_mono _ any_event _ _ _ ev (Steps_claims _) Hclaims).
  - by eapply claims_Ok.
  - unfold generatePatchFromDevices, generateDevicePatch. clear.
    induction (List.filter _ _) as [|v l IH]; [done|]. rewrite !fmap_cons. cbn [concat]. by rewrite IH.
Qed.
End Added.

Definition demo_claim (name user : string) : PCIDeviceClaim :=
  {| pdc_meta := new_meta name ∅ ∅;
     pdc_Spec := {| pdc_Address := ""; pdc_NodeName := "n1"; pdc_UserName := user;
                    pdc_DisableResourcePooling := false |};
     pdc_Status := {| pdc_KernelDriverToUnbind := ""; pdc_PassthroughEnabled := false |} |}.

(** Three devices in one group; the VM asks for two of them. *)
Definition group_cluster : sim :=
  let w := foldr (put KPCIDevice)
             (put KPCIDeviceClaim (demo_claim "n1-a" "admin") (put KPCIDeviceClaim (demo_claim "n1-b" "admin") sim_empty))
             demo_devices in
  {| sim_store := sim_store w; sim_index := {[ (IommuGroupByNode, "n1-") := ["n1-a"; "n1-b"; "n1-c"] ]};
     sim_files := sim_files w; sim_links := sim_links w; sim_dirs := sim_dirs w; sim_globs := sim_globs w;
     sim_exec := sim_exec w; sim_pci := sim_pci w; sim_nics := sim_nics w; sim_netlinks := sim_netlinks w;
     sim_nv := sim_nv w; sim_locks := sim_locks w; sim_queue := sim_queue w |}.
Definition group_vm : VirtualMachine :=
  {| vm_meta := new_meta "vm1" ∅ ∅;
     vm_Template := true; vm_HostDevices := [{| dr_Name := "n1-a"; dr_DeviceName := "x" |}; {| dr_Name := "n1-b"; dr_DeviceName := "x" |}];
     vm_GPUs := [] |}.
Definition group_start : state unit (Logged sim) := State tt (group_cluster, []).

(** The third device is added twice. *)
Example mate_added_twice :
  fst (generateHostDevicesPatch group_vm group_start) =
  Ok [OpAdd defaultHostDevBasePath "n1-c:"; OpAdd defaultHostDevBasePath "n1-c:"].
Proof. vm_compute. reflexivity. Qed.

Lemma generateHostDevicesPatch_spec_witness :
  exists ops s', generateHostDevicesPatch group_vm group_start = (Ok ops, s') /\ ops <> [] /\
  exists groups, Forall2 (mates_seen s') (vm_HostDevices group_vm) groups /\
    let needed := List.filter
      (fun v => bool_decide (m_Name (pd_meta (wo_device v)) ∉ dr_Name <$> vm_HostDevices group_vm)) (concat groups) in
    Forall (claimed s') needed /\
    ops = (fun v => OpAdd defaultHostDevBasePath (marshal_HostDevice
             {| dr_Name := m_Name (pd_meta (wo_device v));
                dr_DeviceName := pd_ResourceName (pd_Status (wo_device v)) |})) <$> needed.
Proof.
  pose proof mate_added_twice as Hops.
  destruct (generateHostDevicesPatch group_vm group_start) as [o s'] eqn:E. cbn [fst] in Hops. subst o.
  eexists _, s'. split; [reflexivity|]. split; [discriminate|].
  exact (generateHostDevicesPatch_spec group_vm group_start _ s' E ltac:(discriminate)).
Defined.

(** ** Updates *)
Definition reads_vmi (ev : event) : Prop :=
  match ev with
  | Ev e _ => match e with CacheGet k _ _ => k = KVirtualMachineInstance | _ => False end
  end.

Section Updates.
Context `{External} {Mem W : Type} `{World W}.

(** Updating a VM never adds the devices that share a group with its new ones:
    whatever the change, the mutator looks at no PCI device, creates no claim,
    and asks the caches only for the VM's instance.  The patch depends on the
    new object alone: it converts the GPUs and syncs the annotation. *)
Theorem VM_Update_adds_nothing (oldVM newVM : VirtualMachine) :
  Steps (@emits Mem W reads_vmi) (VM_Update oldVM newVM) /\
  forall s ops s', VM_Update (Mem := Mem) (W := W) oldVM newVM s = (Ok ops, s') ->
    exists ann, ops = render <$> gpu_patches newVM ++ ann /\
      (ann = [] \/ exists op, ann = [op] /\
         let path := "/metadata/annotations/" +:+ EscapeJSONPointer DeviceAllocationKey in
         (op = OpRemove path \/ exists v, op = OpReplace path v)).
Proof.
  unfold VM_Update, with_template. rewrite bool_decide_eq_true_2 by done. cbn [negb].
  destruct (vm_Template newVM); [|split; [steps_tac|discriminate]]. split.
  - unfold reconcileDeviceAllocationAnnotation. steps_tac.
    all: apply Steps_emits_eff; done.
  - intros s ops s' Hrun. inv_ok. eexists. split; [reflexivity|].
    match goal with H : reconcileDeviceAllocationAnnotation _ _ = _ |- _ => rename H into Hann end.
    unfold reconcileDeviceAllocationAnnotation in Hann.
    destruct (_ !! DeviceAllocationKey); [|inv_ok; by left].
    apply bind_Ok_inv in Hann as ([er|vmi] & s3 & _ & Hann); [|inv_ok; by left].
    destruct (negb (IsNotFound er)); [discriminate Hann|].
    destruct (vm_HostDevices newVM).
    + injection Hann as <- _. right. eexists. split; [reflexivity|]. by left.
    + match type of Hann with context [if ?b then _ else _] => destruct b end; injection Hann as <- _; [by left|].
      right. eexists. split; [reflexivity|]. right. by eexists.
Qed.
End Updates.

(** ** Turning GPUs into host devices, as the API server applies the patch

    The part of a VM that these operations touch: the encoded host devices, when
    the list is there, and the GPUs.  An operation on a path that does not exist
    makes the whole patch fail (RFC 6902). *)
Definition gpu_path (i : nat) : string := defaultGPUDevBasePath +:+ "/" +:+ Itoa (Z.of_nat i).

Definition apply_op (op : PatchOp) (doc : option (list string) * list DeviceRef)
    : option (option (list string) * list DeviceRef) :=
  let '(host, gpus) := doc in
  match op with
  | OpAdd path value =>
      if path ==s defaultHostDevBase then Some (Some [], gpus)
      else if path ==s defaultHostDevBasePath then
        match host with Some l => Some (Some (l ++ [value]), gpus) | None => None end
      else None
  | OpRemove path =>
      match find_index (fun i => gpu_path i ==s path) (seq 0 (length gpus)) with
      | Some i => Some (host, take i gpus ++ drop (S i) gpus)
      | None => None
      end
  | OpReplace _ _ => None
  end.

Fixpoint apply_patch (ops : list PatchOp) (doc : option (list string) * list DeviceRef)
    : option (option (list string) * list DeviceRef) :=
  match ops with
  | [] => Some doc
  | op :: rest => match apply_op op doc with Some doc' => apply_patch rest doc' | None => None end
  end.

Lemma gpu_path_inj i j : gpu_path i = gpu_path j -> i = j.
Proof.
  unfold gpu_path, Itoa. intros Heq.
  assert (forall a b c : string, a +:+ b = a +:+ c -> b = c) as Hcancel.
  { intros a b c. induction a as [|x a IH]; [done|]. rewrite !app_cons. intros Ha. injection Ha as Ha. auto. }
  apply Hcancel, Hcancel in Heq. apply (inj pretty) in Heq. lia.
Qed.

Lemma find_gpu_path i n :
  find_index (fun j => gpu_path j ==s gpu_path i) (seq 0 n) = if bool_decide (i < n) then Some i else None.
Proof.
  destruct (find_index _ _) as [j|] eqn:E.
  - apply find_index_Some in E as (x & Hx & Hp & _). apply lookup_seq in Hx as [-> Hj].
    apply bool_decide_eq_true, gpu_path_inj in Hp. simpl in Hp. subst. by rewrite bool_decide_eq_true_2.
  - apply find_index_None in E. rewrite bool_decide_eq_false_2; [done|]. intros Hi.
    rewrite Forall_forall in E. specialize (E i). rewrite bool_decide_eq_true_2 in E by done.
    discriminate E. apply elem_of_seq. lia.
Qed.

Section GPUs.
Context `{External}.

Definition encode (d : DeviceRef) : string :=
  marshal_HostDevice {| dr_Name := dr_Name d; dr_DeviceName := dr_DeviceName d |}.

Lemma apply_convert_one i g rest (l : list string) gpus :
  i < length gpus ->
  apply_patch (convert_gpus i (g :: rest)) (Some l, gpus) =
  apply_patch (convert_gpus (S i) rest) (Some (l ++ [encode g]), take i gpus ++ drop (S i) gpus).
Proof.
  intros Hi. cbn [convert_gpus apply_patch apply_op]. fold (gpu_path i).
  rewrite find_gpu_path, bool_decide_eq_true_2 by done. done.
Qed.

Lemma apply_convert_fails i gpus_in rest (l : list string) :
  1 <= i -> rest <> [] -> length rest = length gpus_in ->
  apply_patch (convert_gpus i rest) (Some l, gpus_in) = None.
Proof.
  revert i gpus_in l. induction rest as [|g rest IH]; intros i gpus_in l Hi Hne Hlen; [done|].
  destruct (decide (i < length gpus_in)) as [Hlt|Hge].
  - rewrite apply_convert_one by done. destruct rest as [|g' rest]; [cbn [length] in Hlen; lia|].
    apply IH; [lia|done|]. rewrite length_app, length_take, length_drop. cbn [length] in *. lia.
  - cbn [convert_gpus apply_patch apply_op]. fold (gpu_path i).
    by rewrite find_gpu_path, bool_decide_eq_false_2.
Qed.

(** The API server can apply the conversion patch of a VM with GPUs exactly when
    there is one GPU: then the GPU becomes the last host device.  With two or more
    the patch fails, since the paths count the GPUs of the original list while
    each removal shortens it. *)
Theorem convertGPUsToHostDevices_applies (vm : VirtualMachine) (encoded : list string) :
  length encoded = length (vm_HostDevices vm) -> vm_GPUs vm <> [] ->
  apply_patch (convertGPUsToHostDevices vm)
    (match vm_HostDevices vm with [] => None | _ => Some encoded end, vm_GPUs vm) =
  match vm_GPUs vm with
  | [g] => Some (Some (encoded ++ [encode g]), [])
  | _ => None
  end.
Proof.
  intros Henc Hgpus. unfold convertGPUsToHostDevices.
  assert (apply_patch (convert_gpus 0 (vm_GPUs vm)) (Some encoded, vm_GPUs vm) =
    match vm_GPUs vm with [g] => Some (Some (encoded ++ [encode g]), []) | _ => None end) as Hconv.
  { destruct (vm_GPUs vm) as [|g [|g' gpus]]; [done|..].
    - by rewrite apply_convert_one by (simpl; lia).
    - rewrite apply_convert_one by (simpl; lia). by apply apply_convert_fails. }
  destruct (vm_HostDevices vm).
  - destruct encoded; [|discriminate Henc]. exact Hconv.
  - exact Hconv.
Qed.
End GPUs.

Lemma convertGPUsToHostDevices_applies_witness :
  let g := {| dr_Name := "g"; dr_DeviceName := "nvidia.com/A2" |} in
  let vm := {| vm_meta := new_meta "vm1" ∅ ∅; vm_Template := true; vm_HostDevices := []; vm_GPUs := [g; g] |} in
  apply_patch (convertGPUsToHostDevices vm) (None, [g; g]) = None.
Proof.
  intros g vm. apply (convertGPUsToHostDevices_applies vm []); [reflexivity|discriminate].
Defined.

(** ** The annotation of a stopped VM *)
Definition names_for (r : string) (l : list DeviceRef) : list string :=
  dr_Name <$> List.filter (fun d => dr_DeviceName d ==s r) l.

Lemma group_names_default (l : list DeviceRef) (m : gmap string (list string)) r :
  let m' := fold_left (fun m d => <[dr_DeviceName d := default [] (m !! dr_DeviceName d) ++ [dr_Name d]]> m) l m in
  default [] (m' !! r) = default [] (m !! r) ++ names_for r l /\
  (is_Some (m' !! r) <-> is_Some (m !! r) \/ r ∈ dr_DeviceName <$> l).
Proof.
  revert m. induction l as [|d l IH]; intros m; cbn [fold_left].
  - split; [by rewrite app_nil_r|]. simpl. set_solver.
  - destruct (IH (<[dr_DeviceName d := default [] (m !! dr_DeviceName d) ++ [dr_Name d]]> m)) as [Hd Hs].
    rewrite Hd, Hs. unfold names_for. simpl. rewrite elem_of_cons.
    destruct (decide (dr_DeviceName d = r)) as [<-|E].
    + rewrite lookup_insert_eq, bool_decide_eq_true_2 by done. simpl. rewrite <- (app_assoc _ [_]). split; [done|].
      split; [tauto|]. intros _. left. by eexists.
    + rewrite lookup_insert_ne, bool_decide_eq_false_2 by done. split; [done|].
      split; [tauto|]. naive_solver.
Qed.

Lemma patch_own_names l info :
  (forall d, d ∈ l -> info !! dr_DeviceName d = Some (names_for (dr_DeviceName d) l)) ->
  patch_devices l info = (l, false).
Proof.
  revert info. induction l as [|d l IH]; intros info Hinfo; [done|]. simpl.
  rewrite (Hinfo d (list_elem_of_here _ _)). unfold names_for. simpl.
  rewrite bool_decide_eq_true_2 by done. simpl. rewrite IH.
  - do 2 f_equal. by destruct d.
  - intros d' Hd'. destruct (decide (dr_DeviceName d = dr_DeviceName d')) as [E|E].
    + rewrite <- E, lookup_insert_eq. done.
    + rewrite lookup_insert_ne by done. rewrite (Hinfo d') by (by right). unfold names_for. simpl.
      by rewrite bool_decide_eq_false_2.
Qed.

(** The annotation rebuilt for a stopped VM is the one that leaves the VM as it is:
    it records under each resource the names of the devices that ask for it, in
    order, and naming the VM's devices after it changes none and does not
    panic. *)
Theorem rebuilt_annotation_stable (vm : VirtualMachine) :
  patchHostDevices vm (group_names (vm_HostDevices vm)) = (vm, false) /\
  forall r, default [] (group_names (vm_HostDevices vm) !! r) = names_for r (vm_HostDevices vm).
Proof.
  assert (forall r, default [] (group_names (vm_HostDevices vm) !! r) = names_for r (vm_HostDevices vm)) as Hnames.
  { intros r. unfold group_names. by rewrite (proj1 (group_names_default _ ∅ r)), lookup_empty. }
  split; [|exact Hnames]. unfold patchHostDevices. rewrite patch_own_names.
  - by destruct vm.
  - intros d Hd. specialize (Hnames (dr_DeviceName d)).
    assert (is_Some (group_names (vm_HostDevices vm) !! dr_DeviceName d)) as [ns Hns].
    { apply (proj2 (group_names_default _ ∅ _)). right. apply list_elem_of_fmap. by exists d. }
    rewrite Hns in *. simpl in Hnames. by rewrite Hnames.
Qed.
