(* ===== verification/Webhook.v ===== *)
(** * Admission of devices and claims (pkg/webhook)

    The validators of PCI and USB device claims, USB devices, SR-IOV network
    devices, SR-IOV GPUs, vGPUs and MIG configurations. *)

From S2P Require Import Prelude GoStrings GoStringLemmas GoMonad Types Effects VirtualMachine WebhookVM Sim.

Definition VGPUDeviceKind : string := "VGPUDevice".
Definition HarvesterPCIDevicesControllerUser : string :=
  "system:serviceaccount:harvester-system:harvester-pcidevices-controller".
Definition MaxMIGInstanceCount : Z := 7.

(** Addition of Go's [int], which has 64 bits. *)
Definition int_add (x y : Z) : Z := ((x + y + 2 ^ 63) mod 2 ^ 64 - 2 ^ 63)%Z.

(** The requests, of a specification that may have none. *)
Definition requested (obj : MigConfiguration) : list MigProfileRequest :=
  default [] (mig_ProfileSpec (mig_Spec obj)).

Definition instanceCount (obj : MigConfiguration) : Z :=
  fold_left (fun n v => int_add n (mpr_Requested v)) (requested obj) 0%Z.

(** A later status of the same profile overwrites an earlier one; a profile without
    a status has none available. *)
Definition available_count (obj : MigConfiguration) (id : Z) : Z :=
  match List.find (fun v => bool_decide (mps_ID v = id)) (rev (default [] (mig_ProfileStatus (mig_Status obj)))) with
  | Some v => mps_Available v
  | None => 0%Z
  end.

Definition validRequestedCount (obj : MigConfiguration) : outcome unit :=
  if forallb (fun v => (mpr_Requested v <=? available_count obj (mpr_ID v))%Z) (requested obj)
  then Ok tt else Err (Errorf "MIGConfiguration requested count exceeds available count").

Definition validateVGPUProfiles (oldVGPUObj newVGPUObj : VGPUDevice) : outcome unit :=
  if vgpu_VGPUTypeName (vgpu_Spec newVGPUObj) ==s "" then Err (Errorf "VGPUTypeName cannot be empty")
  else match default ∅ (vgpu_AvailableTypes (vgpu_Status oldVGPUObj)) !! vgpu_VGPUTypeName (vgpu_Spec newVGPUObj) with
       | None => Err (Errorf "VGPUTypeName is not a valid profile")
       | Some _ => Ok tt
       end.

Lemma validRequestedCount_spec obj :
  validRequestedCount obj = Ok tt <->
  Forall (fun v => mpr_Requested v <= available_count obj (mpr_ID v))%Z (requested obj).
Proof.
  unfold validRequestedCount. induction (requested obj) as [|v l IH]; simpl; [by split|].
  rewrite Forall_cons. destruct (Z.leb_spec (mpr_Requested v) (available_count obj (mpr_ID v))) as [Hle|Hlt]; simpl.
  - rewrite IH. tauto.
  - split; [done|]. intros [? _]. lia.
Qed.

Section Validators.
Context `{External} {Mem W : Type} `{World W}.
#[local] Abbreviation M := (M Mem W).

Definition isNodeDeleted (nodeName : string) : M bool :=
  r <- try (eff (CacheGet KCoreNode "" nodeName)) ;;
  match r with
  | inl err => if IsNotFound err then ret true else fail err
  | inr nodeObj => ret (m_DeletionTimestamp (meta_of nodeObj))
  end.

(** [ok, err := isNodeDeleted(...)]: nothing is checked once the node is gone. *)
Definition unless_node_deleted (nodeName what : string) (k : M unit) : M unit :=
  ok <- on_err (Wrapf what) (isNodeDeleted nodeName) ;;
  if ok : bool then ret tt else k.

Definition fail_if_some {A} (l : list A) (msg : string) : M unit :=
  match l with [] => ret tt | _ => fail (Errorf msg) end.

(** ** PCI device claims (pcideviceclaim.go) *)
Definition PCIDeviceClaim_Create (pciClaimObj : PCIDeviceClaim) : M unit :=
  pciDev <- eff (CacheGet KPCIDevice "" (m_Name (pdc_meta pciClaimObj))) ;;
  let pciDev : PCIDevice := pciDev in
  if pd_IOMMUGroup (pd_Status pciDev) ==s "" then fail (Errorf "pcidevice has no iommuGroup available")
  else
    let key := pd_NodeName (pd_Status pciDev) +:+ "-" +:+ pd_Address (pd_Status pciDev) in
    usbClaimDevs <- eff (CacheByIndex KUSBDeviceClaim USBDeviceByAddress key) ;;
    match usbClaimDevs with
    | _ :: _ =>
        for_each (fun c => _ <- eff (CacheGet KUSBDevice "" (m_Name (meta_of c))) ;; ret tt) usbClaimDevs ;;;
        fail (Errorf "USB devices are using the PCI USB controller")
    | [] =>
        childDevices <- eff (CacheList KPCIDevice {[ ParentSRIOVGPUDeviceLabel := m_Name (pd_meta pciDev) ]}) ;;
        fail_if_some childDevices "vGPU devices are using the PCI GPU device"
    end.

Definition PCIDeviceClaim_Delete (username : string) (pciClaimObj : PCIDeviceClaim) : M unit :=
  unless_node_deleted (pdc_NodeName (pdc_Spec pciClaimObj)) "error looking up node for PCIDeviceClaim" (
    vms <- eff (CacheByIndex KVirtualMachine VMByPCIDeviceClaim (m_Name (pdc_meta pciClaimObj))) ;;
    fail_if_some vms "pcideviceclaim is already in use with vm" ;;;
    for_each (fun ref =>
      if (or_Kind ref ==s VGPUDeviceKind) && (username !=s HarvesterPCIDevicesControllerUser)
      then fail (Errorf "pcideviceclaim cannot be deleted as it is owned by VGPUDevice")
      else ret tt) (default [] (m_OwnerReferences (pdc_meta pciClaimObj)))).

(** ** USB devices and their claims (usbdevice.go, usbdeviceclaim.go) *)
Definition USBDevice_Delete (usbDevice : USBDevice) : M unit :=
  unless_node_deleted (usb_NodeName (usb_Status usbDevice)) "error looking up node for usbdevice" (
    if usb_Enabled (usb_Status usbDevice) then fail (Errorf "usbdevice is still in use") else ret tt).

Definition USBDeviceClaim_Delete (usbClaimObj : USBDeviceClaim) : M unit :=
  unless_node_deleted (uc_NodeName (uc_Status usbClaimObj)) "error looking up node for usbdeviceclaim" (
    vms <- eff (CacheByIndex KVirtualMachine VMByUSBDeviceClaim (m_Name (uc_meta usbClaimObj))) ;;
    fail_if_some vms "usbdeviceclaim is still in use by vm").

Definition USBDeviceClaim_Update (oldUsbClaimObj newUsbClaimObj : USBDeviceClaim) : M unit :=
  if uc_UserName oldUsbClaimObj !=s uc_UserName newUsbClaimObj
  then fail (Errorf "usbdeviceclaim username is immutable") else ret tt.

(** ** SR-IOV network devices (sriov.go) *)
Definition add_vf_claim (claimsFound : list string) (v : string) : M (list string) :=
  r <- try (eff (CacheGet KPCIDeviceClaim "" v)) ;;
  match r with
  | inl err => if IsNotFound err then ret claimsFound
               else fail (Errorf "error looking up pcideviceclaim")
  | inr vfObj => ret (claimsFound ++ [m_Name (meta_of vfObj)])
  end.

Definition checkVFInUse (obj : SRIOVNetworkDevice) : M unit :=
  claimsFound <- fold_m add_vf_claim [] (default [] (sn_VFPCIDevices (sn_Status obj))) ;;
  fail_if_some claimsFound "found pcideviceclaims related to sriovnetworkdevice in use".

Definition SRIOVNetworkDevice_Update (oldSriovDevice newSriovDevice : SRIOVNetworkDevice) : M unit :=
  if (sn_NumVFs (sn_Spec oldSriovDevice) =? sn_NumVFs (sn_Spec newSriovDevice))%Z then ret tt
  else if (sn_NumVFs (sn_Spec newSriovDevice) =? 0)%Z then checkVFInUse newSriovDevice
  else ret tt.

Definition SRIOVNetworkDevice_Delete (oldSriovDevice : SRIOVNetworkDevice) : M unit :=
  checkVFInUse oldSriovDevice.

(** ** vGPUs and SR-IOV GPUs (vgpu.go, sriovgpudevices.go) *)
Definition checkVGPUUsage (deviceName : string) : M unit :=
  objs <- eff (CacheByIndex KVirtualMachine VMByPCIDeviceClaim deviceName) ;;
  fail_if_some objs "device is in use with VM".

Definition VGPUDevice_Update (oldVGPUObj newVGPUObj : VGPUDevice) : M unit :=
  let was := vgpu_Enabled (vgpu_Spec oldVGPUObj) in
  let is_ := vgpu_Enabled (vgpu_Spec newVGPUObj) in
  if bool_decide (vgpu_Spec oldVGPUObj = vgpu_Spec newVGPUObj) then ret tt
  else if was && negb is_ then checkVGPUUsage (m_Name (vgpu_meta newVGPUObj))
  else if negb was && is_ then lift_o (validateVGPUProfiles oldVGPUObj newVGPUObj)
  else ret tt.

Definition VGPUDevice_Delete (vGPUObj : VGPUDevice) : M unit :=
  unless_node_deleted (vgpu_NodeName (vgpu_Spec vGPUObj)) "error looking up node for vGPU" (
    checkVGPUUsage (m_Name (vgpu_meta vGPUObj))).

Definition checkGPUUsage (obj : SRIOVGPUDevice) : M unit :=
  for_each checkVGPUUsage (default [] (gpu_VGPUDevices (gpu_Status obj))).

Definition SRIOVGPUDevice_Update (oldGPUObj newGPUObj : SRIOVGPUDevice) : M unit :=
  if bool_decide (gpu_Spec oldGPUObj = gpu_Spec newGPUObj) then ret tt
  else if gpu_Enabled (gpu_Spec oldGPUObj) && negb (gpu_Enabled (gpu_Spec newGPUObj))
  then checkGPUUsage newGPUObj else ret tt.

Definition SRIOVGPUDevice_Delete (gpuObj : SRIOVGPUDevice) : M unit :=
  unless_node_deleted (gpu_NodeName (gpu_Spec gpuObj)) "error looking up node for SRIOVGPU" (
    if gpu_Enabled (gpu_Spec gpuObj) then fail (Errorf "please disable gpuDevice before deletion") else ret tt).

(** ** MIG configurations (migconfiguration.go) *)
Definition verifyInUsevGPU (obj : MigConfiguration) : M unit :=
  vGPUList <- on_err (Wrapf "error looking up vGPU from cache")
    (eff (CacheList KVGPUDevice {[ ParentSRIOVGPUDeviceLabel := m_Name (mig_meta obj) ]})) ;;
  for_each (fun v => if vgpu_Enabled (vgpu_Spec v)
                     then fail (Errorf "cannot disable MIGConfiguration as vGPU is enabled") else ret tt)
    (vGPUList : list VGPUDevice).

Definition MigConfiguration_Update (oldMig newMig : MigConfiguration) : M unit :=
  if (MaxMIGInstanceCount <? instanceCount newMig)%Z then fail (Errorf "MIGConfiguration Invalid")
  else if ((mig_status (mig_Status oldMig) ==s MIGConfigurationOutOfSync)
           || (mig_status (mig_Status oldMig) ==s MIGConfigurationSynced))
          && negb (bool_decide (mig_ProfileSpec (mig_Spec oldMig) = mig_ProfileSpec (mig_Spec newMig)))
  then fail (Errorf "MIGConfiguration cannot be modified unless configuration is disabled")
  else if negb (mig_Enabled (mig_Spec oldMig)) && mig_Enabled (mig_Spec newMig)
  then lift_o (validRequestedCount newMig)
  else if mig_Enabled (mig_Spec oldMig) && negb (mig_Enabled (mig_Spec newMig))
  then verifyInUsevGPU newMig else ret tt.
End Validators.

(** ** What the validators let through *)
Section Decisions.
Context `{External} {Mem W : Type} `{World W}.
Context (c : contents) (s : state Mem W) `{!Answers c s}.

(** The node is not in the cache, or is being deleted. *)
Definition node_gone (nodeName : string) : bool :=
  match c_get c KCoreNode nodeName with
  | None => true
  | Some n => m_DeletionTimestamp (cn_meta n)
  end.

Lemma isNodeDeleted_answer n : isNodeDeleted n s = (Ok (node_gone n), s).
Proof.
  unfold isNodeDeleted, bind, try, node_gone. rewrite answers_get.
  by destruct (c_get c KCoreNode n).
Qed.

Lemma unless_node_deleted_answer n what (k : M Mem W unit) :
  unless_node_deleted n what k s = if node_gone n then (Ok tt, s) else k s.
Proof.
  unfold unless_node_deleted, bind, on_err. rewrite isNodeDeleted_answer. by destruct (node_gone n).
Qed.

Lemma fail_if_some_answer {A} (l : list A) msg :
  fst (fail_if_some l msg s) = Ok tt <-> l = [].
Proof. by destruct l. Qed.

(** A claim of a PCI device is admitted exactly when the device is known, has an
    IOMMU group, no claimed USB device sits behind it, and no vGPU device hangs
    below it. *)
Theorem PCIDeviceClaim_Create_spec (claim : PCIDeviceClaim) :
  fst (PCIDeviceClaim_Create claim s) = Ok tt <->
  exists dev : PCIDevice, c_get c KPCIDevice (m_Name (pdc_meta claim)) = Some dev /\
    pd_IOMMUGroup (pd_Status dev) <> "" /\
    c_index c KUSBDeviceClaim USBDeviceByAddress
      (pd_NodeName (pd_Status dev) +:+ "-" +:+ pd_Address (pd_Status dev)) = [] /\
    c_list c KPCIDevice {[ ParentSRIOVGPUDeviceLabel := m_Name (pd_meta dev) ]} = [].
Proof.
  unfold PCIDeviceClaim_Create, bind. rewrite answers_get.
  destruct (c_get c KPCIDevice _) as [dev|]; cbn [from_cache]; [|naive_solver].
  case_bool_decide as Hgroup; [naive_solver|]. rewrite answers_index.
  destruct (c_index c KUSBDeviceClaim _ _) as [|u us] eqn:Hus.
  - rewrite answers_list, fail_if_some_answer. split; [intros Hl; by exists dev|].
    intros (d & [= <-] & _ & _ & Hl). exact Hl.
  - split; [|intros (d & [= <-] & _ & Hnil & _); congruence]. intros Hrun. exfalso. revert Hrun. unfold fail. repeat case_match; simpl; congruence.
Qed.

(** Deleting a claim is admitted exactly when its node is gone, or no VM uses the
    device and, for a claim that a vGPU owns, the request comes from this
    program's own account. *)
Theorem PCIDeviceClaim_Delete_spec (username : string) (claim : PCIDeviceClaim) :
  fst (PCIDeviceClaim_Delete username claim s) = Ok tt <->
  node_gone (pdc_NodeName (pdc_Spec claim)) = true \/
  c_index c KVirtualMachine VMByPCIDeviceClaim (m_Name (pdc_meta claim)) = [] /\
  (username = HarvesterPCIDevicesControllerUser \/
   Forall (fun ref => or_Kind ref <> VGPUDeviceKind) (default [] (m_OwnerReferences (pdc_meta claim)))).
Proof.
  unfold PCIDeviceClaim_Delete. rewrite unless_node_deleted_answer.
  destruct (node_gone _); [naive_solver|]. unfold bind. rewrite answers_index.
  destruct (c_index c KVirtualMachine _ _) as [|v vs]; simpl; [|naive_solver].
  induction (default [] (m_OwnerReferences (pdc_meta claim))) as [|ref refs IH]; simpl.
  - split; [|done]. intros _. right. split; [done|]. by right.
  - unfold bind. rewrite Forall_cons. repeat case_bool_decide; simpl; rewrite ?IH; naive_solver.
Qed.

Lemma add_vf_claims l acc :
  fold_m add_vf_claim acc l s
  = (Ok (acc ++ omap (fun v => m_Name ∘ pdc_meta <$> c_get c KPCIDeviceClaim v) l), s).
Proof.
  revert acc. induction l as [|v l IH]; intros acc; cbn [fold_m]; [by rewrite app_nil_r|].
  unfold bind at 1, add_vf_claim at 1, bind at 1, try. rewrite answers_get. cbn [omap list_omap].
  destruct (c_get c KPCIDeviceClaim v) as [cl|]; cbn; [|apply IH].
  rewrite IH. by rewrite <- (assoc_L (++)).
Qed.

Lemma checkVFInUse_answer obj :
  fst (checkVFInUse obj s) = Ok tt <->
  Forall (fun v => c_get c KPCIDeviceClaim v = None) (default [] (sn_VFPCIDevices (sn_Status obj))).
Proof.
  unfold checkVFInUse, bind. rewrite add_vf_claims, fail_if_some_answer. cbn [app].
  induction (default [] (sn_VFPCIDevices (sn_Status obj))) as [|v l IH]; [by split|].
  rewrite Forall_cons, <- IH. cbn [omap list_omap].
  destruct (c_get c KPCIDeviceClaim v); cbn; [|tauto]. split; [done|]. by intros [? _].
Qed.

(** The virtual functions of a network card are given up only when none of them is
    claimed: an update to zero functions, and the deletion of the object, are
    admitted exactly when no claim exists for any of the PCI devices listed;
    every other change of the number is admitted. *)
Theorem SRIOVNetworkDevice_Update_spec (oldDev newDev : SRIOVNetworkDevice) :
  fst (SRIOVNetworkDevice_Update oldDev newDev s) = Ok tt <->
  (sn_NumVFs (sn_Spec oldDev) <> 0%Z -> sn_NumVFs (sn_Spec newDev) = 0%Z ->
   Forall (fun v => c_get c KPCIDeviceClaim v = None) (default [] (sn_VFPCIDevices (sn_Status newDev)))).
Proof.
  unfold SRIOVNetworkDevice_Update.
  destruct (Z.eqb_spec (sn_NumVFs (sn_Spec oldDev)) (sn_NumVFs (sn_Spec newDev))) as [Heq|Hne].
  { split; [|done]. intros _ Hold Hnew. congruence. }
  destruct (Z.eqb_spec (sn_NumVFs (sn_Spec newDev)) 0) as [Hz|Hz].
  - rewrite checkVFInUse_answer. split; [done|]. intros Hc. apply Hc; [congruence|done].
  - split; [|done]. intros _ _ Hnew. congruence.
Qed.

Lemma verifyInUsevGPU_answer obj :
  fst (verifyInUsevGPU obj s) = Ok tt <->
  Forall (fun v : VGPUDevice => vgpu_Enabled (vgpu_Spec v) = false)
    (c_list c KVGPUDevice {[ ParentSRIOVGPUDeviceLabel := m_Name (mig_meta obj) ]}).
Proof.
  unfold verifyInUsevGPU, bind, on_err. rewrite answers_list.
  induction (c_list c KVGPUDevice _) as [|v l IH]; [by split|].
  rewrite Forall_cons. cbn [for_each]. unfold bind.
  destruct (vgpu_Enabled (vgpu_Spec v)); [split; [done|by intros [? _]]|].
  unfold ret at 1. rewrite IH. tauto.
Qed.

(** C8: an update of a MIG configuration is admitted exactly when the machine's sum of
    the requested instances is at most seven, a configuration that is set up keeps
    its profiles, enabling asks of no profile more than it has available, and
    disabling finds no vGPU of the GPU enabled. *)
Theorem MigConfiguration_Update_spec (oldMig newMig : MigConfiguration) :
  fst (MigConfiguration_Update oldMig newMig s) = Ok tt <->
  (instanceCount newMig <= MaxMIGInstanceCount)%Z /\
  (mig_status (mig_Status oldMig) = MIGConfigurationOutOfSync \/
   mig_status (mig_Status oldMig) = MIGConfigurationSynced ->
   mig_ProfileSpec (mig_Spec oldMig) = mig_ProfileSpec (mig_Spec newMig)) /\
  (mig_Enabled (mig_Spec oldMig) = false -> mig_Enabled (mig_Spec newMig) = true ->
   Forall (fun v => mpr_Requested v <= available_count newMig (mpr_ID v))%Z (requested newMig)) /\
  (mig_Enabled (mig_Spec oldMig) = true -> mig_Enabled (mig_Spec newMig) = false ->
   Forall (fun v : VGPUDevice => vgpu_Enabled (vgpu_Spec v) = false)
     (c_list c KVGPUDevice {[ ParentSRIOVGPUDeviceLabel := m_Name (mig_meta newMig) ]})).
Proof.
  unfold MigConfiguration_Update.
  destruct (Z.ltb_spec MaxMIGInstanceCount (instanceCount newMig)) as [Hgt|Hle].
  { split; [done|]. intros [? _]. lia. }
  set (setup := (_ ==s MIGConfigurationOutOfSync) || _).
  assert (setup = true <-> mig_status (mig_Status oldMig) = MIGConfigurationOutOfSync \/
    mig_status (mig_Status oldMig) = MIGConfigurationSynced) as Hsetup.
  { unfold setup. by rewrite orb_true_iff, !bool_decide_eq_true. }
  rewrite <- Hsetup. destruct setup; cbn [andb]; [case_bool_decide as Hspec; cbn [negb]|];
    [| split; [done|]; intros (_ & Hs & _); by destruct (Hspec (Hs eq_refl)) |];
    destruct (mig_Enabled (mig_Spec oldMig)), (mig_Enabled (mig_Spec newMig)); cbn [negb andb fst ret lift_o];
    rewrite ?validRequestedCount_spec, ?verifyInUsevGPU_answer; split; try tauto; try done.
Qed.
End Decisions.

(** ** Decisions in a concrete cluster *)
Definition demo_core_node (deleted : bool) : CoreNode :=
  {| cn_meta := {| m_Kind := ""; m_APIVersion := ""; m_Name := "n1"; m_Namespace := ""; m_UID := "";
       m_Labels := ∅; m_Annotations := ∅; m_OwnerReferences := None; m_Finalizers := [];
       m_DeletionTimestamp := deleted |} |}.
Definition grouped_pci : PCIDevice :=
  {| pd_meta := new_meta "n1-a" ∅ ∅;
     pd_Status := {| pd_Address := "0000:04:10.0"; pd_VendorID := ""; pd_DeviceID := ""; pd_ClassID := "";
       pd_IOMMUGroup := "7"; pd_NodeName := "n1"; pd_ResourceName := ""; pd_Description := "";
       pd_KernelDriverInUse := "" |} |}.
Definition admission_cluster : sim :=
  put KCoreNode (demo_core_node false) (put KPCIDevice grouped_pci sim_empty).
Definition vgpu_owned : PCIDeviceClaim :=
  {| pdc_meta := set_OwnerReferences
       (Some [{| or_APIVersion := ""; or_Kind := VGPUDeviceKind; or_Name := "g"; or_UID := "" |}])
       (new_meta "n1-a" ∅ ∅);
     pdc_Spec := {| pdc_Address := ""; pdc_NodeName := "n1"; pdc_UserName := "admin";
                    pdc_DisableResourcePooling := false |};
     pdc_Status := {| pdc_KernelDriverToUnbind := ""; pdc_PassthroughEnabled := false |} |}.

Lemma PCIDeviceClaim_Create_spec_witness :
  fst (PCIDeviceClaim_Create (demo_claim "n1-a" "admin") (State tt admission_cluster)) = Ok tt /\
  fst (PCIDeviceClaim_Create (demo_claim "n1-b" "admin") (State tt admission_cluster)) <> Ok tt.
Proof.
  split; [|vm_compute; discriminate].
  apply (PCIDeviceClaim_Create_spec (sim_contents admission_cluster) (State tt admission_cluster)).
  exists grouped_pci. split_and!; try (vm_compute; reflexivity). discriminate.
Defined.

Lemma PCIDeviceClaim_Delete_spec_witness :
  fst (PCIDeviceClaim_Delete HarvesterPCIDevicesControllerUser vgpu_owned (State tt admission_cluster)) = Ok tt /\
  fst (PCIDeviceClaim_Delete "admin" vgpu_owned (State tt admission_cluster)) <> Ok tt.
Proof.
  split; [|vm_compute; discriminate].
  apply (PCIDeviceClaim_Delete_spec (sim_contents admission_cluster) (State tt admission_cluster)).
  right. split; [vm_compute; reflexivity|]. by left.
Defined.

Definition demo_card (vfs : Z) (devices : list string) : SRIOVNetworkDevice :=
  {| sn_meta := new_meta "n1-eth0" ∅ ∅;
     sn_Spec := {| sn_Address := "0000:04:00.0"; sn_NodeName := "n1"; sn_NumVFs := vfs |};
     sn_Status := {| sn_VFAddresses := None; sn_VFPCIDevices := Some devices; sn_status := "" |} |}.
Definition vf_cluster : sim := put KPCIDeviceClaim (demo_claim "n1-vf1" "admin") sim_empty.

Lemma SRIOVNetworkDevice_Update_spec_witness :
  fst (SRIOVNetworkDevice_Update (demo_card 2 ["n1-vf0"]) (demo_card 0 ["n1-vf0"]) (State tt vf_cluster)) = Ok tt /\
  fst (SRIOVNetworkDevice_Update (demo_card 2 ["n1-vf0"; "n1-vf1"]) (demo_card 0 ["n1-vf0"; "n1-vf1"])
    (State tt vf_cluster)) <> Ok tt.
Proof.
  split; [|vm_compute; discriminate].
  apply (SRIOVNetworkDevice_Update_spec (sim_contents vf_cluster) (State tt vf_cluster)).
  intros _ _. repeat constructor.
Defined.

Definition demo_mig (enabled : bool) (requests : list Z) : MigConfiguration :=
  {| mig_meta := new_meta "n1-gpu" ∅ ∅;
     mig_Spec := {| mig_Enabled := enabled; mig_GPUAddress := ""; mig_NodeName := "n1";
       mig_ProfileSpec := Some ((fun n => {| mpr_Name := "1g.5gb"; mpr_ID := 19; mpr_Requested := n |}) <$> requests) |};
     mig_Status := {| mig_ProfileStatus :=
         Some [{| mps_Name := "1g.5gb"; mps_ID := 19; mps_Available := 7; mps_Total := 7; mps_VGPUID := [] |}];
       mig_status := MIGConfigurationDisabled; mig_Message := "" |} |}.

Lemma MigConfiguration_Update_spec_witness :
  fst (MigConfiguration_Update (demo_mig false []) (demo_mig true [3%Z]) (State tt sim_empty)) = Ok tt /\
  fst (MigConfiguration_Update (demo_mig false []) (demo_mig true [8%Z]) (State tt sim_empty)) <> Ok tt.
Proof.
  split; [|vm_compute; discriminate].
  apply (MigConfiguration_Update_spec (sim_contents sim_empty) (State tt sim_empty)).
  split_and!.
  - vm_compute. discriminate.
  - intros [Hs|Hs]; discriminate Hs.
  - intros _ _. repeat constructor. vm_compute. discriminate.
  - intros Hon. discriminate Hon.
Defined.

(** The sum of two requests can wrap around below the limit. *)
Example mig_sum_wraps : instanceCount (demo_mig false [(2 ^ 63 - 1)%Z; 1%Z]) = (- 2 ^ 63)%Z.
Proof. vm_compute. reflexivity. Qed.
