(* ===== verification/Indexers.v ===== *)
(** * The indexes of the caches (pkg/webhook/indexer.go, pkg/controller/indexer.go)

    Each of the two sets of caches, the controllers' and the webhook's, is told at
    start-up which functions to index its objects by.  A lookup by index answers the
    objects for which the function of that name gives the key; the index keeps no
    order.  A function that fails while an object is stored stops the process.  The
    answers of the lookups are stated here in terms of the objects, which is what
    the admission of claims relies on. *)

From S2P Require Import Prelude GoStrings GoStringLemmas GoMonad Types Effects Common SRIOV WebhookVM VirtualMachine Webhook Sim.
From Stdlib Require Import Ascii.

Definition vGPUDeviceByResourceName : string := "harvesterhci.io/vgpu-device-by-resource-name".

(** [AddIndexer(name, function)] on the cache of a kind. *)
Record indexer := AddIndexer {
  ix_kind : Kind;
  ix_name : string;
  ix_keys : Obj ix_kind -> outcome (list string)
}.

Section Registered.
Context `{External} `{MapOrder}.

Definition webhook_RegisterIndexers : list indexer :=
  [AddIndexer KVirtualMachine VMByName vmByName;
   AddIndexer KVirtualMachine VMByPCIDeviceClaim VMByHostDeviceName;
   AddIndexer KVirtualMachine VMByUSBDeviceClaim VMBySpecHostDeviceName;
   AddIndexer KPCIDevice PCIDeviceByResourceName pciDeviceByResourceName;
   AddIndexer KPCIDevice IommuGroupByNode iommuGroupByNodeName;
   AddIndexer KUSBDevice USBDeviceByResourceName_index USBDeviceByResourceName;
   AddIndexer KUSBDeviceClaim USBDeviceByAddress usbDeviceClaimByAddress;
   AddIndexer KVGPUDevice vGPUDeviceByResourceName VGPUDeviceByResourceName].

Definition controller_RegisterIndexers : list indexer :=
  [AddIndexer KSRIOVNetworkDevice SRIOVFromVF getSriovDeviceFromVF;
   AddIndexer KUSBDeviceClaim USBDevicePCIAddress getUSBDeviceClaimFromPCIAddress].

(** The function of an index, if it was registered. *)
Definition find_index_fn (reg : list indexer) (k : Kind) (name : string) : option indexer :=
  List.find (fun x => bool_decide (ix_kind x = k) && (ix_name x ==s name)) reg.

(** The object is filed under the key. *)
Definition filed (x : indexer) (key : string) (o : Obj (ix_kind x)) : bool :=
  match ix_keys x o with Ok keys => slices_Contains keys key | _ => false end.

(** What an indexed cache promises: a lookup answers the objects filed under the key. *)
Class Indexed (reg : list indexer) (c : contents) :=
  index_answers : forall x key, x ∈ reg ->
    Permutation (c_index c (ix_kind x) (ix_name x) key) (List.filter (filed x key) (c_list c (ix_kind x) ∅)).

(** ** The functions that can fail *)

Definition has_template {k} : Obj k -> bool :=
  match k return Obj k -> bool with KVirtualMachine => vm_Template | _ => fun _ => true end.

(** Among the functions that the webhook and the controllers index objects by, two can
    fail, both of VMs: the one by the devices that a VM was given, on a VM whose
    annotation is there and is no allocation that can be read, and the one by the
    devices it asks for, on a VM without a template.  The first such VM, which any
    user who may edit it can make, stops the process when the cache stores it. *)
Theorem indexers_total (x : indexer) (o : Obj (ix_kind x))
    (Hx : x ∈ webhook_RegisterIndexers ++ controller_RegisterIndexers) :
  is_Ok (ix_keys x o) = false <->
  ix_kind x = KVirtualMachine /\
  ((ix_name x = VMByPCIDeviceClaim /\
    exists text, m_Annotations (meta_of o) !! DeviceAllocationKey = Some text /\
      unmarshal_AllocationDetails text = None) \/
   (ix_name x = VMByUSBDeviceClaim /\ has_template o = false)).
Proof.
  revert o. unfold webhook_RegisterIndexers, controller_RegisterIndexers in Hx.
  rewrite elem_of_app, !elem_of_cons in Hx.
  destruct Hx as [Hx|Hx]; repeat (destruct Hx as [->|Hx]; [|try by apply not_elem_of_nil in Hx]);
    try (intros o; cbn; split; [done|intros (_ & [([=] & _)|([=] & _)])]).
  - intros o. cbn [ix_keys ix_kind ix_name]. unfold VMByHostDeviceName, generateHostDeviceAllocation,
      generateDeviceAllocationDetails. change (vm_meta o) with (meta_of (k := KVirtualMachine) o).
    destruct (m_Annotations _ !! DeviceAllocationKey) as [text|] eqn:E.
    + destruct (unmarshal_AllocationDetails text) eqn:Et; cbn.
      * split; [done|]. intros (_ & [(_ & t & [= <-] & Ht)|([=] & _)]). congruence.
      * split; [|done]. intros _. split; [done|]. left. split; [done|]. by exists text.
    + split; [done|]. by intros (_ & [(_ & t & Ht & _)|([=] & _)]).
  - intros o. cbn. unfold VMBySpecHostDeviceName. destruct (vm_Template o).
    + split; [done|]. by intros (_ & [([=] & _)|(_ & Hbad)]).
    + split; [|done]. intros _. split; [done|]. by right.
Qed.
End Registered.

(** ** Keys made of a node's name, a dash and a part without one *)
Definition dashless (s : string) : bool := negb (str_mem "-"%char s).

Lemma dash_key_inj n m a b :
  dashless a = true -> dashless b = true -> n +:+ "-" +:+ a = m +:+ "-" +:+ b -> n = m /\ a = b.
Proof.
  intros Ha Hb. apply negb_true_iff in Ha, Hb.
  assert (forall s t, t = s +:+ String "-"%char b \/ t = s +:+ String "-"%char a -> str_mem "-"%char t = true) as Hmem.
  { intros s t [-> | ->]; rewrite str_mem_app; cbn; by rewrite orb_true_r. }
  revert m. induction n as [|x n IH]; intros [|y m] E; repeat rewrite ?app_empty_l, ?app_cons in E.
  - by injection E as ->.
  - injection E as _ E. by rewrite (Hmem m a) in Ha by auto.
  - injection E as _ E. symmetry in E. by rewrite (Hmem n b) in Hb by auto.
  - injection E as -> E. destruct (IH m E) as [-> ->]. done.
Qed.

(** What the caches hold: addresses and IOMMU groups have no dash, as the kernel prints
    them; a get answers the object of that name; a selector picks by label. *)
Record coherent (c : contents) : Prop := {
  co_pci : forall d : PCIDevice, d ∈ c_list c KPCIDevice ∅ ->
    dashless (pd_Address (pd_Status d)) = true /\ dashless (pd_IOMMUGroup (pd_Status d)) = true;
  co_usb : forall u : USBDeviceClaim, u ∈ c_list c KUSBDeviceClaim ∅ -> dashless (uc_PCIAddress (uc_Status u)) = true;
  co_get : forall k n (o : Obj k), c_get c k n = Some o <-> o ∈ c_list c k ∅ /\ name_of o = n;
  co_label : forall k key value (o : Obj k), o ∈ c_list c k {[ key := value ]} <->
    o ∈ c_list c k ∅ /\ m_Labels (meta_of o) !! key = Some value
}.

Section Lookups.
Context `{External} `{MapOrder} (c : contents) `{!Indexed webhook_RegisterIndexers c} (Hwf : coherent c).

Lemma lookup_filed (x : indexer) (key : string) (o : Obj (ix_kind x)) :
  x ∈ webhook_RegisterIndexers ->
  o ∈ c_index c (ix_kind x) (ix_name x) key <-> o ∈ c_list c (ix_kind x) ∅ /\ filed x key o = true.
Proof.
  intros Hx. rewrite (index_answers x key Hx). rewrite !list_elem_of_In, filter_In. done.
Qed.

(** The devices of a device's IOMMU group are those of its node with its group. *)
Lemma iommu_lookup (dev d : PCIDevice) :
  dev ∈ c_list c KPCIDevice ∅ ->
  d ∈ c_index c KPCIDevice IommuGroupByNode (iommu_key dev) <->
  d ∈ c_list c KPCIDevice ∅ /\ pd_NodeName (pd_Status d) = pd_NodeName (pd_Status dev) /\
  pd_IOMMUGroup (pd_Status d) = pd_IOMMUGroup (pd_Status dev).
Proof.
  intros Hdev. pose proof (lookup_filed (AddIndexer KPCIDevice IommuGroupByNode iommuGroupByNodeName)
    (iommu_key dev) d ltac:(unfold webhook_RegisterIndexers; set_solver)) as ->.
  cbn [ix_kind]. unfold filed. cbn [ix_keys].
  unfold iommuGroupByNodeName. rewrite slices_Contains_spec, list_elem_of_singleton. pose proof (co_pci c Hwf) as Hp.
  split; [|intros (Hd & Hn & Hg); split; [done|]; unfold iommu_key; by rewrite Hn, Hg].
  intros [Hd Hkey]. split; [done|]. symmetry in Hkey.
  apply dash_key_inj in Hkey as [-> ->]; [done|by apply Hp..].
Qed.

(** The claimed USB devices behind a PCI device. *)
Lemma usb_claims_behind (dev : PCIDevice) :
  dev ∈ c_list c KPCIDevice ∅ ->
  c_index c KUSBDeviceClaim USBDeviceByAddress (pd_NodeName (pd_Status dev) +:+ "-" +:+ pd_Address (pd_Status dev)) = [] <->
  forall u : USBDeviceClaim, u ∈ c_list c KUSBDeviceClaim ∅ -> uc_NodeName (uc_Status u) = pd_NodeName (pd_Status dev) ->
    uc_PCIAddress (uc_Status u) <> pd_Address (pd_Status dev).
Proof.
  intros Hdev. pose proof (co_pci c Hwf) as Hp. pose proof (co_usb c Hwf) as Hu. set (key := _ +:+ _).
  assert (forall u, u ∈ c_index c KUSBDeviceClaim USBDeviceByAddress key <->
    u ∈ c_list c KUSBDeviceClaim ∅ /\ uc_NodeName (uc_Status u) +:+ "-" +:+ uc_PCIAddress (uc_Status u) = key) as Hin.
  { intros u. pose proof (lookup_filed (AddIndexer KUSBDeviceClaim USBDeviceByAddress usbDeviceClaimByAddress)
      key u ltac:(unfold webhook_RegisterIndexers; set_solver)) as ->.
    cbn [ix_kind]. unfold filed. cbn [ix_keys].
    unfold usbDeviceClaimByAddress. rewrite slices_Contains_spec, list_elem_of_singleton. split; intros [? ?]; by split. }
  split.
  - intros Hnil u Hul Hn Ha. assert (u ∈ c_index c KUSBDeviceClaim USBDeviceByAddress key) as Hiu.
    { apply Hin. split; [done|]. unfold key. by rewrite Hn, Ha. }
    rewrite Hnil in Hiu. by apply not_elem_of_nil in Hiu.
  - intros Hno. destruct (c_index _ _ _ _) as [|u l] eqn:E; [done|]. exfalso.
    assert (u ∈ u :: l) as Hul by left. apply Hin in Hul as [Hul Hkey].
    apply dash_key_inj in Hkey as [Hn Ha]; [by apply (Hno u)|by apply Hu|by apply Hp].
Qed.

(** The VMs that were given a device. *)
Lemma vms_using (name : string) (vm : VirtualMachine) :
  vm ∈ c_index c KVirtualMachine VMByPCIDeviceClaim name <->
  vm ∈ c_list c KVirtualMachine ∅ /\ exists names, VMByHostDeviceName vm = Ok names /\ name ∈ names.
Proof.
  pose proof (lookup_filed (AddIndexer KVirtualMachine VMByPCIDeviceClaim VMByHostDeviceName)
    name vm ltac:(unfold webhook_RegisterIndexers; set_solver)) as ->.
  cbn [ix_kind]. unfold filed. cbn [ix_keys]. destruct (VMByHostDeviceName vm) as [names|e|p].
  - rewrite slices_Contains_spec. naive_solver.
  - split; [by intros [_ [=]]|by intros (_ & ? & [=] & _)].
  - split; [by intros [_ [=]]|by intros (_ & ? & [=] & _)].
Qed.

(** A VM was given the device, as its annotation says. *)
Definition vm_uses (name : string) (vm : VirtualMachine) : Prop :=
  exists names, VMByHostDeviceName vm = Ok names /\ name ∈ names.

Lemma no_vm_uses (name : string) :
  c_index c KVirtualMachine VMByPCIDeviceClaim name = [] <->
  forall vm : VirtualMachine, vm ∈ c_list c KVirtualMachine ∅ -> ~ vm_uses name vm.
Proof.
  split.
  - intros Hnil vm Hvm Hu. assert (vm ∈ c_index c KVirtualMachine VMByPCIDeviceClaim name) as Hin by by apply vms_using.
    rewrite Hnil in Hin. by apply not_elem_of_nil in Hin.
  - intros Hno. destruct (c_index _ _ _ _) as [|vm l] eqn:E; [done|]. exfalso.
    assert (vm ∈ vm :: l) as Hin by left. rewrite <- E in Hin. apply vms_using in Hin as [Hvm Hu]. by apply (Hno vm).
Qed.

(** ** Admission in terms of the objects *)
Section Admission.
Context {Mem W : Type} `{World W} (s : state Mem W) `{!Answers c s}.

(** C7: in terms of the objects of the cluster, a claim of a PCI device is admitted exactly
    when some device has the claim's name and an IOMMU group, no claimed USB device is
    behind that address of that node, and no other PCI device is labelled as a vGPU
    of it: the caches' indexes, keyed by node and address put together, keep the
    devices of two nodes apart. *)
Theorem pci_claim_admitted (claim : PCIDeviceClaim) :
  fst (PCIDeviceClaim_Create claim s) = Ok tt <->
  exists dev : PCIDevice, dev ∈ c_list c KPCIDevice ∅ /\ name_of (k := KPCIDevice) dev = m_Name (pdc_meta claim) /\
    pd_IOMMUGroup (pd_Status dev) <> "" /\
    (forall u : USBDeviceClaim, u ∈ c_list c KUSBDeviceClaim ∅ ->
       uc_NodeName (uc_Status u) = pd_NodeName (pd_Status dev) -> uc_PCIAddress (uc_Status u) <> pd_Address (pd_Status dev)) /\
    (forall d : PCIDevice, d ∈ c_list c KPCIDevice ∅ ->
       m_Labels (pd_meta d) !! ParentSRIOVGPUDeviceLabel <> Some (m_Name (pd_meta dev))).
Proof.
  rewrite (PCIDeviceClaim_Create_spec c s). apply exist_proper. intros dev.
  rewrite (co_get c Hwf KPCIDevice). split; [intros ([Hl Hn] & Hg & Hu & Hc)|intros (Hl & Hn & Hg & Hu & Hc)].
  - split_and!; [done..|by apply usb_claims_behind|]. intros d Hd Hlab.
    assert (d ∈ c_list c KPCIDevice {[ ParentSRIOVGPUDeviceLabel := m_Name (pd_meta dev) ]}) as Hin
      by by apply (co_label c Hwf).
    rewrite Hc in Hin. by apply not_elem_of_nil in Hin.
  - split_and!; [done..|by apply usb_claims_behind|].
    destruct (c_list _ _ {[ _ := _ ]}) as [|d l] eqn:E; [done|]. exfalso.
    assert (d ∈ d :: l) as Hin by left. rewrite <- E in Hin.
    apply (co_label c Hwf KPCIDevice) in Hin as [Hd Hlab]. by apply (Hc d).
Qed.

(** *** Admission of a VM *)

(** The devices that the name of a requested device stands for. *)
Definition device_at (node name : string) : Prop :=
  (exists p : PCIDevice, p ∈ c_list c KPCIDevice ∅ /\ name_of (k := KPCIDevice) p = name /\ pd_NodeName (pd_Status p) = node) \/
  (exists u : USBDevice, u ∈ c_list c KUSBDevice ∅ /\ name_of (k := KUSBDevice) u = name /\ usb_NodeName (usb_Status u) = node).
Definition has_resource_name (name : string) : Prop :=
  (exists p : PCIDevice, p ∈ c_list c KPCIDevice ∅ /\ pd_ResourceName (pd_Status p) = name) \/
  (exists u : USBDevice, u ∈ c_list c KUSBDevice ∅ /\ usb_ResourceName (usb_Status u) = name).

Lemma nodes_of_at name node : node ∈ nodes_of c name <-> device_at node name.
Proof.
  unfold nodes_of, device_at. rewrite elem_of_app.
  assert (forall p : PCIDevice, c_get c KPCIDevice name = Some p <-> p ∈ c_list c KPCIDevice ∅ /\ name_of (k := KPCIDevice) p = name)
    as Hp by (intros p; apply (co_get c Hwf KPCIDevice)).
  assert (forall u : USBDevice, c_get c KUSBDevice name = Some u <-> u ∈ c_list c KUSBDevice ∅ /\ name_of (k := KUSBDevice) u = name)
    as Hu by (intros u; apply (co_get c Hwf KUSBDevice)).
  split.
  - intros [Hn|Hn].
    + destruct (c_get c KUSBDevice name) as [u|]; [|by apply not_elem_of_nil in Hn].
      apply list_elem_of_singleton in Hn as ->. right. exists u. destruct (proj1 (Hu u) eq_refl). done.
    + destruct (c_get c KPCIDevice name) as [p|]; [|by apply not_elem_of_nil in Hn].
      apply list_elem_of_singleton in Hn as ->. left. exists p. destruct (proj1 (Hp p) eq_refl). done.
  - intros [(p & Hin & Hname & <-)|(u & Hin & Hname & <-)]; [right|left].
    + rewrite (proj2 (Hp p) (conj Hin Hname)). left.
    + rewrite (proj2 (Hu u) (conj Hin Hname)). left.
Qed.

Lemma index_known (x : indexer) key :
  x ∈ webhook_RegisterIndexers ->
  c_index c (ix_kind x) (ix_name x) key <> [] <-> exists o, o ∈ c_list c (ix_kind x) ∅ /\ filed x key o = true.
Proof.
  intros Hx. setoid_rewrite <- (lookup_filed x key); [|done]. split.
  - destruct (c_index _ _ _ _) as [|o l]; [done|]. intros _. exists o. left.
  - intros (o & Ho) E. rewrite E in Ho. by apply not_elem_of_nil in Ho.
Qed.

Lemma known_resource_name name : known_resource c name <-> has_resource_name name.
Proof.
  unfold known_resource, has_resource_name.
  rewrite (index_known (AddIndexer KPCIDevice PCIDeviceByResourceName pciDeviceByResourceName) name
             ltac:(unfold webhook_RegisterIndexers; set_solver)).
  rewrite (index_known (AddIndexer KUSBDevice USBDeviceByResourceName_index USBDeviceByResourceName) name
             ltac:(unfold webhook_RegisterIndexers; set_solver)).
  cbn [ix_kind]. unfold filed. cbn [ix_keys].
  unfold pciDeviceByResourceName, USBDeviceByResourceName. setoid_rewrite slices_Contains_spec.
  setoid_rewrite list_elem_of_singleton. naive_solver.
Qed.

(** The devices of that name know their node, and are not of both kinds. *)
Definition placed (name : string) : Prop :=
  (forall n, device_at n name -> n <> "") /\
  forall (p : PCIDevice) (u : USBDevice), p ∈ c_list c KPCIDevice ∅ -> u ∈ c_list c KUSBDevice ∅ ->
    name_of (k := KPCIDevice) p = name -> name_of (k := KUSBDevice) u <> name.

(** C31: a VM is admitted, when it is created and when it is updated, exactly when some
    PCI or USB device has the resource that each of its host devices asks for, and
    the devices that the names of its host devices stand for are on one node; a name
    of no device is accepted, its resource alone counts.  This presupposes that the
    devices of those names know their node and that no such name is both a PCI and a
    USB device's ([placed]); whatever the devices, the second condition is that of
    [one_node]: the first name that gives a node fixes it for the names after it.
    Validating changes nothing, and panics on a VM without a template. *)
Theorem vm_admitted (vm : VirtualMachine) :
  (vm_Template vm = false -> fst (validateDevices vm s) = Panic nil_dereference) /\
  (vm_Template vm = true ->
   snd (validateDevices vm s) = s /\
   (fst (validateDevices vm s) = Ok tt <->
    (forall d, d ∈ vm_HostDevices vm -> has_resource_name (dr_DeviceName d)) /\ one_node c (vm_HostDevices vm)) /\
   ((forall d, d ∈ vm_HostDevices vm -> placed (dr_Name d)) ->
    fst (validateDevices vm s) = Ok tt <->
    (forall d, d ∈ vm_HostDevices vm -> has_resource_name (dr_DeviceName d)) /\
    exists node, forall d n, d ∈ vm_HostDevices vm -> device_at n (dr_Name d) -> n = node)).
Proof.
  split; [intros Ht; unfold validateDevices, with_template; by rewrite Ht|]. intros Ht.
  destruct (validateDevices_exact c s vm Ht) as [Hs Ho]. setoid_rewrite known_resource_name in Ho.
  split_and!; [done|exact Ho|]. intros Hplaced. rewrite Ho. apply and_iff_compat_l. rewrite one_node_placed.
  - split; intros (node & Hn); exists node.
    + intros d n Hd Hat%nodes_of_at. specialize (Hn d Hd). rewrite Forall_forall in Hn. symmetry. by apply Hn.
    + intros d Hd. apply Forall_forall. intros n Hat%nodes_of_at. symmetry. by eapply Hn.
  - intros d Hd. apply Forall_forall. intros n Hat%nodes_of_at. by apply (proj1 (Hplaced d Hd)).
  - intros d Hd. destruct (c_get c KUSBDevice (dr_Name d)) as [u|] eqn:Hu; [right|by left].
    destruct (c_get c KPCIDevice (dr_Name d)) as [p|] eqn:Hp; [|done]. exfalso.
    apply (co_get c Hwf KUSBDevice) in Hu as [Hu Hun]. apply (co_get c Hwf KPCIDevice) in Hp as [Hp Hpn].
    by apply (proj2 (Hplaced d Hd) p u).
Qed.

(** Deleting a claim is admitted exactly when its node is gone, or the annotation of no VM
    names the device and, for a claim that a vGPU owns, this program itself asks. *)
Theorem pci_claim_deletable (username : string) (claim : PCIDeviceClaim) :
  fst (PCIDeviceClaim_Delete username claim s) = Ok tt <->
  node_gone c (pdc_NodeName (pdc_Spec claim)) = true \/
  (forall vm : VirtualMachine, vm ∈ c_list c KVirtualMachine ∅ -> ~ vm_uses (m_Name (pdc_meta claim)) vm) /\
  (username = HarvesterPCIDevicesControllerUser \/
   Forall (fun ref => or_Kind ref <> VGPUDeviceKind) (default [] (m_OwnerReferences (pdc_meta claim)))).
Proof. rewrite (PCIDeviceClaim_Delete_spec c s), no_vm_uses. done. Qed.
End Admission.
End Lookups.

(** ** A cluster whose caches keep their indexes *)

(** The indexed lookup, by the function registered under that name. *)
Definition answer_index {E : External} {O : MapOrder} (reg : list indexer) (c : contents)
    (k : Kind) (name key : string) : option (list (Obj k)) :=
  match find_index_fn reg k name with
  | None => None
  | Some x =>
      match decide (ix_kind x = k) with
      | left e => Some (eq_rect (ix_kind x) (fun j => list (Obj j))
                          (List.filter (filed x key) (c_list c (ix_kind x) ∅)) k e)
      | right _ => None
      end
  end.

Record indexed_sim := Cluster { cluster_sim : sim }.

Definition cluster_contents (w : indexed_sim) : contents :=
  {| c_get := c_get (sim_contents (cluster_sim w));
     c_index := fun k i key =>
       default [] (answer_index webhook_RegisterIndexers (sim_contents (cluster_sim w)) k i key);
     c_list := c_list (sim_contents (cluster_sim w)) |}.

#[export] Instance indexed_world : World indexed_sim := fun X e w =>
  match e in Eff X return (error + X) * indexed_sim with
  | CacheByIndex k i key =>
      (inr (default [] (answer_index webhook_RegisterIndexers (sim_contents (cluster_sim w)) k i key)), w)
  | e => let '(r, w') := sim_world _ e (cluster_sim w) in (r, Cluster w')
  end.

#[export] Instance cluster_indexed w : Indexed webhook_RegisterIndexers (cluster_contents w).
Proof.
  intros x key Hx. unfold webhook_RegisterIndexers in Hx. rewrite !elem_of_cons in Hx.
  repeat (destruct Hx as [->|Hx]; [reflexivity|]). by apply not_elem_of_nil in Hx.
Qed.

Definition keyed (w : sim) : Prop := forall k n o, sim_store w k !! n = Some o -> name_of o = n.
Lemma keyed_empty : keyed sim_empty.
Proof. intros k n o. cbn. by rewrite lookup_empty. Qed.
Lemma keyed_put k o w : keyed w -> keyed (put k o w).
Proof.
  intros Hw k' n o'. cbn. destruct (decide (k = k')) as [<-|]; [|apply Hw]. cbn.
  rewrite lookup_insert_Some. intros [[<- <-]|[_ Ho]]; [done|by apply Hw].
Qed.

Lemma matches_empty l : matches ∅ l = true.
Proof. unfold matches. by rewrite map_to_list_empty. Qed.
Lemma matches_singleton key value l : matches {[ key := value ]} l = true <-> l !! key = Some value.
Proof. unfold matches. rewrite map_to_list_singleton. cbn. by rewrite andb_true_r, bool_decide_eq_true. Qed.

Lemma listed_all k (o : Obj k) w : keyed w -> o ∈ sim_listed k ∅ w <-> sim_store w k !! name_of o = Some o.
Proof.
  intros Hw. unfold sim_listed. rewrite list_elem_of_In, filter_In, <- list_elem_of_In, matches_empty.
  rewrite list_elem_of_fmap. split.
  - intros [([n o'] & -> & Hin) _]. apply elem_of_map_to_list in Hin. cbn. by rewrite (Hw _ _ _ Hin).
  - intros Ho. split; [|done]. exists (name_of o, o). split; [done|]. by apply elem_of_map_to_list.
Qed.

(** A cluster whose objects are stored under their names is coherent, as soon as its
    addresses and groups have no dash. *)
Lemma cluster_coherent w :
  keyed (cluster_sim w) ->
  Forall (fun d : PCIDevice => dashless (pd_Address (pd_Status d)) && dashless (pd_IOMMUGroup (pd_Status d)) = true)
    (sim_listed KPCIDevice ∅ (cluster_sim w)) ->
  Forall (fun u : USBDeviceClaim => dashless (uc_PCIAddress (uc_Status u)) = true)
    (sim_listed KUSBDeviceClaim ∅ (cluster_sim w)) ->
  coherent (cluster_contents w).
Proof.
  intros Hw Hp Hu. split.
  - intros d Hd. rewrite Forall_forall in Hp. apply andb_true_iff. by apply Hp.
  - intros u Hin. rewrite Forall_forall in Hu. by apply Hu.
  - intros k n o. change (sim_store (cluster_sim w) k !! n = Some o <-> o ∈ sim_listed k ∅ (cluster_sim w) /\ name_of o = n).
    rewrite listed_all by done. split; [|by intros [Ho <-]]. intros Ho. by rewrite (Hw _ _ _ Ho).
  - intros k key value o.
    change (o ∈ sim_listed k {[ key := value ]} (cluster_sim w) <->
      o ∈ sim_listed k ∅ (cluster_sim w) /\ m_Labels (meta_of o) !! key = Some value).
    unfold sim_listed. rewrite !list_elem_of_In, !filter_In, matches_singleton, matches_empty. tauto.
Qed.

#[export] Instance cluster_answers {Mem} (m : Mem) (w : indexed_sim) : Answers (cluster_contents w) (State m w).
Proof. destruct w as [w]. split; [|done..]. intros k n. unfold eff. cbn. by destruct (sim_store w k !! n). Qed.

(** The device of node n1 has the address of the claimed USB controller of node n2. *)
Definition usb_claim_of (node address : string) : USBDeviceClaim :=
  {| uc_meta := new_meta (node +:+ "-usb") ∅ ∅; uc_UserName := "admin";
     uc_Status := {| uc_PCIAddress := address; uc_NodeName := node |} |}.
Definition two_nodes : sim :=
  put KUSBDeviceClaim (usb_claim_of "n2" "0000:04:10.0") (put KPCIDevice grouped_pci sim_empty).
Lemma two_nodes_coherent : coherent (cluster_contents (Cluster two_nodes)).
Proof.
  apply cluster_coherent.
  - refine (keyed_put _ _ _ (keyed_put _ _ _ keyed_empty)).
  - vm_compute. repeat constructor.
  - vm_compute. repeat constructor.
Qed.

Lemma pci_claim_admitted_witness :
  fst (PCIDeviceClaim_Create (demo_claim "n1-a" "admin") (State tt (Cluster two_nodes))) = Ok tt /\
  fst (PCIDeviceClaim_Create (demo_claim "n1-a" "admin")
    (State tt (Cluster (put KUSBDeviceClaim (usb_claim_of "n1" "0000:04:10.0") two_nodes)))) <> Ok tt.
Proof.
  split; [|vm_compute; discriminate].
  refine (proj2 (pci_claim_admitted (cluster_contents (Cluster two_nodes)) two_nodes_coherent _ _) _).
  assert (c_list (cluster_contents (Cluster two_nodes)) KPCIDevice ∅ = [grouped_pci]) as Hp by (vm_compute; reflexivity).
  assert (c_list (cluster_contents (Cluster two_nodes)) KUSBDeviceClaim ∅ = [usb_claim_of "n2" "0000:04:10.0"])
    as Hu by (vm_compute; reflexivity).
  exists grouped_pci. rewrite Hp, Hu. split_and!; [by left|reflexivity|discriminate| |].
  - intros u Hin. apply list_elem_of_singleton in Hin as ->. discriminate.
  - intros d Hin. apply list_elem_of_singleton in Hin as ->. vm_compute. discriminate.
Defined.

Lemma indexers_total_witness :
  is_Ok (VMByHostDeviceName (demo_vm {[ DeviceAllocationKey := "{" ]})) = false.
Proof.
  apply (indexers_total (AddIndexer KVirtualMachine VMByPCIDeviceClaim VMByHostDeviceName)).
  - unfold webhook_RegisterIndexers. set_solver.
  - split; [reflexivity|]. left. split; [reflexivity|]. exists "{". split; [vm_compute; reflexivity|reflexivity].
Defined.

(** A VM that names a PCI device and a USB device of one node, and one device that
    does not exist by a resource that does. *)
Definition admitted_vm (usb : string) : VirtualMachine :=
  {| vm_meta := new_meta "vm1" ∅ ∅; vm_Template := true;
     vm_HostDevices := [{| dr_Name := "n1-a"; dr_DeviceName := pd_ResourceName (pd_Status grouped_pci) |};
       {| dr_Name := usb; dr_DeviceName := "kubevirt.io/u" |};
       {| dr_Name := "other"; dr_DeviceName := "kubevirt.io/u" |}];
     vm_GPUs := [] |}.
Definition demo_usb_at (name node : string) : USBDevice :=
  {| usb_meta := new_meta name ∅ ∅;
     usb_Status := {| usb_VendorID := ""; usb_ProductID := ""; usb_NodeName := node;
       usb_ResourceName := "kubevirt.io/u"; usb_DevicePath := ""; usb_Description := ""; usb_PCIAddress := "";
       usb_ClassType := ""; usb_Enabled := false; usb_status := ""; usb_Message := "" |} |}.
Definition usb_cluster : sim :=
  put KUSBDevice (demo_usb_at "u2" "n2") (put KUSBDevice (demo_usb_at "u1" (pd_NodeName (pd_Status grouped_pci))) two_nodes).
Lemma usb_cluster_coherent : coherent (cluster_contents (Cluster usb_cluster)).
Proof.
  apply cluster_coherent.
  - refine (keyed_put _ _ _ (keyed_put _ _ _ (keyed_put _ _ _ (keyed_put _ _ _ keyed_empty)))).
  - vm_compute. repeat constructor.
  - vm_compute. repeat constructor.
Qed.

Lemma same_resources (P : string -> Prop) (l1 l2 : list DeviceRef) :
  dr_DeviceName <$> l1 = dr_DeviceName <$> l2 ->
  (forall d, d ∈ l1 -> P (dr_DeviceName d)) -> forall d, d ∈ l2 -> P (dr_DeviceName d).
Proof.
  intros E Hall d Hd. apply (list_elem_of_fmap_2 dr_DeviceName) in Hd. rewrite <- E in Hd.
  apply list_elem_of_fmap in Hd as (d' & -> & Hd'). by apply Hall.
Qed.

Lemma vm_admitted_witness :
  one_node (cluster_contents (Cluster usb_cluster)) (vm_HostDevices (admitted_vm "u1")) /\
  ~ one_node (cluster_contents (Cluster usb_cluster)) (vm_HostDevices (admitted_vm "u2")).
Proof.
  pose proof (vm_admitted (cluster_contents (Cluster usb_cluster)) usb_cluster_coherent (State tt (Cluster usb_cluster))) as H.
  destruct (proj2 (H (admitted_vm "u1")) eq_refl) as (_ & [Hok _] & _).
  destruct (proj2 (H (admitted_vm "u2")) eq_refl) as (_ & [_ Hback] & _).
  destruct Hok as [Hres Hone]; [vm_compute; reflexivity|]. split; [exact Hone|].
  intros Hbad. assert (fst (validateDevices (admitted_vm "u2") (State tt (Cluster usb_cluster))) <> Ok tt) as Hno
    by (vm_compute; discriminate).
  apply Hno, Hback. split; [|exact Hbad]. refine (same_resources (has_resource_name _) (vm_HostDevices (admitted_vm "u1")) _ _ Hres). reflexivity.
Defined.
