(* ===== verification/Admission.v ===== *)
(** * Which requests the webhook reviews (pkg/webhook/server.go, mutation.go, validation.go)

    Each mutator and validator declares the resource and the operations it reviews;
    from the declarations the server builds the rules that it registers with the API
    server, and a router that finds the admitter by the kind of the object.  An admitter
    inherits from another module's default what it does not implement. *)

From S2P Require Import Prelude GoStrings GoMonad Types Effects WebhookVM Webhook Sim.

Inductive Operation := OpCreate | OpUpdate | OpDelete | OpConnect.
#[export] Instance Operation_eq_dec : EqDecision Operation.
Proof. solve_decision. Defined.
Inductive Scope := ClusterScope | NamespacedScope.
#[export] Instance Scope_eq_dec : EqDecision Scope.
Proof. solve_decision. Defined.

(** [types.Resource]; [ObjectType] is known by the kind of its objects. *)
Record Resource := {
  r_Names : list string;
  r_Scope : Scope;
  r_APIGroup : string;
  r_APIVersion : string;
  r_ObjectType : Kind;
  r_OperationTypes : list Operation
}.

(** [RuleWithOperations]. *)
Record Rule := {
  ru_Operations : list Operation;
  ru_APIGroups : list string;
  ru_APIVersions : list string;
  ru_Resources : list string;
  ru_Scope : Scope
}.
Definition buildRules (resources : list Resource) : list Rule :=
  (fun rsc => {| ru_Operations := r_OperationTypes rsc; ru_APIGroups := [r_APIGroup rsc];
                 ru_APIVersions := [r_APIVersion rsc]; ru_Resources := r_Names rsc; ru_Scope := r_Scope rsc |})
  <$> resources.

Definition devices_Group : string := "devices.harvesterhci.io".
Definition devices_Version : string := "v1beta1".

(** The names of the Go types of the objects. *)
Definition kind_name (k : Kind) : string :=
  match k with
  | KPCIDevice => "PCIDevice" | KPCIDeviceClaim => "PCIDeviceClaim" | KSRIOVNetworkDevice => "SRIOVNetworkDevice"
  | KSRIOVGPUDevice => "SRIOVGPUDevice" | KVGPUDevice => "VGPUDevice" | KMigConfiguration => "MigConfiguration"
  | KUSBDevice => "USBDevice" | KUSBDeviceClaim => "USBDeviceClaim" | KNode => "Node" | KCoreNode => "Node"
  | KPod => "Pod" | KVirtualMachine => "VirtualMachine" | KVirtualMachineInstance => "VirtualMachineInstance"
  | KKubeVirt => "KubeVirt" | KVlanConfig => "VlanConfig"
  end.

(** The group, version and scope of kubevirt's virtual machines are constants of
    KubeVirt. *)
Section Admission.
Context `{External} `{MapOrder} {Mem W : Type} `{World W} (kubevirt_Group kubevirt_Version : string).
#[local] Abbreviation M := (M Mem W).

(** An admitter with the methods that it implements, given the user who asks, the old
    and the new object.  [R] is what an admitted request is answered with. *)
Record Admitter (R : Type) := {
  ad_Resource : Resource;
  ad_method : Operation -> option (string -> Obj (r_ObjectType ad_Resource) -> Obj (r_ObjectType ad_Resource) -> M R)
}.
#[global] Arguments ad_Resource {R} _.
#[global] Arguments ad_method {R} _ _.

Definition device_resource (name : string) (k : Kind) (ops : list Operation) : Resource :=
  {| r_Names := [name]; r_Scope := ClusterScope; r_APIGroup := devices_Group; r_APIVersion := devices_Version;
     r_ObjectType := k; r_OperationTypes := ops |}.
Definition vm_resource : Resource :=
  {| r_Names := ["virtualmachines"]; r_Scope := NamespacedScope; r_APIGroup := kubevirt_Group;
     r_APIVersion := kubevirt_Version; r_ObjectType := KVirtualMachine; r_OperationTypes := [OpCreate; OpUpdate] |}.

Definition vmPCIMutator : Admitter (list string) :=
  {| ad_Resource := vm_resource;
     ad_method := fun op => match op with
       | OpCreate => Some (fun _ _ newObj => VM_Create newObj)
       | OpUpdate => Some (fun _ oldObj newObj => VM_Update oldObj newObj)
       | _ => None
       end |}.

Definition sriovNetworkDeviceValidator : Admitter unit :=
  {| ad_Resource := device_resource "sriovnetworkdevices" KSRIOVNetworkDevice [OpDelete; OpUpdate];
     ad_method := fun op => match op with
       | OpUpdate => Some (fun _ oldObj newObj => SRIOVNetworkDevice_Update oldObj newObj)
       | OpDelete => Some (fun _ oldObj _ => SRIOVNetworkDevice_Delete oldObj)
       | _ => None
       end |}.
Definition pciDeviceClaimValidator : Admitter unit :=
  {| ad_Resource := device_resource "pcideviceclaims" KPCIDeviceClaim [OpCreate; OpDelete];
     ad_method := fun op => match op with
       | OpCreate => Some (fun _ _ newObj => PCIDeviceClaim_Create newObj)
       | OpDelete => Some (fun user oldObj _ => PCIDeviceClaim_Delete user oldObj)
       | _ => None
       end |}.
Definition vgpuValidator : Admitter unit :=
  {| ad_Resource := device_resource "vgpudevices" KVGPUDevice [OpUpdate; OpDelete];
     ad_method := fun op => match op with
       | OpUpdate => Some (fun _ oldObj newObj => VGPUDevice_Update oldObj newObj)
       | OpDelete => Some (fun _ oldObj _ => VGPUDevice_Delete oldObj)
       | _ => None
       end |}.
Definition sriovGPUValidator : Admitter unit :=
  {| ad_Resource := device_resource "sriovgpudevices" KSRIOVGPUDevice [OpUpdate; OpDelete];
     ad_method := fun op => match op with
       | OpUpdate => Some (fun _ oldObj newObj => SRIOVGPUDevice_Update oldObj newObj)
       | OpDelete => Some (fun _ oldObj _ => SRIOVGPUDevice_Delete oldObj)
       | _ => None
       end |}.
Definition usbDeviceClaimValidator : Admitter unit :=
  {| ad_Resource := device_resource "usbdeviceclaims" KUSBDeviceClaim [OpUpdate; OpDelete];
     ad_method := fun op => match op with
       | OpUpdate => Some (fun _ oldObj newObj => USBDeviceClaim_Update oldObj newObj)
       | OpDelete => Some (fun _ oldObj _ => USBDeviceClaim_Delete oldObj)
       | _ => None
       end |}.
Definition vmDeviceHostValidator : Admitter unit :=
  {| ad_Resource := vm_resource;
     ad_method := fun op => match op with
       | OpCreate => Some (fun _ _ newObj => validateDevices newObj)
       | OpUpdate => Some (fun _ _ newObj => validateDevices newObj)
       | _ => None
       end |}.
Definition usbDeviceValidator : Admitter unit :=
  {| ad_Resource := device_resource "usbdevices" KUSBDevice [OpDelete];
     ad_method := fun op => match op with
       | OpDelete => Some (fun _ oldObj _ => USBDevice_Delete oldObj)
       | _ => None
       end |}.
Definition migConfigurationValidator : Admitter unit :=
  {| ad_Resource := device_resource "migconfigurations" KMigConfiguration [OpUpdate];
     ad_method := fun op => match op with
       | OpUpdate => Some (fun _ oldObj newObj => MigConfiguration_Update oldObj newObj)
       | _ => None
       end |}.

Definition Mutation : list (Admitter (list string)) := [vmPCIMutator].
Definition Validation : list (Admitter unit) :=
  [sriovNetworkDeviceValidator; pciDeviceClaimValidator; vgpuValidator; sriovGPUValidator; usbDeviceClaimValidator;
   vmDeviceHostValidator; usbDeviceValidator; migConfigurationValidator].

(** ** A request *)

(** Whether a rule selects a request. *)
Definition rule_selects (group version resource : string) (scope : Scope) (op : Operation) (rule : Rule) : bool :=
  slices_Contains (ru_Resources rule) resource && bool_decide (op ∈ ru_Operations rule) &&
  bool_decide (ru_Scope rule = scope) &&
  slices_Contains (ru_APIGroups rule) group && slices_Contains (ru_APIVersions rule) version.

(** [addHandler]: the router finds an admitter by the kind and the group of the
    object; its objects are then of that kind. *)
Fixpoint route {R} (admitters : list (Admitter R)) (group : string) (k : Kind) (op : Operation)
    : option (option (string -> Obj k -> Obj k -> M R)) :=
  match admitters with
  | [] => None
  | a :: rest =>
      if (kind_name (r_ObjectType (ad_Resource a)) ==s kind_name k) && (r_APIGroup (ad_Resource a) ==s group)
      then match decide (r_ObjectType (ad_Resource a) = k) with
           | left e => Some (eq_rect (r_ObjectType (ad_Resource a))
                              (fun j => option (string -> Obj j -> Obj j -> M R)) (ad_method a op) k e)
           | right _ => None
           end
      else route rest group k op
  end.

(** ** The registration of the webhook

    When the secret with the certificate authority changes, both configurations are
    sent to the API server, after a sleep that lets the server start to listen. *)
Record Secret := { se_Name : string; se_Namespace : string; se_Data : gmap string string }.
Record WebhookConfiguration := {
  wc_Name : string;
  wc_WebhookName : string;
  wc_Namespace : string;
  wc_Service : string;
  wc_Path : string;
  wc_Port : Z;
  wc_CABundle : string;
  wc_Rules : list Rule;
  wc_IgnoreFailure : bool;
  wc_SideEffects : string;
  wc_AdmissionReviewVersions : list string
}.
Definition caName : string := "pcidevices-webhook-ca".
Definition namespace : string := "harvester-system".
Definition mutationPath : string := "/v1/webhook/mutation".
Definition validationPath : string := "/v1/webhook/validation".
Definition MutatorName : string := "pcidevices-mutator".
Definition ValidatorName : string := "pcidevices-validator".
Definition webhook_port : Z := 8443.

Definition configuration (name path ca : string) (rules : list Rule) : WebhookConfiguration :=
  {| wc_Name := name; wc_WebhookName := "pcidevices.harvesterhci.io"; wc_Namespace := namespace;
     wc_Service := "pcidevices-webhook"; wc_Path := path; wc_Port := webhook_port; wc_CABundle := ca;
     wc_Rules := rules; wc_IgnoreFailure := true; wc_SideEffects := "None";
     wc_AdmissionReviewVersions := ["v1"; "v1beta1"] |}.

(** [ApplyObjects] of the wrangler library, and the name of the certificate's key. *)
Definition on_secret (TLSCertKey : string) (ApplyObjects : list WebhookConfiguration -> M unit)
    (mutationResources validationResources : list Resource) (secret : option Secret) : M (option Secret) :=
  match secret with
  | None => ret None
  | Some sec =>
      let ca := default "" (se_Data sec !! TLSCertKey) in
      if (se_Name sec !=s caName) || (se_Namespace sec !=s namespace) || (ca ==s "") then ret None
      else
        eff (SleepFor 15) ;;;
        ApplyObjects [configuration MutatorName mutationPath ca (buildRules mutationResources);
                      configuration ValidatorName validationPath ca (buildRules validationResources)] ;;;
        ret secret
  end.

(** Group, version and scope of the kinds. *)
Definition coordinates (k : Kind) : string * string * Scope :=
  match k with
  | KVirtualMachine | KVirtualMachineInstance | KKubeVirt => (kubevirt_Group, kubevirt_Version, NamespacedScope)
  | KCoreNode => ("", "v1", ClusterScope)
  | KPod => ("", "v1", NamespacedScope)
  | KVlanConfig => ("network.harvesterhci.io", "v1beta1", ClusterScope)
  | _ => (devices_Group, devices_Version, ClusterScope)
  end.

(** The name of a kind's resource in requests, which the modules that define the
    resources make of the kind's name; and the answer of an admitter to an operation that
    it does not implement. *)
Variables (plural : string -> string) (inherited : forall R, Operation -> M R).

(** The API server calls the webhook when one of the rules selects the request. *)
Definition selected {R} (admitters : list (Admitter R)) (k : Kind) (op : Operation) : bool :=
  let '(group, version, scope) := coordinates k in
  existsb (rule_selects group version (plural (kind_name k)) scope op) (buildRules (ad_Resource <$> admitters)).

Definition review {R} (admitters : list (Admitter R)) (unreviewed : M R) (k : Kind) (op : Operation) (user : string)
    (oldObj newObj : Obj k) : M R :=
  if selected admitters k op then
    match route admitters (coordinates k).1.1 k op with
    | Some (Some method) => method user oldObj newObj
    | Some None => inherited R op
    | None => fail (Errorf "no handler")
    end
  else unreviewed.

(** The check that the code has for an operation on a kind. *)
Definition check_of (k : Kind) (op : Operation) : option (string -> Obj k -> Obj k -> M unit) :=
  match k, op with
  | KPCIDeviceClaim, OpCreate => Some (fun _ _ n => PCIDeviceClaim_Create n)
  | KPCIDeviceClaim, OpDelete => Some (fun user o _ => PCIDeviceClaim_Delete user o)
  | KSRIOVNetworkDevice, OpUpdate => Some (fun _ o n => SRIOVNetworkDevice_Update o n)
  | KSRIOVNetworkDevice, OpDelete => Some (fun _ o _ => SRIOVNetworkDevice_Delete o)
  | KVGPUDevice, OpUpdate => Some (fun _ o n => VGPUDevice_Update o n)
  | KVGPUDevice, OpDelete => Some (fun _ o _ => VGPUDevice_Delete o)
  | KSRIOVGPUDevice, OpUpdate => Some (fun _ o n => SRIOVGPUDevice_Update o n)
  | KSRIOVGPUDevice, OpDelete => Some (fun _ o _ => SRIOVGPUDevice_Delete o)
  | KUSBDeviceClaim, OpUpdate => Some (fun _ o n => USBDeviceClaim_Update o n)
  | KUSBDeviceClaim, OpDelete => Some (fun _ o _ => USBDeviceClaim_Delete o)
  | KUSBDevice, OpDelete => Some (fun _ o _ => USBDevice_Delete o)
  | KMigConfiguration, OpUpdate => Some (fun _ o n => MigConfiguration_Update o n)
  | KVirtualMachine, OpCreate => Some (fun _ _ n => validateDevices n)
  | KVirtualMachine, OpUpdate => Some (fun _ _ n => validateDevices n)
  | _, _ => None
  end.

Section Reviewed.
Context (Hplural : forall k, plural (kind_name k) = ToLower (kind_name k) +:+ "s").

Lemma vm_rule op : op ∈ [OpCreate; OpUpdate] ->
  rule_selects kubevirt_Group kubevirt_Version (ToLower (kind_name KVirtualMachine) +:+ "s") NamespacedScope op
    {| ru_Operations := [OpCreate; OpUpdate]; ru_APIGroups := [kubevirt_Group]; ru_APIVersions := [kubevirt_Version];
       ru_Resources := ["virtualmachines"]; ru_Scope := NamespacedScope |} = true.
Proof.
  intros Hop. unfold rule_selects. cbn [ru_Operations ru_APIGroups ru_APIVersions ru_Resources ru_Scope].
  rewrite !andb_true_iff, !slices_Contains_spec, !bool_decide_eq_true, !list_elem_of_singleton. by split_and!.
Qed.

Lemma vm_selected {R} (admitters : list (Admitter R)) op :
  op ∈ [OpCreate; OpUpdate] -> vm_resource ∈ ad_Resource <$> admitters -> selected admitters KVirtualMachine op = true.
Proof.
  intros Hop Hin. unfold selected. cbn [coordinates]. rewrite Hplural. apply existsb_exists. eexists. split.
  - apply list_elem_of_In. unfold buildRules. apply list_elem_of_fmap_2, Hin.
  - by apply vm_rule.
Qed.

(** C6: the rules that the server registers and the methods of the validators agree: for
    every kind and operation a request is reviewed by the check that the code has for
    it, each object under its own type, and a request for which there is no check is
    never sent to the webhook, so that no answer is inherited. *)
Theorem validation_complete (k : Kind) (op : Operation) (user : string) (oldObj newObj : Obj k) :
  review Validation (ret tt) k op user oldObj newObj =
  match check_of k op with Some check => check user oldObj newObj | None => ret tt end.
Proof.
  destruct (decide (k = KVirtualMachine /\ op ∈ [OpCreate; OpUpdate])) as [[-> Hop]|Hno].
  - unfold review. rewrite vm_selected by (done || (cbn; set_solver)). cbn.
    rewrite (bool_decide_eq_true_2 (kubevirt_Group = kubevirt_Group)) by done.
    destruct op; [done..| |]; exfalso; set_solver.
  - unfold review, selected. rewrite Hplural. destruct k, op; try reflexivity; exfalso; apply Hno; set_solver.
Qed.

(** Virtual machines are the only objects that are changed on their way in, when they
    are created and when they are updated. *)
Theorem mutation_complete (k : Kind) (op : Operation) (user : string) (oldObj newObj : Obj k) :
  review Mutation (ret []) k op user oldObj newObj =
  match k, op return Obj k -> M (list string) with
  | KVirtualMachine, OpCreate => fun n => VM_Create n
  | KVirtualMachine, OpUpdate => fun n => VM_Update n n
  | _, _ => fun _ => ret []
  end newObj.
Proof.
  destruct (decide (k = KVirtualMachine /\ op ∈ [OpCreate; OpUpdate])) as [[-> Hop]|Hno].
  - unfold review. rewrite vm_selected by (done || (cbn; set_solver)). cbn.
    rewrite (bool_decide_eq_true_2 (kubevirt_Group = kubevirt_Group)) by done.
    destruct op; [done..| |]; exfalso; set_solver.
  - unfold review, selected. rewrite Hplural. destruct k, op; try reflexivity; exfalso; apply Hno; set_solver.
Qed.
End Reviewed.
End Admission.

(** ** Requests in a concrete cluster *)
Definition demo_plural (name : string) : string := ToLower name +:+ "s".
Definition demo_review := review (Mem := unit) (W := sim) "kubevirt.io" "v1" demo_plural
  (fun R op => fail (Errorf "inherited")) (Validation "kubevirt.io" "v1") (ret tt).

Lemma validation_complete_witness :
  demo_review KPCIDeviceClaim OpDelete "admin" vgpu_owned vgpu_owned =
    PCIDeviceClaim_Delete "admin" vgpu_owned /\
  fst (demo_review KPCIDeviceClaim OpDelete "admin" vgpu_owned vgpu_owned (State tt admission_cluster)) <> Ok tt /\
  fst (demo_review KPCIDeviceClaim OpUpdate "admin" vgpu_owned vgpu_owned (State tt admission_cluster)) = Ok tt.
Proof.
  split; [|split; vm_compute; [discriminate|reflexivity]].
  apply (validation_complete "kubevirt.io" "v1" demo_plural (fun R op => fail (Errorf "inherited")) (fun k => eq_refl)
    KPCIDeviceClaim OpDelete "admin" vgpu_owned vgpu_owned).
Defined.
