(* ===== verification/Crds.v ===== *)
(** * The resource definitions and the stored form of the objects (pkg/crd/crd.go)

    The objects of the API group are stored as JSON, encoded by the tags of the Go
    structs' fields in pkg/apis: a field tagged omitempty is left out when it is false,
    zero or empty, so that an empty slice or map is read back as nil.  The definitions of
    the resources name, for the columns of a listing, paths in this form. *)

From S2P Require Import Prelude GoStrings GoStringLemmas GoMonad Types Effects PluginServer WebhookVM Admission Sim.
From Stdlib Require Import Ascii.

(** ** JSON and the types of the structs *)
Inductive json :=
| JStr (s : string)
| JBool (b : bool)
| JNum (z : Z)
| JArr (l : list json)
| JObj (l : list (string * json)).

(** [TAny] is the metadata, which another module defines. *)
Inductive ty :=
| TAny
| TStr
| TBool
| TInt
| TList (t : ty)
| TMap
| TRec (fields : list (string * bool * ty)).

Definition json_lookup (key : string) (l : list (string * json)) : option json :=
  snd <$> List.find (fun p => p.1 ==s key) l.

Definition no_dups (l : list string) : bool := bool_decide (NoDup l).

(** The value has the type: an object of a struct has no key but the fields' and misses
    none but those that may be omitted. *)
Fixpoint has_type (t : ty) (j : json) {struct t} : bool :=
  match t, j with
  | TAny, _ => true
  | TStr, JStr _ => true
  | TBool, JBool _ => true
  | TInt, JNum _ => true
  | TList t, JArr l => forallb (has_type t) l
  | TMap, JObj l => no_dups l.*1 && forallb (fun p => match p.2 with JStr _ => true | _ => false end) l
  | TRec fields, JObj l =>
      no_dups l.*1 && forallb (fun p => slices_Contains ((fun f => f.1.1) <$> fields) p.1) l &&
      forallb (fun f : string * bool * ty =>
        let '(tag, omit, t) := f in
        match json_lookup tag l with Some v => has_type t v | None => omit end) fields
  | _, _ => false
  end.

(** What omitempty leaves out; a struct is never empty. *)
Definition is_empty (j : json) : bool :=
  match j with
  | JStr s => s ==s ""
  | JBool b => negb b
  | JNum z => (z =? 0)%Z
  | JArr l => bool_decide (l = [])
  | JObj l => bool_decide (l = [])
  end.

(** The encoding of a struct: tag, omitempty and value of each field. *)
Definition record (fields : list (string * bool * json)) : json :=
  JObj (omap (fun f => if f.1.2 && is_empty f.2 then None else Some (f.1.1, f.2)) fields).

(** Fields that are read back; a missing one is zero. *)
Definition member (key : string) (j : json) : option json :=
  match j with JObj l => json_lookup key l | _ => None end.
Definition get_str (key : string) (j : json) : string := match member key j with Some (JStr s) => s | _ => "" end.
Definition get_bool (key : string) (j : json) : bool := match member key j with Some (JBool b) => b | _ => false end.
Definition get_int (key : string) (j : json) : Z := match member key j with Some (JNum z) => z | _ => 0%Z end.
Definition get_list (key : string) (j : json) : option (list json) :=
  match member key j with Some (JArr l) => Some l | _ => None end.
Definition str_of (j : json) : string := match j with JStr s => s | _ => "" end.
Definition get_strs (key : string) (j : json) : option (list string) := 
  match get_list key j with Some l => Some (List.map str_of l) | None => None end.
Definition get_map (key : string) (j : json) : option (gmap string string) :=
  match member key j with
  | Some (JObj l) => Some (list_to_map ((fun p => (p.1, str_of p.2)) <$> l))
  | _ => None
  end.
Definition get_struct (key : string) (j : json) : json := default (JObj []) (member key j).

Definition strs (l : option (list string)) : json := JArr (JStr <$> default [] l).
Definition str_map (m : option (gmap string string)) : json :=
  JObj ((fun p => (p.1, JStr p.2)) <$> map_to_list (default ∅ m)).

(** ** The structs of the API (pkg/apis), tag by tag *)
Definition required (tag : string) (t : ty) : string * bool * ty := (tag, false, t).
Definition omitempty (tag : string) (t : ty) : string * bool * ty := (tag, true, t).

Definition schema_PCIDevice : ty := TRec
  [omitempty "metadata" TAny; omitempty "spec" (TRec []);
   omitempty "status" (TRec [required "address" TStr; required "vendorId" TStr; required "deviceId" TStr;
     required "classId" TStr; required "iommuGroup" TStr; required "nodeName" TStr; required "resourceName" TStr;
     required "description" TStr; omitempty "kernelDriverInUse" TStr])].
Definition schema_PCIDeviceClaim : ty := TRec
  [omitempty "metadata" TAny;
   omitempty "spec" (TRec [required "address" TStr; required "nodeName" TStr; required "userName" TStr;
     omitempty "disableResourcePooling" TBool]);
   omitempty "status" (TRec [required "kernelDriverToUnbind" TStr; required "passthroughEnabled" TBool])].
Definition schema_SRIOVNetworkDevice : ty := TRec
  [omitempty "metadata" TAny;
   omitempty "spec" (TRec [required "address" TStr; required "nodeName" TStr; required "numVFs" TInt]);
   omitempty "status" (TRec [omitempty "vfAddresses" (TList TStr); omitempty "vfPCIDevices" (TList TStr);
     required "status" TStr])].
Definition schema_SRIOVGPUDevice : ty := TRec
  [omitempty "metadata" TAny;
   omitempty "spec" (TRec [required "address" TStr; required "nodeName" TStr; required "enabled" TBool]);
   omitempty "status" (TRec [omitempty "vfAddresses" (TList TStr); omitempty "vGPUDevices" (TList TStr)])].
Definition schema_VGPUDevice : ty := TRec
  [omitempty "metadata" TAny;
   omitempty "spec" (TRec [required "vGPUTypeName" TStr; required "address" TStr; required "enabled" TBool;
     required "nodeName" TStr; required "parentGPUDeviceAddress" TStr]);
   omitempty "status" (TRec [omitempty "vGPUStatus" TStr; omitempty "uuid" TStr; omitempty "configureVGPUTypeName" TStr;
     omitempty "availableTypes" TMap])].
Definition schema_USBDevice : ty := TRec
  [omitempty "metadata" TAny;
   omitempty "status" (TRec [required "vendorID" TStr; required "productID" TStr; required "nodeName" TStr;
     required "resourceName" TStr; required "devicePath" TStr; required "description" TStr; required "pciAddress" TStr;
     omitempty "classType" TStr; required "enabled" TBool; omitempty "status" TStr; omitempty "message" TStr])].
Definition schema_USBDeviceClaim : ty := TRec
  [omitempty "metadata" TAny; omitempty "spec" (TRec [required "userName" TStr]);
   omitempty "status" (TRec [required "nodeName" TStr; required "pciAddress" TStr])].
Definition schema_Node : ty := TRec [omitempty "metadata" TAny; omitempty "spec" (TRec [])].
Definition schema_MigConfiguration : ty := TRec
  [omitempty "metadata" TAny;
   omitempty "spec" (TRec [required "enabled" TBool; required "gpuAddress" TStr; required "nodeName" TStr;
     omitempty "profileSpec" (TList (TRec [required "name" TStr; required "id" TInt; required "requested" TInt]))]);
   omitempty "status" (TRec [omitempty "profileStatus" (TList (TRec [required "name" TStr; required "id" TInt;
     required "available" TInt; required "total" TInt; omitempty "vGPUID" (TList TStr)])); required "status" TStr;
     omitempty "message" TStr])].

(** The kinds of the API group. *)
Definition schema_of (k : Kind) : option ty :=
  match k with
  | KPCIDevice => Some schema_PCIDevice
  | KPCIDeviceClaim => Some schema_PCIDeviceClaim
  | KSRIOVNetworkDevice => Some schema_SRIOVNetworkDevice
  | KSRIOVGPUDevice => Some schema_SRIOVGPUDevice
  | KVGPUDevice => Some schema_VGPUDevice
  | KUSBDevice => Some schema_USBDevice
  | KUSBDeviceClaim => Some schema_USBDeviceClaim
  | KNode => Some schema_Node
  | KMigConfiguration => Some schema_MigConfiguration
  | _ => None
  end.

(** ** Encoding *)
Definition must (tag : string) (v : json) : string * bool * json := (tag, false, v).
Definition may (tag : string) (v : json) : string * bool * json := (tag, true, v).

Definition encode_request (r : MigProfileRequest) : json :=
  record [must "name" (JStr (mpr_Name r)); must "id" (JNum (mpr_ID r)); must "requested" (JNum (mpr_Requested r))].
Definition encode_profile (r : MigProfileStatus) : json :=
  record [must "name" (JStr (mps_Name r)); must "id" (JNum (mps_ID r)); must "available" (JNum (mps_Available r));
          must "total" (JNum (mps_Total r)); may "vGPUID" (strs (Some (mps_VGPUID r)))].

(** The fields of an object besides its metadata. *)
Definition encode_fields {k : Kind} : Obj k -> list (string * bool * json) :=
  match k return Obj k -> list (string * bool * json) with
  | KPCIDevice => fun o => let st := pd_Status o in
      [must "spec" (record []);
       must "status" (record [must "address" (JStr (pd_Address st)); must "vendorId" (JStr (pd_VendorID st));
         must "deviceId" (JStr (pd_DeviceID st)); must "classId" (JStr (pd_ClassID st));
         must "iommuGroup" (JStr (pd_IOMMUGroup st)); must "nodeName" (JStr (pd_NodeName st));
         must "resourceName" (JStr (pd_ResourceName st)); must "description" (JStr (pd_Description st));
         may "kernelDriverInUse" (JStr (pd_KernelDriverInUse st))])]
  | KPCIDeviceClaim => fun o =>
      [must "spec" (record [must "address" (JStr (pdc_Address (pdc_Spec o)));
         must "nodeName" (JStr (pdc_NodeName (pdc_Spec o))); must "userName" (JStr (pdc_UserName (pdc_Spec o)));
         may "disableResourcePooling" (JBool (pdc_DisableResourcePooling (pdc_Spec o)))]);
       must "status" (record [must "kernelDriverToUnbind" (JStr (pdc_KernelDriverToUnbind (pdc_Status o)));
         must "passthroughEnabled" (JBool (pdc_PassthroughEnabled (pdc_Status o)))])]
  | KSRIOVNetworkDevice => fun o =>
      [must "spec" (record [must "address" (JStr (sn_Address (sn_Spec o))); must "nodeName" (JStr (sn_NodeName (sn_Spec o)));
         must "numVFs" (JNum (sn_NumVFs (sn_Spec o)))]);
       must "status" (record [may "vfAddresses" (strs (sn_VFAddresses (sn_Status o)));
         may "vfPCIDevices" (strs (sn_VFPCIDevices (sn_Status o))); must "status" (JStr (sn_status (sn_Status o)))])]
  | KSRIOVGPUDevice => fun o =>
      [must "spec" (record [must "address" (JStr (gpu_Address (gpu_Spec o)));
         must "nodeName" (JStr (gpu_NodeName (gpu_Spec o))); must "enabled" (JBool (gpu_Enabled (gpu_Spec o)))]);
       must "status" (record [may "vfAddresses" (strs (gpu_VFAddresses (gpu_Status o)));
         may "vGPUDevices" (strs (gpu_VGPUDevices (gpu_Status o)))])]
  | KVGPUDevice => fun o => let sp := vgpu_Spec o in let st := vgpu_Status o in
      [must "spec" (record [must "vGPUTypeName" (JStr (vgpu_VGPUTypeName sp)); must "address" (JStr (vgpu_Address sp));
         must "enabled" (JBool (vgpu_Enabled sp)); must "nodeName" (JStr (vgpu_NodeName sp));
         must "parentGPUDeviceAddress" (JStr (vgpu_ParentGPUDeviceAddress sp))]);
       must "status" (record [may "vGPUStatus" (JStr (vgpu_VGPUStatus st)); may "uuid" (JStr (vgpu_UUID st));
         may "configureVGPUTypeName" (JStr (vgpu_ConfiguredVGPUTypeName st));
         may "availableTypes" (str_map (vgpu_AvailableTypes st))])]
  | KUSBDevice => fun o => let st := usb_Status o in
      [must "status" (record [must "vendorID" (JStr (usb_VendorID st)); must "productID" (JStr (usb_ProductID st));
         must "nodeName" (JStr (usb_NodeName st)); must "resourceName" (JStr (usb_ResourceName st));
         must "devicePath" (JStr (usb_DevicePath st)); must "description" (JStr (usb_Description st));
         must "pciAddress" (JStr (usb_PCIAddress st)); may "classType" (JStr (usb_ClassType st));
         must "enabled" (JBool (usb_Enabled st)); may "status" (JStr (usb_status st)); may "message" (JStr (usb_Message st))])]
  | KUSBDeviceClaim => fun o =>
      [must "spec" (record [must "userName" (JStr (uc_UserName o))]);
       must "status" (record [must "nodeName" (JStr (uc_NodeName (uc_Status o)));
         must "pciAddress" (JStr (uc_PCIAddress (uc_Status o)))])]
  | KNode => fun _ => [must "spec" (record [])]
  | KMigConfiguration => fun o => let sp := mig_Spec o in let st := mig_Status o in
      [must "spec" (record [must "enabled" (JBool (mig_Enabled sp)); must "gpuAddress" (JStr (mig_GPUAddress sp));
         must "nodeName" (JStr (mig_NodeName sp));
         may "profileSpec" (JArr (encode_request <$> default [] (mig_ProfileSpec sp)))]);
       must "status" (record [may "profileStatus" (JArr (encode_profile <$> default [] (mig_ProfileStatus st)));
         must "status" (JStr (mig_status st)); may "message" (JStr (mig_Message st))])]
  | _ => fun _ => []
  end.

Section Objects.
(** The encoding of the metadata, which is never empty: it has at least a name.  The
    kind and the version are left out, no column names them. *)
Variable encode_meta : ObjectMeta -> json.

Definition encode {k : Kind} (o : Obj k) : json := record (must "metadata" (encode_meta (meta_of o)) :: encode_fields o).
End Objects.

(** ** Encoded objects are well-typed *)
Definition shown (values : list (string * bool * json)) : list (string * json) :=
  omap (fun f => if f.1.2 && is_empty f.2 then None else Some (f.1.1, f.2)) values.

Lemma shown_cons f values :
  shown (f :: values) = if f.1.2 && is_empty f.2 then shown values else (f.1.1, f.2) :: shown values.
Proof. unfold shown. cbn [omap list_omap]. by destruct (f.1.2 && is_empty f.2). Qed.

Lemma elem_of_shown values tag v :
  (tag, v) ∈ shown values -> exists omit, (tag, omit, v) ∈ values /\ (omit && is_empty v) = false.
Proof.
  induction values as [|[[t o] x] values IH]; [by intros ?%not_elem_of_nil|]. rewrite shown_cons. cbn.
  destruct (o && is_empty x) eqn:E.
  - intros (omit & Hin & Ho)%IH. exists omit. split; [by right|done].
  - rewrite elem_of_cons. intros [[= -> ->]|(omit & Hin & Ho)%IH]; [exists o; split; [left|done]|].
    exists omit. split; [by right|done].
Qed.

Lemma shown_tags values tag : tag ∈ (shown values).*1 -> tag ∈ (fun f => f.1.1) <$> values.
Proof.
  rewrite list_elem_of_fmap. intros ([t v] & -> & (omit & Hin & _)%elem_of_shown).
  apply list_elem_of_fmap. by exists (t, omit, v).
Qed.

Lemma shown_NoDup values : NoDup ((fun f => f.1.1) <$> values) -> NoDup (shown values).*1.
Proof.
  induction values as [|f values IH]; [by intros; constructor|]. rewrite fmap_cons, NoDup_cons, shown_cons.
  intros [Hf Hnd]. destruct (f.1.2 && is_empty f.2); [by apply IH|]. cbn. constructor; [|by apply IH].
  intros Hin. apply Hf. by apply shown_tags.
Qed.

Lemma json_lookup_cons t v l key : json_lookup key ((t, v) :: l) = if t ==s key then Some v else json_lookup key l.
Proof. unfold json_lookup. cbn. by destruct (t ==s key). Qed.
Lemma json_lookup_none l key : key ∉ l.*1 -> json_lookup key l = None.
Proof.
  induction l as [|[t v] l IH]; [done|]. rewrite json_lookup_cons. cbn. rewrite elem_of_cons. intros Hn.
  rewrite bool_decide_eq_false_2 by (intros ->; apply Hn; by left). apply IH. tauto.
Qed.

(** The field of a struct, as the encoding shows it. *)
Lemma lookup_shown values tag omit v :
  NoDup ((fun f => f.1.1) <$> values) -> (tag, omit, v) ∈ values ->
  json_lookup tag (shown values) = if omit && is_empty v then None else Some v.
Proof.
  induction values as [|[[t o] x] values IH]; [by intros _ ?%not_elem_of_nil|].
  rewrite fmap_cons, NoDup_cons, shown_cons, elem_of_cons. cbn [fst snd]. intros [Hf Hnd] [[= -> -> ->]|Hin].
  - destruct (o && is_empty x); [apply json_lookup_none; intros Hin; apply Hf; by apply shown_tags|].
    rewrite json_lookup_cons. by rewrite bool_decide_eq_true_2.
  - rewrite <- (IH Hnd Hin). destruct (o && is_empty x); [done|]. rewrite json_lookup_cons, bool_decide_eq_false_2; [done|].
    intros ->. apply Hf. apply list_elem_of_fmap. by exists (tag, omit, v).
Qed.

(** A field's value has its type, and what the encoding may omit the struct may, too. *)
Definition fits (f : string * bool * ty) (e : string * bool * json) : Prop :=
  f.1.1 = e.1.1 /\ (e.1.2 = true -> f.1.2 = true) /\ has_type f.2 e.2 = true.

Lemma fits_tags fields values : Forall2 fits fields values -> (fun f => f.1.1) <$> fields = (fun f => f.1.1) <$> values.
Proof. induction 1 as [|f e fields values (Ht & _ & _) _ IH]; [done|]. rewrite !fmap_cons. by rewrite Ht, IH. Qed.

Lemma record_typed fields values :
  NoDup ((fun f => f.1.1) <$> fields) -> Forall2 fits fields values -> has_type (TRec fields) (record values) = true.
Proof.
  intros Hnd Hfits. pose proof (fits_tags _ _ Hfits) as Htags. change (record values) with (JObj (shown values)).
  cbn [has_type]. rewrite !andb_true_iff. split_and!.
  - apply bool_decide_eq_true. apply shown_NoDup. by rewrite <- Htags.
  - apply forallb_forall. intros [t v] Hin%list_elem_of_In. apply slices_Contains_spec. rewrite Htags.
    apply shown_tags. apply list_elem_of_fmap. by exists (t, v).
  - apply forallb_forall. intros [[t o] ft] Hin%list_elem_of_In.
    apply list_elem_of_lookup in Hin as [i Hi]. destruct (Forall2_lookup_l _ _ _ _ _ Hfits Hi) as ([[t' o'] v] & Hv & Ht & Ho & Hty).
    cbn in Ht, Ho, Hty. subst t'. rewrite (lookup_shown values t o' v).
    + destruct (o' && is_empty v) eqn:E; [apply andb_true_iff in E as [-> _]; by apply Ho|done].
    + by rewrite <- Htags.
    + by eapply list_elem_of_lookup_2.
Qed.

Lemma list_typed {A} t (f : A -> json) l : (forall x, has_type t (f x) = true) -> has_type (TList t) (JArr (f <$> l)) = true.
Proof. intros Hf. cbn. apply forallb_forall. intros j Hj%list_elem_of_In. apply list_elem_of_fmap in Hj as (x & -> & _). apply Hf. Qed.
Lemma strs_typed l : has_type (TList TStr) (strs l) = true.
Proof. by apply list_typed. Qed.
Lemma str_map_typed m : has_type TMap (str_map m) = true.
Proof.
  unfold str_map. cbn [has_type]. apply andb_true_iff. split.
  - apply bool_decide_eq_true. rewrite <- list_fmap_compose. apply NoDup_fst_map_to_list.
  - apply forallb_forall. intros [k v] Hin%list_elem_of_In. by apply list_elem_of_fmap in Hin as ([? ?] & [= -> ->] & _).
Qed.

(** A struct of given fields, whose tags are all different. *)
Ltac typed_tac :=
  repeat first
    [ apply record_typed; [apply (bool_decide_unpack _); reflexivity|]
    | constructor | split_and! | apply strs_typed | apply str_map_typed | apply list_typed; intros ?
    | reflexivity | (intros ?; discriminate) | (intros; reflexivity) ].

Lemma request_typed r : has_type (TRec [required "name" TStr; required "id" TInt; required "requested" TInt]) (encode_request r) = true.
Proof. typed_tac. Qed.

Lemma profile_typed r : has_type (TRec [required "name" TStr; required "id" TInt; required "available" TInt;
  required "total" TInt; omitempty "vGPUID" (TList TStr)]) (encode_profile r) = true.
Proof. typed_tac. Qed.

Section Typed.
Variable encode_meta : ObjectMeta -> json.

Lemma encode_typed (k : Kind) (t : ty) (o : Obj k) :
  schema_of k = Some t -> has_type t (encode encode_meta o) = true.
Proof.
  destruct k; intros [= <-]; unfold encode; cbn [encode_fields];
    (apply record_typed; [apply (bool_decide_unpack _); reflexivity|]); typed_tac.
Qed.
End Typed.

(** ** The resource definitions *)
Record column := { col_Name : string; col_JSONPath : string }.
Record CRD := {
  crd_Group : string;
  crd_Version : string;
  crd_SchemaObject : Kind;
  crd_NonNamespace : bool;
  crd_Status : bool;
  crd_Columns : list column
}.

(** [crd.CRD] of the wrangler library and its [WithColumn]. *)
Definition WithColumn (name path : string) (c : CRD) : CRD :=
  {| crd_Group := crd_Group c; crd_Version := crd_Version c; crd_SchemaObject := crd_SchemaObject c;
     crd_NonNamespace := crd_NonNamespace c; crd_Status := crd_Status c;
     crd_Columns := crd_Columns c ++ [{| col_Name := name; col_JSONPath := path |}] |}.
Definition NonNamespaced (c : CRD) : CRD :=
  {| crd_Group := crd_Group c; crd_Version := crd_Version c; crd_SchemaObject := crd_SchemaObject c;
     crd_NonNamespace := true; crd_Status := crd_Status c; crd_Columns := crd_Columns c |}.
Definition WithoutStatus (c : CRD) : CRD :=
  {| crd_Group := crd_Group c; crd_Version := crd_Version c; crd_SchemaObject := crd_SchemaObject c;
     crd_NonNamespace := crd_NonNamespace c; crd_Status := false; crd_Columns := crd_Columns c |}.
Definition columns (l : list (string * string)) (c : CRD) : CRD :=
  fold_left (fun c p => WithColumn p.1 p.2 c) l c.

Definition newCRD (obj : Kind) (customize : option (CRD -> CRD)) : CRD :=
  let crd := {| crd_Group := "devices.harvesterhci.io"; crd_Version := "v1beta1"; crd_SchemaObject := obj;
                crd_NonNamespace := false; crd_Status := true; crd_Columns := [] |} in
  match customize with Some f => f crd | None => crd end.

(** The letters of one column's name are Greek, as in the source. *)
Definition List : list CRD :=
  [newCRD KPCIDevice (Some (fun c => columns
     [("Address", ".status.address"); ("Vendor Id", ".status.vendorId"); ("Device Id", ".status.deviceId");
      ("Node Name", ".status.nodeName"); ("Description", ".status.description");
      ("Kernel Driver In Use", ".status.kernelDriverInUse")] (NonNamespaced c)));
   newCRD KPCIDeviceClaim (Some (fun c => columns
     [("Address", ".spec.address"); ("Node Name", ".spec.nodeName"); ("User Name", ".spec.userName");
      ("Kernel Driver Το Unbind", ".status.kernelDriverToUnbind"); ("Passthrough Enabled", ".status.passthroughEnabled")]
     (NonNamespaced c)));
   newCRD KSRIOVNetworkDevice (Some (fun c => columns
     [("Address", ".spec.address"); ("Node Name", ".spec.nodeName"); ("NumVFs", ".spec.numVFs");
      ("VF Addresses", ".status.vfAddresses")] (NonNamespaced c)));
   newCRD KNode (Some (fun c => WithoutStatus (NonNamespaced c)));
   newCRD KSRIOVGPUDevice (Some (fun c => columns
     [("Address", ".spec.address"); ("Node Name", ".spec.nodeName"); ("Enabled", ".spec.enabled");
      ("VGPUDevices", ".status.vGPUDevices")] (NonNamespaced c)));
   newCRD KVGPUDevice (Some (fun c => columns
     [("Address", ".spec.address"); ("Node Name", ".spec.nodeName"); ("Enabled", ".spec.enabled");
      ("UUID", ".status.uuid"); ("VGPUType", ".status.configureVGPUTypeName");
      ("ParentGPUDevice", ".spec.parentGPUDeviceAddress")] (NonNamespaced c)));
   newCRD KUSBDevice (Some (fun c => columns
     [("Vendor ID", ".status.vendorID"); ("Product ID", ".status.productID"); ("Node Name", ".status.nodeName");
      ("Description", ".status.description"); ("Resource Name", ".status.resourceName");
      ("PCI Address", ".status.pciAddress"); ("Enabled", ".status.enabled")] (NonNamespaced c)));
   newCRD KUSBDeviceClaim (Some (fun c => columns
     [("Node Name", ".status.nodeName"); ("PCI Address", ".status.pciAddress"); ("User Name", ".spec.userName")]
     (NonNamespaced c)));
   newCRD KMigConfiguration (Some (fun c => columns
     [("Node Name", ".spec.nodeName"); ("Address", ".spec.gpuAddress"); ("Enabled", ".spec.enabled");
      ("Status", ".status.status"); ("Message", ".status.message")] (NonNamespaced c)))].

(** [Create] makes a factory of the wrangler library create all of them. *)
Definition crd_create {Mem W} (new_factory : M Mem W unit) (BatchCreateCRDs : list CRD -> M Mem W unit) : M Mem W unit :=
  new_factory ;;; BatchCreateCRDs List.

(** *** Printing them for the chart

    The conversions, the YAML and the file system are other modules'; the text chooses
    between the two versions by what the cluster has. *)
Section Printing.
Context {Y Mem W : Type} (ToCustomResourceDefinition ToCustomResourceDefinitionV1Beta1 : CRD -> outcome Y)
  (Export : list Y -> outcome string).

Definition Objects (v1beta1 : bool) : outcome (list Y) :=
  omapM (if v1beta1 then ToCustomResourceDefinitionV1Beta1 else ToCustomResourceDefinition) List.

Definition chart_if : string :=
  "{{- if .Capabilities.APIVersions.Has " +:+ quoted "apiextensions.k8s.io/v1" +:+ " -}}" +:+ newline.
Definition chart_else : string := "{{- else -}}" +:+ newline +:+ "---" +:+ newline.
Definition chart_end : string := "{{- end -}}".

Definition Print_text : outcome string :=
  obj <-o Objects false ;;
  data <-o Export obj ;;
  objV1Beta1 <-o Objects true ;;
  dataV1Beta1 <-o Export objV1Beta1 ;;
  Ok (chart_if +:+ data +:+ chart_else +:+ dataV1Beta1 +:+ chart_end).

Definition WriteFile (MkdirAll Create Close : string -> M Mem W unit) (write : string -> M Mem W unit)
    (filename : string) : M Mem W unit :=
  MkdirAll (Dir filename) ;;;
  Create filename ;;;
  defer (Close filename) (text <- lift_o Print_text ;; write text).
End Printing.

(** ** What the columns show *)
Definition field_path (path : string) : option (list string) :=
  match Split path "." with "" :: l => Some l | _ => None end.

Fixpoint resolve (t : ty) (path : list string) : option ty :=
  match path with
  | [] => Some t
  | tag :: rest =>
      match t with
      | TRec fields =>
          match List.find (fun f => f.1.1 ==s tag) fields with Some f => resolve f.2 rest | None => None end
      | _ => None
      end
  end.
Fixpoint json_path (j : json) (path : list string) : option json :=
  match path with
  | [] => Some j
  | tag :: rest => match member tag j with Some v => json_path v rest | None => None end
  end.

(** A value that a listing can print. *)
Definition printable (t : ty) : bool :=
  match t with TStr | TBool | TInt | TList TStr => true | _ => false end.

Lemma path_typed path t t' j v :
  has_type t j = true -> resolve t path = Some t' -> json_path j path = Some v -> has_type t' v = true.
Proof.
  revert t j. induction path as [|tag path IH]; intros t j Hj; cbn; [by intros [= <-] [= <-]|].
  destruct t; try done. destruct (List.find _ fields) as [[[tg o] t0]|] eqn:Ef; [|done]. cbn. intros Hres.
  destruct j; try done. cbn [member]. destruct (json_lookup tag l) as [v0|] eqn:El; [|done].
  apply (IH t0); [|done]. cbn [has_type] in Hj. apply andb_true_iff in Hj as [_ Hf]. rewrite forallb_forall in Hf.
  apply List.find_some in Ef as [Hin Htag%bool_decide_eq_true]. cbn in Htag. subst tg.
  specialize (Hf _ Hin). cbn in Hf. by rewrite El in Hf.
Qed.

(** The definition, against the struct. *)
Definition column_ok (t : ty) (col : column) : bool :=
  match field_path (col_JSONPath col) with
  | Some path => match resolve t path with Some t' => printable t' | None => false end
  | None => false
  end.
Definition crd_ok (crd : CRD) : bool :=
  crd_NonNamespace crd &&
  match schema_of (crd_SchemaObject crd) with
  | Some t => Bool.eqb (crd_Status crd) (match resolve t ["status"] with Some _ => true | None => false end) &&
              forallb (column_ok t) (crd_Columns crd)
  | None => false
  end.

Lemma crd_ok_spec crd : crd_ok crd = true -> crd_NonNamespace crd = true /\
  exists t, schema_of (crd_SchemaObject crd) = Some t /\
    (crd_Status crd = true <-> is_Some (resolve t ["status"])) /\
    forall col, col ∈ crd_Columns crd -> exists path t', field_path (col_JSONPath col) = Some path /\
      resolve t path = Some t' /\ printable t' = true.
Proof.
  unfold crd_ok. rewrite andb_true_iff. intros [Hn Hc]. split; [done|].
  destruct (schema_of _) as [t|]; [|done]. exists t. rewrite andb_true_iff, forallb_forall in Hc.
  destruct Hc as [Hs%Bool.eqb_prop Hcols]. split; [done|]. split.
  - rewrite Hs. destruct (resolve t ["status"]); split; try done.
  - intros col Hcol%list_elem_of_In. specialize (Hcols col Hcol). unfold column_ok in Hcols.
    destruct (field_path _) as [path|]; [|done]. destruct (resolve t path) as [t'|] eqn:E; [|done]. by exists path, t'.
Qed.

Lemma every_crd_ok : forallb crd_ok List = true.
Proof. vm_compute. reflexivity. Qed.

Section Columns.
Variable encode_meta : ObjectMeta -> json.

(** C1: each kind of the API has one resource definition, cluster-wide and with a status of
    its own when the struct has one, and each column of its listing names a field of the
    struct: in the stored form of any object the column's path leads to a value of
    that field's type, which can be printed, or to a field that is left out because
    it is empty. *)
Theorem columns_typed :
  NoDup (crd_SchemaObject <$> List) /\
  (forall k, k ∈ crd_SchemaObject <$> List <-> is_Some (schema_of k)) /\
  forall crd, crd ∈ List -> crd_NonNamespace crd = true /\
    exists t, schema_of (crd_SchemaObject crd) = Some t /\
      (crd_Status crd = true <-> is_Some (resolve t ["status"])) /\
      forall col, col ∈ crd_Columns crd -> exists path t', field_path (col_JSONPath col) = Some path /\
        resolve t path = Some t' /\ printable t' = true /\
        forall (o : Obj (crd_SchemaObject crd)) v, json_path (encode encode_meta o) path = Some v -> has_type t' v = true.
Proof.
  assert (crd_SchemaObject <$> List = [KPCIDevice; KPCIDeviceClaim; KSRIOVNetworkDevice; KNode; KSRIOVGPUDevice; KVGPUDevice;
    KUSBDevice; KUSBDeviceClaim; KMigConfiguration]) as -> by reflexivity.
  split; [apply (bool_decide_unpack _); reflexivity|split].
  - intros k. destruct k; cbn; split; try done; try (intros _; apply (bool_decide_unpack _); reflexivity); try set_solver.
    all: by intros [].
  - intros crd Hcrd. pose proof every_crd_ok as Hall. rewrite forallb_forall in Hall.
    destruct (crd_ok_spec crd) as (Hn & t & Ht & Hs & Hcols); [by apply Hall, list_elem_of_In|].
    split; [done|]. exists t. split_and!; [done..|]. intros col Hcol.
    destruct (Hcols col Hcol) as (path & t' & Hp & Hres & Hpr). exists path, t'. split_and!; [done..|].
    intros o v. apply (path_typed path t); [by apply encode_typed|done].
Qed.
End Columns.

(** ** Reading back *)

(** What an empty slice or map is read back as. *)
Definition nil_if_empty {A} (l : option (list A)) : option (list A) :=
  match l with Some [] => None | _ => l end.
Definition nil_if_empty_map (m : option (gmap string string)) : option (gmap string string) :=
  if bool_decide (m = Some ∅) then None else m.

Definition decode_request (j : json) : MigProfileRequest :=
  {| mpr_Name := get_str "name" j; mpr_ID := get_int "id" j; mpr_Requested := get_int "requested" j |}.
Definition decode_profile (j : json) : MigProfileStatus :=
  {| mps_Name := get_str "name" j; mps_ID := get_int "id" j; mps_Available := get_int "available" j;
     mps_Total := get_int "total" j; mps_VGPUID := default [] (get_strs "vGPUID" j) |}.
Definition get_structs {A} (read : json -> A) (key : string) (j : json) : option (list A) :=
  match get_list key j with Some l => Some (List.map read l) | None => None end.

(** An object of one of the API's kinds with this metadata. *)
Definition decode (k : Kind) (m : ObjectMeta) (j : json) : option (Obj k) :=
  let sp := get_struct "spec" j in
  let st := get_struct "status" j in
  match k return option (Obj k) with
  | KPCIDevice => Some
      {| pd_meta := m;
         pd_Status := {| pd_Address := get_str "address" st; pd_VendorID := get_str "vendorId" st;
           pd_DeviceID := get_str "deviceId" st; pd_ClassID := get_str "classId" st; pd_IOMMUGroup := get_str "iommuGroup" st;
           pd_NodeName := get_str "nodeName" st; pd_ResourceName := get_str "resourceName" st;
           pd_Description := get_str "description" st; pd_KernelDriverInUse := get_str "kernelDriverInUse" st |} |}
  | KPCIDeviceClaim => Some
      {| pdc_meta := m;
         pdc_Spec := {| pdc_Address := get_str "address" sp; pdc_NodeName := get_str "nodeName" sp;
           pdc_UserName := get_str "userName" sp; pdc_DisableResourcePooling := get_bool "disableResourcePooling" sp |};
         pdc_Status := {| pdc_KernelDriverToUnbind := get_str "kernelDriverToUnbind" st;
           pdc_PassthroughEnabled := get_bool "passthroughEnabled" st |} |}
  | KSRIOVNetworkDevice => Some
      {| sn_meta := m;
         sn_Spec := {| sn_Address := get_str "address" sp; sn_NodeName := get_str "nodeName" sp; sn_NumVFs := get_int "numVFs" sp |};
         sn_Status := {| sn_VFAddresses := get_strs "vfAddresses" st; sn_VFPCIDevices := get_strs "vfPCIDevices" st;
           sn_status := get_str "status" st |} |}
  | KSRIOVGPUDevice => Some
      {| gpu_meta := m;
         gpu_Spec := {| gpu_Address := get_str "address" sp; gpu_NodeName := get_str "nodeName" sp;
           gpu_Enabled := get_bool "enabled" sp |};
         gpu_Status := {| gpu_VFAddresses := get_strs "vfAddresses" st; gpu_VGPUDevices := get_strs "vGPUDevices" st |} |}
  | KVGPUDevice => Some
      {| vgpu_meta := m;
         vgpu_Spec := {| vgpu_VGPUTypeName := get_str "vGPUTypeName" sp; vgpu_Address := get_str "address" sp;
           vgpu_Enabled := get_bool "enabled" sp; vgpu_NodeName := get_str "nodeName" sp;
           vgpu_ParentGPUDeviceAddress := get_str "parentGPUDeviceAddress" sp |};
         vgpu_Status := {| vgpu_VGPUStatus := get_str "vGPUStatus" st; vgpu_UUID := get_str "uuid" st;
           vgpu_ConfiguredVGPUTypeName := get_str "configureVGPUTypeName" st;
           vgpu_AvailableTypes := get_map "availableTypes" st |} |}
  | KUSBDevice => Some
      {| usb_meta := m;
         usb_Status := {| usb_VendorID := get_str "vendorID" st; usb_ProductID := get_str "productID" st;
           usb_NodeName := get_str "nodeName" st; usb_ResourceName := get_str "resourceName" st;
           usb_DevicePath := get_str "devicePath" st; usb_Description := get_str "description" st;
           usb_PCIAddress := get_str "pciAddress" st; usb_ClassType := get_str "classType" st;
           usb_Enabled := get_bool "enabled" st; usb_status := get_str "status" st; usb_Message := get_str "message" st |} |}
  | KUSBDeviceClaim => Some
      {| uc_meta := m; uc_UserName := get_str "userName" sp;
         uc_Status := {| uc_NodeName := get_str "nodeName" st; uc_PCIAddress := get_str "pciAddress" st |} |}
  | KNode => Some {| node_meta := m |}
  | KMigConfiguration => Some
      {| mig_meta := m;
         mig_Spec := {| mig_Enabled := get_bool "enabled" sp; mig_GPUAddress := get_str "gpuAddress" sp;
           mig_NodeName := get_str "nodeName" sp; mig_ProfileSpec := get_structs decode_request "profileSpec" sp |};
         mig_Status := {| mig_ProfileStatus := get_structs decode_profile "profileStatus" st;
           mig_status := get_str "status" st; mig_Message := get_str "message" st |} |}
  | _ => None
  end.

(** The object as it comes back: empty slices and maps have become nil. *)
Definition stored {k : Kind} : Obj k -> Obj k :=
  match k return Obj k -> Obj k with
  | KSRIOVNetworkDevice => fun o =>
      {| sn_meta := sn_meta o; sn_Spec := sn_Spec o;
         sn_Status := {| sn_VFAddresses := nil_if_empty (sn_VFAddresses (sn_Status o));
           sn_VFPCIDevices := nil_if_empty (sn_VFPCIDevices (sn_Status o)); sn_status := sn_status (sn_Status o) |} |}
  | KSRIOVGPUDevice => fun o =>
      {| gpu_meta := gpu_meta o; gpu_Spec := gpu_Spec o;
         gpu_Status := {| gpu_VFAddresses := nil_if_empty (gpu_VFAddresses (gpu_Status o));
           gpu_VGPUDevices := nil_if_empty (gpu_VGPUDevices (gpu_Status o)) |} |}
  | KVGPUDevice => fun o =>
      {| vgpu_meta := vgpu_meta o; vgpu_Spec := vgpu_Spec o;
         vgpu_Status := {| vgpu_VGPUStatus := vgpu_VGPUStatus (vgpu_Status o); vgpu_UUID := vgpu_UUID (vgpu_Status o);
           vgpu_ConfiguredVGPUTypeName := vgpu_ConfiguredVGPUTypeName (vgpu_Status o);
           vgpu_AvailableTypes := nil_if_empty_map (vgpu_AvailableTypes (vgpu_Status o)) |} |}
  | KMigConfiguration => fun o =>
      {| mig_meta := mig_meta o;
         mig_Spec := {| mig_Enabled := mig_Enabled (mig_Spec o); mig_GPUAddress := mig_GPUAddress (mig_Spec o);
           mig_NodeName := mig_NodeName (mig_Spec o); mig_ProfileSpec := nil_if_empty (mig_ProfileSpec (mig_Spec o)) |};
         mig_Status := {| mig_ProfileStatus := nil_if_empty (mig_ProfileStatus (mig_Status o));
           mig_status := mig_status (mig_Status o); mig_Message := mig_Message (mig_Status o) |} |}
  | _ => fun o => o
  end.

Section Fields.
Context (values : list (string * bool * json)) (Hnd : NoDup ((fun f => f.1.1) <$> values)).

Lemma member_record tag o v : (tag, o, v) ∈ values ->
  member tag (record values) = if o && is_empty v then None else Some v.
Proof. apply (lookup_shown values tag o v Hnd). Qed.

Lemma get_str_record tag o s : (tag, o, JStr s) ∈ values -> get_str tag (record values) = s.
Proof.
  intros Hin. unfold get_str. rewrite (member_record _ _ _ Hin). destruct o; [|done]. cbn. by case_bool_decide.
Qed.
Lemma get_bool_record tag o b : (tag, o, JBool b) ∈ values -> get_bool tag (record values) = b.
Proof. intros Hin. unfold get_bool. rewrite (member_record _ _ _ Hin). by destruct o, b. Qed.
Lemma get_int_record tag z : (tag, false, JNum z) ∈ values -> get_int tag (record values) = z.
Proof. intros Hin. unfold get_int. by rewrite (member_record _ _ _ Hin). Qed.
Lemma get_struct_record tag v : (tag, false, v) ∈ values -> get_struct tag (record values) = v.
Proof. intros Hin. unfold get_struct. by rewrite (member_record _ _ _ Hin). Qed.
Lemma get_strs_record tag l : (tag, true, strs l) ∈ values -> get_strs tag (record values) = nil_if_empty l.
Proof.
  intros Hin. unfold get_strs, get_list. rewrite (member_record _ _ _ Hin). destruct l as [[|x l]|]; [done| |done].
  cbn. do 2 f_equal. rewrite List.map_map. apply List.map_id.
Qed.
Lemma get_structs_record {A} (read : json -> A) (show : A -> json) tag l :
  (forall x, read (show x) = x) -> (tag, true, JArr (show <$> default [] l)) ∈ values ->
  get_structs read tag (record values) = nil_if_empty l.
Proof.
  intros Hread Hin. unfold get_structs, get_list. rewrite (member_record _ _ _ Hin). destruct l as [[|x l]|]; [done| |done].
  cbn. rewrite Hread. do 2 f_equal. rewrite List.map_map. erewrite List.map_ext; [apply List.map_id|done].
Qed.
Lemma get_map_record tag m : (tag, true, str_map m) ∈ values -> get_map tag (record values) = nil_if_empty_map m.
Proof.
  intros Hin. unfold get_map. rewrite (member_record _ _ _ Hin). unfold nil_if_empty_map, str_map.
  destruct m as [m|]; cbn [from_option id]; [|by vm_compute].
  destruct (decide (m = ∅)) as [->|Hne].
  - rewrite map_to_list_empty. cbn. by rewrite bool_decide_eq_true_2.
  - rewrite (bool_decide_eq_false_2 (Some m = Some ∅)) by (intros [= ->]; done). cbn [is_empty andb].
    rewrite bool_decide_eq_false_2; [|by intros Hnil%fmap_nil_inv%map_to_list_empty_iff]. f_equal.
    rewrite <- list_fmap_compose. etransitivity; [|apply list_to_map_to_list]. f_equal. etransitivity; [|apply list_fmap_id].
    apply list_fmap_ext. by intros ? [].
Qed.
End Fields.

(** A field of an encoded struct. *)
Ltac here := repeat first [by left | right].
Ltac distinct := apply (bool_decide_unpack _); reflexivity.
Ltac read_field :=
  first
    [ eapply get_str_record; [distinct|here] | eapply get_bool_record; [distinct|here]
    | eapply get_int_record; [distinct|here] | eapply get_strs_record; [distinct|here]
    | eapply get_map_record; [distinct|here] ].

Lemma decode_request_encode r : decode_request (encode_request r) = r.
Proof. destruct r. unfold decode_request, encode_request. f_equal; read_field. Qed.
Lemma decode_profile_encode r : decode_profile (encode_profile r) = r.
Proof.
  destruct r as [n i a t ids]. unfold decode_profile, encode_profile. cbn [mps_Name mps_ID mps_Available mps_Total mps_VGPUID].
  f_equal; try read_field. erewrite get_strs_record; [|distinct|here]. by destruct ids.
Qed.

Section RoundTrip.
Variable encode_meta : ObjectMeta -> json.

(** An object of the API is read back from its stored form as it was written, except
    that its empty slices and maps have become nil, which [reflect.DeepEqual] tells
    apart. *)
Theorem stored_roundtrip (k : Kind) (o : Obj k) :
  decode k (meta_of o) (encode encode_meta o) = match schema_of k with Some _ => Some (stored o) | None => None end.
Proof.
  destruct k; try reflexivity; cbn [schema_of decode]; f_equal; unfold encode, encode_fields;
    repeat (erewrite get_struct_record; [|distinct|here]); destruct o; cbn [stored meta_of]; f_equal;
    try read_field;
    try (match goal with |- _ = ?st => is_var st; destruct st end); cbn; f_equal; try read_field;
    try (match goal with |- _ = ?st => is_var st; destruct st end; cbn; f_equal; read_field).
  - apply get_structs_record with (show := encode_request); [distinct|apply decode_request_encode|here].
  - apply get_structs_record with (show := encode_profile); [distinct|apply decode_profile_encode|here].
Qed.
End RoundTrip.
