(* ===== verification/Nodes.v ===== *)
(** * The pass over a node (pkg/controller/nodes/node_controller.go)

    Every thirty seconds the node controller runs, one after the other, the passes
    that keep the objects of the node's devices: PCI devices, USB devices, SR-IOV
    cards, GPUs and vGPUs; then the label of the node that asks for the NVIDIA
    driver.  The passes are those of the other components, each in its own memory. *)

From S2P Require Import Prelude GoStrings GoMonad Types Effects Common Iommu NicHelper PCIDeviceController SRIOV USBHelper UsbIds USBController GPUHelper GPUController VGPUController Sim.

Definition defaultRequeuePeriod : Z := 30.

(** A computation on a part of a larger memory. *)
Definition with_mem {Mem Mem' W A} (get : Mem' -> Mem) (put : Mem -> Mem' -> Mem') (m : M Mem W A) : M Mem' W A :=
  fun s =>
    let '(o, s1) := m (State (get (mem s)) (world s)) in
    (o, State (put (mem s1) (mem s)) (world s1)).

(** The name of the node, and the vGPUs in the cache. *)
Record NodeHandler := { nh_nodeName : string; nh_vgpus : gmap string VGPUDevice }.

(** The memory of the GPU helper that each pass makes anew, with a local executor:
    the two operations that the pass calls run no command and keep the executor, so
    both can start from a new one. *)
Definition gpu_handler (h : NodeHandler) : GPUController.Handler :=
  {| h_nodeName := nh_nodeName h; h_executor := LocalExecutor; h_vgpus := nh_vgpus h |}.
Definition set_gpu_handler (g : GPUController.Handler) (h : NodeHandler) : NodeHandler :=
  {| nh_nodeName := nh_nodeName h; nh_vgpus := h_vgpus g |}.

Definition set_node_labels (l : gmap string string) (n : CoreNode) : CoreNode :=
  {| cn_meta := set_Labels l (cn_meta n) |}.

(** The node's labels when it has ([gpus]) SR-IOV GPUs or none; a label that is there
    keeps its value. *)
Definition relabelled (gpus : bool) (labels : gmap string string) : gmap string string :=
  match labels !! NvidiaDriverNeededKey with
  | Some _ => if gpus then labels else delete NvidiaDriverNeededKey labels
  | None => if gpus then <[NvidiaDriverNeededKey := "true"]> labels else labels
  end.

Section Handlers.
Context `{External} `{MapOrder} {W : Type} `{World W} (Vendors : gmap Z Vendor).

(** The node is changed in the cache before it is sent. *)
Definition checkAndUpdateNodeLabels {Mem} (nodeName : string) : M Mem W unit :=
  existingGPUs <- eff (CacheList KSRIOVGPUDevice {[ NodeKeyName := nodeName ]}) ;;
  nodeObj <- eff (CacheGet KCoreNode "" nodeName) ;;
  let labels := m_Labels (cn_meta nodeObj) in
  let labels' := relabelled (negb (bool_decide (existingGPUs = []))) labels in
  if bool_decide (labels' = labels) then ret tt
  else
    eff (CacheWrite KCoreNode (set_node_labels labels' nodeObj)) ;;;
    eff (ApiUpdate KCoreNode (set_node_labels labels' nodeObj)) ;;;
    ret tt.

Definition SetupNodeObjects {Mem} (nodeName : string) : M Mem W unit :=
  r <- try (eff (CacheGet KNode "" nodeName)) ;;
  match r with
  | inl err => if IsNotFound err
               then eff (ApiCreate KNode {| node_meta := new_meta nodeName ∅ ∅ |}) ;;; ret tt
               else fail err
  | inr _ => ret tt
  end.

#[local] Abbreviation M := (M NodeHandler W).

(** The passes, in order; the first that fails ends them. *)
Definition node_passes (nodeName : string) : M unit :=
  pci <- on_err (fun _ => Errorf "error listing pcidevices") (eff GhwPCI) ;;
  skipAddresses <- on_err (fun _ => Errorf "error identifying management nics")
    (IdentifyHarvesterManagedNIC nodeName) ;;
  on_err (fun _ => Errorf "error reconciling pcidevices for node")
    (ReconcilePCIDevices pci (skipAddresses ++ IdentifyPCIBridgeDevices pci) nodeName) ;;;
  on_err (fun _ => Errorf "error reconciling usbdevices for node") (Reconcile Vendors nodeName) ;;;
  on_err (fun _ => Errorf "error setting up sriov devices for node")
    (with_mem nh_nodeName (fun _ h => h) SetupSriovDevices) ;;;
  on_err (fun _ => Errorf "error setting up SRIOV GPU devices for node")
    (with_mem gpu_handler set_gpu_handler SetupSRIOVGPUDevices) ;;;
  on_err (fun _ => Errorf "error setting VGPU devices for node")
    (with_mem gpu_handler set_gpu_handler SetupVGPUDevices) ;;;
  on_err (fun _ => Errorf "error updating node labels for node") (checkAndUpdateNodeLabels nodeName).

Definition reconcileNodeDevices (name : string) (o : option Node) : M (option Node) :=
  match o with
  | None => ret None
  | Some node =>
      h <- get_mem ;;
      if m_DeletionTimestamp (node_meta node) || (m_Name (node_meta node) !=s nh_nodeName h) then ret o
      else
        node_passes (nh_nodeName h) ;;;
        eff (EnqueueAfter KNode name defaultRequeuePeriod) ;;;
        ret o
  end.
End Handlers.

(** ** What a pass may do *)

(** A pass creates and updates the statuses of devices' objects, of PCI devices only
    those that [ok] holds of; it deletes such objects and claims of USB devices, and
    updates PCI devices and the cluster's node; it writes no file, runs no command,
    loads no module, takes no lock and
    queues nothing for later. *)
Definition node_event (ok : PCIDevice -> Prop) (ev : event) : Prop :=
  match ev with
  | Ev e _ =>
      match e with
      | ApiCreate k o | ApiUpdateStatus k o =>
          match k return Obj k -> Prop with
          | KPCIDevice => ok
          | KUSBDevice | KSRIOVNetworkDevice | KSRIOVGPUDevice | KVGPUDevice => fun _ => True
          | _ => fun _ => False
          end o
      | ApiUpdate k _ | CacheWrite k _ => k = KPCIDevice \/ k = KCoreNode
      | ApiDelete k _ =>
          match k with
          | KPCIDevice | KUSBDevice | KSRIOVNetworkDevice | KSRIOVGPUDevice | KVGPUDevice | KUSBDeviceClaim => True
          | _ => False
          end
      | FsOpenWrite _ | FsWrite _ _ | FsWriteFile _ _ | FsRemove _ => False
      | ModProbe _ | ExecRun _ _ _ | LockAcquire _ | EnqueueAfter _ _ _ => False
      | _ => True
      end
  end.

#[local] Hint Extern 3 (Steps (emits (node_event _)) (eff _)) =>
  apply Steps_emits_eff; intros; simpl; tauto : pcidev.

(** The passes in their order: of which kinds each changes objects, and its error. *)
Definition node_order : list (list Kind * string) :=
  [([], "error listing pcidevices");
   ([], "error identifying management nics");
   ([KPCIDevice], "error reconciling pcidevices for node");
   ([KUSBDevice; KUSBDeviceClaim], "error reconciling usbdevices for node");
   ([KSRIOVNetworkDevice], "error setting up sriov devices for node");
   ([KSRIOVGPUDevice], "error setting up SRIOV GPU devices for node");
   ([KVGPUDevice; KPCIDevice], "error setting VGPU devices for node");
   ([KCoreNode], "error updating node labels for node")].

Definition changes_only (kinds : list Kind) (ev : event) : Prop :=
  match ev with
  | Ev e _ => match e with
              | ApiCreate k _ | ApiUpdate k _ | ApiUpdateStatus k _ | ApiDelete k _ | CacheWrite k _ => k ∈ kinds
              | _ => True
              end
  end.

(** The events are those of passes made one after the other, up to one that fails,
    whose error is the result, or to the end. *)
Inductive in_order : list (list Kind * string) -> list event -> outcome unit -> Prop :=
| order_done : in_order [] [] (Ok tt)
| order_failed kinds msg rest evs o :
    Forall (changes_only kinds) evs -> o = Err (Errorf msg) \/ (exists p, o = Panic p) ->
    in_order ((kinds, msg) :: rest) evs o
| order_passed kinds msg rest evs evs' o :
    Forall (changes_only kinds) evs -> in_order rest evs' o ->
    in_order ((kinds, msg) :: rest) (evs ++ evs') o.

#[local] Hint Extern 3 (Steps (emits (changes_only _)) (eff _)) =>
  apply Steps_emits_eff; intros; unfold changes_only; rewrite ?elem_of_cons; tauto : pcidev.

Section Passes.
Context `{External} `{MapOrder} {W : Type} `{World W} (Vendors : gmap Z Vendor).
Implicit Types (ok : PCIDevice -> Prop).

Lemma with_mem_emits {Mem Mem' A} P (get : Mem' -> Mem) put (m : M Mem (Logged W) A) :
  Steps (emits P) m -> Steps (emits P) (with_mem get put m).
Proof.
  intros Hm s. unfold with_mem. specialize (Hm (State (get (mem s)) (world s))).
  destruct (m _) as [o s1]. exact Hm.
Qed.

Lemma nic_steps {Mem} ok node : Steps (@emits Mem W (node_event ok)) (IdentifyHarvesterManagedNIC node).
Proof.
  unfold IdentifyHarvesterManagedNIC, IdentifyManagementNics, identifyClusterNetworks, ListNICSInUseBySRIOV,
    IsNICSRIOVCapable, nic_CurrentVFConfigured. steps_tac.
Qed.

Lemma first_interface_steps {Mem} ok path entries :
  Steps (@emits Mem W (node_event ok)) (first_interface_class path entries).
Proof.
  induction entries as [|[name isDir] entries IH]; simpl; [steps_tac|].
  unfold parseClassCode, readSysfsString. destruct (_ || _); [done|]. by steps_tac.
Qed.

Lemma first_interface_order {Mem} kinds path entries :
  Steps (@emits Mem W (changes_only kinds)) (first_interface_class path entries).
Proof.
  induction entries as [|[name isDir] entries IH]; simpl; [steps_tac|].
  unfold parseClassCode, readSysfsString. destruct (_ || _); [done|]. by steps_tac.
Qed.

Lemma usb_steps {Mem} ok node : Steps (@emits Mem W (node_event ok)) (Reconcile Vendors node).
Proof.
  unfold Reconcile, handleList, handle_create, handle_orphan, WalkUSBDevices, visit_usb, parseSysUeventFile,
    parseUSBClassType. steps_tac; try (unfold parseClassCode, readSysfsString; by steps_tac).
  apply first_interface_steps.
Qed.

(** What two lemmas say of the events of one run holds of each of them. *)
Lemma emits_and {Mem} (P Q : event -> Prop) (s s' : state Mem (Logged W)) :
  emits P s s' -> emits Q s s' -> emits (fun ev => P ev /\ Q ev) s s'.
Proof.
  intros (e1 & Hl1 & F1) (e2 & Hl2 & F2). rewrite Hl1 in Hl2. apply app_inv_head in Hl2 as ->.
  exists e2. split; [done|]. by apply Forall_and.
Qed.

(** The object is of a device that ghw reports and that is not to be skipped. *)
Definition pci_object (devices : list pci_Device) (skip : list string) (node : string) (o : PCIDevice) : Prop :=
  exists dev, dev ∈ devices /\ pci_Address dev ∉ skip /\
    pd_Address (pd_Status o) = pci_Address dev /\ pd_NodeName (pd_Status o) = node.

Lemma pass_node devices skip node ev :
  node_event (fun _ => True) ev /\ pass_events devices skip node ev ->
  node_event (pci_object devices skip node) ev.
Proof.
  destruct ev as [X e r]. intros [Hn Hp]. revert Hn Hp. destruct e; simpl; try done; destruct k; try done.
  intros _ (dev & Hdev & Hskip & _ & Ha). by exists dev.
Qed.

Lemma pci_steps {Mem} devices skip node :
  Steps (@emits Mem W (node_event (pci_object devices skip node))) (ReconcilePCIDevices devices skip node).
Proof.
  assert (Steps (@emits Mem W (node_event (fun _ => True))) (ReconcilePCIDevices devices skip node)) as Hnode.
  { unfold ReconcilePCIDevices, reconcile_devices, GroupPaths, group_devices, reconcile_device, get_or_create,
      QuerySRIOVNetworkDeviceOwnership. steps_tac. }
  assert (Steps (@emits Mem W (pass_events devices skip node)) (ReconcilePCIDevices devices skip node)) as Hpass.
  { unfold ReconcilePCIDevices. apply Steps_bind; [typeclasses eauto| |].
    - intros s. eapply emits_weaken; [|apply Steps_reconcile_devices]. by intros ev [].
    - intros labels. apply Steps_bind; [typeclasses eauto|by apply Steps_emits_eff|]. intros pds.
      apply Steps_for_each; [typeclasses eauto|]. intros pd _. by apply Steps_emits_eff. }
  intros s. eapply emits_weaken; [apply pass_node|]. by apply emits_and.
Qed.

Lemma sriov_steps ok : Steps (@emits NodeName W (node_event ok)) SetupSriovDevices.
Proof.
  unfold SetupSriovDevices, create_new, delete_old, GenerateSRIOVNics, identifyClusterNetworks, IdentifyManagementNics,
    generateSRIOVDeviceObjects, IsNICSRIOVCapable. steps_tac.
Qed.

Lemma gpu_status_steps {Mem} ok path host : Steps (@emits Mem W (node_event ok)) (GenerateGPUStatus path host).
Proof. unfold GenerateGPUStatus, CurrentVFConfigured, GetVFList, vf_of_dir. steps_tac. Qed.

Lemma gpu_steps ok : Steps (@emits GPUController.Handler W (node_event ok)) SetupSRIOVGPUDevices.
Proof.
  unfold SetupSRIOVGPUDevices, IdentifySRIOVGPU, IsDeviceSRIOVCapable, reconcileSRIOVGPUSetup, setup_gpu,
    createOrUpdateSRIOVGPUDevice, delete_gone_gpu. steps_tac; apply gpu_status_steps.
Qed.

Lemma vgpu_steps ok : Steps (@emits GPUController.Handler W (node_event ok)) SetupVGPUDevices.
Proof.
  unfold SetupVGPUDevices, IdentifyVGPU, generateVGPUDevice, evalPhysFn, FetchVGPUStatus, fetchCurrentVGPUType,
    fetchAvailableTypes, reconcileVGPUSetup, update_or_create, delete_if_gone, label_pci_device, write_status,
    vGPUCache_List, deref, isParentGPUEnabled. steps_tac.
Qed.

Lemma node_label_steps {Mem} ok node : Steps (@emits Mem W (node_event ok)) (checkAndUpdateNodeLabels node).
Proof. unfold checkAndUpdateNodeLabels. steps_tac. Qed.

(** The object is of a device that ghw reported to this pass, that is no bridge, and
    that is not a card of Harvester's own networks. *)
Definition offered (node : string) (evs : list event) (o : PCIDevice) : Prop :=
  exists devices managed dev (s1 s2 : state NodeHandler (Logged W)),
    Ev GhwPCI (inr devices) ∈ evs /\ IdentifyHarvesterManagedNIC node s1 = (Ok managed, s2) /\
    dev ∈ devices /\ (pci_ClassID dev +:+ pci_SubclassID dev) <> pciBridgeClassID /\ pci_Address dev ∉ managed /\
    pd_Address (pd_Status o) = pci_Address dev /\ pd_NodeName (pd_Status o) = node.

Lemma node_event_weaken ok1 ok2 ev : (forall o, ok1 o -> ok2 o) -> node_event ok1 ev -> node_event ok2 ev.
Proof. intros Hok. destruct ev as [X e r]. revert r. destruct e; intros r; simpl; try done; destruct k; auto. Qed.

Lemma bridge_skipped devices dev :
  dev ∈ devices -> (pci_ClassID dev +:+ pci_SubclassID dev) = pciBridgeClassID ->
  pci_Address dev ∈ IdentifyPCIBridgeDevices devices.
Proof.
  intros Hdev Hclass. unfold IdentifyPCIBridgeDevices. apply list_elem_of_fmap. exists dev. split; [done|].
  apply list_elem_of_In, filter_In. split; [by apply list_elem_of_In|]. by apply bool_decide_eq_true.
Qed.

Lemma passes_offered node s :
  exists evs, log_of (snd (node_passes Vendors node s)) = log_of s ++ evs /\ Forall (node_event (offered node evs)) evs.
Proof.
  unfold node_passes, bind at 1. destruct (eff_log GhwPCI s) as (r & w' & _ & Heff).
  unfold on_err at 1. rewrite Heff. destruct r as [e|devices].
  { eexists [_]. split; [done|]. by repeat constructor. }
  set (s1 := @State NodeHandler (Logged W) (mem s) (w', log_of s ++ [Ev GhwPCI (inr devices)])).
  change (State (mem s) _) with s1. unfold bind at 1. unfold on_err at 1.
  pose proof (nic_steps (Mem := NodeHandler) (fun _ => False) node s1) as (e1 & Hl1 & Hq1).
  assert (forall e2, Forall (node_event (offered node (Ev GhwPCI (inr devices) :: e1 ++ e2)))
    (Ev GhwPCI (inr devices) :: e1)) as Hpre.
  { intros e2. constructor; [done|]. eapply Forall_impl; [exact Hq1|]. intros ev. by apply node_event_weaken. }
  assert (log_of s1 = log_of s ++ [Ev GhwPCI (inr devices)]) as Hl0 by done.
  destruct (IdentifyHarvesterManagedNIC node s1) as [[managed|e|p] s2] eqn:Hnic; simpl in Hl1.
  2,3: exists (Ev GhwPCI (inr devices) :: e1); simpl; rewrite Hl1, Hl0, <- app_assoc;
    split; [done|]; by rewrite <- (app_nil_r e1) at 1.
  match goal with |- context [bind ?m ?f s2] => set (m2 := bind m f) end.
  assert (Steps (emits (node_event (pci_object devices (managed ++ IdentifyPCIBridgeDevices devices) node))) m2) as Hm2.
  { unfold m2. repeat (apply Steps_bind; [typeclasses eauto|apply Steps_on_err|intros _]).
    - apply pci_steps.
    - apply usb_steps.
    - apply with_mem_emits, sriov_steps.
    - apply with_mem_emits, gpu_steps.
    - apply with_mem_emits, vgpu_steps.
    - apply Steps_on_err, node_label_steps. }
  destruct (Hm2 s2) as (e2 & Hl2 & Hq2). exists ((Ev GhwPCI (inr devices) :: e1) ++ e2). split.
  - rewrite Hl2, Hl1, Hl0. by rewrite <- !app_assoc.
  - apply Forall_app. split; [apply Hpre|]. eapply Forall_impl; [exact Hq2|]. intros ev. apply node_event_weaken.
    intros o (dev & Hdev & Hskip & Haddr & Hnode). exists devices, managed, dev, s1, s2.
    rewrite not_elem_of_app in Hskip. destruct Hskip as [Hman Hbridge]. split_and!; try done; [left|].
    intros Hclass. by apply Hbridge, bridge_skipped.
Qed.

(** *** The order of the passes *)
Definition ordered {Mem} (passes : list (list Kind * string)) (m : M Mem (Logged W) unit) (s : state Mem (Logged W)) : Prop :=
  exists evs, log_of (snd (m s)) = log_of s ++ evs /\ in_order passes evs (fst (m s)).

Lemma ordered_bind {Mem A} kinds msg rest (m : M Mem (Logged W) A) (k : A -> M Mem (Logged W) unit) s :
  Steps (emits (changes_only kinds)) m -> (forall x s1, ordered rest (k x) s1) ->
  ordered ((kinds, msg) :: rest) (x <- on_err (fun _ => Errorf msg) m ;; k x) s.
Proof.
  intros Hm Hk. unfold ordered, bind, on_err. destruct (Hm s) as (evs & Hl & Hq).
  destruct (m s) as [[x|e|p] s1]; cbn [fst snd] in *.
  - destruct (Hk x s1) as (evs' & Hl' & Hq'). exists (evs ++ evs'). rewrite Hl', Hl, app_assoc.
    split; [done|]. by constructor.
  - exists evs. split; [done|]. apply order_failed; auto.
  - exists evs. split; [done|]. apply order_failed; eauto.
Qed.

Lemma ordered_last {Mem} kinds msg (m : M Mem (Logged W) unit) s :
  Steps (emits (changes_only kinds)) m -> ordered [(kinds, msg)] (on_err (fun _ => Errorf msg) m) s.
Proof.
  intros Hm. destruct (ordered_bind kinds msg [] m ret s Hm) as (evs & Hl & Hq).
  { intros [] s1. exists []. rewrite app_nil_r. split; [done|constructor]. }
  exists evs. unfold bind in *. destruct (on_err _ m s) as [[[]|e|p] s1]; auto.
Qed.

Lemma passes_ordered node (s : state NodeHandler (Logged W)) : ordered node_order (node_passes Vendors node) s.
Proof.
  unfold node_passes, node_order. repeat (apply ordered_bind; [|intros ? ?]); [..|apply ordered_last].
  - eauto with pcidev.
  - unfold IdentifyHarvesterManagedNIC, IdentifyManagementNics, identifyClusterNetworks, ListNICSInUseBySRIOV,
      IsNICSRIOVCapable, nic_CurrentVFConfigured. steps_tac.
  - unfold ReconcilePCIDevices, reconcile_devices, GroupPaths, group_devices, reconcile_device, get_or_create,
      QuerySRIOVNetworkDeviceOwnership. steps_tac.
  - unfold Reconcile, handleList, handle_create, handle_orphan, WalkUSBDevices, visit_usb, parseSysUeventFile,
      parseUSBClassType. steps_tac; try (unfold parseClassCode, readSysfsString; by steps_tac).
    apply first_interface_order.
  - apply with_mem_emits. unfold SetupSriovDevices, create_new, delete_old, GenerateSRIOVNics, identifyClusterNetworks,
      IdentifyManagementNics, generateSRIOVDeviceObjects, IsNICSRIOVCapable. steps_tac.
  - apply with_mem_emits. unfold SetupSRIOVGPUDevices, IdentifySRIOVGPU, IsDeviceSRIOVCapable, reconcileSRIOVGPUSetup,
      setup_gpu, createOrUpdateSRIOVGPUDevice, delete_gone_gpu, GenerateGPUStatus, CurrentVFConfigured, GetVFList,
      vf_of_dir. steps_tac.
  - apply with_mem_emits. unfold SetupVGPUDevices, IdentifyVGPU, generateVGPUDevice, evalPhysFn, FetchVGPUStatus,
      fetchCurrentVGPUType, fetchAvailableTypes, reconcileVGPUSetup, update_or_create, delete_if_gone,
      label_pci_device, write_status, vGPUCache_List, deref, isParentGPUEnabled. steps_tac.
  - unfold checkAndUpdateNodeLabels. steps_tac.
Qed.

End Passes.

(** ** The label of the node *)
Lemma relabelled_present gpus labels : is_Some (relabelled gpus labels !! NvidiaDriverNeededKey) <-> gpus = true.
Proof.
  unfold relabelled. destruct (labels !! NvidiaDriverNeededKey) eqn:E; destruct gpus; rewrite ?E, ?lookup_insert_eq,
    ?lookup_delete_eq; split; intros Hx; try done; by destruct Hx.
Qed.

Lemma relabelled_other gpus labels k : k <> NvidiaDriverNeededKey -> relabelled gpus labels !! k = labels !! k.
Proof.
  intros Hk. unfold relabelled. destruct (labels !! NvidiaDriverNeededKey), gpus; [done| |..|done].
  - by rewrite lookup_delete_ne.
  - by rewrite lookup_insert_ne.
Qed.

Lemma relabelled_idem gpus labels : relabelled gpus (relabelled gpus labels) = relabelled gpus labels.
Proof.
  unfold relabelled at 1. pose proof (relabelled_present gpus labels) as Hp.
  destruct (relabelled gpus labels !! NvidiaDriverNeededKey), gpus; try done.
  - exfalso. discriminate (proj1 Hp (ex_intro _ _ eq_refl)).
  - exfalso. by destruct (proj2 Hp eq_refl).
Qed.

Section Label.
Context {Mem W : Type} `{World W}.
Implicit Types (s t : state Mem W).

(** The node is labelled for the driver exactly when the cache has SR-IOV GPUs of
    the node, no other label changes, and it is sent only when the label
    changes.  It is changed in the cache first: whatever the API server answered to
    the update, a pass that finds the node as the first one left it in the cache
    succeeds without sending it again. *)
Theorem checkAndUpdateNodeLabels_spec (node : string) (gpus : list SRIOVGPUDevice) (obj : CoreNode) s s1 s2
    (Hlist : eff (CacheList KSRIOVGPUDevice {[ NodeKeyName := node ]}) s = (Ok gpus, s1))
    (Hget : eff (CacheGet KCoreNode "" node) s1 = (Ok obj, s2)) :
  let obj' := set_node_labels (relabelled (negb (bool_decide (gpus = []))) (m_Labels (cn_meta obj))) obj in
  (is_Some (m_Labels (cn_meta obj') !! NvidiaDriverNeededKey) <-> gpus <> []) /\
  (forall k, k <> NvidiaDriverNeededKey -> m_Labels (cn_meta obj') !! k = m_Labels (cn_meta obj) !! k) /\
  (m_Labels (cn_meta obj') = m_Labels (cn_meta obj) -> checkAndUpdateNodeLabels node s = (Ok tt, s2)) /\
  (m_Labels (cn_meta obj') <> m_Labels (cn_meta obj) ->
     checkAndUpdateNodeLabels node s =
       (eff (CacheWrite KCoreNode obj') ;;; eff (ApiUpdate KCoreNode obj') ;;; ret tt) s2) /\
  (forall t t1 t2, eff (CacheList KSRIOVGPUDevice {[ NodeKeyName := node ]}) t = (Ok gpus, t1) ->
     eff (CacheGet KCoreNode "" node) t1 = (Ok obj', t2) -> checkAndUpdateNodeLabels node t = (Ok tt, t2)).
Proof.
  set (has := negb (bool_decide (gpus = []))). intros obj'. split_and!.
  - unfold obj'. cbn [cn_meta set_node_labels m_Labels set_Labels]. rewrite relabelled_present. unfold has.
    destruct (bool_decide_reflect (gpus = [])) as [Hg|Hg]; cbn [negb]; split; intros Hx; try done; by rewrite Hg in Hx.
  - intros k Hk. by apply relabelled_other.
  - intros Hsame. unfold checkAndUpdateNodeLabels, bind at 1. rewrite Hlist. unfold bind. rewrite Hget. fold has.
    by rewrite bool_decide_eq_true_2.
  - intros Hdiff. unfold checkAndUpdateNodeLabels at 1, bind at 1. rewrite Hlist. unfold bind at 1. rewrite Hget. fold has.
    by rewrite bool_decide_eq_false_2.
  - intros t t1 t2 Htl Htg. unfold checkAndUpdateNodeLabels, bind at 1. rewrite Htl. unfold bind. rewrite Htg. fold has.
    rewrite bool_decide_eq_true_2; [done|]. unfold obj'. apply relabelled_idem.
Qed.
End Label.

(** ** The theorems at work *)

(** A node with a card, a bridge and a vGPU-capable GPU, in a cluster whose API server
    refuses every update of a node. *)
Record refusing := { r_sim : sim }.
#[local] Instance refusing_world : World refusing := fun X e w =>
  if match e with ApiUpdate KCoreNode _ => true | _ => false end then (inl (Errorf "conflict"), w)
  else let '(r, w') := perform e (r_sim w) in (r, {| r_sim := w' |}).

Definition demo_object (name : string) : ObjectMeta := new_meta name {[ "kubernetes.io/os" := "linux" ]} ∅.
Definition demo_cluster : sim :=
  put KSRIOVGPUDevice
    {| gpu_meta := new_meta "n1-000004000" {[ NodeKeyName := "n1" ]} ∅;
       gpu_Spec := {| gpu_Address := "0000:04:00.0"; gpu_NodeName := "n1"; gpu_Enabled := false |};
       gpu_Status := {| gpu_VFAddresses := None; gpu_VGPUDevices := None |} |}
    (put KCoreNode {| cn_meta := demo_object "n1" |} sim_empty).

(** The update of the node is refused, and the next pass reports success without it. *)
Lemma checkAndUpdateNodeLabels_spec_witness :
  exists s1 s2, checkAndUpdateNodeLabels "n1" (State tt {| r_sim := demo_cluster |}) = (Err (Errorf "conflict"), s1) /\
    checkAndUpdateNodeLabels "n1" s1 = (Ok tt, s2).
Proof.
  set (s := State tt {| r_sim := demo_cluster |}).
  set (gpus := sim_listed KSRIOVGPUDevice {[ NodeKeyName := "n1" ]} demo_cluster).
  set (obj := {| cn_meta := demo_object "n1" |}).
  assert (eff (CacheList KSRIOVGPUDevice {[ NodeKeyName := "n1" ]}) s = (Ok gpus, s)) as Hlist by done.
  assert (eff (CacheGet KCoreNode "" "n1") s = (Ok obj, s)) as Hget by done.
  destruct (checkAndUpdateNodeLabels_spec "n1" gpus obj s s s Hlist Hget) as (_ & _ & _ & Hsent & Hagain).
  set (obj' := set_node_labels (relabelled (negb (bool_decide (gpus = []))) (m_Labels (cn_meta obj))) obj) in *.
  set (s1 := State tt {| r_sim := put KCoreNode obj' demo_cluster |}). exists s1, s1. split.
  - assert (m_Labels (cn_meta obj') !! NvidiaDriverNeededKey <> m_Labels (cn_meta obj) !! NvidiaDriverNeededKey) as Hne
      by (vm_compute; discriminate).
    rewrite Hsent by (intros Heq; exact (Hne (f_equal (lookup NvidiaDriverNeededKey) Heq))).
    unfold bind, eff. reflexivity.
  - apply (Hagain s1 s1 s1); unfold eff; reflexivity.
Defined.

(** A node with a network card, a graphics card and a bridge. *)
Definition demo_pass_node : sim :=
  let w := put KCoreNode {| cn_meta := demo_object "node1" |} vf_node in
  {| sim_store := sim_store w; sim_index := ∅;
     sim_files := ∅; sim_links := ∅;
     sim_dirs := <[pathToUSBDevices := []]> {[ "/sys/kernel/iommu_groups" := [] ]};
     sim_globs := ∅; sim_exec := ∅; sim_pci := vf_devices; sim_nics := []; sim_netlinks := [];
     sim_nv := []; sim_locks := ∅; sim_queue := [] |}.

