(* ===== verification/System.v ===== *)
(** * Start-up (pkg/controller/setup.go and the [Register] functions)

    The process of a node makes one handler per package, each with its own memory,
    registers their callbacks for the changes and removals of objects, and starts
    the controllers only when every package has registered.  The process of every
    node runs the same callbacks on the objects of the whole cluster; what keeps the
    nodes apart are the tests in the callbacks themselves. *)

From S2P Require Import Prelude GoStrings GoMonad Types Effects Common ClaimController USBHelper UsbIds USBController.
From S2P Require Import VirtualMachine SRIOV GPUHelper GPUController VGPUController MigController NodeCleanup Nodes Sim.

(** The handlers of the packages; the vGPUs of the cache are shared by the GPU and
    the node controller. *)
Record Process := {
  pr_claims : ClaimController.Handler;
  pr_usb : DevClaimHandler;
  pr_gpu : GPUController.Handler;
  pr_vms : VMCache
}.
Definition set_claims (h : ClaimController.Handler) (p : Process) : Process :=
  {| pr_claims := h; pr_usb := pr_usb p; pr_gpu := pr_gpu p; pr_vms := pr_vms p |}.
Definition set_usb (h : DevClaimHandler) (p : Process) : Process :=
  {| pr_claims := pr_claims p; pr_usb := h; pr_gpu := pr_gpu p; pr_vms := pr_vms p |}.
Definition set_gpu (h : GPUController.Handler) (p : Process) : Process :=
  {| pr_claims := pr_claims p; pr_usb := pr_usb p; pr_gpu := h; pr_vms := pr_vms p |}.
Definition set_vms (c : VMCache) (p : Process) : Process :=
  {| pr_claims := pr_claims p; pr_usb := pr_usb p; pr_gpu := pr_gpu p; pr_vms := c |}.

Definition set_vgpus (l : gmap string VGPUDevice) (h : GPUController.Handler) : GPUController.Handler :=
  {| h_nodeName := h_nodeName h; h_executor := h_executor h; h_vgpus := l |}.

(** The handlers as the packages make them on a node; the caches are still empty. *)
Definition new_process (node : string) : Process :=
  {| pr_claims := {| ClaimController.h_nodeName := node; h_devicePlugins := ∅ |};
     pr_usb := {| ch_nodeName := node; ch_managedDevicePlugins := ∅; ch_retired := []; ch_waiting := 0 |};
     pr_gpu := {| h_nodeName := node; h_executor := LocalExecutor; h_vgpus := ∅ |};
     pr_vms := ∅ |}.

Section System.
Context `{External} `{MapOrder} {W : Type} `{World W} (Vendors : gmap Z Vendor) (get_returns_empty : bool)
  (node : string).
#[local] Abbreviation M := (M Process W).

Definition in_claims {A} : GoMonad.M ClaimController.Handler W A -> M A := with_mem pr_claims set_claims.
Definition in_usb {A} : GoMonad.M DevClaimHandler W A -> M A := with_mem pr_usb set_usb.
Definition in_gpu {A} : GoMonad.M GPUController.Handler W A -> M A := with_mem pr_gpu set_gpu.
Definition in_vms {A} : GoMonad.M VMCache W A -> M A := with_mem pr_vms set_vms.
Definition in_sriov {A} : GoMonad.M NodeName W A -> M A := with_mem (fun _ => node) (fun _ p => p).
Definition in_nodes {A} : GoMonad.M NodeHandler W A -> M A :=
  with_mem (fun p => {| nh_nodeName := node; nh_vgpus := h_vgpus (pr_gpu p) |})
    (fun h p => set_gpu (set_vgpus (nh_vgpus h) (pr_gpu p)) p).

(** A callback with its name, for the objects of a kind.  The object is absent when a
    deletion is reported.  A watch names the claims to reconcile when a device changes. *)
Inductive registration :=
| OnChange (k : Kind) (name : string) (callback : string -> option (Obj k) -> M (option (Obj k)))
| OnRemoved (k : Kind) (name : string) (callback : string -> option (Obj k) -> M (option (Obj k)))
| WatchClusterScoped (name : string) (k : Kind) (resolve : option (Obj k) -> M (list (string * string)))
    (enqueuer : Kind).

(** ** Registration *)
Definition claim_callbacks : list registration :=
  [OnRemoved KPCIDeviceClaim "PCIDeviceClaimOnRemove" (fun _ o => in_claims (ClaimController.OnRemove o));
   OnChange KPCIDeviceClaim "PCIDeviceClaimReconcile" (fun _ o => in_claims (reconcilePCIDeviceClaims o));
   WatchClusterScoped "PCIDeviceToClaimReconcile" KPCIDevice (fun o => in_claims (OnDeviceChange o)) KPCIDeviceClaim].
Definition pcideviceclaim_Register : M (list registration) :=
  on_err (fun _ => Errorf "cannot obtain KubeVirt client") (eff KubeClient) ;;;
  in_claims unbindOrphanedPCIDevices ;;;
  in_claims loadVfioDrivers ;;;
  ret claim_callbacks.

(** [WatchUSBDevices] watches each directory under /dev/bus/usb; its goroutines are the
    subject of another file. *)
Variable IsDir : string -> bool.
Definition usb_root : string := "/dev/bus/usb/".
Definition watch_usb_tree : M unit :=
  on_err (Wrapf "failed to walk /dev/bus/usb")
    (entries <- eff (FsWalk usb_root) ;;
     for_each (fun e : string * string =>
       if IsDir e.1 then on_err (Wrapf "failed to watch device parent directory") (eff (WatchAdd e.1)) else ret tt)
       entries).

Definition usb_callbacks : list registration :=
  [OnChange KUSBDeviceClaim "usbClaimClient-device-claim" (fun _ o => in_usb (OnUSBDeviceClaimChanged o));
   OnRemoved KUSBDeviceClaim "usbClaimClient-device-claim-remove" (fun _ o => in_usb (usb_OnRemove o));
   WatchClusterScoped "USBDeviceToClaimReconcile" KUSBDevice (usb_OnDeviceChange node) KUSBDeviceClaim].
Definition usbdevice_Register : M (list registration) :=
  Reconcile Vendors node ;;;
  watch_usb_tree ;;;
  ret usb_callbacks.

Definition node_callbacks : list registration :=
  [OnChange KNode "reconcile-pcidevices" (fun name o => in_nodes (reconcileNodeDevices Vendors name o))].
Definition nodes_Register : M (list registration) :=
  ret node_callbacks.

Definition sriov_callbacks : list registration :=
  [OnChange KSRIOVNetworkDevice "reconcile-sriovdevice" (fun _ o => in_sriov (reconcileSriovDevice o))].
Definition sriovdevice_Register : M (list registration) :=
  ret sriov_callbacks.

(** The callback of vGPUs is given the cached object itself. *)
Definition gpu_callbacks : list registration :=
  [OnChange KSRIOVGPUDevice "on-gpu-change" (fun _ o => in_gpu (OnGPUChange o));
   OnChange KSRIOVGPUDevice "gpu-mig-reconcillation"
     (fun _ o => in_gpu (reconcileMIGConfiguration get_returns_empty o));
   OnChange KVGPUDevice "on-vgpu-change" (fun _ o => in_gpu (OnVGPUChange (vgpu_name <$> o)));
   OnChange KPod "watch-driver-pods" (fun _ o => in_gpu (setupRemoteExecutor o));
   OnChange KMigConfiguration "on-migconfiguration-change" (fun name o => in_gpu (OnMIGChange name o))].
Definition gpudevice_Register : M (list registration) :=
  eff KubeClient ;;;
  ret gpu_callbacks.

Definition vm_callbacks : list registration :=
  [OnChange KVirtualMachineInstance "virtual-machine-instance-handler" (fun _ o => in_vms (OnVMIChange node o));
   OnRemoved KVirtualMachineInstance "virtual-machine-deletion" (fun _ o => in_vms (OnVMIDeletion node o))].
Definition virtualmachine_Register : M (list registration) :=
  ret vm_callbacks.

(** The elected leader registers this one. *)
Definition nodecleanup_Register : list registration :=
  [OnRemoved KCoreNode "node-remove" (fun _ o => node_OnRemove o)].

(** ** The start of the process

    Creating the definitions of the resources, making the clients, starting the
    controllers and serving the webhook are functions of other modules. *)
Variables (crd_Create new_factories webhook_ListenAndServe : M unit) (start_All : list registration -> M unit).

Definition registers : list (M (list registration)) :=
  [pcideviceclaim_Register; usbdevice_Register; nodes_Register; sriovdevice_Register; gpudevice_Register;
   virtualmachine_Register].

Definition register_all : M (list registration) :=
  fold_m (fun done (register : M (list registration)) =>
    new <- on_err (Wrapf "error registering controller") register ;; ret (done ++ new)) [] registers.

Definition Setup : M unit :=
  on_err (Wrapf "error setting up crds") crd_Create ;;;
  new_factories ;;;
  on_err (Wrapf "cannot obtain KubeVirt client") (eff KubeClient) ;;;
  registered <- register_all ;;
  on_err (Wrapf "error starting controllers") (start_All registered) ;;;
  on_err (Wrapf "error setting up node object") (SetupNodeObjects node) ;;;
  on_err (Wrapf "error starting webhook") webhook_ListenAndServe.
End System.

(** ** Objects of other nodes *)
Section Isolation.
Context `{External} `{MapOrder} {W : Type} `{World W} (Vendors : gmap Z Vendor) (get_returns_empty : bool)
  (node : string) (IsDir : string -> bool).
Definition of_node (p : Process) : Prop :=
  ClaimController.h_nodeName (pr_claims p) = node /\ ch_nodeName (pr_usb p) = node /\
  GPUController.h_nodeName (pr_gpu p) = node.

(** The object is of a device, or runs, on another node.  Of a USB claim that is its
    device's node, as the cache has it; a vGPU is the one that the cache holds. *)
Definition foreign (s : state Process (Logged W)) (k : Kind) : Obj k -> Prop :=
  match k return Obj k -> Prop with
  | KPCIDeviceClaim => fun c => pdc_NodeName (pdc_Spec c) <> node
  | KPCIDevice => fun d => pd_NodeName (pd_Status d) <> node
  | KUSBDevice => fun d => usb_NodeName (usb_Status d) <> node
  | KUSBDeviceClaim => fun c => forall d : USBDevice,
      fst (eff (CacheGet KUSBDevice "" (m_Name (uc_meta c))) s) = Ok d -> usb_NodeName (usb_Status d) <> node
  | KNode => fun n => m_Name (node_meta n) <> node
  | KSRIOVNetworkDevice => fun d => sn_NodeName (sn_Spec d) <> node
  | KSRIOVGPUDevice => fun g => gpu_NodeName (gpu_Spec g) <> node
  | KVGPUDevice => fun v => vgpu_NodeName (vgpu_Spec v) <> node /\ h_vgpus (pr_gpu (mem s)) !! vgpu_name v = Some v
  | KMigConfiguration => fun m => mig_NodeName (mig_Spec m) <> node
  | KPod => fun p => pod_NodeName p <> node
  | KVirtualMachineInstance => fun v => vmi_NodeName v <> node
  | _ => fun _ => False
  end.

(** A look into the cluster or a cache. *)
Definition look (ev : event) : Prop :=
  match ev with
  | Ev e _ => match e with
              | ApiGet _ _ _ | ApiList _ _ _ | CacheGet _ _ _ | CacheByIndex _ _ _ | CacheList _ _ => True
              | _ => False
              end
  end.

(** From this state, the computation only looks, and remembers nothing. *)
Definition only_looks {Mem A} (m : M Mem (Logged W) A) (s : state Mem (Logged W)) : Prop :=
  mem (snd (m s)) = mem s /\ emits look s (snd (m s)).

Lemma only_looks_stays {Mem A} (m : M Mem (Logged W) A) (s : state Mem (Logged W)) o : m s = (o, s) -> only_looks m s.
Proof. unfold only_looks. intros ->. split; [done|]. exists []. by rewrite app_nil_r. Qed.

Lemma only_looks_with_mem {Mem Mem' A} (get : Mem' -> Mem) put (m : M Mem (Logged W) A) (s : state Mem' (Logged W)) :
  put (get (mem s)) (mem s) = mem s -> only_looks m (State (get (mem s)) (world s)) -> only_looks (with_mem get put m) s.
Proof.
  unfold only_looks, with_mem. intros Hput. destruct (m _) as [o s1]. cbn. intros [-> Hl]. by rewrite Hput.
Qed.

(** What the process of every node does with a running instance that asks for no
    devices, wherever it runs: the record of the devices it once had is taken off its
    VM, in the cache and with one update. *)
Definition forgets_devices (v : VirtualMachineInstance) (s s' : state Process (Logged W)) : Prop :=
  m_DeletionTimestamp (vmi_meta v) = false /\ vmi_Phase v = VMI_Running /\ asks_for_nothing v = true /\
  exists vm r, pr_vms (mem s) !! vm_key v = Some vm /\
    is_Some (m_Annotations (vm_meta vm) !! DeviceAllocationKey) /\
    let vm' := set_vm_Annotations (delete DeviceAllocationKey (m_Annotations (vm_meta vm))) vm in
    mem s' = set_vms (<[vm_key v := vm']> (pr_vms (mem s))) (mem s) /\
    log_of s' = log_of s ++ [Ev (ApiUpdate KVirtualMachine vm') r].
Definition crosses_nodes {k} (name : string) (s s' : state Process (Logged W)) : Obj k -> Prop :=
  match k return Obj k -> Prop with
  | KVirtualMachineInstance => fun v => name = "virtual-machine-instance-handler" /\ forgets_devices v s s'
  | _ => fun _ => False
  end.

(** What a registered callback does with an object of another node. *)
Definition isolated (r : @registration (Logged W)) (s : state Process (Logged W)) : Prop :=
  match r with
  | OnChange k name f | OnRemoved k name f =>
      name <> "gpu-mig-reconcillation" -> forall key o, foreign s k o ->
        only_looks (f key (Some o)) s \/ crosses_nodes name s (snd (f key (Some o) s)) o
  | WatchClusterScoped _ k resolve _ => forall o, foreign s k o -> resolve (Some o) s = (Ok [], s)
  end.

(** ** What is registered *)
Definition callbacks : list (@registration (Logged W)) :=
  claim_callbacks ++ usb_callbacks node ++ node_callbacks Vendors node ++ sriov_callbacks node ++
  gpu_callbacks get_returns_empty ++ vm_callbacks node.

Lemma claim_registers (s : state Process (Logged W)) l s' :
  pcideviceclaim_Register s = (Ok l, s') -> l = claim_callbacks.
Proof. unfold pcideviceclaim_Register. intros Hrun. do 3 apply bind_Ok_inv in Hrun as (? & ? & _ & Hrun). by injection Hrun. Qed.
Lemma usb_registers (s : state Process (Logged W)) l s' :
  usbdevice_Register Vendors node IsDir s = (Ok l, s') -> l = usb_callbacks node.
Proof. unfold usbdevice_Register. intros Hrun. do 2 apply bind_Ok_inv in Hrun as (? & ? & _ & Hrun). by injection Hrun. Qed.
Lemma gpu_registers (s : state Process (Logged W)) l s' :
  gpudevice_Register get_returns_empty s = (Ok l, s') -> l = gpu_callbacks get_returns_empty.
Proof. unfold gpudevice_Register. intros Hrun. apply bind_Ok_inv in Hrun as (? & ? & _ & Hrun). by injection Hrun. Qed.

Lemma register_step (m : M Process (Logged W) (list (@registration (Logged W)))) done s s' l :
  (new <- on_err (Wrapf "error registering controller") m ;; ret (done ++ new)) s = (Ok l, s') ->
  exists new s1, m s = (Ok new, s1) /\ l = done ++ new.
Proof.
  intros Hrun. apply bind_Ok_inv in Hrun as (new & s1 & Hm & [= <- _]).
  apply on_err_Ok_inv in Hm. by exists new, s1.
Qed.

(** Once every package has registered, these are the callbacks. *)
Lemma register_all_callbacks (s : state Process (Logged W)) l s' :
  register_all Vendors get_returns_empty node IsDir s = (Ok l, s') -> l = callbacks.
Proof.
  unfold register_all, registers. cbn [fold_m]. intros Hrun.
  do 6 (apply bind_Ok_inv in Hrun as (? & ? & (? & ? & Hreg & ->)%register_step & Hrun);
    first [apply claim_registers in Hreg as -> | apply usb_registers in Hreg as -> | apply gpu_registers in Hreg as ->
          | injection Hreg as <- <-]).
  injection Hrun as <- <-. reflexivity.
Qed.

(** The callbacks test the node before anything else, or right after looks into the
    caches. *)
Lemma ne_negb (x y : string) : x <> y -> (x !=s y) = true.
Proof. intros Hne. by rewrite bool_decide_eq_false_2. Qed.

Lemma look_try {Mem X A} (e : Eff X) (k : error + X -> M Mem (Logged W) A) (s : state Mem (Logged W)) :
  (forall r, look (Ev e r)) -> (forall r s1, eff e s = (r, s1) ->
    only_looks (k (match r with Ok x => inr x | Err er => inl er | Panic _ => inl (Errorf "") end)) s1) ->
  only_looks (r <- try (eff e) ;; k r) s.
Proof.
  intros He Hk. unfold only_looks, bind, try. pose proof (Steps_emits_eff look e He s) as Hl.
  assert (mem (snd (eff e s)) = mem s) as Hm by apply Steps_eff_same_mem.
  pose proof (eff_not_Panic e s) as Hp.
  destruct (eff e s) as [r s1] eqn:E. specialize (Hk r s1 eq_refl). unfold only_looks in Hk.
  destruct r as [x|er|p]; [..|by destruct (Hp p s1)]; destruct Hk as [Hk1 Hk2]; (split; [by rewrite Hk1|]); by etransitivity.
Qed.

Lemma only_looks_ret {Mem A} (a : A) (s : state Mem (Logged W)) : only_looks (ret a) s.
Proof. by eapply only_looks_stays. Qed.
Lemma only_looks_fail {Mem A} e (s : state Mem (Logged W)) : only_looks (@fail Mem _ A e) s.
Proof. by eapply only_looks_stays. Qed.
Lemma only_looks_panic {Mem A} p (s : state Mem (Logged W)) : only_looks (@panic Mem _ A p) s.
Proof. by eapply only_looks_stays. Qed.
Lemma only_looks_get_mem {Mem A} (k : Mem -> M Mem (Logged W) A) s :
  only_looks (k (mem s)) s -> only_looks (h <- get_mem ;; k h) s.
Proof. done. Qed.
Lemma only_looks_if {Mem A} (b : bool) (m1 m2 : M Mem (Logged W) A) s :
  (b = true -> only_looks m1 s) -> (b = false -> only_looks m2 s) -> only_looks (if b then m1 else m2) s.
Proof. destruct b; auto. Qed.
#[local] Hint Resolve only_looks_ret only_looks_fail only_looks_panic : pcidev.

(** Walk to the test of the node. *)
Ltac looks_tac Hne :=
  repeat first
    [ apply only_looks_get_mem | rewrite Hne | rewrite orb_true_r
    | apply only_looks_if; intros ?
    | solve [eauto with pcidev] | congruence ].

Lemma claim_foreign (c : PCIDeviceClaim) (s : state ClaimController.Handler (Logged W)) :
  pdc_NodeName (pdc_Spec c) <> ClaimController.h_nodeName (mem s) ->
  only_looks (ClaimController.OnRemove (Some c)) s /\ only_looks (reconcilePCIDeviceClaims (Some c)) s.
Proof. intros Hne%ne_negb. split; [unfold ClaimController.OnRemove|unfold reconcilePCIDeviceClaims]; looks_tac Hne. Qed.

Lemma usb_claim_foreign (c : USBDeviceClaim) k (s : state DevClaimHandler (Logged W)) :
  (forall d : USBDevice, fst (eff (CacheGet KUSBDevice "" (m_Name (uc_meta c))) s) = Ok d ->
     usb_NodeName (usb_Status d) <> ch_nodeName (mem s)) ->
  only_looks (device_of_claim c k) s.
Proof.
  intros Hf. unfold device_of_claim. apply look_try; [done|]. intros r s1 Hrun.
  pose proof (Steps_eff_same_mem (CacheGet KUSBDevice "" (m_Name (uc_meta c))) s) as Hm.
  rewrite Hrun in Hf, Hm. destruct r as [d|er|p]; [|looks_tac Hm..].
  specialize (Hf d eq_refl). apply ne_negb in Hf. cbn in Hm. unfold same_mem in Hm. rewrite <- Hm in Hf. looks_tac Hf.
Qed.

Lemma usb_foreign (c : USBDeviceClaim) (s : state DevClaimHandler (Logged W)) :
  (forall d : USBDevice, fst (eff (CacheGet KUSBDevice "" (m_Name (uc_meta c))) s) = Ok d ->
     usb_NodeName (usb_Status d) <> ch_nodeName (mem s)) ->
  only_looks (OnUSBDeviceClaimChanged (Some c)) s /\ only_looks (usb_OnRemove (Some c)) s.
Proof.
  intros Hf. split; [unfold OnUSBDeviceClaimChanged|unfold usb_OnRemove]; apply only_looks_if; intros _;
    try destruct (m_OwnerReferences _); auto using usb_claim_foreign with pcidev.
Qed.

Lemma gpu_foreign (g : SRIOVGPUDevice) (s : state GPUController.Handler (Logged W)) :
  gpu_NodeName (gpu_Spec g) <> GPUController.h_nodeName (mem s) -> only_looks (OnGPUChange (Some g)) s.
Proof. intros Hne%ne_negb. unfold OnGPUChange. looks_tac Hne. Qed.

Lemma vgpu_foreign (v : VGPUDevice) (s : state GPUController.Handler (Logged W)) :
  vgpu_NodeName (vgpu_Spec v) <> GPUController.h_nodeName (mem s) -> h_vgpus (mem s) !! vgpu_name v = Some v ->
  only_looks (OnVGPUChange (Some (vgpu_name v))) s.
Proof.
  intros Hne%ne_negb Hv. unfold OnVGPUChange. apply only_looks_get_mem.
  assert (forall k : VGPUDevice -> M GPUController.Handler (Logged W) (option VGPUDevice),
    only_looks (k v) s -> only_looks (v' <- deref (vgpu_name v) ;; k v') s) as Hderef.
  { intros k Hk. unfold deref, bind, get_mem, only_looks. by rewrite Hv. }
  apply Hderef. looks_tac Hne.
Qed.

Lemma pod_foreign (p : Pod) (s : state GPUController.Handler (Logged W)) :
  pod_NodeName p <> GPUController.h_nodeName (mem s) -> only_looks (setupRemoteExecutor (Some p)) s.
Proof. intros Hne%ne_negb. unfold setupRemoteExecutor. looks_tac Hne. Qed.

Lemma mig_foreign name (m : MigConfiguration) (s : state GPUController.Handler (Logged W)) :
  mig_NodeName (mig_Spec m) <> GPUController.h_nodeName (mem s) -> only_looks (OnMIGChange name (Some m)) s.
Proof. intros Hne%ne_negb. unfold OnMIGChange. looks_tac Hne. Qed.

Lemma sriov_foreign (d : SRIOVNetworkDevice) (s : state NodeName (Logged W)) :
  sn_NodeName (sn_Spec d) <> mem s -> only_looks (reconcileSriovDevice (Some d)) s.
Proof. intros Hne%ne_negb. unfold reconcileSriovDevice. looks_tac Hne. Qed.

Lemma node_foreign name (n : Node) (s : state NodeHandler (Logged W)) :
  m_Name (node_meta n) <> nh_nodeName (mem s) -> only_looks (reconcileNodeDevices Vendors name (Some n)) s.
Proof. intros Hne%ne_negb. unfold reconcileNodeDevices. looks_tac Hne. Qed.

Lemma vmi_removal_foreign (v : VirtualMachineInstance) (s : state VMCache (Logged W)) :
  vmi_NodeName v <> node -> only_looks (OnVMIDeletion node (Some v)) s.
Proof.
  intros Hne%ne_negb. unfold OnVMIDeletion.
  do 2 (apply only_looks_if; intros _; [auto with pcidev|]).
  unfold vmCache_Get, bind, try, get_mem. destruct (mem s !! vm_key v) as [vm|] eqn:E.
  - unfold only_looks. rewrite E. apply only_looks_if; intros _; [auto with pcidev|]. looks_tac Hne.
  - unfold only_looks. rewrite E. apply only_looks_stays with (o := Ok (Some v)). reflexivity.
Qed.

(** The one update of an instance that asks for nothing; without a recorded VM, or
    without the annotation, there is none. *)
Lemma clear_foreign (v : VirtualMachineInstance) (s : state VMCache (Logged W)) o s' :
  checkAndClearDeviceAllocation v s = (o, s') ->
  s' = s \/
  exists vm r, mem s !! vm_key v = Some vm /\ is_Some (m_Annotations (vm_meta vm) !! DeviceAllocationKey) /\
    let vm' := set_vm_Annotations (delete DeviceAllocationKey (m_Annotations (vm_meta vm))) vm in
    mem s' = <[vm_key v := vm']> (mem s) /\ log_of s' = log_of s ++ [Ev (ApiUpdate KVirtualMachine vm') r].
Proof.
  unfold checkAndClearDeviceAllocation, vmCache_Get, on_err, bind, get_mem. intros Hrun.
  destruct (mem s !! vm_key v) as [vm|] eqn:Hvm; [|left; by injection Hrun].
  cbn in Hrun. destruct (m_Annotations _ !! _) eqn:Hann; [|left; by injection Hrun].
  unfold write_cached, modify_mem in Hrun. right. exists vm.
  destruct (eff _ _) as [o1 s2] eqn:Heff in Hrun.
  match type of Heff with eff ?e ?s1 = _ => pose proof (eff_log e s1) as (r & w & _ & Hlog) end.
  pose proof (eq_trans (eq_sym Heff) Hlog) as [= -> ->].
  exists r. split; [done|]. split; [by eexists|]. destruct r; injection Hrun as <- <-; by split.
Qed.

Lemma vmi_change_foreign (v : VirtualMachineInstance) (s : state Process (Logged W)) :
  vmi_NodeName v <> node ->
  only_looks (in_vms (OnVMIChange node (Some v))) s \/
  crosses_nodes (k := KVirtualMachineInstance) "virtual-machine-instance-handler" s
    (snd (in_vms (OnVMIChange node (Some v)) s)) v.
Proof.
  intros Hne%ne_negb.
  assert (forall p : Process, set_vms (pr_vms p) p = p) as Hput by by intros [].
  unfold OnVMIChange.
  destruct (m_DeletionTimestamp (vmi_meta v)) eqn:Hdel; [left; apply only_looks_with_mem; auto with pcidev|].
  destruct (vmi_Phase v !=s VMI_Running) eqn:Hphase; [left; apply only_looks_with_mem; auto with pcidev|].
  apply negb_false_iff, bool_decide_eq_true_1 in Hphase.
  destruct (asks_for_nothing v) eqn:Hasks; [|left; apply only_looks_with_mem; [auto|]; looks_tac Hne].
  destruct (checkAndClearDeviceAllocation v (State (pr_vms (mem s)) (world s))) as [o s1] eqn:Hrun.
  destruct (clear_foreign _ _ _ _ Hrun) as [->|(vm & r & Hvm & Hann & Hmem & Hlog)].
  - left. unfold only_looks. unfold in_vms, with_mem, bind. rewrite Hrun. destruct o; cbn; (rewrite Hput; split; [done|]; exists []; by rewrite app_nil_r).
  - right. cbn. split; [done|]. do 3 (split; [done|]). exists vm, r. cbn in Hvm, Hmem, Hlog.
    split; [done|]. split; [done|]. unfold in_vms, with_mem, bind. rewrite Hrun. destruct o; cbn; by rewrite Hmem.
Qed.

(** The callbacks of a watch name no claims. *)
Lemma pci_watch_foreign (s : state Process (Logged W)) (d : PCIDevice) :
  of_node (mem s) -> pd_NodeName (pd_Status d) <> node -> in_claims (OnDeviceChange (Some d)) s = (Ok [], s).
Proof.
  intros (Hc & _ & _) Hne. unfold in_claims, with_mem, OnDeviceChange, bind, get_mem. cbn.
  rewrite Hc, bool_decide_eq_false_2 by done. cbn. by destruct s as [[] ?].
Qed.
Lemma usb_watch_foreign (s : state Process (Logged W)) (u : USBDevice) :
  usb_NodeName (usb_Status u) <> node -> usb_OnDeviceChange node (Some u) s = (Ok [], s).
Proof. intros Hne. unfold usb_OnDeviceChange. by rewrite bool_decide_eq_false_2. Qed.

Lemma usb_here (c : USBDeviceClaim) (s : state Process (Logged W)) :
  ch_nodeName (pr_usb (mem s)) = node -> foreign s KUSBDeviceClaim c ->
  let s' := State (pr_usb (mem s)) (world s) in
  only_looks (OnUSBDeviceClaimChanged (Some c)) s' /\ only_looks (usb_OnRemove (Some c)) s'.
Proof.
  intros Hn Hf s'. apply usb_foreign. intros d Hd. cbn. rewrite Hn. apply Hf. rewrite <- Hd.
  unfold eff. cbn. by destruct (perform _ _).
Qed.

(** C5: the processes of two nodes do not interfere: once a node's process has
    registered its callbacks, each of them that is given an object of another node
    only looks into the cluster and leaves the process's memory, the files of the
    node and every object as they were, and a change of another node's device asks
    for no claim.  There are two exceptions: the callback that follows the GPUs with
    MIG configurations, and the instances that run without devices, of which the
    process of every node takes the record of devices off the VM, with one update of
    that VM and nothing else. *)
Theorem node_isolation (s0 s1 s : state Process (Logged W)) (registered : list (@registration (Logged W)))
    (r : @registration (Logged W))
    (Hsetup : register_all Vendors get_returns_empty node IsDir s0 = (Ok registered, s1))
    (Hr : r ∈ registered) (Hnode : of_node (mem s)) :
  isolated r s.
Proof.
  apply register_all_callbacks in Hsetup as ->.
  pose proof Hnode as (Hclaims & Husb & Hgpu).
  unfold callbacks, claim_callbacks, usb_callbacks, node_callbacks, sriov_callbacks, gpu_callbacks, vm_callbacks in Hr.
  cbn [app] in Hr. rewrite !elem_of_cons in Hr.
  repeat (destruct Hr as [->|Hr]; [|try by apply not_elem_of_nil in Hr]);
    cbn [isolated]; match goal with |- (_ <> _) -> _ => intros Hname key | _ => idtac end; intros o; cbn [foreign];
    try (intros Hf; solve [by apply pci_watch_foreign | by apply usb_watch_foreign | by apply vmi_change_foreign]);
    try (intros Hf; left; apply only_looks_with_mem; [by destruct s as [[? ? [] ?] ?]|]).
  - apply claim_foreign. by cbn; rewrite Hclaims.
  - apply claim_foreign. by cbn; rewrite Hclaims.
  - apply (usb_here o s); [by rewrite Husb|done].
  - apply (usb_here o s); [by rewrite Husb|done].
  - by apply node_foreign.
  - by apply sriov_foreign.
  - apply gpu_foreign. by cbn; rewrite Hgpu.
  - by destruct Hname.
  - destruct Hf. apply vgpu_foreign; [by cbn; rewrite Hgpu|done].
  - apply pod_foreign. by cbn; rewrite Hgpu.
  - apply mig_foreign. by cbn; rewrite Hgpu.
  - by apply vmi_removal_foreign.
Qed.

(** What a callback does when the deletion of an object is reported. *)
Definition on_deletion (r : @registration (Logged W)) (s : state Process (Logged W)) : Prop :=
  match r with
  | OnChange k name f | OnRemoved k name f =>
      forall key, f key None s =
        ((if name ==s "gpu-mig-reconcillation" then Panic "invalid memory address or nil pointer dereference"
          else Ok None), s)
  | WatchClusterScoped _ k resolve _ => resolve None s = (Ok [], s)
  end.

(** C9: when the deletion of an object is reported to them, all callbacks of the process do
    nothing, except the one that follows the GPUs with MIG configurations, which
    panics. *)
Theorem deletions_handled (s0 s1 s : state Process (Logged W)) (registered : list (@registration (Logged W)))
    (r : @registration (Logged W))
    (Hsetup : register_all Vendors get_returns_empty node IsDir s0 = (Ok registered, s1)) (Hr : r ∈ registered) :
  on_deletion r s.
Proof.
  apply register_all_callbacks in Hsetup as ->.
  unfold callbacks, claim_callbacks, usb_callbacks, node_callbacks, sriov_callbacks, gpu_callbacks, vm_callbacks in Hr.
  cbn [app] in Hr. rewrite !elem_of_cons in Hr. destruct s as [[? ? [] ?] ?].
  repeat (destruct Hr as [->|Hr]; [|try by apply not_elem_of_nil in Hr]); done.
Qed.

(** The exception follows the GPUs of every node: a disabled one loses its MIG
    configuration through each node's process. *)
Theorem mig_of_foreign_gpu (g : SRIOVGPUDevice) (m : MigConfiguration) (s s' : state GPUController.Handler (Logged W)) o
    (Hoff : gpu_Enabled (gpu_Spec g) = false)
    (Hmig : fst (eff (CacheGet KMigConfiguration "" (m_Name (gpu_meta g))) s) = Ok m)
    (Hrun : reconcileMIGConfiguration get_returns_empty (Some g) s = (o, s')) :
  exists r, Ev (ApiDelete KMigConfiguration (m_Name (gpu_meta g))) r ∈ log_of s'.
Proof.
  unfold reconcileMIGConfiguration in Hrun. rewrite Hoff in Hrun. unfold bind, try in Hrun.
  destruct (eff (CacheGet _ _ _) s) as [r1 s1] eqn:E1. cbn in Hmig. subst r1.
  destruct (eff_log (ApiDelete KMigConfiguration (m_Name (gpu_meta g))) s1) as (r & w & _ & Hdel).
  cbn iota in Hrun. rewrite Hdel in Hrun. exists r.
  destruct r; injection Hrun as <- <-; unfold log_of; cbn; apply elem_of_app; right; by left.
Qed.
End Isolation.

(** ** On a concrete node *)
Definition demo_claim_of (n : string) : PCIDeviceClaim :=
  {| pdc_meta := new_meta (n +:+ "-dev") ∅ ∅;
     pdc_Spec := {| pdc_Address := "0000:04:00.0"; pdc_NodeName := n; pdc_UserName := "admin";
                    pdc_DisableResourcePooling := false |};
     pdc_Status := {| pdc_KernelDriverToUnbind := ""; pdc_PassthroughEnabled := false |} |}.
Definition booted : sim :=
  set_fs ∅ ∅ (<["/sys/bus/usb/devices" := []]> {["/dev/bus/usb/" := []]}) sim_empty.
Definition boot : state Process (Logged sim) := State (new_process "n1") (booted, @nil event).

(** A claim of node n2 reaches the process of node n1. *)
Lemma node_isolation_witness :
  exists registered s1, register_all ∅ false "n1" (fun _ => true) boot = (Ok registered, s1) /\
    isolated "n1" (OnChange KPCIDeviceClaim "PCIDeviceClaimReconcile" (fun _ o => in_claims (reconcilePCIDeviceClaims o))) s1 /\
    foreign "n1" s1 KPCIDeviceClaim (demo_claim_of "n2").
Proof.
  assert (is_Ok (fst (register_all ∅ false "n1" (fun _ => true) boot)) = true) as Hok by (vm_compute; reflexivity).
  assert (of_node "n1" (mem (snd (register_all ∅ false "n1" (fun _ => true) boot)))) as Hnode by (vm_compute; auto).
  destruct (register_all ∅ false "n1" (fun _ => true) boot) as [[r|e|p] s1] eqn:E; [|discriminate Hok..].
  exists r, s1. split; [reflexivity|]. split; [|discriminate].
  apply (node_isolation ∅ false "n1" (fun _ => true) boot s1 s1 r _ E).
  - rewrite (register_all_callbacks ∅ false "n1" _ _ _ _ E). right. by left.
  - exact Hnode.
Defined.

Lemma deletions_handled_witness :
  exists registered s1, register_all ∅ false "n1" (fun _ => true) boot = (Ok registered, s1) /\
    on_deletion (OnChange KSRIOVGPUDevice "gpu-mig-reconcillation" (fun _ o => in_gpu (reconcileMIGConfiguration false o))) s1.
Proof.
  assert (is_Ok (fst (register_all ∅ false "n1" (fun _ => true) boot)) = true) as Hok by (vm_compute; reflexivity).
  destruct (register_all ∅ false "n1" (fun _ => true) boot) as [[r|e|p] s1] eqn:E; [|discriminate Hok..].
  exists r, s1. split; [reflexivity|].
  apply (deletions_handled ∅ false "n1" (fun _ => true) boot s1 s1 r _ E).
  rewrite (register_all_callbacks ∅ false "n1" _ _ _ _ E). unfold callbacks, gpu_callbacks. set_solver.
Defined.
