(* ===== verification/Guarded.v ===== *)
(** * A program logic for what handlers read and write

    Objects of devices and claims are named after the device they describe, unless
    others wrote it otherwise ([named_after]).  [safe Q m] says that a handler, run where the API server and the
    caches hold only such objects, writes only such objects, keeps its own memory
    in order and answers as [Q] tells.  The rules follow the monad. *)

From S2P Require Import Prelude GoStrings GoMonad Types Effects PCIDeviceApi Sim.

(** ** Objects named after their device

    Users and other programs write objects too, and nothing keeps them to a form: the
    admission of a claim does not compare its name with its address, and a claim's
    owner is whatever its author wrote.  What others said of an object's identity is a
    set of facts, which may be any. *)
Inductive fact :=
| names (name address node : string)
| owns (claim owner : string).
Class Others := others : fact -> Prop.

(** An object's identity is of the program's making, or said by others.  A status is
    written after the object: until then its address is empty. *)
Definition named_after `{Others} (name address node : string) : Prop :=
  address = "" \/ name = PCIDeviceNameForHostname address node \/ others (names name address node).

(** The first owner of a claim is the device of its name, or one that others wrote. *)
Definition first_owner `{Others} (m : ObjectMeta) : Prop :=
  match m_OwnerReferences m with
  | Some (o :: _) => or_Name o = m_Name m \/ others (owns (m_Name m) (or_Name o))
  | _ => True
  end.

Definition well_named `{Others} (k : Kind) : Obj k -> Prop :=
  match k return Obj k -> Prop with
  | KPCIDevice => fun d => named_after (m_Name (pd_meta d)) (pd_Address (pd_Status d)) (pd_NodeName (pd_Status d))
  | KPCIDeviceClaim => fun c =>
      named_after (m_Name (pdc_meta c)) (pdc_Address (pdc_Spec c)) (pdc_NodeName (pdc_Spec c)) /\ first_owner (pdc_meta c)
  | KSRIOVNetworkDevice => fun d =>
      (exists interface, m_Name (sn_meta d) = ToLower (sn_NodeName (sn_Spec d) +:+ "-" +:+ interface)) \/
      others (names (m_Name (sn_meta d)) (sn_Address (sn_Spec d)) (sn_NodeName (sn_Spec d)))
  | KSRIOVGPUDevice => fun g => named_after (m_Name (gpu_meta g)) (gpu_Address (gpu_Spec g)) (gpu_NodeName (gpu_Spec g))
  | KVGPUDevice => fun v => named_after (m_Name (vgpu_meta v)) (vgpu_Address (vgpu_Spec v)) (vgpu_NodeName (vgpu_Spec v))
  | KMigConfiguration => fun m =>
      named_after (m_Name (mig_meta m)) (mig_GPUAddress (mig_Spec m)) (mig_NodeName (mig_Spec m))
  | _ => fun _ => True
  end.

(** The identities of a claim, of a device and of the claim's owner are of the program's
    making, or one of them was said by others. *)
Definition said_by_others `{Others} (c : PCIDeviceClaim) (d : PCIDevice) : Prop :=
  others (names (m_Name (pdc_meta c)) (pdc_Address (pdc_Spec c)) (pdc_NodeName (pdc_Spec c))) \/
  others (names (m_Name (pd_meta d)) (pd_Address (pd_Status d)) (pd_NodeName (pd_Status d))) \/
  others (owns (m_Name (pdc_meta c)) (m_Name (pd_meta d))).

(** A claim whose first owner is a device serves the address of that device. *)
Lemma well_named_claim `{Others} (c : PCIDeviceClaim) (d : PCIDevice) o rest :
  well_named KPCIDeviceClaim c -> well_named KPCIDevice d ->
  wf_address (pdc_Address (pdc_Spec c)) = true -> wf_address (pd_Address (pd_Status d)) = true ->
  m_OwnerReferences (pdc_meta c) = Some (o :: rest) -> or_Name o = m_Name (pd_meta d) ->
  (pdc_Address (pdc_Spec c) = pd_Address (pd_Status d) /\ pdc_NodeName (pdc_Spec c) = pd_NodeName (pd_Status d)) \/
  said_by_others c d.
Proof.
  intros [Hc Hfirst] Hd Wc Wd Howner Hname. unfold first_owner in Hfirst. rewrite Howner, Hname in Hfirst.
  unfold said_by_others. destruct Hfirst as [Hfirst|?]; [|by auto].
  destruct Hc as [Hc|[Hc|?]]; [by rewrite Hc in Wc| |by auto].
  destruct Hd as [Hd|[Hd|?]]; [by rewrite Hd in Wd| |by auto].
  left. rewrite Hfirst, Hc in Hd. by apply PCIDeviceNameForHostname_inj in Hd as [-> ->].
Qed.

(** ** Calls and answers *)
Definition allowed `{Others} {X} (e : Eff X) : Prop :=
  match e with
  | ApiCreate k o | ApiUpdate k o | ApiUpdateStatus k o | CacheWrite k o => well_named k o
  | _ => True
  end.

Definition answers `{Others} {X} (e : Eff X) : X -> Prop :=
  match e in Eff X return X -> Prop with
  | ApiGet k _ n | CacheGet k _ n => fun o => well_named k o /\ name_of o = n
  | ApiList k _ _ | CacheList k _ | CacheByIndex k _ _ => Forall (well_named k)
  | ApiCreate k o | ApiUpdate k o | ApiUpdateStatus k o => fun o' => well_named k o' /\ name_of o' = name_of o
  | _ => fun _ => True
  end.

(** The surroundings in good order: they hand out what the program and others wrote, so
    while the program writes well-named objects, it is given such objects, under the
    name it asked for; what others wrote is well named by the facts they said.  What good order is can ask
    more of the calls. *)
Class Guarded `{Others} {W} `{World W} (calls : forall X, Eff X -> Prop) (ok : W -> Prop) :=
  guarded : forall X (e : Eff X) w r w', allowed e -> calls X e -> ok w -> perform e w = (r, w') ->
    ok w' /\ match r with inr x => answers e x | inl _ => True end.
Definition any_call (X : Type) (e : Eff X) : Prop := True.

(** Every object of the event, sent or received, is well named. *)
Definition good_event `{Others} (ev : event) : Prop :=
  match ev with Ev e r => allowed e /\ match r with inr x => answers e x | inl _ => True end end.
Definition good_log `{Others} {W} (ok : W -> Prop) (w : Logged W) : Prop := ok (fst w) /\ Forall good_event (snd w).

#[export] Instance Logged_guarded `{Others} {W} `{World W} calls (ok : W -> Prop) `{!Guarded calls ok} : Guarded calls (good_log ok).
Proof.
  intros X e [w log] r [w' log'] He Hc [Hok Hlog]. cbn. destruct (perform e w) as [r0 w0] eqn:E. intros [= <- <- <-].
  destruct (guarded X e w r0 w0 He Hc Hok E) as [Hok' Hr]. unfold good_log. cbn. split_and!; [done| |done].
  apply Forall_app. split; [done|]. by repeat constructor.
Qed.

(** In good order, and since [log] only such calls were made. *)
Definition called (calls : forall X, Eff X -> Prop) (ev : event) : Prop := match ev with Ev e _ => calls _ e end.
Definition bounded_log `{Others} {W} (calls : forall X, Eff X -> Prop) (log : list event) (ok : W -> Prop) (w : Logged W) : Prop :=
  good_log ok w /\ exists evs, snd w = log ++ evs /\ Forall (called calls) evs.

#[export] Instance bounded_guarded `{Others} {W} `{World W} calls log (ok : W -> Prop) `{!Guarded any_call ok} :
  Guarded calls (bounded_log calls log ok).
Proof.
  intros X e w r w' He Hc [Hok (evs & Hl & Hall)] Hrun.
  destruct (guarded (ok := good_log ok) X e w r w' He I Hok Hrun) as [Hok' Hr]. split; [|done]. split; [done|].
  destruct w as [w l]. cbn in *. destruct (perform e w) as [r0 w0]. injection Hrun as <- <-. cbn.
  exists (evs ++ [Ev e r0]). split; [by rewrite Hl, app_assoc|]. apply Forall_app. split; [done|]. by repeat constructor.
Qed.

(** ** Triples *)
Definition safe {Mem W A} `{World W} (ok : W -> Prop) (J : Mem -> Prop) (Q : A -> Prop) (m : M Mem W A) : Prop :=
  forall s, ok (world s) -> J (mem s) ->
    ok (world (snd (m s))) /\ J (mem (snd (m s))) /\ match fst (m s) with Ok a => Q a | _ => True end.

(** Nothing is claimed of the answer. *)
Definition anything {A} : A -> Prop := fun _ => True.

Section Rules.
Context `{Others} {Mem W : Type} `{World W} calls (ok : W -> Prop) `{!Guarded calls ok} (J : Mem -> Prop).

Lemma safe_weaken {A} (P Q : A -> Prop) (m : M Mem W A) : safe ok J P m -> (forall a, P a -> Q a) -> safe ok J Q m.
Proof.
  intros Hm HPQ s Hok HJ. destruct (Hm s Hok HJ) as (H1 & H2 & H3). split_and!; [done..|].
  destruct (fst (m s)); auto.
Qed.
Lemma safe_any {A} (P : A -> Prop) (m : M Mem W A) : safe ok J P m -> safe ok J anything m.
Proof. intros Hm. by apply (safe_weaken P). Qed.

(** Used where an answer is of no interest. *)
Lemma safe_unknown {A} (m : M Mem W A) : safe ok J anything m -> safe ok J anything m.
Proof. done. Qed.

Lemma safe_ret {A} (Q : A -> Prop) a : Q a -> safe ok J Q (ret a).
Proof. by intros HQ s Hok HJ. Qed.
Lemma safe_fail {A} (Q : A -> Prop) e : safe ok J Q (fail e).
Proof. by intros s Hok HJ. Qed.
Lemma safe_panic {A} (Q : A -> Prop) p : safe ok J Q (panic p).
Proof. by intros s Hok HJ. Qed.
Lemma safe_lift_o {A} (Q : A -> Prop) o : (forall a, o = Ok a -> Q a) -> safe ok J Q (lift_o o).
Proof. intros HQ s Hok HJ. cbn. split_and!; [done..|]. destruct o; auto. Qed.
Lemma safe_get_mem : safe ok J J get_mem.
Proof. by intros s Hok HJ. Qed.
Lemma safe_modify_mem f : (forall h, J h -> J (f h)) -> safe ok J anything (modify_mem f).
Proof. intros Hf s Hok HJ. cbn. split_and!; [done|by apply Hf|done]. Qed.

Lemma safe_bind {A B} (P : A -> Prop) (Q : B -> Prop) (m : M Mem W A) f :
  safe ok J P m -> (forall a, P a -> safe ok J Q (f a)) -> safe ok J Q (bind m f).
Proof.
  intros Hm Hf s Hok HJ. unfold bind. destruct (Hm s Hok HJ) as (H1 & H2 & H3).
  destruct (m s) as [[a|e|p] s1]; cbn in *; [|done..]. by apply Hf.
Qed.
Lemma safe_try {A} (Q : A -> Prop) (m : M Mem W A) :
  safe ok J Q m -> safe ok J (fun r => match r with inr a => Q a | inl _ => True end) (try m).
Proof.
  intros Hm s Hok HJ. unfold try. destruct (Hm s Hok HJ) as (H1 & H2 & H3). by destruct (m s) as [[a|e|p] s1].
Qed.
Lemma safe_on_err {A} w (Q : A -> Prop) (m : M Mem W A) : safe ok J Q m -> safe ok J Q (on_err w m).
Proof.
  intros Hm s Hok HJ. unfold on_err. destruct (Hm s Hok HJ) as (H1 & H2 & H3). by destruct (m s) as [[a|e|p] s1].
Qed.
Lemma safe_defer {A} c (Q : A -> Prop) (m : M Mem W A) : safe ok J anything c -> safe ok J Q m -> safe ok J Q (defer c m).
Proof.
  intros Hc Hm s Hok HJ. unfold defer. destruct (Hm s Hok HJ) as (H1 & H2 & H3). destruct (m s) as [o s1]. cbn in *.
  destruct (Hc s1 H1 H2) as (H4 & H5 & _). destruct (c s1) as [o2 s2]. cbn in *. done.
Qed.

Lemma safe_eff {X} (e : Eff X) : allowed e -> calls X e -> safe ok J (answers e) (eff e).
Proof.
  intros He Hc s Hok HJ. unfold eff. destruct (perform e (world s)) as [r w'] eqn:E.
  destruct (guarded X e (world s) r w' He Hc Hok E) as [Hok' Hr]. cbn. split_and!; [done..|]. by destruct r.
Qed.
Lemma safe_with_lock {A} l (Q : A -> Prop) (m : M Mem W A) :
  calls _ (LockAcquire l) -> calls _ (LockRelease l) -> safe ok J Q m -> safe ok J Q (with_lock l m).
Proof.
  intros Ha Hr Hm. unfold with_lock. eapply safe_bind; [by apply safe_eff|]. intros _ _.
  apply safe_defer; [|done]. eapply safe_any. by apply safe_eff.
Qed.

Lemma safe_for_each {A} (f : A -> M Mem W unit) l :
  (forall x, x ∈ l -> safe ok J anything (f x)) -> safe ok J anything (for_each f l).
Proof.
  induction l as [|x l IH]; intros Hf; cbn [for_each]; [by apply safe_ret|].
  eapply safe_bind; [apply Hf; left|]. intros _ _. apply IH. intros y Hy. apply Hf. by right.
Qed.
Lemma safe_fold_m {A B} (P : B -> Prop) (f : B -> A -> M Mem W B) b l :
  P b -> (forall b x, x ∈ l -> P b -> safe ok J P (f b x)) -> safe ok J P (fold_m f b l).
Proof.
  revert b. induction l as [|x l IH]; intros b Hb Hf; cbn [fold_m]; [by apply safe_ret|].
  eapply safe_bind; [by apply Hf; [left|]|]. intros b' Hb'. apply IH; [done|].
  intros b2 y Hy. apply Hf. by right.
Qed.
End Rules.

(** Loops over objects that are all well named. *)
Lemma safe_for_each_all {Mem W A} `{World W} (ok : W -> Prop) (J : Mem -> Prop) (P : A -> Prop)
    (f : A -> M Mem W unit) l :
  Forall P l -> (forall x, P x -> safe ok J anything (f x)) -> safe ok J anything (for_each f l).
Proof. intros Hl Hf. apply safe_for_each. intros x Hx. apply Hf. by eapply Forall_forall in Hl. Qed.

Create HintDb safe.
#[export] Hint Extern 0 (Guarded _ _) => typeclasses eauto : safe.

(** An object that was read, and written back with its name and address. *)
Ltac side :=
  first [ exact I | assumption | typeclasses eauto
        | match goal with Ho : well_named _ _ /\ _ |- allowed _ => exact (proj1 Ho) end ].
(** Walk through a handler.  What is known of a call's answer is kept; of a part that has
    a lemma in the database, what the lemma says; of any other part, nothing. *)
Ltac safe_part :=
  first
    [ lazymatch goal with
      | |- safe _ _ _ (try _) => apply safe_try
      | |- safe _ _ _ (on_err _ _) => apply safe_on_err
      end; safe_part
    | lazymatch goal with
      | |- safe _ _ _ (eff _) => eapply safe_eff; try side
      | |- safe _ _ _ get_mem => apply safe_get_mem
      | |- safe _ _ _ (lift_o _) => apply safe_lift_o; let E := fresh "E" in intros ? E; exact E
      end
    | solve [eauto with safe]
    | lazymatch goal with |- safe _ _ ?Q _ => try (is_evar Q; apply safe_unknown) end ].
(** Forget what says nothing. *)
Ltac trivial_answer Ha :=
  lazymatch type of Ha with True => clear Ha | anything _ => clear Ha | ?P => let P' := eval cbn beta in P in
    lazymatch P' with True => clear Ha | _ => change P' in Ha end end.
Ltac safe_step :=
  lazymatch goal with
  | |- safe _ _ _ (ret _) => apply safe_ret
  | |- safe _ _ _ (fail _) => apply safe_fail
  | |- safe _ _ _ (panic _) => apply safe_panic
  | |- safe _ _ anything (lift_o _) => apply safe_lift_o
  | |- safe _ _ anything get_mem => eapply safe_any; apply safe_get_mem
  | |- safe _ _ anything (try _) => eapply safe_any; apply safe_try
  | |- safe _ _ _ (modify_mem _) => apply safe_modify_mem
  | |- safe _ _ _ (bind _ _) =>
      eapply safe_bind; [safe_part|let a := fresh "a" in let Ha := fresh "Ha" in intros a Ha; cbn [answers] in Ha; try trivial_answer Ha]
  | |- safe _ _ _ (with_lock _ _) => eapply safe_with_lock; try side
  | |- safe _ _ _ (on_err _ _) => apply safe_on_err
  | |- safe _ _ anything (for_each _ _) =>
      apply safe_for_each; let x := fresh "x" in let Hx := fresh "Hx" in intros x Hx
  | |- safe _ _ anything (fold_m _ _ _) =>
      apply (safe_fold_m _ _ anything); [done|let x := fresh "x" in let Hx := fresh "Hx" in intros ? x Hx _]
  | |- safe _ _ ?Q (eff _) => eapply safe_weaken; [eapply safe_eff; try side|try first [by intros | by intros ? []]]
  | |- safe _ _ anything (match ?x with _ => _ end) => destruct x
  | |- safe _ _ _ (match ?x with _ => _ end) => let E := fresh "E" in destruct x eqn:E
  end.
Ltac safe_tac :=
  repeat first
    [ safe_step
    | exact I | done
    | lazymatch goal with |- anything _ => exact I | |- forall _, _ -> anything _ => by intros end
    | solve [eauto with safe] ].
