(* ===== verification/Naming.v ===== *)
(** * Objects stay named after their devices

    Every callback of the program, and the mutator of the webhook, writes only objects
    that are named after the device they describe, or as others named it, when it reads
    only such objects: the lemmas go through all handlers by the rules of [Guarded]. *)

From S2P Require Import Prelude GoStrings GoMonad Types Effects PCIDeviceApi Iommu DevicePlugins Common ClaimController NicHelper.
From S2P Require Import PCIDeviceController SRIOV Mig GPUHelper GPUController VGPUController MigController.
From S2P Require Import USBHelper UsbIds USBController NodeCleanup VirtualMachine WebhookVM Nodes Guarded.

Section Handlers.
Context `{Others} `{External} `{MapOrder} {W : Type} `{World W} (ok : W -> Prop) `{!Guarded any_call ok}.

(** ** Reading sysfs *)
Lemma safe_GetVFList {Mem} (J : Mem -> Prop) path : safe ok J anything (GetVFList path).
Proof. unfold GetVFList, vf_of_dir. safe_tac. Qed.
#[local] Hint Resolve safe_GetVFList : safe.

Lemma safe_CurrentVFConfigured {Mem} (J : Mem -> Prop) path : safe ok J anything (CurrentVFConfigured path).
Proof. unfold CurrentVFConfigured. safe_tac. Qed.
#[local] Hint Resolve safe_CurrentVFConfigured : safe.

(** ** PCI devices *)
Lemma safe_get_or_create {Mem} (J : Mem -> Prop) node dev labels :
  safe ok J (fun r => m_Name (pd_meta r.1) = PCIDeviceNameForHostname (pci_Address dev) node) (get_or_create node dev labels).
Proof.
  unfold get_or_create, QuerySRIOVNetworkDeviceOwnership. safe_step. destruct a as [e|cr]; cbn in Ha.
  - destruct (IsNotFound e); [|safe_tac]. safe_step. apply New_fields in Ha0 as (Haddr & Hnode & Hname). safe_step.
    { safe_tac. }
    safe_step; [right; left; cbn; by rewrite Haddr, Hnode|]. safe_tac. cbn. destruct Ha0 as [_ Heq]. by rewrite <- Hname.
  - safe_tac. cbn. by destruct Ha.
Qed.
#[local] Hint Resolve safe_get_or_create : safe.

Lemma safe_reconcile_device {Mem} (J : Mem -> Prop) node skip groups labels dev :
  safe ok J anything (reconcile_device node skip groups labels dev).
Proof.
  unfold reconcile_device. safe_step; [safe_tac|]. safe_step. safe_step. apply Update_fields in Ha0 as (Haddr & Hnode & _).
  safe_step; [|safe_tac]. right. left. cbn. by rewrite Haddr, Hnode.
Qed.
#[local] Hint Resolve safe_reconcile_device : safe.

Lemma safe_ReconcilePCIDevices {Mem} (J : Mem -> Prop) devices skip node :
  safe ok J anything (ReconcilePCIDevices devices skip node).
Proof.
  unfold ReconcilePCIDevices, reconcile_devices, GroupPaths, group_devices. safe_tac.
Qed.
#[local] Hint Resolve safe_ReconcilePCIDevices : safe.

(** ** USB devices, management cards, the node and its clean-up: no constraint *)
Lemma safe_first_interface {Mem} (J : Mem -> Prop) path entries :
  safe ok J anything (first_interface_class path entries).
Proof.
  induction entries as [|[name isDir] entries IH]; cbn [first_interface_class]; unfold parseClassCode, readSysfsString; safe_tac.
Qed.
#[local] Hint Resolve safe_first_interface : safe.

Lemma safe_Reconcile {Mem} (J : Mem -> Prop) Vendors node :
  safe ok J anything (Reconcile Vendors node).
Proof.
  unfold Reconcile, handleList, handle_create, handle_orphan, WalkUSBDevices, visit_usb, parseSysUeventFile,
    parseUSBClassType, parseClassCode, readSysfsString. safe_tac.
Qed.
#[local] Hint Resolve safe_Reconcile : safe.

Lemma safe_IdentifyHarvesterManagedNIC {Mem} (J : Mem -> Prop) node :
  safe ok J anything (IdentifyHarvesterManagedNIC node).
Proof.
  unfold IdentifyHarvesterManagedNIC, IdentifyManagementNics, identifyClusterNetworks, ListNICSInUseBySRIOV,
    IsNICSRIOVCapable, nic_CurrentVFConfigured. safe_tac.
Qed.
#[local] Hint Resolve safe_IdentifyHarvesterManagedNIC : safe.

Lemma safe_checkAndUpdateNodeLabels {Mem} (J : Mem -> Prop) node :
  safe ok J anything (checkAndUpdateNodeLabels node).
Proof. unfold checkAndUpdateNodeLabels. safe_tac. Qed.
#[local] Hint Resolve safe_checkAndUpdateNodeLabels : safe.

Lemma safe_SetupNodeObjects {Mem} (J : Mem -> Prop) node :
  safe ok J anything (SetupNodeObjects node).
Proof. unfold SetupNodeObjects. safe_tac. Qed.
#[local] Hint Resolve safe_SetupNodeObjects : safe.

Lemma safe_remove_labelled {Mem} (J : Mem -> Prop) k node : safe ok J anything (remove_labelled k node).
Proof. unfold remove_labelled. safe_tac. Qed.
#[local] Hint Resolve safe_remove_labelled : safe.

Lemma safe_removePCIDeviceClaimsOnNode {Mem} (J : Mem -> Prop) node : safe ok J anything (removePCIDeviceClaimsOnNode node).
Proof.
  unfold removePCIDeviceClaimsOnNode. safe_step. apply (safe_for_each_all _ _ (well_named KPCIDeviceClaim)); [done|].
  intros c Hc. unfold remove_claim. safe_tac.
Qed.
#[local] Hint Resolve safe_removePCIDeviceClaimsOnNode : safe.

Lemma safe_node_OnRemove {Mem} (J : Mem -> Prop) o : safe ok J anything (node_OnRemove o).
Proof.
  unfold node_OnRemove, cleanupFuncs. cbn [for_each]. unfold removeUSBDeviceClaimsOnNode, remove_usb_claim,
    removeNodeObject, removePCIDevicesOnNode, removeSRIOVNetworkDevicesOnNode, removeUSBDevicesOnNode,
    removeSRIOVGPUDevicesOnNode, removeVGPUDevicesOnNode. safe_tac.
Qed.
#[local] Hint Resolve safe_node_OnRemove : safe.

(** ** Network cards *)
Lemma safe_GenerateSRIOVNics {Mem} (J : Mem -> Prop) node nics :
  safe ok J (Forall (well_named KSRIOVNetworkDevice)) (GenerateSRIOVNics node nics).
Proof.
  unfold GenerateSRIOVNics, generateSRIOVDeviceObjects, identifyClusterNetworks, IdentifyManagementNics, IsNICSRIOVCapable.
  safe_step; [safe_tac|]. safe_step; [safe_tac|]. apply safe_fold_m; [constructor|]. intros l nic _ Hl. safe_tac.
  destruct a1; [|done]. apply Forall_app. split; [done|]. constructor; [|constructor]. left. by exists (nic_Name nic).
Qed.
#[local] Hint Resolve safe_GenerateSRIOVNics : safe.

Lemma safe_SetupSriovDevices J : safe ok J anything SetupSriovDevices.
Proof.
  unfold SetupSriovDevices, delete_old. do 4 safe_step. safe_step; [|safe_tac].
  apply (safe_for_each_all _ _ (well_named KSRIOVNetworkDevice)); [done|]. intros d Hd. unfold create_new. safe_tac.
Qed.
#[local] Hint Resolve safe_SetupSriovDevices : safe.

Lemma safe_reconcileSriovDevice J o :
  from_option (well_named KSRIOVNetworkDevice) True o -> safe ok J anything (reconcileSriovDevice o).
Proof.
  intros Ho. unfold reconcileSriovDevice, ensureDeviceIsDisabled, ensureDeviceIsConfigured, store_status, ConfigureVF,
    nic_CurrentVFConfigured, nic_GetVFList. destruct o as [d|]; safe_tac.
Qed.
#[local] Hint Resolve safe_reconcileSriovDevice : safe.

(** ** GPUs and vGPUs

    The cached vGPUs are in order: the cache is keyed by their names. *)
Definition vgpus_named (l : gmap string VGPUDevice) : Prop :=
  forall n v, l !! n = Some v -> well_named KVGPUDevice v /\ vgpu_name v = n.
Definition gpu_memory (h : GPUController.Handler) : Prop := vgpus_named (h_vgpus h).

Lemma vgpus_named_insert l n v v' :
  vgpus_named l -> l !! n = Some v -> vgpu_meta v' = vgpu_meta v -> vgpu_Spec v' = vgpu_Spec v ->
  vgpus_named (<[n := v']> l).
Proof.
  intros Hl Hv Hm Hs k u. rewrite lookup_insert. destruct (decide (n = k)) as [<-|Hne]; [|by apply Hl].
  intros [= <-]. destruct (Hl n v Hv) as [Hw Hn]. cbn in *. unfold vgpu_name in *. by rewrite Hm, Hs.
Qed.

Lemma safe_GenerateGPUStatus {Mem} (J : Mem -> Prop) path host : safe ok J anything (GenerateGPUStatus path host).
Proof. unfold GenerateGPUStatus. safe_tac. Qed.
#[local] Hint Resolve safe_GenerateGPUStatus : safe.

Lemma safe_IdentifySRIOVGPU {Mem} (J : Mem -> Prop) host :
  safe ok J (Forall (well_named KSRIOVGPUDevice)) (IdentifySRIOVGPU host).
Proof.
  unfold IdentifySRIOVGPU, IsDeviceSRIOVCapable. safe_step. apply safe_fold_m; [constructor|]. intros l v _ Hl. safe_tac.
  apply Forall_app. split; [done|]. constructor; [by right; left|constructor].
Qed.
#[local] Hint Resolve safe_IdentifySRIOVGPU : safe.

Lemma safe_SetupSRIOVGPUDevices J : safe ok J anything SetupSRIOVGPUDevices.
Proof.
  unfold SetupSRIOVGPUDevices, reconcileSRIOVGPUSetup, delete_gone_gpu. do 2 safe_step. safe_step; [|safe_tac].
  apply (safe_for_each_all _ _ (well_named KSRIOVGPUDevice)); [done|]. intros g Hg.
  unfold setup_gpu, createOrUpdateSRIOVGPUDevice. safe_tac.
Qed.
#[local] Hint Resolve safe_SetupSRIOVGPUDevices : safe.

Lemma safe_OnGPUChange J o :
  from_option (well_named KSRIOVGPUDevice) True o -> safe ok J anything (OnGPUChange o).
Proof. intros Ho. unfold OnGPUChange, manageGPU. destruct o as [g|]; safe_tac. Qed.
#[local] Hint Resolve safe_OnGPUChange : safe.

Lemma safe_setupRemoteExecutor o : safe ok gpu_memory anything (setupRemoteExecutor o).
Proof. unfold setupRemoteExecutor. safe_tac. Qed.
#[local] Hint Resolve safe_setupRemoteExecutor : safe.

Lemma safe_deref p : safe ok gpu_memory (fun v => well_named KVGPUDevice v /\ vgpu_name v = p) (deref p).
Proof. unfold deref. safe_step. destruct (h_vgpus a !! p) as [v|] eqn:E; safe_tac. Qed.
#[local] Hint Resolve safe_deref : safe.

Lemma safe_write_status p st :
  safe ok gpu_memory (fun v => well_named KVGPUDevice v /\ vgpu_name v = p) (write_status p st).
Proof.
  intros s Hok HJ. unfold write_status, deref, bind, get_mem.
  destruct (h_vgpus (mem s) !! p) as [v|] eqn:E; [|done].
  cbn. destruct (HJ p v E) as [Hw Hn]. split_and!; [done| |done|done]. by apply (vgpus_named_insert _ _ v).
Qed.
#[local] Hint Resolve safe_write_status : safe.

Lemma safe_FetchVGPUStatus {Mem} (J : Mem -> Prop) root addr : safe ok J anything (FetchVGPUStatus root addr).
Proof. unfold FetchVGPUStatus, fetchCurrentVGPUType, fetchAvailableTypes. safe_tac. Qed.
#[local] Hint Resolve safe_FetchVGPUStatus : safe.

Lemma safe_patchPCIDeviceStatus J n r : safe ok J anything (patchPCIDeviceStatus n r).
Proof. unfold patchPCIDeviceStatus. safe_tac. Qed.
#[local] Hint Resolve safe_patchPCIDeviceStatus : safe.

Lemma safe_patchPCIDeviceSpec J n r a : safe ok J anything (patchPCIDeviceSpec n r a).
Proof. unfold patchPCIDeviceSpec. safe_tac. Qed.
#[local] Hint Resolve safe_patchPCIDeviceSpec : safe.

Lemma safe_cleanupRelatedPCIDeviceObjects J n : safe ok J anything (cleanupRelatedPCIDeviceObjects n).
Proof. unfold cleanupRelatedPCIDeviceObjects, cleanupPCIDeviceSpec. safe_tac. Qed.
#[local] Hint Resolve safe_cleanupRelatedPCIDeviceObjects : safe.

Lemma safe_submitPCIDeviceClaim J v : well_named KVGPUDevice v -> safe ok J anything (submitPCIDeviceClaim v).
Proof.
  intros Hv. unfold submitPCIDeviceClaim. safe_tac. split; [exact Hv|]. left. by destruct Ha.
Qed.
#[local] Hint Resolve safe_submitPCIDeviceClaim : safe.

Lemma safe_vGPUCache_List sel : safe ok gpu_memory anything (vGPUCache_List sel).
Proof. unfold vGPUCache_List. safe_tac. Qed.
#[local] Hint Resolve safe_vGPUCache_List : safe.

Lemma safe_reconcileDisabledVGPUStatus v : safe ok gpu_memory anything (reconcileDisabledVGPUStatus v).
Proof. unfold reconcileDisabledVGPUStatus. safe_tac. Qed.
#[local] Hint Resolve safe_reconcileDisabledVGPUStatus : safe.

Lemma safe_enableVGPU p : safe ok gpu_memory anything (enableVGPU p).
Proof.
  unfold enableVGPU. do 2 safe_step; [|safe_tac]. destruct Ha as [Hw _]. safe_tac.
Qed.
#[local] Hint Resolve safe_enableVGPU : safe.

Lemma safe_disableVGPU p : safe ok gpu_memory anything (disableVGPU p).
Proof. unfold disableVGPU. safe_tac. Qed.
#[local] Hint Resolve safe_disableVGPU : safe.

Lemma safe_OnVGPUChange o : safe ok gpu_memory anything (OnVGPUChange o).
Proof. unfold OnVGPUChange. safe_tac. Qed.
#[local] Hint Resolve safe_OnVGPUChange : safe.

Lemma safe_IdentifyVGPU {Mem} (J : Mem -> Prop) host : safe ok J (Forall (well_named KVGPUDevice)) (IdentifyVGPU host).
Proof.
  unfold IdentifyVGPU, generateVGPUDevice, evalPhysFn. safe_step. apply safe_fold_m; [constructor|]. intros l d _ Hl.
  safe_step; [|safe_tac]. apply (safe_bind _ _ (well_named KVGPUDevice)).
  - safe_tac. right. by left.
  - intros v Hv. safe_tac. apply Forall_app. split; [done|]. by constructor.
Qed.
#[local] Hint Resolve safe_IdentifyVGPU : safe.

Lemma safe_SetupVGPUDevices : safe ok gpu_memory anything SetupVGPUDevices.
Proof.
  unfold SetupVGPUDevices, reconcileVGPUSetup, delete_if_gone, isParentGPUEnabled, label_pci_device.
  do 4 safe_step. safe_step; [|safe_tac].
  apply (safe_for_each_all _ _ (well_named KVGPUDevice)); [done|]. intros v Hv.
  unfold update_or_create. safe_tac.
Qed.
#[local] Hint Resolve safe_SetupVGPUDevices : safe.

(** ** MIG configurations *)
Lemma safe_GenerateMIGConfigurationStatus {Mem} (J : Mem -> Prop) ex a :
  safe ok J anything (GenerateMIGConfigurationStatus ex a).
Proof. unfold GenerateMIGConfigurationStatus, Run. safe_tac. Qed.
#[local] Hint Resolve safe_GenerateMIGConfigurationStatus : safe.

Lemma safe_GenerateMIGConfiguration {Mem} (J : Mem -> Prop) ex a n :
  safe ok J (fun m => m_Name (mig_meta m) = n /\ mig_GPUAddress (mig_Spec m) = a) (GenerateMIGConfiguration ex a n).
Proof. unfold GenerateMIGConfiguration, Run. safe_tac. Qed.
#[local] Hint Resolve safe_GenerateMIGConfiguration : safe.

Lemma safe_create_mig J ex g : well_named KSRIOVGPUDevice g -> safe ok J anything (create_mig ex g).
Proof.
  intros Hg. unfold create_mig. safe_step. destruct Ha as [Hname Haddr]. safe_step. safe_step; [|safe_tac].
  cbn. by rewrite Hname, Haddr.
Qed.
#[local] Hint Resolve safe_create_mig : safe.

Lemma safe_reconcileMIGConfiguration b J o :
  from_option (well_named KSRIOVGPUDevice) True o -> safe ok J anything (reconcileMIGConfiguration b o).
Proof.
  intros Ho. unfold reconcileMIGConfiguration, setupMigConfiguration, IsMigConfigurationNeeded, EnableMIGMode, mig_exists, Run.
  destruct o as [g|]; safe_tac.
Qed.
#[local] Hint Resolve safe_reconcileMIGConfiguration : safe.

Lemma safe_OnMIGChange J n o :
  from_option (well_named KMigConfiguration) True o -> safe ok J anything (OnMIGChange n o).
Proof.
  intros Ho. unfold OnMIGChange, enable_profiles, disable_profiles, migStatus, EnableMIGProfiles, DisableMIGProfiles, CreateMIGInstance,
    DeleteMIGInstance, Run.
  destruct o as [m|]; safe_tac.
Qed.
#[local] Hint Resolve safe_OnMIGChange : safe.

(** ** Claims of PCI devices *)
Lemma safe_unbindDeviceFromDriver J a d : safe ok J anything (unbindDeviceFromDriver a d).
Proof. unfold unbindDeviceFromDriver, deviceBoundToDriver. safe_tac. Qed.
#[local] Hint Resolve safe_unbindDeviceFromDriver : safe.

Lemma safe_loadVfioDrivers J : safe ok J anything loadVfioDrivers.
Proof. unfold loadVfioDrivers. safe_tac. Qed.
#[local] Hint Resolve safe_loadVfioDrivers : safe.

Lemma safe_getPCIDeviceForClaim J c : safe ok J (well_named KPCIDevice) (getPCIDeviceForClaim c).
Proof. unfold getPCIDeviceForClaim. safe_tac. Qed.
#[local] Hint Resolve safe_getPCIDeviceForClaim : safe.

Lemma safe_attemptToEnablePassthrough J d c :
  well_named KPCIDevice d -> safe ok J anything (attemptToEnablePassthrough d c).
Proof.
  intros Hd. unfold attemptToEnablePassthrough, enablePassthrough, bindDeviceToVFIOPCIDriver, deviceBoundToDriver.
  safe_tac.
Qed.
#[local] Hint Resolve safe_attemptToEnablePassthrough : safe.

Lemma safe_disablePassthrough J d : well_named KPCIDevice d -> safe ok J anything (disablePassthrough d).
Proof.
  intros Hd. unfold disablePassthrough, bindDeviceToOriginalDriver, deviceBoundToDriver. safe_tac.
Qed.
#[local] Hint Resolve safe_disablePassthrough : safe.

Lemma safe_enable_claimed_device d c :
  well_named KPCIDevice d -> well_named KPCIDeviceClaim c ->
  safe ok anything anything (enable_claimed_device d c).
Proof.
  intros Hd Hc. unfold enable_claimed_device, permitHostDeviceInKubeVirt, add_to_plugin, store_plugin. safe_tac.
Qed.
#[local] Hint Resolve safe_enable_claimed_device : safe.

Lemma safe_ensureIndividual J d : well_named KPCIDevice d ->
  safe ok J (well_named KPCIDevice) (ensureIndividualDeviceResourceName d).
Proof. intros Hd. unfold ensureIndividualDeviceResourceName. safe_tac. Qed.
#[local] Hint Resolve safe_ensureIndividual : safe.

Lemma safe_reconcilePCIDeviceClaims o :
  from_option (well_named KPCIDeviceClaim) True o ->
  safe ok anything anything (reconcilePCIDeviceClaims o).
Proof.
  intros Ho. unfold reconcilePCIDeviceClaims, checkVFIOModules, checkModulesExists, checkGroupMap, GetGroupMap, GroupPaths, group_devices.
  destruct o as [c|]; [|safe_tac]. safe_step. safe_step; [safe_tac|]. safe_step; [safe_tac|]. safe_step; [safe_tac|].
  safe_step. safe_step; [safe_tac|]. apply (safe_bind _ _ (well_named KPCIDevice)); [safe_tac|].
  intros d Hd. safe_tac.
Qed.
#[local] Hint Resolve safe_reconcilePCIDeviceClaims : safe.

Lemma safe_claim_OnRemove o :
  from_option (well_named KPCIDeviceClaim) True o ->
  safe ok anything anything (ClaimController.OnRemove o).
Proof.
  intros Ho. unfold ClaimController.OnRemove, remove_from_plugin, store_plugin, Stop, DevicePlugins.cleanup,
    cleanupIndividualDeviceResourceName.
  destruct o as [c|]; safe_tac.
Qed.
#[local] Hint Resolve safe_claim_OnRemove : safe.

Lemma safe_unbindOrphanedPCIDevices J : safe ok J anything unbindOrphanedPCIDevices.
Proof. unfold unbindOrphanedPCIDevices. safe_tac. Qed.
#[local] Hint Resolve safe_unbindOrphanedPCIDevices : safe.

Lemma safe_claim_OnDeviceChange J o : safe ok J anything (ClaimController.OnDeviceChange o).
Proof. unfold ClaimController.OnDeviceChange. safe_tac. Qed.
#[local] Hint Resolve safe_claim_OnDeviceChange : safe.

(** ** Claims of USB devices, virtual machines *)
Lemma safe_OnUSBDeviceClaimChanged o : safe ok anything anything (OnUSBDeviceClaimChanged o).
Proof.
  unfold OnUSBDeviceClaimChanged, device_of_claim, enable_usb, updateKubeVirt, plugin_for, ensure_started. safe_tac.
Qed.
#[local] Hint Resolve safe_OnUSBDeviceClaimChanged : safe.

Lemma safe_usb_OnRemove o : safe ok anything anything (usb_OnRemove o).
Proof. unfold usb_OnRemove, device_of_claim, disable_usb, release_permitted. safe_tac. Qed.
#[local] Hint Resolve safe_usb_OnRemove : safe.

Lemma safe_usb_OnDeviceChange {Mem} (J : Mem -> Prop) n o : safe ok J anything (usb_OnDeviceChange n o).
Proof. unfold usb_OnDeviceChange. safe_tac. Qed.
#[local] Hint Resolve safe_usb_OnDeviceChange : safe.

Lemma safe_OnVMIChange n o : safe ok anything anything (OnVMIChange n o).
Proof.
  unfold OnVMIChange, checkAndClearDeviceAllocation, trackDevices, generatePodEnvMap, findPodForVMI, getPodEnv,
    reconcileDeviceAllocationDetails, devices_when, reconcileVMResourceAllocationAnnotation, vmCache_Get, write_cached.
  safe_tac.
Qed.
#[local] Hint Resolve safe_OnVMIChange : safe.

Lemma safe_OnVMIDeletion n o : safe ok anything anything (OnVMIDeletion n o).
Proof. unfold OnVMIDeletion, with_template, vmCache_Get, write_cached. safe_tac. Qed.
#[local] Hint Resolve safe_OnVMIDeletion : safe.

(** ** The mutator of the webhook: the claims of a group *)
Definition devices_named (l : list pciDeviceWithOwners) : Prop :=
  Forall (fun v => well_named KPCIDevice (wo_device v)) l.

Lemma safe_group_mates {Mem} (J : Mem -> Prop) l :
  safe ok J (fun r => match r with Some l => devices_named l | None => True end) (group_mates l).
Proof.
  induction l as [|v l IH]; cbn [group_mates]; [safe_tac; constructor|].
  safe_step. safe_step; [safe_tac|]. safe_step. safe_step; [safe_tac|]. safe_step.
  eapply safe_bind; [exact IH|]. intros more Hmore. safe_tac. destruct more as [more|]; [|done].
  apply Forall_app. split; [|done]. by apply Forall_fmap.
Qed.
#[local] Hint Resolve safe_group_mates : safe.

Lemma safe_generateHostDevicesPatch {Mem} (J : Mem -> Prop) vm : safe ok J anything (generateHostDevicesPatch vm).
Proof.
  unfold generateHostDevicesPatch. safe_step. destruct a as [l|]; [|safe_tac]. safe_step; [|safe_tac].
  apply (safe_for_each_all _ _ (fun v => well_named KPCIDevice (wo_device v))).
  - unfold identifyAdditionalPCIDevices. apply Forall_forall. intros v Hv. apply list_elem_of_In, filter_In in Hv as [Hv _].
    apply list_elem_of_In in Hv. by eapply Forall_forall in Ha.
  - intros v Hv. unfold findAndCreateClaim. safe_tac. split; [exact Hv|by left].
Qed.
#[local] Hint Resolve safe_generateHostDevicesPatch : safe.

Lemma safe_VM_Create {Mem} (J : Mem -> Prop) vm : safe ok J anything (VM_Create vm).
Proof. unfold VM_Create, with_template. safe_tac. Qed.
Lemma safe_VM_Update {Mem} (J : Mem -> Prop) old vm : safe ok J anything (VM_Update old vm).
Proof. unfold VM_Update, with_template, reconcileDeviceAllocationAnnotation. safe_tac. Qed.

(** ** The pass over a node *)
Lemma safe_with_mem {Mem Mem' A} (J : Mem -> Prop) (J' : Mem' -> Prop) (Q : A -> Prop) get put (m : M Mem W A) :
  safe ok J Q m -> (forall h, J' h -> J (get h)) -> (forall h h', J' h -> J h' -> J' (put h' h)) ->
  safe ok J' Q (with_mem get put m).
Proof.
  intros Hm Hget Hput s Hok HJ. unfold with_mem.
  destruct (Hm (State (get (mem s)) (world s)) Hok (Hget _ HJ)) as (Hw & Hm' & HQ).
  destruct (m _) as [o s1]. cbn in *. split_and!; [done|by apply Hput|done].
Qed.

Definition node_memory (h : NodeHandler) : Prop := vgpus_named (nh_vgpus h).

Lemma safe_reconcileNodeDevices Vendors n o : safe ok node_memory anything (reconcileNodeDevices Vendors n o).
Proof.
  assert (safe ok node_memory anything (with_mem nh_nodeName (fun _ h => h) SetupSriovDevices)) as S1
    by (apply (safe_with_mem anything); [auto with safe|done|done]).
  assert (safe ok node_memory anything (with_mem gpu_handler set_gpu_handler SetupSRIOVGPUDevices)) as S2
    by (apply (safe_with_mem gpu_memory); [auto with safe|done|done]).
  assert (safe ok node_memory anything (with_mem gpu_handler set_gpu_handler SetupVGPUDevices)) as S3
    by (apply (safe_with_mem gpu_memory); [auto with safe|done|done]).
  unfold reconcileNodeDevices, node_passes. safe_tac.
Qed.
#[local] Hint Resolve safe_reconcileNodeDevices : safe.
End Handlers.

#[export] Hint Resolve safe_reconcilePCIDeviceClaims safe_claim_OnRemove safe_claim_OnDeviceChange
  safe_unbindOrphanedPCIDevices safe_loadVfioDrivers safe_OnUSBDeviceClaimChanged safe_usb_OnRemove
  safe_usb_OnDeviceChange safe_Reconcile safe_reconcileNodeDevices safe_SetupNodeObjects safe_reconcileSriovDevice
  safe_OnGPUChange safe_reconcileMIGConfiguration safe_OnVGPUChange safe_setupRemoteExecutor safe_OnMIGChange
  safe_OnVMIChange safe_OnVMIDeletion safe_node_OnRemove safe_VM_Create safe_VM_Update : safe.
