(* ===== verification/Cluster.v ===== *)
(** * The cluster

    The processes of all nodes, the clean-up of the elected leader and the webhook work
    on one API server.  A step is the start of a process, a callback that is given an
    object, a refresh of the cache of vGPUs, a request of the webhook, or anything that
    users and other programs do, who may write objects of any name and with any owner.
    Whatever the order of the steps, the objects of devices and claims stay named after
    their devices, but for the identities that others wrote. *)

From S2P Require Import Prelude GoStrings GoMonad Types Effects PCIDeviceApi UsbIds USBHelper USBController NodeCleanup VirtualMachine.
From S2P Require Import GPUController VGPUController MigController SRIOV ClaimController PCIDeviceController WebhookVM Nodes System Guarded Naming Sim.

(** ** The objects of an event *)
Definition object : Type := {k : Kind & Obj k}.
Definition sent {X} (e : Eff X) : list object :=
  match e with
  | ApiCreate k o | ApiUpdate k o | ApiUpdateStatus k o | CacheWrite k o => [existT k o]
  | _ => []
  end.
Definition got {X} (e : Eff X) : X -> list object :=
  match e in Eff X return X -> list object with
  | ApiGet k _ _ | CacheGet k _ _ | ApiCreate k _ | ApiUpdate k _ | ApiUpdateStatus k _ => fun o => [existT k o]
  | ApiList k _ _ | CacheList k _ | CacheByIndex k _ _ => fun l => existT k <$> l
  | _ => fun _ => []
  end.
Definition objects (ev : event) : list object :=
  match ev with Ev e r => sent e ++ match r with inr x => got e x | inl _ => [] end end.
Definition named `{Others} (p : object) : Prop := well_named (projT1 p) (projT2 p).

Lemma good_event_objects `{Others} ev : good_event ev -> Forall named (objects ev).
Proof.
  destruct ev as [X e r]. intros [He Hr]. unfold objects. apply Forall_app. split.
  - destruct e; cbn in *; by repeat constructor.
  - destruct r as [er|x]; [constructor|]. destruct e; cbn in *; try (by repeat constructor);
      try (constructor; [exact (proj1 Hr)|constructor]); by apply Forall_fmap.
Qed.

Section Cluster.
Context `{Others} `{External} `{MapOrder} {W : Type} `{World W} (ok : W -> Prop) `{!Guarded any_call ok}
  (Vendors : gmap Z Vendor) (get_returns_empty : bool) (IsDir : string -> bool).
#[local] Abbreviation M := (M Process (Logged W)).

(** ** Callbacks *)
Definition process_ok (p : Process) : Prop := gpu_memory (pr_gpu p).
#[local] Abbreviation safely := (safe (good_log ok) process_ok anything).

Definition registration_safe (r : @registration (Logged W)) : Prop :=
  match r with
  | OnChange k _ f | OnRemoved k _ f => forall key o, from_option (well_named k) True o -> safely (f key o)
  | WatchClusterScoped _ k resolve _ => forall o, from_option (well_named k) True o -> safely (resolve o)
  end.

Lemma in_claims_safe {A} (m : GoMonad.M ClaimController.Handler (Logged W) A) :
  safe (good_log ok) anything anything m -> safely (in_claims m).
Proof. intros Hm. by apply (safe_with_mem _ anything). Qed.
Lemma in_usb_safe {A} (m : GoMonad.M DevClaimHandler (Logged W) A) :
  safe (good_log ok) anything anything m -> safely (in_usb m).
Proof. intros Hm. by apply (safe_with_mem _ anything). Qed.
Lemma in_gpu_safe {A} (m : GoMonad.M GPUController.Handler (Logged W) A) :
  safe (good_log ok) gpu_memory anything m -> safely (in_gpu m).
Proof. intros Hm. by apply (safe_with_mem _ gpu_memory). Qed.
Lemma in_vms_safe {A} (m : GoMonad.M VMCache (Logged W) A) :
  safe (good_log ok) anything anything m -> safely (in_vms m).
Proof. intros Hm. by apply (safe_with_mem _ anything). Qed.
Lemma in_sriov_safe {A} node (m : GoMonad.M NodeName (Logged W) A) :
  safe (good_log ok) anything anything m -> safely (in_sriov node m).
Proof. intros Hm. by apply (safe_with_mem _ anything). Qed.
Lemma in_nodes_safe {A} node (m : GoMonad.M NodeHandler (Logged W) A) :
  safe (good_log ok) node_memory anything m -> safely (in_nodes node m).
Proof. intros Hm. by apply (safe_with_mem _ node_memory). Qed.
#[local] Hint Resolve in_claims_safe in_usb_safe in_gpu_safe in_vms_safe in_sriov_safe in_nodes_safe : safe.

Lemma callbacks_safe node : Forall registration_safe (callbacks Vendors get_returns_empty node).
Proof.
  unfold callbacks. cbn [claim_callbacks usb_callbacks node_callbacks sriov_callbacks gpu_callbacks vm_callbacks app].
  repeat (apply Forall_cons; split); [..|constructor]; cbn [registration_safe]; intros; eauto with safe.
Qed.

Lemma register_all_safe node : safely (register_all Vendors get_returns_empty node IsDir).
Proof.
  unfold register_all, registers, pcideviceclaim_Register, usbdevice_Register, watch_usb_tree, nodes_Register,
    sriovdevice_Register, gpudevice_Register, virtualmachine_Register.
  cbn [fold_m]. safe_tac.
Qed.

(** ** Steps *)
Record cluster := { procs : gmap string Process; server : Logged W }.

(** An object that a cache held at some time, or the report of a deletion. *)
Definition held (k : Kind) (n : string) (o : Obj k) : Prop :=
  exists ns w w', ok w /\ perform (CacheGet k ns n) w = (inr o, w').
Definition given (k : Kind) (o : option (Obj k)) : Prop := from_option (fun o => exists n, held k n o) True o.

Inductive handles : @registration (Logged W) -> state Process (Logged W) -> state Process (Logged W) -> Prop :=
| handles_change k name f key o s : given k o -> handles (OnChange k name f) s (snd (f key o s))
| handles_removed k name f key o s : given k o -> handles (OnRemoved k name f) s (snd (f key o s))
| handles_watch name k resolve enqueuer o s :
    given k o -> handles (WatchClusterScoped name k resolve enqueuer) s (snd (resolve o s)).

Definition at_node (node : string) (s : state Process (Logged W)) (c : cluster) : cluster :=
  {| procs := <[node := mem s]> (procs c); server := world s |}.

Inductive cluster_step (c : cluster) : cluster -> Prop :=
| step_start node :
    cluster_step c (at_node node
      (snd (register_all Vendors get_returns_empty node IsDir (State (new_process node) (server c)))) c)
| step_node_object node p :
    procs c !! node = Some p -> cluster_step c (at_node node (snd (SetupNodeObjects node (State p (server c)))) c)
| step_callback node p r s :
    procs c !! node = Some p -> r ∈ callbacks Vendors get_returns_empty node ->
    handles r (State p (server c)) s -> cluster_step c (at_node node s c)
| step_refresh node p l :
    procs c !! node = Some p -> map_Forall (held KVGPUDevice) l ->
    cluster_step c (at_node node (State (set_gpu (set_vgpus l (pr_gpu p)) p) (server c)) c)
| step_leader o :
    given KCoreNode o ->
    cluster_step c {| procs := procs c; server := world (snd (node_OnRemove o (State tt (server c)))) |}
| step_vm_created vm :
    cluster_step c {| procs := procs c; server := world (snd (VM_Create vm (State tt (server c)))) |}
| step_vm_updated old vm :
    cluster_step c {| procs := procs c; server := world (snd (VM_Update old vm (State tt (server c)))) |}
| step_outside w :
    ok w -> cluster_step c {| procs := procs c; server := (w, snd (server c)) |}.

(** Nothing runs yet and nothing was asked. *)
Definition fresh (c : cluster) : Prop := procs c = ∅ /\ ok (fst (server c)) /\ snd (server c) = [].

Definition cluster_ok (c : cluster) : Prop := good_log ok (server c) /\ map_Forall (fun _ => process_ok) (procs c).

Lemma fresh_ok c : fresh c -> cluster_ok c.
Proof.
  intros (Hp & Hok & Hlog). split; [split; [done|]; rewrite Hlog; constructor|]. rewrite Hp. apply map_Forall_empty.
Qed.

Lemma held_named k n o : held k n o -> well_named k o /\ name_of o = n.
Proof. intros (ns & w & w' & Hok & Hget). by destruct (guarded _ (CacheGet k ns n) w (inr o) w' I I Hok Hget). Qed.
Lemma given_named k o : given k o -> from_option (well_named k) True o.
Proof. destruct o as [o|]; [|done]. intros [n Ho]. by apply held_named in Ho as [? _]. Qed.

Lemma at_node_ok node c (s : state Process (Logged W)) :
  cluster_ok c -> good_log ok (world s) -> process_ok (mem s) -> cluster_ok (at_node node s c).
Proof. intros [_ Hp] Hw Hm. split; [done|]. by apply map_Forall_insert_2. Qed.

Lemma run_at_node {A} node c p (m : M A) :
  safely m -> cluster_ok c -> process_ok p -> cluster_ok (at_node node (snd (m (State p (server c)))) c).
Proof.
  intros Hm Hc Hp. destruct (Hm (State p (server c)) (proj1 Hc) Hp) as (Hw & Hp' & _). by apply at_node_ok.
Qed.

Lemma handles_ok node c p r s :
  cluster_ok c -> process_ok p -> registration_safe r -> handles r (State p (server c)) s -> cluster_ok (at_node node s c).
Proof.
  intros Hc Hp Hr Hs. remember (State p (server c)) as s0 eqn:Heq. destruct Hs; subst; cbn [registration_safe] in Hr;
    apply run_at_node; auto using given_named.
Qed.

Lemma outside_process {A} c (m : GoMonad.M unit (Logged W) A) :
  safe (good_log ok) anything anything m -> cluster_ok c ->
  cluster_ok {| procs := procs c; server := world (snd (m (State tt (server c)))) |}.
Proof. intros Hm [Hw Hp]. by destruct (Hm (State tt (server c)) Hw I) as (Hw' & _ & _). Qed.

Lemma cluster_step_ok c c' : cluster_ok c -> cluster_step c c' -> cluster_ok c'.
Proof.
  intros Hc Hstep. pose proof Hc as [Hw Hp]. destruct Hstep as [node|node p Hn|node p r s Hn Hr Hs|node p l Hn Hl|o Ho|vm|old vm|w Hok].
  - apply run_at_node; [apply register_all_safe|done|]. intros n v. cbn. by rewrite lookup_empty.
  - apply run_at_node; [eauto with safe|done|by apply (Hp node)].
  - eapply handles_ok; [done|by apply (Hp node)| |exact Hs]. pose proof (callbacks_safe node) as Hall.
    by eapply Forall_forall in Hall.
  - apply at_node_ok; [done..|]. intros n v Hv. apply (held_named _ _ _ (Hl n v Hv)).
  - apply outside_process; eauto with safe.
  - apply outside_process; eauto with safe.
  - apply outside_process; eauto with safe.
  - split; [|done]. by split; [|apply Hw].
Qed.

Lemma reachable_ok c0 c : rtc cluster_step c0 c -> cluster_ok c0 -> cluster_ok c.
Proof. induction 1; eauto using cluster_step_ok. Qed.

(** C3: however the processes of the nodes, the leader's clean-up, the webhook and everybody
    else take turns, the program never misnames an object: of every object that it ever
    sent to the API server or got from it, the identity is that of a device (devices,
    claims, GPUs, vGPUs and MIG configurations are named after the address and the node
    of their device, network cards after their node), or it is one that others wrote,
    as it is: that name with that address and that node.  So a claim and a PCI device that the claim's
    first owner names have the same address and the same node (what is bound is what
    was claimed), unless others gave the claim or the device its identity or the claim
    its owner.  What others write is not restricted. *)
Theorem objects_stay_named (c0 c : cluster) (Hfresh : fresh c0) (Hsteps : rtc cluster_step c0 c) :
  (forall ev p, ev ∈ snd (server c) -> p ∈ objects ev -> named p) /\
  (forall ev1 ev2 (claim : PCIDeviceClaim) (device : PCIDevice) owner rest,
     ev1 ∈ snd (server c) -> existT KPCIDeviceClaim claim ∈ objects ev1 ->
     ev2 ∈ snd (server c) -> existT KPCIDevice device ∈ objects ev2 ->
     m_OwnerReferences (pdc_meta claim) = Some (owner :: rest) -> or_Name owner = m_Name (pd_meta device) ->
     wf_address (pdc_Address (pdc_Spec claim)) = true -> wf_address (pd_Address (pd_Status device)) = true ->
     (pdc_Address (pdc_Spec claim) = pd_Address (pd_Status device) /\
      pdc_NodeName (pdc_Spec claim) = pd_NodeName (pd_Status device)) \/
     said_by_others claim device).
Proof.
  destruct (reachable_ok c0 c Hsteps (fresh_ok c0 Hfresh)) as [[_ Hlog] _].
  assert (forall ev p, ev ∈ snd (server c) -> p ∈ objects ev -> named p) as Hnamed.
  { intros ev p Hev Hp. eapply Forall_forall in Hlog; [|exact Hev]. apply good_event_objects in Hlog.
    by eapply Forall_forall in Hlog. }
  split; [done|]. intros ev1 ev2 claim device owner rest H1' Hc H2' Hd Ho Hn W1 W2.
  eapply well_named_claim; [exact (Hnamed _ _ H1' Hc)|exact (Hnamed _ _ H2' Hd)|done..].
Qed.
End Cluster.

(** ** The simulated node is such a surrounding, whatever others say *)
Section Simulated.
Context `{Others}.
Definition sim_named (w : sim) : Prop :=
  forall k n (o : Obj k), sim_store w k !! n = Some o -> well_named k o /\ name_of o = n.

Lemma sim_named_empty : sim_named sim_empty.
Proof. intros k n o. cbn. by rewrite lookup_empty. Qed.
Lemma sim_named_put k o w : well_named k o -> sim_named w -> sim_named (put k o w).
Proof.
  intros Ho Hw k' n o'. cbn. destruct (decide (k = k')) as [<-|]; [|apply Hw]. cbn.
  rewrite lookup_insert_Some. intros [[<- <-]|[_ Hl]]; [done|by apply Hw].
Qed.
Lemma sim_named_del k n w : sim_named w -> sim_named (del k n w).
Proof.
  intros Hw k' n' o'. cbn. destruct (decide (k = k')); [|apply Hw]. rewrite lookup_delete_Some. intros [_ Hl]. by apply Hw.
Qed.
Lemma sim_named_store w w' : sim_named w -> sim_store w' = sim_store w -> sim_named w'.
Proof. intros Hw Heq k n o. rewrite Heq. apply Hw. Qed.
Lemma sim_write_store path data w : sim_store (sim_write path data w) = sim_store w.
Proof. unfold sim_write. by repeat match goal with |- context [match ?x with _ => _ end] => destruct x end. Qed.
Lemma sim_named_listed k sel w : sim_named w -> Forall (well_named k) (sim_listed k sel w).
Proof.
  intros Hw. apply Forall_forall. intros o Ho. apply list_elem_of_In, filter_In in Ho as [Ho _].
  apply list_elem_of_In, list_elem_of_fmap in Ho as ([n o'] & -> & Hin). apply elem_of_map_to_list in Hin.
  by destruct (Hw _ _ _ Hin).
Qed.

(** The calls that change no object answer nothing of interest. *)
Definition about_objects {X} (e : Eff X) : bool :=
  match e with
  | ApiGet _ _ _ | ApiList _ _ _ | ApiCreate _ _ | ApiUpdate _ _ | ApiUpdateStatus _ _ | ApiDelete _ _
  | CacheGet _ _ _ | CacheList _ _ | CacheByIndex _ _ _ | CacheWrite _ _ => true
  | _ => false
  end.
Lemma sim_other_store X (e : Eff X) (w : sim) :
  about_objects e = false -> sim_store (snd (perform e w)) = sim_store w.
Proof.
  destruct e; intros He; try discriminate He; cbn [perform sim_world snd];
    try reflexivity; try apply sim_write_store; by destruct (sim_files w !! path).
Qed.
Lemma other_answers X (e : Eff X) x : about_objects e = false -> answers e x.
Proof. by destruct e. Qed.

Lemma found_named k n w o : sim_named w -> found (sim_store w k !! n) = inr o -> well_named k o /\ name_of o = n.
Proof. intros Hw Hf. apply Hw. destruct (sim_store w k !! n) as [o'|]; [by injection Hf as ->|discriminate Hf]. Qed.

#[export] Instance sim_guarded : Guarded any_call sim_named.
Proof.
  intros X e w r w' He _ Hw Hrun. destruct (about_objects e) eqn:Ho.
  - destruct e; try discriminate Ho; cbn [perform sim_world] in Hrun; cbn [allowed] in He; cbn [answers].
    + injection Hrun as <- <-. split; [done|]. destruct (found _) eqn:E; [done|]. by apply found_named in E.
    + injection Hrun as <- <-. split; [done|]. by apply sim_named_listed.
    + destruct (sim_store w k !! name_of o); injection Hrun as <- <-; [done|]. by split; [apply sim_named_put|].
    + destruct (sim_store w k !! name_of o); injection Hrun as <- <-; [|done]. by split; [apply sim_named_put|].
    + destruct (sim_store w k !! name_of o); injection Hrun as <- <-; [|done]. by split; [apply sim_named_put|].
    + destruct (sim_store w k !! name); injection Hrun as <- <-; [|done]. by split; [apply sim_named_del|].
    + injection Hrun as <- <-. split; [done|]. destruct (found _) eqn:E; [done|]. by apply found_named in E.
    + injection Hrun as <- <-. split; [done|]. by apply sim_named_listed.
    + injection Hrun as <- <-. split; [done|]. apply Forall_forall. intros o Hin.
      apply list_elem_of_omap in Hin as (n & _ & Hn). by destruct (Hw _ _ _ Hn).
    + injection Hrun as <- <-. by split; [apply sim_named_put|].
  - split; [|destruct r; [done|by apply other_answers]]. apply (sim_named_store w); [done|].
    rewrite <- (sim_other_store X e w Ho). by rewrite Hrun.
Qed.

End Simulated.

(** Others who say everything may have written any object. *)
Lemma anything_goes (w : sim) :
  (forall k n (o : Obj k), sim_store w k !! n = Some o -> name_of o = n) -> @sim_named (fun _ => True) w.
Proof.
  intros Hw k n o Ho. split; [|by apply Hw]. destruct k; try exact I; cbn; try (by right; right); [|by right].
  split; [by right; right|]. unfold first_owner. repeat case_match; try done. by right.
Qed.

(** ** A device from its discovery to its claim

    Among the objects is the claim of the README, which is not named after its device. *)
#[local] Instance readme : Others := fun f =>
  match f with names name address node => name = "pcideviceclaim-sample" /\ address = "00:1f.6" /\ node = "titan" | _ => False end.
Definition readme_claim : PCIDeviceClaim :=
  {| pdc_meta := new_meta "pcideviceclaim-sample" ∅ ∅;
     pdc_Spec := {| pdc_Address := "00:1f.6"; pdc_NodeName := "titan"; pdc_UserName := "yuri";
                    pdc_DisableResourcePooling := false |};
     pdc_Status := {| pdc_KernelDriverToUnbind := "e1000e"; pdc_PassthroughEnabled := true |} |}.
Definition demo_objects : sim :=
  put KPCIDeviceClaim readme_claim (put KNode {| node_meta := new_meta "node1" ∅ ∅ |} (put KCoreNode {| cn_meta := new_meta "node1" ∅ ∅ |}
    (put KKubeVirt {| kv_meta := new_meta "kubevirt" ∅ ∅; kv_PermittedHostDevices := None |} sim_empty))).
Definition demo_node : sim :=
  {| sim_store := sim_store demo_objects;
     sim_index := ∅; sim_links := ∅;
     sim_files := list_to_map [("/proc/modules", "vfio_pci 1 0" +:+ newline +:+ "vfio_iommu_type1 1 0" +:+ newline);
       ("/sys/bus/pci/drivers/igbvf/0000:03:00.0", ""); ("/sys/bus/pci/drivers/igbvf/unbind", "");
       ("/sys/bus/pci/drivers/vfio-pci/new_id", ""); ("/sys/bus/pci/drivers/vfio-pci/bind", "")];
     sim_dirs := list_to_map [(pathToUSBDevices, []); ("/sys/kernel/iommu_groups", [("7", true)]);
       ("/sys/kernel/iommu_groups/7/devices", [("0000:03:00.0", false)])];
     sim_globs := ∅; sim_exec := ∅; sim_pci := [ghw_dev "0000:03:00.0" "03" "00"]; sim_nics := []; sim_netlinks := [];
     sim_nv := []; sim_locks := ∅; sim_queue := [] |}.
Definition demo_claim : PCIDeviceClaim :=
  {| pdc_meta := set_OwnerReferences
       (Some [{| or_APIVersion := ""; or_Kind := "PCIDevice"; or_Name := "node1-000003000"; or_UID := "" |}])
       (new_meta "node1-000003000" ∅ ∅);
     pdc_Spec := {| pdc_Address := "0000:03:00.0"; pdc_NodeName := "node1"; pdc_UserName := "admin";
                    pdc_DisableResourcePooling := false |};
     pdc_Status := {| pdc_KernelDriverToUnbind := ""; pdc_PassthroughEnabled := false |} |}.

(** What the process of the node does, and its start. *)
Definition process_of (c : cluster (W := sim)) : Process := default (new_process "node1") (procs c !! "node1").
Definition ran {A} (m : M Process (Logged sim) A) (c : cluster) : cluster :=
  at_node "node1" (snd (m (State (process_of c) (server c)))) c.
Definition started (c : cluster (W := sim)) : cluster :=
  at_node "node1" (snd (register_all ∅ false "node1" (fun _ => false) (State (new_process "node1") (server c)))) c.

(** The pass over the node creates the device's object; a user claims the device; the
    process is started again and lists both. *)
Definition demo_fresh : cluster := {| procs := ∅; server := (demo_node, []) |}.
Definition demo_passed : cluster :=
  ran (in_nodes "node1" (reconcileNodeDevices ∅ "node1" (Some {| node_meta := new_meta "node1" ∅ ∅ |}))) (started demo_fresh).
Definition demo_claimed : cluster :=
  {| procs := procs demo_passed; server := (put KPCIDeviceClaim demo_claim (fst (server demo_passed)), snd (server demo_passed)) |}.
Definition demo_restarted : cluster := started demo_claimed.

Lemma demo_node_named : sim_named demo_node.
Proof.
  apply (sim_named_store demo_objects); [|done]. unfold demo_objects.
  repeat (apply sim_named_put; [first [exact I|by split; [right; right|]]|]). apply sim_named_empty.
Qed.

#[local] Abbreviation demo_step := (cluster_step sim_named ∅ false (fun _ => false)).
Lemma demo_to_passed : rtc demo_step demo_fresh demo_passed.
Proof.
  apply (rtc_l _ _ (started demo_fresh)); [apply step_start|]. apply rtc_once. unfold demo_passed, ran.
  eapply step_callback; [by apply lookup_insert_eq|do 6 right; by left|].
  apply (handles_change _ KNode _ (fun name o => in_nodes "node1" (reconcileNodeDevices ∅ name o)) "node1").
  exists "node1", "", demo_node, demo_node. split; [apply demo_node_named|reflexivity].
Qed.

Lemma demo_fresh_ok : fresh sim_named demo_fresh.
Proof. split_and!; [done|apply demo_node_named|done]. Qed.
Lemma demo_claimed_named : sim_named (fst (server demo_claimed)).
Proof.
  apply sim_named_put; [by split; [right; left|left]|].
  apply (reachable_ok sim_named ∅ false (fun _ => false) _ _ demo_to_passed (fresh_ok _ _ demo_fresh_ok)).
Qed.
Lemma demo_to_restarted : rtc demo_step demo_fresh demo_restarted.
Proof.
  transitivity demo_passed; [apply demo_to_passed|]. eapply (rtc_l _ _ demo_claimed); [|apply rtc_once, step_start].
  apply step_outside, demo_claimed_named.
Qed.

Lemma objects_stay_named_witness :
  exists (c : cluster) (claim : PCIDeviceClaim) (device : PCIDevice),
    rtc demo_step demo_fresh c /\ pd_Address (pd_Status device) = "0000:03:00.0" /\
    pdc_Address (pdc_Spec claim) = pd_Address (pd_Status device).
Proof.
  destruct (snd (server demo_restarted) !! 35) as [ev2|] eqn:E2; [|by vm_compute in E2].
  destruct (snd (server demo_restarted) !! 34) as [ev1|] eqn:E1; [|by vm_compute in E1].
  assert (exists device : PCIDevice, objects ev2 = [existT KPCIDevice device] /\ m_Name (pd_meta device) = "node1-000003000" /\
    pd_Address (pd_Status device) = "0000:03:00.0") as (device & Hd & Hn & Ha).
  { vm_compute in E2. injection E2 as <-. eexists. split_and!; [cbn; reflexivity|reflexivity..]. }
  assert (existT KPCIDeviceClaim demo_claim ∈ objects ev1) as Hc.
  { vm_compute in E1. injection E1 as <-. cbn. by repeat (left || right). }
  exists demo_restarted, demo_claim, device. split_and!; [apply demo_to_restarted|done|].
  destruct (proj2 (objects_stay_named sim_named ∅ false (fun _ => false) _ _ demo_fresh_ok demo_to_restarted)
    ev1 ev2 demo_claim device {| or_APIVersion := ""; or_Kind := "PCIDevice"; or_Name := "node1-000003000"; or_UID := "" |} [])
    as [[Heq _]|[[Hbad _]|[[Hbad _]|[]]]].
  - by eapply list_elem_of_lookup_2.
  - exact Hc.
  - by eapply list_elem_of_lookup_2.
  - rewrite Hd. by left.
  - reflexivity.
  - by rewrite Hn.
  - reflexivity.
  - by rewrite Ha.
  - exact Heq.
  - discriminate Hbad.
  - rewrite Hn in Hbad. discriminate Hbad.
Defined.
