(* ===== verification/ClaimSafety.v ===== *)
(** * What a claim makes the program touch

    A claim names a device of the API by its first owner reference; the object of the
    device names the address that is written to sysfs.  Nothing compares that address with the
    claim's own: the callbacks of a claim touch the device of the owner reference and no
    other, and only when the objects are named after their devices, as the program names
    them, is this the device that the claim's specification names. *)

From S2P Require Import Prelude GoStrings GoMonad Types Effects PCIDeviceApi Iommu DevicePlugins ClaimController ClaimTheorems.
From S2P Require Import GoStringLemmas UsbIds Nodes System Cluster Sim.

(** ** The devices that a callback is given *)

(** The name of the first owner. *)
Definition owner_of (claim : PCIDeviceClaim) : option string :=
  match m_OwnerReferences (pdc_meta claim) with Some (o :: _) => Some (or_Name o) | _ => None end.

(** The event is an answer with a device: that of the first owner's name, or
    what the API server made of an update. *)
Definition hands (claim : PCIDeviceClaim) (ev : event) (d : PCIDevice) : Prop :=
  match ev with
  | Ev e r =>
      match e in Eff X return (error + X) -> Prop with
      | ApiGet k _ n =>
          match k return (error + Obj k) -> Prop with
          | KPCIDevice => fun r => r = inr d /\ owner_of claim = Some n
          | _ => fun _ => False
          end
      | ApiUpdate k _ | ApiUpdateStatus k _ =>
          match k return (error + Obj k) -> Prop with
          | KPCIDevice => fun r => r = inr d
          | _ => fun _ => False
          end
      | _ => fun _ => False
      end r
  end.
Definition received (claim : PCIDeviceClaim) (evs : list event) (d : PCIDevice) : Prop :=
  exists ev, ev ∈ evs /\ hands claim ev d.

(** ** What may be done to them *)
Definition same_device (o d : PCIDevice) : Prop :=
  pd_name o = pd_name d /\ pd_address o = pd_address d /\ pd_NodeName (pd_Status o) = pd_NodeName (pd_Status d).

(** The drivers that matter to a device: vfio-pci, the one it runs with and the one it came with. *)
Definition drivers_of (d : PCIDevice) : list string :=
  vfioPCIDriver :: pd_KernelDriverInUse (pd_Status d) :: option_list (pd_annotation d PciDeviceDriver).
Definition driver_file (d : PCIDevice) (path : string) : Prop :=
  exists driver, driver ∈ drivers_of d /\
    (path = "/sys/bus/pci/drivers/" +:+ driver +:+ "/bind" \/ path = "/sys/bus/pci/drivers/" +:+ driver +:+ "/unbind").

Section Own.
Context (claim : PCIDeviceClaim) (Dev : PCIDevice -> Prop).

(** A call that changes something: for one of the devices [Dev], or on the claim. *)
Definition own_call {X} (e : Eff X) : Prop :=
  match e with
  | FsWrite path data => exists d, Dev d /\
      (driver_file d path /\ data = pd_address d \/
       path = new_id_file /\ data = pd_VendorID (pd_Status d) +:+ " " +:+ pd_DeviceID (pd_Status d))
  | ApiUpdate k o | ApiUpdateStatus k o =>
      match k return Obj k -> Prop with
      | KPCIDevice => fun o => exists d, Dev d /\ same_device o d
      | KPCIDeviceClaim => fun c => pdc_meta c = pdc_meta claim /\ pdc_Spec c = pdc_Spec claim
      | KKubeVirt => fun o => exists kv d, Dev d /\ o = reconcileKubevirtCR kv d
      | _ => fun _ => False
      end o
  | ApiCreate _ _ | ApiDelete _ _ | CacheWrite _ _ | FsWriteFile _ _ => False
  | _ => True
  end.
Definition own_event (ev : event) : Prop := match ev with Ev e _ => own_call e end.
End Own.

(** ** Triples

    [acts C Q m]: the calls of [m] are the claim's own and its answer is as [Q] tells, if
    [C] holds and the devices handed over are among [Dev]. *)
Section Rules.
Context (claim : PCIDeviceClaim) (Dev : PCIDevice -> Prop) {Mem W : Type} `{World W}.
#[local] Abbreviation M := (M Mem (Logged W)).

Definition acts {A} (C : Prop) (Q : A -> Prop) (m : M A) : Prop :=
  forall s, exists evs, log_of (snd (m s)) = log_of s ++ evs /\
    (C -> (forall ev d, ev ∈ evs -> hands claim ev d -> Dev d) ->
     Forall (own_event claim Dev) evs /\ forall a, fst (m s) = Ok a -> Q a).
Definition anything {A} : A -> Prop := fun _ => True.

(** A part that makes no call. *)
Lemma acts_silent {A} C (Q : A -> Prop) (m : M A) :
  (forall s, log_of (snd (m s)) = log_of s) -> (forall s a, C -> fst (m s) = Ok a -> Q a) -> acts C Q m.
Proof.
  intros Hlog HQ s. exists []. rewrite app_nil_r. split; [done|]. intros HC _. split; [constructor|]. intros a. by apply HQ.
Qed.
Lemma acts_ret {A} (C : Prop) (Q : A -> Prop) a : (C -> Q a) -> acts C Q (ret a).
Proof. intros HQ. apply acts_silent; [done|]. intros s b HC [= <-]. auto. Qed.
Lemma acts_fail {A} C (Q : A -> Prop) e : acts C Q (fail e).
Proof. by apply acts_silent. Qed.
Lemma acts_panic {A} C (Q : A -> Prop) p : acts C Q (panic p).
Proof. by apply acts_silent. Qed.
Lemma acts_get_mem C : acts C anything get_mem.
Proof. by apply acts_silent. Qed.
Lemma acts_modify_mem C f : acts C anything (modify_mem f).
Proof. by apply acts_silent. Qed.
Lemma acts_lift_o {A} C (o : outcome A) : acts C anything (lift_o o).
Proof. by apply acts_silent. Qed.

(** A call: its answer is of interest when it hands over a device. *)
Lemma acts_eff {X} (C : Prop) (Q : X -> Prop) (e : Eff X) :
  (C -> own_call claim Dev e) -> (forall x, C -> (forall d, hands claim (Ev e (inr x)) d -> Dev d) -> Q x) -> acts C Q (eff e).
Proof.
  intros He HQ s. destruct (eff_log e s) as (r & w' & _ & ->). exists [Ev e r]. split; [done|].
  intros HC Hd. split; [apply Forall_singleton; exact (He HC)|]. destruct r as [er|x]; [done|]. intros y [= <-]. apply HQ; [done|].
  intros d Hh. eapply Hd; [by left|exact Hh].
Qed.

Lemma acts_bind {A B} (C : Prop) (P : A -> Prop) (Q : B -> Prop) (m : M A) (f : A -> M B) :
  acts C P m -> (forall a, acts (C /\ P a) Q (f a)) -> acts C Q (bind m f).
Proof.
  intros Hm Hf s. unfold bind. destruct (Hm s) as (evs & Hl & Hown). destruct (m s) as [[a|e|p] s1]; cbn in *.
  - destruct (Hf a s1) as (evs' & Hl' & Hown'). exists (evs ++ evs'). rewrite Hl', Hl, app_assoc. split; [done|].
    intros HC Hd. destruct Hown as [H1 HP]; [done|intros ev d Hev; apply Hd; rewrite elem_of_app; auto|].
    destruct Hown' as [H2 HQ]; [auto|intros ev d Hev; apply Hd; rewrite elem_of_app; auto|].
    split; [by apply Forall_app|done].
  - exists evs. split; [done|]. intros HC Hd. by destruct (Hown HC Hd).
  - exists evs. split; [done|]. intros HC Hd. by destruct (Hown HC Hd).
Qed.
Lemma acts_weaken {A} (C C' : Prop) (P Q : A -> Prop) (m : M A) :
  acts C P m -> (C' -> C) -> (forall a, P a -> Q a) -> acts C' Q m.
Proof.
  intros Hm HC HPQ s. destruct (Hm s) as (evs & Hl & Hown). exists evs. split; [done|]. intros HC' Hd.
  destruct (Hown (HC HC') Hd) as [H1 H2]. split; [done|]. auto.
Qed.
(** What comes after a part of which nothing is to be known. *)
Lemma acts_then {A B} C (Q : B -> Prop) (m : M A) (f : A -> M B) :
  acts C anything m -> (forall a, acts C Q (f a)) -> acts C Q (bind m f).
Proof. intros Hm Hf. apply (acts_bind _ anything); [done|]. intros a. by eapply acts_weaken; [apply Hf|intros []|]. Qed.
Lemma acts_try {A} C (m : M A) : acts C anything m -> acts C anything (try m).
Proof.
  intros Hm s. destruct (Hm s) as (evs & Hl & Hown). exists evs. unfold try. destruct (m s) as [[a|e|p] s1]; cbn in *;
    (split; [done|]; intros HC Hd; by destruct (Hown HC Hd)).
Qed.
(** The error as a value: what is known of the answer holds when there is one. *)
Lemma acts_try_answer {A} C (P : A -> Prop) (m : M A) :
  acts C P m -> acts C (fun r => forall a, r = inr a -> P a) (try m).
Proof.
  intros Hm s. destruct (Hm s) as (evs & Hl & Hown). exists evs. unfold try. destruct (m s) as [[a|e|p] s1]; cbn in *;
    (split; [done|]; intros HC Hd; destruct (Hown HC Hd) as [H1 H2]; split; [done|]; intros r [= <-] a' Ha'; try done).
  injection Ha' as <-. by apply H2.
Qed.
Lemma acts_on_err {A} C w (Q : A -> Prop) (m : M A) : acts C Q m -> acts C Q (on_err w m).
Proof.
  intros Hm s. destruct (Hm s) as (evs & Hl & Hown). exists evs. unfold on_err. destruct (m s) as [[a|e|p] s1]; cbn in *;
    (split; [done|]; intros HC Hd; destruct (Hown HC Hd) as [H1 H2]; split; [done|]; auto; done).
Qed.
Lemma acts_with_lock {A} C l (Q : A -> Prop) (m : M A) : acts C Q m -> acts C Q (with_lock l m).
Proof.
  intros Hm. unfold with_lock. apply acts_then; [by apply acts_eff|]. intros _ s. unfold defer.
  destruct (Hm s) as (evs & Hl & Hown). destruct (m s) as [o s1]. cbn in *.
  destruct (eff_log (LockRelease l) s1) as (r & w' & _ & ->). cbn. exists (evs ++ [Ev (LockRelease l) r]).
  rewrite Hl, app_assoc. split; [done|]. intros HC Hd.
  destruct Hown as [H1 H2]; [done|intros ev d Hev; apply Hd; rewrite elem_of_app; auto|]. split; [|done].
  apply Forall_app. split; [done|]. by repeat constructor.
Qed.
Lemma acts_for_each {A} C (f : A -> M unit) l : (forall x, acts C anything (f x)) -> acts C anything (for_each f l).
Proof.
  intros Hf. induction l as [|x l IH]; cbn [for_each]; [by apply acts_ret|]. apply acts_then; [done|]. by intros _.
Qed.
Lemma acts_fold_m {A B} C (f : B -> A -> M B) b l :
  (forall b x, acts C anything (f b x)) -> acts C anything (fold_m f b l).
Proof.
  intros Hf. revert b. induction l as [|x l IH]; intros b; cbn [fold_m]; [by apply acts_ret|]. by apply acts_then.
Qed.
End Rules.

(** A call that is not restricted, or one whose restriction follows from what is known. *)
Create HintDb own.
Ltac own_tac :=
  repeat first
    [ solve [eauto with own]
    | lazymatch goal with
      | |- acts _ _ _ _ (ret _) => apply acts_ret; try done
      | |- acts _ _ _ _ (fail _) => apply acts_fail
      | |- acts _ _ _ _ (panic _) => apply acts_panic
      | |- acts _ _ _ _ get_mem => apply acts_get_mem
      | |- acts _ _ _ _ (modify_mem _) => apply acts_modify_mem
      | |- acts _ _ _ _ (lift_o _) => apply acts_lift_o
      | |- acts _ _ _ _ (eff _) => apply acts_eff; [try (by intros)|try (by intros)]
      | |- acts _ _ _ _ (bind _ _) => apply acts_then; [|let a := fresh "a" in intros a]
      | |- acts _ _ _ _ (try _) => apply acts_try
      | |- acts _ _ _ _ (on_err _ _) => apply acts_on_err
      | |- acts _ _ _ _ (with_lock _ _) => apply acts_with_lock
      | |- acts _ _ _ _ (for_each _ _) => apply acts_for_each; let x := fresh "x" in intros x
      | |- acts _ _ _ _ (fold_m _ _ _) => apply acts_fold_m; intros ? ?
      | |- acts _ _ _ _ (match ?x with _ => _ end) => let E := fresh "E" in destruct x eqn:E
      end ].

(** ** The handlers of claims *)
Section Handlers.
Context `{External} {W : Type} `{World W} (claim : PCIDeviceClaim) (Dev : PCIDevice -> Prop).
#[local] Abbreviation owned := (acts claim Dev (Mem := Handler) (W := W)).

Lemma write_driver (C : Prop) d driver path :
  (C -> Dev d) -> driver ∈ drivers_of d -> path = "/bind" \/ path = "/unbind" ->
  C -> own_call claim Dev (FsWrite ("/sys/bus/pci/drivers/" +:+ driver +:+ path) (pd_address d)).
Proof.
  intros Hd Hin Hpath HC. exists d. split; [auto|]. left. split; [|done]. exists driver. split; [done|].
  destruct Hpath as [-> | ->]; auto.
Qed.
Lemma vfio_driver d : vfioPCIDriver ∈ drivers_of d.
Proof. by left. Qed.
Lemma running_driver d : pd_KernelDriverInUse (pd_Status d) ∈ drivers_of d.
Proof. by right; left. Qed.
Lemma original_driver d driver : pd_annotation d PciDeviceDriver = Some driver -> driver ∈ drivers_of d.
Proof. intros Hd. unfold drivers_of. rewrite Hd. by right; right; left. Qed.
#[local] Hint Resolve vfio_driver running_driver original_driver : own.

Lemma own_unbind C d driver : (C -> Dev d) -> driver ∈ drivers_of d -> owned C anything (unbindDeviceFromDriver (pd_address d) driver).
Proof.
  intros Hd Hin. unfold unbindDeviceFromDriver, deviceBoundToDriver. own_tac.
  rewrite app_assoc_str. eapply write_driver; eauto.
Qed.
#[local] Hint Resolve own_unbind : own.

(** The device, written back with another status. *)
Lemma own_status (C : Prop) d driver :
  (C -> Dev d) -> C -> own_call claim Dev (ApiUpdateStatus KPCIDevice (set_pd_status (set_KernelDriverInUse driver (pd_Status d)) d)).
Proof. intros Hd HC. exists d. by split; [auto|]. Qed.
#[local] Hint Resolve own_status : own.

Lemma own_attempt C d c : (C -> Dev d) -> owned C anything (attemptToEnablePassthrough d c).
Proof.
  intros Hd. unfold attemptToEnablePassthrough, enablePassthrough, bindDeviceToVFIOPCIDriver, deviceBoundToDriver. own_tac.
  - intros HC. exists d. split; [auto|]. by right.
  - apply (write_driver C d vfioPCIDriver "/bind"); auto with own.
Qed.
#[local] Hint Resolve own_attempt : own.

Lemma own_disable C d : (C -> Dev d) -> owned C anything (disablePassthrough d).
Proof.
  intros Hd. unfold disablePassthrough, bindDeviceToOriginalDriver, deviceBoundToDriver. own_tac.
  rewrite app_assoc_str. eapply write_driver; eauto with own.
Qed.
#[local] Hint Resolve own_disable : own.

Lemma own_device C : owned C Dev (getPCIDeviceForClaim claim).
Proof.
  unfold getPCIDeviceForClaim. destruct (m_OwnerReferences (pdc_meta claim)) as [[|o rest]|] eqn:Howner; [own_tac..| |own_tac].
  apply acts_eff; [done|]. intros d _ Hd. apply Hd. cbn. split; [done|]. unfold owner_of. by rewrite Howner.
Qed.

Lemma own_individual C d : (C -> Dev d) -> owned C Dev (ensureIndividualDeviceResourceName d).
Proof.
  intros Hd. unfold ensureIndividualDeviceResourceName. apply (acts_bind _ _ _ Dev).
  - apply acts_eff; [intros HC; exists d; by split; [auto|]|]. intros d' _ Hd'. by apply Hd'.
  - intros d'. apply acts_eff; [intros [_ Hd']; by exists d'|]. intros d2 _ Hd2. by apply Hd2.
Qed.

Lemma own_cleanup C d : (C -> Dev d) -> owned C anything (cleanupIndividualDeviceResourceName d).
Proof. intros Hd. unfold cleanupIndividualDeviceResourceName. own_tac. intros HC. exists d. by split; [auto|]. Qed.
#[local] Hint Resolve own_cleanup : own.

Lemma own_enable C d : (C -> Dev d) -> owned C anything (enable_claimed_device d claim).
Proof.
  intros Hd. unfold enable_claimed_device, permitHostDeviceInKubeVirt, add_to_plugin, store_plugin. own_tac.
  intros HC. do 2 eexists. split; [by apply Hd|done].
Qed.

Lemma own_check C d : owned C anything (checkGroupMap d).
Proof. unfold checkGroupMap, GetGroupMap, GroupPaths, group_devices. own_tac. Qed.
#[local] Hint Resolve own_check : own.
Lemma own_modules C : owned C anything checkVFIOModules.
Proof. unfold checkVFIOModules, checkModulesExists. own_tac. Qed.
#[local] Hint Resolve own_modules : own.
Lemma own_load C : owned C anything loadVfioDrivers.
Proof. unfold loadVfioDrivers. own_tac. Qed.
#[local] Hint Resolve own_load : own.

Lemma own_reconcile C : owned C anything (reconcilePCIDeviceClaims (Some claim)).
Proof.
  unfold reconcilePCIDeviceClaims. apply acts_then; [own_tac|]. intros h. destruct (_ || _); [own_tac|].
  apply acts_then; [own_tac|]. intros found. destruct (negb found); [own_tac|].
  apply (acts_bind _ _ _ Dev); [apply own_device|]. intros d. apply acts_then; [own_tac|]. intros [].
  apply (acts_bind _ _ _ Dev).
  - destruct (pdc_DisableResourcePooling _); [apply acts_on_err, own_individual|apply acts_ret]; by intros [].
  - intros d'. apply acts_with_lock, own_enable. by intros [].
Qed.

Lemma own_plugin C name c : owned C anything (remove_from_plugin name c).
Proof. unfold remove_from_plugin, store_plugin, Stop, DevicePlugins.cleanup. own_tac. Qed.
#[local] Hint Resolve own_plugin : own.

Lemma own_remove C : owned C anything (OnRemove (Some claim)).
Proof.
  unfold OnRemove. destruct (negb _); [own_tac|]. apply acts_then; [own_tac|]. intros h. destruct (_ !=s _); [own_tac|].
  apply (acts_bind _ _ _ (fun r => forall d, r = inr d -> Dev d)); [apply acts_try_answer, own_device|].
  intros [e|d]; [own_tac|]. assert (C /\ (forall d', inr d = inr d' :> error + PCIDevice -> Dev d') -> Dev d) as Hd
    by (intros [_ Hd]; by apply Hd).
  own_tac.
Qed.
End Handlers.

(** ** The callbacks *)

(** The objects are named as the program names them: the claim after its address and node,
    its first owner like the claim, and the device that it is given after the device's address
    and node, under the owner's name. *)
Definition claims_by_name (claim : PCIDeviceClaim) (evs : list event) : Prop :=
  wf_address (pdc_Address (pdc_Spec claim)) = true /\
  m_Name (pdc_meta claim) = PCIDeviceNameForHostname (pdc_Address (pdc_Spec claim)) (pdc_NodeName (pdc_Spec claim)) /\
  owner_of claim = Some (m_Name (pdc_meta claim)) /\
  forall d, received claim evs d -> wf_address (pd_address d) = true /\ Some (pd_name d) = owner_of claim /\
    pd_name d = PCIDeviceNameForHostname (pd_address d) (pd_NodeName (pd_Status d)).

(** What is written to the files of the drivers, identifiers of new devices apart, is the
    address of the claim. *)
Definition binds_claimed (claim : PCIDeviceClaim) (ev : event) : Prop :=
  match ev with
  | Ev e _ => match e with
              | FsWrite path data => path = new_id_file \/ data = pdc_Address (pdc_Spec claim)
              | _ => True
              end
  end.

Lemma named_binds_claimed claim evs :
  claims_by_name claim evs -> Forall (own_event claim (received claim evs)) evs -> Forall (binds_claimed claim) evs.
Proof.
  intros (Wc & Hc & Howner & Hdev) Hown. eapply Forall_impl; [exact Hown|]. intros [X e r] He. destruct e; try done.
  destruct He as (d & Hd & [[_ ->]|[-> _]]); [|by left]. right. destruct (Hdev d Hd) as (Wd & Hn & Hnd).
  rewrite Howner in Hn. injection Hn as Hn. rewrite Hnd, Hc in Hn. by apply PCIDeviceNameForHostname_inj in Hn as [_ ->].
Qed.

Definition keeps_to_claim {Mem W} (claim : PCIDeviceClaim) (s s' : state Mem (Logged W)) : Prop :=
  exists evs, log_of s' = log_of s ++ evs /\ Forall (own_event claim (received claim evs)) evs /\
    (claims_by_name claim evs -> Forall (binds_claimed claim) evs).

Section Callbacks.
Context `{External} `{MapOrder} {W : Type} `{World W} (Vendors : gmap Z Vendor) (get_returns_empty : bool).

(** Given the claim, the callback keeps to it, if it is one for claims. *)
Definition own_callback (claim : PCIDeviceClaim) (s : state Process (Logged W)) (r : @registration (Logged W)) : Prop :=
  match r with
  | OnChange k _ f | OnRemoved k _ f =>
      match k return (string -> option (Obj k) -> M Process (Logged W) (option (Obj k))) -> Prop with
      | KPCIDeviceClaim => fun f => forall key, keeps_to_claim claim s (snd (f key (Some claim) s))
      | _ => fun _ => True
      end f
  | WatchClusterScoped _ _ _ _ => True
  end.

Lemma own_keeps {A} claim (m : M Handler (Logged W) A) (s : state Process (Logged W)) :
  (forall Dev, acts claim Dev True anything m) -> keeps_to_claim claim s (snd (in_claims m s)).
Proof.
  intros Hm. unfold in_claims, with_mem. set (s1 := State (pr_claims (mem s)) (world s)).
  assert (exists evs, log_of (snd (m s1)) = log_of s1 ++ evs /\ Forall (own_event claim (received claim evs)) evs)
    as (evs & Hl & Hown).
  { destruct (Hm (fun _ => True) s1) as (evs & Hl & _). exists evs. split; [done|].
    destruct (Hm (received claim evs) s1) as (evs' & Hl' & Hown). rewrite Hl in Hl'. apply app_inv_head in Hl' as <-.
    apply Hown; [done|]. intros ev d Hev Hd. by exists ev. }
  destruct (m s1) as [o s2]. exists evs. cbn in *. split_and!; [done|done|]. intros Hn. by apply named_binds_claimed.
Qed.

(** C4: what a claim lets the program touch.  A callback that is given a claim, a change or a removal,
    in whatever state of the process and of its surroundings and whatever it is answered, writes to sysfs only the
    address of the device that the claim's first owner names (as the API server answered), and
    only to the bind and unbind files of vfio-pci and of the device's own drivers, or its identifiers to vfio-pci's list;
    it changes no objects but that device's, with its identity, the claim's own, with its specification,
    and KubeVirt's, in which it permits that device; it creates and deletes none.  When claim, owner and device
    are named as the program names them, the address is the one in the claim's specification.  No
    code compares the two. *)
Theorem claims_touch_their_device (claim : PCIDeviceClaim) (node : string) (s : state Process (Logged W)) :
  Forall (own_callback claim s) (callbacks Vendors get_returns_empty node).
Proof.
  unfold callbacks. cbn [claim_callbacks usb_callbacks node_callbacks sriov_callbacks gpu_callbacks vm_callbacks app].
  repeat (apply Forall_cons; split); [..|constructor]; cbn [own_callback]; try exact I; intros key; apply own_keeps; intros Dev;
    [apply own_remove|apply own_reconcile].
Qed.
End Callbacks.

(** ** The claim of the demonstration, and one that strays *)
Definition writes (path data : string) (ev : event) : bool :=
  match ev with
  | Ev e _ => match e with FsWrite p d => (p ==s path) && (d ==s data) | _ => false end
  end.
Definition bound_by (claim : PCIDeviceClaim) (data : string) : bool :=
  let s := State (process_of demo_restarted) (server demo_restarted) in
  existsb (writes "/sys/bus/pci/drivers/vfio-pci/bind" data) (log_of (snd (in_claims (reconcilePCIDeviceClaims (Some claim)) s))).

(** It asks for 0000:05:00.0, and its owner is the device at 0000:03:00.0. *)
Definition stray_claim : PCIDeviceClaim :=
  {| pdc_meta := pdc_meta demo_claim;
     pdc_Spec := {| pdc_Address := "0000:05:00.0"; pdc_NodeName := "node1"; pdc_UserName := "admin";
                    pdc_DisableResourcePooling := false |};
     pdc_Status := pdc_Status demo_claim |}.

Example demo_claim_bound : bound_by demo_claim "0000:03:00.0" = true.
Proof. by vm_compute. Qed.
(** The device of the owner is bound, which the claim did not ask for. *)
Example stray_claim_binds_owner : bound_by stray_claim "0000:03:00.0" = true /\ bound_by stray_claim "0000:05:00.0" = false.
Proof. split; by vm_compute. Qed.

Lemma claims_touch_their_device_witness :
  let s := State (process_of demo_restarted) (server demo_restarted) in
  keeps_to_claim demo_claim s (snd (in_claims (reconcilePCIDeviceClaims (Some demo_claim)) s)) /\
  keeps_to_claim stray_claim s (snd (in_claims (reconcilePCIDeviceClaims (Some stray_claim)) s)).
Proof.
  intros s. split.
  - pose proof (claims_touch_their_device ∅ false demo_claim "node1" s) as Hall.
    apply Forall_cons in Hall as [_ Hall]. apply Forall_cons in Hall as [Hown _]. exact (Hown "").
  - pose proof (claims_touch_their_device ∅ false stray_claim "node1" s) as Hall.
    apply Forall_cons in Hall as [_ Hall]. apply Forall_cons in Hall as [Hown _]. exact (Hown "").
Defined.
